(* ===== verification/_CoqProject ===== *)
-Q . S2P
Prelude.v
Io.v
Pmm.v
Heap.v
Vmm.v
Sched.v
Pci.v
Net.v
Fat32.v
Ring.v
Input.v
InputSafety.v
Vga.v
Windows.v
Desktop.v
Services.v
FileOps.v
Launcher.v
Gui.v
Daemons.v
Syscalls.v
Sync.v
Console.v
Interrupts.v
Stubs.v
Boot.v
Start.v
Audio.v
Ahci.v
AhciNew.v
Kernel.v
System.v
Running.v
Frozen.v
