(* ===== verification/Prelude.v ===== *)
(** * Verification of the .C OS kernel

    The sources are a small x86-64 kernel in C, with a few assembly files.  A
    boot loader enters [_start] ([src/boot.asm]), which switches to long mode
    and calls [kernel_main] ([src/kernel.c]); this starts the memory managers,
    the scheduler, the drivers and the desktop, creates the tasks and then
    yields to them.  Every file keeps its state in static variables
    and is used through functions.  This library models each file as a record
    of its static variables and one definition per function, and proves what
    the functions do.

    ** How the code is modelled

    Integers are [Z] with the wrap-around of their width written out ([u8],
    [u16], [u32], [u64], [s8], [s32]); [int] sums that may overflow are
    checked ([Vga.int_of]).  Arrays are lists with checked accesses ([aget],
    [aset], [put], [load]): an access outside of an array has no result.
    Pointers into static arrays are indices; pointers to strings are the
    characters, or addresses where identity matters ([FileOps]).  A function
    is a state transformation in the option monad, where [None] is undefined
    behaviour, or a computation of the monad [io] of file [Io], which adds
    devices and loops without a bound: [Ok], [Undef], or [NoFuel] when the
    bound on the rounds of a loop is used up.  Devices are interfaces ([PortIO],
    [Mmio], [Nic], [InputDevice], [ConfigSpace], [BlockDevice]), and the
    theorems hold for all their instances.  Assembly
    files are lists of instructions with an execution function.  Log lines are
    left out, except in [Console], [Syscalls] and the panic handler of
    [Kernel]; but where a line prints with [%s] a pointer that may be NULL or
    dangling and that nothing before has read, the read of the string is kept
    ([kstrlen]): titles of windows and notifications, and what a program passes
    to a system call.  Task names and paths are strings.  Where standard C
    leaves open what GCC, with which the kernel is built, defines (shifts of a
    signed integer into its sign), the model follows GCC.

    ** The files

    - [Prelude]: machine integers, bits, arrays, strings, first match in a list,
      tactics.
    - [Io]: the monad, its loops and rules ([safe], [total], [defined]), ports.
    - [Pmm] ([src/pmm.c]): frame bitmap.  Refinement of a set of free frames,
      with sessions of allocations that never overlap.
    - [Heap] ([src/heap.c]): slab caches and buddy blocks.  Allocations are
      disjoint, refine an abstract heap, and freeing is exact.
    - [Vmm] ([src/vmm.c]): page tables and mapping list.
    - [Sched] ([src/scheduler.c], [src/context_switch.asm]): tasks in a queue,
      refined to a queue of slots; round robin; the context switch resumes a
      task where it left; what happens when tasks end.
    - [Pci] (PCI part of [src/audio.c]): search of the configuration space.
    - [Net] ([src/network.c]): network card, ARP, IP, UDP, DHCP.  Safety on
      every frame, decoding of options, what is sent.
    - [Fat32] ([src/fat32.c]): file system over any reader of sectors.
    - [Ring], [Input] ([src/keyboard.c], [src/mouse.c], [src/usb.c]): queues
      and input devices; [InputSafety]: their invariant under all calls.
    - [Vga] ([src/vga.c]), [Windows] ([src/window_manager.c]), [Desktop]
      ([src/clipboard.c], [src/notifications.c], [src/control_center.c]),
      [FileOps] ([src/file_ops.c]), [Launcher] ([src/app_launcher.c]), [Gui]
      ([src/gui.c]): the desktop.  [Gui.desktop_t] composes them with the
      scheduler; its well-formedness is kept by all operations.
    - [Services] ([src/services.c]): the 200 service tasks and the spooler.
    - [Syscalls] ([src/syscalls.c], [src/syscall_entry.asm]), [Sync]
      ([src/sync.c]), [Console] ([src/serial.c], [kprintf]), [Interrupts]
      ([src/interrupts.c]), [Audio] (rest of [src/audio.c]), [Ahci]
      ([src/ahci.c]), [AhciNew] ([src/ahci_new.c]).
    - [Stubs] ([src/isr_stubs.asm]): from the delivery of an interrupt by the
      processor through the stubs to [isr_handler] and back.
    - [Boot]: the memory map of the boot loader and the start of [Pmm].
    - [Start] ([src/boot.asm], [src/gdt.asm], [src/multiboot2.h]): header,
      segment table, and the instructions from [_start] through the far jump and
      the segment loads of the 64-bit code to the [call] of [kernel_main].
    - [Kernel]: the rest of [src/kernel.c]: start of desktop and tasks, main
      loop, shell, panic.
    - [System]: all components in one state; [kernel_main] in the order of its
      calls.  [Daemons]: what the rounds of the services keep.  [Running]: the
      rounds of the loop, the shell and the services, interrupts, system calls
      (with the registers they return and the interrupt flag that [sysretq]
      takes from R11) and exits as a step relation.  [Frozen]: what the end of a task does.

    ** What the theorems show

    Refinements of abstract specifications: frames as a set ([Pmm]), blocks
    ([Heap]), mappings ([Vmm]), a queue of tasks ([Sched], [Services]), bounded
    queues ([Ring]), open files ([Fat32]), a stack of windows ([Windows]), a
    list of files ([FileOps]), a line editor ([Kernel]).  Round trips: page and
    context switches, DHCP options, file names, interrupted registers, disk
    commands.  Invariants and safety under every sequence of operations: frame
    sessions, disjoint allocations, network input, keyboard and mouse, the
    desktop, mutual exclusion of the spin lock under all interleavings.  The
    whole: [Start.boot_enters_kernel] brings the processor to [kernel_main],
    with a null pointer for the memory map; [System.kernel_main_starts] takes
    the static variables to a well-formed running kernel; its steps keep it so
    ([Running.kernel_steps_safe]); a tick of the timer switches tasks
    ([Running.timer_tick_switches], by way of [Stubs]), until a task returns,
    after which nothing does ([Frozen.task_return_freezes]).  Termination: the walk
    over the boot tags returns exactly when the tags advance.  Functional
    behaviour of every branch: system calls, launching, reading files, drawing,
    input.  Some theorems state what the code does where it does not do what
    it means to: the names are [..._misroutes], [..._loses], [..._ties],
    [ahci_serves_no_port] and the like.

    ** Bounds and fuel

    Loops with a bound in the code are structural.  Loops that wait for a
    device or follow data have fuel; the theorems either hold for any fuel
    large enough, with the bound in the statement ([Boot], [Sched], [Fat32]),
    or cover every outcome but undefined behaviour ([Io.safe]).  The loop that
    fills the page tables in [Start] needs four rounds.  Queue walks of
    the scheduler use [queue_fuel], which exceeds the 256 task slots.

    ** Not modelled

    Timing (busy waits are their number of rounds), caches and reordering of
    memory accesses are outside of the model.  Interrupts come between the
    rounds of the loops and tasks: the only handler that is installed sets one
    flag.  The applications of the launcher only write a log line and
    return.  The stacks of the
    tasks and the memory of [Stubs] and [Start] are separate functions.  The
    strings of a system call are given with it, as what the memory of the
    program holds then, and what the C compiler leaves in RCX and R11 too; a
    call after which RCX is not the return address is not followed.  The number
    of characters that [kprintf] returns is part of [Console] only.
    [fat32_compare_entry_name] reads the extension of an entry past the eight
    bytes of its name field: the model reads the eleven bytes that lie there.
    Documents and the build output are left aside.

    ** Plan

    The stacks of the tasks in the memory that the stubs use, so that the
    registers of a task are followed through a switch inside an interrupted
    round; one device for all drivers instead of one each. *)

From Stdlib Require Export ZArith Lia.
From stdpp Require Export base numbers list list_numbers gmap strings fin_maps.

#[global] Open Scope Z_scope.

(** [lia] normalises divisions and remainders by literals. *)
Ltac Zify.zify_post_hook ::= Z.to_euclidean_division_equations.

(** ** Machine integers *)

(** Unsigned arithmetic of width [w] is arithmetic modulo [2^w]. *)
Definition wrap (w x : Z) : Z := x mod 2 ^ w.
Definition u8 (x : Z) : Z := wrap 8 x.
Definition u16 (x : Z) : Z := wrap 16 x.
Definition u32 (x : Z) : Z := wrap 32 x.
Definition u64 (x : Z) : Z := wrap 64 x.

(** Conversion to a two's complement integer of width [w]. *)
Definition swrap (w x : Z) : Z :=
  let y := wrap w x in if y <? 2 ^ (w - 1) then y else y - 2 ^ w.
Definition s8 (x : Z) : Z := swrap 8 x.
Definition s32 (x : Z) : Z := swrap 32 x.

Lemma wrap_range w x : 0 <= w -> 0 <= wrap w x < 2 ^ w.
Proof. intros; apply Z.mod_pos_bound; by apply Z.pow_pos_nonneg. Qed.

Lemma wrap_small w x : 0 <= x < 2 ^ w -> wrap w x = x.
Proof. apply Z.mod_small. Qed.

Lemma u8_range x : 0 <= u8 x < 256.
Proof. apply (wrap_range 8). lia. Qed.
Lemma u16_range x : 0 <= u16 x < 65536.
Proof. apply (wrap_range 16). lia. Qed.
Lemma u32_range x : 0 <= u32 x < 4294967296.
Proof. apply (wrap_range 32). lia. Qed.
Lemma u64_range x : 0 <= u64 x < 18446744073709551616.
Proof. apply (wrap_range 64). lia. Qed.

Lemma u8_small x : 0 <= x < 256 -> u8 x = x.
Proof. apply (wrap_small 8). Qed.
Lemma u16_small x : 0 <= x < 65536 -> u16 x = x.
Proof. apply (wrap_small 16). Qed.
Lemma u32_small x : 0 <= x < 4294967296 -> u32 x = x.
Proof. apply (wrap_small 32). Qed.
Lemma u64_small x : 0 <= x < 18446744073709551616 -> u64 x = x.
Proof. apply (wrap_small 64). Qed.

Lemma s8_range x : -128 <= s8 x <= 127.
Proof.
  unfold s8, swrap. pose proof (u8_range x) as H. unfold u8 in H.
  change (2 ^ (8 - 1)) with 128. change (2 ^ 8) with 256.
  destruct (Z.ltb_spec (wrap 8 x) 128); lia.
Qed.

Lemma s32_small x : 0 <= x < 2 ^ 31 -> s32 x = x.
Proof.
  intros Hx. unfold s32, swrap. rewrite wrap_small by lia.
  change (2 ^ (32 - 1)) with 2147483648. by rewrite (proj2 (Z.ltb_lt _ _)) by lia.
Qed.

(** ** Strings of the log

    The string that a pointer designates, without its terminator; [None] is a
    NULL pointer, or one to memory that cannot be read up to a terminator.
    Reading one of those, as [kprintf] does for [%s], is undefined. *)
Definition kstrlen (s : option (list Z)) : option Z := s ← s; Some (Z.of_nat (length s)).

Create HintDb cint.
#[export] Hint Resolve u8_range u16_range u32_range u64_range : cint.

(** Remove the wrap-around of every expression that [lia] shows to be in
    range. *)
Ltac nowrap :=
  repeat match goal with
  | |- context [u64 ?x] => rewrite (u64_small x) by lia
  | |- context [u32 ?x] => rewrite (u32_small x) by lia
  | |- context [u16 ?x] => rewrite (u16_small x) by lia
  | |- context [u8 ?x] => rewrite (u8_small x) by lia
  end.

Ltac nowrap_in H :=
  repeat match type of H with
  | context [u64 ?x] => rewrite (u64_small x) in H by lia
  | context [u32 ?x] => rewrite (u32_small x) in H by lia
  | context [u16 ?x] => rewrite (u16_small x) in H by lia
  | context [u8 ?x] => rewrite (u8_small x) in H by lia
  end.

(** Case analysis on the boolean comparisons of a goal or hypothesis. *)
Ltac case_cmp :=
  match goal with
  | |- context [Z.ltb ?a ?b] => destruct (Z.ltb_spec a b)
  | |- context [Z.leb ?a ?b] => destruct (Z.leb_spec a b)
  | |- context [Z.eqb ?a ?b] => destruct (Z.eqb_spec a b)
  end.

(** ** Single bits of a word *)

(** [w & (1 << b)] as a condition, [w | (1 << b)] and [w & ~(1 << b)] on
    words of [width] bits. *)
Definition bit_test (w b : Z) : bool := negb (Z.land w (Z.shiftl 1 b) =? 0).
Definition bit_set (w b : Z) : Z := Z.lor w (Z.shiftl 1 b).
Definition bit_clear (width w b : Z) : Z :=
  Z.land w (wrap width (Z.lnot (Z.shiftl 1 b))).

Lemma shiftl_1_testbit b i :
  0 <= b -> 0 <= i -> Z.testbit (Z.shiftl 1 b) i = (i =? b).
Proof.
  intros Hb Hi. rewrite Z.shiftl_1_l.
  destruct (Z.eqb_spec i b) as [->|Hne].
  - by apply Z.pow2_bits_true.
  - apply Z.pow2_bits_false. lia.
Qed.

Lemma bit_test_testbit w b : 0 <= b -> bit_test w b = Z.testbit w b.
Proof.
  intros Hb. unfold bit_test.
  destruct (Z.testbit w b) eqn:E; destruct (Z.eqb_spec (Z.land w (Z.shiftl 1 b)) 0) as [H0|H0];
    simpl; try done.
  - apply (f_equal (fun z => Z.testbit z b)) in H0.
    rewrite Z.land_spec, shiftl_1_testbit, E, Z.eqb_refl, Z.bits_0 in H0 by done. done.
  - exfalso. apply H0. apply Z.bits_inj'. intros i Hi.
    rewrite Z.land_spec, shiftl_1_testbit, Z.bits_0 by done.
    destruct (Z.eqb_spec i b); subst; [by rewrite E | by rewrite andb_false_r].
Qed.

Lemma bit_set_testbit w b i :
  0 <= b -> 0 <= i -> Z.testbit (bit_set w b) i = (i =? b) || Z.testbit w i.
Proof.
  intros. unfold bit_set. rewrite Z.lor_spec, shiftl_1_testbit by done. apply orb_comm.
Qed.

Lemma wrap_testbit w x i :
  0 <= w -> 0 <= i -> Z.testbit (wrap w x) i = (i <? w) && Z.testbit x i.
Proof.
  intros. unfold wrap. rewrite Z.testbit_mod_pow2 by done. done.
Qed.

Lemma bit_clear_testbit width w b i :
  0 <= b -> 0 <= i < width ->
  Z.testbit (bit_clear width w b) i = negb (i =? b) && Z.testbit w i.
Proof.
  intros. unfold bit_clear.
  rewrite Z.land_spec, wrap_testbit, Z.lnot_spec, shiftl_1_testbit by lia.
  destruct (Z.ltb_spec i width); [|lia]. simpl. apply andb_comm.
Qed.

Lemma testbit_high_range width w :
  0 <= width -> 0 <= w -> (forall i, width <= i -> Z.testbit w i = false) -> w < 2 ^ width.
Proof.
  intros Hw H0 Hbits.
  destruct (Z.lt_ge_cases w (2 ^ width)) as [|Hge]; [done|exfalso].
  assert (0 < w) by (pose proof (Z.pow_pos_nonneg 2 width); lia).
  assert (width <= Z.log2 w) by (apply Z.log2_le_pow2; lia).
  specialize (Hbits (Z.log2 w) ltac:(lia)). rewrite Z.bit_log2 in Hbits; done.
Qed.

Lemma range_testbit_high width w i :
  0 <= w < 2 ^ width -> width <= i -> Z.testbit w i = false.
Proof.
  intros [Hw0 Hw] Hi.
  assert (0 <= width) by (destruct (Z.lt_ge_cases width 0); [rewrite Z.pow_neg_r in Hw; lia | lia]).
  destruct (Z.eq_dec w 0) as [->|]; [apply Z.bits_0|].
  apply Z.bits_above_log2; [done|]. apply Z.log2_lt_pow2; [lia|].
  eapply Z.lt_le_trans; [exact Hw|]. by apply Z.pow_le_mono_r.
Qed.

Lemma lor_range width x y :
  0 <= width -> 0 <= x < 2 ^ width -> 0 <= y < 2 ^ width -> 0 <= Z.lor x y < 2 ^ width.
Proof.
  intros Hw Hx Hy. assert (0 <= Z.lor x y) by (apply Z.lor_nonneg; lia). split; [done|].
  apply testbit_high_range; [done|done|]. intros i Hi. rewrite Z.lor_spec.
  by rewrite !(range_testbit_high width) by done.
Qed.

Lemma bit_set_range width w b :
  0 <= b < width -> 0 <= w < 2 ^ width -> 0 <= bit_set w b < 2 ^ width.
Proof.
  intros Hb Hw. unfold bit_set.
  assert (0 <= Z.lor w (Z.shiftl 1 b)).
  { apply Z.lor_nonneg. split; [lia|]. apply Z.shiftl_nonneg. lia. }
  split; [done|]. apply testbit_high_range; [lia|done|].
  intros i Hi. change (Z.lor _ _) with (bit_set w b). rewrite bit_set_testbit by lia.
  rewrite (range_testbit_high width) by lia. destruct (Z.eqb_spec i b); [lia|done].
Qed.

Lemma bit_clear_range width w b :
  0 <= width -> 0 <= w < 2 ^ width -> 0 <= bit_clear width w b < 2 ^ width.
Proof.
  intros Hb Hw. unfold bit_clear.
  assert (0 <= Z.land w (wrap width (Z.lnot (Z.shiftl 1 b)))).
  { apply Z.land_nonneg. lia. }
  split; [done|]. apply testbit_high_range; [lia|done|].
  intros i Hi. rewrite Z.land_spec, (range_testbit_high width w) by lia. done.
Qed.

Lemma word_eq_testbit width v w :
  0 <= v < 2 ^ width -> 0 <= w < 2 ^ width ->
  (forall i, 0 <= i < width -> Z.testbit v i = Z.testbit w i) -> v = w.
Proof.
  intros Hv Hw H. apply Z.bits_inj'. intros i Hi.
  destruct (Z.lt_ge_cases i width); [apply H; lia|].
  by rewrite !(range_testbit_high width) by done.
Qed.

(** ** Bit fields *)

(** Or-ing a value into the zero bits below a shifted one is addition. *)
Lemma lor_shiftl_add a k r :
  0 <= k -> 0 <= r < 2 ^ k -> Z.lor (Z.shiftl a k) r = a * 2 ^ k + r.
Proof.
  intros Hk Hr. pose proof (Z.add_lor_land (Z.shiftl a k) r) as H.
  assert (Z.land (Z.shiftl a k) r = 0) as H0.
  { apply Z.bits_inj'. intros i Hi. rewrite Z.land_spec, Z.bits_0.
    destruct (Z.lt_ge_cases i k).
    - by rewrite Z.shiftl_spec_low.
    - rewrite (range_testbit_high k r) by lia. by rewrite andb_false_r. }
  rewrite <- Z.shiftl_mul_pow2 by done. lia.
Qed.

(** Masking with [n] ones above [k] zeros selects a bit field. *)
Lemma land_field x n k :
  0 <= n -> 0 <= k -> Z.land x (Z.shiftl (Z.ones n) k) = (x / 2 ^ k) mod 2 ^ n * 2 ^ k.
Proof.
  intros Hn Hk. rewrite <- Z.land_ones, <- Z.shiftr_div_pow2, <- Z.shiftl_mul_pow2 by done.
  apply Z.bits_inj'. intros i Hi. rewrite Z.land_spec.
  destruct (Z.lt_ge_cases i k).
  - rewrite !Z.shiftl_spec_low by lia. apply andb_false_r.
  - rewrite !Z.shiftl_spec, Z.land_spec, Z.shiftr_spec by lia.
    by replace (i - k + k) with i by lia.
Qed.

Lemma land_low x n : 0 <= n -> Z.land x (Z.ones n) = x mod 2 ^ n.
Proof. apply Z.land_ones. Qed.

(** ** C arrays

    An array is the list of its elements.  An access outside of it is
    undefined behaviour, which is [None]; the code that reads and writes
    arrays lives in the option monad, so that a theorem of the form
    [f s = Some s'] includes the absence of out-of-bounds accesses. *)
Definition aget {A} (l : list A) (i : Z) : option A :=
  if 0 <=? i then l !! Z.to_nat i else None.

Definition aset {A} (l : list A) (i : Z) (x : A) : option (list A) :=
  if (0 <=? i) && (i <? Z.of_nat (length l)) then Some (<[Z.to_nat i := x]> l) else None.

Section arrays.
Context {A : Type}.
Implicit Types (l : list A) (x : A).

Lemma aget_in_range l i : 0 <= i < Z.of_nat (length l) -> exists x, aget l i = Some x.
Proof.
  intros Hi. unfold aget. destruct (Z.leb_spec 0 i); [|lia].
  destruct (lookup_lt_is_Some_2 l (Z.to_nat i)) as [x Hx]; [lia|]. by exists x.
Qed.

Lemma aget_Some_range l i x : aget l i = Some x -> 0 <= i < Z.of_nat (length l).
Proof.
  unfold aget. destruct (Z.leb_spec 0 i); [|done]. intros Hx%lookup_lt_Some. lia.
Qed.

Lemma aget_lookup l i x : aget l i = Some x -> l !! Z.to_nat i = Some x.
Proof. unfold aget. by destruct (0 <=? i). Qed.

Lemma aget_nonneg l i : 0 <= i -> aget l i = l !! Z.to_nat i.
Proof. intros. unfold aget. by destruct (Z.leb_spec 0 i); [|lia]. Qed.

Lemma aset_in_range l i x :
  0 <= i < Z.of_nat (length l) -> aset l i x = Some (<[Z.to_nat i := x]> l).
Proof.
  intros Hi. unfold aset.
  destruct (Z.leb_spec 0 i), (Z.ltb_spec i (Z.of_nat (length l))); simpl; done || lia.
Qed.

Lemma aset_Some l i x l' :
  aset l i x = Some l' -> 0 <= i < Z.of_nat (length l) /\ l' = <[Z.to_nat i := x]> l.
Proof.
  unfold aset.
  destruct (Z.leb_spec 0 i), (Z.ltb_spec i (Z.of_nat (length l))); simpl; naive_solver lia.
Qed.

Lemma aget_insert l i j x :
  0 <= i < Z.of_nat (length l) -> 0 <= j ->
  aget (<[Z.to_nat i := x]> l) j = if j =? i then Some x else aget l j.
Proof.
  intros Hi Hj. rewrite !aget_nonneg by done.
  destruct (Z.eqb_spec j i) as [->|Hne].
  - apply list_lookup_insert_eq. lia.
  - apply list_lookup_insert_ne. lia.
Qed.
End arrays.

#[export] Hint Resolve aget_Some_range : cint.

(** ** Facts on lists and finite sets shared by the components *)

Lemma size_union_fresh `{Countable A} (x : A) (X : gset A) :
  x ∉ X -> Z.of_nat (size ({[x]} ∪ X)) = Z.of_nat (size X) + 1.
Proof. intros Hx. rewrite size_union by set_solver. rewrite size_singleton. lia. Qed.

Lemma size_difference_elem `{Countable A} (x : A) (X : gset A) :
  x ∈ X -> Z.of_nat (size (X ∖ {[x]})) = Z.of_nat (size X) - 1.
Proof.
  intros Hx. rewrite size_difference by set_solver. rewrite size_singleton.
  assert (size X <> 0%nat) by (intros H0%size_empty_inv; set_solver). lia.
Qed.

Lemma NoDup_bounded_length (l : list nat) n :
  NoDup l -> (forall i, i ∈ l -> (i < n)%nat) -> (length l <= n)%nat.
Proof.
  intros Hnd Hb. rewrite <- (length_seq n 0). apply submseteq_length, NoDup_submseteq; [done|].
  intros i Hi%Hb. apply elem_of_seq. lia.
Qed.

(** The first element of a list that satisfies a test, with its index: the
    shape of every linear search of the kernel. *)
Fixpoint first_index {A} (p : A -> bool) (l : list A) : option nat :=
  match l with
  | [] => None
  | x :: l' => if p x then Some 0%nat else S <$> first_index p l'
  end.

Section first_index.
Context {A : Type} (p : A -> bool).

Lemma first_index_Some l i :
  first_index p l = Some i <->
  exists x, l !! i = Some x /\ p x = true /\
    forall j y, (j < i)%nat -> l !! j = Some y -> p y = false.
Proof.
  revert i. induction l as [|x l IH]; intros i; simpl.
  - split; [done|]. intros (?&?&_). done.
  - destruct (p x) eqn:Hp.
    + split.
      * intros [= <-]. exists x. split_and!; try done. lia.
      * intros (y&Hy&Hpy&Hmin). destruct i as [|i]; [done|].
        specialize (Hmin 0%nat x ltac:(lia) eq_refl). congruence.
    + rewrite fmap_Some. split.
      * intros (k&Hk&->). apply IH in Hk as (y&Hy&Hpy&Hmin). exists y.
        split_and!; try done. intros [|j] z Hj Hz; simpl in Hz; [congruence|].
        apply (Hmin j); [lia|done].
      * intros (y&Hy&Hpy&Hmin). destruct i as [|i]; simpl in Hy; [congruence|].
        exists i. split; [|done]. apply IH. exists y. split_and!; try done.
        intros j z Hj Hz. apply (Hmin (S j)); [lia|done].
Qed.

Lemma first_index_None l :
  first_index p l = None <-> forall i x, l !! i = Some x -> p x = false.
Proof.
  induction l as [|x l IH]; simpl.
  - split; [|done]. intros _ i y H. by rewrite lookup_nil in H.
  - destruct (p x) eqn:Hp.
    + split; [done|]. intros H. specialize (H 0%nat x eq_refl). congruence.
    + rewrite fmap_None, IH. split.
      * intros H [|i] y Hy; simpl in Hy; [congruence|eauto].
      * intros H i y Hy. by apply (H (S i)).
Qed.
End first_index.
