(* ===== verification/Io.v ===== *)
(** * Effects of the drivers

    A driver works on its static variables and on a device.  Its functions
    are computations of the monad [io S]: from a state they give a result and
    a new state, or reach undefined behaviour, or run out of the bound on the
    iterations of an unbounded loop.  The devices are not part of the
    sources: port accesses go through the interface [PortIO], and the
    theorems hold for every instance of it. *)

From S2P Require Import Prelude.

(** ** Outcomes and the monad *)

Inductive outcome (A : Type) :=
| Ok (a : A)
| Undef
| NoFuel.
Arguments Ok {A} _.
Arguments Undef {A}.
Arguments NoFuel {A}.

Definition io (S A : Type) : Type := S -> outcome (A * S).

#[export] Instance io_ret S : MRet (io S) := fun A a s => Ok (a, s).
#[export] Instance io_bind S : MBind (io S) := fun A B f m s =>
  match m s with
  | Ok (a, s') => f a s'
  | Undef => Undef
  | NoFuel => NoFuel
  end.

Definition gets {S A} (f : S -> A) : io S A := fun s => Ok (f s, s).
Definition modify {S} (f : S -> S) : io S unit := fun s => Ok (tt, f s).

(** A partial operation: an access outside an array is undefined. *)
Definition lift {S A} (o : option A) : io S A :=
  fun s => match o with Some a => Ok (a, s) | None => Undef end.

(** A state transformation with an outcome. *)
Definition transform {S} (f : S -> outcome S) : io S unit :=
  fun s => match f s with Ok s' => Ok (tt, s') | Undef => Undef | NoFuel => NoFuel end.

Definition skip {S} : io S unit := mret tt.

(** ** Loops *)

(** [for (i = i0; i < i0 + n; i++) body(i)]. *)
Fixpoint for_loop {S} (n : nat) (i : Z) (body : Z -> io S unit) : io S unit :=
  match n with
  | O => skip
  | Datatypes.S n' => body i ≫= fun _ => for_loop n' (i + 1) body
  end.

(** A loop of at most [n] rounds that the body leaves early by [true]. *)
Fixpoint for_break {S} (n : nat) (body : io S bool) : io S unit :=
  match n with
  | O => skip
  | Datatypes.S n' => body ≫= fun stop => if (stop : bool) then skip else for_break n' body
  end.

(** [while (body());], with a bound on the rounds. *)
Fixpoint while_loop {S} (fuel : nat) (body : io S bool) : io S unit :=
  match fuel with
  | O => fun _ => NoFuel
  | Datatypes.S fuel' => body ≫= fun go => if (go : bool) then while_loop fuel' body else skip
  end.

(** ** Reasoning

    [safe P m Q]: from a state with [P] the computation never reaches
    undefined behaviour, and if it ends, [Q] holds of its result and state. *)
Definition safe {S A} (P : S -> Prop) (m : io S A) (Q : A -> S -> Prop) : Prop :=
  forall s, P s -> match m s with Ok (a, s') => Q a s' | Undef => False | NoFuel => True end.

(** The same with termination. *)
Definition total {S A} (P : S -> Prop) (m : io S A) (Q : A -> S -> Prop) : Prop :=
  forall s, P s -> exists a s', m s = Ok (a, s') /\ Q a s'.

Section rules.
Context {S : Type}.
Implicit Types P : S -> Prop.

Lemma safe_ret {A} P (a : A) (Q : A -> S -> Prop) : (forall s, P s -> Q a s) -> safe P (mret a) Q.
Proof. intros H s Hs. by apply H. Qed.

Lemma safe_bind {A B} P (m : io S A) (f : A -> io S B) R Q :
  safe P m R -> (forall a, safe (R a) (f a) Q) -> safe P (m ≫= f) Q.
Proof.
  intros Hm Hf s Hs. unfold mbind, io_bind. specialize (Hm s Hs).
  destruct (m s) as [[a s']| |]; [apply Hf, Hm|done|done].
Qed.

Lemma safe_weaken {A} P P' (m : io S A) Q Q' :
  safe P m Q -> (forall s, P' s -> P s) -> (forall a s, Q a s -> Q' a s) -> safe P' m Q'.
Proof.
  intros Hm HP HQ s Hs. specialize (Hm s (HP s Hs)). destruct (m s) as [[a s']| |]; auto.
Qed.

Lemma safe_lift {A} P (o : option A) (a : A) (Q : A -> S -> Prop) :
  o = Some a -> (forall s, P s -> Q a s) -> safe P (lift o) Q.
Proof. intros -> H s Hs. by apply H. Qed.

Lemma safe_for (Inv : Z -> S -> Prop) n i body :
  (forall j, i <= j < i + Z.of_nat n -> safe (Inv j) (body j) (fun _ => Inv (j + 1))) ->
  safe (Inv i) (for_loop n i body) (fun _ => Inv (i + Z.of_nat n)).
Proof.
  revert i. induction n as [|n IH]; intros i Hb.
  - simpl. rewrite Z.add_0_r. by apply safe_ret.
  - simpl. eapply safe_bind; [apply Hb; lia|]. intros [].
    replace (i + Z.of_nat (Datatypes.S n)) with (i + 1 + Z.of_nat n) by lia.
    apply IH. intros j Hj. apply Hb. lia.
Qed.

Lemma safe_break (Inv : S -> Prop) n body :
  safe Inv body (fun _ => Inv) -> safe Inv (for_break n body) (fun _ => Inv).
Proof.
  intros Hb. induction n as [|n IH]; simpl; [by apply safe_ret|].
  eapply safe_bind; [exact Hb|]. intros [|]; [by apply safe_ret|exact IH].
Qed.

Lemma safe_while (Inv : S -> Prop) fuel body :
  safe Inv body (fun _ => Inv) -> safe Inv (while_loop fuel body) (fun _ => Inv).
Proof.
  intros Hb. induction fuel as [|n IH]; simpl; [by intros s Hs|].
  eapply safe_bind; [exact Hb|]. intros [|]; [exact IH|by apply safe_ret].
Qed.

(** Steps of a computation: a partial operation that is defined, a read of
    the state, and a call that keeps the condition. *)
Lemma safe_lift_bind {A B} P (o : option A) (phi : A -> Prop) (f : A -> io S B) Q :
  (exists a, o = Some a /\ phi a) -> (forall a, phi a -> safe P (f a) Q) -> safe P (lift o ≫= f) Q.
Proof. intros (a & -> & Ha) Hf s Hs. by apply Hf. Qed.

Lemma safe_gets_bind {A B} P (g : S -> A) (f : A -> io S B) Q :
  (forall s0, P s0 -> safe P (f (g s0)) Q) -> safe P (gets g ≫= f) Q.
Proof. intros Hf s Hs. by apply Hf. Qed.

Lemma safe_seq {A B} P (m : io S A) (f : A -> io S B) Q :
  safe P m (fun _ => P) -> (forall a, safe P (f a) Q) -> safe P (m ≫= f) Q.
Proof. intros Hm Hf. by eapply safe_bind. Qed.

Lemma safe_modify P f (Q : unit -> S -> Prop) : (forall s, P s -> Q tt (f s)) -> safe P (modify f) Q.
Proof. intros H s Hs. by apply H. Qed.

Lemma total_ret {A} P (a : A) (Q : A -> S -> Prop) : (forall s, P s -> Q a s) -> total P (mret a) Q.
Proof. intros H s Hs. exists a, s. auto. Qed.

Lemma total_bind {A B} P (m : io S A) (f : A -> io S B) R Q :
  total P m R -> (forall a, total (R a) (f a) Q) -> total P (m ≫= f) Q.
Proof.
  intros Hm Hf s (a & s1 & E & H1)%Hm. destruct (Hf a s1 H1) as (b & s2 & E2 & H2).
  exists b, s2. unfold mbind, io_bind. by rewrite E.
Qed.

Lemma total_weaken {A} P P' (m : io S A) Q Q' :
  total P m Q -> (forall s, P' s -> P s) -> (forall a s, Q a s -> Q' a s) -> total P' m Q'.
Proof. intros Hm HP HQ s (a & s' & E & H)%HP%Hm. exists a, s'. auto. Qed.

Lemma total_for (Inv : Z -> S -> Prop) n i body :
  (forall j, i <= j < i + Z.of_nat n -> total (Inv j) (body j) (fun _ => Inv (j + 1))) ->
  total (Inv i) (for_loop n i body) (fun _ => Inv (i + Z.of_nat n)).
Proof.
  revert i. induction n as [|n IH]; intros i Hb.
  - simpl. rewrite Z.add_0_r. by apply total_ret.
  - simpl. eapply total_bind; [apply Hb; lia|]. intros [].
    replace (i + Z.of_nat (Datatypes.S n)) with (i + 1 + Z.of_nat n) by lia.
    apply IH. intros j Hj. apply Hb. lia.
Qed.

Lemma total_safe {A} P (m : io S A) Q : total P m Q -> safe P m Q.
Proof. intros H s (a & s' & -> & HQ)%H. done. Qed.
End rules.

(** Running one step. *)
Lemma bind_ok {S A B} (m : io S A) (f : A -> io S B) s a s' :
  m s = Ok (a, s') -> (m ≫= f) s = f a s'.
Proof. intros E. unfold mbind, io_bind. by rewrite E. Qed.

Lemma bind_lift {S A B} (o : option A) (f : A -> io S B) s a :
  o = Some a -> (lift o ≫= f) s = f a s.
Proof. intros ->. done. Qed.

Lemma bind_gets {S A B} (g : S -> A) (f : A -> io S B) s : (gets g ≫= f) s = f (g s) s.
Proof. done. Qed.

Lemma bind_modify {S B} (g : S -> S) (f : unit -> io S B) s : (modify g ≫= f) s = f tt (g s).
Proof. done. Qed.

Lemma for_loop_ext {S} n i (b1 b2 : Z -> io S unit) s :
  (forall j s, b1 j s = b2 j s) -> for_loop n i b1 s = for_loop n i b2 s.
Proof.
  intros Hb. revert i s. induction n as [|n IH]; intros i s; [done|]. simpl. unfold mbind, io_bind. rewrite Hb.
  destruct (b2 i s) as [[[] s']| |]; [apply IH|done|done].
Qed.

(** Computations that always end. *)
Definition defined {S A} (m : io S A) : Prop := forall s, exists a s', m s = Ok (a, s').

Lemma defined_ret {S A} (a : A) : defined (S := S) (mret a).
Proof. intros s. by exists a, s. Qed.

Lemma defined_bind {S A B} (m : io S A) (f : A -> io S B) :
  defined m -> (forall a, defined (f a)) -> defined (m ≫= f).
Proof.
  intros Hm Hf s. destruct (Hm s) as (a & s' & E). destruct (Hf a s') as (b & s'' & E').
  exists b, s''. unfold mbind, io_bind. by rewrite E.
Qed.

Create HintDb io.
#[export] Hint Resolve defined_ret defined_bind safe_ret : io.

(** ** Port input and output

    [width] is the number of bytes of the access. *)
Class PortIO (D : Type) := {
  port_in : Z -> Z -> D -> Z * D;
  port_out : Z -> Z -> Z -> D -> D
}.

Section ports.
Context {D : Type} `{!PortIO D}.

Definition in_width (w port : Z) : io D Z :=
  fun d => let '(v, d') := port_in w (u16 port) d in Ok (wrap (8 * w) v, d').
Definition out_width (w port v : Z) : io D unit :=
  fun d => Ok (tt, port_out w (u16 port) (wrap (8 * w) v) d).

Definition inb (port : Z) : io D Z := in_width 1 port.
Definition inw (port : Z) : io D Z := in_width 2 port.
Definition inl (port : Z) : io D Z := in_width 4 port.
Definition outb (port v : Z) : io D unit := out_width 1 port v.
Definition outw (port v : Z) : io D unit := out_width 2 port v.
Definition outl (port v : Z) : io D unit := out_width 4 port v.

Lemma in_defined w port : defined (in_width w port).
Proof. intros d. unfold in_width. destruct (port_in w (u16 port) d). eauto. Qed.

Lemma out_defined w port v : defined (out_width w port v).
Proof. intros d. unfold out_width. eauto. Qed.

(** Values read from a port have its width. *)
Lemma in_range w port d v d' : 0 <= w -> in_width w port d = Ok (v, d') -> 0 <= v < 2 ^ (8 * w).
Proof.
  intros Hw. unfold in_width. destruct (port_in w (u16 port) d). intros [= <- _].
  apply wrap_range. lia.
Qed.
End ports.

#[export] Hint Resolve in_defined out_defined : io.

(** A device that answers reads from a table and records the writes, latest
    first: the instance used on concrete inputs. *)
Record trace_device := Trace { answers : Z -> Z -> Z; writes : list (Z * Z * Z) }.

#[export] Instance trace_io : PortIO trace_device := {
  port_in w port d := (answers d w port, d);
  port_out w port v d := Trace (answers d) ((w, port, v) :: writes d)
}.

(** ** Buffers *)

(** Consecutive stores from index [i] on. *)
Fixpoint put (buf : list Z) (i : Z) (bs : list Z) : option (list Z) :=
  match bs with
  | [] => Some buf
  | b :: bs' => buf' ← aset buf i b; put buf' (i + 1) bs'
  end.

(** Consecutive loads: [n] elements from index [i] on. *)
Definition slice (buf : list Z) (i n : Z) : list Z := take (Z.to_nat n) (drop (Z.to_nat i) buf).
Definition load (buf : list Z) (i n : Z) : option (list Z) :=
  if (0 <=? i) && (i + Z.max 0 n <=? Z.of_nat (length buf)) then Some (slice buf i n) else None.

Lemma put_eq buf i bs :
  0 <= i -> i + Z.of_nat (length bs) <= Z.of_nat (length buf) ->
  put buf i bs = Some (take (Z.to_nat i) buf ++ bs ++ drop (Z.to_nat i + length bs) buf).
Proof.
  revert buf i. induction bs as [|b bs IH]; intros buf i Hi Hl; simpl in *.
  - rewrite Nat.add_0_r. by rewrite take_drop.
  - rewrite aset_in_range by lia. cbn [mbind option_bind].
    rewrite IH by (rewrite ?length_insert; lia). f_equal.
    replace (Z.to_nat (i + 1)) with (S (Z.to_nat i)) by lia.
    rewrite (take_S_r _ _ b) by (apply list_lookup_insert_eq; lia).
    rewrite take_insert_ge by lia. rewrite <- app_assoc. do 2 f_equal. simpl. f_equal.
    rewrite drop_insert_lt by lia. f_equal. lia.
Qed.

(** Replacing a part of the array. *)
Lemma put_app a old b new i :
  i = Z.of_nat (length a) -> (length new = length old)%nat ->
  put (a ++ old ++ b) i new = Some (a ++ new ++ b).
Proof.
  intros -> Hn. rewrite put_eq by (rewrite ?length_app; lia). rewrite Nat2Z.id.
  rewrite take_app_length, Hn. f_equal. do 2 f_equal.
  rewrite drop_app_ge by lia. replace (length a + length old - length a)%nat with (length old) by lia.
  apply drop_app_length.
Qed.

Lemma put_length buf i bs buf' : put buf i bs = Some buf' -> (length buf' = length buf)%nat.
Proof.
  revert buf i. induction bs as [|b bs IH]; intros buf i; simpl; [by intros [= ->]|].
  intros (buf1 & (_ & ->)%aset_Some & H)%bind_Some. apply IH in H. by rewrite H, length_insert.
Qed.

(** Reading back. *)
Lemma aget_put buf i bs buf' j :
  put buf i bs = Some buf' -> 0 <= j ->
  aget buf' j = if (i <=? j) && (j <? i + Z.of_nat (length bs)) then bs !! Z.to_nat (j - i) else aget buf j.
Proof.
  revert buf i. induction bs as [|b bs IH]; intros buf i; simpl.
  - intros [= ->] Hj. case_cmp; case_cmp; simpl; done || lia.
  - intros (buf1 & (Hi & ->)%aset_Some & Hp)%bind_Some Hj. rewrite (IH _ _ Hp Hj), aget_insert by done.
    repeat case_cmp; simpl; try lia; try done.
    + by replace (Z.to_nat (j - i)) with (S (Z.to_nat (j - (i + 1)))) by lia.
    + subst j. by rewrite Z.sub_diag.
Qed.

Lemma load_eq buf i n :
  0 <= i -> 0 <= n -> i + n <= Z.of_nat (length buf) -> load buf i n = Some (slice buf i n).
Proof.
  intros Hi Hn Hl. unfold load.
  by rewrite (proj2 (Z.leb_le 0 i)), (proj2 (Z.leb_le _ _)) by lia.
Qed.

Lemma slice_length buf i n :
  0 <= i -> 0 <= n -> i + n <= Z.of_nat (length buf) -> Z.of_nat (length (slice buf i n)) = n.
Proof. intros Hi Hn Hl. unfold slice. rewrite length_take, length_drop. lia. Qed.

Definition is_byte (b : Z) : Prop := 0 <= b < 256.
