(* ===== verification/Pmm.v ===== *)
(** * Physical memory manager ([src/pmm.c])

    The frame allocator keeps one bit per 4 KiB frame in [bitmap_storage]
    (a set bit is a free frame) and the number of free frames.  The
    abstract state is the set of free frame numbers, [free_set]. *)

From S2P Require Import Prelude.

(** ** State and operations *)

Definition FRAME_SIZE : Z := 4096.
(** Length of [bitmap_storage]. *)
Definition BITMAP_WORDS : Z := 131072.

Record pmm_t := Pmm {
  bitmap : list Z;
  total_frames : Z;
  free_frames : Z;
  base_address : Z
}.

(** The zero-initialised static storage at boot. *)
Definition pmm_boot : pmm_t :=
  Pmm (replicate (Z.to_nat BITMAP_WORDS) 0) 0 0 0.

Definition set_bitmap (st : pmm_t) (bm : list Z) (free : Z) : pmm_t :=
  Pmm bm (total_frames st) free (base_address st).

(** [for (i = 0; i < bitmap_size; i++) bitmap[i] = 0], from index [i]. *)
Fixpoint clear_words (n : nat) (i : Z) (bm : list Z) : option (list Z) :=
  match n with
  | O => Some bm
  | S n' => bm' ← aset bm i 0; clear_words n' (i + 1) bm'
  end.

Definition pmm_initialize (st : pmm_t) (total_memory : Z) : option pmm_t :=
  let total := u64 (total_memory + FRAME_SIZE - 1) / FRAME_SIZE in
  let bitmap_size := u64 (total + 63) / 64 in
  let '(bitmap_size, total) :=
    if BITMAP_WORDS <? bitmap_size
    then (BITMAP_WORDS, u64 (BITMAP_WORDS * 64))
    else (bitmap_size, total) in
  bm ← clear_words (Z.to_nat bitmap_size) 0 (bitmap st);
  Some (Pmm bm total 0 0).

(** One past the last bitmap word in use. *)
Definition bitmap_end (st : pmm_t) : Z := u64 (total_frames st + 63) / 64.

(** The loop of [pmm_add_available_range] from [frame] on; [n] bounds the
    remaining iterations. *)
Fixpoint add_loop (n : nat) (frame end_frame : Z) (st : pmm_t) : option pmm_t :=
  match n with
  | O => Some st
  | S n' =>
    if (frame <? end_frame) && (frame <? total_frames st) then
      let bitmap_idx := frame / 64 in
      let bit_idx := frame mod 64 in
      if bitmap_end st <=? bitmap_idx then Some st
      else
        w ← aget (bitmap st) bitmap_idx;
        if negb (bit_test w bit_idx) then
          bm ← aset (bitmap st) bitmap_idx (bit_set w bit_idx);
          add_loop n' (frame + 1) end_frame
            (set_bitmap st bm (u64 (free_frames st + 1)))
        else add_loop n' (frame + 1) end_frame st
    else Some st
  end.

Definition range_start (address : Z) : Z := address / FRAME_SIZE.
Definition range_end (address length : Z) : Z :=
  u64 (address + length + FRAME_SIZE - 1) / FRAME_SIZE.

Definition pmm_add_available_range (st : pmm_t) (address length : Z) : option pmm_t :=
  if length =? 0 then Some st
  else
    let start_frame := range_start address in
    let end_frame := range_end address length in
    add_loop (Z.to_nat (end_frame - start_frame)) start_frame end_frame st.

Fixpoint reserve_loop (n : nat) (frame end_frame : Z) (st : pmm_t) : option pmm_t :=
  match n with
  | O => Some st
  | S n' =>
    if (frame <? end_frame) && (frame <? total_frames st) then
      let bitmap_idx := frame / 64 in
      let bit_idx := frame mod 64 in
      if bitmap_end st <=? bitmap_idx then Some st
      else
        w ← aget (bitmap st) bitmap_idx;
        if bit_test w bit_idx then
          bm ← aset (bitmap st) bitmap_idx (bit_clear 64 w bit_idx);
          reserve_loop n' (frame + 1) end_frame
            (set_bitmap st bm (u64 (free_frames st - 1)))
        else reserve_loop n' (frame + 1) end_frame st
    else Some st
  end.

Definition pmm_reserve_range (st : pmm_t) (address length : Z) : option pmm_t :=
  if length =? 0 then Some st
  else
    let start_frame := range_start address in
    let end_frame := range_end address length in
    reserve_loop (Z.to_nat (end_frame - start_frame)) start_frame end_frame st.

(** The inner loop of [pmm_allocate_frame]: the first set bit of [w] at or
    after [bit_idx]. *)
Fixpoint first_bit (n : nat) (bit_idx w : Z) : option Z :=
  match n with
  | O => None
  | S n' => if bit_test w bit_idx then Some bit_idx else first_bit n' (bit_idx + 1) w
  end.

(** The outer loop from word [bitmap_idx] on. *)
Fixpoint alloc_scan (n : nat) (bitmap_idx : Z) (st : pmm_t) : option (pmm_t * Z) :=
  match n with
  | O => Some (st, 0)
  | S n' =>
    if bitmap_idx <? bitmap_end st then
      w ← aget (bitmap st) bitmap_idx;
      if w =? 0 then alloc_scan n' (bitmap_idx + 1) st
      else
        match first_bit 64 0 w with
        | Some bit_idx =>
          bm ← aset (bitmap st) bitmap_idx (bit_clear 64 w bit_idx);
          let frame_num := u64 (bitmap_idx * 64 + bit_idx) in
          Some (set_bitmap st bm (u64 (free_frames st - 1)),
                u64 (frame_num * FRAME_SIZE))
        | None => alloc_scan n' (bitmap_idx + 1) st
        end
    else Some (st, 0)
  end.

Definition pmm_allocate_frame (st : pmm_t) : option (pmm_t * Z) :=
  alloc_scan (Z.to_nat (bitmap_end st)) 0 st.

Definition pmm_free_frame (st : pmm_t) (paddr : Z) : option pmm_t :=
  let frame_num := paddr / FRAME_SIZE in
  let bitmap_idx := frame_num / 64 in
  let bit_idx := frame_num mod 64 in
  if bitmap_end st <=? bitmap_idx then Some st
  else
    w ← aget (bitmap st) bitmap_idx;
    bm ← aset (bitmap st) bitmap_idx (bit_set w bit_idx);
    Some (set_bitmap st bm (u64 (free_frames st + 1))).

Definition pmm_get_available (st : pmm_t) : Z := u64 (free_frames st * FRAME_SIZE).

(** ** Abstract state *)

(** The bit of frame [f]. *)
Definition frame_free (st : pmm_t) (f : Z) : bool :=
  match aget (bitmap st) (f / 64) with
  | Some w => Z.testbit w (f mod 64)
  | None => false
  end.

(** The frame numbers from [a] up to [b], [b] excluded. *)
Definition frames (a b : Z) : gset Z := list_to_set (seqZ a (b - a)).

Definition free_set (st : pmm_t) : gset Z :=
  filter (fun f => frame_free st f = true) (frames 0 (total_frames st)).

Record pmm_wf (st : pmm_t) : Prop := {
  wf_bitmap : Z.of_nat (length (bitmap st)) = BITMAP_WORDS;
  wf_words : Forall (fun w => 0 <= w < 2 ^ 64) (bitmap st);
  wf_total : 0 <= total_frames st <= 64 * BITMAP_WORDS;
  wf_tail : forall f, total_frames st <= f -> frame_free st f = false;
  wf_count : free_frames st = Z.of_nat (size (free_set st))
}.

(** ** The abstraction *)

Lemma elem_of_frames a b f : f ∈ frames a b <-> a <= f < b.
Proof. unfold frames. rewrite elem_of_list_to_set, elem_of_seqZ. lia. Qed.

Lemma size_frames b : 0 <= b -> Z.of_nat (size (frames 0 b)) = b.
Proof.
  intros. unfold frames. rewrite size_list_to_set by apply NoDup_seqZ.
  rewrite length_seqZ. lia.
Qed.

(** Membership and size are all that proofs use of [frames]. *)
#[global] Opaque frames.

Lemma frame_free_nonneg st f : frame_free st f = true -> 0 <= f.
Proof.
  unfold frame_free. destruct (aget (bitmap st) (f / 64)) as [w|] eqn:E; [|done].
  apply aget_Some_range in E. intros _. lia.
Qed.

Lemma elem_of_free_set_raw st f :
  f ∈ free_set st <-> frame_free st f = true /\ 0 <= f < total_frames st.
Proof. unfold free_set. by rewrite elem_of_filter, elem_of_frames. Qed.

Lemma free_set_bounded st :
  pmm_wf st -> Z.of_nat (size (free_set st)) <= 64 * BITMAP_WORDS.
Proof.
  intros Hwf. destruct (wf_total _ Hwf). etrans; [|done].
  rewrite <- (size_frames (total_frames st)) by done.
  apply Nat2Z.inj_le, subseteq_size. intros f. unfold free_set. rewrite elem_of_filter. tauto.
Qed.

Lemma elem_of_free_set st f :
  pmm_wf st -> f ∈ free_set st <-> frame_free st f = true.
Proof.
  intros Hwf. rewrite elem_of_free_set_raw.
  split; [tauto|]. intros H. split; [done|]. split; [by eapply frame_free_nonneg|].
  destruct (Z.lt_ge_cases f (total_frames st)) as [|Hge]; [done|].
  rewrite (wf_tail _ Hwf f Hge) in H. done.
Qed.

Lemma free_frames_range st : pmm_wf st -> 0 <= free_frames st <= 8388608.
Proof.
  intros Hwf. pose proof (free_set_bounded st Hwf). rewrite (wf_count _ Hwf).
  unfold BITMAP_WORDS in *. lia.
Qed.

(** Replacing one word changes the frames of that word only. *)
Lemma frame_free_update st f w w' b n :
  0 <= f -> aget (bitmap st) (f / 64) = Some w ->
  (forall i, 0 <= i < 64 -> Z.testbit w' i = if i =? f mod 64 then b else Z.testbit w i) ->
  forall g, frame_free (set_bitmap st (<[Z.to_nat (f / 64) := w']> (bitmap st)) n) g =
    if g =? f then b else frame_free st g.
Proof.
  intros Hf Hw Hbits g. unfold frame_free, set_bitmap; simpl.
  destruct (Z.lt_ge_cases g 0) as [Hg|Hg].
  { unfold aget. destruct (Z.leb_spec 0 (g / 64)); [lia|].
    destruct (Z.eqb_spec g f); [lia|done]. }
  rewrite aget_insert by (pose proof (aget_Some_range _ _ _ Hw); lia).
  destruct (Z.eqb_spec (g / 64) (f / 64)) as [He|Hne].
  - rewrite Hbits by lia. destruct (Z.eqb_spec (g mod 64) (f mod 64)), (Z.eqb_spec g f); try lia.
    + done.
    + by rewrite He, Hw.
  - destruct (Z.eqb_spec g f); [subst; done|done].
Qed.

Section update.
Context (st : pmm_t) (Hwf : pmm_wf st) (f w : Z).
Context (Hf : 0 <= f < total_frames st) (Hw : aget (bitmap st) (f / 64) = Some w).

Lemma word_range : 0 <= w < 2 ^ 64.
Proof using Hwf Hw.
  apply aget_lookup in Hw. apply (Forall_lookup_1 _ _ _ _ (wf_words _ Hwf) Hw).
Qed.

Lemma word_testbit : Z.testbit w (f mod 64) = frame_free st f.
Proof using Hw. unfold frame_free. by rewrite Hw. Qed.

Lemma update_wf w' b n :
  0 <= w' < 2 ^ 64 ->
  (forall i, 0 <= i < 64 -> Z.testbit w' i = if i =? f mod 64 then b else Z.testbit w i) ->
  let st' := set_bitmap st (<[Z.to_nat (f / 64) := w']> (bitmap st)) n in
  n = Z.of_nat (size (free_set st')) -> pmm_wf st'.
Proof using Hwf Hf Hw.
  intros Hw' Hbits st' Hn. pose proof (frame_free_update st f w w' b n (proj1 Hf) Hw Hbits) as Hff.
  destruct Hwf as [Hbm Hwords Htot Htail Hcount].
  apply Build_pmm_wf; [| |exact Htot| |exact Hn]; unfold st'; cbn [bitmap set_bitmap total_frames].
  - by rewrite length_insert.
  - apply Forall_insert; [exact Hwords|exact Hw'].
  - intros g Hg. rewrite Hff. destruct (Z.eqb_spec g f); [lia|by apply Htail].
Qed.

Lemma set_frame :
  frame_free st f = false ->
  exists bm, aset (bitmap st) (f / 64) (bit_set w (f mod 64)) = Some bm /\
    let st' := set_bitmap st bm (u64 (free_frames st + 1)) in
    pmm_wf st' /\ free_set st' = {[f]} ∪ free_set st /\ total_frames st' = total_frames st.
Proof using Hwf Hf Hw.
  intros Hfree. pose proof word_range as Hr.
  assert (Hbits : forall i, 0 <= i < 64 -> Z.testbit (bit_set w (f mod 64)) i =
    if i =? f mod 64 then true else Z.testbit w i).
  { intros i Hi. rewrite bit_set_testbit by lia. by destruct (i =? f mod 64). }
  eexists. split; [apply aset_in_range; by apply aget_Some_range in Hw|]. simpl.
  pose proof (frame_free_update st f w _ true (u64 (free_frames st + 1)) (proj1 Hf) Hw Hbits) as Hff.
  assert (Hset : free_set (set_bitmap st (<[Z.to_nat (f / 64) := bit_set w (f mod 64)]> (bitmap st))
      (u64 (free_frames st + 1))) = {[f]} ∪ free_set st).
  { apply set_eq. intros g. rewrite elem_of_union, elem_of_singleton.
    rewrite !elem_of_free_set_raw, Hff. cbn [total_frames set_bitmap].
    destruct (Z.eqb_spec g f); subst; intuition. }
  split_and!; try done. eapply update_wf; [apply bit_set_range; lia | exact Hbits |].
  rewrite Hset, size_union_fresh.
  - rewrite <- (wf_count _ Hwf). pose proof (free_frames_range st Hwf). by nowrap.
  - rewrite elem_of_free_set by done. by rewrite Hfree.
Qed.

Lemma clear_frame :
  frame_free st f = true ->
  exists bm, aset (bitmap st) (f / 64) (bit_clear 64 w (f mod 64)) = Some bm /\
    let st' := set_bitmap st bm (u64 (free_frames st - 1)) in
    pmm_wf st' /\ free_set st' = free_set st ∖ {[f]} /\ total_frames st' = total_frames st.
Proof using Hwf Hf Hw.
  intros Hfree. pose proof word_range as Hr.
  assert (Hbits : forall i, 0 <= i < 64 -> Z.testbit (bit_clear 64 w (f mod 64)) i =
    if i =? f mod 64 then false else Z.testbit w i).
  { intros i Hi. rewrite bit_clear_testbit by lia. by destruct (i =? f mod 64). }
  eexists. split; [apply aset_in_range; by apply aget_Some_range in Hw|]. simpl.
  pose proof (frame_free_update st f w _ false (u64 (free_frames st - 1)) (proj1 Hf) Hw Hbits) as Hff.
  assert (Hset : free_set (set_bitmap st (<[Z.to_nat (f / 64) := bit_clear 64 w (f mod 64)]> (bitmap st))
      (u64 (free_frames st - 1))) = free_set st ∖ {[f]}).
  { apply set_eq. intros g. rewrite elem_of_difference, elem_of_singleton.
    rewrite !elem_of_free_set_raw, Hff. cbn [total_frames set_bitmap].
    destruct (Z.eqb_spec g f); subst; intuition congruence. }
  split_and!; try done. eapply update_wf; [apply bit_clear_range; lia | exact Hbits |].
  assert (Hin : f ∈ free_set st) by (by rewrite elem_of_free_set).
  rewrite Hset, (size_difference_elem f) by done.
  pose proof (size_difference_elem f _ Hin) as Hsz.
  rewrite <- (wf_count _ Hwf) in *. pose proof (free_frames_range st Hwf). by nowrap.
Qed.
End update.

(** ** The loops *)

Lemma bitmap_end_small st :
  pmm_wf st -> bitmap_end st = (total_frames st + 63) / 64.
Proof.
  intros Hwf. pose proof (wf_total _ Hwf). unfold bitmap_end, BITMAP_WORDS in *. by nowrap.
Qed.

Lemma word_in_use st f :
  pmm_wf st -> 0 <= f < total_frames st ->
  f / 64 < bitmap_end st /\ exists w, aget (bitmap st) (f / 64) = Some w.
Proof.
  intros Hwf Hf. rewrite bitmap_end_small by done. split; [lia|].
  apply aget_in_range. rewrite (wf_bitmap _ Hwf). pose proof (wf_total _ Hwf). lia.
Qed.

Lemma frames_step a b : a < b -> frames a b = {[a]} ∪ frames (a + 1) b.
Proof. intros. apply set_eq. intros f. rewrite elem_of_union, elem_of_singleton, !elem_of_frames. lia. Qed.

Lemma frames_empty a b : b <= a -> frames a b = ∅.
Proof.
  intros. apply set_eq. intros f. rewrite elem_of_frames. split; [lia|set_solver].
Qed.

Lemma add_loop_spec n frame end_frame st :
  pmm_wf st -> 0 <= frame -> end_frame - frame <= Z.of_nat n ->
  exists st', add_loop n frame end_frame st = Some st' /\ pmm_wf st' /\
    total_frames st' = total_frames st /\
    free_set st' = free_set st ∪ frames frame (Z.min end_frame (total_frames st)).
Proof.
  revert frame st. induction n as [|n IH]; intros frame st Hwf H0 Hn; simpl.
  { exists st. rewrite frames_empty by lia. split_and!; [done..|set_solver]. }
  destruct (Z.ltb_spec frame end_frame), (Z.ltb_spec frame (total_frames st)); simpl;
    try (exists st; rewrite frames_empty by lia; split_and!; [done..|set_solver]).
  destruct (word_in_use st frame) as [Hlt [w Hw]]; [done|lia|].
  destruct (Z.leb_spec (bitmap_end st) (frame / 64)); [lia|]. rewrite Hw. simpl.
  rewrite bit_test_testbit, (word_testbit st frame w Hw) by lia.
  rewrite frames_step by lia.
  destruct (frame_free st frame) eqn:Hfree; simpl.
  - destruct (IH (frame + 1) st) as (st' & -> & ? & ? & Hset); [done|lia..|].
    exists st'. split_and!; try done. rewrite Hset.
    apply elem_of_free_set in Hfree; [set_solver|done].
  - destruct (set_frame st Hwf frame w) as (bm & -> & Hwf' & Hset & Htot); [lia|done..|]. simpl.
    destruct (IH (frame + 1) _ Hwf') as (st' & -> & ? & ? & Hset'); [lia..|].
    exists st'. rewrite Hset', Hset, Htot. split_and!; [done..|congruence|set_solver].
Qed.

Lemma reserve_loop_spec n frame end_frame st :
  pmm_wf st -> 0 <= frame -> end_frame - frame <= Z.of_nat n ->
  exists st', reserve_loop n frame end_frame st = Some st' /\ pmm_wf st' /\
    total_frames st' = total_frames st /\
    free_set st' = free_set st ∖ frames frame (Z.min end_frame (total_frames st)).
Proof.
  revert frame st. induction n as [|n IH]; intros frame st Hwf H0 Hn; simpl.
  { exists st. rewrite frames_empty by lia. split_and!; [done..|set_solver]. }
  destruct (Z.ltb_spec frame end_frame), (Z.ltb_spec frame (total_frames st)); simpl;
    try (exists st; rewrite frames_empty by lia; split_and!; [done..|set_solver]).
  destruct (word_in_use st frame) as [Hlt [w Hw]]; [done|lia|].
  destruct (Z.leb_spec (bitmap_end st) (frame / 64)); [lia|]. rewrite Hw. simpl.
  rewrite bit_test_testbit, (word_testbit st frame w Hw) by lia.
  rewrite frames_step by lia.
  destruct (frame_free st frame) eqn:Hfree; simpl.
  - destruct (clear_frame st Hwf frame w) as (bm & -> & Hwf' & Hset & Htot); [lia|done..|]. simpl.
    destruct (IH (frame + 1) _ Hwf') as (st' & -> & ? & ? & Hset'); [lia..|].
    exists st'. rewrite Hset', Hset, Htot. split_and!; [done..|congruence|set_solver].
  - destruct (IH (frame + 1) st) as (st' & -> & ? & ? & Hset); [done|lia..|].
    exists st'. split_and!; try done. rewrite Hset.
    assert (frame ∉ free_set st) by (rewrite elem_of_free_set by done; congruence). set_solver.
Qed.

Lemma first_bit_Some n b w i :
  0 <= b -> first_bit n b w = Some i ->
  b <= i < b + Z.of_nat n /\ Z.testbit w i = true /\
  forall j, b <= j < i -> Z.testbit w j = false.
Proof.
  revert b. induction n as [|n IH]; intros b Hb; simpl; [done|].
  rewrite bit_test_testbit by done. destruct (Z.testbit w b) eqn:E.
  - intros [= <-]. split_and!; [lia|lia|done|lia].
  - intros H%IH; [|lia]. destruct H as (? & ? & Hmin). split_and!; [lia|lia|done|].
    intros j Hj. destruct (Z.eq_dec j b) as [->|]; [done|]. apply Hmin. lia.
Qed.

Lemma first_bit_None n b w :
  0 <= b -> first_bit n b w = None ->
  forall i, b <= i < b + Z.of_nat n -> Z.testbit w i = false.
Proof.
  revert b. induction n as [|n IH]; intros b Hb; simpl; [intros _ i; lia|].
  rewrite bit_test_testbit by done. destruct (Z.testbit w b) eqn:E; [done|].
  intros H i Hi. destruct (Z.eq_dec i b) as [->|]; [done|]. apply (IH (b + 1)); [lia|done|lia].
Qed.

Lemma word_zero_bits w :
  0 <= w < 2 ^ 64 -> first_bit 64 0 w = None -> w = 0.
Proof.
  intros Hw H. apply (word_eq_testbit 64); [done|lia|]. intros i Hi.
  rewrite Z.bits_0. by apply (first_bit_None 64 0 w); [..|lia].
Qed.

#[local] Arguments first_bit : simpl never.

(** What one run of the allocator promises: nothing when no frame is free,
    otherwise the lowest free frame, which leaves the free set. *)
Definition alloc_post (st st' : pmm_t) (paddr : Z) : Prop :=
  pmm_wf st' /\ total_frames st' = total_frames st /\
  ((free_set st = ∅ /\ st' = st /\ paddr = 0) \/
   exists f, f ∈ free_set st /\ (forall g, g ∈ free_set st -> f <= g) /\
     paddr = f * FRAME_SIZE /\ free_set st' = free_set st ∖ {[f]}).

Lemma alloc_scan_spec n idx st :
  pmm_wf st -> 0 <= idx -> bitmap_end st - idx <= Z.of_nat n ->
  (forall f, 0 <= f < 64 * idx -> frame_free st f = false) ->
  exists st' p, alloc_scan n idx st = Some (st', p) /\ alloc_post st st' p.
Proof.
  intros Hwf. pose proof (wf_total _ Hwf) as Ht. unfold BITMAP_WORDS in Ht.
  pose proof (bitmap_end_small st Hwf) as Hend.
  assert (Hnone : forall i, bitmap_end st <= i ->
    (forall f, 0 <= f < 64 * i -> frame_free st f = false) ->
    alloc_post st st 0).
  { intros i Hi Hlow. split_and!; [done..|left]. split_and!; [|done..].
    apply set_eq. intros f. rewrite elem_of_free_set_raw. split; [|set_solver].
    intros [Hf ?]. rewrite Hlow in Hf by lia. done. }
  revert idx. induction n as [|n IH]; intros idx Hi Hn Hlow; simpl.
  { exists st, 0. split; [done|]. apply (Hnone idx); [lia|done]. }
  destruct (Z.ltb_spec idx (bitmap_end st)) as [Hlt|]; [|by exists st, 0; split; [|eapply Hnone]].
  destruct (aget_in_range (bitmap st) idx) as [w Hw].
  { rewrite (wf_bitmap _ Hwf). unfold BITMAP_WORDS. lia. }
  rewrite Hw. simpl.
  assert (Hww : 0 <= w < 2 ^ 64).
  { apply aget_lookup in Hw. apply (Forall_lookup_1 _ _ _ _ (wf_words _ Hwf) Hw). }
  assert (Hfw : forall f, f / 64 = idx -> frame_free st f = Z.testbit w (f mod 64)).
  { intros f Hf. unfold frame_free. by rewrite Hf, Hw. }
  destruct (Z.eqb_spec w 0) as [->|Hw0].
  { apply IH; [lia..|]. intros f Hf. destruct (Z.lt_ge_cases f (64 * idx)); [apply Hlow; lia|].
    rewrite Hfw by lia. apply Z.bits_0. }
  destruct (first_bit 64 0 w) as [b|] eqn:Hb; [|by apply word_zero_bits in Hb].
  apply first_bit_Some in Hb as (Hb & Hbit & Hmin); [|done].
  remember (idx * 64 + b) as f eqn:Hf. assert (Hd : f / 64 = idx /\ f mod 64 = b) by lia.
  assert (Hff : frame_free st f = true).
  { rewrite Hfw by lia. by rewrite (proj2 Hd). }
  pose proof (proj2 (elem_of_free_set st f Hwf) Hff) as Hin.
  assert (Hfr : 0 <= f < total_frames st) by apply elem_of_free_set_raw, Hin.
  destruct (clear_frame st Hwf f w) as (bm & Hset & Hwf' & Hfs & Htot); [done|by rewrite (proj1 Hd)|done|].
  destruct Hd as [Hd1 Hd2]. rewrite Hd1, Hd2 in Hset. rewrite Hset. simpl.
  eexists _, _. split; [done|]. split_and!; [done..|right]. exists f. split_and!; try done.
  - intros g Hg. apply elem_of_free_set in Hg; [|done].
    destruct (Z.lt_ge_cases g f) as [Hgf|]; [|done]. pose proof (frame_free_nonneg _ _ Hg).
    destruct (Z.eq_dec (g / 64) idx) as [He|].
    + rewrite Hfw in Hg by done. rewrite Hmin in Hg by lia. done.
    + rewrite Hlow in Hg by lia. done.
  - unfold FRAME_SIZE. by nowrap.
Qed.

Lemma pmm_free_frame_ok st paddr :
  pmm_wf st -> 0 <= paddr / FRAME_SIZE < total_frames st ->
  paddr / FRAME_SIZE ∉ free_set st ->
  exists st', pmm_free_frame st paddr = Some st' /\ pmm_wf st' /\
    total_frames st' = total_frames st /\
    free_set st' = {[paddr / FRAME_SIZE]} ∪ free_set st.
Proof.
  intros Hwf Hf Hnot. unfold pmm_free_frame.
  destruct (word_in_use st _ Hwf Hf) as [Hlt [w Hw]].
  destruct (Z.leb_spec (bitmap_end st) (paddr / FRAME_SIZE / 64)); [lia|]. rewrite Hw. simpl.
  rewrite elem_of_free_set in Hnot by done. apply not_true_is_false in Hnot.
  destruct (set_frame st Hwf _ w Hf Hw Hnot) as (bm & -> & Hwf' & Hset & Htot).
  by eexists; split.
Qed.

Lemma range_end_small address length :
  0 <= address -> 0 <= length -> address + length + 4095 < 2 ^ 64 ->
  range_end address length = (address + length + 4095) / FRAME_SIZE.
Proof. intros. unfold range_end, FRAME_SIZE. nowrap. f_equal. lia. Qed.

Lemma pmm_allocate_frame_ok st :
  pmm_wf st ->
  exists st' p, pmm_allocate_frame st = Some (st', p) /\ alloc_post st st' p.
Proof.
  intros Hwf. apply alloc_scan_spec; [done|lia| |intros; lia].
  rewrite Z2Nat.id; [lia|]. rewrite bitmap_end_small by done. pose proof (wf_total _ Hwf). lia.
Qed.

Lemma pmm_add_available_range_ok st address length :
  pmm_wf st -> 0 <= address -> 0 < length -> address + length + 4095 < 2 ^ 64 ->
  exists st', pmm_add_available_range st address length = Some st' /\ pmm_wf st' /\
    total_frames st' = total_frames st /\
    free_set st' = free_set st ∪
      frames (address / FRAME_SIZE)
        (Z.min ((address + length + 4095) / FRAME_SIZE) (total_frames st)).
Proof.
  intros Hwf Ha Hl Hov. unfold pmm_add_available_range.
  destruct (Z.eqb_spec length 0); [lia|]. rewrite range_end_small by lia.
  apply add_loop_spec; [done| |]; unfold range_start, FRAME_SIZE; lia.
Qed.

Lemma pmm_reserve_range_ok st address length :
  pmm_wf st -> 0 <= address -> 0 < length -> address + length + 4095 < 2 ^ 64 ->
  exists st', pmm_reserve_range st address length = Some st' /\ pmm_wf st' /\
    total_frames st' = total_frames st /\
    free_set st' = free_set st ∖
      frames (address / FRAME_SIZE)
        (Z.min ((address + length + 4095) / FRAME_SIZE) (total_frames st)).
Proof.
  intros Hwf Ha Hl Hov. unfold pmm_reserve_range.
  destruct (Z.eqb_spec length 0); [lia|]. rewrite range_end_small by lia.
  apply reserve_loop_spec; [done| |]; unfold range_start, FRAME_SIZE; lia.
Qed.

Lemma clear_words_spec n i bm :
  0 <= i -> i + Z.of_nat n <= Z.of_nat (length bm) ->
  exists bm', clear_words n i bm = Some bm' /\ length bm' = length bm /\
    forall j, 0 <= j -> aget bm' j = if (i <=? j) && (j <? i + Z.of_nat n) then Some 0 else aget bm j.
Proof.
  revert i bm. induction n as [|n IH]; intros i bm Hi Hlen; simpl.
  - exists bm. split_and!; [done..|]. intros j Hj.
    repeat case_cmp; simpl; done || lia.
  - rewrite aset_in_range by lia. simpl.
    destruct (IH (i + 1) (<[Z.to_nat i := 0]> bm)) as (bm' & -> & Hl & Hget);
      [lia|rewrite length_insert; lia|].
    rewrite length_insert in Hl. exists bm'. split_and!; [done..|]. intros j Hj.
    rewrite Hget, aget_insert by lia.
    repeat case_cmp; simpl; done || lia.
Qed.

(** Number of frames that [pmm_initialize] manages. *)
Definition frames_of_memory (total_memory : Z) : Z :=
  Z.min ((total_memory + 4095) / FRAME_SIZE) (64 * BITMAP_WORDS).

Definition bitmap_ok (bm : list Z) : Prop :=
  Z.of_nat (length bm) = BITMAP_WORDS /\ Forall (fun w => w = 0) bm.

Lemma bitmap_ok_get bm i w : bitmap_ok bm -> aget bm i = Some w -> w = 0.
Proof. intros [_ Hz] Hw%aget_lookup. apply (Forall_lookup_1 _ _ _ _ Hz Hw). Qed.

Lemma pmm_initialize_ok st total_memory :
  bitmap_ok (bitmap st) -> 0 <= total_memory -> total_memory + 4095 < 2 ^ 64 ->
  exists st', pmm_initialize st total_memory = Some st' /\ pmm_wf st' /\
    total_frames st' = frames_of_memory total_memory /\ free_set st' = ∅.
Proof.
  intros Hbm Hm Hov. destruct (Hbm) as [Hlen Hz]. unfold pmm_initialize.
  set (total := u64 (total_memory + FRAME_SIZE - 1) / FRAME_SIZE).
  assert (Ht : total = (total_memory + 4095) / FRAME_SIZE).
  { unfold total, FRAME_SIZE. nowrap. f_equal. lia. }
  assert (Hsz : u64 (total + 63) / 64 = (total + 63) / 64).
  { rewrite Ht. unfold FRAME_SIZE. by nowrap. }
  rewrite Hsz.
  set (c := if _ <? _ then _ else _).
  assert (Hc : exists sz, c = (sz, frames_of_memory total_memory) /\ 0 <= sz <= BITMAP_WORDS).
  { unfold c, frames_of_memory. rewrite <- Ht. assert (0 <= total) by (rewrite Ht; unfold FRAME_SIZE; lia).
    unfold BITMAP_WORDS in *. destruct (Z.ltb_spec 131072 ((total + 63) / 64)).
    - exists 131072. rewrite Z.min_r by lia. split; [done|lia].
    - exists ((total + 63) / 64). rewrite Z.min_l by lia. split; [done|lia]. }
  destruct Hc as (sz & Hc & Hr). rewrite Hc. clear c Hc.
  destruct (clear_words_spec (Z.to_nat sz) 0 (bitmap st)) as (bm & Hcl & Hl & Hget); [lia|lia|].
  rewrite Hcl. simpl. eexists. split; [done|].
  assert (Hzero : forall i w, aget bm i = Some w -> w = 0).
  { intros i w Hw. rewrite Hget in Hw by (apply aget_Some_range in Hw; lia).
    destruct ((0 <=? i) && _); [by inversion Hw|by eapply bitmap_ok_get]. }
  assert (Hfree : forall t f, frame_free (Pmm bm t 0 0) f = false).
  { intros t f. unfold frame_free; simpl. destruct (aget bm (f / 64)) as [w|] eqn:E; [|done].
    rewrite (Hzero _ _ E). apply Z.bits_0. }
  assert (Hempty : forall t, free_set (Pmm bm t 0 0) = ∅).
  { intros t. apply set_eq. intros f. rewrite elem_of_free_set_raw, Hfree. set_solver. }
  split_and!; [|done|apply Hempty].
  apply Build_pmm_wf; cbn [bitmap total_frames free_frames].
  - by rewrite Hl.
  - apply Forall_lookup_2. intros i w Hw. rewrite (Hzero (Z.of_nat i) w); [lia|].
    rewrite aget_nonneg, Nat2Z.id by lia. done.
  - unfold frames_of_memory. rewrite <- Ht.
    assert (0 <= total) by (rewrite Ht; unfold FRAME_SIZE; lia). unfold BITMAP_WORDS. lia.
  - intros f _. apply Hfree.
  - rewrite Hempty, size_empty. done.
Qed.

(** ** Allocation sessions

    A client allocates frames and gives back frames that it holds; [held]
    is the set of frame numbers it was given and has not freed. *)
Inductive pmm_step : pmm_t * gset Z -> pmm_t * gset Z -> Prop :=
| step_alloc st st' p held :
    pmm_allocate_frame st = Some (st', p) -> p <> 0 ->
    pmm_step (st, held) (st', {[p / FRAME_SIZE]} ∪ held)
| step_alloc_fail st st' held :
    pmm_allocate_frame st = Some (st', 0) ->
    pmm_step (st, held) (st', held)
| step_free st st' paddr held :
    paddr / FRAME_SIZE ∈ held -> pmm_free_frame st paddr = Some st' ->
    pmm_step (st, held) (st', held ∖ {[paddr / FRAME_SIZE]}).

Definition session_inv (S0 : gset Z) (s : pmm_t * gset Z) : Prop :=
  pmm_wf s.1 /\ 0 ∉ S0 /\ S0 ⊆ frames 0 (total_frames s.1) /\
  s.2 ## free_set s.1 /\ free_set s.1 ∪ s.2 = S0.

Lemma session_step S0 s s' : pmm_step s s' -> session_inv S0 s -> session_inv S0 s'.
Proof.
  intros Hstep (Hwf & H0 & Hsub & Hdisj & Hun).
  destruct Hstep as [st st' p held Ha Hp | st st' held Ha | st st' paddr held Hin Hf];
    cbn [fst snd] in *.
  - destruct (pmm_allocate_frame_ok st Hwf) as (st1 & p1 & Ha1 & Hwf' & Htot & Hpost).
    rewrite Ha in Ha1. injection Ha1 as <- <-.
    destruct Hpost as [(_ & _ & ->)|(f & Hf & _ & -> & Hset)]; [done|].
    unfold FRAME_SIZE. rewrite Z.div_mul by done.
    split_and!; cbn [fst snd]; [done..|by rewrite Htot| |].
    + rewrite Hset. set_solver.
    + rewrite Hset. rewrite <- Hun. apply set_eq. intros g. destruct (decide (g = f)); set_solver.
  - destruct (pmm_allocate_frame_ok st Hwf) as (st1 & p1 & Ha1 & Hwf' & _ & Hpost).
    rewrite Ha in Ha1. injection Ha1 as <- <-.
    destruct Hpost as [(_ & -> & _)|(f & Hf & _ & Hp & Hset)]; [done|].
    assert (f = 0) as -> by (unfold FRAME_SIZE in Hp; lia). set_solver.
  - assert (Hr : 0 <= paddr / FRAME_SIZE < total_frames st) by (apply elem_of_frames; set_solver).
    destruct (pmm_free_frame_ok st paddr Hwf Hr) as (st1 & Hf1 & Hwf' & Htot & Hset); [set_solver|].
    rewrite Hf in Hf1. injection Hf1 as <-.
    split_and!; cbn [fst snd]; [done..|by rewrite Htot| |].
    + rewrite Hset. set_solver.
    + rewrite Hset, <- Hun. apply set_eq. intros g.
      destruct (decide (g = paddr / FRAME_SIZE)); set_solver.
Qed.

(** A well-formed state is determined by its abstraction. *)
Lemma pmm_ext st1 st2 :
  pmm_wf st1 -> pmm_wf st2 -> total_frames st1 = total_frames st2 ->
  base_address st1 = base_address st2 -> free_set st1 = free_set st2 -> st1 = st2.
Proof.
  intros H1 H2 Ht Hb Hs.
  assert (Hff : forall f, frame_free st1 f = frame_free st2 f).
  { intros f. apply eq_true_iff_eq. rewrite <- !elem_of_free_set by done. by rewrite Hs. }
  assert (Hc : free_frames st1 = free_frames st2).
  { by rewrite (wf_count _ H1), (wf_count _ H2), Hs. }
  assert (Hlen : length (bitmap st1) = length (bitmap st2)).
  { apply Nat2Z.inj. by rewrite (wf_bitmap _ H1), (wf_bitmap _ H2). }
  assert (Hbm : bitmap st1 = bitmap st2).
  { apply (list_eq_same_length _ _ (length (bitmap st2))); [done..|]. intros i w1 w2 Hi Hw1 Hw2.
    apply (word_eq_testbit 64).
    - apply (Forall_lookup_1 _ _ _ _ (wf_words _ H1) Hw1).
    - apply (Forall_lookup_1 _ _ _ _ (wf_words _ H2) Hw2).
    - intros b Hbr. specialize (Hff (Z.of_nat i * 64 + b)). unfold frame_free in Hff.
      replace ((Z.of_nat i * 64 + b) / 64) with (Z.of_nat i) in Hff by lia.
      replace ((Z.of_nat i * 64 + b) mod 64) with b in Hff by lia.
      rewrite !aget_nonneg, Nat2Z.id, Hw1, Hw2 in Hff by lia. exact Hff. }
  destruct st1, st2. simpl in *. by subst.
Qed.

Lemma alloc_scan_base n idx st st' p :
  alloc_scan n idx st = Some (st', p) -> base_address st' = base_address st.
Proof.
  revert idx. induction n as [|n IH]; intros idx; simpl; [congruence|].
  destruct (idx <? bitmap_end st); [|congruence].
  destruct (aget (bitmap st) idx) as [w|]; simpl; [|done].
  destruct (w =? 0); [apply IH|]. destruct (first_bit 64 0 w); [|apply IH].
  destruct (aset _ _ _); simpl; [|done]. intros [= <- _]. done.
Qed.

(** The memory layout that [kernel_main] sets up when the boot loader gave
    no memory map: all memory above 1 MiB is available, then the first
    2 MiB are reserved. *)
Definition boot_memory (total_memory : Z) : option pmm_t :=
  st ← pmm_initialize pmm_boot total_memory;
  st ← pmm_add_available_range st 0x100000 (u64 (total_memory - 0x100000));
  pmm_reserve_range st 0x0 0x200000.

Lemma pmm_boot_ok : bitmap_ok (bitmap pmm_boot).
Proof.
  unfold bitmap_ok. cbn [bitmap pmm_boot]. rewrite length_replicate. split.
  - apply Z2Nat.id. unfold BITMAP_WORDS. lia.
  - apply Forall_replicate. reflexivity.
Qed.

#[global] Opaque pmm_boot.

Lemma boot_memory_ok total_memory :
  0x200000 <= total_memory -> total_memory + 4095 < 2 ^ 64 ->
  exists st, boot_memory total_memory = Some st /\ pmm_wf st /\
    total_frames st = frames_of_memory total_memory /\
    free_set st = frames 512 (frames_of_memory total_memory).
Proof.
  intros Hlo Hov. unfold boot_memory.
  destruct (pmm_initialize_ok pmm_boot total_memory pmm_boot_ok) as (st & -> & Hwf & Htot & Hset);
    [lia|done|]. simpl.
  rewrite u64_small by lia.
  destruct (pmm_add_available_range_ok st 0x100000 (total_memory - 0x100000))
    as (st1 & -> & Hwf1 & Htot1 & Hset1); [done|lia..|]. simpl.
  destruct (pmm_reserve_range_ok st1 0 0x200000) as (st2 & -> & Hwf2 & Htot2 & Hset2); [done|lia..|].
  exists st2. split; [reflexivity|]. split; [exact Hwf2|].
  split; [by rewrite Htot2, Htot1|].
  rewrite Hset2, Htot1, Hset1, Hset, Htot. apply set_eq. intros f.
  rewrite elem_of_difference, elem_of_union, !elem_of_frames.
  change (0x100000 / FRAME_SIZE) with 256. change ((0 + 0x200000 + 4095) / FRAME_SIZE) with 512.
  change (0 / FRAME_SIZE) with 0.
  replace (0x100000 + (total_memory - 0x100000) + 4095) with (total_memory + 4095) by lia.
  assert (HT : frames_of_memory total_memory <= (total_memory + 4095) / FRAME_SIZE)
    by apply Z.le_min_l.
  rewrite (Z.min_r _ (frames_of_memory total_memory)) by exact HT.
  rewrite elem_of_empty. clear. lia.
Qed.

(** ** Theorems *)

(** C1: [pmm_allocate_frame] refines the abstract allocator: on every
    well-formed state it returns, without touching memory outside the
    bitmap; when no frame is free it returns 0 and changes nothing, and
    otherwise it returns the address of the lowest free frame, removes
    exactly that frame from the free set and keeps the state (with its free
    counter) well formed. *)
Theorem pmm_allocate_frame_refines st :
  pmm_wf st ->
  exists st' p, pmm_allocate_frame st = Some (st', p) /\ pmm_wf st' /\
    total_frames st' = total_frames st /\
    ((free_set st = ∅ /\ st' = st /\ p = 0) \/
     exists f, f ∈ free_set st /\ (forall g, g ∈ free_set st -> f <= g) /\
       p = f * FRAME_SIZE /\ free_set st' = free_set st ∖ {[f]} /\
       free_frames st' = free_frames st - 1).
Proof.
  intros Hwf. destruct (pmm_allocate_frame_ok st Hwf) as (st' & p & Ha & Hwf' & Htot & Hpost).
  exists st', p. split_and!; try done.
  destruct Hpost as [?|(f & Hf & Hmin & Hp & Hset)]; [by left|right].
  exists f. split_and!; try done.
  rewrite (wf_count _ Hwf), (wf_count _ Hwf'), Hset. by apply size_difference_elem.
Qed.

Lemma boot_memory_wf m st :
  0x200000 <= m -> m + 4095 < 2 ^ 64 -> boot_memory m = Some st ->
  pmm_wf st /\ free_set st = frames 512 (frames_of_memory m) /\
  total_frames st = frames_of_memory m.
Proof.
  intros Hlo Hhi Hb. destruct (boot_memory_ok m Hlo Hhi) as (st1 & Hb1 & ? & ? & ?).
  rewrite Hb in Hb1. by injection Hb1 as <-.
Qed.

(** A machine of 4 MiB after boot, used by the witnesses. *)
Definition small_machine : pmm_t := default pmm_boot (boot_memory 0x400000).

#[global] Opaque boot_memory.

Lemma small_machine_wf :
  pmm_wf small_machine /\ free_set small_machine = frames 512 1024 /\
  total_frames small_machine = 1024.
Proof.
  assert (Hlo : 0x200000 <= 0x400000) by lia. assert (Hhi : 0x400000 + 4095 < 2 ^ 64) by lia.
  assert (HT : frames_of_memory 0x400000 = 1024) by reflexivity.
  destruct (boot_memory_ok 0x400000 Hlo Hhi) as (st & Hb & Hwf & Htot & Hset).
  rewrite HT in Htot, Hset. unfold small_machine. rewrite Hb. simpl. auto.
Qed.

#[global] Opaque small_machine.

Lemma pmm_allocate_frame_refines_witness :
  exists st' p, pmm_allocate_frame small_machine = Some (st', p) /\ pmm_wf st' /\
    p = 512 * FRAME_SIZE.
Proof.
  destruct small_machine_wf as (Hwf & Hset & _).
  assert (Hin : 512 ∈ free_set small_machine) by (rewrite Hset; apply elem_of_frames; lia).
  destruct (pmm_allocate_frame_refines small_machine Hwf)
    as (st' & p & Ha & Hwf' & _ & [(He & _)|(f & Hf & Hmin & Hp & _)]); exists st', p.
  - exfalso. rewrite He in Hin. exact (not_elem_of_empty _ Hin).
  - specialize (Hmin 512 Hin). rewrite Hset in Hf. apply elem_of_frames in Hf.
    assert (f = 512) as -> by lia. auto.
Defined.

(** C2: Over any sequence of allocations and of frees of held frames, started
    on a well-formed state in which frame 0 is reserved, the frames that
    clients hold are disjoint from the free frames and together they are
    exactly the frames that were free at the start: no frame is ever handed
    out twice and none is lost. *)
Theorem pmm_sessions_sound st0 st held :
  pmm_wf st0 -> 0 ∉ free_set st0 -> rtc pmm_step (st0, ∅) (st, held) ->
  pmm_wf st /\ held ## free_set st /\ free_set st ∪ held = free_set st0 /\
  free_frames st + Z.of_nat (size held) = free_frames st0 /\
  forall st' p, pmm_allocate_frame st = Some (st', p) -> p <> 0 -> p / FRAME_SIZE ∉ held.
Proof.
  intros Hwf0 H0 Hsteps.
  assert (Hinv : session_inv (free_set st0) (st, held)).
  { cut (session_inv (free_set st0) (st0, ∅)).
    - remember (st0, ∅) as a. remember (st, held) as b. clear -Hsteps.
      induction Hsteps; eauto using session_step.
    - split_and!; simpl; [done..| |set_solver|set_solver].
      intros f Hf. by apply elem_of_frames, elem_of_free_set_raw. }
  destruct Hinv as (Hwf & _ & _ & Hdisj & Hun). simpl in *. split_and!; try done.
  - rewrite (wf_count _ Hwf), (wf_count _ Hwf0), <- Hun, size_union by set_solver. lia.
  - intros st' p Ha Hp. destruct (pmm_allocate_frame_ok st Hwf) as (st1 & p1 & Ha1 & _ & _ & Hpost).
    rewrite Ha in Ha1. injection Ha1 as <- <-.
    destruct Hpost as [(_ & _ & ->)|(f & Hf & _ & -> & _)]; [done|].
    unfold FRAME_SIZE. rewrite Z.div_mul by done. set_solver.
Qed.

Lemma pmm_sessions_sound_witness :
  exists st p, rtc pmm_step (small_machine, ∅) (st, {[p / FRAME_SIZE]} ∪ ∅) /\
    free_frames st + Z.of_nat (size ({[p / FRAME_SIZE]} ∪ ∅ : gset Z)) = free_frames small_machine.
Proof.
  destruct small_machine_wf as (Hwf & Hset & _).
  destruct (pmm_allocate_frame_ok small_machine Hwf) as (st & p & Ha & _ & _ & Hpost).
  assert (H0 : 0 ∉ free_set small_machine) by (rewrite Hset, elem_of_frames; lia).
  assert (Hp : p <> 0).
  { destruct Hpost as [(He & _)|(f & Hf & _ & -> & _)].
    - assert (Hin : 512 ∈ free_set small_machine) by (rewrite Hset; apply elem_of_frames; lia).
      rewrite He in Hin. destruct (not_elem_of_empty _ Hin).
    - rewrite Hset in Hf. apply elem_of_frames in Hf. unfold FRAME_SIZE. lia. }
  assert (Hrtc : rtc pmm_step (small_machine, ∅) (st, {[p / FRAME_SIZE]} ∪ ∅))
    by (eapply rtc_once, step_alloc; done).
  exists st, p. split; [exact Hrtc|].
  apply (pmm_sessions_sound small_machine st _ Hwf H0 Hrtc).
Defined.

(** Freeing a frame that was just allocated restores the allocator
    exactly: the two operations are inverse on every well-formed state with
    a free frame other than frame 0. *)
Theorem pmm_alloc_free_roundtrip st st' p :
  pmm_wf st -> pmm_allocate_frame st = Some (st', p) -> p <> 0 ->
  pmm_free_frame st' p = Some st.
Proof.
  intros Hwf Ha Hp. destruct (pmm_allocate_frame_ok st Hwf) as (st1 & p1 & Ha1 & Hwf' & Htot & Hpost).
  rewrite Ha in Ha1. injection Ha1 as <- <-.
  destruct Hpost as [(_ & _ & ->)|(f & Hf & _ & -> & Hset)]; [done|].
  assert (Hfr : 0 <= f < total_frames st) by apply elem_of_free_set_raw, Hf.
  assert (Hd : f * FRAME_SIZE / FRAME_SIZE = f) by (by apply Z.div_mul).
  destruct (pmm_free_frame_ok st' (f * FRAME_SIZE)) as (st2 & Hfree & Hwf2 & Htot2 & Hset2);
    rewrite ?Hd in *; [done|lia|rewrite Hset; set_solver|].
  rewrite Hfree. f_equal. apply pmm_ext; [done..|lia| |].
  - transitivity (base_address st'); [|exact (alloc_scan_base _ _ _ _ _ Ha)].
    unfold pmm_free_frame in Hfree. destruct (_ <=? _); [by injection Hfree as <-|].
    destruct (aget _ _); simpl in Hfree; [|done]. destruct (aset _ _ _); simpl in Hfree; [|done].
    by injection Hfree as <-.
  - rewrite Hset2, Hset. apply set_eq. intros g. destruct (decide (g = f)); set_solver.
Qed.

Lemma pmm_alloc_free_roundtrip_witness :
  exists st' p, pmm_allocate_frame small_machine = Some (st', p) /\ p <> 0 /\
    pmm_free_frame st' p = Some small_machine.
Proof.
  destruct small_machine_wf as (Hwf & Hset & _).
  destruct (pmm_allocate_frame_ok small_machine Hwf) as (st & p & Ha & _ & _ & Hpost).
  assert (Hp : p <> 0).
  { destruct Hpost as [(He & _)|(f & Hf & _ & -> & _)].
    - assert (Hin : 512 ∈ free_set small_machine) by (rewrite Hset; apply elem_of_frames; lia).
      rewrite He in Hin. destruct (not_elem_of_empty _ Hin).
    - rewrite Hset in Hf. apply elem_of_frames in Hf. unfold FRAME_SIZE. lia. }
  exists st, p. split_and!; [exact Ha|exact Hp|].
  exact (pmm_alloc_free_roundtrip small_machine st p Hwf Ha Hp).
Defined.

(** The boot layout of [kernel_main] on a machine without a memory map:
    initialising for [m] bytes, adding the memory above 1 MiB and reserving
    the first 2 MiB succeeds and leaves exactly the frames from 512 up to
    the number of managed frames free; in particular frame 0, whose address
    is the failure value of [pmm_allocate_frame], is never free. *)
Theorem pmm_boot_layout m :
  0x200000 <= m -> m + 4095 < 2 ^ 64 ->
  exists st, boot_memory m = Some st /\ pmm_wf st /\
    (forall f, f ∈ free_set st <-> 512 <= f < Z.min ((m + 4095) / FRAME_SIZE) (64 * BITMAP_WORDS)) /\
    0 ∉ free_set st.
Proof.
  intros Hlo Hhi. destruct (boot_memory_ok m Hlo Hhi) as (st & Hb & Hwf & _ & Hset).
  exists st. split_and!; [exact Hb|exact Hwf| |].
  - intros f. rewrite Hset, elem_of_frames. reflexivity.
  - rewrite Hset, elem_of_frames. lia.
Qed.

Lemma pmm_boot_layout_witness :
  exists st, boot_memory 0x180000000 = Some st /\ 0 ∉ free_set st.
Proof.
  destruct (pmm_boot_layout 0x180000000) as (st & Hb & _ & _ & H0); [lia|lia|].
  exists st. split; [exact Hb|exact H0].
Defined.

(** [pmm_add_available_range] rounds the end of the range up, so it marks
    a frame as allocatable although the byte at [address + length], which
    the memory map did not declare available, lies in it. *)
Theorem pmm_add_marks_partial_frame st address length :
  pmm_wf st -> 0 <= address -> 0 < length -> address + length + 4095 < 2 ^ 64 ->
  (address + length) mod FRAME_SIZE <> 0 ->
  (address + length) / FRAME_SIZE < total_frames st ->
  exists st', pmm_add_available_range st address length = Some st' /\ pmm_wf st' /\
    (address + length) / FRAME_SIZE ∈ free_set st'.
Proof.
  intros Hwf Ha Hl Hov Hpart Hin.
  destruct (pmm_add_available_range_ok st address length Hwf Ha Hl Hov) as (st' & He & Hwf' & _ & Hset).
  exists st'. split_and!; [exact He|exact Hwf'|]. rewrite Hset, elem_of_union, elem_of_frames.
  right. clear -Ha Hl Hpart Hin. unfold FRAME_SIZE in *. lia.
Qed.

Lemma pmm_add_marks_partial_frame_witness :
  exists st', pmm_add_available_range small_machine 0x0 0x9FC00 = Some st' /\
    0x9F ∈ free_set st'.
Proof.
  assert (H1 : 0 <= 0x0) by lia. assert (H2 : 0 < 0x9FC00) by lia.
  assert (H3 : 0x0 + 0x9FC00 + 4095 < 2 ^ 64) by lia.
  destruct small_machine_wf as (Hwf & _ & Ht).
  assert (Hp : (0x0 + 0x9FC00) mod FRAME_SIZE <> 0) by (vm_compute; discriminate).
  assert (Hin : (0x0 + 0x9FC00) / FRAME_SIZE < total_frames small_machine) by (rewrite Ht; reflexivity).
  destruct (pmm_add_marks_partial_frame small_machine 0x0 0x9FC00 Hwf H1 H2 H3 Hp Hin)
    as (st' & He & _ & Hf).
  exists st'. split; [exact He|exact Hf].
Defined.

(** Freeing a frame that is already free is not detected: the bitmap is
    unchanged but the free counter grows, so [pmm_get_available] no longer
    counts the free frames. *)
Theorem pmm_double_free_overcounts st paddr :
  pmm_wf st -> paddr / FRAME_SIZE ∈ free_set st ->
  exists st', pmm_free_frame st paddr = Some st' /\ bitmap st' = bitmap st /\
    free_set st' = free_set st /\
    free_frames st' = Z.of_nat (size (free_set st')) + 1 /\ ~ pmm_wf st'.
Proof.
  intros Hwf Hin. pose proof (proj1 (elem_of_free_set_raw _ _) Hin) as [Hff Hr].
  destruct (word_in_use st _ Hwf Hr) as [Hlt [w Hw]]. unfold pmm_free_frame.
  destruct (Z.leb_spec (bitmap_end st) (paddr / FRAME_SIZE / 64)); [lia|]. rewrite Hw. simpl.
  pose proof (word_range st Hwf _ w Hw) as Hww. pose proof (word_testbit st _ w Hw) as Hbit.
  assert (Hid : bit_set w ((paddr / FRAME_SIZE) mod 64) = w).
  { apply (word_eq_testbit 64); [apply bit_set_range; [lia|done]|done|]. intros i Hi.
    rewrite bit_set_testbit by lia. destruct (Z.eqb_spec i ((paddr / FRAME_SIZE) mod 64)) as [->|]; [|done].
    by rewrite Hbit, Hff. }
  rewrite Hid, aset_in_range by (by apply aget_Some_range in Hw). simpl.
  rewrite list_insert_id by (by apply aget_lookup).
  set (st' := set_bitmap st (bitmap st) (u64 (free_frames st + 1))).
  assert (Hset : free_set st' = free_set st) by reflexivity.
  assert (Hcnt : free_frames st' = Z.of_nat (size (free_set st)) + 1).
  { unfold st'. cbn [free_frames set_bitmap]. pose proof (free_frames_range st Hwf).
    rewrite u64_small by lia. by rewrite (wf_count _ Hwf). }
  exists st'. split_and!; [done..|].
  intros Hwf'. pose proof (wf_count _ Hwf') as Hc. rewrite Hset in Hc. lia.
Qed.

Lemma pmm_double_free_overcounts_witness :
  exists st', pmm_free_frame small_machine (0x258000) = Some st' /\ ~ pmm_wf st'.
Proof.
  destruct small_machine_wf as (Hwf & Hset & _).
  assert (Hin : 0x258000 / FRAME_SIZE ∈ free_set small_machine).
  { rewrite Hset, elem_of_frames. vm_compute. split; [discriminate|reflexivity]. }
  destruct (pmm_double_free_overcounts small_machine (0x258000) Hwf Hin) as (st' & He & _ & _ & _ & Hn).
  exists st'. split; [exact He|exact Hn].
Defined.
