(* ===== verification/Heap.v ===== *)
(** * Kernel heap ([src/heap.c])

    [kmalloc] serves small requests from five slab caches of 32 objects and
    everything else from 64 blocks of 1 MiB.  The abstract state is the
    finite map from the address of a live allocation to its size,
    [live_at]. *)

From S2P Require Import Prelude.

(** ** State and operations *)

Definition SLAB_OBJECTS_PER_CACHE : Z := 32.
Definition BUDDY_BLOCKS_MAX : Z := 64.

(** [slab_object_t] and [buddy_block_t] have the same fields. *)
Record block := Block {
  address : Z;
  size : Z;
  used : bool;
  owner : string;
  next : Z
}.
Abbreviation slab_object_t := block.
Abbreviation buddy_block_t := block.

Record slab_cache := SlabCache {
  objects : list slab_object_t;
  free_count : Z
}.

Record heap_t := Heap {
  slab_caches : list slab_cache;
  buddy_blocks : list buddy_block_t;
  buddy_block_count : Z
}.

Definition slab_address (cache_idx i : Z) : Z :=
  0x100000 + cache_idx * 0x10000 + i * 512.
Definition buddy_address (i : Z) : Z := 0x200000 + i * 0x100000.

Definition init_slab_caches : list slab_cache :=
  (fun cache_idx =>
     SlabCache ((fun i => Block (slab_address cache_idx i) 0 false "Free" 0) <$> seqZ 0 32) 32)
  <$> seqZ 0 5.

Definition init_buddy_blocks : list buddy_block_t :=
  (fun i => Block (buddy_address i) 0x100000 false "Free" 0) <$> seqZ 0 64.

(** Every element of the two arrays is overwritten, so the result does not
    depend on the previous state. *)
Definition heap_initialize : heap_t :=
  Heap init_slab_caches init_buddy_blocks BUDDY_BLOCKS_MAX.

Definition slab_cache_index (sz : Z) : Z :=
  if sz <=? 16 then 0
  else if sz <=? 32 then 1
  else if sz <=? 64 then 2
  else if sz <=? 128 then 3
  else if sz <=? 256 then 4
  else -1.

(** The slab part of [kmalloc]; [None] falls through to the buddy blocks. *)
Definition slab_alloc (st : heap_t) (cache_idx sz : Z) (owner_name : string)
    : option (heap_t * Z) :=
  if (0 <=? cache_idx) && (cache_idx <? 5) then
    c ← slab_caches st !! Z.to_nat cache_idx;
    i ← first_index (fun o => negb (used o)) (objects c);
    o ← objects c !! i;
    let o' := Block (address o) sz true owner_name (next o) in
    let c' := SlabCache (<[i := o']> (objects c)) (u32 (free_count c - 1)) in
    Some (Heap (<[Z.to_nat cache_idx := c']> (slab_caches st))
            (buddy_blocks st) (buddy_block_count st), address o)
  else None.

Definition buddy_fits (sz : Z) (b : buddy_block_t) : bool :=
  negb (used b) && (sz <=? size b).

(** The blocks that the loops over [buddy_block_count] visit. *)
Definition buddy_scan (st : heap_t) : list buddy_block_t :=
  take (Z.to_nat (buddy_block_count st)) (buddy_blocks st).

Definition set_buddy (st : heap_t) (i : nat) (b : buddy_block_t) : heap_t :=
  Heap (slab_caches st) (<[i := b]> (buddy_blocks st)) (buddy_block_count st).

Definition buddy_alloc (st : heap_t) (sz : Z) (owner_name : string) : option (heap_t * Z) :=
  i ← first_index (buddy_fits sz) (buddy_scan st);
  b ← buddy_blocks st !! i;
  Some (set_buddy st i (Block (address b) sz true owner_name (next b)), address b).

Definition kmalloc (st : heap_t) (sz : Z) (owner_name : string) : heap_t * Z :=
  if sz =? 0 then (st, 0)
  else
    match slab_alloc st (slab_cache_index sz) sz owner_name with
    | Some r => r
    | None =>
      match buddy_alloc st sz owner_name with
      | Some r => r
      | None => (st, 0)
      end
    end.

(** The test of the two search loops of [kfree]. *)
Definition block_at (addr : Z) (b : block) : bool := (address b =? addr) && used b.

(** The nested loops over caches and objects. *)
Fixpoint find_slab (addr : Z) (caches : list slab_cache) : option (nat * nat) :=
  match caches with
  | [] => None
  | c :: cs =>
    match first_index (block_at addr) (objects c) with
    | Some i => Some (0%nat, i)
    | None => (fun p => (S p.1, p.2)) <$> find_slab addr cs
    end
  end.

Definition slab_free (st : heap_t) (addr : Z) : option heap_t :=
  '(k, i) ← find_slab addr (slab_caches st);
  c ← slab_caches st !! k;
  o ← objects c !! i;
  let o' := Block (address o) 0 false "Free" (next o) in
  let c' := SlabCache (<[i := o']> (objects c)) (u32 (free_count c + 1)) in
  Some (Heap (<[k := c']> (slab_caches st)) (buddy_blocks st) (buddy_block_count st)).

Definition buddy_free (st : heap_t) (addr : Z) : option heap_t :=
  i ← first_index (block_at addr) (buddy_scan st);
  b ← buddy_blocks st !! i;
  Some (set_buddy st i (Block (address b) (size b) false "Free" (next b))).

Definition kfree (st : heap_t) (addr : Z) : heap_t :=
  if addr =? 0 then st
  else
    match slab_free st addr with
    | Some st' => st'
    | None =>
      match buddy_free st addr with
      | Some st' => st'
      | None => st
      end
    end.

(** The loop of [heap_coalesce] from index [i], [n] iterations left; block
    [i + 1] is read only when block [i] is free. *)
Fixpoint coalesce_loop (n : nat) (i : Z) (blocks : list buddy_block_t)
    : option (list buddy_block_t) :=
  match n with
  | O => Some blocks
  | S n' =>
    b ← aget blocks i;
    if used b then coalesce_loop n' (i + 1) blocks
    else
      c ← aget blocks (i + 1);
      if negb (used c) && (size b =? size c) && (u64 (address b + size b) =? address c) then
        blocks ← aset blocks i (Block (address b) (u64 (size b * 2)) (used b) (owner b) (next b));
        blocks ← aset blocks (i + 1) (Block (address c) 0 (used c) "Merged" (next c));
        coalesce_loop n' (i + 1) blocks
      else coalesce_loop n' (i + 1) blocks
  end.

Definition heap_coalesce (st : heap_t) : option heap_t :=
  blocks ← coalesce_loop (Z.to_nat (u32 (buddy_block_count st - 1))) 0 (buddy_blocks st);
  Some (Heap (slab_caches st) blocks (buddy_block_count st)).

(** ** Abstract state *)

(** A slot is an entry of one of the arrays. *)
Inductive slot := Slab (cache_idx i : nat) | Buddy (i : nat).

#[export] Instance slot_eq_dec : EqDecision slot.
Proof. solve_decision. Defined.

Definition slot_get (st : heap_t) (s : slot) : option block :=
  match s with
  | Slab k i => c ← slab_caches st !! k; objects c !! i
  | Buddy i => buddy_blocks st !! i
  end.

(** The size of the live allocation at [addr]. *)
Definition live_at (st : heap_t) (addr : Z) : option Z :=
  match find_slab addr (slab_caches st) with
  | Some (k, i) => size <$> slot_get st (Slab k i)
  | None =>
    match first_index (block_at addr) (buddy_blocks st) with
    | Some i => size <$> slot_get st (Buddy i)
    | None => None
    end
  end.

(** The largest request that a slab cache serves. *)
Definition class_size (k : nat) : Z := 16 * 2 ^ Z.of_nat k.

Definition count_free (l : list block) : Z := Z.of_nat (length (filter (fun o => used o = false) l)).

Record slab_wf (k i : nat) (o : block) : Prop := {
  slab_addr : address o = slab_address (Z.of_nat k) (Z.of_nat i);
  slab_used : used o = true -> 0 < size o <= class_size k;
  slab_unused : used o = false -> size o = 0 /\ owner o = "Free"
}.

Record cache_wf (k : nat) (c : slab_cache) : Prop := {
  cache_len : length (objects c) = 32%nat;
  cache_objects : forall i o, objects c !! i = Some o -> slab_wf k i o;
  cache_count : free_count c = count_free (objects c)
}.

(** Blocks keep their addresses; a block ends before every later block that
    is not empty, and inside the heap. *)
Record buddies_wf (l : list block) : Prop := {
  buddies_len : length l = 64%nat;
  buddies_addr : forall i b, l !! i = Some b -> address b = buddy_address (Z.of_nat i);
  buddies_size : forall i b, l !! i = Some b ->
    0 <= size b /\ address b + size b <= buddy_address 64 /\ (used b = true -> 0 < size b);
  buddies_sep : forall i j b c, (i < j)%nat -> l !! i = Some b -> l !! j = Some c ->
    0 < size c -> address b + size b <= address c
}.

Record heap_wf (st : heap_t) : Prop := {
  wf_caches_len : length (slab_caches st) = 5%nat;
  wf_caches : forall k c, slab_caches st !! k = Some c -> cache_wf k c;
  wf_buddies : buddies_wf (buddy_blocks st);
  wf_buddy_count : buddy_block_count st = BUDDY_BLOCKS_MAX
}.

(** ** Searches and counters *)

Lemma block_at_true addr b : block_at addr b = true <-> address b = addr /\ used b = true.
Proof. unfold block_at. by rewrite andb_true_iff, Z.eqb_eq. Qed.

Lemma find_slab_Some addr caches k i :
  find_slab addr caches = Some (k, i) ->
  exists c o, caches !! k = Some c /\ objects c !! i = Some o /\ block_at addr o = true.
Proof.
  revert k. induction caches as [|c cs IH]; intros k; simpl; [done|].
  destruct (first_index (block_at addr) (objects c)) as [j|] eqn:E.
  - intros [= <- <-]. apply first_index_Some in E as (o & Ho & Hp & _). by exists c, o.
  - rewrite fmap_Some. intros ([k' i'] & Hf & [= -> ->]). by apply IH.
Qed.

Lemma find_slab_None addr caches :
  find_slab addr caches = None ->
  forall k c i o, caches !! k = Some c -> objects c !! i = Some o -> block_at addr o = false.
Proof.
  induction caches as [|c cs IH]; simpl; [intros _ k ? ? ?; by rewrite lookup_nil|].
  destruct (first_index (block_at addr) (objects c)) as [j|] eqn:E; [done|].
  rewrite fmap_None. intros Hf [|k] c' i o Hc Ho; simpl in Hc.
  - injection Hc as <-. by eapply first_index_None.
  - by eapply IH.
Qed.

Lemma count_free_insert l i o o' :
  l !! i = Some o ->
  count_free (<[i := o']> l) + (if used o then 0 else 1) = count_free l + (if used o' then 0 else 1).
Proof.
  intros Hi. unfold count_free.
  rewrite insert_take_drop by (by eapply lookup_lt_Some).
  rewrite <- (take_drop_middle l i o Hi) at 3.
  rewrite !filter_app, !filter_cons, !length_app.
  destruct (used o), (used o'); repeat case_decide; simpl; done || lia.
Qed.

Lemma count_free_range l : 0 <= count_free l <= Z.of_nat (length l).
Proof. unfold count_free. pose proof (length_filter (fun o => used o = false) l). lia. Qed.

(** ** Addresses identify slots *)

Lemma slab_slot st k i o :
  heap_wf st -> slot_get st (Slab k i) = Some o ->
  (k < 5)%nat /\ (i < 32)%nat /\ slab_wf k i o.
Proof.
  intros Hwf. simpl. destruct (slab_caches st !! k) as [c|] eqn:Hc; simpl; [|done]. intros Ho.
  pose proof (wf_caches _ Hwf _ _ Hc) as Hcw.
  apply lookup_lt_Some in Hc. rewrite (wf_caches_len _ Hwf) in Hc.
  pose proof (lookup_lt_Some _ _ _ Ho) as Hi. rewrite (cache_len _ _ Hcw) in Hi.
  split_and!; [done..|]. by apply (cache_objects _ _ Hcw).
Qed.

Lemma buddy_slot st i b :
  heap_wf st -> slot_get st (Buddy i) = Some b ->
  (i < 64)%nat /\ address b = buddy_address (Z.of_nat i) /\ 0 <= size b /\
  address b + size b <= buddy_address 64 /\ (used b = true -> 0 < size b).
Proof.
  intros Hwf Hb. pose proof (wf_buddies _ Hwf) as Hw. simpl in Hb.
  pose proof (lookup_lt_Some _ _ _ Hb) as Hi. rewrite (buddies_len _ Hw) in Hi.
  pose proof (buddies_size _ Hw _ _ Hb) as (? & ? & ?).
  split_and!; try done. by apply (buddies_addr _ Hw).
Qed.

Lemma class_size_cases k : (k < 5)%nat -> 16 <= class_size k <= 256.
Proof. intros. do 5 (destruct k as [|k]; [vm_compute; split; discriminate|]). lia. Qed.

Lemma slot_addr_inj st s1 s2 b1 b2 :
  heap_wf st -> slot_get st s1 = Some b1 -> slot_get st s2 = Some b2 ->
  address b1 = address b2 -> s1 = s2.
Proof.
  intros Hwf H1 H2 He.
  destruct s1 as [k1 i1|i1], s2 as [k2 i2|i2];
    try (apply slab_slot in H1 as (? & ? & [A1 _ _]); [|done]);
    try (apply slab_slot in H2 as (? & ? & [A2 _ _]); [|done]);
    try (apply buddy_slot in H1 as (? & A1 & _); [|done]);
    try (apply buddy_slot in H2 as (? & A2 & _); [|done]);
    rewrite A1, A2 in He; unfold slab_address, buddy_address in He; try lia.
  - assert (k1 = k2) as <- by lia. f_equal. lia.
  - f_equal. lia.
Qed.

Lemma live_at_iff st a z :
  heap_wf st ->
  live_at st a = Some z <->
  exists s b, slot_get st s = Some b /\ used b = true /\ address b = a /\ size b = z.
Proof.
  intros Hwf. unfold live_at. split.
  - destruct (find_slab a (slab_caches st)) as [[k i]|] eqn:E.
    + apply find_slab_Some in E as (c & o & Hc & Ho & [? ?]%block_at_true).
      rewrite fmap_Some. intros (b & Hb & ->). exists (Slab k i), b.
      assert (b = o) as -> by (simpl in Hb; rewrite Hc in Hb; simpl in Hb; congruence). done.
    + destruct (first_index (block_at a) (buddy_blocks st)) as [i|] eqn:F; [|done].
      apply first_index_Some in F as (o & Ho & [? ?]%block_at_true & _).
      rewrite fmap_Some. intros (b & Hb & ->). exists (Buddy i), b.
      assert (b = o) as -> by (simpl in Hb; congruence). done.
  - intros (s & b & Hs & Hu & Ha & <-).
    destruct (find_slab a (slab_caches st)) as [[k i]|] eqn:E.
    + apply find_slab_Some in E as (c & o & Hc & Ho & [Ho1 _]%block_at_true).
      assert (Hs' : slot_get st (Slab k i) = Some o) by (simpl; by rewrite Hc).
      rewrite <- (slot_addr_inj st s (Slab k i) b o), Hs by (done || congruence). done.
    + destruct s as [k i|i].
      { exfalso. simpl in Hs. destruct (slab_caches st !! k) as [c|] eqn:Hc; simpl in Hs; [|done].
        pose proof (find_slab_None _ _ E _ _ _ _ Hc Hs) as Hn.
        rewrite (proj2 (block_at_true a b)) in Hn; done. }
      destruct (first_index (block_at a) (buddy_blocks st)) as [j|] eqn:F.
      * apply first_index_Some in F as (o & Ho & [Ho1 _]%block_at_true & _).
        rewrite <- (slot_addr_inj st (Buddy i) (Buddy j) b o), Hs by (done || congruence). done.
      * exfalso. pose proof (proj1 (first_index_None _ _) F i b Hs) as Hn.
        rewrite (proj2 (block_at_true a b)) in Hn; done.
Qed.

(** Writing one slot, address kept, changes the allocation at that address
    only. *)
Lemma live_at_update st st' s b b' :
  heap_wf st -> heap_wf st' -> slot_get st s = Some b -> address b' = address b ->
  (forall s', slot_get st' s' = if decide (s' = s) then Some b' else slot_get st s') ->
  forall a, live_at st' a =
    if a =? address b then (if used b' then Some (size b') else None) else live_at st a.
Proof.
  intros Hwf Hwf' Hs Ha Hget a. apply option_eq. intros z. rewrite live_at_iff by done.
  destruct (Z.eqb_spec a (address b)) as [->|Hne].
  - split.
    + intros (s2 & b2 & H2 & Hu & Ha2 & <-). pose proof H2 as H2'.
      rewrite Hget in H2'. destruct (decide (s2 = s)) as [->|Hne].
      * injection H2' as <-. by rewrite Hu.
      * destruct Hne. by eapply (slot_addr_inj st s2 s).
    + destruct (used b') eqn:Hu; [|done]. intros [= <-]. exists s, b'.
      rewrite Hget. by rewrite decide_True.
  - rewrite live_at_iff by done. split; intros (s2 & b2 & H2 & Hu & Ha2 & Hz); exists s2, b2.
    + rewrite Hget in H2. destruct (decide (s2 = s)); [|done]. exfalso. apply Hne. congruence.
    + rewrite Hget. destruct (decide (s2 = s)) as [->|]; [|done]. exfalso. apply Hne. congruence.
Qed.

(** Live allocations do not overlap. *)
Lemma live_disjoint st a1 z1 a2 z2 :
  heap_wf st -> live_at st a1 = Some z1 -> live_at st a2 = Some z2 -> a1 <> a2 ->
  a1 + z1 <= a2 \/ a2 + z2 <= a1.
Proof.
  intros Hwf H1 H2 Hne.
  apply live_at_iff in H1 as (s1 & b1 & G1 & U1 & A1 & Z1); [|done].
  apply live_at_iff in H2 as (s2 & b2 & G2 & U2 & A2 & Z2); [|done]. subst a1 a2 z1 z2.
  destruct s1 as [k1 i1|i1], s2 as [k2 i2|i2];
    try (apply slab_slot in G1 as (? & ? & [A1 S1 _]); [|done]; specialize (S1 U1));
    try (apply slab_slot in G2 as (? & ? & [A2 S2 _]); [|done]; specialize (S2 U2));
    try (pose proof (class_size_cases k1 ltac:(done)));
    try (pose proof (class_size_cases k2 ltac:(done)));
    try (pose proof G1 as G1'; apply buddy_slot in G1 as (? & A1 & ? & ? & S1); [|done]; specialize (S1 U1));
    try (pose proof G2 as G2'; apply buddy_slot in G2 as (? & A2 & ? & ? & S2); [|done]; specialize (S2 U2)).
  - rewrite A1, A2 in *. unfold slab_address in *.
    destruct (decide (k1 = k2)) as [->|]; [|lia]. assert (i1 <> i2) by congruence. lia.
  - rewrite A1, A2 in *. unfold slab_address, buddy_address in *. lia.
  - rewrite A1, A2 in *. unfold slab_address, buddy_address in *. lia.
  - assert (i1 <> i2) by congruence. pose proof (buddies_sep _ (wf_buddies _ Hwf)) as Hsep.
    destruct (decide (i1 < i2)%nat).
    + left. by eapply (Hsep i1 i2).
    + right. eapply (Hsep i2 i1); [lia|done..].
Qed.

(** ** Writing a slot keeps the heap well formed *)

Definition set_slab (st : heap_t) (k : nat) (c : slab_cache) (i : nat) (o : block) (n : Z) : heap_t :=
  Heap (<[k := SlabCache (<[i := o]> (objects c)) n]> (slab_caches st))
    (buddy_blocks st) (buddy_block_count st).

Section set_slab.
Context (st : heap_t) (Hwf : heap_wf st) (k i : nat) (c : slab_cache) (o o' : block) (n : Z).
Context (Hc : slab_caches st !! k = Some c) (Ho : objects c !! i = Some o).

Lemma set_slab_get s :
  slot_get (set_slab st k c i o' n) s = if decide (s = Slab k i) then Some o' else slot_get st s.
Proof using Hc Ho.
  destruct s as [k' i'|i']; simpl; [|done].
  destruct (decide (k' = k)) as [->|Hk].
  - rewrite list_lookup_insert_eq by (by eapply lookup_lt_Some). simpl. rewrite Hc. simpl.
    destruct (decide (i' = i)) as [->|Hi].
    + rewrite list_lookup_insert_eq by (by eapply lookup_lt_Some). by rewrite decide_True.
    + rewrite list_lookup_insert_ne by done. rewrite decide_False by congruence. done.
  - rewrite list_lookup_insert_ne by done. rewrite decide_False by congruence. done.
Qed.

Lemma set_slab_wf :
  slab_wf k i o' ->
  n = free_count c + (if used o' then 0 else 1) - (if used o then 0 else 1) ->
  heap_wf (set_slab st k c i o' n).
Proof using Hwf Hc Ho.
  intros Hw Hn. pose proof (wf_caches _ Hwf _ _ Hc) as [Hl Hobj Hcnt].
  apply Build_heap_wf; simpl; try apply Hwf.
  - rewrite length_insert. apply Hwf.
  - intros k2 c2. destruct (decide (k2 = k)) as [->|].
    + rewrite list_lookup_insert_eq by (by eapply lookup_lt_Some). intros [= <-].
      apply Build_cache_wf; simpl.
      * by rewrite length_insert.
      * intros i2 o2. destruct (decide (i2 = i)) as [->|].
        -- rewrite list_lookup_insert_eq by (by eapply lookup_lt_Some). by intros [= <-].
        -- rewrite list_lookup_insert_ne by done. apply Hobj.
      * pose proof (count_free_insert _ _ _ o' Ho). lia.
    + rewrite list_lookup_insert_ne by done. apply Hwf.
Qed.
End set_slab.

Section set_buddy.
Context (st : heap_t) (Hwf : heap_wf st) (i : nat) (b b' : block).
Context (Hb : buddy_blocks st !! i = Some b).

Lemma set_buddy_get s :
  slot_get (set_buddy st i b') s = if decide (s = Buddy i) then Some b' else slot_get st s.
Proof using Hb.
  destruct s as [k' i'|i']; simpl; [done|].
  destruct (decide (i' = i)) as [->|].
  - rewrite list_lookup_insert_eq by (by eapply lookup_lt_Some). by rewrite decide_True.
  - rewrite list_lookup_insert_ne by done. by rewrite decide_False by congruence.
Qed.

(** A block may shrink, but not to nothing while it is in use. *)
Lemma set_buddy_wf :
  address b' = address b -> 0 <= size b' <= size b -> (used b' = true -> 0 < size b') ->
  heap_wf (set_buddy st i b').
Proof using Hwf Hb.
  intros Ha Hs Hu. pose proof (wf_buddies _ Hwf) as [Hl Haddr Hsize Hsep].
  pose proof (Hsize _ _ Hb) as (? & ? & ?).
  apply Build_heap_wf; simpl; try apply Hwf.
  assert (Hlk : forall j c, <[i := b']> (buddy_blocks st) !! j = Some c ->
    exists d, buddy_blocks st !! j = Some d /\ address c = address d /\ size c <= size d /\
      (c = b' /\ j = i \/ c = d)).
  { intros j c. destruct (decide (j = i)) as [->|].
    - rewrite list_lookup_insert_eq by (by eapply lookup_lt_Some). intros [= <-].
      exists b. split_and!; [done..|lia|by left].
    - rewrite list_lookup_insert_ne by done. intros Hc. exists c. split_and!; [done..|by right]. }
  apply Build_buddies_wf.
  - by rewrite length_insert.
  - intros j c (d & Hd & -> & _)%Hlk. by apply Haddr.
  - intros j c (d & Hd & Hda & Hds & [[-> ->] | ->])%Hlk; [|by eapply Hsize].
    split_and!; [lia|lia|done].
  - intros j1 j2 c1 c2 Hlt (d1 & Hd1 & -> & ? & _)%Hlk (d2 & Hd2 & -> & ? & _)%Hlk Hpos.
    pose proof (Hsep j1 j2 d1 d2 Hlt Hd1 Hd2 ltac:(lia)). lia.
Qed.
End set_buddy.

Lemma buddy_scan_all st : heap_wf st -> buddy_scan st = buddy_blocks st.
Proof.
  intros Hwf. unfold buddy_scan. rewrite (wf_buddy_count _ Hwf). apply take_ge.
  rewrite (buddies_len _ (wf_buddies _ Hwf)). done.
Qed.

Lemma slab_cache_index_range sz :
  0 < sz -> slab_cache_index sz = -1 /\ 256 < sz \/
  exists k, slab_cache_index sz = Z.of_nat k /\ (k < 5)%nat /\ sz <= class_size k.
Proof.
  intros Hsz. unfold slab_cache_index. repeat case_cmp; [right..|left; lia];
    [exists 0%nat|exists 1%nat|exists 2%nat|exists 3%nat|exists 4%nat];
    (split_and!; [done|lia|unfold class_size; simpl; lia]).
Qed.

(** What [kmalloc] promises when it returns [p]. *)
Definition kmalloc_post (st st' : heap_t) (sz p : Z) : Prop :=
  heap_wf st' /\ p <> 0 /\ live_at st p = None /\
  forall a, live_at st' a = if a =? p then Some sz else live_at st a.

Definition taken (o : block) (sz : Z) (name : string) : block :=
  Block (address o) sz true name (next o).

Lemma slab_alloc_inv st sz name st' p :
  heap_wf st -> 0 < sz -> slab_alloc st (slab_cache_index sz) sz name = Some (st', p) ->
  exists k c i o, slab_caches st !! k = Some c /\ objects c !! i = Some o /\ used o = false /\
    sz <= class_size k /\ 1 <= free_count c <= 32 /\ p = address o /\
    st' = set_slab st k c i (taken o sz name) (free_count c - 1).
Proof.
  intros Hwf Hsz. unfold slab_alloc.
  destruct (slab_cache_index_range sz Hsz) as [[-> _]|(k & -> & Hk & Hcl)]; [done|].
  destruct (_ && _); [|done]. rewrite Nat2Z.id.
  destruct (slab_caches st !! k) as [c|] eqn:Hc; simpl; [|done].
  destruct (first_index _ (objects c)) as [i|] eqn:Hi; simpl; [|done].
  apply first_index_Some in Hi as (o & Ho & Hu & _). apply negb_true_iff in Hu. rewrite Ho. simpl.
  intros [= <- <-]. pose proof (wf_caches _ Hwf _ _ Hc) as [Hl Hobj Hcnt].
  assert (Hcf : 1 <= free_count c <= 32).
  { rewrite Hcnt. pose proof (count_free_range (objects c)). rewrite Hl in *.
    pose proof (count_free_insert _ _ _ (taken o sz name) Ho) as Hx. rewrite Hu in Hx. simpl in Hx.
    pose proof (count_free_range (<[i:=taken o sz name]> (objects c))). lia. }
  exists k, c, i, o. split_and!; try done; try lia. by rewrite u32_small by lia.
Qed.

Lemma slab_alloc_ok st sz name st' p :
  heap_wf st -> 0 < sz -> slab_alloc st (slab_cache_index sz) sz name = Some (st', p) ->
  kmalloc_post st st' sz p.
Proof.
  intros Hwf Hsz Ha. apply slab_alloc_inv in Ha as (k & c & i & o & Hc & Ho & Hu & Hcl & Hcf & -> & ->);
    [|done..].
  pose proof (wf_caches _ Hwf _ _ Hc) as [Hl Hobj Hcnt]. pose proof (Hobj _ _ Ho) as [Ha _ Hun].
  assert (Hwf' : heap_wf (set_slab st k c i (taken o sz name) (free_count c - 1))).
  { eapply set_slab_wf; [done..| |]; simpl; [|rewrite Hu; lia].
    split; simpl; [done|intros; lia|done]. }
  assert (Hs : slot_get st (Slab k i) = Some o) by (simpl; by rewrite Hc).
  split_and!; [done| | |].
  - rewrite Ha. unfold slab_address. lia.
  - apply eq_None_not_Some. intros [z Hz]. apply live_at_iff in Hz as (s & b & G & U & A & _); [|done].
    pose proof (slot_addr_inj st s (Slab k i) b o Hwf G Hs A) as ->. congruence.
  - intros a. rewrite (live_at_update st _ (Slab k i) o (taken o sz name)); try done.
    intros s'. by apply set_slab_get with o.
Qed.

Lemma buddy_alloc_ok st sz name st' p :
  heap_wf st -> 0 < sz -> buddy_alloc st sz name = Some (st', p) -> kmalloc_post st st' sz p.
Proof.
  intros Hwf Hsz. unfold buddy_alloc. rewrite buddy_scan_all by done.
  destruct (first_index _ (buddy_blocks st)) as [i|] eqn:Hi; simpl; [|done].
  apply first_index_Some in Hi as (b & Hb & Hp & _).
  apply andb_true_iff in Hp as [Hu Hfit]. apply negb_true_iff in Hu. apply Z.leb_le in Hfit.
  rewrite Hb. simpl. intros [= <- <-]. set (b' := Block _ _ _ _ _).
  assert (Hwf' : heap_wf (set_buddy st i b')).
  { eapply set_buddy_wf; [done..| |]; simpl; [lia|done]. }
  split_and!; [done| | |].
  - rewrite (buddies_addr _ (wf_buddies _ Hwf) _ _ Hb). unfold buddy_address. lia.
  - apply eq_None_not_Some. intros [z Hz]. apply live_at_iff in Hz as (s & d & G & U & A & _); [|done].
    pose proof (slot_addr_inj st s (Buddy i) d b Hwf G Hb A) as ->. simpl in G. congruence.
  - intros a. rewrite (live_at_update st _ (Buddy i) b b'); try done.
    intros s'. by apply set_buddy_get with b.
Qed.

Lemma kmalloc_ok st sz name st' p :
  heap_wf st -> 0 <= sz -> kmalloc st sz name = (st', p) ->
  (p = 0 /\ st' = st) \/ (0 < sz /\ kmalloc_post st st' sz p).
Proof.
  intros Hwf Hsz. unfold kmalloc. destruct (Z.eqb_spec sz 0); [intros [= <- <-]; by left|].
  destruct (slab_alloc _ _ _ _) as [r|] eqn:E.
  { intros ->. right. split; [lia|]. eapply slab_alloc_ok; [done|lia|done]. }
  destruct (buddy_alloc _ _ _) as [r|] eqn:F; [|intros [= <- <-]; by left].
  intros ->. right. split; [lia|]. eapply buddy_alloc_ok; [done|lia|done].
Qed.

Lemma live_at_pos st a z : heap_wf st -> live_at st a = Some z -> 0 < a.
Proof.
  intros Hwf. rewrite live_at_iff by done. intros (s & b & G & _ & <- & _).
  destruct s as [k i|i].
  - apply slab_slot in G as (_ & _ & [-> _ _]); [|done]. unfold slab_address. lia.
  - apply buddy_slot in G as (_ & -> & _); [|done]. unfold buddy_address. lia.
Qed.

Definition kfree_post (st st' : heap_t) (p : Z) : Prop :=
  heap_wf st' /\ forall a, live_at st' a = if a =? p then None else live_at st a.

Definition released (o : block) : block := Block (address o) 0 false "Free" (next o).

Lemma slab_free_inv st p st' :
  heap_wf st -> slab_free st p = Some st' ->
  exists k c i o, slab_caches st !! k = Some c /\ objects c !! i = Some o /\ used o = true /\
    address o = p /\ 0 <= free_count c <= 31 /\
    st' = set_slab st k c i (released o) (free_count c + 1).
Proof.
  intros Hwf. unfold slab_free. destruct (find_slab p (slab_caches st)) as [[k i]|] eqn:E; simpl; [|done].
  apply find_slab_Some in E as (c & o & Hc & Ho & [Ha Hu]%block_at_true).
  rewrite Hc. simpl. rewrite Ho. simpl. intros [= <-].
  pose proof (wf_caches _ Hwf _ _ Hc) as [Hl Hobj Hcnt].
  assert (Hcf : 0 <= free_count c <= 31).
  { rewrite Hcnt. pose proof (count_free_range (objects c)).
    pose proof (count_free_insert _ _ _ (released o) Ho) as Hx. rewrite Hu in Hx. simpl in Hx.
    pose proof (count_free_range (<[i:=released o]> (objects c))) as Hr. rewrite length_insert, Hl in Hr. lia. }
  exists k, c, i, o. split_and!; try done; try lia. by rewrite u32_small by lia.
Qed.

Lemma slab_free_ok st p st' : heap_wf st -> slab_free st p = Some st' -> kfree_post st st' p.
Proof.
  intros Hwf Hf. apply slab_free_inv in Hf as (k & c & i & o & Hc & Ho & Hu & Ha & Hcf & ->); [|done].
  pose proof (wf_caches _ Hwf _ _ Hc) as [Hl Hobj Hcnt]. pose proof (Hobj _ _ Ho) as [Haddr _ _].
  assert (Hwf' : heap_wf (set_slab st k c i (released o) (free_count c + 1))).
  { eapply set_slab_wf; [done..| |]; simpl; [|rewrite Hu; lia]. by split. }
  assert (Hs : slot_get st (Slab k i) = Some o) by (simpl; by rewrite Hc).
  split; [done|]. intros a. rewrite (live_at_update st _ (Slab k i) o (released o)), Ha; try done.
  intros s'. by apply set_slab_get with o.
Qed.

(** A live slab object is found by its address. *)
Lemma slab_free_some st k i o :
  heap_wf st -> slot_get st (Slab k i) = Some o -> used o = true ->
  exists st', slab_free st (address o) = Some st'.
Proof.
  intros Hwf Hs Hu. unfold slab_free.
  destruct (find_slab (address o) (slab_caches st)) as [[k2 i2]|] eqn:F.
  - apply find_slab_Some in F as (c2 & o2 & Hc2 & Ho2 & _). simpl. rewrite Hc2. simpl.
    rewrite Ho2. simpl. by eexists.
  - exfalso. simpl in Hs. destruct (slab_caches st !! k) as [c|] eqn:Hc; simpl in Hs; [|done].
    pose proof (find_slab_None _ _ F _ _ _ _ Hc Hs) as Hn.
    rewrite (proj2 (block_at_true (address o) o)) in Hn; done.
Qed.

Lemma buddy_free_ok st p st' : heap_wf st -> buddy_free st p = Some st' -> kfree_post st st' p.
Proof.
  intros Hwf. unfold buddy_free. rewrite buddy_scan_all by done.
  destruct (first_index _ (buddy_blocks st)) as [i|] eqn:Hi; simpl; [|done].
  apply first_index_Some in Hi as (b & Hb & [Ha Hu]%block_at_true & _).
  rewrite Hb. simpl. intros [= <-]. set (b' := Block _ _ _ _ _).
  pose proof (buddies_size _ (wf_buddies _ Hwf) _ _ Hb) as (? & _ & _).
  assert (Hwf' : heap_wf (set_buddy st i b')).
  { eapply set_buddy_wf; [done..| |]; simpl; [lia|done]. }
  split; [done|]. intros a. rewrite (live_at_update st _ (Buddy i) b b'), Ha; try done.
  intros s'. by apply set_buddy_get with b.
Qed.

Lemma kfree_ok st p :
  heap_wf st -> kfree_post st (kfree st p) p /\ (live_at st p = None -> kfree st p = st).
Proof.
  intros Hwf. unfold kfree.
  assert (Hnone : live_at st p = None -> kfree_post st st p).
  { intros Hn. split; [done|]. intros a. by destruct (Z.eqb_spec a p) as [->|]. }
  destruct (Z.eqb_spec p 0) as [->|].
  { split; [|done]. apply Hnone. apply eq_None_not_Some. intros [z Hz].
    by apply live_at_pos in Hz. }
  destruct (slab_free st p) as [st'|] eqn:E.
  - split; [by apply slab_free_ok|]. intros Hn. exfalso. unfold slab_free in E. unfold live_at in Hn.
    destruct (find_slab p (slab_caches st)) as [[k i]|] eqn:F; simpl in *; [|done].
    apply find_slab_Some in F as (c & o & Hc & Ho & _). rewrite Hc in Hn. simpl in Hn.
    by rewrite Ho in Hn.
  - assert (Fs : find_slab p (slab_caches st) = None).
    { unfold slab_free in E. destruct (find_slab p (slab_caches st)) as [[k i]|] eqn:F; [|done].
      apply find_slab_Some in F as (c & o & Hc & Ho & _). simpl in E. rewrite Hc in E. simpl in E.
      by rewrite Ho in E. }
    destruct (buddy_free st p) as [st'|] eqn:F.
    + split; [by apply buddy_free_ok|]. intros Hn. exfalso. unfold buddy_free in F. unfold live_at in Hn.
      rewrite Fs in Hn. rewrite buddy_scan_all in F by done.
      destruct (first_index _ (buddy_blocks st)) as [i|]; simpl in *; [|done].
      by destruct (buddy_blocks st !! i).
    + split; [|done]. apply Hnone. unfold live_at. rewrite Fs.
      unfold buddy_free in F. rewrite buddy_scan_all in F by done.
      destruct (first_index _ (buddy_blocks st)) as [i|]; simpl in *; [|done].
      by destruct (buddy_blocks st !! i).
Qed.

(** ** Coalescing *)

(** The two versions of a block agree if it is in use. *)
Definition same_live (b b' : block) : Prop := used b' = used b /\ (used b = true -> b' = b).

Definition same_blocks (l l' : list block) : Prop :=
  forall j, match l !! j, l' !! j with
    | Some b, Some b' => same_live b b'
    | None, None => True
    | _, _ => False
    end.

Lemma same_blocks_refl l : same_blocks l l.
Proof. intros j. by destruct (l !! j). Qed.

Lemma same_blocks_trans l1 l2 l3 : same_blocks l1 l2 -> same_blocks l2 l3 -> same_blocks l1 l3.
Proof.
  intros H1 H2 j. specialize (H1 j). specialize (H2 j).
  destruct (l1 !! j), (l2 !! j), (l3 !! j); try done.
  destruct H1 as [U1 E1], H2 as [U2 E2]. split; [congruence|].
  intros Hu. rewrite E2 by congruence. by apply E1.
Qed.

Lemma same_blocks_insert l j b b' :
  l !! j = Some b -> used b = false -> used b' = false -> same_blocks l (<[j := b']> l).
Proof.
  intros Hb Hu Hu' i. destruct (decide (i = j)) as [->|].
  - rewrite Hb, list_lookup_insert_eq by (by eapply lookup_lt_Some). split; congruence.
  - rewrite list_lookup_insert_ne by done. by destruct (l !! i).
Qed.

Lemma live_at_same st st' :
  heap_wf st -> heap_wf st' -> slab_caches st' = slab_caches st ->
  same_blocks (buddy_blocks st) (buddy_blocks st') -> forall a, live_at st' a = live_at st a.
Proof.
  intros Hwf Hwf' Hs Hb a. apply option_eq. intros z. rewrite !live_at_iff by done.
  split; intros (s & b & G & U & A & Z); exists s, b; (split; [|done]);
    destruct s as [k i|i]; simpl in *; try congruence; specialize (Hb i); rewrite G in Hb.
  - destruct (buddy_blocks st !! i) as [b0|]; [|done]. destruct Hb as [U1 E1].
    rewrite E1 by congruence. done.
  - destruct (buddy_blocks st' !! i) as [b0|]; [|done]. destruct Hb as [U1 E1].
    by rewrite E1.
Qed.

Lemma merge_wf l i b c :
  buddies_wf l -> l !! i = Some b -> l !! S i = Some c ->
  used b = false -> used c = false -> size b = size c -> address b + size b = address c ->
  buddies_wf (<[S i := Block (address c) 0 (used c) "Merged" (next c)]>
    (<[i := Block (address b) (size b * 2) (used b) (owner b) (next b)]> l)).
Proof.
  intros [Hl Ha Hs Hsep] Hb Hc Ub Uc Hsz Hadj.
  pose proof (lookup_lt_Some _ _ _ Hb) as Hi. pose proof (lookup_lt_Some _ _ _ Hc) as Hi1.
  pose proof (Hs _ _ Hb) as (? & ? & _). pose proof (Hs _ _ Hc) as (? & ? & _).
  set (l' := <[S i := _]> _).
  assert (Hlk : forall j x, l' !! j = Some x ->
    exists y, l !! j = Some y /\ address x = address y /\
      ((j = i /\ y = b /\ size x = size b * 2 /\ used x = false) \/
       (j = S i /\ y = c /\ size x = 0 /\ used x = false) \/
       (j <> i /\ j <> S i /\ x = y))).
  { intros j x. unfold l'. destruct (decide (j = S i)) as [->|].
    { rewrite list_lookup_insert_eq by (rewrite length_insert; lia). intros [= <-].
      exists c. split_and!; [done..|]. right; left. done. }
    rewrite list_lookup_insert_ne by lia. destruct (decide (j = i)) as [->|].
    { rewrite list_lookup_insert_eq by lia. intros [= <-]. exists b. split_and!; [done..|]. by left. }
    rewrite list_lookup_insert_ne by lia. intros Hx. exists x. split_and!; [done..|]. right; right. done. }
  apply Build_buddies_wf.
  - unfold l'. by rewrite !length_insert.
  - intros j x (y & Hy & -> & _)%Hlk. by apply Ha.
  - intros j x (y & Hy & Hax & Hcase)%Hlk.
    destruct Hcase as [(-> & -> & Hx & Hu)|[(-> & -> & Hx & Hu)|(_ & _ & ->)]];
      [rewrite Hax, Hx, Hu; split_and!; [lia|lia|done]..|by eapply Hs].
  - intros j1 j2 x1 x2 Hlt (y1 & Hy1 & Hax1 & C1)%Hlk (y2 & Hy2 & Hax2 & C2)%Hlk Hpos.
    rewrite Hax1, Hax2.
    assert (Hp2 : j2 <> S i /\ 0 < size y2).
    { destruct C2 as [(-> & -> & Hx & _)|[(-> & -> & Hx & _)|(_ & ? & <-)]]; [lia|lia|done]. }
    destruct Hp2 as [Hne Hp2]. pose proof (Hsep j1 j2 y1 y2 Hlt Hy1 Hy2 Hp2) as Hold.
    destruct C1 as [(-> & -> & Hx & _)|[(-> & -> & Hx & _)|(_ & _ & ->)]]; [|lia|done].
    pose proof (Hsep (S i) j2 c y2 ltac:(lia) Hc Hy2 Hp2). lia.
Qed.

Lemma coalesce_loop_ok n i l :
  buddies_wf l -> 0 <= i -> i + Z.of_nat n <= 63 ->
  exists l', coalesce_loop n i l = Some l' /\ buddies_wf l' /\ same_blocks l l'.
Proof.
  revert i l. induction n as [|n IH]; intros i l Hwf Hi Hn; simpl.
  { exists l. split_and!; [done..|apply same_blocks_refl]. }
  destruct Hwf as [Hl Ha Hs Hsep] eqn:HW. clear HW.
  destruct (aget_in_range l i) as [b Hb]; [lia|]. rewrite Hb. simpl.
  destruct (used b) eqn:Ub; [apply IH; [done|lia..]|].
  destruct (aget_in_range l (i + 1)) as [c Hc]; [lia|]. rewrite Hc. simpl.
  destruct (used c) eqn:Uc; simpl; [apply IH; [done|lia..]|].
  destruct (Z.eqb_spec (size b) (size c)) as [Hsz|]; simpl; [|apply IH; [done|lia..]].
  apply aget_lookup in Hb, Hc. replace (Z.to_nat (i + 1)) with (S (Z.to_nat i)) in * by lia.
  pose proof (Hs _ _ Hb) as (Hs0 & Hs1 & _). pose proof (Ha _ _ Hb) as Hab.
  unfold buddy_address in *.
  rewrite u64_small by lia.
  destruct (Z.eqb_spec (address b + size b) (address c)) as [Hadj|]; [|apply IH; [done|lia..]].
  rewrite aset_in_range by lia. simpl. rewrite aset_in_range by (rewrite length_insert; lia). simpl.
  rewrite u64_small by lia. replace (Z.to_nat (i + 1)) with (S (Z.to_nat i)) by lia.
  edestruct (IH (i + 1)) as (l' & -> & Hwf' & Hsame); [|lia..|].
  { pose proof (merge_wf l (Z.to_nat i) b c Hwf Hb Hc Ub Uc Hsz Hadj) as Hm.
    rewrite Ub, Uc in Hm. exact Hm. }
  exists l'. split_and!; [done..|]. eapply same_blocks_trans; [|exact Hsame].
  apply (same_blocks_trans _ (<[Z.to_nat i := Block (address b) (size b * 2) false (owner b) (next b)]> l));
    [by eapply same_blocks_insert|].
  eapply same_blocks_insert; [|done..].
  rewrite list_lookup_insert_ne by lia. done.
Qed.

Lemma heap_coalesce_ok st :
  heap_wf st ->
  exists st', heap_coalesce st = Some st' /\ heap_wf st' /\
    forall a, live_at st' a = live_at st a.
Proof.
  intros Hwf. unfold heap_coalesce. rewrite (wf_buddy_count _ Hwf).
  destruct (coalesce_loop_ok 63 0 (buddy_blocks st) (wf_buddies _ Hwf)) as (l & Hl & Hb & Hsame); [lia..|].
  change (Z.to_nat (u32 (BUDDY_BLOCKS_MAX - 1))) with 63%nat. rewrite Hl. cbn [mbind option_bind].
  eexists. split; [done|].
  assert (Hwf' : heap_wf (Heap (slab_caches st) l BUDDY_BLOCKS_MAX)).
  { apply Build_heap_wf; simpl; try apply Hwf; done. }
  split; [done|]. by apply live_at_same.
Qed.

(** ** Reachable heaps *)

Lemma heap_initialize_wf : heap_wf heap_initialize.
Proof.
  assert (Hseq : forall n i x, seqZ 0 n !! i = Some x -> x = Z.of_nat i /\ Z.of_nat i < n).
  { intros n i x Hx. apply lookup_seqZ in Hx as [-> ?]. lia. }
  apply Build_heap_wf; simpl.
  - reflexivity.
  - intros k c Hc. change (init_slab_caches !! k = Some c) in Hc.
    unfold init_slab_caches in Hc. rewrite list_lookup_fmap in Hc.
    apply fmap_Some in Hc as (x & Hx & ->). apply Hseq in Hx as [-> Hk].
    apply Build_cache_wf; cbn [objects free_count].
    + reflexivity.
    + intros i o Ho. rewrite list_lookup_fmap in Ho. apply fmap_Some in Ho as (y & Hy & ->).
      apply Hseq in Hy as [-> Hi]. by split.
    + reflexivity.
  - apply Build_buddies_wf.
    + reflexivity.
    + intros i b Hb. unfold init_buddy_blocks in Hb. rewrite list_lookup_fmap in Hb.
      apply fmap_Some in Hb as (y & Hy & ->). apply Hseq in Hy as [-> Hi]. done.
    + intros i b Hb. unfold init_buddy_blocks in Hb. rewrite list_lookup_fmap in Hb.
      apply fmap_Some in Hb as (y & Hy & ->). apply Hseq in Hy as [-> Hi]. simpl.
      unfold buddy_address. split_and!; [lia|lia|done].
    + intros i j b c Hij Hb Hc _. unfold init_buddy_blocks in *. rewrite list_lookup_fmap in Hb, Hc.
      apply fmap_Some in Hb as (y & Hy & ->). apply Hseq in Hy as [-> Hi].
      apply fmap_Some in Hc as (z & Hz & ->). apply Hseq in Hz as [-> Hj]. simpl.
      unfold buddy_address. lia.
  - reflexivity.
Qed.

(** One call of an operation of the heap. *)
Inductive heap_step (st : heap_t) : heap_t -> Prop :=
| step_kmalloc sz name : 0 <= sz < 2 ^ 64 -> heap_step st (kmalloc st sz name).1
| step_kfree p : heap_step st (kfree st p)
| step_coalesce st' : heap_coalesce st = Some st' -> heap_step st st'.

Lemma heap_step_wf st st' : heap_step st st' -> heap_wf st -> heap_wf st'.
Proof.
  intros [sz name Hsz|p|st1 Hc] Hwf.
  - destruct (kmalloc st sz name) as [st1 p] eqn:E. simpl.
    apply kmalloc_ok in E as [[_ ->]|[_ [? _]]]; done || lia.
  - apply kfree_ok, Hwf.
  - destruct (heap_coalesce_ok st Hwf) as (st2 & Hc2 & ? & _). congruence.
Qed.

Lemma heap_reachable_wf st : rtc heap_step heap_initialize st -> heap_wf st.
Proof.
  intros Hr. assert (Hwf := heap_initialize_wf). induction Hr; eauto using heap_step_wf.
Qed.

Lemma live_in_heap st a z :
  heap_wf st -> live_at st a = Some z -> 0x100000 <= a /\ 0 < z /\ a + z <= 0x4200000.
Proof.
  intros Hwf. rewrite live_at_iff by done. intros (s & b & G & U & <- & <-).
  destruct s as [k i|i].
  - apply slab_slot in G as (Hk & Hi & [-> S _]); [|done]. specialize (S U).
    pose proof (class_size_cases k Hk). unfold slab_address. lia.
  - apply buddy_slot in G as (Hi & -> & _ & H & S); [|done]. specialize (S U).
    unfold buddy_address in *. lia.
Qed.

(** ** Theorems *)

(** C3: In every heap reached from [heap_initialize] by any sequence of
    [kmalloc], [kfree] and [heap_coalesce] calls, live allocations are
    non-empty, lie inside the heap and do not overlap. *)
Theorem heap_allocations_disjoint st a1 z1 a2 z2 :
  rtc heap_step heap_initialize st ->
  live_at st a1 = Some z1 -> live_at st a2 = Some z2 -> a1 <> a2 ->
  0x100000 <= a1 /\ 0 < z1 /\ a1 + z1 <= 0x4200000 /\
  (a1 + z1 <= a2 \/ a2 + z2 <= a1).
Proof.
  intros Hr H1 H2 Hne. pose proof (heap_reachable_wf st Hr) as Hwf.
  pose proof (live_in_heap st a1 z1 Hwf H1) as (? & ? & ?).
  split_and!; [done..|]. by eapply live_disjoint.
Qed.

Definition two_blocks : heap_t :=
  (kmalloc (kmalloc heap_initialize 24 "a").1 5000 "b").1.

Lemma two_blocks_reachable : rtc heap_step heap_initialize two_blocks.
Proof.
  eapply rtc_l; [apply (step_kmalloc _ 24 "a"); lia|].
  eapply rtc_l; [apply (step_kmalloc _ 5000 "b"); lia|]. apply rtc_refl.
Qed.

Lemma heap_allocations_disjoint_witness :
  live_at two_blocks 0x110000 = Some 24 /\ live_at two_blocks 0x200000 = Some 5000 /\
  0x110000 + 24 <= 0x200000.
Proof.
  pose proof two_blocks_reachable as Hr.
  assert (H1 : live_at two_blocks 0x110000 = Some 24) by (vm_compute; reflexivity).
  assert (H2 : live_at two_blocks 0x200000 = Some 5000) by (vm_compute; reflexivity).
  assert (Hne : 0x110000 <> 0x200000) by lia.
  destruct (heap_allocations_disjoint two_blocks 0x110000 24 0x200000 5000 Hr H1 H2 Hne)
    as (_ & _ & _ & Hd).
  split_and!; [exact H1|exact H2|]. destruct Hd; lia.
Defined.

(** A free slot serves a request when it is an object of the smallest size
    class that holds it, or a block that is large enough. *)
Definition serves (sz : Z) (s : slot) (b : block) : Prop :=
  used b = false /\
  match s with
  | Slab k _ => sz <= class_size k /\ (k = 0%nat \/ class_size (pred k) < sz)
  | Buddy _ => sz <= size b
  end.

Definition heap_full (st : heap_t) (sz : Z) : Prop :=
  forall s b, slot_get st s = Some b -> ~ serves sz s b.

(** Objects are tried before blocks, and each in the order of its array. *)
Definition tried_before (s s' : slot) : Prop :=
  match s, s' with
  | Slab _ i, Slab _ j | Buddy i, Buddy j => (i < j)%nat
  | Slab _ _, Buddy _ => True
  | Buddy _, Slab _ _ => False
  end.

(** [p] is the address of the first slot that serves the request. *)
Definition first_serving (st : heap_t) (sz p : Z) : Prop :=
  exists s b, slot_get st s = Some b /\ serves sz s b /\ address b = p /\
    forall s' b', slot_get st s' = Some b' -> serves sz s' b' -> ~ tried_before s' s.

Lemma slab_class sz k :
  0 < sz -> (k < 5)%nat ->
  slab_cache_index sz = Z.of_nat k <->
  sz <= class_size k /\ (k = 0%nat \/ class_size (pred k) < sz).
Proof.
  intros Hsz Hk. unfold slab_cache_index, class_size.
  destruct k as [|[|[|[|[|k]]]]]; try lia; simpl; repeat case_cmp; lia.
Qed.

Lemma slab_alloc_None st sz name k i o :
  heap_wf st -> slab_alloc st (slab_cache_index sz) sz name = None ->
  slab_cache_index sz = Z.of_nat k -> slot_get st (Slab k i) = Some o -> used o = true.
Proof.
  intros Hwf Hn Hk Ho. rewrite Hk in Hn. pose proof (slab_slot st k i o Hwf Ho) as (Hk5 & _ & _).
  unfold slab_alloc in Hn. destruct (Z.leb_spec 0 (Z.of_nat k)), (Z.ltb_spec (Z.of_nat k) 5);
    try lia. simpl in Hn, Ho. rewrite Nat2Z.id in Hn.
  destruct (slab_caches st !! k) as [c|]; simpl in *; [|done].
  destruct (first_index _ (objects c)) as [j|] eqn:E; simpl in Hn.
  - apply first_index_Some in E as (x & Hx & _). by rewrite Hx in Hn.
  - pose proof (proj1 (first_index_None _ _) E i o Ho) as Hf. by apply negb_false_iff in Hf.
Qed.

Lemma slab_alloc_None_serves st sz name k i o :
  heap_wf st -> 0 < sz -> slab_alloc st (slab_cache_index sz) sz name = None ->
  slot_get st (Slab k i) = Some o -> ~ serves sz (Slab k i) o.
Proof.
  intros Hwf Hsz Hn Ho [Hu Hc]. pose proof (slab_slot st k i o Hwf Ho) as (Hk5 & _ & _).
  apply slab_class in Hc; [|done..]. rewrite (slab_alloc_None st sz name k i o) in Hu by done. done.
Qed.

Lemma slab_alloc_first st sz name st' p :
  heap_wf st -> 0 < sz -> slab_alloc st (slab_cache_index sz) sz name = Some (st', p) ->
  first_serving st sz p.
Proof.
  intros Hwf Hsz. unfold slab_alloc.
  destruct (slab_cache_index_range sz Hsz) as [[-> _]|(k & Hidx & Hk & _)]; [done|].
  pose proof (proj1 (slab_class sz k Hsz Hk) Hidx) as Hcls. rewrite Hidx.
  destruct (_ && _); [|done]. rewrite Nat2Z.id.
  destruct (slab_caches st !! k) as [c|] eqn:Hc; simpl; [|done].
  destruct (first_index _ (objects c)) as [i|] eqn:Hi; simpl; [|done].
  apply first_index_Some in Hi as (o & Ho & Hu & Hmin). rewrite Ho. simpl. intros [= _ <-].
  apply negb_true_iff in Hu. exists (Slab k i), o. split_and!; [simpl; by rewrite Hc|done..|].
  intros [k' j|j] b' Hg [Hu' Hc'] Hb; [|done].
  pose proof (slab_slot st k' j b' Hwf Hg) as (Hk' & _ & _).
  apply slab_class in Hc'; [|done..]. assert (k' = k) as -> by lia.
  simpl in Hg. rewrite Hc in Hg. pose proof (Hmin _ _ Hb Hg) as Hx. by rewrite Hu' in Hx.
Qed.

Lemma buddy_alloc_first st sz name st' p :
  heap_wf st -> 0 < sz -> slab_alloc st (slab_cache_index sz) sz name = None ->
  buddy_alloc st sz name = Some (st', p) -> first_serving st sz p.
Proof.
  intros Hwf Hsz Hn. unfold buddy_alloc. rewrite buddy_scan_all by done.
  destruct (first_index _ (buddy_blocks st)) as [i|] eqn:Hi; simpl; [|done].
  apply first_index_Some in Hi as (b & Hb & Hp & Hmin). rewrite Hb. simpl. intros [= _ <-].
  apply andb_true_iff in Hp as [Hu Hfit]. apply negb_true_iff in Hu. apply Z.leb_le in Hfit.
  exists (Buddy i), b. split_and!; [done..|]. intros [k j|j] b' Hg Hs Hlt.
  - by apply (slab_alloc_None_serves st sz name k j b').
  - destruct Hs as [Hu' Hf']. pose proof (Hmin _ _ Hlt Hg) as Hx. unfold buddy_fits in Hx.
    rewrite Hu' in Hx. simpl in Hx. apply Z.leb_gt in Hx. lia.
Qed.

Lemma allocs_None_full st sz name :
  heap_wf st -> 0 < sz -> slab_alloc st (slab_cache_index sz) sz name = None ->
  buddy_alloc st sz name = None -> heap_full st sz.
Proof.
  intros Hwf Hsz Hn. unfold buddy_alloc. rewrite buddy_scan_all by done.
  destruct (first_index _ (buddy_blocks st)) as [i|] eqn:Hi; simpl.
  - apply first_index_Some in Hi as (b & Hb & _). by rewrite Hb.
  - intros _ [k j|j] b Hg Hs; [by apply (slab_alloc_None_serves st sz name k j b)|].
    pose proof (proj1 (first_index_None _ _) Hi j b Hg) as Hf. destruct Hs as [Hu Hfit].
    unfold buddy_fits in Hf. rewrite Hu in Hf. simpl in Hf. apply Z.leb_gt in Hf. lia.
Qed.

(** [kmalloc] takes the first slot that serves the request, and fails only
    when there is none. *)
Lemma kmalloc_first st sz name st' p :
  heap_wf st -> 0 <= sz -> kmalloc st sz name = (st', p) ->
  (p = 0 /\ (sz = 0 \/ heap_full st sz)) \/ (0 < sz /\ first_serving st sz p).
Proof.
  intros Hwf Hsz. unfold kmalloc. destruct (Z.eqb_spec sz 0); [intros [= <- <-]; by left; auto|].
  destruct (slab_alloc _ _ _ _) as [r|] eqn:E.
  { intros ->. right. split; [lia|]. eapply slab_alloc_first; [done|lia|done]. }
  destruct (buddy_alloc _ _ _) as [r|] eqn:F.
  { intros ->. right. split; [lia|]. eapply buddy_alloc_first; [done|lia|done..]. }
  intros [= <- <-]. left. split; [done|right]. eapply allocs_None_full; [done|lia|done..].
Qed.

Lemma first_serving_addr st sz p : heap_wf st -> first_serving st sz p -> p <> 0.
Proof.
  intros Hwf ([k i|i] & b & Hg & _ & <- & _).
  - pose proof (slab_slot st k i b Hwf Hg) as (_ & _ & [-> _ _]). unfold slab_address. lia.
  - simpl in Hg. rewrite (buddies_addr _ (wf_buddies _ Hwf) _ _ Hg). unfold buddy_address. lia.
Qed.

Lemma first_serving_not_full st sz p : first_serving st sz p -> ~ heap_full st sz.
Proof. intros (s & b & Hg & Hs & _) Hf. by apply (Hf s b). Qed.

(** C4: [kmalloc] refines allocation in a finite map from addresses to sizes.
    It returns 0 exactly when the size is 0 or no free slot serves the
    request: no object of the smallest size class that holds it (up to 256
    bytes) and no block that is large enough; it changes nothing then.
    Otherwise it returns the address of the first slot that serves it,
    objects before blocks; the address was not live, the map gains it with
    the requested size and nothing else changes, and the new allocation does
    not overlap any other. *)
Theorem kmalloc_refines st sz name st' p :
  heap_wf st -> 0 <= sz < 2 ^ 64 -> kmalloc st sz name = (st', p) ->
  heap_wf st' /\ (p = 0 <-> sz = 0 \/ heap_full st sz) /\
  ((p = 0 /\ st' = st) \/
   (first_serving st sz p /\ live_at st p = None /\
    (forall a, live_at st' a = if a =? p then Some sz else live_at st a) /\
    (forall a z, live_at st a = Some z -> a + z <= p \/ p + sz <= a))).
Proof.
  intros Hwf Hsz Hk. pose proof (kmalloc_ok st sz name st' p Hwf ltac:(lia) Hk) as Hpost.
  destruct (kmalloc_first st sz name st' p Hwf ltac:(lia) Hk) as [[-> Hf]|[Hpos Hfirst]].
  - destruct Hpost as [[_ ->]|(_ & _ & Hp & _)]; [|done]. split_and!; [done..|by left].
  - pose proof (first_serving_addr st sz p Hwf Hfirst) as Hp0.
    destruct Hpost as [[Hp _]|(_ & Hwf' & _ & Hfresh & Hmap)]; [done|]. split_and!; [done| |right].
    { split; [done|]. intros [Hs|Hs]; [lia|]. by apply first_serving_not_full in Hfirst. }
    split_and!; [done..|]. intros a z Ha. assert (a <> p) by congruence.
    apply (live_disjoint st' a z p sz Hwf'); [|rewrite Hmap; by rewrite Z.eqb_refl|done].
    rewrite Hmap. by destruct (Z.eqb_spec a p).
Qed.

Lemma kmalloc_refines_witness :
  exists st' p, kmalloc two_blocks 24 "c" = (st', p) /\ p = 0x110200 /\
    live_at st' 0x110000 = Some 24.
Proof.
  destruct (kmalloc two_blocks 24 "c") as [st' p] eqn:E. exists st', p.
  assert (Hp : p = 0x110200) by (change p with (st', p).2; rewrite <- E; vm_compute; reflexivity).
  pose proof (heap_reachable_wf _ two_blocks_reachable) as Hwf.
  assert (Hsz : 0 <= 24 < 2 ^ 64) by lia.
  destruct (kmalloc_refines two_blocks 24 "c" st' p Hwf Hsz E)
    as (_ & _ & [(Hp0 & _)|(_ & _ & Hmap & _)]).
  - exfalso. rewrite Hp in Hp0. discriminate Hp0.
  - split_and!; [reflexivity|exact Hp|]. rewrite Hmap, Hp. vm_compute. reflexivity.
Defined.

(** C5: [kfree] refines removal from the map of live allocations: the
    allocation at the given address, if there is one, is gone and every
    other one is untouched; freeing an address that is not live, the null
    pointer included, changes nothing. *)
Theorem kfree_refines st p :
  heap_wf st ->
  heap_wf (kfree st p) /\
  (forall a, live_at (kfree st p) a = if a =? p then None else live_at st a) /\
  (live_at st p = None -> kfree st p = st).
Proof. intros Hwf. destruct (kfree_ok st p Hwf) as [[? ?] ?]. done. Qed.

Lemma kfree_refines_witness :
  live_at (kfree two_blocks 0x200000) 0x200000 = None /\
  live_at (kfree two_blocks 0x200000) 0x110000 = Some 24.
Proof.
  pose proof (heap_reachable_wf _ two_blocks_reachable) as Hwf.
  destruct (kfree_refines two_blocks 0x200000 Hwf) as (_ & Hmap & _).
  rewrite !Hmap. vm_compute. split; reflexivity.
Defined.

Lemma buddy_alloc_addr st sz name st' p :
  heap_wf st -> buddy_alloc st sz name = Some (st', p) -> 0x200000 <= p.
Proof.
  intros Hwf F. unfold buddy_alloc in F. destruct (first_index _ _) as [i|]; simpl in F; [|done].
  destruct (buddy_blocks st !! i) as [b|] eqn:Hb; simpl in F; [|done]. injection F as _ <-.
  rewrite (buddies_addr _ (wf_buddies _ Hwf) _ _ Hb). unfold buddy_address. lia.
Qed.

Lemma set_slab_undo st k i c o c2 sz name :
  slab_caches st !! k = Some c -> objects c !! i = Some o -> used o = false ->
  slab_wf k i o ->
  slab_caches (set_slab st k c i (taken o sz name) (free_count c - 1)) !! k = Some c2 ->
  set_slab (set_slab st k c i (taken o sz name) (free_count c - 1)) k c2 i
    (released (taken o sz name)) (free_count c2 + 1) = st.
Proof.
  intros Hc Ho Hu [_ _ Hun] Hc2. unfold set_slab in *. cbn [slab_caches buddy_blocks buddy_block_count] in *.
  rewrite list_lookup_insert_eq in Hc2 by (by eapply lookup_lt_Some). injection Hc2 as <-.
  cbn [objects free_count]. rewrite !list_insert_insert_eq. destruct (Hun Hu) as [Hs0 Hn0].
  replace (released (taken o sz name)) with o by (destruct o; simpl in *; unfold released; simpl; congruence).
  rewrite (list_insert_id (objects c)) by done.
  replace (free_count c - 1 + 1) with (free_count c) by lia.
  destruct c as [ob fc]. cbn [objects free_count] in *. rewrite list_insert_id by done. by destruct st.
Qed.

(** Slab allocations are returned completely: when a request of at most
    256 bytes is served by its slab cache, freeing it restores the heap
    exactly. *)
Theorem slab_alloc_free_roundtrip st sz name st' p :
  heap_wf st -> 0 < sz <= 256 -> kmalloc st sz name = (st', p) -> 0 < p < 0x200000 ->
  kfree st' p = st.
Proof.
  intros Hwf Hsz Hk Hp. unfold kmalloc in Hk. destruct (Z.eqb_spec sz 0); [lia|].
  destruct (slab_alloc st (slab_cache_index sz) sz name) as [r|] eqn:E; cycle 1.
  { exfalso. destruct (buddy_alloc st sz name) as [r|] eqn:F; [|injection Hk; lia]. subst r.
    apply buddy_alloc_addr in F; [lia|done]. }
  subst r. pose proof (slab_alloc_ok st sz name st' p Hwf ltac:(lia) E) as (Hwf' & _).
  apply slab_alloc_inv in E as (k & c & i & o & Hc & Ho & Hu & Hcl & Hcf & -> & ->); [|done|lia].
  set (st' := set_slab st k c i (taken o sz name) (free_count c - 1)) in *.
  assert (Hs : slot_get st' (Slab k i) = Some (taken o sz name)).
  { unfold st'. rewrite (set_slab_get st k i c o) by done. by rewrite decide_True. }
  destruct (slab_free_some st' k i _ Hwf' Hs eq_refl) as (st2 & Hf). cbn [address taken] in Hf.
  unfold kfree. destruct (Z.eqb_spec (address o) 0); [lia|]. rewrite Hf.
  apply slab_free_inv in Hf as (k2 & c2 & i2 & o2 & Hc2 & Ho2 & _ & Ha2 & _ & ->); [|done].
  assert (Hs2 : slot_get st' (Slab k2 i2) = Some o2) by (cbn [slot_get]; by rewrite Hc2).
  pose proof (slot_addr_inj st' _ _ _ _ Hwf' Hs2 Hs Ha2) as [= -> ->].
  rewrite Hs in Hs2. injection Hs2 as <-.
  apply (set_slab_undo st k i c o); [done..|by apply (cache_objects _ _ (wf_caches _ Hwf _ _ Hc) _ _ Ho)|done].
Qed.

Lemma slab_alloc_free_roundtrip_witness :
  kfree (kmalloc heap_initialize 100 "x").1 0x130000 = heap_initialize.
Proof.
  destruct (kmalloc heap_initialize 100 "x") as [st' p] eqn:E.
  assert (Hp : p = 0x130000) by (change p with (st', p).2; rewrite <- E; vm_compute; reflexivity).
  assert (Hsz : 0 < 100 <= 256) by lia. assert (Hr : 0 < p < 0x200000) by (rewrite Hp; lia).
  cbn [fst]. rewrite <- Hp.
  exact (slab_alloc_free_roundtrip heap_initialize 100 "x" st' p heap_initialize_wf Hsz E Hr).
Defined.

(** Serve [n] requests of [sz] bytes, and free a list of addresses. *)
Fixpoint kmalloc_n (n : nat) (sz : Z) (st : heap_t) : heap_t * list Z :=
  match n with
  | O => (st, [])
  | S n' => let '(st1, p) := kmalloc st sz "t" in
            let '(st2, ps) := kmalloc_n n' sz st1 in (st2, p :: ps)
  end.

Definition churned (sz : Z) : heap_t :=
  let '(st, ps) := kmalloc_n 64 sz heap_initialize in foldl kfree st ps.

(** Block allocations are not returned completely: [kmalloc] shrinks the
    block to the request and [kfree] does not restore its size.  After 64
    requests of 512 bytes have been served and all of them freed, nothing is
    live, yet a request of 1024 bytes fails, before and after coalescing. *)
Theorem buddy_capacity_lost :
  Forall (fun c => Forall (fun o => used o = false) (objects c)) (slab_caches (churned 512)) /\
  Forall (fun b => used b = false) (buddy_blocks (churned 512)) /\
  kmalloc (churned 512) 1024 "t" = (churned 512, 0) /\
  (exists st', heap_coalesce (churned 512) = Some st' /\ kmalloc st' 1024 "t" = (st', 0)).
Proof.
  split_and!.
  - vm_compute. repeat constructor.
  - vm_compute. repeat constructor.
  - vm_compute. reflexivity.
  - eexists. split; vm_compute; reflexivity.
Qed.
