(* ===== verification/Vmm.v ===== *)
(** * Virtual memory manager ([src/vmm.c])

    [vmm_initialize] builds the boot page tables; [vmm_map_page],
    [vmm_unmap_page] and [vmm_translate] work on a table of at most 1024
    recorded mappings.  The effect of the page tables is stated with the
    processor's page walk, [hw_translate]. *)

From S2P Require Import Prelude.

(** ** Macros *)

Definition PML4_INDEX (vaddr : Z) : Z := Z.land (Z.shiftr vaddr 39) 0x1FF.
Definition PDPT_INDEX (vaddr : Z) : Z := Z.land (Z.shiftr vaddr 30) 0x1FF.
Definition PD_INDEX (vaddr : Z) : Z := Z.land (Z.shiftr vaddr 21) 0x1FF.
Definition PT_INDEX (vaddr : Z) : Z := Z.land (Z.shiftr vaddr 12) 0x1FF.
Definition PAGE_OFFSET (vaddr : Z) : Z := Z.land vaddr 0xFFF.

Definition PTE_PRESENT : Z := 0x001.
Definition PTE_WRITABLE : Z := 0x002.
Definition PTE_ACCESSED : Z := 0x020.
Definition PTE_HUGE : Z := 0x080.
Definition DEFAULT_FLAGS : Z := Z.lor (Z.lor PTE_PRESENT PTE_WRITABLE) PTE_ACCESSED.

(** ** State *)

Record vmm_mapping_t := Mapping { vaddr : Z; paddr : Z; flags : Z }.

Definition VMM_MAX_MAPPINGS : Z := 1024.

(** [invlpg_log] lists the addresses given to [invlpg], latest first. *)
Record vmm_t := Vmm {
  kernel_pml4 : list Z;
  kernel_pdpt : list Z;
  cr3 : Z;
  vmm_mappings : list vmm_mapping_t;
  vmm_mapping_count : Z;
  invlpg_log : list Z
}.

Definition set_mappings (st : vmm_t) (ms : list vmm_mapping_t) (n : Z) : vmm_t :=
  Vmm (kernel_pml4 st) (kernel_pdpt st) (cr3 st) ms n (invlpg_log st).

Definition invlpg (st : vmm_t) (va : Z) : vmm_t :=
  Vmm (kernel_pml4 st) (kernel_pdpt st) (cr3 st) (vmm_mappings st) (vmm_mapping_count st)
    (va :: invlpg_log st).

(** ** Operations *)

Section tables.

(** Addresses that the linker gives to the two static tables. *)
Context (pml4_addr pdpt_addr : Z).

(** [for (i = 0; i < 6; i++)] from index [i]. *)
Fixpoint map_gigabytes (n : nat) (i : Z) (pdpt : list Z) : option (list Z) :=
  match n with
  | O => Some pdpt
  | S n' =>
    let phys := u64 (i * 0x40000000) in
    pdpt ← aset pdpt i (Z.lor (Z.lor phys DEFAULT_FLAGS) PTE_HUGE);
    map_gigabytes n' (i + 1) pdpt
  end.

(** The loop over 512 entries clears the whole of both tables. *)
Definition vmm_initialize (st : vmm_t) : option vmm_t :=
  let pml4 := replicate 512 0 in
  let pdpt := replicate 512 0 in
  let pml4_entry := Z.lor pdpt_addr DEFAULT_FLAGS in
  pml4 ← aset pml4 0 pml4_entry;
  pml4 ← aset pml4 256 pml4_entry;
  pdpt ← map_gigabytes 6 0 pdpt;
  Some (Vmm pml4 pdpt pml4_addr (vmm_mappings st) (vmm_mapping_count st) (invlpg_log st)).

(** ** The processor's page walk

    The tables in memory are the two static ones.  An entry that is not
    present, or that points to no table, faults ([None]).  A huge entry of
    the second level maps 1 GiB, one of the third level 2 MiB. *)
Definition table_at (st : vmm_t) (pa : Z) : option (list Z) :=
  if pa =? pml4_addr then Some (kernel_pml4 st)
  else if pa =? pdpt_addr then Some (kernel_pdpt st)
  else None.

Definition ADDR_MASK : Z := 0x000FFFFFFFFFF000.

Definition walk_entry (st : vmm_t) (table idx : Z) : option Z :=
  t ← table_at st table;
  e ← aget t idx;
  if bit_test e 0 then Some e else None.

Definition hw_translate (st : vmm_t) (va : Z) : option Z :=
  e4 ← walk_entry st (Z.land (cr3 st) ADDR_MASK) (PML4_INDEX va);
  e3 ← walk_entry st (Z.land e4 ADDR_MASK) (PDPT_INDEX va);
  if bit_test e3 7 then Some (Z.lor (Z.land e3 0x000FFFFFC0000000) (Z.land va 0x3FFFFFFF))
  else
    e2 ← walk_entry st (Z.land e3 ADDR_MASK) (PD_INDEX va);
    if bit_test e2 7 then Some (Z.lor (Z.land e2 0x000FFFFFFFE00000) (Z.land va 0x1FFFFF))
    else
      e1 ← walk_entry st (Z.land e2 ADDR_MASK) (PT_INDEX va);
      Some (Z.lor (Z.land e1 ADDR_MASK) (PAGE_OFFSET va)).

End tables.

Definition vmm_map_page (st : vmm_t) (va pa fl : Z) : option vmm_t :=
  if VMM_MAX_MAPPINGS <=? vmm_mapping_count st then Some st
  else
    ms ← aset (vmm_mappings st) (vmm_mapping_count st) (Mapping va pa fl);
    Some (invlpg (set_mappings st ms (u32 (vmm_mapping_count st + 1))) va).

(** The loops look at the entries below [vmm_mapping_count]. *)
Definition active (st : vmm_t) : list vmm_mapping_t :=
  take (Z.to_nat (vmm_mapping_count st)) (vmm_mappings st).

Definition maps_to (va : Z) (m : vmm_mapping_t) : bool := vaddr m =? va.

(** [for (j = i; j < count - 1; j++) mappings[j] = mappings[j + 1]]. *)
Fixpoint shift_down (n : nat) (j : Z) (ms : list vmm_mapping_t) : option (list vmm_mapping_t) :=
  match n with
  | O => Some ms
  | S n' =>
    m ← aget ms (j + 1);
    ms ← aset ms j m;
    shift_down n' (j + 1) ms
  end.

Definition vmm_unmap_page (st : vmm_t) (va : Z) : option vmm_t :=
  match first_index (maps_to va) (active st) with
  | Some i =>
    let count := vmm_mapping_count st in
    ms ← shift_down (Z.to_nat (u32 (count - 1)) - i) (Z.of_nat i) (vmm_mappings st);
    Some (invlpg (set_mappings st ms (u32 (count - 1))) va)
  | None => Some (invlpg st va)
  end.

Definition vmm_translate (st : vmm_t) (va : Z) : Z :=
  match first_index (maps_to va) (active st) with
  | Some i => default 0 (paddr <$> active st !! i)
  | None => 0
  end.

(** ** Indices *)

Lemma index_mod va k : 0 <= k -> Z.land (Z.shiftr va k) 0x1FF = (va / 2 ^ k) mod 512.
Proof. intros. rewrite Z.shiftr_div_pow2 by done. apply (land_low _ 9). lia. Qed.

Lemma page_offset_mod va : PAGE_OFFSET va = va mod 4096.
Proof. apply (land_low _ 12). lia. Qed.

(** ** The boot page tables *)

Definition aligned_table (a : Z) : Prop := 0 <= a < 2 ^ 52 /\ a mod 4096 = 0.

Lemma addr_mask_aligned a low :
  aligned_table a -> 0 <= low < 4096 -> Z.land (Z.lor a low) ADDR_MASK = a.
Proof.
  intros [Hr Ha] Hl. unfold ADDR_MASK.
  change 0x000FFFFFFFFFF000 with (Z.shiftl (Z.ones 40) 12).
  assert (Hs : a = Z.shiftl (a / 4096) 12) by (rewrite Z.shiftl_mul_pow2 by lia; lia).
  rewrite Hs at 1. rewrite lor_shiftl_add, land_field by lia.
  change (2 ^ 12) with 4096. change (2 ^ 40) with 1099511627776. change (2 ^ 52) with 4503599627370496 in Hr.
  rewrite Z.mod_small by lia. lia.
Qed.

Lemma gigabyte_entry i :
  (i < 6)%nat -> exists pdpt, map_gigabytes 6 0 (replicate 512 0) = Some pdpt /\
    pdpt !! i = Some (Z.of_nat i * 0x40000000 + 0xA3).
Proof.
  intros Hi. eexists. split; [vm_compute; reflexivity|].
  do 6 (destruct i as [|i]; [reflexivity|]). lia.
Qed.

Lemma gigabyte_none i :
  (6 <= i < 512)%nat -> exists pdpt, map_gigabytes 6 0 (replicate 512 0) = Some pdpt /\
    pdpt !! i = Some 0.
Proof.
  intros Hi. exists (take 6 (default [] (map_gigabytes 6 0 (replicate 512 0))) ++ replicate 506 0).
  split; [vm_compute; reflexivity|].
  assert (Hl : length (take 6 (default [] (map_gigabytes 6 0 (replicate 512 0)))) = 6%nat) by reflexivity.
  rewrite lookup_app_r by lia. apply lookup_replicate_2. lia.
Qed.

Lemma walk_gigabyte i va :
  0 <= i < 6 -> va / 2 ^ 30 = i ->
  Z.lor (Z.land (i * 0x40000000 + 0xA3) 0x000FFFFFC0000000) (Z.land va 0x3FFFFFFF) = va.
Proof.
  intros Hi Hva. change 0x000FFFFFC0000000 with (Z.shiftl (Z.ones 22) 30).
  change 0x3FFFFFFF with (Z.ones 30). rewrite land_field, land_low by lia.
  rewrite <- Z.shiftl_mul_pow2 by lia. rewrite lor_shiftl_add by (lia || (apply Z.mod_pos_bound; lia)).
  change (2 ^ 30) with 1073741824 in *. change (2 ^ 22) with 4194304. lia.
Qed.

Section boot_tables.
Context (pml4_addr pdpt_addr : Z).
Context (Hpml4 : aligned_table pml4_addr) (Hpdpt : aligned_table pdpt_addr) (Hne : pml4_addr <> pdpt_addr).

Lemma cr3_table st :
  kernel_pml4 st = <[256%nat := Z.lor pdpt_addr DEFAULT_FLAGS]>
    (<[0%nat := Z.lor pdpt_addr DEFAULT_FLAGS]> (replicate 512 0)) ->
  cr3 st = pml4_addr ->
  forall va, PML4_INDEX va = 0 \/ PML4_INDEX va = 256 ->
  walk_entry pml4_addr pdpt_addr st (Z.land (cr3 st) ADDR_MASK) (PML4_INDEX va)
    = Some (Z.lor pdpt_addr DEFAULT_FLAGS).
Proof using Hpml4.
  intros Ht Hc va Hva. rewrite Hc. unfold walk_entry, table_at.
  assert (Z.land pml4_addr ADDR_MASK = pml4_addr) as ->.
  { rewrite <- (Z.lor_0_r pml4_addr) at 1. apply addr_mask_aligned; [done|lia]. }
  rewrite Z.eqb_refl. cbn [mbind option_bind].
  rewrite Ht. change DEFAULT_FLAGS with 0x23.
  assert (Hb : bit_test (Z.lor pdpt_addr 0x23) 0 = true).
  { rewrite bit_test_testbit by lia. rewrite Z.lor_spec. apply orb_true_r. }
  destruct Hva as [-> | ->]; rewrite aget_nonneg by lia; simpl; by rewrite Hb.
Qed.

Lemma vmm_initialize_eq st :
  exists pdpt, map_gigabytes 6 0 (replicate 512 0) = Some pdpt /\
    vmm_initialize pml4_addr pdpt_addr st = Some
      (Vmm (<[256%nat := Z.lor pdpt_addr DEFAULT_FLAGS]>
             (<[0%nat := Z.lor pdpt_addr DEFAULT_FLAGS]> (replicate 512 0)))
           pdpt pml4_addr (vmm_mappings st) (vmm_mapping_count st) (invlpg_log st)).
Proof.
  unfold vmm_initialize. destruct (map_gigabytes 6 0 (replicate 512 0)) as [pdpt|] eqn:E.
  - exists pdpt. split; [done|]. rewrite aset_in_range by (rewrite length_replicate; lia).
    cbn [mbind option_bind]. rewrite aset_in_range by (rewrite length_insert, length_replicate; lia).
    done.
  - exfalso. vm_compute in E. discriminate E.
Qed.

(** The walk below a present first-level entry. *)
Lemma walk_pdpt pml4 pdpt ms n log va g e :
  map_gigabytes 6 0 (replicate 512 0) = Some pdpt ->
  PDPT_INDEX va = g -> 0 <= g -> pdpt !! Z.to_nat g = Some e ->
  walk_entry pml4_addr pdpt_addr (Vmm pml4 pdpt pml4_addr ms n log)
    (Z.land (Z.lor pdpt_addr DEFAULT_FLAGS) ADDR_MASK) (PDPT_INDEX va)
  = if bit_test e 0 then Some e else None.
Proof using Hpdpt Hne.
  intros Hp Hg Hg0 He. change DEFAULT_FLAGS with 0x23. rewrite addr_mask_aligned by (done || lia).
  unfold walk_entry, table_at. destruct (Z.eqb_spec pdpt_addr pml4_addr); [congruence|].
  rewrite Z.eqb_refl. cbn [mbind option_bind kernel_pdpt]. rewrite Hg, aget_nonneg by exact Hg0.
  rewrite He. reflexivity.
Qed.

Lemma hw_translate_boot st st' va g :
  vmm_initialize pml4_addr pdpt_addr st = Some st' ->
  PML4_INDEX va = 0 \/ PML4_INDEX va = 256 -> PDPT_INDEX va = g -> 0 <= g < 512 ->
  hw_translate pml4_addr pdpt_addr st' va =
    if g <? 6 then
      Some (Z.lor (Z.land (g * 0x40000000 + 0xA3) 0x000FFFFFC0000000) (Z.land va 0x3FFFFFFF))
    else None.
Proof using Hpml4 Hpdpt Hne.
  intros Hinit Hva Hg Hr. destruct (vmm_initialize_eq st) as (pdpt & Hp & Heq).
  rewrite Heq in Hinit. injection Hinit as <-. unfold hw_translate.
  rewrite cr3_table by done. cbn [mbind option_bind].
  destruct (Z.ltb_spec g 6).
  - destruct (gigabyte_entry (Z.to_nat g)) as (pdpt' & Hp' & He); [lia|].
    assert (pdpt' = pdpt) as -> by congruence. rewrite Z2Nat.id in He by lia.
    rewrite (walk_pdpt _ _ _ _ _ va g _ Hp Hg ltac:(lia) He).
    assert (g = 0 \/ g = 1 \/ g = 2 \/ g = 3 \/ g = 4 \/ g = 5) as Hcases by lia.
    destruct Hcases as [->|[->|[->|[->|[->| ->]]]]]; reflexivity.
  - destruct (gigabyte_none (Z.to_nat g)) as (pdpt' & Hp' & He); [lia|].
    assert (pdpt' = pdpt) as -> by congruence.
    rewrite (walk_pdpt _ _ _ _ _ va g _ Hp Hg ltac:(lia) He). reflexivity.
Qed.
End boot_tables.

(** ** Theorems on the page tables *)

(** [vmm_initialize] sets up page tables under which the processor
    translates every virtual address below 6 GiB to itself, translates the
    same range again from the first address of the upper half (PML4 slot
    256), and faults on the rest of the first 512 GiB. *)
Theorem vmm_identity_map pml4_addr pdpt_addr st :
  aligned_table pml4_addr -> aligned_table pdpt_addr -> pml4_addr <> pdpt_addr ->
  exists st', vmm_initialize pml4_addr pdpt_addr st = Some st' /\ cr3 st' = pml4_addr /\
    (forall va, 0 <= va < 6 * 2 ^ 30 ->
      hw_translate pml4_addr pdpt_addr st' va = Some va /\
      hw_translate pml4_addr pdpt_addr st' (0xFFFF800000000000 + va) = Some va) /\
    (forall va, 6 * 2 ^ 30 <= va < 2 ^ 39 -> hw_translate pml4_addr pdpt_addr st' va = None).
Proof.
  intros H4 H3 Hne. destruct (vmm_initialize_eq pml4_addr pdpt_addr st) as (pdpt & Hp & Heq).
  eexists. split; [exact Heq|]. split; [done|].
  pose proof (fun va g => hw_translate_boot pml4_addr pdpt_addr H4 H3 Hne st _ va g Heq) as Hw.
  clear Heq Hp. split.
  - intros va Hva. change (6 * 2 ^ 30) with 6442450944 in Hva.
    rewrite (Hw va (va / 2 ^ 30)), (Hw (0xFFFF800000000000 + va) (va / 2 ^ 30));
      unfold PML4_INDEX, PDPT_INDEX; rewrite ?index_mod by lia;
      change (2 ^ 30) with 1073741824; change (2 ^ 39) with 549755813888; try lia.
    destruct (Z.ltb_spec (va / 1073741824) 6); [|lia].
    rewrite walk_gigabyte by (change (2 ^ 30) with 1073741824; lia).
    replace (Z.land (0xFFFF800000000000 + va) 0x3FFFFFFF) with (Z.land va 0x3FFFFFFF).
    { by rewrite walk_gigabyte by (change (2 ^ 30) with 1073741824; lia). }
    change 0x3FFFFFFF with (Z.ones 30). rewrite !land_low by lia. change (2 ^ 30) with 1073741824. lia.
  - intros va Hva. change (6 * 2 ^ 30) with 6442450944 in Hva. change (2 ^ 39) with 549755813888 in Hva.
    rewrite (Hw va (va / 2 ^ 30));
      unfold PML4_INDEX, PDPT_INDEX; rewrite ?index_mod by lia;
      change (2 ^ 30) with 1073741824; change (2 ^ 39) with 549755813888; try lia.
    destruct (Z.ltb_spec (va / 1073741824) 6); [lia|done].
Qed.

Definition vmm_boot : vmm_t :=
  Vmm (replicate 512 0) (replicate 512 0) 0 (replicate 1024 (Mapping 0 0 0)) 0 [].

Lemma vmm_identity_map_witness :
  exists st', vmm_initialize 0x105000 0x106000 vmm_boot = Some st' /\
    hw_translate 0x105000 0x106000 st' 0xB8000 = Some 0xB8000.
Proof.
  assert (H4 : aligned_table 0x105000) by (vm_compute; repeat split; discriminate).
  assert (H3 : aligned_table 0x106000) by (vm_compute; repeat split; discriminate).
  assert (Hne : 0x105000 <> 0x106000) by discriminate.
  destruct (vmm_identity_map 0x105000 0x106000 vmm_boot H4 H3 Hne) as (st' & Hi & _ & Hid & _).
  exists st'. split; [exact Hi|]. apply (Hid 0xB8000). lia.
Defined.

(** ** The mapping table

    Its contract: the table is a list of at most 1024 mappings in the order
    of their registration.  The first one for an address counts. *)

Inductive vmm_op := Map (va pa fl : Z) | Unmap (va : Z).

Definition vmm_step (op : vmm_op) (st : vmm_t) : option vmm_t :=
  match op with
  | Map va pa fl => vmm_map_page st va pa fl
  | Unmap va => vmm_unmap_page st va
  end.

Fixpoint vmm_run (ops : list vmm_op) (st : vmm_t) : option vmm_t :=
  match ops with
  | [] => Some st
  | op :: ops' => st' ← vmm_step op st; vmm_run ops' st'
  end.

Definition spec_step (op : vmm_op) (ms : list vmm_mapping_t) : list vmm_mapping_t :=
  match op with
  | Map va pa fl => if (length ms <? 1024)%nat then ms ++ [Mapping va pa fl] else ms
  | Unmap va => match first_index (maps_to va) ms with Some i => delete i ms | None => ms end
  end.

Definition spec_run (ops : list vmm_op) (ms : list vmm_mapping_t) : list vmm_mapping_t :=
  foldl (fun ms op => spec_step op ms) ms ops.

Record vmm_wf (st : vmm_t) : Prop := {
  wf_length : length (vmm_mappings st) = 1024%nat;
  wf_count : 0 <= vmm_mapping_count st <= 1024
}.

Lemma active_length st : vmm_wf st -> length (active st) = Z.to_nat (vmm_mapping_count st).
Proof. intros [Hl Hc]. unfold active. rewrite length_take. lia. Qed.

Lemma shift_down_spec n j ms :
  (j + n < length ms)%nat ->
  exists ms', shift_down n (Z.of_nat j) ms = Some ms' /\ (length ms' = length ms)%nat /\
    forall k, ms' !! k = if decide (j <= k < j + n)%nat then ms !! S k else ms !! k.
Proof.
  revert j ms. induction n as [|n IH]; intros j ms Hn; simpl.
  - exists ms. split_and!; [done|done|]. intros k. by rewrite decide_False by lia.
  - rewrite aget_nonneg by lia. replace (Z.to_nat (Z.of_nat j + 1)) with (S j) by lia.
    destruct (lookup_lt_is_Some_2 ms (S j)) as [m Hm]; [lia|]. rewrite Hm. simpl.
    rewrite aset_in_range by lia. cbn [mbind option_bind]. rewrite Nat2Z.id.
    destruct (IH (S j) (<[j:=m]> ms)) as (ms' & Hs & Hl & Hk); [rewrite length_insert; lia|].
    exists ms'. replace (Z.of_nat j + 1) with (Z.of_nat (S j)) by lia.
    split_and!; [done|by rewrite Hl, length_insert|]. intros k. rewrite Hk.
    destruct (decide (k = j)) as [->|Hkj].
    + rewrite decide_False, decide_True by lia. rewrite list_lookup_insert_eq by lia. done.
    + destruct (decide (S j <= k < S j + n)%nat).
      * rewrite decide_True by lia. by rewrite list_lookup_insert_ne by lia.
      * rewrite decide_False by lia. by rewrite list_lookup_insert_ne by lia.
Qed.

(** The shifted table starts with the old mappings less the removed one. *)
Lemma shift_down_delete i c ms :
  (i < c)%nat -> (c <= length ms)%nat ->
  exists ms', shift_down (c - 1 - i) (Z.of_nat i) ms = Some ms' /\ (length ms' = length ms)%nat /\
    take (c - 1) ms' = delete i (take c ms).
Proof.
  intros Hi Hc. destruct (shift_down_spec (c - 1 - i) i ms) as (ms' & Hs & Hl & Hk); [lia|].
  exists ms'. split_and!; [done|done|]. apply list_eq. intros k.
  destruct (decide (k < c - 1)%nat).
  - rewrite lookup_take_lt by lia. rewrite Hk. destruct (decide (k < i)%nat).
    + rewrite decide_False by lia. rewrite list_lookup_delete_lt by lia. by rewrite lookup_take_lt by lia.
    + rewrite decide_True by lia. rewrite list_lookup_delete_ge by lia. by rewrite lookup_take_lt by lia.
  - rewrite lookup_take_ge by lia. rewrite list_lookup_delete_ge by lia. by rewrite lookup_take_ge by lia.
Qed.

Definition same_tables (st st' : vmm_t) : Prop :=
  kernel_pml4 st' = kernel_pml4 st /\ kernel_pdpt st' = kernel_pdpt st /\ cr3 st' = cr3 st.

Lemma vmm_map_page_ok st va pa fl :
  vmm_wf st -> exists st', vmm_map_page st va pa fl = Some st' /\ vmm_wf st' /\ same_tables st st' /\
    active st' = spec_step (Map va pa fl) (active st).
Proof.
  intros Hwf. pose proof (active_length st Hwf) as Hal. destruct Hwf as [Hl Hc].
  unfold vmm_map_page, VMM_MAX_MAPPINGS. cbn [spec_step].
  destruct (Z.leb_spec 1024 (vmm_mapping_count st)) as [Hfull|Hfree].
  - exists st. split_and!; try done. by rewrite (proj2 (Nat.ltb_ge _ _)) by lia.
  - rewrite aset_in_range by lia. cbn [mbind option_bind]. eexists. split; [done|].
    split; [|split; [done|]].
    + split; simpl; [by rewrite length_insert|nowrap; lia].
    + rewrite (proj2 (Nat.ltb_lt _ _)) by lia. unfold active at 1. simpl. nowrap.
      replace (Z.to_nat (vmm_mapping_count st + 1)) with (S (Z.to_nat (vmm_mapping_count st))) by lia.
      rewrite (take_S_r _ _ (Mapping va pa fl)) by (apply list_lookup_insert_eq; lia).
      by rewrite take_insert_ge by lia.
Qed.

Lemma vmm_unmap_page_ok st va :
  vmm_wf st -> exists st', vmm_unmap_page st va = Some st' /\ vmm_wf st' /\ same_tables st st' /\
    active st' = spec_step (Unmap va) (active st).
Proof.
  intros Hwf. pose proof (active_length st Hwf) as Hal. destruct Hwf as [Hl Hc].
  unfold vmm_unmap_page. cbn [spec_step].
  destruct (first_index (maps_to va) (active st)) as [i|] eqn:Hi; [|by eexists].
  apply first_index_Some in Hi as (m & Hm & _). apply lookup_lt_Some in Hm.
  nowrap. replace (Z.to_nat (vmm_mapping_count st - 1) - i)%nat
    with (Z.to_nat (vmm_mapping_count st) - 1 - i)%nat by lia.
  destruct (shift_down_delete i (Z.to_nat (vmm_mapping_count st)) (vmm_mappings st))
    as (ms' & Hs & Hl' & Hd); [lia|lia|].
  rewrite Hs. cbn [mbind option_bind]. eexists. split; [done|]. split; [|split; [done|]].
  - split; simpl; [congruence|lia].
  - unfold active at 1. simpl.
    by replace (Z.to_nat (vmm_mapping_count st - 1)) with (Z.to_nat (vmm_mapping_count st) - 1)%nat by lia.
Qed.

Lemma vmm_step_ok op st :
  vmm_wf st -> exists st', vmm_step op st = Some st' /\ vmm_wf st' /\ same_tables st st' /\
    active st' = spec_step op (active st).
Proof. destruct op; [apply vmm_map_page_ok|apply vmm_unmap_page_ok]. Qed.

Lemma vmm_run_ok ops st :
  vmm_wf st -> exists st', vmm_run ops st = Some st' /\ vmm_wf st' /\ same_tables st st' /\
    active st' = spec_run ops (active st).
Proof.
  revert st. induction ops as [|op ops IH]; intros st Hwf; [by exists st|]. simpl.
  destruct (vmm_step_ok op st Hwf) as (st1 & -> & Hwf1 & (H1&H2&H3) & Ha1).
  cbn [mbind option_bind].
  destruct (IH st1 Hwf1) as (st2 & -> & Hwf2 & (?&?&?) & Ha2). exists st2.
  split_and!; try done; [split_and!; congruence|]. by rewrite Ha2, Ha1.
Qed.

(** What the first mapping of an address gives. *)
Lemma translate_first st va :
  vmm_translate st va = default 0 (paddr <$> List.find (maps_to va) (active st)).
Proof.
  unfold vmm_translate. induction (active st) as [|m ms IH]; [done|]. simpl.
  destruct (maps_to va m); [done|]. rewrite <- IH. by destruct (first_index (maps_to va) ms).
Qed.

Lemma find_app {A} (p : A -> bool) l1 l2 :
  List.find p (l1 ++ l2) = match List.find p l1 with Some x => Some x | None => List.find p l2 end.
Proof. induction l1 as [|x l1 IH]; [done|]. simpl. by destruct (p x). Qed.

(** C6: from a well-formed state every sequence of [vmm_map_page] and
    [vmm_unmap_page] runs without an access outside the table, keeps the
    table well formed, and has on the recorded mappings the effect of the
    contract: append while there is room, remove the first entry of the
    address.  Neither operation changes the page tables or CR3, so the
    processor's translation stays what it was. *)
Theorem vmm_run_refines ops st :
  vmm_wf st ->
  exists st', vmm_run ops st = Some st' /\ vmm_wf st' /\
    active st' = spec_run ops (active st) /\
    forall pml4_addr pdpt_addr va,
      hw_translate pml4_addr pdpt_addr st' va = hw_translate pml4_addr pdpt_addr st va.
Proof.
  intros Hwf. destruct (vmm_run_ok ops st Hwf) as (st' & Hr & Hwf' & (H4 & H3 & Hc) & Ha).
  exists st'. split_and!; try done. intros. unfold hw_translate, walk_entry, table_at.
  by rewrite H4, H3, Hc.
Qed.

Lemma vmm_boot_wf : vmm_wf vmm_boot.
Proof. split; [reflexivity|simpl; lia]. Qed.

Lemma vmm_run_refines_witness :
  exists st', vmm_run [Map 0x1000 0x8000 3; Map 0x2000 0x9000 3; Unmap 0x1000] vmm_boot = Some st' /\
    active st' = [Mapping 0x2000 0x9000 3].
Proof.
  destruct (vmm_run_refines [Map 0x1000 0x8000 3; Map 0x2000 0x9000 3; Unmap 0x1000] vmm_boot vmm_boot_wf)
    as (st' & Hr & _ & Ha & _).
  exists st'. split; [exact Hr|]. rewrite Ha. reflexivity.
Defined.

(** After [vmm_map_page] of an address without a mapping, with room in
    the table, [vmm_translate] gives the new physical address for it and is
    unchanged elsewhere, and [vmm_unmap_page] then restores the table.  A
    second mapping of an address that has one does not change any
    translation: it is recorded behind the first, which stays in force, and
    becomes visible only when the first is removed. *)
Theorem vmm_map_translate st va pa fl :
  vmm_wf st -> vmm_mapping_count st < 1024 ->
  exists st', vmm_map_page st va pa fl = Some st' /\
    (forall w, vmm_translate st' w =
      if (w =? va) && negb (existsb (maps_to va) (active st)) then pa else vmm_translate st w) /\
    (existsb (maps_to va) (active st) = false ->
      exists st'', vmm_unmap_page st' va = Some st'' /\ active st'' = active st).
Proof.
  intros Hwf Hroom. pose proof (active_length st Hwf) as Hal.
  destruct (vmm_map_page_ok st va pa fl Hwf) as (st' & Hm & Hwf' & _ & Ha). exists st'.
  cbn [spec_step] in Ha. rewrite (proj2 (Nat.ltb_lt _ _)) in Ha by lia.
  split; [done|]. split.
  - intros w. rewrite !translate_first, Ha, find_app. simpl. unfold maps_to at 2. simpl.
    rewrite (Z.eqb_sym va w). destruct (Z.eqb_spec w va) as [->|Hne]; simpl.
    + destruct (List.find (maps_to va) (active st)) as [m|] eqn:Hf.
      * apply find_some in Hf. by rewrite (proj2 (existsb_exists _ _)) by eauto.
      * destruct (existsb _ _) eqn:He; [|done]. apply existsb_exists in He as (x & Hx & Hp).
        rewrite (find_none _ _ Hf x Hx) in Hp. done.
    + by destruct (List.find (maps_to w) (active st)).
  - intros Hfresh. destruct (vmm_unmap_page_ok st' va Hwf') as (st'' & Hu & _ & _ & Hd).
    exists st''. split; [done|]. rewrite Hd, Ha. cbn [spec_step].
    assert (first_index (maps_to va) (active st ++ [Mapping va pa fl]) = Some (length (active st))) as ->.
    { apply first_index_Some. exists (Mapping va pa fl). split_and!.
      - by rewrite lookup_app_r, Nat.sub_diag by lia.
      - apply Z.eqb_refl.
      - intros j y Hj Hy. rewrite lookup_app_l in Hy by done. apply not_true_iff_false. intros Hp.
        rewrite (proj2 (existsb_exists _ _)) in Hfresh; [done|]. exists y.
        split; [|done]. apply list_elem_of_In. eapply list_elem_of_lookup_2, Hy. }
    rewrite delete_take_drop, take_app_length. rewrite drop_ge by (rewrite length_app; simpl; lia).
    apply app_nil_r.
Qed.

Lemma vmm_map_translate_witness :
  exists st', vmm_map_page vmm_boot 0x1000 0x8000 3 = Some st' /\ vmm_translate st' 0x1000 = 0x8000.
Proof.
  destruct (vmm_map_translate vmm_boot 0x1000 0x8000 3 vmm_boot_wf) as (st' & Hm & Ht & _).
  - simpl; lia.
  - exists st'. split; [exact Hm|]. rewrite Ht. reflexivity.
Defined.

(** The four table indices and the page offset of an address split its
    low 48 bits, and determine them. *)
Lemma vmm_index_split va :
  0 <= va < 2 ^ 64 ->
  va mod 2 ^ 48 = PML4_INDEX va * 2 ^ 39 + PDPT_INDEX va * 2 ^ 30 + PD_INDEX va * 2 ^ 21
    + PT_INDEX va * 2 ^ 12 + PAGE_OFFSET va /\
  0 <= PML4_INDEX va < 512 /\ 0 <= PDPT_INDEX va < 512 /\ 0 <= PD_INDEX va < 512 /\
  0 <= PT_INDEX va < 512 /\ 0 <= PAGE_OFFSET va < 4096.
Proof.
  intros Hva. rewrite page_offset_mod. unfold PML4_INDEX, PDPT_INDEX, PD_INDEX, PT_INDEX.
  rewrite !index_mod by lia.
  change (2 ^ 48) with 281474976710656. change (2 ^ 39) with 549755813888.
  change (2 ^ 30) with 1073741824. change (2 ^ 21) with 2097152. change (2 ^ 12) with 4096. lia.
Qed.
