(* ===== verification/Sched.v ===== *)
(** * Scheduler ([src/scheduler.c], [src/context_switch.asm])

    Tasks live in the slots of [task_table]; a [tcb_t*] is a slot number and
    NULL is [None].  The ready queue is linked through the [next] fields.
    [task_yield] ends in the context switch, which is modelled on the
    registers and the memory of the processor. *)

From stdpp Require Import functions strings.
From S2P Require Import Prelude.

(** ** The processor and [switch_task_context] *)

Module Context.

(** The callee-saved registers and the memory as 64-bit words. *)
Record cpu_t := Cpu {
  rsp : Z; rbx : Z; rbp : Z; r12 : Z; r13 : Z; r14 : Z; r15 : Z;
  mem : Z -> Z
}.

Definition set_rsp (c : cpu_t) (v : Z) : cpu_t :=
  Cpu v (rbx c) (rbp c) (r12 c) (r13 c) (r14 c) (r15 c) (mem c).

Definition push (v : Z) (c : cpu_t) : cpu_t :=
  let sp := u64 (rsp c - 8) in
  Cpu sp (rbx c) (rbp c) (r12 c) (r13 c) (r14 c) (r15 c) (<[sp := v]> (mem c)).

Definition pop (c : cpu_t) : Z * cpu_t := (mem c (rsp c), set_rsp c (u64 (rsp c + 8))).

(** The [call] pushes [ret].  The result is the value stored through
    [old_rsp], the address that [ret] jumps to and the new registers. *)
Definition switch_task_context (ret : Z) (c : cpu_t) (new_rsp : Z) : Z * Z * cpu_t :=
  let c := push ret c in
  let c := push (rbx c) c in
  let c := push (rbp c) c in
  let c := push (r12 c) c in
  let c := push (r13 c) c in
  let c := push (r14 c) c in
  let c := push (r15 c) c in
  let old_rsp := rsp c in
  let c := set_rsp c new_rsp in
  let '(v15, c) := pop c in
  let '(v14, c) := pop c in
  let '(v13, c) := pop c in
  let '(v12, c) := pop c in
  let '(vbp, c) := pop c in
  let '(vbx, c) := pop c in
  let '(rip, c) := pop c in
  (old_rsp, rip, Cpu (rsp c) vbx vbp v12 v13 v14 v15 (mem c)).

End Context.
Import Context.

(** ** Task table *)

Inductive task_state_t := TASK_RUNNING | TASK_READY | TASK_SLEEPING | TASK_ZOMBIE.

#[export] Instance task_state_eq_dec : EqDecision task_state_t.
Proof. solve_decision. Defined.

Record tcb_t := Tcb {
  pid : Z;
  name : option string;
  state : task_state_t;
  priority : Z;
  timeslice : Z;
  stack_pointer : Z;
  entry : Z;
  memory_kb : Z;
  next : option nat
}.

Definition set_state (s : task_state_t) (t : tcb_t) : tcb_t :=
  Tcb (pid t) (name t) s (priority t) (timeslice t) (stack_pointer t) (entry t) (memory_kb t) (next t).
Definition set_next (n : option nat) (t : tcb_t) : tcb_t :=
  Tcb (pid t) (name t) (state t) (priority t) (timeslice t) (stack_pointer t) (entry t) (memory_kb t) n.
Definition set_timeslice (v : Z) (t : tcb_t) : tcb_t :=
  Tcb (pid t) (name t) (state t) (priority t) v (stack_pointer t) (entry t) (memory_kb t) (next t).
Definition set_stack_pointer (v : Z) (t : tcb_t) : tcb_t :=
  Tcb (pid t) (name t) (state t) (priority t) (timeslice t) v (entry t) (memory_kb t) (next t).

Definition MAX_TASKS : Z := 256.
Definition TASK_STACK_SIZE : Z := 0x4000.

Record sched_t := Sched {
  task_table : list tcb_t;
  task_count : Z;
  next_pid : Z;
  current_task : option nat;
  ready_queue_head : option nat;
  schedule_requested : bool;
  cpu : cpu_t
}.

Definition set_table (tt : list tcb_t) (st : sched_t) : sched_t :=
  Sched tt (task_count st) (next_pid st) (current_task st) (ready_queue_head st)
    (schedule_requested st) (cpu st).
Definition set_current (c : option nat) (st : sched_t) : sched_t :=
  Sched (task_table st) (task_count st) (next_pid st) c (ready_queue_head st)
    (schedule_requested st) (cpu st).
Definition set_head (h : option nat) (st : sched_t) : sched_t :=
  Sched (task_table st) (task_count st) (next_pid st) (current_task st) h
    (schedule_requested st) (cpu st).
Definition set_requested (b : bool) (st : sched_t) : sched_t :=
  Sched (task_table st) (task_count st) (next_pid st) (current_task st) (ready_queue_head st)
    b (cpu st).
Definition set_cpu (c : cpu_t) (st : sched_t) : sched_t :=
  Sched (task_table st) (task_count st) (next_pid st) (current_task st) (ready_queue_head st)
    (schedule_requested st) c.

(** Writing through a task pointer. *)
Definition update (i : nat) (f : tcb_t -> tcb_t) (st : sched_t) : option sched_t :=
  t ← task_table st !! i;
  Some (set_table (<[i := f t]> (task_table st)) st).

(** ** Loops over the queue

    Each takes a bound on its iterations; running out of it is [None], as is
    a pointer outside the table. *)

Definition queue_fuel : nat := 257.

(** [while (iter->next != NULL) iter = iter->next]. *)
Fixpoint find_last (fuel : nat) (tt : list tcb_t) (i : nat) : option nat :=
  match fuel with
  | O => None
  | S fuel' =>
    t ← tt !! i;
    match next t with None => Some i | Some j => find_last fuel' tt j end
  end.

(** [while (tcb != NULL) { if (tcb->pid == pid) ...; prev = tcb; tcb = tcb->next; }]. *)
Fixpoint find_pid (fuel : nat) (tt : list tcb_t) (p : Z) (prev tcb : option nat) :
    option (option (option nat * nat)) :=
  match fuel with
  | O => None
  | S fuel' =>
    match tcb with
    | None => Some None
    | Some i =>
      t ← tt !! i;
      if pid t =? p then Some (Some (prev, i)) else find_pid fuel' tt p (Some i) (next t)
    end
  end.

(** [while (next_task != NULL && next_task->state != TASK_READY) next_task = next_task->next]. *)
Fixpoint find_ready (fuel : nat) (tt : list tcb_t) (p : option nat) : option (option nat) :=
  match fuel with
  | O => None
  | S fuel' =>
    match p with
    | None => Some None
    | Some i =>
      t ← tt !! i;
      if decide (state t = TASK_READY) then Some (Some i) else find_ready fuel' tt (next t)
    end
  end.

(** ** Operations *)

Definition request_schedule (st : sched_t) : sched_t := set_requested true st.
Definition scheduler_pending (st : sched_t) : bool := schedule_requested st.
Definition get_current_task (st : sched_t) : option nat := current_task st.

Definition clear_tcb (t : tcb_t) : tcb_t :=
  Tcb 0 None TASK_ZOMBIE (priority t) (timeslice t) (stack_pointer t) (entry t) (memory_kb t) None.

(** The loop visits every slot of the table. *)
Definition scheduler_initialize (st : sched_t) : sched_t :=
  Sched (clear_tcb <$> task_table st) 0 (next_pid st) (current_task st) (ready_queue_head st)
    (schedule_requested st) (cpu st).

Section operations.

(** Addresses fixed by the linker: the array of task stacks, the entry
    wrapper, and the instruction after the [call] in [task_yield]. *)
Context (stacks_addr wrapper_addr yield_ret : Z).

(** The word [stack_top[0]] of the initial stack of a slot. *)
Definition initial_sp (slot : Z) : Z :=
  u64 (stacks_addr + slot * TASK_STACK_SIZE + TASK_STACK_SIZE - 7 * 8).

Definition initial_stack (sp : Z) (m : Z -> Z) : Z -> Z :=
  <[u64 (sp + 48) := wrapper_addr]> (<[u64 (sp + 40) := 0]> (<[u64 (sp + 32) := 0]>
    (<[u64 (sp + 24) := 0]> (<[u64 (sp + 16) := 0]> (<[u64 (sp + 8) := 0]> (<[sp := 0]> m)))))).

Definition set_mem (m : Z -> Z) (c : cpu_t) : cpu_t :=
  Cpu (rsp c) (rbx c) (rbp c) (r12 c) (r13 c) (r14 c) (r15 c) m.

Definition create_task (nm : string) (ent prio : Z) (st : sched_t) : option (sched_t * option nat) :=
  if MAX_TASKS <=? task_count st then Some (st, None)
  else
    let slot := Z.to_nat (task_count st) in
    let sp := initial_sp (task_count st) in
    let t := Tcb (next_pid st) (Some nm) TASK_READY prio 20 sp ent 0 None in
    tt ← aset (task_table st) (task_count st) t;
    let st := Sched tt (task_count st) (u32 (next_pid st + 1)) (current_task st)
      (ready_queue_head st) (schedule_requested st)
      (set_mem (initial_stack sp (mem (cpu st))) (cpu st)) in
    st ← match ready_queue_head st with
         | None =>
           update slot (set_state TASK_RUNNING) (set_current (Some slot) (set_head (Some slot) st))
         | Some h =>
           last ← find_last queue_fuel (task_table st) h;
           update last (set_next (Some slot)) st
         end;
    Some (Sched (task_table st) (u32 (task_count st + 1)) (next_pid st) (current_task st)
            (ready_queue_head st) (schedule_requested st) (cpu st), Some slot).

Definition kill_task (p : Z) (st : sched_t) : option sched_t :=
  found ← find_pid queue_fuel (task_table st) p None (ready_queue_head st);
  match found with
  | None => Some st
  | Some (prev, i) =>
    st ← update i (set_state TASK_ZOMBIE) st;
    t ← task_table st !! i;
    st ← match prev with
         | None => Some (set_head (next t) st)
         | Some j => update j (set_next (next t)) st
         end;
    Some (if decide (current_task st = Some i) then set_current None st else st)
  end.

(** The end of [task_yield], once [next_task] is known.  The second
    component of the result is the address where execution goes on when the
    call switched to another task. *)
Definition run_next (old : nat) (nx : option nat) (st : sched_t) : option (sched_t * option Z) :=
  match nx with
  | None => st ← update old (set_state TASK_RUNNING) st; Some (st, None)
  | Some i =>
    if decide (i = old) then st ← update old (set_state TASK_RUNNING) st; Some (st, None)
    else
      st ← update i (fun t => set_timeslice 20 (set_state TASK_RUNNING t)) (set_current (Some i) st);
      ti ← task_table st !! i;
      let '(saved, rip, c) := switch_task_context yield_ret (cpu st) (stack_pointer ti) in
      st ← update old (set_stack_pointer saved) (set_cpu c st);
      Some (st, Some rip)
  end.

Definition task_yield (st : sched_t) : option (sched_t * option Z) :=
  match current_task st, ready_queue_head st with
  | None, _ | _, None => Some (st, None)
  | Some old, Some h =>
    let st := if schedule_requested st then set_requested false st else st in
    t ← task_table st !! old;
    st ← (if decide (state t = TASK_RUNNING) then update old (set_state TASK_READY) st else Some st);
    nx ← find_ready queue_fuel (task_table st) (next t);
    nx ← match nx with
         | Some _ => Some nx
         | None => find_ready queue_fuel (task_table st) (Some h)
         end;
    run_next old nx st
  end.

Definition schedule (st : sched_t) : option (sched_t * option Z) := task_yield st.

(** The function that [task_entry_wrapper] calls, if any. *)
Definition wrapper_call (st : sched_t) : option Z :=
  i ← current_task st;
  t ← task_table st !! i;
  if entry t =? 0 then None else Some (entry t).

(** What [task_entry_wrapper] does once the entry function has returned. *)
Definition task_exit (st : sched_t) : option (sched_t * option Z) :=
  match current_task st with
  | None => Some (st, None)
  | Some i =>
    st ← update i (set_state TASK_ZOMBIE) st;
    t ← task_table st !! i;
    st ← kill_task (pid t) st;
    task_yield st
  end.

End operations.

(** ** Queue segments

    [seg tt h q e]: following [next] from [h] visits the slots [q] and then
    stands at [e]. *)
Fixpoint seg (tt : list tcb_t) (h : option nat) (q : list nat) (e : option nat) : Prop :=
  match q with
  | [] => h = e
  | i :: q' => h = Some i /\ exists t, tt !! i = Some t /\ seg tt (next t) q' e
  end.

Lemma seg_app tt h q1 q2 e :
  seg tt h (q1 ++ q2) e <-> exists m, seg tt h q1 m /\ seg tt m q2 e.
Proof.
  revert h. induction q1 as [|i q1 IH]; intros h; simpl; [naive_solver|].
  setoid_rewrite IH. naive_solver.
Qed.

(** Writes to slots outside the segment, and writes that keep [next]. *)
Lemma seg_frame tt i t h q e : i ∉ q -> seg tt h q e -> seg (<[i := t]> tt) h q e.
Proof.
  revert h. induction q as [|j q IH]; intros h Hi; simpl; [done|].
  apply not_elem_of_cons in Hi as [Hij Hi]. intros (-> & u & Hu & Hs). split; [done|].
  exists u. rewrite list_lookup_insert_ne by done. auto.
Qed.

Lemma seg_same_next tt i t t' h q e :
  tt !! i = Some t -> next t' = next t -> seg tt h q e -> seg (<[i := t']> tt) h q e.
Proof.
  intros Hi Hn. revert h. induction q as [|j q IH]; intros h; simpl; [done|].
  intros (-> & u & Hu & Hs). split; [done|]. destruct (decide (i = j)) as [->|Hne].
  - exists t'. rewrite list_lookup_insert_eq by (by eapply lookup_lt_Some).
    split; [done|]. rewrite Hn. assert (u = t) as -> by congruence. auto.
  - exists u. rewrite list_lookup_insert_ne by done. auto.
Qed.

Lemma seg_lookup tt h q e i : seg tt h q e -> i ∈ q -> is_Some (tt !! i).
Proof.
  revert h. induction q as [|j q IH]; intros h; simpl; [by rewrite elem_of_nil|].
  intros (_ & t & Ht & Hs) [->|Hi]%elem_of_cons; eauto.
Qed.

(** The [next] field of a slot in the middle. *)
Lemma seg_middle tt h q1 i q2 e :
  seg tt h (q1 ++ i :: q2) e <-> exists t, tt !! i = Some t /\ seg tt h q1 (Some i) /\ seg tt (next t) q2 e.
Proof. rewrite seg_app. simpl. naive_solver. Qed.

Lemma find_last_seg tt h q i fuel :
  seg tt (Some h) (q ++ [i]) None -> (length q < fuel)%nat -> find_last fuel tt h = Some i.
Proof.
  revert h fuel. induction q as [|j q IH]; intros h [|fuel]; simpl; try lia.
  - intros ([= ->] & t & -> & Hn) _. simpl. by rewrite Hn.
  - intros ([= ->] & t & -> & Hn) Hf. simpl. destruct (next t) as [k|] eqn:Hk.
    + apply IH; [done|lia].
    + destruct q; simpl in Hn; naive_solver.
Qed.

Definition prev_of (prev : option nat) (q : list nat) : option nat :=
  match list.last q with Some i => Some i | None => prev end.

Lemma find_pid_absent tt p prev h q fuel :
  seg tt h q None -> (forall i t, i ∈ q -> tt !! i = Some t -> pid t <> p) ->
  (length q < fuel)%nat -> find_pid fuel tt p prev h = Some None.
Proof.
  revert h prev fuel. induction q as [|j q IH]; intros h prev [|fuel] Hs Hp Hf; simpl in *; try lia.
  - by subst h.
  - destruct Hs as (-> & t & Ht & Hs). rewrite Ht. simpl.
    destruct (Z.eqb_spec (pid t) p); [by destruct (Hp j t (list_elem_of_here _ _) Ht)|].
    apply IH; [done| |lia]. intros i u Hi. apply Hp. by apply list_elem_of_further.
Qed.

Lemma find_pid_found tt p prev h q1 i t q2 fuel :
  seg tt h (q1 ++ i :: q2) None -> tt !! i = Some t -> pid t = p ->
  (forall j u, j ∈ q1 -> tt !! j = Some u -> pid u <> p) ->
  (length q1 < fuel)%nat -> find_pid fuel tt p prev h = Some (Some (prev_of prev q1, i)).
Proof.
  intros Hs Hi Hp. revert h prev fuel Hs.
  induction q1 as [|j q1 IH]; intros h prev [|fuel] Hs Hq Hf; simpl in *; try lia.
  - destruct Hs as (-> & t' & Ht & Hs). rewrite Ht. simpl. assert (t' = t) as -> by congruence.
    by rewrite Hp, Z.eqb_refl.
  - destruct Hs as (-> & u & Hu & Hs). rewrite Hu. simpl.
    destruct (Z.eqb_spec (pid u) p); [by destruct (Hq j u (list_elem_of_here _ _) Hu)|].
    rewrite (IH _ (Some j) fuel Hs); [|intros ????; eapply Hq; [by apply list_elem_of_further|done]|lia].
    unfold prev_of. rewrite last_cons. by destruct (list.last q1).
Qed.

Lemma find_ready_seg tt h q fuel :
  seg tt h q None -> (forall i t, i ∈ q -> tt !! i = Some t -> state t = TASK_READY) ->
  (0 < fuel)%nat -> find_ready fuel tt h = Some (head q).
Proof.
  intros Hs Hr Hf. destruct fuel as [|fuel]; [lia|]. destruct q as [|j q]; simpl in *.
  - by subst h.
  - destruct Hs as (-> & t & Ht & Hs). rewrite Ht. simpl.
    by rewrite decide_True by (apply (Hr j t); [apply list_elem_of_here|done]).
Qed.

(** ** Invariant

    [q] is the ready queue.  The running task stays linked in it; every
    other linked task is ready.  Process identifiers number the slots. *)
Record sched_wf (st : sched_t) (q : list nat) : Prop := {
  wf_table : length (task_table st) = 256%nat;
  wf_count : 0 <= task_count st <= 256;
  wf_next_pid : next_pid st = task_count st + 1;
  wf_pids : forall i t, task_table st !! i = Some t -> Z.of_nat i < task_count st -> pid t = Z.of_nat i + 1;
  wf_queue : seg (task_table st) (ready_queue_head st) q None;
  wf_nodup : NoDup q;
  wf_slots : forall i, i ∈ q -> Z.of_nat i < task_count st;
  wf_states : forall i t, i ∈ q -> task_table st !! i = Some t ->
    state t = if decide (current_task st = Some i) then TASK_RUNNING else TASK_READY;
  wf_current : forall i, current_task st = Some i -> i ∈ q
}.

(** The contract: slots in use, queue in order, running task. *)
Record squeue := SQueue { sq_count : Z; sq_queue : list nat; sq_current : option nat }.

Definition spec_create (s : squeue) : squeue :=
  if 256 <=? sq_count s then s
  else
    let slot := Z.to_nat (sq_count s) in
    SQueue (sq_count s + 1) (sq_queue s ++ [slot])
      (match sq_queue s with [] => Some slot | _ => sq_current s end).

Definition has_pid (p : Z) (i : nat) : bool := Z.of_nat i + 1 =? p.

Definition spec_kill (p : Z) (s : squeue) : squeue :=
  match first_index (has_pid p) (sq_queue s) with
  | Some k =>
    SQueue (sq_count s) (delete k (sq_queue s))
      (if decide (sq_current s = sq_queue s !! k) then None else sq_current s)
  | None => s
  end.

(** The task after the running one, cyclically. *)
Definition spec_yield (s : squeue) : squeue :=
  match sq_current s with
  | Some i =>
    match first_index (Nat.eqb i) (sq_queue s) with
    | Some k => SQueue (sq_count s) (sq_queue s) (sq_queue s !! (S k mod length (sq_queue s))%nat)
    | None => s
    end
  | None => s
  end.

Definition sched_abs (st : sched_t) (q : list nat) : squeue := SQueue (task_count st) q (current_task st).

#[global] Arguments find_last : simpl never.
#[global] Arguments switch_task_context : simpl never.
#[global] Arguments find_pid : simpl never.
#[global] Arguments find_ready : simpl never.

Lemma queue_length st q : sched_wf st q -> (length q <= 256)%nat.
Proof.
  intros Hwf. apply NoDup_bounded_length; [apply (wf_nodup _ _ Hwf)|].
  intros i Hi%(wf_slots _ _ Hwf). destruct (wf_count _ _ Hwf). lia.
Qed.

Lemma slot_in_table st q i : sched_wf st q -> i ∈ q -> is_Some (task_table st !! i).
Proof. intros Hwf Hi. eapply seg_lookup; [apply (wf_queue _ _ Hwf)|done]. Qed.

Lemma update_eq i f st t :
  task_table st !! i = Some t -> update i f st = Some (set_table (<[i := f t]> (task_table st)) st).
Proof. intros Ht. unfold update. by rewrite Ht. Qed.

Section scheduler.
Context (stacks_addr wrapper_addr yield_ret : Z).
Notation create_task := (create_task stacks_addr wrapper_addr).
Notation task_yield := (task_yield yield_ret).
Notation task_exit := (task_exit yield_ret).

(** The table and the fields that [create_task] leaves. *)
Definition with_slot (t : tcb_t) (st : sched_t) : sched_t :=
  Sched (<[Z.to_nat (task_count st) := t]> (task_table st)) (task_count st + 1) (next_pid st + 1)
    (current_task st) (ready_queue_head st) (schedule_requested st) (cpu st).

Lemma pids_insert st q j t :
  sched_wf st q -> pid t = Z.of_nat j + 1 ->
  forall i u, <[j := t]> (task_table st) !! i = Some u -> Z.of_nat i < task_count st \/ i = j ->
  pid u = Z.of_nat i + 1.
Proof.
  intros Hwf Ht i u [(-> & -> & _)|(Hne & Hi)]%list_lookup_insert_Some Hlt; [done|].
  apply (wf_pids _ _ Hwf i); [done|]. naive_solver.
Qed.

Lemma create_first st t c :
  sched_wf st [] -> task_count st < 256 -> pid t = next_pid st -> next t = None -> state t = TASK_RUNNING ->
  let slot := Z.to_nat (task_count st) in
  sched_wf (set_cpu c (set_current (Some slot) (set_head (Some slot) (with_slot t st)))) [slot].
Proof.
  intros Hwf Hroom Hp Hn Ht slot. pose proof Hwf as [Hl Hc Hnp _ _ _ _ _ _].
  split; simpl; rewrite ?length_insert; try (done || lia).
  - intros i u Hi Hlt. eapply (pids_insert st []); [done| |exact Hi|]; lia.
  - split; [done|]. exists t. split; [apply list_lookup_insert_eq; lia|done].
  - apply NoDup_singleton.
  - intros i ->%list_elem_of_singleton. lia.
  - intros i u ->%list_elem_of_singleton. rewrite list_lookup_insert_eq by lia. intros [= <-].
    by rewrite decide_True.
  - intros i [= <-]. by apply list_elem_of_singleton.
Qed.

Lemma seg_snoc tt h q i t slot ts :
  seg tt h (q ++ [i]) None -> i ∉ q -> slot ∉ q ++ [i] -> tt !! i = Some t ->
  (slot < length tt)%nat -> next ts = None ->
  seg (<[i := set_next (Some slot) t]> (<[slot := ts]> tt)) h ((q ++ [i]) ++ [slot]) None.
Proof.
  intros (t' & Ht & Hq & _)%seg_middle Hi Hslot Hti Hlt Hn. assert (slot <> i) by set_solver.
  rewrite <- app_assoc. apply seg_middle. exists (set_next (Some slot) t). split_and!.
  - apply list_lookup_insert_eq. rewrite length_insert. by eapply lookup_lt_Some.
  - apply seg_frame; [done|]. apply seg_frame; [set_solver|done].
  - simpl. split; [done|]. exists ts. split; [|done].
    rewrite list_lookup_insert_ne by done. by apply list_lookup_insert_eq.
Qed.

Lemma create_append st q i ti t c :
  sched_wf st (q ++ [i]) -> task_count st < 256 -> task_table st !! i = Some ti ->
  pid t = next_pid st -> next t = None -> state t = TASK_READY ->
  let slot := Z.to_nat (task_count st) in
  let st1 := set_cpu c (with_slot t st) in
  sched_wf (set_table (<[i := set_next (Some slot) ti]> (task_table st1)) st1) ((q ++ [i]) ++ [slot]).
Proof.
  intros Hwf Hroom Hti Hp Hn Ht slot st1. pose proof Hwf as [Hl Hc Hnp Hpids Hq Hnd Hs Hst Hcur].
  assert (Hfresh : slot ∉ q ++ [i]) by (intros ?%Hs; lia).
  apply NoDup_app in Hnd as Hnd'. destruct Hnd' as (Hndq & Hiq & _).
  split; simpl; rewrite ?length_insert; try (done || lia).
  - intros j u [(<- & <- & _)|(Hne & Hj)]%list_lookup_insert_Some Hlt.
    + apply (Hpids i ti Hti). apply Hs. set_solver.
    + eapply (pids_insert st _ slot t Hwf); [lia|exact Hj|lia].
  - apply seg_snoc; try done; [set_solver|lia].
  - apply NoDup_app. split_and!; [done|set_solver|apply NoDup_singleton].
  - intros j [Hj%Hs| ->%list_elem_of_singleton]%elem_of_app; lia.
  - intros j u Hj [(<- & <- & _)|(Hne & [(<- & <- & _)|(Hne' & Hu)]%list_lookup_insert_Some)]%list_lookup_insert_Some.
    + apply (Hst i ti); [set_solver|done].
    + rewrite decide_False; [done|]. by intros ?%Hcur.
    + apply Hst; [|done]. apply elem_of_app in Hj as [?| ->%list_elem_of_singleton]; [done|]. by destruct Hne'.
  - intros j Hj. apply elem_of_app. left. by apply Hcur.
Qed.

Lemma create_ok nm ent prio st q :
  sched_wf st q -> exists st' r q', create_task nm ent prio st = Some (st', r) /\ sched_wf st' q' /\
    sched_abs st' q' = spec_create (sched_abs st q) /\
    r = if 256 <=? task_count st then None else Some (Z.to_nat (task_count st)).
Proof.
  intros Hwf. pose proof (queue_length _ _ Hwf) as Hlen. pose proof Hwf as [Hl Hc Hn _ Hq _ Hs _ _].
  unfold Sched.create_task, spec_create, MAX_TASKS. simpl.
  destruct (Z.leb_spec 256 (task_count st)) as [Hfull|Hroom]; [by exists st, None, q|].
  rewrite aset_in_range by lia. cbn [mbind option_bind]. rewrite !u32_small by lia.
  set (slot := Z.to_nat (task_count st)). set (t := Tcb _ _ _ _ _ _ _ _ _).
  assert (Hslot : (slot < length (task_table st))%nat) by lia.
  destruct q as [|i q] using rev_ind; [|clear IHq]; simpl in Hq.
  - rewrite Hq. simpl. erewrite update_eq by (simpl; by apply list_lookup_insert_eq). simpl.
    rewrite u32_small, list_insert_insert_eq by lia. do 3 eexists. split; [done|].
    split; [by apply (create_first st (set_state TASK_RUNNING t))|done].
  - destruct (slot_in_table _ _ i Hwf) as [ti Hti]; [set_solver|].
    assert (slot ∉ q ++ [i]) as Hfresh by (intros ?%Hs; lia).
    assert (exists h, ready_queue_head st = Some h) as [h Hh] by (destruct q; naive_solver).
    rewrite Hh. cbn [mbind option_bind]. apply (seg_frame _ slot t) in Hq; [|done]. rewrite Hh in Hq.
    erewrite find_last_seg; [|exact Hq|rewrite length_app in Hlen; unfold queue_fuel; simpl in *; lia].
    cbn [mbind option_bind].
    erewrite update_eq by (simpl; rewrite list_lookup_insert_ne; [done|set_solver]). simpl.
    rewrite u32_small by lia. do 3 eexists. split; [done|]. rewrite <- Hh.
    split; [by apply (create_append st q i ti t)|by destruct q].
Qed.

(** Every task keeps its identifier, and its state except in slot [i]. *)
Definition same_tasks (i : nat) (tt tt' : list tcb_t) : Prop :=
  forall j u', tt' !! j = Some u' ->
    exists u, tt !! j = Some u /\ pid u' = pid u /\ (j <> i -> state u' = state u).

Lemma same_tasks_insert i j t t' tt :
  tt !! j = Some t -> pid t' = pid t -> (j <> i -> state t' = state t) ->
  same_tasks i tt (<[j := t']> tt).
Proof.
  intros Hj Hp Hs k u [(<- & <- & _)|(Hne & Hk)]%list_lookup_insert_Some; [by exists t|by exists u].
Qed.

Lemma same_tasks_trans i tt1 tt2 tt3 :
  same_tasks i tt1 tt2 -> same_tasks i tt2 tt3 -> same_tasks i tt1 tt3.
Proof.
  intros H1 H2 j w (u & (t & Ht & Hp & Hs)%H1 & Hp' & Hs')%H2.
  exists t. split_and!; [done|congruence|]. intros Hj. rewrite Hs' by done. auto.
Qed.

Lemma seg_remove tt h q1 j tj i ti q2 :
  seg tt h (q1 ++ j :: i :: q2) None -> NoDup (q1 ++ j :: i :: q2) ->
  tt !! j = Some tj -> tt !! i = Some ti ->
  seg (<[j := set_next (next ti) tj]> tt) h (q1 ++ j :: q2) None.
Proof.
  intros (t & Ht & Hq1 & Hs)%seg_middle Hnd Hj Hi. simpl in Hs. destruct Hs as (_ & u & Hu & Hs).
  assert (u = ti) as -> by congruence.
  apply NoDup_app in Hnd as (_ & Hd & (Hj' & _)%NoDup_cons).
  apply seg_middle. exists (set_next (next ti) tj). split_and!.
  - apply list_lookup_insert_eq. by eapply lookup_lt_Some.
  - apply seg_frame; [set_solver|done].
  - apply seg_frame; [set_solver|done].
Qed.

Lemma wf_remove st q1 i q2 tt h :
  sched_wf st (q1 ++ i :: q2) -> length tt = length (task_table st) ->
  same_tasks i (task_table st) tt -> seg tt h (q1 ++ q2) None ->
  let c := if decide (current_task st = Some i) then None else current_task st in
  sched_wf (set_current c (set_head h (set_table tt st))) (q1 ++ q2).
Proof.
  intros [Hl Hc Hnp Hpids Hq Hnd Hs Hst Hcur] Hlen Hsame Hseg c.
  assert (i ∉ q1 ++ q2 /\ NoDup (q1 ++ q2)) as [Hni Hnd'].
  { rewrite <- Permutation_middle in Hnd. by apply NoDup_cons in Hnd. }
  assert (Hin : forall j, j ∈ q1 ++ q2 -> j ∈ q1 ++ i :: q2) by set_solver.
  split; simpl; try done; [congruence| | | |].
  - intros j u (u0 & Hu0 & -> & _)%Hsame. by apply Hpids.
  - intros j Hj. by apply Hs, Hin.
  - intros j u Hj (u0 & Hu0 & _ & Hstate)%Hsame. assert (j <> i) by set_solver.
    rewrite Hstate, (Hst j u0) by auto. unfold c.
    destruct (decide (current_task st = Some i)) as [E|E]; [|done].
    rewrite !decide_False; congruence.
  - intros j. unfold c. destruct (decide (current_task st = Some i)) as [E|E]; [done|].
    intros Hj. specialize (Hcur _ Hj). set_solver.
Qed.

Lemma drop_current i st :
  (if decide (current_task st = Some i) then set_current None st else st)
  = set_current (if decide (current_task st = Some i) then None else current_task st) st.
Proof. destruct st. simpl. by case_decide. Qed.

Lemma kill_unlink st q1 i q2 :
  sched_wf st (q1 ++ i :: q2) -> exists st', kill_task (Z.of_nat i + 1) st = Some st' /\
    sched_wf st' (q1 ++ q2) /\ task_count st' = task_count st /\
    current_task st' = if decide (current_task st = Some i) then None else current_task st.
Proof.
  intros Hwf. pose proof (queue_length _ _ Hwf) as Hlen. rewrite length_app in Hlen. simpl in Hlen.
  pose proof Hwf as [Hl Hc _ Hpids Hq Hnd Hs _ _].
  destruct (slot_in_table _ _ i Hwf) as [ti Hti]; [set_solver|].
  assert (Hrange : Z.of_nat i < task_count st) by (apply Hs; set_solver).
  unfold kill_task. erewrite find_pid_found; [|exact Hq|exact Hti|by apply Hpids| |unfold queue_fuel; lia].
  2:{ intros j u Hj Hu. rewrite (Hpids j u) by (done || apply Hs; set_solver).
      apply NoDup_app in Hnd as (_ & Hd & _). specialize (Hd j Hj). set_solver by lia. }
  cbn [mbind option_bind]. rewrite (update_eq _ _ _ _ Hti). cbn [mbind option_bind].
  set (tt1 := <[i := _]> (task_table st)). simpl task_table.
  assert (Hti1 : tt1 !! i = Some (set_state TASK_ZOMBIE ti))
    by (apply list_lookup_insert_eq; by eapply lookup_lt_Some).
  assert (Hsame : same_tasks i (task_table st) tt1) by (by eapply same_tasks_insert).
  rewrite Hti1. cbn [mbind option_bind].
  assert (Hq1 : seg tt1 (ready_queue_head st) (q1 ++ i :: q2) None) by (by eapply seg_same_next).
  destruct q1 as [|j q1 _] using rev_ind; unfold prev_of; rewrite ?last_snoc; simpl list.last.
  - destruct Hq1 as (_ & t & Ht & Hq1). assert (t = set_state TASK_ZOMBIE ti) as -> by congruence.
    cbn [mbind option_bind]. rewrite drop_current. eexists. split; [done|]. split; [|done].
    apply (wf_remove st [] i q2 tt1 (next ti)); [done|apply length_insert|done|done].
  - assert (Hij : i <> j).
    { apply NoDup_app in Hnd as (_ & Hd & _). specialize (Hd j). set_solver. }
    destruct (slot_in_table _ _ j Hwf) as [tj Htj]; [set_solver|].
    assert (Htj1 : tt1 !! j = Some tj) by (unfold tt1; by rewrite list_lookup_insert_ne).
    erewrite update_eq by exact Htj1. cbn [mbind option_bind]. rewrite drop_current.
    eexists. split; [done|]. split; [|done].
    apply (wf_remove st (q1 ++ [j]) i q2 (<[j := set_next (next ti) tj]> tt1) (ready_queue_head st));
      [done|etransitivity; apply length_insert| |].
    + eapply same_tasks_trans; [exact Hsame|]. by eapply same_tasks_insert.
    + rewrite <- app_assoc in *. simpl in *. by apply (seg_remove tt1 _ q1 j tj i (set_state TASK_ZOMBIE ti)).
Qed.

Lemma kill_ok p st q :
  sched_wf st q -> exists st' q', kill_task p st = Some st' /\ sched_wf st' q' /\
    sched_abs st' q' = spec_kill p (sched_abs st q).
Proof.
  intros Hwf. unfold spec_kill. simpl.
  destruct (first_index (has_pid p) q) as [k|] eqn:Hk.
  - apply first_index_Some in Hk as (i & Hi & Hp & _). apply Z.eqb_eq in Hp as <-.
    pose proof (take_drop_middle q k i Hi) as Hsplit. rewrite <- Hsplit in Hwf.
    destruct (kill_unlink _ _ _ _ Hwf) as (st' & -> & Hwf' & Hc & Hcur).
    exists st', (take k q ++ drop (S k) q). split_and!; [done|done|].
    unfold sched_abs. by rewrite Hc, Hcur, delete_take_drop, Hi.
  - exists st, q. split_and!; [|done|done]. unfold kill_task. pose proof (queue_length _ _ Hwf).
    rewrite (find_pid_absent _ _ _ _ q); [done|apply (wf_queue _ _ Hwf)| |unfold queue_fuel; lia].
    intros i t Hi Ht. rewrite (wf_pids _ _ Hwf i t Ht) by (by apply (wf_slots _ _ Hwf)).
    apply list_elem_of_lookup in Hi as [n Hn]. rewrite first_index_None in Hk.
    specialize (Hk n i Hn). by apply Z.eqb_neq in Hk.
Qed.

(** Table changes that keep every link and identifier. *)
Definition links_kept (tt tt' : list tcb_t) : Prop :=
  (length tt' = length tt)%nat /\
  forall k u, tt !! k = Some u -> exists u', tt' !! k = Some u' /\ next u' = next u /\ pid u' = pid u.

#[local] Instance links_kept_preorder : PreOrder links_kept.
Proof.
  split.
  - intros tt. split; [done|]. eauto.
  - intros t1 t2 t3 [Hl1 H1] [Hl2 H2]. split; [congruence|].
    intros k u (u' & (u'' & ? & ? & ?)%H2 & ? & ?)%H1. exists u''. split_and!; congruence.
Qed.

Lemma links_kept_insert i t t' tt :
  tt !! i = Some t -> next t' = next t -> pid t' = pid t -> links_kept tt (<[i := t']> tt).
Proof.
  intros Hi Hn Hp. split; [by rewrite length_insert|]. intros k u Hk.
  destruct (decide (k = i)) as [->|Hne].
  - exists t'. rewrite list_lookup_insert_eq by (by eapply lookup_lt_Some). naive_solver congruence.
  - exists u. by rewrite list_lookup_insert_ne.
Qed.

Lemma links_kept_seg tt tt' h q e : links_kept tt tt' -> seg tt h q e -> seg tt' h q e.
Proof.
  intros [_ Hk]. revert h. induction q as [|i q IH]; intros h; simpl; [done|].
  intros (-> & t & (t' & Ht & Hn & _)%Hk & Hs). split; [done|]. exists t'. rewrite Hn. auto.
Qed.

Lemma wf_switch st q tt j b c :
  sched_wf st q -> j ∈ q -> links_kept (task_table st) tt ->
  (forall k u, k ∈ q -> tt !! k = Some u -> state u = if decide (k = j) then TASK_RUNNING else TASK_READY) ->
  sched_wf (Sched tt (task_count st) (next_pid st) (Some j) (ready_queue_head st) b c) q.
Proof.
  intros [Hl Hc Hnp Hpids Hq Hnd Hs Hst Hcur] Hj Hk Hstates. split; simpl; try done.
  - destruct Hk. congruence.
  - intros i u Hi Hlt. destruct Hk as [Hlen Hk].
    destruct (lookup_lt_is_Some_2 (task_table st) i) as [u0 Hu0].
    { rewrite <- Hlen. by eapply lookup_lt_Some. }
    destruct (Hk i u0 Hu0) as (u' & Hu' & _ & Hp). rewrite Hi in Hu'. injection Hu' as <-.
    rewrite Hp. by apply Hpids.
  - by eapply links_kept_seg.
  - intros k u Hkq Hu. rewrite (Hstates k u Hkq Hu).
    destruct (decide (k = j)) as [->|?]; [by rewrite decide_True|by rewrite decide_False by congruence].
  - intros i [= <-]. done.
Qed.

(** The state after [old_task->state = TASK_READY]. *)
Lemma all_ready st q i t :
  sched_wf st q -> current_task st = Some i -> task_table st !! i = Some t ->
  forall k u, k ∈ q -> <[i := set_state TASK_READY t]> (task_table st) !! k = Some u -> state u = TASK_READY.
Proof.
  intros Hwf Hc Hi k u Hk [(<- & <- & _)|(Hne & Hu)]%list_lookup_insert_Some; [done|].
  rewrite (wf_states _ _ Hwf k u Hk Hu). rewrite decide_False; congruence.
Qed.

(** What a call that switches does, and one that does not. *)
Definition yield_result (st st' : sched_t) (r : option Z) : Prop :=
  match r with
  | None => cpu st' = cpu st /\ current_task st' = current_task st
  | Some rip => exists i j tj ti, current_task st = Some i /\ current_task st' = Some j /\ i <> j /\
      task_table st !! j = Some tj /\ task_table st' !! i = Some ti /\
      switch_task_context yield_ret (cpu st) (stack_pointer tj) = (stack_pointer ti, rip, cpu st')
  end.

(** The running task goes on. *)
Lemma run_next_stay st q i t :
  sched_wf st q -> current_task st = Some i -> task_table st !! i = Some t ->
  let st1 := set_table (<[i := set_state TASK_READY t]> (task_table st)) (set_requested false st) in
  exists st', run_next yield_ret i (Some i) st1 = Some (st', None) /\ sched_wf st' q /\
    task_count st' = task_count st /\ current_task st' = Some i /\ schedule_requested st' = false /\
    cpu st' = cpu st.
Proof.
  intros Hwf Hc Hi st1. assert (Hlt : (i < length (task_table st))%nat) by (by eapply lookup_lt_Some).
  unfold run_next. rewrite decide_True by done.
  erewrite update_eq by (simpl; by apply list_lookup_insert_eq). cbn [mbind option_bind].
  eexists. split; [done|]. unfold st1, set_table, set_requested; simpl. split; [|done].
  rewrite list_insert_insert_eq, Hc.
  apply wf_switch; [done|by apply (wf_current _ _ Hwf)|by eapply links_kept_insert|].
  intros k u Hk [(<- & <- & _)|(Hne & Hu)]%list_lookup_insert_Some; [by rewrite decide_True|].
  rewrite decide_False by done. rewrite (wf_states _ _ Hwf k u Hk Hu). rewrite decide_False; congruence.
Qed.

(** Another task of the queue takes over. *)
Lemma run_next_switch st q i t j :
  sched_wf st q -> current_task st = Some i -> task_table st !! i = Some t -> j ∈ q -> j <> i ->
  let st1 := set_table (<[i := set_state TASK_READY t]> (task_table st)) (set_requested false st) in
  exists st' rip, run_next yield_ret i (Some j) st1 = Some (st', Some rip) /\ sched_wf st' q /\
    task_count st' = task_count st /\ current_task st' = Some j /\ schedule_requested st' = false /\
    yield_result st st' (Some rip).
Proof.
  intros Hwf Hc Hi Hj Hji st1. assert (Hlt : (i < length (task_table st))%nat) by (by eapply lookup_lt_Some).
  destruct (slot_in_table _ _ j Hwf Hj) as [tj Htj]. pose proof (lookup_lt_Some _ _ _ Htj) as Hjlt.
  unfold run_next. rewrite decide_False by done.
  erewrite update_eq by (simpl; by rewrite list_lookup_insert_ne).
  cbn [mbind option_bind task_table set_table set_current cpu set_requested].
  rewrite list_lookup_insert_eq by (unfold st1; simpl; by rewrite length_insert).
  cbn [mbind option_bind stack_pointer set_timeslice set_state].
  change (cpu st1) with (cpu st).
  destruct (switch_task_context yield_ret (cpu st) (stack_pointer tj)) as [[saved rip] c] eqn:Hsw.
  erewrite update_eq by (simpl; rewrite list_lookup_insert_ne by done; by apply list_lookup_insert_eq).
  cbn [mbind option_bind]. eexists _, rip. split; [done|].
  unfold st1, set_table, set_requested, set_cpu, set_current; simpl. split; [|split_and!; try done].
  - apply wf_switch; [done|done| |].
    + etransitivity; [by eapply (links_kept_insert i t (set_state TASK_READY t))|].
      etransitivity; [eapply (links_kept_insert j tj (set_timeslice 20 (set_state TASK_RUNNING tj))); [by rewrite list_lookup_insert_ne|done|done]|].
      apply (links_kept_insert i (set_state TASK_READY t)); [|done|done].
      rewrite list_lookup_insert_ne by done. by apply list_lookup_insert_eq.
    + intros k u Hk. rewrite list_lookup_insert_Some.
      intros [(<- & <- & _)|(Hne & Hu)]; [by rewrite decide_False|].
      apply list_lookup_insert_Some in Hu as [(<- & <- & _)|(Hne' & Hu)]; [by rewrite decide_True|].
      rewrite decide_False by done. by eapply all_ready.
  - exists i, j, tj, (set_stack_pointer saved (set_state TASK_READY t)). split_and!; try done.
    simpl. apply list_lookup_insert_eq. by rewrite !length_insert.
Qed.

(** Positions in the queue. *)
Lemma first_index_middle q1 i q2 :
  NoDup (q1 ++ i :: q2) -> first_index (Nat.eqb i) (q1 ++ i :: q2) = Some (length q1).
Proof.
  intros (_ & Hd & _)%NoDup_app. apply first_index_Some. exists i. split_and!.
  - by rewrite lookup_app_r, Nat.sub_diag.
  - apply Nat.eqb_refl.
  - intros k x Hk Hx. rewrite lookup_app_l in Hx by done. apply Nat.eqb_neq. intros <-.
    apply (Hd i); [by eapply list_elem_of_lookup_2|apply list_elem_of_here].
Qed.

Definition cyclic_next (q1 : list nat) (i : nat) (q2 : list nat) : nat :=
  match q2 with j :: _ => j | [] => default i (head q1) end.

Lemma spec_yield_middle n q1 i q2 :
  NoDup (q1 ++ i :: q2) ->
  spec_yield (SQueue n (q1 ++ i :: q2) (Some i)) = SQueue n (q1 ++ i :: q2) (Some (cyclic_next q1 i q2)).
Proof.
  intros Hnd. unfold spec_yield. simpl. rewrite first_index_middle by done. f_equal.
  rewrite length_app. destruct q2 as [|j q2]; simpl.
  - replace (length q1 + 1)%nat with (S (length q1)) by lia. rewrite Nat.Div0.mod_same. by destruct q1.
  - rewrite Nat.mod_small by lia. rewrite lookup_app_r by lia.
    by replace (S (length q1) - length q1)%nat with 1%nat by lia.
Qed.

Lemma yield_ok st q :
  sched_wf st q -> exists st' r, task_yield st = Some (st', r) /\ sched_wf st' q /\
    sched_abs st' q = spec_yield (sched_abs st q) /\ yield_result st st' r /\
    (is_Some (current_task st) -> schedule_requested st' = false).
Proof.
  intros Hwf. unfold Sched.task_yield. destruct (current_task st) as [i|] eqn:Hcur.
  2:{ exists st, None. unfold sched_abs, spec_yield. simpl. rewrite Hcur. by split_and!; try intros [? [=]]. }
  pose proof (wf_current _ _ Hwf i Hcur) as Hiq. apply list_elem_of_split in Hiq as (q1 & q2 & ->).
  pose proof (wf_nodup _ _ Hwf) as Hnd. pose proof (wf_queue _ _ Hwf) as Hq.
  destruct (slot_in_table _ _ i Hwf) as [t Ht]; [set_solver|].
  assert (exists h, ready_queue_head st = Some h) as [h Hh] by (destruct q1; simpl in Hq; naive_solver).
  rewrite Hh. replace (if schedule_requested st then set_requested false st else st)
    with (set_requested false st) by (destruct st as [????? [] ?]; done).
  simpl task_table. rewrite Ht. cbn [mbind option_bind].
  rewrite decide_True by (rewrite (wf_states _ _ Hwf i t) by (set_solver || done); by rewrite decide_True).
  rewrite (update_eq _ _ _ t) by done. cbn [mbind option_bind]. simpl task_table.
  pose proof (all_ready _ _ _ _ Hwf Hcur Ht) as Hready.
  apply (seg_same_next _ i t (set_state TASK_READY t)) in Hq as Hq'; [|done|done].
  assert (Hs2 : seg (<[i:=set_state TASK_READY t]> (task_table st)) (next t) q2 None).
  { apply seg_middle in Hq' as (t' & Ht' & _ & Hs). rewrite list_lookup_insert_eq in Ht' by (by eapply lookup_lt_Some).
    by injection Ht' as <-. }
  rewrite (find_ready_seg _ (next t) q2); [|exact Hs2| |unfold queue_fuel; lia].
  2:{ intros k u Hk Hu. apply (Hready k); [set_solver|done]. }
  cbn [mbind option_bind]. unfold sched_abs at 2. rewrite Hcur, (spec_yield_middle _ q1 i q2) by done.
  destruct q2 as [|j q2]; simpl head.
  - rewrite Hh in Hq'. rewrite (find_ready_seg _ _ (q1 ++ [i])); [|exact Hq'|exact Hready|unfold queue_fuel; lia].
    destruct q1 as [|k q1]; cbn [mbind option_bind app head].
    + destruct (run_next_stay st [i] i t) as (st' & Hr & Hwf' & Hn & Hc & Hreq & Hcpu); try done.
      exists st', None. unfold sched_abs. rewrite Hn, Hc. split_and!; try done. split; congruence.
    + destruct (run_next_switch st ((k :: q1) ++ [i]) i t k) as (st' & rip & Hr & Hwf' & Hn & Hc & Hreq & Hy);
        try done; [set_solver|apply NoDup_app in Hnd as (_ & Hd & _); specialize (Hd k); set_solver|].
      exists st', (Some rip). unfold sched_abs. rewrite Hn, Hc. by split_and!.
  - destruct (run_next_switch st (q1 ++ i :: j :: q2) i t j) as (st' & rip & Hr & Hwf' & Hn & Hc & Hreq & Hy);
      try done; [set_solver|apply NoDup_app in Hnd as (_ & _ & (Hd & _)%NoDup_cons); set_solver|].
    exists st', (Some rip). unfold sched_abs. rewrite Hn, Hc. by split_and!.
Qed.

(** ** Sequences of calls

    Between two calls the running code computes: it may change the registers
    and the memory in any way. *)
Inductive sched_op :=
| Create (nm : string) (ent prio : Z)
| Kill (p : Z)
| Yield
| Request
| Compute (c : cpu_t).

Definition sched_step (op : sched_op) (st : sched_t) : option sched_t :=
  match op with
  | Create nm ent prio => '(st', _) ← create_task nm ent prio st; Some st'
  | Kill p => kill_task p st
  | Yield => '(st', _) ← task_yield st; Some st'
  | Request => Some (request_schedule st)
  | Compute c => Some (set_cpu c st)
  end.

Fixpoint sched_run (ops : list sched_op) (st : sched_t) : option sched_t :=
  match ops with
  | [] => Some st
  | op :: ops' => st' ← sched_step op st; sched_run ops' st'
  end.

Definition spec_step (op : sched_op) (s : squeue) : squeue :=
  match op with
  | Create _ _ _ => spec_create s
  | Kill p => spec_kill p s
  | Yield => spec_yield s
  | Request | Compute _ => s
  end.

Definition spec_run (ops : list sched_op) (s : squeue) : squeue :=
  foldl (fun s op => spec_step op s) s ops.

Lemma wf_only_cpu st q b c :
  sched_wf st q -> sched_wf (set_requested b (set_cpu c st)) q.
Proof. intros []. by split. Qed.

Lemma step_ok op st q :
  sched_wf st q -> exists st' q', sched_step op st = Some st' /\ sched_wf st' q' /\
    sched_abs st' q' = spec_step op (sched_abs st q).
Proof.
  intros Hwf. destruct op as [nm ent prio|p| | |c]; simpl.
  - destruct (create_ok nm ent prio st q Hwf) as (st' & r & q' & -> & Hwf' & Ha & _). by exists st', q'.
  - by apply kill_ok.
  - destruct (yield_ok st q Hwf) as (st' & r & -> & Hwf' & Ha & _). by exists st', q.
  - exists (request_schedule st), q. split_and!; try done. destruct Hwf. by split.
  - exists (set_cpu c st), q. split_and!; try done. destruct Hwf. by split.
Qed.

Lemma run_ok ops st q :
  sched_wf st q -> exists st' q', sched_run ops st = Some st' /\ sched_wf st' q' /\
    sched_abs st' q' = spec_run ops (sched_abs st q).
Proof.
  revert st q. induction ops as [|op ops IH]; intros st q Hwf; [by exists st, q|]. simpl.
  destruct (step_ok op st q Hwf) as (st1 & q1 & -> & Hwf1 & Ha). simpl.
  destruct (IH st1 q1 Hwf1) as (st2 & q2 & -> & Hwf2 & Ha2). exists st2, q2.
  split_and!; try done. by rewrite Ha2, Ha.
Qed.

Lemma run_app ops1 ops2 st :
  sched_run (ops1 ++ ops2) st = st' ← sched_run ops1 st; sched_run ops2 st'.
Proof.
  revert st. induction ops1 as [|op ops1 IH]; intros st; [done|]. simpl.
  destruct (sched_step op st); simpl; [apply IH|done].
Qed.

(** [k] turns of the processor: the running task computes, then yields. *)
Definition turns (cs : list cpu_t) : list sched_op := cs ≫= fun c => [Compute c; Yield].

Lemma spec_turns cs n q p i :
  NoDup q -> q !! p = Some i ->
  spec_run (turns cs) (SQueue n q (Some i)) = SQueue n q (q !! ((p + length cs) mod length q)%nat).
Proof.
  intros Hnd. revert p i. induction cs as [|c cs IH]; intros p i Hp; simpl.
  - rewrite Nat.add_0_r, Nat.mod_small by (by eapply lookup_lt_Some). by rewrite Hp.
  - pose proof (lookup_lt_Some _ _ _ Hp) as Hlt.
    assert (Hfi : first_index (Nat.eqb i) q = Some p).
    { rewrite <- (take_drop_middle q p i Hp) in Hnd |- *. rewrite first_index_middle by done.
      rewrite length_take. f_equal. lia. }
    unfold spec_run, turns. simpl. unfold spec_yield at 1. simpl. rewrite Hfi.
    destruct (lookup_lt_is_Some_2 q (S p mod length q)) as [j Hj]; [apply Nat.mod_upper_bound; lia|].
    rewrite Hj. etransitivity; [apply (IH (S p mod length q)%nat j Hj)|]. f_equal. f_equal.
    rewrite Nat.Div0.add_mod_idemp_l. f_equal. lia.
Qed.

(** No call but [kill_task] gives the processor back once it is lost. *)
Definition not_kill (op : sched_op) : Prop := match op with Kill _ => False | _ => True end.

Lemma spec_stuck ops n q :
  Forall not_kill ops -> q <> [] ->
  exists n' q', spec_run ops (SQueue n q None) = SQueue n' q' None /\ q `prefix_of` q'.
Proof.
  intros Hops. revert n q. induction Hops as [|op ops Hop Hops IH]; intros n q Hq; [by exists n, q|].
  assert (exists n1 q1, spec_step op (SQueue n q None) = SQueue n1 q1 None /\ q `prefix_of` q1)
    as (n1 & q1 & Hs & Hpre).
  { destruct op; simpl in *; try done; try (by exists n, q). unfold spec_create. simpl.
    destruct (256 <=? n); [by exists n, q|]. destruct q; [done|]. do 2 eexists. split; [done|].
    by apply prefix_app_r. }
  destruct (IH n1 q1) as (n2 & q2 & Hr & Hpre2); [intros ->; by apply prefix_nil_inv in Hpre|].
  exists n2, q2. split; [|by etransitivity]. unfold spec_run. simpl. by rewrite Hs.
Qed.

(** ** Exit of a task *)

Lemma find_pid_links tt tt' p prev h fuel :
  links_kept tt tt' -> is_Some (find_pid fuel tt p prev h) ->
  find_pid fuel tt' p prev h = find_pid fuel tt p prev h.
Proof.
  intros [_ Hk]. revert prev h. induction fuel as [|fuel IH]; intros prev h Hs; [by destruct Hs|].
  destruct h as [i|]; [|done].
  change (find_pid (S fuel) tt' p prev (Some i)) with
    (t ← tt' !! i; if pid t =? p then Some (Some (prev, i)) else find_pid fuel tt' p (Some i) (next t)).
  change (find_pid (S fuel) tt p prev (Some i)) with
    (t ← tt !! i; if pid t =? p then Some (Some (prev, i)) else find_pid fuel tt p (Some i) (next t)) in *.
  destruct (tt !! i) as [t|] eqn:Ht; [|by destruct Hs]. simpl in *.
  destruct (Hk i t Ht) as (t' & -> & Hn & Hp). simpl. rewrite Hn, Hp.
  destruct (pid t =? p); [done|]. by apply IH.
Qed.

Lemma kill_zombie st q i t :
  sched_wf st q -> i ∈ q -> task_table st !! i = Some t ->
  kill_task (pid t) (set_table (<[i := set_state TASK_ZOMBIE t]> (task_table st)) st) = kill_task (pid t) st.
Proof.
  intros Hwf Hi Ht. apply list_elem_of_split in Hi as (q1 & q2 & ->).
  pose proof (queue_length _ _ Hwf) as Hlen. rewrite length_app in Hlen. simpl in Hlen.
  pose proof Hwf as [Hl Hc _ Hpids Hq Hnd Hs _ _].
  assert (Hpt : pid t = Z.of_nat i + 1) by (apply Hpids; [done|apply Hs; set_solver]).
  assert (Hf : find_pid queue_fuel (task_table st) (pid t) None (ready_queue_head st)
    = Some (Some (prev_of None q1, i))).
  { eapply find_pid_found; [exact Hq|exact Ht|done| |unfold queue_fuel; lia].
    intros j u Hj Hu. rewrite Hpt, (Hpids j u) by (done || apply Hs; set_solver).
    apply NoDup_app in Hnd as (_ & Hd & _). specialize (Hd j Hj). set_solver by lia. }
  unfold kill_task. simpl task_table. simpl ready_queue_head.
  rewrite (find_pid_links (task_table st)), Hf by (by eapply links_kept_insert || rewrite Hf; eauto).
  cbn [mbind option_bind]. rewrite (update_eq i _ st t Ht).
  rewrite (update_eq i _ _ (set_state TASK_ZOMBIE t))
    by (simpl; apply list_lookup_insert_eq; by eapply lookup_lt_Some).
  simpl task_table. rewrite list_insert_insert_eq. done.
Qed.

(** The exit of the running task gives the processor to no other task. *)
Lemma exit_ok st q i :
  sched_wf st q -> current_task st = Some i ->
  exists st' q1 q2, q = q1 ++ i :: q2 /\ task_exit st = Some (st', None) /\
    sched_wf st' (q1 ++ q2) /\ current_task st' = None.
Proof.
  intros Hwf Hcur. pose proof (wf_current _ _ Hwf i Hcur) as Hi.
  destruct (slot_in_table _ _ i Hwf Hi) as [t Ht].
  pose proof (kill_zombie st q i t Hwf Hi Ht) as Hk.
  pose proof (wf_pids _ _ Hwf i t Ht (wf_slots _ _ Hwf i Hi)) as Hp.
  apply list_elem_of_split in Hi as (q1 & q2 & ->).
  destruct (kill_unlink _ _ _ _ Hwf) as (st' & Hkill & Hwf' & _ & Hc).
  exists st', q1, q2. split; [done|]. rewrite decide_True in Hc by done. split; [|done].
  unfold Sched.task_exit. rewrite Hcur, (update_eq _ _ _ _ Ht). cbn [mbind option_bind]. simpl task_table.
  rewrite list_lookup_insert_eq by (by eapply lookup_lt_Some). cbn [mbind option_bind].
  change (pid (set_state TASK_ZOMBIE t)) with (pid t). rewrite Hk, Hp, Hkill. cbn [mbind option_bind].
  unfold Sched.task_yield. by rewrite Hc.
Qed.
End scheduler.

(** ** Theorems *)

(** C7: from any well-formed scheduler state, every sequence of task
    creations, kills, yields and computations of the running task runs to
    completion (every walk over the queue ends and no pointer leaves the
    table) and refines the contract: a FIFO queue of at most 256 slots that
    are never reused, [kill_task] unlinks exactly the task with the given
    identifier, [task_yield] hands over to the next task in cyclic order.
    In the resulting state at most the current task is running and every
    other queued task is ready. *)
Theorem sched_run_refines stacks_addr wrapper_addr yield_ret ops st q :
  sched_wf st q ->
  exists st' q', sched_run stacks_addr wrapper_addr yield_ret ops st = Some st' /\ sched_wf st' q' /\
    sched_abs st' q' = spec_run ops (sched_abs st q).
Proof. apply run_ok. Qed.

(** The state at boot, with any contents of the table. *)
Definition sched_static (tt : list tcb_t) (c : cpu_t) : sched_t := Sched tt 0 1 None None false c.

Lemma initialize_wf tt c :
  length tt = 256%nat -> sched_wf (scheduler_initialize (sched_static tt c)) [].
Proof.
  intros Hl. split; simpl; try (done || lia); try (intros ? ?%elem_of_nil; done).
  - by rewrite length_fmap.
  - apply NoDup_nil_2.
  - intros ? ? ?%elem_of_nil. done.
Qed.

Definition zero_tcb : tcb_t := Tcb 0 None TASK_RUNNING 0 0 0 0 0 None.
Definition zero_cpu : cpu_t := Cpu 0x90000 0 0 0 0 0 0 (fun _ => 0).
Definition sched_boot : sched_t := scheduler_initialize (sched_static (replicate 256 zero_tcb) zero_cpu).

Lemma sched_boot_wf : sched_wf sched_boot [].
Proof. apply initialize_wf. reflexivity. Qed.

Lemma sched_run_refines_witness :
  exists st' q', sched_run 0x200000 0x1000 0x2000
      [Create "idle" 0x3000 0; Create "shell" 0x4000 1; Create "net" 0x5000 1; Yield; Kill 1; Yield] sched_boot
    = Some st' /\ sched_abs st' q' = SQueue 3 [1%nat; 2%nat] (Some 2%nat).
Proof.
  destruct (sched_run_refines 0x200000 0x1000 0x2000
    [Create "idle" 0x3000 0; Create "shell" 0x4000 1; Create "net" 0x5000 1; Yield; Kill 1; Yield]
    sched_boot [] sched_boot_wf) as (st' & q' & Hr & _ & Ha).
  exists st', q'. split; [exact Hr|]. rewrite Ha. reflexivity.
Defined.

(** C8: round robin. When the running task stands at position [p] of a queue
    of [n] tasks, then after [k] turns, whatever the tasks compute in
    between, the task at position [(p + k) mod n] runs: every task of the
    queue gets the processor once in every [n] turns. *)
Theorem sched_round_robin stacks_addr wrapper_addr yield_ret cs st q p i :
  sched_wf st q -> current_task st = Some i -> q !! p = Some i ->
  exists st', sched_run stacks_addr wrapper_addr yield_ret (turns cs) st = Some st' /\ sched_wf st' q /\
    current_task st' = q !! ((p + length cs) mod length q)%nat.
Proof.
  intros Hwf Hc Hp. destruct (run_ok stacks_addr wrapper_addr yield_ret (turns cs) st q Hwf)
    as (st' & q' & Hr & Hwf' & Ha).
  unfold sched_abs at 2 in Ha. rewrite Hc, (spec_turns cs _ q p i) in Ha by (done || apply (wf_nodup _ _ Hwf)).
  injection Ha as Hn -> Hcur. by exists st'.
Qed.

Definition two_tasks : sched_t :=
  default sched_boot (sched_run 0x200000 0x1000 0x2000 [Create "idle" 0x3000 0; Create "shell" 0x4000 1] sched_boot).

Lemma two_tasks_wf : sched_wf two_tasks [0%nat; 1%nat] /\ current_task two_tasks = Some 0%nat.
Proof.
  destruct (run_ok 0x200000 0x1000 0x2000 [Create "idle" 0x3000 0; Create "shell" 0x4000 1] sched_boot []
    sched_boot_wf) as (st' & q' & Hr & Hwf & Ha).
  unfold two_tasks. rewrite Hr. simpl. injection Ha as _ -> Hc. done.
Qed.

Lemma sched_round_robin_witness :
  exists st', sched_run 0x200000 0x1000 0x2000 (turns [zero_cpu; zero_cpu; zero_cpu]) two_tasks = Some st' /\
    current_task st' = Some 1%nat.
Proof.
  destruct two_tasks_wf as [Hwf Hc].
  destruct (sched_round_robin 0x200000 0x1000 0x2000 [zero_cpu; zero_cpu; zero_cpu] two_tasks
    [0%nat; 1%nat] 0%nat 0%nat Hwf Hc eq_refl) as (st' & Hr & _ & Hcur).
  exists st'. split; [exact Hr|]. rewrite Hcur. reflexivity.
Defined.

(** A task that returns from its entry function takes the processor with
    it.  The exit unlinks the task and leaves no current task; from then on
    [task_yield] returns without a switch after any sequence of calls other
    than [kill_task], although the other tasks are still ready in the
    queue. *)
Theorem sched_stuck_after_exit stacks_addr wrapper_addr yield_ret st q i :
  sched_wf st q -> current_task st = Some i -> (2 <= length q)%nat ->
  exists st' q0, task_exit yield_ret st = Some (st', None) /\ sched_wf st' q0 /\ q0 <> [] /\
    forall ops, Forall not_kill ops ->
      exists st'' q', sched_run stacks_addr wrapper_addr yield_ret ops st' = Some st'' /\
        q0 `prefix_of` q' /\ sched_wf st'' q' /\ current_task st'' = None /\
        task_yield yield_ret st'' = Some (st'', None).
Proof.
  intros Hwf Hc Hlen. destruct (exit_ok yield_ret st q i Hwf Hc) as (st' & q1 & q2 & -> & He & Hwf' & Hc').
  assert (Hne : q1 ++ q2 <> []).
  { rewrite length_app in Hlen. simpl in Hlen. destruct q1, q2; simpl in *; done || lia. }
  exists st', (q1 ++ q2). split_and!; try done. intros ops Hops.
  destruct (run_ok stacks_addr wrapper_addr yield_ret ops st' _ Hwf') as (st'' & q' & Hr & Hwf'' & Ha).
  destruct (spec_stuck ops (task_count st') (q1 ++ q2) Hops Hne) as (n & qn & Hs & Hpre).
  unfold sched_abs at 2 in Ha. rewrite Hc', Hs in Ha. injection Ha as _ -> Hcur.
  exists st'', qn. split_and!; try done. unfold task_yield. by rewrite Hcur.
Qed.

Lemma sched_stuck_after_exit_witness :
  exists st', task_exit 0x2000 two_tasks = Some (st', None) /\ current_task st' = None.
Proof.
  destruct two_tasks_wf as [Hwf Hc].
  destruct (sched_stuck_after_exit 0x200000 0x1000 0x2000 two_tasks [0%nat; 1%nat] 0%nat Hwf Hc)
    as (st' & q0 & He & _ & _ & Hstuck); [simpl; lia|].
  exists st'. split; [exact He|].
  destruct (Hstuck [] (List.Forall_nil _)) as (st'' & q' & Hr & _ & _ & Hcur & _).
  injection Hr as ->. exact Hcur.
Defined.

(** ** The context switch *)

Module ContextFacts.

(** The memory after the seven pushes. *)
Definition save_frame (ret : Z) (c : cpu_t) : Z -> Z :=
  let s := rsp c in
  <[s - 56 := r15 c]> (<[s - 48 := r14 c]> (<[s - 40 := r13 c]> (<[s - 32 := r12 c]>
    (<[s - 24 := rbp c]> (<[s - 16 := rbx c]> (<[s - 8 := ret]> (mem c))))))).

Lemma switch_eq ret c new :
  56 <= rsp c < 2 ^ 64 -> 0 <= new -> new + 56 < 2 ^ 64 ->
  let m := save_frame ret c in
  switch_task_context ret c new =
    (rsp c - 56, m (new + 48),
     Cpu (new + 56) (m (new + 40)) (m (new + 32)) (m (new + 24)) (m (new + 16)) (m (new + 8)) (m new) m).
Proof.
  change (2 ^ 64) with 18446744073709551616. intros Hs Hn Hn' m.
  destruct c as [s vbx vbp v12 v13 v14 v15 m0]. cbn [rsp] in Hs.
  lazy beta iota zeta delta [switch_task_context push pop set_rsp rsp rbx rbp r12 r13 r14 r15 mem].
  rewrite (u64_small (s - 8)) by lia. replace (s - 8 - 8) with (s - 16) by lia.
  rewrite (u64_small (s - 16)) by lia. replace (s - 16 - 8) with (s - 24) by lia.
  rewrite (u64_small (s - 24)) by lia. replace (s - 24 - 8) with (s - 32) by lia.
  rewrite (u64_small (s - 32)) by lia. replace (s - 32 - 8) with (s - 40) by lia.
  rewrite (u64_small (s - 40)) by lia. replace (s - 40 - 8) with (s - 48) by lia.
  rewrite (u64_small (s - 48)) by lia. replace (s - 48 - 8) with (s - 56) by lia.
  rewrite (u64_small (s - 56)) by lia. 
  change (<[s - 56 := v15]> _) with m. clearbody m.
  rewrite (u64_small (new + 8)) by lia. replace (new + 8 + 8) with (new + 16) by lia.
  rewrite (u64_small (new + 16)) by lia. replace (new + 16 + 8) with (new + 24) by lia.
  rewrite (u64_small (new + 24)) by lia. replace (new + 24 + 8) with (new + 32) by lia.
  rewrite (u64_small (new + 32)) by lia. replace (new + 32 + 8) with (new + 40) by lia.
  rewrite (u64_small (new + 40)) by lia. replace (new + 40 + 8) with (new + 48) by lia.
  rewrite (u64_small (new + 48)) by lia. replace (new + 48 + 8) with (new + 56) by lia.
  rewrite (u64_small (new + 56)) by lia. reflexivity.
Qed.

Lemma save_frame_outside ret c a :
  a < rsp c - 56 \/ rsp c <= a -> save_frame ret c a = mem c a.
Proof. intros Ha. unfold save_frame. by rewrite !fn_lookup_insert_ne by lia. Qed.

Ltac frame_word := unfold save_frame; repeat (rewrite fn_lookup_insert_ne by lia); apply fn_lookup_insert.

Lemma save_frame_words ret c (s := rsp c) (m := save_frame ret c) :
  m (s - 56) = r15 c /\ m (s - 48) = r14 c /\ m (s - 40) = r13 c /\ m (s - 32) = r12 c /\
  m (s - 24) = rbp c /\ m (s - 16) = rbx c /\ m (s - 8) = ret.
Proof. subst s m. split_and!; frame_word. Qed.

End ContextFacts.
Import ContextFacts.

(** C9: a task that was switched out by [switch_task_context] is resumed by a
    later switch to its saved stack pointer with all its callee-saved
    registers and its stack pointer, at the return address of its own call,
    provided that its seven saved words are untouched in between and that the
    switching task's stack does not overlap them; the second switch writes
    only below the other task's stack pointer. *)
Theorem switch_resumes ret c new saved rip c1 ret' c2 :
  56 <= rsp c < 2 ^ 64 -> 0 <= new -> new + 56 < 2 ^ 64 ->
  switch_task_context ret c new = (saved, rip, c1) ->
  (forall a, saved <= a < rsp c -> mem c2 a = mem c1 a) ->
  56 <= rsp c2 < 2 ^ 64 -> (rsp c2 <= saved \/ rsp c <= rsp c2 - 56) ->
  exists saved' c3, switch_task_context ret' c2 saved = (saved', ret, c3) /\
    saved' = rsp c2 - 56 /\ rsp c3 = rsp c /\
    rbx c3 = rbx c /\ rbp c3 = rbp c /\ r12 c3 = r12 c /\ r13 c3 = r13 c /\ r14 c3 = r14 c /\ r15 c3 = r15 c /\
    forall a, a < rsp c2 - 56 \/ rsp c2 <= a -> mem c3 a = mem c2 a.
Proof.
  intros Hs Hn Hn' Hsw Hmem Hs2 Hdisj. rewrite switch_eq in Hsw by done.
  injection Hsw as <- <- <-. cbn [mem] in Hmem.
  assert (Hm : forall a, rsp c - 56 <= a < rsp c -> save_frame ret' c2 a = save_frame ret c a).
  { intros a Ha. rewrite save_frame_outside by lia. by apply Hmem. }
  destruct (save_frame_words ret c) as (H15 & H14 & H13 & H12 & Hbp & Hbx & Hret).
  rewrite switch_eq by lia. eexists _, _. split.
  - rewrite (Hm (rsp c - 56 + 48)) by lia. replace (rsp c - 56 + 48) with (rsp c - 8) by lia.
    rewrite Hret. reflexivity.
  - cbn [rsp rbx rbp r12 r13 r14 r15 mem]. rewrite !Hm by lia.
    replace (rsp c - 56 + 40) with (rsp c - 16) by lia. replace (rsp c - 56 + 32) with (rsp c - 24) by lia.
    replace (rsp c - 56 + 24) with (rsp c - 32) by lia. replace (rsp c - 56 + 16) with (rsp c - 40) by lia.
    replace (rsp c - 56 + 8) with (rsp c - 48) by lia.
    split_and!; try done; [lia|]. intros a Ha. by apply save_frame_outside.
Qed.

Definition ctx_a : cpu_t := Cpu 0x90000 1 2 3 4 5 6 (fun _ => 0).
Definition ctx_b : cpu_t := Cpu 0x60000 0 0 0 0 0 0 (mem (switch_task_context 0x2000 ctx_a 0x50000).2).

Lemma switch_resumes_witness :
  exists saved' c3, switch_task_context 0x2000 ctx_b 0x8FFC8 = (saved', 0x2000, c3) /\ r12 c3 = 3.
Proof.
  assert (Ha : 56 <= rsp ctx_a < 2 ^ 64) by (simpl; lia).
  assert (Hb : 56 <= rsp ctx_b < 2 ^ 64) by (unfold ctx_b; cbn [rsp]; lia).
  assert (Hsw : switch_task_context 0x2000 ctx_a 0x50000
    = (0x8FFC8, 0, (switch_task_context 0x2000 ctx_a 0x50000).2)).
  { rewrite (switch_eq 0x2000 ctx_a 0x50000 Ha) by lia. reflexivity. }
  assert (Hd : rsp ctx_b <= 0x8FFC8) by (unfold ctx_b; cbn [rsp]; lia).
  destruct (switch_resumes 0x2000 ctx_a 0x50000 0x8FFC8 0 _ 0x2000 ctx_b Ha ltac:(lia) ltac:(lia) Hsw
    (fun a _ => eq_refl) Hb (or_introl Hd)) as (saved' & c3 & Hs & _ & _ & _ & _ & H12 & _).
  exists saved', c3. split; [exact Hs|exact H12].
Defined.

(** ** The first task *)

Lemma switch_saved ret c new :
  56 <= rsp c < 2 ^ 64 -> (switch_task_context ret c new).1.1 = rsp c - 56 /\
  mem (switch_task_context ret c new).2 = save_frame ret c.
Proof.
  change (2 ^ 64) with 18446744073709551616. destruct c as [s vbx vbp v12 v13 v14 v15 m0].
  cbn [rsp]. intros Hs. unfold save_frame.
  lazy beta iota zeta delta [switch_task_context push pop set_rsp rsp rbx rbp r12 r13 r14 r15 mem fst snd].
  rewrite (u64_small (s - 8)) by lia. replace (s - 8 - 8) with (s - 16) by lia.
  rewrite (u64_small (s - 16)) by lia. replace (s - 16 - 8) with (s - 24) by lia.
  rewrite (u64_small (s - 24)) by lia. replace (s - 24 - 8) with (s - 32) by lia.
  rewrite (u64_small (s - 32)) by lia. replace (s - 32 - 8) with (s - 40) by lia.
  rewrite (u64_small (s - 40)) by lia. replace (s - 40 - 8) with (s - 48) by lia.
  rewrite (u64_small (s - 48)) by lia. replace (s - 48 - 8) with (s - 56) by lia.
  rewrite (u64_small (s - 56)) by lia. split; reflexivity.
Qed.

Lemma switch_rip ret c new :
  0 <= new -> new + 56 < 2 ^ 64 ->
  let '(_, rip, c') := switch_task_context ret c new in rip = mem c' (new + 48) /\ rsp c' = new + 56.
Proof.
  change (2 ^ 64) with 18446744073709551616. intros Hn Hn'.
  destruct c as [s vbx vbp v12 v13 v14 v15 m0].
  lazy beta iota zeta delta [switch_task_context push pop set_rsp rsp rbx rbp r12 r13 r14 r15 mem].
  set (m := <[u64 (u64 _ - 8) := v15]> _). clearbody m.
  rewrite (u64_small (new + 8)) by lia. replace (new + 8 + 8) with (new + 16) by lia.
  rewrite (u64_small (new + 16)) by lia. replace (new + 16 + 8) with (new + 24) by lia.
  rewrite (u64_small (new + 24)) by lia. replace (new + 24 + 8) with (new + 32) by lia.
  rewrite (u64_small (new + 32)) by lia. replace (new + 32 + 8) with (new + 40) by lia.
  rewrite (u64_small (new + 40)) by lia. replace (new + 40 + 8) with (new + 48) by lia.
  rewrite (u64_small (new + 48)) by lia. replace (new + 48 + 8) with (new + 56) by lia.
  rewrite (u64_small (new + 56)) by lia. split; reflexivity.
Qed.

(** The saved stack pointer of a slot; only its own [task_yield] writes it. *)
Definition saved_sp (st : sched_t) (i : nat) : option Z := stack_pointer <$> task_table st !! i.

Lemma saved_sp_update st i f st' j :
  update i f st = Some st' -> (forall t, stack_pointer (f t) = stack_pointer t) ->
  saved_sp st' j = saved_sp st j.
Proof.
  intros Hu Hf. unfold update in Hu. apply bind_Some in Hu as (t & Ht & [= <-]). unfold saved_sp. simpl.
  destruct (decide (j = i)) as [->|Hne]; [|by rewrite list_lookup_insert_ne].
  rewrite list_lookup_insert_eq, Ht by (by eapply lookup_lt_Some). simpl. by rewrite Hf.
Qed.

Section first_task.
Context (stacks_addr wrapper_addr yield_ret : Z).
Notation sched_step := (sched_step stacks_addr wrapper_addr yield_ret).
Notation sched_run := (sched_run stacks_addr wrapper_addr yield_ret).

Lemma saved_sp_create nm ent prio st st' r j :
  create_task stacks_addr wrapper_addr nm ent prio st = Some (st', r) ->
  Z.of_nat j < task_count st -> saved_sp st' j = saved_sp st j.
Proof.
  unfold create_task. destruct (_ <=? _); [by intros [= <- <-]|]. intros Hc Hj.
  apply bind_Some in Hc as (tt & Htt & Hc). apply bind_Some in Hc as (st2 & Hst2 & [= <- <-]).
  transitivity (saved_sp st2 j); [done|].
  transitivity (saved_sp (set_table tt st) j).
  - destruct (ready_queue_head _) as [h|].
    + apply bind_Some in Hst2 as (l & _ & Hu). by apply (saved_sp_update _ _ _ _ j Hu).
    + by apply (saved_sp_update _ _ _ _ j Hst2).
  - unfold saved_sp. simpl. unfold aset in Htt. destruct (_ && _); [|done]. injection Htt as <-.
    rewrite list_lookup_insert_ne by lia. done.
Qed.

Lemma saved_sp_kill p st st' j : kill_task p st = Some st' -> saved_sp st' j = saved_sp st j.
Proof.
  unfold kill_task. intros Hk. apply bind_Some in Hk as (f & _ & Hk).
  destruct f as [[prev i]|]; [|by injection Hk as <-].
  apply bind_Some in Hk as (st1 & H1 & Hk). apply bind_Some in Hk as (t & _ & Hk).
  apply bind_Some in Hk as (st2 & H2 & Hk). injection Hk as <-.
  rewrite <- (saved_sp_update _ _ _ _ j H1) by done.
  transitivity (saved_sp st2 j); [by case_decide|].
  destruct prev as [k|]; [by apply (saved_sp_update _ _ _ _ j H2)|by injection H2 as <-].
Qed.

Lemma saved_sp_yield st st' r j :
  task_yield yield_ret st = Some (st', r) -> current_task st <> Some j -> saved_sp st' j = saved_sp st j.
Proof.
  unfold task_yield. intros Hy Hj. destruct (current_task st) as [old|] eqn:Hc; [|by injection Hy as <- <-].
  destruct (ready_queue_head st) as [h|]; [|by injection Hy as <- <-].
  apply bind_Some in Hy as (t & Ht & Hy). apply bind_Some in Hy as (st1 & H1 & Hy).
  apply bind_Some in Hy as (nx & _ & Hy). apply bind_Some in Hy as (nx' & _ & Hy).
  transitivity (saved_sp st1 j).
  2:{ destruct (decide _); [rewrite (saved_sp_update _ _ _ _ j H1) by done|injection H1 as <-];
      by destruct (schedule_requested st). }
  unfold run_next in Hy. destruct nx' as [i|].
  2:{ apply bind_Some in Hy as (st2 & H2 & [= <- <-]). by apply (saved_sp_update _ _ _ _ j H2). }
  destruct (decide (i = old)).
  { apply bind_Some in Hy as (st2 & H2 & [= <- <-]). by apply (saved_sp_update _ _ _ _ j H2). }
  apply bind_Some in Hy as (st2 & H2 & Hy). apply bind_Some in Hy as (ti & _ & Hy).
  destruct (switch_task_context _ _ _) as [[saved rip] c]. apply bind_Some in Hy as (st3 & H3 & [= <- <-]).
  transitivity (saved_sp st2 j); [|by rewrite (saved_sp_update _ _ _ _ j H2)].
  unfold update in H3. apply bind_Some in H3 as (u & _ & [= <-]). unfold saved_sp. simpl.
  rewrite list_lookup_insert_ne by congruence. done.
Qed.

(** A step that leaves the suspended slot [i] alone: while the task of the
    slot is not the running one, the word that holds its return address is
    not overwritten; when it yields, it has room for its registers. *)
Definition undisturbed (i : nat) (op : sched_op) (st st' : sched_t) : Prop :=
  if decide (current_task st = Some i) then op = Yield -> 56 <= rsp (cpu st) < 2 ^ 64
  else forall sp, Z.of_nat i < task_count st -> saved_sp st i = Some sp ->
    mem (cpu st') (sp + 48) = mem (cpu st) (sp + 48).

Fixpoint undisturbed_run (i : nat) (ops : list sched_op) (st : sched_t) : Prop :=
  match ops with
  | [] => True
  | op :: ops' =>
    match sched_step op st with
    | Some st' => undisturbed i op st st' /\ undisturbed_run i ops' st'
    | None => True
    end
  end.

(** The frame of a task that is suspended inside [task_yield]. *)
Definition in_yield (i : nat) (st : sched_t) : Prop :=
  exists sp, saved_sp st i = Some sp /\ 0 <= sp /\ sp + 56 < 2 ^ 64 /\ mem (cpu st) (sp + 48) = yield_ret.

(** Before slot [i] is created as the first task, and after. *)
Definition first_inv (i : nat) (st : sched_t) (q : list nat) : Prop :=
  q = [] /\ task_count st = Z.of_nat i \/
  Z.of_nat i < task_count st /\ (i ∈ q -> current_task st <> Some i -> in_yield i st).

Lemma in_yield_kept i op st st' :
  undisturbed i op st st' -> saved_sp st' i = saved_sp st i -> Z.of_nat i < task_count st ->
  current_task st <> Some i -> in_yield i st -> in_yield i st'.
Proof.
  intros Hu Hs Hlt Hc (sp & Hsp & H0 & H1 & Hm). exists sp. rewrite Hs. split_and!; [done..|].
  unfold undisturbed in Hu. rewrite decide_False in Hu by done. by rewrite Hu.
Qed.

(** How the task of slot [i] gets the processor in a step. *)
Definition resumes (i : nat) (op : sched_op) (st st' : sched_t) : Prop :=
  (exists nm ent prio, op = Create nm ent prio) /\ task_count st = Z.of_nat i \/
  op = Yield /\ exists sp, saved_sp st i = Some sp /\
    task_yield yield_ret st = Some (st', Some yield_ret) /\ rsp (cpu st') = sp + 56.

Lemma first_create i nm ent prio st q st' :
  sched_wf st q -> first_inv i st q -> sched_step (Create nm ent prio) st = Some st' ->
  undisturbed i (Create nm ent prio) st st' ->
  exists q', sched_wf st' q' /\ first_inv i st' q' /\
    (current_task st <> Some i -> current_task st' = Some i -> resumes i (Create nm ent prio) st st').
Proof.
  intros Hwf Hinv Hs Hu. cbn [Sched.sched_step] in Hs.
  destruct (create_ok stacks_addr wrapper_addr nm ent prio st q Hwf) as (st1 & r & q' & Hc & Hwf' & Ha & _).
  rewrite Hc in Hs. injection Hs as ->. exists q'. split; [done|]. pose proof (wf_count _ _ Hwf) as Hcnt.
  unfold spec_create, sched_abs in Ha. simpl in Ha. destruct (Z.leb_spec 256 (task_count st)) as [Hf|Hroom].
  - injection Ha as Hn -> Hcur. unfold create_task, MAX_TASKS in Hc.
    rewrite (proj2 (Z.leb_le _ _) Hf) in Hc. injection Hc as -> _. split; [done|]. by intros ? ?.
  - assert (Hkeep : Z.of_nat i < task_count st -> saved_sp st' i = saved_sp st i)
      by (by apply saved_sp_create with nm ent prio r).
    destruct q as [|h q]; injection Ha as Hn -> Hcur.
    + destruct Hinv as [[_ Hi]|[Hi _]].
      * split; [right; rewrite Hcur, Hn; split; [lia|intros _ []; f_equal; lia]|].
        intros _ _. left. by eauto.
      * split; [right; split; [lia|intros ->%list_elem_of_singleton; lia]|].
        intros _ Hc'. rewrite Hcur in Hc'. injection Hc'. lia.
    + destruct Hinv as [[? _]|[Hi Hin]]; [done|]. split; [right; split; [lia|]|by intros ?; rewrite Hcur].
      intros [Hq|Hq%list_elem_of_singleton]%(elem_of_app (h :: q)); [|lia]. rewrite Hcur. intros Hne.
      eapply in_yield_kept; eauto.
Qed.

Lemma first_kill i p st q st' :
  sched_wf st q -> first_inv i st q -> sched_step (Kill p) st = Some st' -> undisturbed i (Kill p) st st' ->
  exists q', sched_wf st' q' /\ first_inv i st' q' /\
    (current_task st <> Some i -> current_task st' <> Some i).
Proof.
  intros Hwf Hinv Hs Hu. cbn [Sched.sched_step] in Hs.
  destruct (kill_ok p st q Hwf) as (st1 & q' & Hk & Hwf' & Ha).
  rewrite Hk in Hs. injection Hs as ->. exists q'. split; [done|].
  pose proof (saved_sp_kill p st st' i Hk) as Hkeep. unfold spec_kill, sched_abs in Ha. simpl in Ha.
  destruct (first_index (has_pid p) q) as [k|] eqn:Hfi; injection Ha as Hn -> Hcur.
  - apply first_index_Some in Hfi as (x & Hx & _ & _). rewrite Hx in Hcur.
    destruct Hinv as [[-> ?]|[Hi Hin]]; [done|]. split.
    + right. split; [lia|]. intros Hd Hne.
      assert (Hxi : x <> i).
      { intros ->. pose proof (wf_nodup _ _ Hwf) as Hnd. rewrite <- (take_drop_middle q k i Hx) in Hnd.
        rewrite delete_take_drop in Hd. rewrite <- Permutation_middle in Hnd. by apply NoDup_cons in Hnd as []. }
      assert (current_task st <> Some i).
      { intros Hci. rewrite decide_False in Hcur by congruence. congruence. }
      eapply in_yield_kept; eauto. apply Hin; [|done]. rewrite delete_take_drop in Hd.
      rewrite <- (take_drop_middle q k x Hx). set_solver.
    + intros Hne Heq. rewrite Hcur in Heq. by case_decide.
  - split; [|congruence]. destruct Hinv as [[-> ?]|[Hi Hin]]; [left; split; [done|congruence]|right].
    split; [lia|]. intros Hq. rewrite Hcur. intros Hne. eapply in_yield_kept; eauto.
Qed.

(** A switch away from a task saves the context of its own call. *)
Lemma switched_out i st q st' rip :
  sched_wf st q -> task_yield yield_ret st = Some (st', Some rip) -> current_task st = Some i ->
  56 <= rsp (cpu st) < 2 ^ 64 ->
  saved_sp st' i = Some (rsp (cpu st) - 56) /\ mem (cpu st') (rsp (cpu st) - 56 + 48) = yield_ret.
Proof.
  intros Hwf Hy Hi Hrsp. destruct (yield_ok yield_ret st q Hwf) as (st1 & r & Hy' & _ & _ & Hres & _).
  rewrite Hy in Hy'. injection Hy' as <- <-.
  destruct Hres as (k & j & tj & ti & Hk & Hj & Hkj & Htj & Hti & Hsw). assert (k = i) as -> by congruence.
  destruct (switch_saved yield_ret (cpu st) (stack_pointer tj) Hrsp) as [Hsv Hm].
  rewrite Hsw in Hsv, Hm. simpl in Hsv, Hm. unfold saved_sp. rewrite Hti. simpl. rewrite Hsv, Hm.
  split; [done|]. replace (rsp (cpu st) - 56 + 48) with (rsp (cpu st) - 8) by lia. apply save_frame_words.
Qed.

Lemma first_yield i st q st' :
  sched_wf st q -> first_inv i st q -> sched_step Yield st = Some st' -> undisturbed i Yield st st' ->
  exists q', sched_wf st' q' /\ first_inv i st' q' /\
    (current_task st <> Some i -> current_task st' = Some i -> resumes i Yield st st').
Proof.
  intros Hwf Hinv Hs Hu. cbn [Sched.sched_step] in Hs.
  destruct (yield_ok yield_ret st q Hwf) as (st1 & r & Hy & Hwf' & Ha & Hres & _).
  rewrite Hy in Hs. injection Hs as ->. exists q. split; [done|].
  assert (Hn : task_count st' = task_count st).
  { unfold sched_abs, spec_yield in Ha. simpl in Ha. destruct (current_task st) as [k|]; [|by injection Ha].
    destruct (first_index _ q); by injection Ha. }
  pose proof (saved_sp_yield st st' r i Hy) as Hkeep. destruct r as [rip|].
  2:{ destruct Hres as [Hcpu Hcur]. rewrite Hcur. split; [|done].
      destruct Hinv as [[-> ?]|[Hi Hin]]; [left; split; [done|congruence]|right].
      rewrite Hcur. split; [lia|]. intros Hq Hne. eapply in_yield_kept; eauto. }
  destruct Hres as (k & j & tj & ti & Hk & Hj & Hkj & Htj & Hti & Hsw).
  assert (Hkq : k ∈ q) by (by apply (wf_current _ _ Hwf)).
  destruct Hinv as [[-> _]|[Hi Hin]]; [by apply elem_of_nil in Hkq|]. split.
  - right. split; [lia|]. intros Hq Hne. destruct (decide (k = i)) as [->|Hki].
    + unfold undisturbed in Hu. rewrite decide_True in Hu by done. specialize (Hu eq_refl).
      destruct (switched_out i st q st' rip Hwf Hy Hk Hu) as [Hsv Hm].
      exists (rsp (cpu st) - 56). split_and!; [done|lia..|done].
    + assert (current_task st <> Some i) by congruence. eapply in_yield_kept; eauto.
  - intros Hne Hci. assert (j = i) as -> by congruence. right. split; [done|].
    assert (Hiq : i ∈ q) by (by apply (wf_current _ _ Hwf')).
    destruct (Hin Hiq Hne) as (sp & Hsp & H0 & H1 & Hm). exists sp. split; [done|].
    unfold undisturbed in Hu. rewrite decide_False in Hu by done. specialize (Hu sp Hi Hsp).
    unfold saved_sp in Hsp. rewrite Htj in Hsp. injection Hsp as Hsp. rewrite Hsp in Hsw.
    pose proof (switch_rip yield_ret (cpu st) sp H0 H1) as Hr. rewrite Hsw in Hr.
    destruct Hr as [-> Hrs]. by rewrite Hu, Hm in Hy.
Qed.

Lemma first_step i op st q st' :
  sched_wf st q -> first_inv i st q -> sched_step op st = Some st' -> undisturbed i op st st' ->
  exists q', sched_wf st' q' /\ first_inv i st' q' /\
    (current_task st <> Some i -> current_task st' = Some i -> resumes i op st st').
Proof.
  intros Hwf Hinv Hs Hu. destruct op as [nm ent prio|p| | |c].
  - by eapply first_create.
  - destruct (first_kill i p st q st' Hwf Hinv Hs Hu) as (q' & Hwf' & Hinv' & Hc).
    exists q'. split_and!; [done..|]. by intros Hne Heq%Hc.
  - by eapply first_yield.
  - cbn [Sched.sched_step] in Hs. injection Hs as <-. exists q. split_and!; [by destruct Hwf; split|done|done].
  - cbn [Sched.sched_step] in Hs. injection Hs as <-. exists q. split_and!; [by destruct Hwf; split| |done].
    destruct Hinv as [?|[Hi Hin]]; [by left|right]. split; [done|]. intros Hq Hne.
    eapply in_yield_kept; eauto.
Qed.

Lemma first_run i ops st q :
  sched_wf st q -> first_inv i st q -> undisturbed_run i ops st ->
  forall ops1 op ops2 st1 st2, ops = ops1 ++ op :: ops2 -> sched_run ops1 st = Some st1 ->
    sched_step op st1 = Some st2 -> current_task st1 <> Some i -> current_task st2 = Some i ->
    resumes i op st1 st2.
Proof.
  revert st q. induction ops as [|op ops IH]; intros st q Hwf Hinv Hu ops1 op' ops2 st1 st2 Heq Hr Hs Hne Hc;
    [by destruct ops1|].
  cbn [undisturbed_run] in Hu. destruct (sched_step op st) as [st'|] eqn:Hst.
  2:{ destruct (step_ok stacks_addr wrapper_addr yield_ret op st q Hwf) as (? & ? & ? & _). congruence. }
  destruct Hu as [Hu Hus]. destruct (first_step i op st q st' Hwf Hinv Hst Hu) as (q' & Hwf' & Hinv' & Hres).
  destruct ops1 as [|op1 ops1]; injection Heq as <- ->.
  - injection Hr as <-. assert (st2 = st') as -> by congruence. auto.
  - cbn [Sched.sched_run] in Hr. rewrite Hst in Hr. by apply (IH st' q' Hwf' Hinv' Hus ops1 op' ops2 st1 st2).
Qed.

Lemma undisturbed_at i ops1 op ops2 st st1 st2 :
  undisturbed_run i (ops1 ++ op :: ops2) st -> sched_run ops1 st = Some st1 ->
  sched_step op st1 = Some st2 -> undisturbed i op st1 st2.
Proof.
  revert st. induction ops1 as [|op1 ops1 IH]; intros st Hu Hr Hs; cbn [app undisturbed_run] in Hu.
  - injection Hr as <-. rewrite Hs in Hu. by destruct Hu.
  - cbn [Sched.sched_run] in Hr. destruct (sched_step op1 st) as [st'|]; [|done]. by apply (IH st'); [destruct Hu|..].
Qed.

End first_task.

(** C10: the entry function of the first task is never entered. From a
    scheduler without tasks, take any sequence of creations, kills, yields
    and computations in which nobody overwrites the return address of the
    first task while it is suspended (and it yields with room for its
    registers). It runs to completion, and whenever the first task becomes
    the running one, this is either its creation, after which the caller of
    [create_task] goes on, or a [task_yield] that switches to it and
    continues behind an earlier call of [task_yield]: never at the entry
    wrapper. The stack it continues on is the one that call was made on: every
    [task_yield] that switches away from the first task saves the caller's
    own stack pointer for it. *)
Theorem first_task_never_entered stacks_addr wrapper_addr yield_ret ops st
    (first := Z.to_nat (task_count st)) :
  sched_wf st [] -> undisturbed_run stacks_addr wrapper_addr yield_ret first ops st ->
  is_Some (sched_run stacks_addr wrapper_addr yield_ret ops st) /\
  (forall ops1 op ops2 st1 st2, ops = ops1 ++ op :: ops2 ->
    sched_run stacks_addr wrapper_addr yield_ret ops1 st = Some st1 ->
    sched_step stacks_addr wrapper_addr yield_ret op st1 = Some st2 ->
    current_task st1 <> Some first -> current_task st2 = Some first ->
    (exists nm ent prio, op = Create nm ent prio) /\ task_count st1 = task_count st \/
    op = Yield /\ exists t, task_table st1 !! first = Some t /\
      task_yield yield_ret st1 = Some (st2, Some yield_ret) /\ rsp (cpu st2) = stack_pointer t + 56) /\
  forall ops1 ops2 st1 st2 rip, ops = ops1 ++ Yield :: ops2 ->
    sched_run stacks_addr wrapper_addr yield_ret ops1 st = Some st1 ->
    task_yield yield_ret st1 = Some (st2, Some rip) -> current_task st1 = Some first ->
    exists t, task_table st2 !! first = Some t /\ stack_pointer t + 56 = rsp (cpu st1).
Proof.
  intros Hwf Hu. pose proof (wf_count _ _ Hwf) as Hcnt.
  destruct (run_ok stacks_addr wrapper_addr yield_ret ops st [] Hwf) as (st' & q' & Hr & _).
  split_and!; [by exists st'| |].
  2:{ intros ops1 ops2 st1 st2 rip -> H1 H2 Hc.
      destruct (run_ok stacks_addr wrapper_addr yield_ret ops1 st [] Hwf) as (st1' & q1 & H1' & Hwf1 & _).
      rewrite H1 in H1'. injection H1' as <-.
      pose proof (undisturbed_at _ _ _ first ops1 Yield ops2 st st1 st2 Hu H1) as Hd.
      cbn [sched_step] in Hd. rewrite H2 in Hd. specialize (Hd eq_refl). unfold undisturbed in Hd.
      rewrite decide_True in Hd by done.
      destruct (switched_out yield_ret first st1 q1 st2 rip Hwf1 H2 Hc (Hd eq_refl)) as [Hs _].
      unfold saved_sp in Hs. destruct (task_table st2 !! first) as [t|]; [|done]. injection Hs as Hs.
      exists t. split; [done|lia]. }
  intros ops1 op ops2 st1 st2 Heq H1 H2 Hne Hc.
  assert (Hinv : first_inv yield_ret first st []) by (left; split; [done|unfold first; lia]).
  destruct (first_run _ _ _ first ops st [] Hwf Hinv Hu ops1 op ops2 st1 st2 Heq H1 H2 Hne Hc)
    as [[? Hn]|(-> & sp & Hsp & ? & ?)].
  - left. split; [done|]. unfold first in Hn. lia.
  - right. split; [done|]. unfold saved_sp in Hsp. destruct (task_table st1 !! first) as [t|]; [|done].
    injection Hsp as <-. by exists t.
Qed.

(** Three creations, then every task yields until the first runs again. *)
Definition first_ops : list sched_op :=
  [Create "idle" 0x3000 0; Create "shell" 0x4000 1; Create "net" 0x5000 1; Compute zero_cpu; Yield; Yield].

Lemma first_task_never_entered_witness :
  exists st1 st2, sched_run 0x200000 0x1000 0x2000 first_ops sched_boot = Some st1 /\
    task_yield 0x2000 st1 = Some (st2, Some 0x2000) /\ current_task st2 = Some 0%nat.
Proof.
  assert (Hu : undisturbed_run 0x200000 0x1000 0x2000 0 (first_ops ++ [Yield]) sched_boot).
  { vm_compute. repeat split; try discriminate; intros ? _ [= <-]; reflexivity. }
  destruct (sched_run 0x200000 0x1000 0x2000 first_ops sched_boot) as [st1|] eqn:H1;
    [|exfalso; vm_compute in H1; discriminate H1].
  destruct (sched_step 0x200000 0x1000 0x2000 Yield st1) as [st2|] eqn:H2;
    [|exfalso; vm_compute in H1; injection H1 as <-; vm_compute in H2; discriminate H2].
  assert (Hne : current_task st1 <> Some 0%nat) by (vm_compute in H1; injection H1 as <-; discriminate).
  assert (Hc : current_task st2 = Some 0%nat)
    by (vm_compute in H1; injection H1 as <-; vm_compute in H2; injection H2 as <-; reflexivity).
  destruct (first_task_never_entered 0x200000 0x1000 0x2000 (first_ops ++ [Yield]) sched_boot sched_boot_wf Hu)
    as (_ & Hall & _).
  destruct (Hall first_ops Yield [] st1 st2 eq_refl H1 H2 Hne Hc) as [[(? & ? & ? & Hop) _]|(_ & t & _ & Hy & _)].
  - discriminate Hop.
  - exists st1, st2. split; [reflexivity|]. split; [exact Hy|exact Hc].
Defined.
