(* ===== verification/Pci.v ===== *)
(** * PCI configuration space ([src/audio.c], first part)

    Configuration reads and writes over the ports 0xCF8 and 0xCFC and the two
    searches of the bus, [pci_find_device] and [pci_find_class].  The
    theorems are stated for devices that implement the configuration
    mechanism, the interface [ConfigSpace]. *)

From S2P Require Import Prelude Io.

Definition PCI_CONFIG_ADDRESS : Z := 0xCF8.
Definition PCI_CONFIG_DATA : Z := 0xCFC.

Record pci_device_t := PciDevice {
  bus : Z; device : Z; function : Z;
  vendor_id : Z; device_id : Z;
  base_class : Z; subclass : Z; prog_if : Z;
  bar0 : Z
}.

Definition pci_build_address (b d f off : Z) : Z :=
  Z.lor (Z.lor (Z.lor (Z.lor 0x80000000 (u32 (Z.shiftl b 16))) (u32 (Z.shiftl d 11)))
    (u32 (Z.shiftl f 8))) (Z.land off 0xFC).

(** What one round of the innermost loop decides. *)
Inductive probe_result := Found (p : pci_device_t) | NextFunction | NextDevice.

Section pci.
Context {D : Type} `{!PortIO D}.

Definition pci_read_config_dword (b d f off : Z) : io D Z :=
  let address := pci_build_address b d f off in
  outl PCI_CONFIG_ADDRESS address ≫= fun _ =>
  inl PCI_CONFIG_DATA.

Definition pci_write_config_dword (b d f off value : Z) : io D unit :=
  let address := pci_build_address b d f off in
  outl PCI_CONFIG_ADDRESS address ≫= fun _ =>
  outl PCI_CONFIG_DATA value.

(** The end of a round: a single-function device has no further functions. *)
Definition header_check (b d f : Z) : io D probe_result :=
  dword ← pci_read_config_dword b d f 0x0C;
  let header_type := Z.land (Z.shiftr dword 16) 0xFF in
  mret (if (f =? 0) && (Z.land header_type 0x80 =? 0) then NextDevice else NextFunction).

Definition found_at (b d f vendor_device class_code : Z) : io D probe_result :=
  bar ← pci_read_config_dword b d f 0x10;
  mret (Found (PciDevice b d f (Z.land vendor_device 0xFFFF) (Z.land (Z.shiftr vendor_device 16) 0xFFFF)
    (Z.land (Z.shiftr class_code 24) 0xFF) (Z.land (Z.shiftr class_code 16) 0xFF)
    (Z.land (Z.shiftr class_code 8) 0xFF) (Z.land bar 0xFFFFFFF0))).

Definition probe_device (vid did b d f : Z) : io D probe_result :=
  vendor_device ← pci_read_config_dword b d f 0x00;
  let vendor := Z.land vendor_device 0xFFFF in
  let device_id_raw := Z.land (Z.shiftr vendor_device 16) 0xFFFF in
  if vendor =? 0xFFFF then mret (if f =? 0 then NextDevice else NextFunction)
  else if (vendor =? vid) && (device_id_raw =? did) then
    class_code ← pci_read_config_dword b d f 0x08;
    found_at b d f vendor_device class_code
  else header_check b d f.

Definition probe_class (cc sc pi b d f : Z) : io D probe_result :=
  vendor_device ← pci_read_config_dword b d f 0x00;
  let vendor := Z.land vendor_device 0xFFFF in
  if vendor =? 0xFFFF then mret (if f =? 0 then NextDevice else NextFunction)
  else
    class_code_reg ← pci_read_config_dword b d f 0x08;
    if (Z.land (Z.shiftr class_code_reg 24) 0xFF =? cc)
       && (Z.land (Z.shiftr class_code_reg 16) 0xFF =? sc)
       && (Z.land (Z.shiftr class_code_reg 8) 0xFF =? pi)
    then found_at b d f vendor_device class_code_reg
    else header_check b d f.

(** The three nested loops, over [n] functions, devices and buses. *)
Fixpoint scan_functions (probe : Z -> io D probe_result) (n : nat) (f : Z) : io D (option pci_device_t) :=
  match n with
  | O => mret None
  | S n' =>
    r ← probe f;
    match r with
    | Found p => mret (Some p)
    | NextDevice => mret None
    | NextFunction => scan_functions probe n' (f + 1)
    end
  end.

Fixpoint scan_devices (probe : Z -> Z -> io D probe_result) (n : nat) (d : Z) : io D (option pci_device_t) :=
  match n with
  | O => mret None
  | S n' =>
    r ← scan_functions (probe d) 8 0;
    match r with Some p => mret (Some p) | None => scan_devices probe n' (d + 1) end
  end.

Fixpoint scan_buses (probe : Z -> Z -> Z -> io D probe_result) (n : nat) (b : Z) : io D (option pci_device_t) :=
  match n with
  | O => mret None
  | S n' =>
    r ← scan_devices (probe b) 32 0;
    match r with Some p => mret (Some p) | None => scan_buses probe n' (b + 1) end
  end.

(** [out] is the result when there is one; no caller passes NULL. *)
Definition pci_find_device (vid did : Z) : io D (option pci_device_t) :=
  scan_buses (probe_device vid did) 2 0.

Definition pci_find_class (cc sc pi : Z) : io D (option pci_device_t) :=
  scan_buses (probe_class cc sc pi) 2 0.

(** On any device at all the searches end. *)
Lemma read_config_defined b d f off : defined (pci_read_config_dword b d f off).
Proof. apply defined_bind; [apply out_defined|intros; apply in_defined]. Qed.

Lemma write_config_defined b d f off v : defined (pci_write_config_dword b d f off v).
Proof. apply defined_bind; [apply out_defined|intros; apply out_defined]. Qed.

Lemma probe_device_defined vid did b d f : defined (probe_device vid did b d f).
Proof.
  unfold probe_device, header_check, found_at.
  repeat first [apply read_config_defined | apply defined_ret | apply defined_bind | case_match | intros ?].
Qed.

Lemma scan_buses_defined probe n b :
  (forall b d f, defined (probe b d f)) -> defined (scan_buses probe n b).
Proof.
  intros Hp.
  assert (Hf : forall b d n f, defined (scan_functions (probe b d) n f)).
  { intros b' d m. induction m as [|m IH]; intros f; simpl; [apply defined_ret|].
    apply defined_bind; [apply Hp|]. intros []; [apply defined_ret|apply IH|apply defined_ret]. }
  assert (Hd : forall b n d, defined (scan_devices (probe b) n d)).
  { intros b' m. induction m as [|m IH]; intros d; cbn [scan_devices]; [apply defined_ret|].
    apply defined_bind; [apply Hf|]. intros []; [apply defined_ret|apply IH]. }
  revert b. induction n as [|n IH]; intros b; cbn [scan_buses]; [apply defined_ret|].
  apply defined_bind; [apply Hd|]. intros []; [apply defined_ret|apply IH].
Qed.

Lemma probe_class_defined cc sc pi b d f : defined (probe_class cc sc pi b d f).
Proof.
  unfold probe_class, header_check, found_at.
  repeat first [apply read_config_defined | apply defined_ret | apply defined_bind | case_match | intros ?].
Qed.

Lemma find_device_defined vid did : defined (pci_find_device vid did).
Proof. apply scan_buses_defined, probe_device_defined. Qed.

Lemma find_class_defined cc sc pi : defined (pci_find_class cc sc pi).
Proof. apply scan_buses_defined, probe_class_defined. Qed.
End pci.

(** ** The configuration mechanism *)

Class ConfigSpace (D : Type) `{!PortIO D} := {
  config : D -> Z -> Z;
  latch : D -> Z;
  config_range d a : 0 <= config d a < 2 ^ 32;
  address_write d a : latch (port_out 4 0xCF8 a d) = a /\ config (port_out 4 0xCF8 a d) = config d;
  data_read d : (port_in 4 0xCFC d).1 = config d (latch d) /\ config (port_in 4 0xCFC d).2 = config d
}.

(** The functions of the bus as the searches see them. *)
Section visible.
Context (cfg : Z -> Z).

Definition cfg_dword (b d f off : Z) : Z := cfg (pci_build_address b d f off).
Definition cfg_vendor (b d f : Z) : Z := Z.land (cfg_dword b d f 0x00) 0xFFFF.
Definition present (b d f : Z) : bool := negb (cfg_vendor b d f =? 0xFFFF).
Definition multi_function (b d : Z) : bool :=
  negb (Z.land (Z.land (Z.shiftr (cfg_dword b d 0 0x0C) 16) 0xFF) 0x80 =? 0).

Definition functions_of (b d : Z) : list (Z * Z * Z) :=
  if present b d 0 then
    (b, d, 0) :: (if multi_function b d
                  then filter (fun p => present p.1.1 p.1.2 p.2) ((fun f => (b, d, f)) <$> seqZ 1 7) else [])
  else [].

Definition visible : list (Z * Z * Z) :=
  seqZ 0 2 ≫= fun b => seqZ 0 32 ≫= fun d => functions_of b d.

(** The record of a function. *)
Definition describe (p : Z * Z * Z) : pci_device_t :=
  let '(b, d, f) := p in
  let vd := cfg_dword b d f 0x00 in
  let cc := cfg_dword b d f 0x08 in
  PciDevice b d f (Z.land vd 0xFFFF) (Z.land (Z.shiftr vd 16) 0xFFFF)
    (Z.land (Z.shiftr cc 24) 0xFF) (Z.land (Z.shiftr cc 16) 0xFF) (Z.land (Z.shiftr cc 8) 0xFF)
    (Z.land (cfg_dword b d f 0x10) 0xFFFFFFF0).
End visible.

Definition is_device (vid did : Z) (p : pci_device_t) : bool := (vendor_id p =? vid) && (device_id p =? did).
Definition is_class (cc sc pi : Z) (p : pci_device_t) : bool :=
  (base_class p =? cc) && (subclass p =? sc) && (prog_if p =? pi).

(** The first visible function that satisfies a test. *)
Definition first_match (cfg : Z -> Z) (test : pci_device_t -> bool) : option pci_device_t :=
  List.find test (describe cfg <$> visible cfg).

Section search.
Context {D : Type} `{!PortIO D} `{!ConfigSpace D}.

(** A computation that leaves the configuration space alone and gives [x]. *)
Definition reads {A} (m : io D A) (cfg : Z -> Z) (x : A) : Prop :=
  forall d, config d = cfg -> exists d', m d = Ok (x, d') /\ config d' = cfg.

Lemma reads_bind {A B} (m : io D A) (k : A -> io D B) cfg x y :
  reads m cfg x -> reads (k x) cfg y -> reads (m ≫= k) cfg y.
Proof.
  intros Hm Hk d Hd. destruct (Hm d Hd) as (d1 & E1 & Hd1). destruct (Hk d1 Hd1) as (d2 & E2 & Hd2).
  exists d2. split; [|done]. unfold mbind, io_bind. by rewrite E1.
Qed.

Lemma reads_ret {A} cfg (x : A) : reads (mret x) cfg x.
Proof. intros d Hd. by exists d. Qed.

Lemma build_address_range b d f off :
  0 <= pci_build_address b d f off < 2 ^ 32.
Proof.
  unfold pci_build_address.
  repeat apply lor_range; try (apply wrap_range; lia); try lia;
    change 0xFC with (Z.shiftl (Z.ones 6) 2); rewrite land_field by lia; lia.
Qed.

Lemma read_config_ok b d f off cfg :
  reads (pci_read_config_dword b d f off) cfg (cfg_dword cfg b d f off).
Proof.
  intros s Hs. unfold pci_read_config_dword, outl, inl, out_width, in_width, mbind, io_bind.
  change (u16 PCI_CONFIG_ADDRESS) with 0xCF8. change (u16 PCI_CONFIG_DATA) with 0xCFC.
  rewrite (wrap_small (8 * 4)) by apply build_address_range.
  set (a := pci_build_address b d f off).
  destruct (address_write s a) as [Hl Hc]. destruct (data_read (port_out 4 0xCF8 a s)) as [Hv Hc'].
  destruct (port_in 4 0xCFC (port_out 4 0xCF8 a s)) as [v s'] eqn:E. simpl in *.
  exists s'. rewrite Hv, Hl, Hc. split; [|congruence].
  rewrite wrap_small by apply config_range. by rewrite Hs.
Qed.

(** What a round decides, from the configuration space. *)
Definition decide_probe (cfg : Z -> Z) (test : pci_device_t -> bool) (b d f : Z) : probe_result :=
  if present cfg b d f then
    if test (describe cfg (b, d, f)) then Found (describe cfg (b, d, f))
    else if (f =? 0) && negb (multi_function cfg b d) then NextDevice else NextFunction
  else if f =? 0 then NextDevice else NextFunction.

Lemma header_check_ok cfg b d f :
  reads (header_check b d f) cfg
    (if (f =? 0) && negb (multi_function cfg b d) then NextDevice else NextFunction).
Proof.
  unfold header_check. eapply reads_bind; [apply read_config_ok|].
  destruct (Z.eqb_spec f 0) as [->|]; [|apply reads_ret]. cbn [andb Z.eqb]. unfold multi_function.
  destruct (Z.land _ 0x80 =? 0); apply reads_ret.
Qed.

Lemma probe_device_ok cfg vid did b d f :
  reads (probe_device vid did b d f) cfg (decide_probe cfg (is_device vid did) b d f).
Proof.
  unfold probe_device, decide_probe, present, cfg_vendor. eapply reads_bind; [apply read_config_ok|].
  destruct (Z.land (cfg_dword cfg b d f 0) 0xFFFF =? 0xFFFF); cbn [negb]; [apply reads_ret|].
  unfold is_device. cbn [describe vendor_id device_id].
  destruct ((Z.land (cfg_dword cfg b d f 0) 0xFFFF =? vid) && _); [|apply header_check_ok].
  eapply reads_bind; [apply read_config_ok|]. unfold found_at.
  eapply reads_bind; [apply read_config_ok|]. apply reads_ret.
Qed.

Lemma probe_class_ok cfg cc sc pi b d f :
  reads (probe_class cc sc pi b d f) cfg (decide_probe cfg (is_class cc sc pi) b d f).
Proof.
  unfold probe_class, decide_probe, present, cfg_vendor. eapply reads_bind; [apply read_config_ok|].
  destruct (Z.land (cfg_dword cfg b d f 0) 0xFFFF =? 0xFFFF); cbn [negb]; [apply reads_ret|].
  eapply reads_bind; [apply read_config_ok|]. unfold is_class.
  cbn [describe base_class subclass prog_if].
  destruct ((Z.land (Z.shiftr (cfg_dword cfg b d f 8) 24) 0xFF =? cc) && _ && _); [|apply header_check_ok].
  unfold found_at. eapply reads_bind; [apply read_config_ok|]. apply reads_ret.
Qed.

Arguments describe : simpl never.

Section loops.
Context (cfg : Z -> Z) (test : pci_device_t -> bool).
Context (probe : Z -> Z -> Z -> io D probe_result).
Context (Hprobe : forall b d f, reads (probe b d f) cfg (decide_probe cfg test b d f)).

Notation matching l := (List.find test (describe cfg <$> l)).

Lemma find_describe_app l1 l2 :
  matching (l1 ++ l2) = match matching l1 with Some p => Some p | None => matching l2 end.
Proof. rewrite fmap_app. induction l1 as [|x l1 IH]; [done|]. simpl. by destruct (test _). Qed.

(** The functions above zero of a multi-function device. *)
Lemma scan_rest b d n f :
  0 < f ->
  reads (scan_functions (probe b d) n f) cfg
    (matching (filter (fun p => present cfg p.1.1 p.1.2 p.2) ((fun f => (b, d, f)) <$> seqZ f (Z.of_nat n)))).
Proof.
  revert f. induction n as [|n IH]; intros f Hf; [apply reads_ret|].
  rewrite seqZ_cons by lia. replace (Z.pred (Z.of_nat (S n))) with (Z.of_nat n) by lia.
  simpl. eapply reads_bind; [apply Hprobe|]. unfold decide_probe.
  destruct (Z.eqb_spec f 0); [lia|]. simpl. rewrite filter_cons. simpl.
  destruct (present cfg b d f); simpl; [|apply IH; lia].
  destruct (test (describe cfg (b, d, f))); [apply reads_ret|apply IH; lia].
Qed.

Lemma scan_functions_ok b d :
  reads (scan_functions (probe b d) 8 0) cfg (matching (functions_of cfg b d)).
Proof.
  change 8%nat with (S 7). simpl scan_functions. eapply reads_bind; [apply Hprobe|].
  unfold decide_probe, functions_of. rewrite Z.eqb_refl. cbn [andb].
  destruct (present cfg b d 0); [|apply reads_ret].
  rewrite fmap_cons. cbn [List.find]. destruct (test (describe cfg (b, d, 0))); [apply reads_ret|].
  destruct (multi_function cfg b d); cbn [negb]; [|apply reads_ret]. apply (scan_rest b d 7 1). lia.
Qed.

Lemma scan_devices_ok b n d :
  reads (scan_devices (probe b) n d) cfg (matching (seqZ d (Z.of_nat n) ≫= fun d => functions_of cfg b d)).
Proof.
  revert d. induction n as [|n IH]; intros d; [apply reads_ret|].
  rewrite seqZ_cons by lia. replace (Z.pred (Z.of_nat (S n))) with (Z.of_nat n) by lia.
  rewrite bind_cons, find_describe_app. simpl scan_devices.
  eapply reads_bind; [apply scan_functions_ok|]. destruct (matching (functions_of cfg b d)); [apply reads_ret|apply IH].
Qed.

Lemma scan_buses_ok n b :
  reads (scan_buses probe n b) cfg
    (matching (seqZ b (Z.of_nat n) ≫= fun b => seqZ 0 32 ≫= fun d => functions_of cfg b d)).
Proof.
  revert b. induction n as [|n IH]; intros b; [apply reads_ret|].
  rewrite (seqZ_cons b) by lia. replace (Z.pred (Z.of_nat (S n))) with (Z.of_nat n) by lia.
  rewrite bind_cons, find_describe_app. simpl scan_buses.
  eapply reads_bind; [apply (scan_devices_ok b 32 0)|].
  change (Z.of_nat 32) with 32. destruct (matching (seqZ 0 32 ≫= _)); [apply reads_ret|apply IH].
Qed.
End loops.

Lemma find_device_reads vid did cfg :
  reads (pci_find_device vid did) cfg (first_match cfg (is_device vid did)).
Proof. apply (scan_buses_ok cfg (is_device vid did) _ (probe_device_ok cfg vid did) 2 0). Qed.

Lemma find_class_reads cc sc pi cfg :
  reads (pci_find_class cc sc pi) cfg (first_match cfg (is_class cc sc pi)).
Proof. apply (scan_buses_ok cfg (is_class cc sc pi) _ (probe_class_ok cfg cc sc pi) 2 0). Qed.
End search.

(** On every device with a PCI configuration space, [pci_find_device] and
    [pci_find_class] end, leave the configuration space as it was, and
    return the record of the first function with the wanted identifiers or
    class in the order of the scan (bus, device, function), where a
    single-function device shows only its function 0; they return nothing
    exactly when no visible function matches. *)
Theorem pci_search_correct {D} `{!PortIO D} `{!ConfigSpace D} (d : D) vid did cc sc pi :
  (exists d', pci_find_device vid did d = Ok (first_match (config d) (is_device vid did), d') /\
    config d' = config d) /\
  (exists d', pci_find_class cc sc pi d = Ok (first_match (config d) (is_class cc sc pi), d') /\
    config d' = config d).
Proof. split; [by apply find_device_reads|by apply find_class_reads]. Qed.

(** A device with a configuration space given by a table; dwords without an
    entry read as all ones. *)
Record table_device := TableDevice { table : gmap Z Z; address : Z }.

Definition table_config (t : gmap Z Z) (a : Z) : Z := u32 (default 0xFFFFFFFF (t !! a)).

#[export] Instance table_io : PortIO table_device := {
  port_in w port d := (table_config (table d) (address d), d);
  port_out w port v d := if port =? 0xCF8 then TableDevice (table d) v else d
}.

#[export] Instance table_space : ConfigSpace table_device.
Proof.
  refine {| config d := table_config (table d); latch := address |}.
  - intros d a. apply wrap_range. lia.
  - intros d a. split; reflexivity.
  - intros d. split; reflexivity.
Defined.

(** An RTL8139 card as device 3 of bus 0. *)
Definition nic_table : table_device :=
  TableDevice (list_to_map [(pci_build_address 0 3 0 0x00, 0x813910EC); (pci_build_address 0 3 0 0x08, 0x02000000);
    (pci_build_address 0 3 0 0x0C, 0); (pci_build_address 0 3 0 0x10, 0xC001)]) 0.

Lemma pci_search_correct_witness :
  exists d', pci_find_device 0x10EC 0x8139 nic_table
    = Ok (Some (PciDevice 0 3 0 0x10EC 0x8139 0x02 0 0 0xC000), d').
Proof.
  destruct (pci_search_correct nic_table 0x10EC 0x8139 4 3 0) as [(d' & Hd & _) _].
  exists d'. rewrite Hd. reflexivity.
Defined.
