(* ===== verification/Net.v ===== *)
(** * Network driver and IP stack ([src/network.c])

    The RTL8139 driver, Ethernet, ARP and IPv4 framing, and the DHCP client.
    The card is a device behind the interface [Nic]: ports, and the receive
    buffer that it fills by DMA.  Local arrays without an initialiser are an
    argument [junk] with arbitrary contents. *)

From S2P Require Import Prelude Io Pci.

(** ** Constants *)

Definition RTL8139_VENDOR_ID : Z := 0x10EC.
Definition RTL8139_DEVICE_ID : Z := 0x8139.
Definition RTL8139_MAC_ADDR : Z := 0x00.
Definition RTL8139_TxAddr0 : Z := 0x20.
Definition RTL8139_TxStatus0 : Z := 0x10.
Definition RTL8139_RxBuf : Z := 0x30.
Definition RTL8139_Command : Z := 0x37.
Definition RTL8139_TxConfig : Z := 0x40.
Definition RTL8139_RxConfig : Z := 0x44.
Definition RTL8139_IntMask : Z := 0x3C.
Definition RTL8139_CapR : Z := 0x38.
Definition RTL8139_CurR : Z := 0x3A.
Definition RTL8139_Config1 : Z := 0x52.
Definition RTL8139_CMD_RESET : Z := 0x10.
Definition RTL8139_CMD_RX_EN : Z := 0x08.
Definition RTL8139_CMD_TX_EN : Z := 0x04.
Definition ETH_P_IP : Z := 0x0800.
Definition ETH_P_ARP : Z := 0x0806.
Definition ARP_OPER_REQUEST : Z := 1.
Definition ARP_OPER_REPLY : Z := 2.
Definition IP_PROTO_UDP : Z := 17.
Definition DHCP_CLIENT_PORT : Z := 68.
Definition DHCP_SERVER_PORT : Z := 67.
Definition DHCP_OP_REQUEST : Z := 1.
Definition DHCP_OPT_MESSAGE_TYPE : Z := 53.
Definition DHCP_OPT_REQUESTED_IP : Z := 50.
Definition DHCP_OPT_SERVER_ID : Z := 54.
Definition DHCP_OPT_SUBNET_MASK : Z := 1.
Definition DHCP_OPT_ROUTER : Z := 3.
Definition DHCP_OPT_END : Z := 255.
Definition RX_BUFFER_SIZE : Z := 8192 + 16 + 1500.
Definition TX_BUFFER_SIZE : Z := 2048.
Definition TX_DESC_COUNT : Z := 4.
Definition KERNEL_BASE : Z := 0xFFFFFFFF80000000.

(** ** Addresses, checksums and headers *)

Definition ip_pack (addr : list Z) (off : Z) : option Z :=
  b0 ← aget addr off;
  b1 ← aget addr (off + 1);
  b2 ← aget addr (off + 2);
  b3 ← aget addr (off + 3);
  Some (Z.lor (Z.lor (Z.lor (u32 (Z.shiftl b0 24)) (u32 (Z.shiftl b1 16))) (u32 (Z.shiftl b2 8))) b3).

(** [parse_ipv4_address] repeats [ip_pack]. *)
Definition parse_ipv4_address (bytes : list Z) (off : Z) : option Z := ip_pack bytes off.

(** The four bytes that [ip_unpack] and the header writers store. *)
Definition ip_unpack (value : Z) : list Z :=
  [Z.land (Z.shiftr value 24) 0xFF; Z.land (Z.shiftr value 16) 0xFF; Z.land (Z.shiftr value 8) 0xFF;
   Z.land value 0xFF].

(** The loop over pairs, and the odd byte at the end. *)
Fixpoint sum_words (data : list Z) (sum : Z) : Z :=
  match data with
  | a :: b :: data' => sum_words data' (u32 (sum + Z.lor a (Z.shiftl b 8)))
  | [a] => u32 (sum + a)
  | [] => sum
  end.

(** [while (sum >> 16) sum = (sum & 0xFFFF) + (sum >> 16)]. *)
Fixpoint fold_carry (fuel : nat) (sum : Z) : option Z :=
  match fuel with
  | O => None
  | S fuel' =>
    if Z.shiftr sum 16 =? 0 then Some sum
    else fold_carry fuel' (u32 (Z.land sum 0xFFFF + Z.shiftr sum 16))
  end.

(** [data] is the array of the [len] bytes. *)
Definition checksum16 (data : list Z) : option Z :=
  sum ← fold_carry 4 (sum_words data 0);
  Some (u16 (Z.lnot sum)).

Definition mac_equal (a b : list Z) : bool := bool_decide (take 6 a = take 6 b).

(** [buffer] points at index [base] of the array. *)
Definition write_eth_header (local_mac buf : list Z) (base : Z) (dest_mac : list Z) (ethertype : Z) :
    option (list Z) :=
  d ← load dest_mac 0 6;
  buf ← put buf base d;
  buf ← put buf (base + 6) local_mac;
  put buf (base + 12) [u8 (Z.shiftr ethertype 8); u8 (Z.land ethertype 0xFF)].

Definition write_ip_header (buf : list Z) (base total_length protocol src_ip dest_ip : Z) : option (list Z) :=
  let total_length := u16 total_length in
  buf ← put buf base
    ([0x45; 0x00; u8 (Z.shiftr total_length 8); u8 total_length; 0x00; 0x00; 0x40; 0x00; 64; protocol; 0; 0]
     ++ ip_unpack src_ip ++ ip_unpack dest_ip);
  hdr ← load buf base 20;
  checksum ← checksum16 hdr;
  put buf (base + 10) [u8 (Z.shiftr checksum 8); u8 checksum].

Definition write_arp_request (local_mac buf : list Z) (target_ip : Z) : option (list Z) :=
  buf ← put buf 0 (replicate 6 0xFF);
  buf ← put buf 6 local_mac;
  buf ← put buf 12 [0x08; 0x06; 0x00; 0x01; 0x08; 0x00; 0x06; 0x04; 0x00; 0x01];
  buf ← put buf 22 local_mac;
  buf ← put buf 28 ([0; 0; 0; 0] ++ [u8 (Z.shiftr target_ip 24); u8 (Z.shiftr target_ip 16);
    u8 (Z.shiftr target_ip 8); u8 target_ip]);
  buf ← put buf 36 (replicate 6 0);
  put buf 42 (replicate 6 0).

(** ** State *)

Record net_t (D : Type) := Net {
  io_base : Z;
  network_ready : bool;
  dhcp_acquired : bool;
  local_mac : list Z;
  local_ip : Z;
  local_netmask : Z;
  local_gateway : Z;
  dhcp_server_ip : Z;
  dhcp_transaction_id : Z;
  arp_peer_mac : list Z;
  arp_peer_ip : Z;
  tx_buffers : list (list Z);
  tx_phys : list Z;
  tx_index : Z;
  card : D
}.
Arguments Net {D}.
Arguments io_base {D}. Arguments network_ready {D}. Arguments dhcp_acquired {D}. Arguments local_mac {D}.
Arguments local_ip {D}. Arguments local_netmask {D}. Arguments local_gateway {D}.
Arguments dhcp_server_ip {D}. Arguments dhcp_transaction_id {D}. Arguments arp_peer_mac {D}.
Arguments arp_peer_ip {D}. Arguments tx_buffers {D}. Arguments tx_phys {D}. Arguments tx_index {D}.
Arguments card {D}.

(** The card: ports, and the contents of [rx_buffer], which it writes. *)
Class Nic (D : Type) := {
  nic_ports :: PortIO D;
  rx_buffer : D -> list Z;
  rx_buffer_length d : Z.of_nat (length (rx_buffer d)) = RX_BUFFER_SIZE;
  rx_buffer_bytes d : Forall is_byte (rx_buffer d)
}.

Section driver.
Context {D : Type}.
Implicit Types st : net_t D.

Definition set_card (c : D) st : net_t D :=
  Net (io_base st) (network_ready st) (dhcp_acquired st) (local_mac st) (local_ip st) (local_netmask st)
    (local_gateway st) (dhcp_server_ip st) (dhcp_transaction_id st) (arp_peer_mac st) (arp_peer_ip st)
    (tx_buffers st) (tx_phys st) (tx_index st) c.
Definition set_lease (acq : bool) (ip mask gw server : Z) st : net_t D :=
  Net (io_base st) (network_ready st) acq (local_mac st) ip mask gw server
    (dhcp_transaction_id st) (arp_peer_mac st) (arp_peer_ip st)
    (tx_buffers st) (tx_phys st) (tx_index st) (card st).
Definition set_acquired (b : bool) st : net_t D :=
  set_lease b (local_ip st) (local_netmask st) (local_gateway st) (dhcp_server_ip st) st.
Definition set_local_ip (v : Z) st : net_t D :=
  set_lease (dhcp_acquired st) v (local_netmask st) (local_gateway st) (dhcp_server_ip st) st.
Definition set_netmask (v : Z) st : net_t D :=
  set_lease (dhcp_acquired st) (local_ip st) v (local_gateway st) (dhcp_server_ip st) st.
Definition set_gateway (v : Z) st : net_t D :=
  set_lease (dhcp_acquired st) (local_ip st) (local_netmask st) v (dhcp_server_ip st) st.
Definition set_server (v : Z) st : net_t D :=
  set_lease (dhcp_acquired st) (local_ip st) (local_netmask st) (local_gateway st) v st.
Definition set_arp (mac : list Z) (ip : Z) st : net_t D :=
  Net (io_base st) (network_ready st) (dhcp_acquired st) (local_mac st) (local_ip st) (local_netmask st)
    (local_gateway st) (dhcp_server_ip st) (dhcp_transaction_id st) mac ip
    (tx_buffers st) (tx_phys st) (tx_index st) (card st).
Definition set_tx (bufs : list (list Z)) (i : Z) st : net_t D :=
  Net (io_base st) (network_ready st) (dhcp_acquired st) (local_mac st) (local_ip st) (local_netmask st)
    (local_gateway st) (dhcp_server_ip st) (dhcp_transaction_id st) (arp_peer_mac st) (arp_peer_ip st)
    bufs (tx_phys st) i (card st).
Definition set_tx_phys (l : list Z) st : net_t D :=
  Net (io_base st) (network_ready st) (dhcp_acquired st) (local_mac st) (local_ip st) (local_netmask st)
    (local_gateway st) (dhcp_server_ip st) (dhcp_transaction_id st) (arp_peer_mac st) (arp_peer_ip st)
    (tx_buffers st) l (tx_index st) (card st).
Definition set_boot (base : Z) (ready : bool) (mac : list Z) st : net_t D :=
  Net base ready (dhcp_acquired st) mac (local_ip st) (local_netmask st)
    (local_gateway st) (dhcp_server_ip st) (dhcp_transaction_id st) (arp_peer_mac st) (arp_peer_ip st)
    (tx_buffers st) (tx_phys st) (tx_index st) (card st).

(** ** DHCP messages *)

Definition be_bytes (v : Z) : list Z := [u8 (Z.shiftr v 24); u8 (Z.shiftr v 16); u8 (Z.shiftr v 8); u8 v].

Definition build_dhcp_discover st (buf : list Z) : option (list Z * Z) :=
  buf ← put buf 0 (replicate 240 0);
  buf ← put buf 0 ([DHCP_OP_REQUEST; 1; 6; 0] ++ be_bytes (dhcp_transaction_id st) ++ replicate 8 0);
  buf ← put buf 28 (local_mac st);
  buf ← put buf 236 [0x63; 0x82; 0x53; 0x63; DHCP_OPT_MESSAGE_TYPE; 1; 1; DHCP_OPT_END];
  Some (buf, 244).

Definition build_dhcp_request st (buf : list Z) : option (list Z * Z) :=
  '(buf, _) ← build_dhcp_discover st buf;
  buf ← put buf 242 ([DHCP_OPT_REQUESTED_IP; 4] ++ ip_unpack (local_ip st)
    ++ [DHCP_OPT_SERVER_ID; 4] ++ ip_unpack (dhcp_server_ip st) ++ [DHCP_OPT_END]);
  Some (buf, 255).

(** The effect of one option; [value] is the index of its first byte. *)
Definition dhcp_option (options : list Z) (opt opt_len value : Z) st : option (net_t D) :=
  if opt =? DHCP_OPT_MESSAGE_TYPE then
    if 1 <=? opt_len then
      v ← aget options value;
      Some (if v =? 2 then set_acquired true st else st)
    else Some st
  else if opt =? DHCP_OPT_SUBNET_MASK then
    if opt_len =? 4 then v ← parse_ipv4_address options value; Some (set_netmask v st) else Some st
  else if opt =? DHCP_OPT_ROUTER then
    if 4 <=? opt_len then v ← parse_ipv4_address options value; Some (set_gateway v st) else Some st
  else if opt =? DHCP_OPT_SERVER_ID then
    if opt_len =? 4 then v ← parse_ipv4_address options value; Some (set_server v st) else Some st
  else Some st.

(** [options] points at index [base] of the packet. *)
Fixpoint parse_options (fuel : nat) (packet : list Z) (base len offset : Z) st : outcome (net_t D) :=
  match fuel with
  | O => NoFuel
  | S fuel' =>
    if offset + 2 <=? len then
      match aget packet (base + offset) with
      | None => Undef
      | Some opt =>
        if opt =? DHCP_OPT_END then Ok st
        else if opt =? 0 then parse_options fuel' packet base len (offset + 1) st
        else
          match aget packet (base + (offset + 1)) with
          | None => Undef
          | Some opt_len =>
            if len <? offset + 2 + opt_len then Ok st
            else
              match dhcp_option packet opt opt_len (base + offset + 2) st with
              | None => Undef
              | Some st' => parse_options fuel' packet base len (offset + 2 + opt_len) st'
              end
          end
      end
    else Ok st
  end.

(** Every round moves [offset] forward, so [len + 1] rounds are enough. *)
Definition parse_dhcp_options (packet : list Z) (base len : Z) st : outcome (net_t D) :=
  parse_options (S (Z.to_nat len)) packet base len 0 st.

(** [packet] points at index [base] of the frame.  The first byte of the
    identifier is shifted as an [int], into the sign when it is above 127:
    standard C leaves that open, and the compiler of the build, GCC, defines it
    as the shift of the bits, so that the word is that of [ip_pack]. *)
Definition network_handle_dhcp_offer (packet : list Z) (base len : Z) : io (net_t D) unit :=
  if len <? 248 then skip
  else
    xid ← lift (ip_pack packet (base + 4));
    st ← gets id;
    if negb (xid =? dhcp_transaction_id st) then skip
    else
      ip ← lift (parse_ipv4_address packet (base + 24));
      modify (set_local_ip ip) ≫= fun _ =>
      transform (parse_dhcp_options packet (base + 248) (len - 248)).
End driver.

(** ** The card *)

Section nic.
Context {D : Type} `{!Nic D}.
(** Addresses that the linker gives to the buffers. *)
Context (rx_addr tx_addr : Z).
Implicit Types st : net_t D.

Definition virt_to_phys (ptr : Z) : Z := if KERNEL_BASE <=? ptr then ptr - KERNEL_BASE else ptr.

(** A port access of the driver. *)
Definition on_card {A} (m : io D A) : io (net_t D) A :=
  fun st => match m (card st) with
            | Ok (a, c) => Ok (a, set_card c st)
            | Undef => Undef
            | NoFuel => NoFuel
            end.

Definition io_write8 (reg v : Z) : io (net_t D) unit := b ← gets io_base; on_card (outb (b + reg) v).
Definition io_read8 (reg : Z) : io (net_t D) Z := b ← gets io_base; on_card (inb (b + reg)).
Definition io_write16 (reg v : Z) : io (net_t D) unit := b ← gets io_base; on_card (outw (b + reg) v).
Definition io_read16 (reg : Z) : io (net_t D) Z := b ← gets io_base; on_card (inw (b + reg)).
Definition io_write32 (reg v : Z) : io (net_t D) unit := b ← gets io_base; on_card (outl (b + reg) v).
Definition io_read32 (reg : Z) : io (net_t D) Z := b ← gets io_base; on_card (inl (b + reg)).

(** The frame in a transmit buffer, before the card is told about it. *)
Definition build_frame (mac frame dest_mac : list Z) (ethertype : Z) (payload : list Z) : option (list Z) :=
  d ← load dest_mac 0 6;
  frame ← put frame 0 d;
  frame ← put frame 6 mac;
  frame ← put frame 12 [u8 (Z.shiftr ethertype 8); u8 (Z.land ethertype 0xFF)];
  put frame 14 payload.

(** [payload] is the array of the [payload_len] bytes. *)
Definition rtl8139_send_frame (dest_mac : list Z) (ethertype : Z) (payload : list Z) : io (net_t D) bool :=
  let payload_len := Z.of_nat (length payload) in
  if TX_BUFFER_SIZE <? payload_len + 14 then mret false
  else
    st ← gets id;
    let i := tx_index st in
    frame ← lift (aget (tx_buffers st) i);
    frame ← lift (build_frame (local_mac st) frame dest_mac ethertype payload);
    bufs ← lift (aset (tx_buffers st) i frame);
    modify (set_tx bufs i) ≫= fun _ =>
    io_write32 (RTL8139_TxAddr0 + i * 4) (u32 (virt_to_phys (tx_addr + i * TX_BUFFER_SIZE))) ≫= fun _ =>
    io_write32 (RTL8139_TxStatus0 + i * 4) (u32 payload_len) ≫= fun _ =>
    modify (fun st => set_tx (tx_buffers st) (u8 ((i + 1) mod TX_DESC_COUNT)) st) ≫= fun _ =>
    for_break (Z.to_nat 100000)
      (status ← io_read32 (RTL8139_TxStatus0 + i * 4); mret (negb (Z.land status 0x2000 =? 0))) ≫= fun _ =>
    mret true.

Definition rtl8139_setup : io (net_t D) bool :=
  io_write8 RTL8139_Command RTL8139_CMD_RESET ≫= fun _ =>
  for_break (Z.to_nat 100000)
    (v ← io_read8 RTL8139_Command; mret (Z.land v RTL8139_CMD_RESET =? 0)) ≫= fun _ =>
  io_write32 RTL8139_RxBuf (u32 (virt_to_phys rx_addr)) ≫= fun _ =>
  io_write32 RTL8139_TxConfig 0x03000000 ≫= fun _ =>
  io_write32 RTL8139_RxConfig 0x038F ≫= fun _ =>
  io_write8 RTL8139_Config1 0x00 ≫= fun _ =>
  io_write16 RTL8139_IntMask 0x0005 ≫= fun _ =>
  io_write8 RTL8139_Command (Z.lor RTL8139_CMD_RX_EN RTL8139_CMD_TX_EN) ≫= fun _ =>
  for_loop 4 0 (fun i =>
    st ← gets id;
    phys ← lift (aset (tx_phys st) i (u32 (virt_to_phys (tx_addr + i * TX_BUFFER_SIZE))));
    modify (set_tx_phys phys)) ≫= fun _ =>
  mret true.

Definition rtl8139_read_mac : io (net_t D) unit :=
  for_loop 6 0 (fun i =>
    v ← io_read8 (RTL8139_MAC_ADDR + i);
    st ← gets id;
    mac ← lift (aset (local_mac st) i v);
    modify (set_boot (io_base st) (network_ready st) mac)).

(** Reading the packet at [offset] of the ring; the caller's [buffer] and
    [*out_len] are threaded through. *)
Definition receive_at (offset : Z) (buf : list Z) (out_len : Z) : io (net_t D) (bool * list Z * Z) :=
  rx ← gets (fun st => rx_buffer (card st));
  b0 ← lift (aget rx offset);
  b1 ← lift (aget rx (offset + 1));
  let status := u16 (Z.lor b0 (Z.shiftl b1 8)) in
  if Z.land status 0x01 =? 0 then mret (false, buf, out_len)
  else
    b2 ← lift (aget rx (offset + 2));
    b3 ← lift (aget rx (offset + 3));
    let length := u16 (Z.lor b2 (Z.shiftl b3 8)) in
    if (1500 <? length) || (RX_BUFFER_SIZE <? offset + 4 + length) then
      io_write16 RTL8139_CapR (Z.land (offset - 16) 0xFFF8) ≫= fun _ =>
      mret (false, buf, out_len)
    else
      bytes ← lift (load rx (offset + 4) length);
      buf ← lift (put buf 0 bytes);
      let next := u16 (offset + length + 4) in
      let next := u16 (Z.land (next + 3) (Z.lnot 3)) in
      let next := if RX_BUFFER_SIZE <=? next then 0 else next in
      io_write16 RTL8139_CapR (Z.land (next - 16) 0xFFF8) ≫= fun _ =>
      mret (true, buf, length).

Definition rx_offset (boundary : Z) : Z :=
  let boundary := if boundary =? 0 then 0x3F8 else boundary in
  let offset := Z.land (boundary + 16) 0xFFF8 in
  if RX_BUFFER_SIZE <=? offset then 0 else offset.

Definition rtl8139_receive_packet (buf : list Z) (out_len : Z) : io (net_t D) (bool * list Z * Z) :=
  cur ← io_read16 RTL8139_CurR;
  boundary ← io_read16 RTL8139_CapR;
  receive_at (rx_offset boundary) buf out_len.

(** ** Protocol handlers *)

Definition send_arp_request (junk : list Z) (target_ip : Z) : io (net_t D) bool :=
  st ← gets id;
  packet ← lift (write_arp_request (local_mac st) junk target_ip);
  payload ← lift (load packet 14 46);
  rtl8139_send_frame packet ETH_P_ARP payload.

Definition arp_reply_packet (st : net_t D) (junk target_mac : list Z) (target_ip : Z) : option (list Z) :=
  packet ← write_eth_header (local_mac st) junk 0 target_mac ETH_P_ARP;
  packet ← put packet 14 [0x00; 0x02; 0x08; 0x00; 0x06; 0x04; 0x00; 0x02];
  t ← load target_mac 0 6;
  packet ← put packet 22 (local_mac st);
  packet ← put packet 28 t;
  packet ← put packet 34 (ip_unpack (local_ip st) ++ ip_unpack target_ip);
  put packet 42 (replicate 18 0).

Definition send_arp_reply (junk target_mac : list Z) (target_ip : Z) : io (net_t D) bool :=
  st ← gets id;
  packet ← lift (arp_reply_packet st junk target_mac target_ip);
  payload ← lift (load packet 14 46);
  rtl8139_send_frame target_mac ETH_P_ARP payload.

Definition network_handle_arp (junk frame : list Z) (len : Z) : io (net_t D) unit :=
  if len <? 42 then skip
  else
    o0 ← lift (aget frame (14 + 6));
    o1 ← lift (aget frame (14 + 7));
    let oper := u16 (Z.lor (Z.shiftl o0 8) o1) in
    sender_mac ← lift (load frame (14 + 8) 6);
    src_ip ← lift (parse_ipv4_address frame (14 + 14));
    target_ip ← lift (parse_ipv4_address frame (14 + 24));
    st ← gets id;
    (if (oper =? ARP_OPER_REQUEST) && (target_ip =? local_ip st)
     then send_arp_reply junk sender_mac src_ip ≫= fun _ => skip else skip) ≫= fun _ =>
    (if oper =? ARP_OPER_REPLY then modify (set_arp sender_mac src_ip) else skip).

(** [frame] points at index [base] of the packet. *)
Definition network_handle_ip (frame : list Z) (base len : Z) : io (net_t D) unit :=
  if len <? 20 then skip
  else
    protocol ← lift (aget frame (base + 9));
    dest_ip ← lift (parse_ipv4_address frame (base + 16));
    st ← gets id;
    if negb (dest_ip =? local_ip st) && negb (dest_ip =? 0xFFFFFFFF) then skip
    else if (protocol =? IP_PROTO_UDP) && (28 <=? len) then
      s0 ← lift (aget frame (base + 20));
      s1 ← lift (aget frame (base + 21));
      d0 ← lift (aget frame (base + 22));
      d1 ← lift (aget frame (base + 23));
      let src_port := u16 (Z.lor (Z.shiftl s0 8) s1) in
      let dest_port := u16 (Z.lor (Z.shiftl d0 8) d1) in
      if (dest_port =? DHCP_CLIENT_PORT) && (src_port =? DHCP_SERVER_PORT)
      then network_handle_dhcp_offer frame (base + 20) (len - 20)
      else skip
    else skip.

(** What is done with a received packet. *)
Definition dispatch (junk packet : list Z) (packet_len : Z) : io (net_t D) unit :=
  if packet_len <? 14 then skip
  else
    t0 ← lift (aget packet 12);
    t1 ← lift (aget packet 13);
    let ethertype := Z.lor (u16 (Z.shiftl t0 8)) t1 in
    if ethertype =? ETH_P_ARP then network_handle_arp junk packet packet_len
    else if ethertype =? ETH_P_IP then network_handle_ip packet 14 (packet_len - 14)
    else skip.

(** [junk] is the local array of [send_arp_reply], [packet] the one of the
    function itself. *)
Fixpoint process_rx (fuel : nat) (junk packet : list Z) (packet_len : Z) : io (net_t D) unit :=
  match fuel with
  | O => fun _ => NoFuel
  | S fuel' =>
    r ← rtl8139_receive_packet packet packet_len;
    let '(more, packet', packet_len') := r in
    if (more : bool) then
      dispatch junk packet' packet_len' ≫= fun _ => process_rx fuel' junk packet' packet_len'
    else skip
  end.

Definition rtl8139_process_rx (fuel : nat) (junk packet : list Z) : io (net_t D) unit :=
  process_rx fuel junk packet 0.

Definition network_send_ipv4 (junk : list Z) (dest_ip protocol : Z) (payload : list Z) : io (net_t D) bool :=
  st ← gets id;
  let payload_len := Z.of_nat (length payload) in
  let total_len := 20 + payload_len in
  packet ← lift (write_eth_header (local_mac st) junk 0 (arp_peer_mac st) ETH_P_IP);
  packet ← lift (write_ip_header packet 14 total_len protocol (local_ip st) dest_ip);
  packet ← lift (put packet 34 payload);
  frame ← lift (load packet 14 total_len);
  rtl8139_send_frame packet ETH_P_IP frame.

(** The datagram of a DHCP message. *)
Definition dhcp_datagram (st : net_t D) (junk data : list Z) : option (list Z) :=
  let udp_len := 8 + Z.of_nat (length data) in
  packet ← write_eth_header (local_mac st) junk 0 (replicate 6 0xFF) ETH_P_IP;
  packet ← write_ip_header packet 14 (20 + udp_len) IP_PROTO_UDP 0 0xFFFFFFFF;
  packet ← put packet 34 [0; DHCP_CLIENT_PORT; 0; DHCP_SERVER_PORT;
    u8 (Z.land (Z.shiftr udp_len 8) 0xFF); u8 (Z.land udp_len 0xFF); 0; 0];
  put packet 42 data.

Definition network_send_dhcp_packet (junk data : list Z) : io (net_t D) bool :=
  st ← gets id;
  packet ← lift (dhcp_datagram st junk data);
  frame ← lift (load packet 14 (28 + Z.of_nat (length data)));
  rtl8139_send_frame packet ETH_P_IP frame.

Definition network_dhcp_discover (junk1 junk2 : list Z) : io (net_t D) bool :=
  st ← gets id;
  msg ← lift (build_dhcp_discover st junk1);
  data ← lift (load msg.1 0 msg.2);
  network_send_dhcp_packet junk2 data.

Definition network_dhcp_request (junk1 junk2 : list Z) : io (net_t D) bool :=
  st ← gets id;
  msg ← lift (build_dhcp_request st junk1);
  data ← lift (load msg.1 0 msg.2);
  network_send_dhcp_packet junk2 data.

(** ** Initialisation *)

(** The uninitialised local arrays of the calls below. *)
Context (junk60 junk300 junk1514 : list Z).
(** The bound on the packets that one call of [rtl8139_process_rx] handles. *)
Context (fuel : nat).

Definition network_initialize : io (net_t D) bool :=
  nic ← on_card (pci_find_device RTL8139_VENDOR_ID RTL8139_DEVICE_ID);
  match nic with
  | None => mret false
  | Some nic =>
    command ← on_card (pci_read_config_dword (bus nic) (device nic) (function nic) 0x04);
    on_card (pci_write_config_dword (bus nic) (device nic) (function nic) 0x04 (Z.lor command 5)) ≫= fun _ =>
    st ← gets id;
    let base := u16 (Z.land (bar0 nic) 0xFFFFFFFC) in
    modify (set_boot base (network_ready st) (local_mac st)) ≫= fun _ =>
    if base =? 0 then mret false
    else
      rtl8139_read_mac ≫= fun _ =>
      rtl8139_setup ≫= fun _ =>
      for_break 3
        (network_dhcp_discover junk300 junk1514 ≫= fun _ =>
         for_break (Z.to_nat 50000)
           (rtl8139_process_rx fuel junk60 junk1514 ≫= fun _ => gets dhcp_acquired) ≫= fun _ =>
         gets dhcp_acquired) ≫= fun _ =>
      acquired ← gets dhcp_acquired;
      if negb acquired then mret false
      else
        network_dhcp_request junk300 junk1514 ≫= fun _ =>
        for_loop (Z.to_nat 50000) 0 (fun _ => rtl8139_process_rx fuel junk60 junk1514) ≫= fun _ =>
        acquired ← gets dhcp_acquired;
        if negb acquired then mret false
        else
          st ← gets id;
          modify (set_boot (io_base st) true (local_mac st)) ≫= fun _ =>
          mret true
  end.

Definition network_poll : io (net_t D) unit :=
  ready ← gets network_ready;
  if negb ready then skip else rtl8139_process_rx fuel junk60 junk1514.

Definition network_get_ip : io (net_t D) Z := gets local_ip.
Definition network_get_gateway : io (net_t D) Z := gets local_gateway.
Definition network_get_mac : io (net_t D) (list Z) := gets local_mac.
End nic.

(** ** Memory safety

    Shapes of the static arrays, and the place in the transmit ring. *)
Record net_wf {D} (st : net_t D) : Prop := {
  wf_mac : length (local_mac st) = 6%nat;
  wf_peer : length (arp_peer_mac st) = 6%nat;
  wf_tx : length (tx_buffers st) = 4%nat;
  wf_tx_each : Forall (fun b => length b = 2048%nat) (tx_buffers st);
  wf_phys : length (tx_phys st) = 4%nat;
  wf_index : 0 <= tx_index st < 4
}.

(** An array of [n] bytes. *)
Definition bytes_of (n : Z) (l : list Z) : Prop := Z.of_nat (length l) = n /\ Forall is_byte l.

Lemma aget_byte n l i : bytes_of n l -> 0 <= i < n -> exists b, aget l i = Some b /\ is_byte b.
Proof.
  intros [Hl Hb] Hi. destruct (aget_in_range l i) as [b E]; [lia|]. exists b. split; [done|].
  apply aget_lookup in E. by eapply Forall_lookup_1.
Qed.

Lemma load_ok (phi : list Z -> Prop) l i n :
  0 <= i -> 0 <= n -> i + n <= Z.of_nat (length l) -> (Z.of_nat (length (slice l i n)) = n -> phi (slice l i n)) ->
  exists r, load l i n = Some r /\ phi r.
Proof. intros. exists (slice l i n). rewrite load_eq by done. split; [done|]. auto using slice_length. Qed.

Lemma put_ok buf i bs :
  0 <= i -> i + Z.of_nat (length bs) <= Z.of_nat (length buf) ->
  exists buf', put buf i bs = Some buf' /\ Z.of_nat (length buf') = Z.of_nat (length buf).
Proof.
  intros Hi Hl. rewrite put_eq by done. eexists. split; [done|].
  rewrite !length_app, length_take, length_drop. lia.
Qed.

Lemma put_bytes n buf i bs :
  0 <= i -> i + Z.of_nat (length bs) <= n -> bytes_of n buf -> Forall is_byte bs ->
  exists buf', put buf i bs = Some buf' /\ bytes_of n buf'.
Proof.
  intros Hi Hl [Hn Hb] Hbs. destruct (put_ok buf i bs) as (buf' & E & Hlen); [lia|lia|].
  exists buf'. split; [done|]. split; [lia|]. rewrite put_eq in E by lia. injection E as <-.
  apply Forall_app. split; [by apply Forall_take|]. apply Forall_app. split; [done|by apply Forall_drop].
Qed.

Lemma ip_pack_ok l off : 0 <= off -> off + 4 <= Z.of_nat (length l) -> exists v, ip_pack l off = Some v.
Proof.
  intros Ho Hl. unfold ip_pack.
  destruct (aget_in_range l off) as [b0 ->]; [lia|]. destruct (aget_in_range l (off + 1)) as [b1 ->]; [lia|].
  destruct (aget_in_range l (off + 2)) as [b2 ->]; [lia|]. destruct (aget_in_range l (off + 3)) as [b3 ->]; [lia|].
  simpl. eauto.
Qed.

(** A chain of stores that stays inside the array. *)
Ltac put_step :=
  match goal with
  | |- context [put ?b ?i ?l ≫= _] =>
    let b' := fresh "buf" in let E := fresh "E" in let H := fresh "Hlen" in
    destruct (put_ok b i l) as (b' & E & H);
      [lia | rewrite ?length_app, ?length_replicate; simpl; lia | rewrite E; cbn [mbind option_bind]]
  end.

Lemma write_eth_header_ok mac buf dest ethertype :
  length mac = 6%nat -> (6 <= length dest)%nat -> (14 <= length buf)%nat ->
  exists buf', write_eth_header mac buf 0 dest ethertype = Some buf' /\
    Z.of_nat (length buf') = Z.of_nat (length buf).
Proof.
  intros Hm Hd Hb. unfold write_eth_header. rewrite load_eq by lia. cbn [mbind option_bind].
  pose proof (slice_length dest 0 6 ltac:(lia) ltac:(lia) ltac:(lia)).
  put_step. put_step. destruct (put_ok buf1 (0 + 12) [u8 (ethertype ≫ 8); u8 (Z.land ethertype 0xFF)]) as (b & -> & Hl);
    [lia|simpl; lia|]. exists b. split; [done|lia].
Qed.

(** The one's complement sum as a number between 0 and 65535. *)
Definition norm (s : Z) : Z := if s =? 0 then 0 else (s - 1) mod 65535 + 1.

Lemma norm_carry s : 65536 <= s -> norm (s mod 65536 + s / 65536) = norm s.
Proof.
  intros Hs. unfold norm. destruct (Z.eqb_spec s 0), (Z.eqb_spec (s mod 65536 + s / 65536) 0);
    lia.
Qed.

Lemma norm_small s : 0 <= s < 65536 -> norm s = s.
Proof. intros Hs. unfold norm. case_cmp; [done|]. lia. Qed.

Lemma fold_carry_eq sum : 0 <= sum < 2 ^ 32 -> fold_carry 4 sum = Some (norm sum).
Proof.
  change (2 ^ 32) with 4294967296. intros Hs.
  assert (Hstep : forall n s, 0 <= s < 4294967296 ->
    fold_carry (S n) s = if s <? 65536 then Some s else fold_carry n (s mod 65536 + s / 65536)).
  { intros n s Hr. cbn [fold_carry]. rewrite Z.shiftr_div_pow2 by lia. change (2 ^ 16) with 65536.
    change 0xFFFF with (Z.ones 16). rewrite land_low by lia. change (2 ^ 16) with 65536.
    destruct (Z.eqb_spec (s / 65536) 0), (Z.ltb_spec s 65536); try lia; [done|].
    by rewrite u32_small by lia. }
  rewrite Hstep by done. case_cmp; [by rewrite norm_small by lia|]. rewrite <- norm_carry by lia.
  rewrite Hstep by lia. case_cmp; [by rewrite norm_small by lia|]. rewrite <- norm_carry by lia.
  rewrite Hstep by lia. case_cmp; [by rewrite norm_small by lia|]. lia.
Qed.

Lemma norm_range s : 0 <= norm s < 65536.
Proof. unfold norm. case_cmp; lia. Qed.

Lemma sum_words_range data sum : 0 <= sum < 2 ^ 32 -> 0 <= sum_words data sum < 2 ^ 32.
Proof.
  intros Hs. remember (length data) as n eqn:Hn. revert data sum Hs Hn.
  induction n as [n IH] using lt_wf_ind; intros data sum Hs ->.
  destruct data as [|a [|b data]]; simpl; [done|apply wrap_range; lia|].
  eapply IH; [|apply wrap_range; lia|reflexivity]. simpl. lia.
Qed.

Lemma checksum16_eq data : checksum16 data = Some (65535 - norm (sum_words data 0)).
Proof.
  unfold checksum16. rewrite fold_carry_eq by (apply sum_words_range; lia). cbn [mbind option_bind].
  f_equal. pose proof (norm_range (sum_words data 0)). unfold u16, wrap, Z.lnot.
  change (2 ^ 16) with 65536. lia.
Qed.

Lemma write_ip_header_ok buf base total proto src dst :
  0 <= base -> base + 20 <= Z.of_nat (length buf) ->
  exists buf', write_ip_header buf base total proto src dst = Some buf' /\
    Z.of_nat (length buf') = Z.of_nat (length buf).
Proof.
  intros Hb Hl. unfold write_ip_header. put_step. rewrite load_eq by lia. cbn [mbind option_bind].
  rewrite checksum16_eq. cbn [mbind option_bind].
  match goal with |- context [put ?b ?i ?l] => destruct (put_ok b i l) as (b' & -> & H) end; [lia|simpl; lia|].
  exists b'. split; [done|lia].
Qed.

Lemma arp_request_ok mac buf ip :
  length mac = 6%nat -> length buf = 60%nat ->
  exists buf', write_arp_request mac buf ip = Some buf' /\ Z.of_nat (length buf') = 60.
Proof.
  intros Hm Hb. unfold write_arp_request. do 6 put_step.
  match goal with |- context [put ?b ?i ?l] => destruct (put_ok b i l) as (b' & -> & H) end;
    [lia|rewrite length_replicate; lia|]. exists b'. split; [done|lia].
Qed.

Section safety.
Context {D : Type} `{!Nic D}.
Context (rx_addr tx_addr : Z).
Implicit Types st : net_t D.

Notation keeps m := (safe (net_wf (D := D)) m (fun _ => net_wf)).

(** Port accesses change nothing but the card. *)
Lemma on_card_keeps {A} (m : io D A) : defined m -> keeps (on_card m).
Proof.
  intros Hm st Hwf. unfold on_card. destruct (Hm (card st)) as (a & c & ->). destruct Hwf. by split.
Qed.

Lemma io_write32_keeps reg v : keeps (io_write32 reg v).
Proof. apply safe_gets_bind. intros. apply on_card_keeps, out_defined. Qed.
Lemma io_write16_keeps reg v : keeps (io_write16 reg v).
Proof. apply safe_gets_bind. intros. apply on_card_keeps, out_defined. Qed.
Lemma io_write8_keeps reg v : keeps (io_write8 reg v).
Proof. apply safe_gets_bind. intros. apply on_card_keeps, out_defined. Qed.
Lemma io_read32_keeps reg : keeps (io_read32 reg).
Proof. apply safe_gets_bind. intros. apply on_card_keeps, in_defined. Qed.
Lemma io_read8_keeps reg : keeps (io_read8 reg).
Proof. apply safe_gets_bind. intros. apply on_card_keeps, in_defined. Qed.

Lemma io_read16_keeps reg : safe net_wf (io_read16 reg) (fun v st => net_wf st /\ 0 <= v < 65536).
Proof.
  apply safe_gets_bind. intros st0 _ st Hwf. unfold on_card, inw.
  destruct (in_width 2 (io_base st0 + reg) (card st)) as [[v c]| |] eqn:E.
  - apply in_range in E; [|lia]. destruct Hwf. split; [by split|exact E].
  - destruct (in_defined 2 (io_base st0 + reg) (card st)) as (? & ? & ?). congruence.
  - done.
Qed.

Hint Resolve io_write32_keeps io_write16_keeps io_write8_keeps io_read32_keeps io_read8_keeps : io.

Lemma build_frame_ok mac frame dest ethertype payload :
  length mac = 6%nat -> length frame = 2048%nat -> (6 <= length dest)%nat ->
  Z.of_nat (length payload) + 14 <= 2048 ->
  exists f, build_frame mac frame dest ethertype payload = Some f /\ length f = 2048%nat.
Proof.
  intros Hm Hf Hd Hp. unfold build_frame. rewrite load_eq by lia. cbn [mbind option_bind].
  pose proof (slice_length dest 0 6 ltac:(lia) ltac:(lia) ltac:(lia)). do 3 put_step.
  match goal with |- context [put ?b ?i ?l] => destruct (put_ok b i l) as (b' & -> & H') end; [lia|lia|].
  exists b'. split; [done|lia].
Qed.

Lemma poll_keeps n (read : io (net_t D) Z) (test : Z -> bool) :
  keeps read -> keeps (for_break n (v ← read; mret (test v))).
Proof.
  intros Hr. apply safe_break. eapply safe_seq; [exact Hr|]. intros. by apply safe_ret.
Qed.

Lemma send_frame_keeps dest ethertype payload :
  (6 <= length dest)%nat -> keeps (rtl8139_send_frame tx_addr dest ethertype payload).
Proof.
  intros Hd. unfold rtl8139_send_frame, TX_BUFFER_SIZE.
  destruct (Z.ltb_spec 2048 (Z.of_nat (length payload) + 14)); [by apply safe_ret|].
  apply safe_gets_bind. intros st0 [Hm Hp Ht Hte Hph Hi]. unfold id.
  eapply (safe_lift_bind _ _ (fun f => length f = 2048%nat)).
  { destruct (aget_in_range (tx_buffers st0) (tx_index st0)) as [f E]; [lia|]. exists f. split; [done|].
    apply aget_lookup in E. exact (Forall_lookup_1 _ _ _ _ Hte E). }
  intros frame Hf. eapply (safe_lift_bind _ _ (fun f => length f = 2048%nat)); [apply build_frame_ok; assumption || lia|].
  intros f' Hf'. eapply (safe_lift_bind _ _ (fun bufs => length bufs = 4%nat /\ Forall (fun b => length b = 2048%nat) bufs)).
  { rewrite aset_in_range by lia. eexists. split; [done|]. split; [by rewrite length_insert|].
    by apply Forall_insert. }
  intros bufs [Hb4 Hb]. eapply safe_seq.
  { apply safe_modify. intros s []. by split. }
  intros _. apply safe_seq; [apply io_write32_keeps|]. intros _. apply safe_seq; [apply io_write32_keeps|].
  intros _. apply safe_seq.
  { apply safe_modify. intros s []. split; try done. simpl. unfold TX_DESC_COUNT, u8, wrap. lia. }
  intros _. apply safe_seq; [apply (poll_keeps _ _ _ (io_read32_keeps _))|]. intros _. by apply safe_ret.
Qed.

Lemma arp_reply_ok st junk target ip :
  net_wf st -> length junk = 60%nat -> length target = 6%nat ->
  exists p, arp_reply_packet st junk target ip = Some p /\ Z.of_nat (length p) = 60.
Proof.
  intros [Hm _ _ _ _ _] Hj Ht. unfold arp_reply_packet.
  destruct (write_eth_header_ok (local_mac st) junk target ETH_P_ARP) as (b & -> & Hb); [done|lia|lia|].
  cbn [mbind option_bind]. put_step. rewrite load_eq by lia. cbn [mbind option_bind].
  pose proof (slice_length target 0 6 ltac:(lia) ltac:(lia) ltac:(lia)). do 3 put_step.
  match goal with |- context [put ?b ?i ?l] => destruct (put_ok b i l) as (b' & -> & H') end;
    [lia|rewrite length_replicate; lia|]. exists b'. split; [done|lia].
Qed.

Lemma send_arp_reply_keeps junk target ip :
  length junk = 60%nat -> length target = 6%nat -> keeps (send_arp_reply tx_addr junk target ip).
Proof.
  intros Hj Ht. apply safe_gets_bind. intros st0 Hwf0.
  apply (safe_lift_bind _ _ (fun p => Z.of_nat (length p) = 60)); [by apply arp_reply_ok|].
  intros p Hp. apply (safe_lift_bind _ _ (fun _ => True)); [apply load_ok; lia || done|].
  intros payload _. apply send_frame_keeps. lia.
Qed.

Section frames.
Context (frame : list Z) (n : Z).
Context (Hframe : bytes_of n frame).

Lemma frame_byte i : 0 <= i < n -> exists b, aget frame i = Some b /\ is_byte b.
Proof using Hframe. by apply aget_byte. Qed.

Lemma frame_ip off : 0 <= off -> off + 4 <= n -> exists v, ip_pack frame off = Some v /\ True.
Proof using Hframe.
  intros Ho Hl. destruct Hframe as [Hlen _]. destruct (ip_pack_ok frame off) as [v E]; [lia|lia|]. eauto.
Qed.

Lemma handle_arp_keeps junk len :
  length junk = 60%nat -> len <= n -> keeps (network_handle_arp tx_addr junk frame len).
Proof using Hframe.
  intros Hj Hn. pose proof Hframe as [Hlen _]. unfold network_handle_arp.
  destruct (Z.ltb_spec len 42); [by apply safe_ret|].
  eapply safe_lift_bind; [apply frame_byte; lia|]. intros o0 _.
  eapply safe_lift_bind; [apply frame_byte; lia|]. intros o1 _.
  apply (safe_lift_bind _ _ (fun m => length m = 6%nat)); [apply load_ok; intros; lia|]. intros mac Hmac.
  eapply safe_lift_bind; [apply frame_ip; lia|]. intros src _.
  eapply safe_lift_bind; [apply frame_ip; lia|]. intros dst _.
  apply safe_gets_bind. intros st0 Hwf0. apply safe_seq.
  - destruct (_ && _); [|by apply safe_ret].
    apply safe_seq; [by apply send_arp_reply_keeps|]. intros _. by apply safe_ret.
  - intros _. destruct (_ =? _); [|by apply safe_ret]. apply safe_modify. intros s []. by split.
Qed.

(** The options change nothing but the lease. *)
Definition lease_change st st' : Prop :=
  exists acq mask gw server, st' = set_lease acq (local_ip st) mask gw server st.

Lemma lease_change_refl st : lease_change st st.
Proof. exists (dhcp_acquired st), (local_netmask st), (local_gateway st), (dhcp_server_ip st). by destruct st. Qed.

Lemma lease_change_trans st1 st2 st3 : lease_change st1 st2 -> lease_change st2 st3 -> lease_change st1 st3.
Proof. intros (a & b & c & d & ->) (a' & b' & c' & d' & ->). by exists a', b', c', d'. Qed.

Lemma dhcp_option_ok opt opt_len value st :
  0 <= value -> 0 <= opt_len -> value + opt_len <= n ->
  exists st', dhcp_option frame opt opt_len value st = Some st' /\ lease_change st st'.
Proof using Hframe.
  intros Hv Hl Hn. unfold dhcp_option, parse_ipv4_address.
  assert (Hip : forall k, 4 <= k -> k <= opt_len -> exists v, ip_pack frame value = Some v /\ True)
    by (intros; apply frame_ip; lia).
  assert (Hsame : exists st', Some st = Some st' /\ lease_change st st') by eauto using lease_change_refl.
  destruct (opt =? DHCP_OPT_MESSAGE_TYPE).
  { destruct (Z.leb_spec 1 opt_len); [|exact Hsame].
    destruct (frame_byte value) as (b & -> & _); [lia|]. cbn [mbind option_bind].
    case_cmp; [|exact Hsame]. eexists. split; [done|]. by do 4 eexists. }
  repeat case_cmp; try exact Hsame; try lia;
    (destruct (Hip 4 ltac:(lia) ltac:(lia)) as (v & -> & _); cbn [mbind option_bind];
         eexists; split; [done|by do 4 eexists]).
Qed.

Lemma parse_options_ok fuel base len offset st :
  0 <= base -> base + len <= n -> 0 <= offset -> Z.max 0 (len - offset) < Z.of_nat fuel ->
  exists st', parse_options fuel frame base len offset st = Ok st' /\ lease_change st st'.
Proof using Hframe.
  intros Hb Hn. revert offset st. induction fuel as [|fuel IH]; intros offset st Ho Hf; [lia|].
  cbn [parse_options].
  assert (Hsame : exists st', Ok st = Ok st' /\ lease_change st st') by eauto using lease_change_refl.
  destruct (Z.leb_spec (offset + 2) len); [|exact Hsame].
  destruct (frame_byte (base + offset)) as (opt & -> & Hopt); [lia|].
  destruct (opt =? DHCP_OPT_END); [exact Hsame|].
  destruct (Z.eqb_spec opt 0); [apply IH; lia|].
  destruct (frame_byte (base + (offset + 1))) as (opt_len & -> & Hlen); [lia|]. unfold is_byte in Hlen.
  destruct (Z.ltb_spec len (offset + 2 + opt_len)); [exact Hsame|].
  destruct (dhcp_option_ok opt opt_len (base + offset + 2) st) as (st1 & -> & Hc); [lia|lia|lia|].
  destruct (IH (offset + 2 + opt_len) st1) as (st2 & -> & Hc2); [lia|lia|].
  exists st2. split; [done|]. by eapply lease_change_trans.
Qed.

Lemma lease_change_wf st st' : lease_change st st' -> net_wf st -> net_wf st'.
Proof. intros (a & b & c & d & ->) []. by split. Qed.

Lemma handle_offer_keeps base len :
  0 <= base -> base + len <= n -> keeps (network_handle_dhcp_offer frame base len).
Proof using Hframe.
  intros Hb Hn. unfold network_handle_dhcp_offer.
  destruct (Z.ltb_spec len 248); [by apply safe_ret|].
  eapply safe_lift_bind; [apply frame_ip; lia|]. intros xid _. apply safe_gets_bind. intros st0 Hwf0.
  destruct (negb _); [by apply safe_ret|].
  eapply safe_lift_bind; [apply frame_ip; lia|]. intros ip _. apply safe_seq.
  { apply safe_modify. intros s []. by split. }
  intros _ st Hwf. unfold transform, parse_dhcp_options.
  destruct (parse_options_ok (S (Z.to_nat (len - 248))) (base + 248) (len - 248) 0 st) as (st' & -> & Hc);
    [lia..|]. by eapply lease_change_wf.
Qed.

Lemma handle_ip_keeps base len :
  0 <= base -> base + len <= n -> keeps (network_handle_ip frame base len).
Proof using Hframe.
  intros Hb Hn. unfold network_handle_ip. destruct (Z.ltb_spec len 20); [by apply safe_ret|].
  eapply safe_lift_bind; [apply frame_byte; lia|]. intros protocol _.
  eapply safe_lift_bind; [apply frame_ip; lia|]. intros dst _. apply safe_gets_bind. intros st0 Hwf0.
  destruct (negb _ && _); [by apply safe_ret|].
  destruct (protocol =? IP_PROTO_UDP); [|by apply safe_ret].
  destruct (Z.leb_spec 28 len); [|by apply safe_ret]. cbn [andb].
  do 4 (eapply safe_lift_bind; [apply frame_byte; lia|]; intros ? _).
  destruct (_ && _); [|by apply safe_ret]. apply handle_offer_keeps; lia.
Qed.

Lemma dispatch_keeps junk len :
  length junk = 60%nat -> len <= n -> keeps (dispatch tx_addr junk frame len).
Proof using Hframe.
  intros Hj Hn. unfold dispatch. destruct (Z.ltb_spec len 14); [by apply safe_ret|].
  do 2 (eapply safe_lift_bind; [apply frame_byte; lia|]; intros ? _).
  destruct (_ =? ETH_P_ARP); [by apply handle_arp_keeps|].
  destruct (_ =? ETH_P_IP); [|by apply safe_ret]. apply handle_ip_keeps; lia.
Qed.
End frames.

(** The receive ring. *)
Lemma rx_bytes d : bytes_of RX_BUFFER_SIZE (rx_buffer d).
Proof. split; [apply rx_buffer_length|apply rx_buffer_bytes]. Qed.

Lemma rx_offset_ok v :
  0 <= v < 65536 -> 0 <= rx_offset v /\ rx_offset v + 3 < RX_BUFFER_SIZE /\ rx_offset v mod 8 = 0.
Proof.
  intros Hv. unfold rx_offset. change 0xFFF8 with (Z.shiftl (Z.ones 13) 3). cbv zeta. rewrite land_field by lia.
  change (2 ^ 3) with 8. change (2 ^ 13) with 8192. unfold RX_BUFFER_SIZE. repeat case_cmp; lia.
Qed.

Definition received (n : Z) (r : bool * list Z * Z) : Prop :=
  let '(_, buf, len) := r in bytes_of n buf /\ 0 <= len <= 1500.

Lemma receive_at_keeps offset buf len :
  0 <= offset -> offset + 3 < RX_BUFFER_SIZE -> bytes_of 1514 buf -> 0 <= len <= 1500 ->
  safe net_wf (receive_at offset buf len) (fun r st => net_wf st /\ received 1514 r).
Proof.
  intros Ho0 Ho Hbuf Hlen. apply safe_gets_bind. intros st0 _. pose proof (rx_bytes (card st0)) as Hrx.
  set (rx := rx_buffer (card st0)) in *. clearbody rx.
  do 2 (eapply safe_lift_bind; [apply (aget_byte _ _ _ Hrx); lia|]; intros ? _). cbv zeta.
  destruct (_ =? 0); [by apply safe_ret|].
  do 2 (eapply safe_lift_bind; [apply (aget_byte _ _ _ Hrx); lia|]; intros ? _). cbv zeta.
  set (l := u16 _). assert (0 <= l) by apply u16_range. clearbody l.
  destruct (Z.ltb_spec 1500 l); cbn [orb].
  { apply safe_seq; [apply io_write16_keeps|]. intros _. by apply safe_ret. }
  destruct (Z.ltb_spec RX_BUFFER_SIZE (offset + 4 + l)).
  { apply safe_seq; [apply io_write16_keeps|]. intros _. by apply safe_ret. }
  apply (safe_lift_bind _ _ (fun bs => Z.of_nat (length bs) = l /\ Forall is_byte bs)).
  { apply load_ok; [lia|lia|destruct Hrx; lia|]. intros Hs. split; [done|].
    apply Forall_take, Forall_drop. apply Hrx. }
  intros bs [Hbs Hbb]. apply (safe_lift_bind _ _ (bytes_of 1514)).
  { apply put_bytes; [lia|lia|done|done]. }
  intros buf' Hbuf'. apply safe_seq; [apply io_write16_keeps|]. intros _. apply safe_ret.
  intros st Hwf. split; [done|]. split; [done|lia].
Qed.

Lemma receive_keeps buf len :
  bytes_of 1514 buf -> 0 <= len <= 1500 ->
  safe net_wf (rtl8139_receive_packet buf len) (fun r st => net_wf st /\ received 1514 r).
Proof.
  intros Hbuf Hlen. unfold rtl8139_receive_packet.
  eapply safe_bind; [apply io_read16_keeps|]. intros cur.
  eapply (safe_bind _ _ _ (fun v st => net_wf st /\ 0 <= v < 65536)).
  { eapply safe_weaken; [apply io_read16_keeps|by intros ? [? _]|done]. }
  intros v st [Hwf Hv]. revert st Hwf. destruct (rx_offset_ok v Hv) as (? & ? & _).
  by apply receive_at_keeps.
Qed.

Lemma process_rx_keeps fuel junk packet len :
  length junk = 60%nat -> bytes_of 1514 packet -> 0 <= len <= 1500 ->
  keeps (process_rx tx_addr fuel junk packet len).
Proof.
  intros Hj. revert packet len. induction fuel as [|fuel IH]; intros packet len Hp Hl; [by intros st Hwf|].
  cbn [process_rx]. eapply safe_bind; [by apply receive_keeps|].
  intros [[more packet'] len'] st [Hwf [Hp' Hl']]. revert st Hwf.
  destruct more; [|by apply (safe_ret net_wf tt (fun _ => net_wf))].
  apply (safe_seq net_wf _ _ (fun _ => net_wf)); [eapply dispatch_keeps; [exact Hp'|done|lia]|].
  intros _. by apply IH.
Qed.

Lemma setup_keeps : keeps (rtl8139_setup rx_addr tx_addr).
Proof.
  unfold rtl8139_setup. apply safe_seq; [apply io_write8_keeps|]. intros _.
  apply safe_seq; [apply (poll_keeps _ _ (fun v => Z.land v RTL8139_CMD_RESET =? 0) (io_read8_keeps _))|]. intros _.
  do 6 (apply safe_seq; [first [apply io_write32_keeps | apply io_write16_keeps | apply io_write8_keeps]|]; intros _).
  apply safe_seq; [|intros _; by apply safe_ret].
  apply (safe_for (fun _ => net_wf)). intros j Hj. apply safe_gets_bind. intros st0 [Hm Hp Ht Hte Hph Hi].
  apply (safe_lift_bind _ _ (fun l => length l = 4%nat)).
  { unfold id. rewrite aset_in_range by lia. eexists. split; [done|]. by rewrite length_insert. }
  intros l Hl. apply safe_modify. intros s []. by split.
Qed.

Lemma read_mac_keeps : keeps rtl8139_read_mac.
Proof.
  apply (safe_for (fun _ => net_wf)). intros j Hj. apply safe_seq; [apply io_read8_keeps|]. intros v.
  apply safe_gets_bind. intros st0 [Hm Hp Ht Hte Hph Hi].
  apply (safe_lift_bind _ _ (fun l => length l = 6%nat)).
  { unfold id. rewrite aset_in_range by lia. eexists. split; [done|]. by rewrite length_insert. }
  intros l Hl. apply safe_modify. intros s []. by split.
Qed.

Lemma dhcp_datagram_ok st junk data :
  net_wf st -> length junk = 1514%nat -> Z.of_nat (length data) <= 300 ->
  exists p, dhcp_datagram st junk data = Some p /\ Z.of_nat (length p) = 1514.
Proof.
  intros [Hm _ _ _ _ _] Hj Hd. unfold dhcp_datagram.
  destruct (write_eth_header_ok (local_mac st) junk (replicate 6 0xFF) ETH_P_IP) as (b & -> & Hb);
    [done|simpl; lia|lia|]. cbn [mbind option_bind].
  match goal with |- context [write_ip_header ?b ?o ?t ?p ?s ?d] =>
    destruct (write_ip_header_ok b o t p s d) as (b1 & -> & Hb1) end; [lia|lia|].
  cbn [mbind option_bind]. put_step.
  match goal with |- context [put ?b ?i ?l] => destruct (put_ok b i l) as (b' & -> & H') end; [lia|lia|].
  exists b'. split; [done|lia].
Qed.

Lemma send_dhcp_keeps junk data :
  length junk = 1514%nat -> Z.of_nat (length data) <= 300 -> keeps (network_send_dhcp_packet tx_addr junk data).
Proof.
  intros Hj Hd. apply safe_gets_bind. intros st0 Hwf0.
  apply (safe_lift_bind _ _ (fun p => Z.of_nat (length p) = 1514)); [by apply dhcp_datagram_ok|].
  intros p Hp. apply (safe_lift_bind _ _ (fun _ => True)); [apply load_ok; lia || done|].
  intros frame _. apply send_frame_keeps. lia.
Qed.

Lemma discover_ok st junk :
  net_wf st -> length junk = 300%nat ->
  exists m, build_dhcp_discover st junk = Some m /\ Z.of_nat (length m.1) = 300 /\ m.2 = 244.
Proof.
  intros [Hm _ _ _ _ _] Hj. unfold build_dhcp_discover. do 4 put_step.
  eexists. split; [done|]. cbn [fst snd]. split; lia.
Qed.

Lemma request_ok st junk :
  net_wf st -> length junk = 300%nat ->
  exists m, build_dhcp_request st junk = Some m /\ Z.of_nat (length m.1) = 300 /\ m.2 = 255.
Proof.
  intros Hwf Hj. unfold build_dhcp_request. destruct (discover_ok st junk Hwf Hj) as ([b l] & -> & Hl & _).
  cbn [mbind option_bind fst snd] in *. put_step. eexists. split; [done|]. cbn [fst snd]. split; lia.
Qed.

Lemma dhcp_discover_keeps j1 j2 :
  length j1 = 300%nat -> length j2 = 1514%nat -> keeps (network_dhcp_discover tx_addr j1 j2).
Proof.
  intros H1 H2. apply safe_gets_bind. intros st0 Hwf0.
  eapply safe_lift_bind; [by apply discover_ok|]. intros m [Hm Hm2].
  apply (safe_lift_bind _ _ (fun d => Z.of_nat (length d) <= 300)); [apply load_ok; lia|].
  intros d Hd. by apply send_dhcp_keeps.
Qed.

Lemma dhcp_request_keeps j1 j2 :
  length j1 = 300%nat -> length j2 = 1514%nat -> keeps (network_dhcp_request tx_addr j1 j2).
Proof.
  intros H1 H2. apply safe_gets_bind. intros st0 Hwf0.
  eapply safe_lift_bind; [by apply request_ok|]. intros m [Hm Hm2].
  apply (safe_lift_bind _ _ (fun d => Z.of_nat (length d) <= 300)); [apply load_ok; lia|].
  intros d Hd. by apply send_dhcp_keeps.
Qed.

Section init.
Context (junk60 junk300 junk1514 : list Z) (fuel : nat).
Context (H60 : length junk60 = 60%nat) (H300 : length junk300 = 300%nat) (H1514 : bytes_of 1514 junk1514).

Lemma rtl_process_keeps : keeps (rtl8139_process_rx tx_addr fuel junk60 junk1514).
Proof using H60 H1514. apply process_rx_keeps; [exact H60|exact H1514|clear; lia]. Qed.

Lemma acquired_keeps : keeps (gets dhcp_acquired).
Proof. by intros st Hwf. Qed.

Lemma initialize_keeps : keeps (network_initialize rx_addr tx_addr junk60 junk300 junk1514 fuel).
Proof using H60 H300 H1514.
  assert (Hl : length junk1514 = 1514%nat) by (destruct H1514; lia).
  unfold network_initialize. apply safe_seq; [apply on_card_keeps, find_device_defined|].
  intros [nic|]; [|by apply safe_ret].
  apply safe_seq; [apply on_card_keeps, read_config_defined|]. intros command.
  apply safe_seq; [apply on_card_keeps, write_config_defined|]. intros _.
  apply safe_gets_bind. intros st0 [Hm0 _ _ _ _ _]. cbv zeta.
  apply safe_seq; [apply safe_modify; intros s []; by split|]. intros _.
  destruct (_ =? 0); [by apply safe_ret|].
  apply safe_seq; [apply read_mac_keeps|]. intros _. apply safe_seq; [apply setup_keeps|]. intros _.
  apply safe_seq.
  { apply safe_break. apply safe_seq; [by apply dhcp_discover_keeps|]. intros _.
    apply safe_seq; [|intros _; apply acquired_keeps].
    apply safe_break. apply safe_seq; [apply rtl_process_keeps|]. intros _. apply acquired_keeps. }
  intros _. apply safe_seq; [apply acquired_keeps|]. intros []; [|by apply safe_ret]. cbn [negb].
  apply safe_seq; [by apply dhcp_request_keeps|]. intros _. apply safe_seq.
  { apply (safe_for (fun _ => net_wf)). intros. apply rtl_process_keeps. }
  intros _. apply safe_seq; [apply acquired_keeps|]. intros []; [|by apply safe_ret]. cbn [negb].
  apply safe_gets_bind. intros st1 [Hm1 _ _ _ _ _]. apply safe_seq; [apply safe_modify; intros s []; by split|].
  intros _. by apply safe_ret.
Qed.

Lemma poll_net_keeps : keeps (network_poll tx_addr junk60 junk1514 fuel).
Proof using H60 H1514.
  apply safe_seq; [by intros st Hwf|]. intros []; [apply rtl_process_keeps|by apply safe_ret].
Qed.
End init.
End safety.

(** ** Theorems *)

(** C19: no device behaviour and no received packet makes the network code
    access memory outside its arrays.  From a state whose static arrays have
    their declared shapes, [network_initialize] and [network_poll] never
    reach undefined behaviour, whatever the card answers and whatever it
    writes into the receive buffer, and keep the shapes and the transmit
    index inside the ring. *)
Theorem network_memory_safe {D} `{!Nic D} rx_addr tx_addr junk60 junk300 junk1514 fuel (st : net_t D) :
  length junk60 = 60%nat -> length junk300 = 300%nat -> bytes_of 1514 junk1514 -> net_wf st ->
  network_initialize rx_addr tx_addr junk60 junk300 junk1514 fuel st <> Undef /\
  network_poll tx_addr junk60 junk1514 fuel st <> Undef /\
  (forall r st', network_initialize rx_addr tx_addr junk60 junk300 junk1514 fuel st = Ok (r, st') -> net_wf st') /\
  (forall r st', network_poll tx_addr junk60 junk1514 fuel st = Ok (r, st') -> net_wf st').
Proof.
  intros H60 H300 H1514 Hwf.
  pose proof (initialize_keeps rx_addr tx_addr junk60 junk300 junk1514 fuel H60 H300 H1514 st Hwf) as Hi.
  pose proof (poll_net_keeps tx_addr junk60 junk1514 fuel H60 H1514 st Hwf) as Hp.
  split_and!.
  - intros E. by rewrite E in Hi.
  - intros E. by rewrite E in Hp.
  - intros r st' E. by rewrite E in Hi.
  - intros r st' E. by rewrite E in Hp.
Qed.

(** A card that answers reads from a table; its receive buffer is empty. *)
#[export] Instance trace_nic : Nic trace_device.
Proof.
  refine {| rx_buffer _ := replicate (Z.to_nat RX_BUFFER_SIZE) 0 |}.
  - intros _. rewrite length_replicate. unfold RX_BUFFER_SIZE. lia.
  - intros _. apply Forall_replicate. unfold is_byte. lia.
Defined.

Definition net_boot (mac : list Z) (ip : Z) (c : trace_device) : net_t trace_device :=
  Net 0xC000 true false mac ip 0 0 0 0x393047 (replicate 6 0) 0 (replicate 4 (replicate (Z.to_nat 2048) 0))
    (replicate 4 0) 0 c.

Lemma net_boot_wf mac ip c : length mac = 6%nat -> net_wf (net_boot mac ip c).
Proof.
  intros Hm. split; [done|done|done| |done|simpl; lia].
  apply Forall_replicate. rewrite length_replicate. lia.
Qed.

Definition quiet_card : trace_device := Trace (fun _ _ => 0) [].

Lemma network_memory_safe_witness :
  network_poll 0x300000 (replicate 60 0) (replicate (Z.to_nat 1514) 0) 10
    (net_boot (replicate 6 1) 0 quiet_card) <> Undef.
Proof.
  assert (Hb : bytes_of 1514 (replicate (Z.to_nat 1514) 0)).
  { split; [rewrite length_replicate; lia|]. apply Forall_replicate. unfold is_byte. lia. }
  exact (proj1 (proj2 (network_memory_safe 0x200000 0x300000 (replicate 60 0) (replicate 300 0)
    (replicate (Z.to_nat 1514) 0) 10 (net_boot (replicate 6 1) 0 quiet_card)
    (length_replicate 60 0) (length_replicate 300 0) Hb (net_boot_wf (replicate 6 1) 0 quiet_card eq_refl)))).
Defined.

(** *** Checksum *)

(** The sum of the little-endian 16-bit words. *)
Fixpoint le_sum (data : list Z) : Z :=
  match data with
  | a :: b :: data' => a + 256 * b + le_sum data'
  | [a] => a
  | [] => 0
  end.

Lemma lor_byte_pair a b : is_byte a -> Z.lor a (Z.shiftl b 8) = a + 256 * b.
Proof. intros Ha. rewrite Z.lor_comm, lor_shiftl_add by (unfold is_byte in Ha; lia). lia. Qed.

Lemma sum_words_eq data sum :
  Forall is_byte data -> 0 <= sum -> sum + 65536 * Z.of_nat (length data) < 4294967296 ->
  sum_words data sum = sum + le_sum data.
Proof.
  remember (length data) as n eqn:Hn. revert data sum Hn.
  induction n as [n IH] using lt_wf_ind; intros data sum -> Hb Hs Hl.
  destruct data as [|a [|b data]]; simpl in *.
  - lia.
  - apply Forall_cons in Hb as [Ha _]. unfold is_byte in Ha. rewrite u32_small by lia. lia.
  - apply Forall_cons in Hb as [Ha [Hb Hd]%Forall_cons]. rewrite lor_byte_pair by done.
    unfold is_byte in Ha, Hb. rewrite u32_small by lia.
    rewrite (IH (length data)) by (done || lia). lia.
Qed.

Lemma checksum16_spec data :
  Forall is_byte data -> Z.of_nat (length data) < 65536 -> checksum16 data = Some (65535 - norm (le_sum data)).
Proof. intros Hb Hl. rewrite checksum16_eq, sum_words_eq by (done || lia). done. Qed.

(** The header with [c0] and [c1] in the checksum field. *)
Definition ip_header (total proto src dst c0 c1 : Z) : list Z :=
  [0x45; 0; u8 (Z.shiftr (u16 total) 8); u8 (u16 total); 0; 0; 0x40; 0; 64; proto; c0; c1]
  ++ ip_unpack src ++ ip_unpack dst.

Lemma ip_unpack_bytes v : Forall is_byte (ip_unpack v).
Proof.
  unfold ip_unpack, is_byte. change 0xFF with (Z.ones 8).
  repeat apply Forall_cons_2; try apply Forall_nil_2; rewrite land_low by lia; change (2 ^ 8) with 256; lia.
Qed.

Lemma ip_header_bytes total proto src dst c0 c1 :
  is_byte proto -> is_byte c0 -> is_byte c1 -> Forall is_byte (ip_header total proto src dst c0 c1).
Proof.
  intros Hp H0 H1. apply Forall_app. split; [|apply Forall_app; split; apply ip_unpack_bytes].
  repeat apply Forall_cons_2; try apply Forall_nil_2; try done; try (unfold is_byte; lia); apply u8_range.
Qed.

Lemma le_sum_header total proto src dst c0 c1 :
  le_sum (ip_header total proto src dst c0 c1) = le_sum (ip_header total proto src dst 0 0) + c0 + 256 * c1.
Proof. unfold ip_header, ip_unpack. cbn [app le_sum]. lia. Qed.

Lemma le_sum_header_pos total proto src dst :
  is_byte proto -> 0 < le_sum (ip_header total proto src dst 0 0) < 655360.
Proof.
  intros Hp. pose proof (ip_header_bytes total proto src dst 0 0 Hp ltac:(unfold is_byte; lia) ltac:(unfold is_byte; lia)) as Hb.
  unfold ip_header, ip_unpack in *. cbn [app le_sum] in *. rewrite !Forall_cons in Hb. unfold is_byte in Hb. lia.
Qed.

Lemma write_ip_header_eq buf base total proto src dst :
  0 <= base -> base + 20 <= Z.of_nat (length buf) -> is_byte proto ->
  exists c buf', checksum16 (ip_header total proto src dst 0 0) = Some c /\
    0 <= c < 65536 /\ write_ip_header buf base total proto src dst = Some buf' /\
    slice buf' base 20 = ip_header total proto src dst (c / 256) (c mod 256).
Proof.
  intros Hb Hl Hp. set (z := ip_header total proto src dst 0 0).
  exists (65535 - norm (sum_words z 0)). pose proof (norm_range (sum_words z 0)) as Hr.
  rewrite checksum16_eq. set (c := 65535 - norm (sum_words z 0)) in *.
  assert (Hz : length z = 20%nat) by reflexivity.
  pose (mk := fun h => take (Z.to_nat base) buf ++ h ++ drop (Z.to_nat base + 20) buf).
  assert (Hslice : forall h, length h = 20%nat -> slice (mk h) base 20 = h).
  { intros h Hh. unfold slice, mk. rewrite drop_app_length' by (rewrite length_take; lia).
    by rewrite take_app_length' by lia. }
  assert (Hmk : forall h, length h = 20%nat -> Z.of_nat (length (mk h)) = Z.of_nat (length buf)).
  { intros h Hh. unfold mk. rewrite !length_app, length_take, length_drop. lia. }
  exists (mk (ip_header total proto src dst (c / 256) (c mod 256))).
  split; [done|]. split; [lia|]. split; [|by apply Hslice].
  unfold write_ip_header. change ([0x45; 0; _; _; 0; 0; 0x40; 0; 64; proto; 0; 0] ++ _) with z.
  rewrite put_eq by lia. rewrite Hz. fold (mk z). cbn [mbind option_bind].
  rewrite load_eq by (rewrite ?Hmk by done; lia). cbn [mbind option_bind].
  rewrite Hslice, checksum16_eq by done. cbn [mbind option_bind]. fold c.
  set (z1 := [0x45; 0; u8 (Z.shiftr (u16 total) 8); u8 (u16 total); 0; 0; 0x40; 0; 64; proto]).
  set (z2 := ip_unpack src ++ ip_unpack dst).
  assert (Hsplit : forall c0 c1, mk (ip_header total proto src dst c0 c1)
    = (take (Z.to_nat base) buf ++ z1) ++ [c0; c1] ++ z2 ++ drop (Z.to_nat base + 20) buf).
  { intros c0 c1. unfold mk, ip_header. by rewrite <- !app_assoc. }
  unfold z. rewrite !Hsplit. rewrite put_app; [|rewrite length_app, length_take; simpl; lia|done].
  rewrite Z.shiftr_div_pow2 by lia. unfold u8, wrap. change (2 ^ 8) with 256.
  by rewrite (Z.mod_small (c / 256)) by lia.
Qed.

(** The IP header that [write_ip_header] produces carries the one's
    complement checksum of its words with the two bytes in the wrong order:
    a receiver accepts the header, that is the checksum over all of it is
    zero, only when the two bytes happen to be equal.  With the bytes in the
    other order it would always be accepted. *)
Theorem ip_header_checksum_swapped buf base total proto src dst :
  0 <= base -> base + 20 <= Z.of_nat (length buf) -> is_byte proto ->
  exists c buf', checksum16 (ip_header total proto src dst 0 0) = Some c /\ 0 <= c < 65536 /\
    write_ip_header buf base total proto src dst = Some buf' /\
    slice buf' base 20 = ip_header total proto src dst (c / 256) (c mod 256) /\
    (checksum16 (slice buf' base 20) = Some 0 <-> c / 256 = c mod 256) /\
    checksum16 (ip_header total proto src dst (c mod 256) (c / 256)) = Some 0.
Proof.
  intros Hb Hl Hp. destruct (write_ip_header_eq buf base total proto src dst Hb Hl Hp) as (c & buf' & Hc & Hr & Hw & Hs).
  exists c, buf'. split; [done|]. split; [done|]. split; [done|]. split; [done|]. rewrite Hs.
  assert (H0 : is_byte 0) by (unfold is_byte; lia).
  assert (Hhi : is_byte (c / 256)) by (unfold is_byte; lia).
  assert (Hlo : is_byte (c mod 256)) by (unfold is_byte; lia).
  rewrite !checksum16_spec in * by (apply ip_header_bytes || (simpl; lia); done).
  rewrite (le_sum_header _ _ _ _ (c / 256)), (le_sum_header _ _ _ _ (c mod 256)).
  pose proof (le_sum_header_pos total proto src dst Hp) as Hpos.
  set (S := le_sum (ip_header total proto src dst 0 0)) in *. clearbody S.
  injection Hc as Hc. clear - Hc Hr Hpos. unfold norm in *.
  destruct (Z.eqb_spec S 0); [lia|].
  destruct (Z.eqb_spec (S + c / 256 + 256 * (c mod 256)) 0); [lia|].
  destruct (Z.eqb_spec (S + c mod 256 + 256 * (c / 256)) 0); [lia|].
  split; [split; [intros [= H]|intros H; f_equal]|f_equal]; lia.
Qed.

(** The header of the DHCP messages is not accepted. *)
Lemma ip_header_checksum_swapped_witness :
  exists buf', write_ip_header (replicate 34 0) 14 272 IP_PROTO_UDP 0 0xFFFFFFFF = Some buf' /\
    checksum16 (slice buf' 14 20) <> Some 0.
Proof.
  destruct (ip_header_checksum_swapped (replicate 34 0) 14 272 IP_PROTO_UDP 0 0xFFFFFFFF)
    as (c & buf' & Hc & _ & Hw & _ & Hiff & _); [lia|simpl; lia|unfold is_byte, IP_PROTO_UDP; lia|].
  exists buf'. split; [exact Hw|]. intros E%Hiff. vm_compute in Hc. injection Hc as <-. discriminate E.
Defined.

(** *** DHCP *)

Definition ip_value (b0 b1 b2 b3 : Z) : Z := b0 * 16777216 + b1 * 65536 + b2 * 256 + b3.

Lemma ip_pack_value l off b0 b1 b2 b3 :
  aget l off = Some b0 -> aget l (off + 1) = Some b1 -> aget l (off + 2) = Some b2 -> aget l (off + 3) = Some b3 ->
  is_byte b0 -> is_byte b1 -> is_byte b2 -> is_byte b3 -> ip_pack l off = Some (ip_value b0 b1 b2 b3).
Proof.
  intros E0 E1 E2 E3 H0 H1 H2 H3. unfold ip_pack, is_byte in *. rewrite E0, E1, E2, E3. cbn [mbind option_bind].
  f_equal. unfold ip_value. rewrite !Z.shiftl_mul_pow2, !u32_small by lia. rewrite <- !Z.shiftl_mul_pow2 by lia.
  rewrite (lor_shiftl_add b0 24 (Z.shiftl b1 16)) by (rewrite ?Z.shiftl_mul_pow2; lia).
  replace (b0 * 2 ^ 24 + Z.shiftl b1 16) with (Z.shiftl (b0 * 256 + b1) 16) by (rewrite !Z.shiftl_mul_pow2; lia).
  rewrite lor_shiftl_add by (rewrite ?Z.shiftl_mul_pow2; lia).
  replace ((b0 * 256 + b1) * 2 ^ 16 + Z.shiftl b2 8) with (Z.shiftl (b0 * 65536 + b1 * 256 + b2) 8)
    by (rewrite !Z.shiftl_mul_pow2; lia).
  rewrite lor_shiftl_add by lia. lia.
Qed.

(** A well-formed DHCP reply is always dropped.  The handler receives the
    datagram from its UDP header on and takes bytes 4 to 7, which are the UDP
    length and checksum, for the transaction identifier.  With the
    identifier of the driver a datagram whose length field is right never
    passes the test, so the lease is left as it was. *)
Theorem dhcp_offer_dropped {D} (st : net_t D) packet n base len hi lo :
  dhcp_transaction_id st = 0x393047 -> bytes_of n packet -> 0 <= base -> base + len <= n ->
  aget packet (base + 4) = Some hi -> aget packet (base + 5) = Some lo -> hi * 256 + lo = len ->
  network_handle_dhcp_offer packet base len st = Ok (tt, st).
Proof.
  intros Hid Hp Hb Hn Ehi Elo Hlen. unfold network_handle_dhcp_offer.
  destruct (Z.ltb_spec len 248); [done|].
  destruct (aget_byte n packet (base + 6) Hp) as (b2 & E2 & H2); [lia|].
  destruct (aget_byte n packet (base + 7) Hp) as (b3 & E3 & H3); [lia|].
  destruct (aget_byte n packet (base + 4) Hp) as (b0 & E0 & H0); [lia|].
  destruct (aget_byte n packet (base + 5) Hp) as (b1 & E1 & H1); [lia|].
  assert (b0 = hi) as -> by congruence. assert (b1 = lo) as -> by congruence.
  assert (E : ip_pack packet (base + 4) = Some (ip_value hi lo b2 b3)).
  { apply ip_pack_value; try done; by rewrite <- Z.add_assoc. }
  rewrite E. unfold mbind, io_bind, lift, gets, id. rewrite Hid.
  destruct (Z.eqb_spec (ip_value hi lo b2 b3) 0x393047) as [Hx|]; [|done].
  exfalso. unfold ip_value, is_byte in *. lia.
Qed.

(** A reply of 300 bytes for the transaction of the driver. *)
Definition dhcp_reply : list Z :=
  [0; 67; 0; 68; 1; 44; 0; 0; 2; 1; 6; 0; 0x00; 0x39; 0x30; 0x47] ++ replicate 284 0.

Lemma dhcp_offer_dropped_witness :
  network_handle_dhcp_offer dhcp_reply 0 300 (net_boot (replicate 6 1) 0 quiet_card)
    = Ok (tt, net_boot (replicate 6 1) 0 quiet_card).
Proof.
  apply (dhcp_offer_dropped _ _ 300 _ _ 1 44); try reflexivity; try lia.
  split; [reflexivity|]. apply Forall_app. split; [|apply Forall_replicate; unfold is_byte; lia].
  repeat apply Forall_cons_2; try apply Forall_nil_2; unfold is_byte; lia.
Defined.

(** Options as data, their encoding and their meaning. *)
Definition encode_option (o : Z * list Z) : list Z := o.1 :: Z.of_nat (length o.2) :: o.2.

Definition option_wf (o : Z * list Z) : Prop :=
  1 <= o.1 <= 254 /\ Z.of_nat (length o.2) < 256 /\ Forall is_byte o.2.

Definition option_address (v : list Z) : Z :=
  match v with b0 :: b1 :: b2 :: b3 :: _ => ip_value b0 b1 b2 b3 | _ => 0 end.

Definition apply_option {D} (st : net_t D) (o : Z * list Z) : net_t D :=
  let n := Z.of_nat (length o.2) in
  if o.1 =? 53 then if bool_decide (head o.2 = Some 2) then set_acquired true st else st
  else if o.1 =? 1 then if n =? 4 then set_netmask (option_address o.2) st else st
  else if o.1 =? 3 then if 4 <=? n then set_gateway (option_address o.2) st else st
  else if o.1 =? 54 then if n =? 4 then set_server (option_address o.2) st else st
  else st.

Lemma aget_app_off {A} (pre l : list A) i k :
  i = Z.of_nat (length pre) + Z.of_nat k -> aget (pre ++ l) i = l !! k.
Proof.
  intros ->. rewrite aget_nonneg by lia. rewrite lookup_app_r by lia. f_equal. lia.
Qed.

Lemma ip_pack_app pre v post i :
  i = Z.of_nat (length pre) -> (4 <= length v)%nat -> Forall is_byte v ->
  ip_pack (pre ++ v ++ post) i = Some (option_address v).
Proof.
  intros Hi Hl Hb. destruct v as [|b0 [|b1 [|b2 [|b3 v]]]]; simpl in Hl; try lia.
  rewrite !Forall_cons in Hb. destruct Hb as (H0 & H1 & H2 & H3 & _).
  apply ip_pack_value; try done; cbn [app].
  - by rewrite (aget_app_off _ _ _ 0) by lia.
  - by rewrite (aget_app_off _ _ _ 1) by lia.
  - by rewrite (aget_app_off _ _ _ 2) by lia.
  - by rewrite (aget_app_off _ _ _ 3) by lia.
Qed.

Lemma dhcp_option_encoded {D} (st : net_t D) pre o post value :
  option_wf o -> value = Z.of_nat (length pre) ->
  dhcp_option (pre ++ o.2 ++ post) o.1 (Z.of_nat (length o.2)) value st = Some (apply_option st o).
Proof.
  intros (Hc & Hl & Hb) Hv. unfold dhcp_option, apply_option, DHCP_OPT_MESSAGE_TYPE, DHCP_OPT_SUBNET_MASK,
    DHCP_OPT_ROUTER, DHCP_OPT_SERVER_ID, parse_ipv4_address.
  destruct (o.1 =? 53).
  - destruct (Z.leb_spec 1 (Z.of_nat (length o.2))).
    + destruct o.2 as [|b v] eqn:E; [simpl in *; lia|]. rewrite (aget_app_off _ _ _ 0) by lia.
      cbn [mbind option_bind app lookup list_lookup head].
      destruct (Z.eqb_spec b 2) as [->|]; [by rewrite bool_decide_eq_true_2|].
      by rewrite bool_decide_eq_false_2 by congruence.
    + destruct o.2; [done|simpl in *; lia].
  - repeat case_cmp; try done; rewrite ip_pack_app by (done || lia); done.
Qed.

Lemma parse_encoded {D} fuel opts pre post base len offset (st : net_t D) :
  Forall option_wf opts -> base + offset = Z.of_nat (length pre) -> 0 <= base -> 0 <= offset ->
  offset + Z.of_nat (length (opts ≫= encode_option)) + 1 <= len -> Z.max 0 (len - offset) < Z.of_nat fuel ->
  parse_options fuel (pre ++ (opts ≫= encode_option) ++ DHCP_OPT_END :: post) base len offset st
    = Ok (foldl apply_option st opts).
Proof.
  intros Hwf. revert fuel pre offset st. induction Hwf as [|o opts Ho Hwf IH];
    intros [|fuel] pre offset st Hpre Hb Hoff Hlen Hfuel; try lia; cbn [parse_options foldl].
  - destruct (offset + 2 <=? len); [|done]. cbn [mbind list_bind app].
    by rewrite (aget_app_off _ _ _ 0) by lia.
  - rewrite bind_cons, length_app in Hlen. rewrite bind_cons. unfold encode_option at 1 in Hlen. simpl in Hlen.
    destruct (Z.leb_spec (offset + 2) len); [|lia]. destruct Ho as (Hc & Hv & Hbytes).
    set (tail := (opts ≫= encode_option) ++ DHCP_OPT_END :: post).
    replace (pre ++ (encode_option o ++ (opts ≫= encode_option)) ++ DHCP_OPT_END :: post)
      with (pre ++ encode_option o ++ tail) by (unfold tail; by rewrite <- !app_assoc).
    rewrite (aget_app_off _ _ _ 0) by lia. cbn [encode_option app lookup list_lookup].
    unfold DHCP_OPT_END at 1. destruct (Z.eqb_spec o.1 255); [lia|]. destruct (Z.eqb_spec o.1 0); [lia|].
    rewrite (aget_app_off _ _ _ 1) by lia. cbn [app lookup list_lookup].
    destruct (Z.ltb_spec len (offset + 2 + Z.of_nat (length o.2))); [lia|].
    set (pre2 := pre ++ [o.1; Z.of_nat (length o.2)]).
    replace (pre ++ o.1 :: Z.of_nat (length o.2) :: o.2 ++ tail) with (pre2 ++ o.2 ++ tail)
      by (unfold pre2; by rewrite <- app_assoc).
    rewrite dhcp_option_encoded by (done || (unfold pre2; rewrite length_app; simpl; lia)).
    rewrite app_assoc. unfold tail.
    rewrite (IH fuel (pre2 ++ o.2)); [done|unfold pre2; rewrite !length_app; simpl; lia|lia|lia|lia|lia].
Qed.

(** C20: the parser reads back what an encoder of DHCP options writes: on the
    encoding of any list of options, closed by the end marker and followed by
    anything, [parse_dhcp_options] has the effect of the options in order:
    an offer is noted, and netmask, gateway and server address are taken
    over. *)
Theorem parse_dhcp_options_decodes {D} opts pre post (st : net_t D) len :
  Forall option_wf opts ->
  Z.of_nat (length (opts ≫= encode_option)) + 1 <= len ->
  parse_dhcp_options (pre ++ (opts ≫= encode_option) ++ DHCP_OPT_END :: post) (Z.of_nat (length pre)) len st
    = Ok (foldl apply_option st opts).
Proof. intros Hwf Hlen. apply parse_encoded; [done|lia..]. Qed.

Lemma parse_dhcp_options_decodes_witness :
  exists st', parse_dhcp_options [9; 53; 1; 2; 1; 4; 255; 255; 255; 0; 3; 4; 10; 0; 2; 2; 255; 0] 1 17
      (net_boot (replicate 6 1) 0 quiet_card) = Ok st' /\
    dhcp_acquired st' = true /\ local_netmask st' = 0xFFFFFF00 /\ local_gateway st' = 0x0A000202.
Proof.
  eexists. split.
  - apply (parse_dhcp_options_decodes [(53, [2]); (1, [255; 255; 255; 0]); (3, [10; 0; 2; 2])] [9] [0]); [|simpl; lia].
    repeat apply Forall_cons_2; try apply Forall_nil_2; unfold option_wf, is_byte; simpl; split_and!;
      repeat apply Forall_cons_2; try apply Forall_nil_2; lia.
  - split_and!; reflexivity.
Defined.

(** *** Sending a frame *)

(** The four stores of a frame, in one piece. *)
Lemma build_frame_eq mac frame dest ethertype payload :
  length mac = 6%nat -> length frame = 2048%nat -> (6 <= length dest)%nat ->
  Z.of_nat (length payload) + 14 <= 2048 ->
  build_frame mac frame dest ethertype payload =
    Some (take 6 dest ++ mac ++ [u8 (Z.shiftr ethertype 8); u8 (Z.land ethertype 0xFF)] ++ payload
          ++ drop (14 + length payload) frame).
Proof.
  intros Hm Hf Hd Hp. unfold build_frame. rewrite load_eq by lia. cbn [mbind option_bind].
  change (slice dest 0 6) with (take 6 dest). assert (Ht : length (take 6 dest) = 6%nat) by (rewrite length_take; lia).
  set (f0 := take 6 frame). set (f1 := take 6 (drop 6 frame)). set (f2 := take 2 (drop 12 frame)).
  set (f3 := take (length payload) (drop 14 frame)). set (f4 := drop (14 + length payload) frame).
  assert (Hsplit : frame = f0 ++ f1 ++ f2 ++ f3 ++ f4).
  { unfold f0, f1, f2, f3, f4. rewrite <- (take_drop 6 frame) at 1. f_equal.
    rewrite <- (take_drop 6 (drop 6 frame)) at 1. rewrite drop_drop. f_equal.
    rewrite <- (take_drop 2 (drop (6 + 6) frame)) at 1. rewrite drop_drop. f_equal.
    rewrite <- (take_drop (length payload) (drop (6 + 6 + 2) frame)) at 1. by rewrite drop_drop. }
  assert (length f0 = 6%nat /\ length f1 = 6%nat /\ length f2 = 2%nat /\ length f3 = length payload) as (H0 & H1 & H2 & H3).
  { unfold f0, f1, f2, f3. rewrite !length_take, !length_drop. lia. }
  set (t := [u8 (Z.shiftr ethertype 8); u8 (Z.land ethertype 0xFF)]). clearbody f0 f1 f2 f3 f4. subst frame.
  pose proof (put_app [] f0 (f1 ++ f2 ++ f3 ++ f4) (take 6 dest) 0 eq_refl ltac:(lia)) as E0. simpl in E0.
  rewrite E0. cbn [mbind option_bind].
  rewrite (put_app (take 6 dest) f1) by lia. cbn [mbind option_bind].
  pose proof (put_app (take 6 dest ++ mac) f2 (f3 ++ f4) t 12 ltac:(rewrite length_app; lia) ltac:(simpl; lia)) as E2.
  rewrite <- !app_assoc in E2. rewrite E2. cbn [mbind option_bind].
  pose proof (put_app (take 6 dest ++ mac ++ t) f3 f4 payload 14 ltac:(rewrite !length_app; simpl; lia) ltac:(lia)) as E3.
  rewrite <- !app_assoc in E3. exact E3.
Qed.

(** On the recording card a poll changes nothing. *)
Lemma for_break_same {S} n (body : io S bool) s :
  (exists b, body s = Ok (b, s)) -> for_break n body s = Ok (tt, s).
Proof.
  intros [b Hb]. induction n as [|n IH]; [done|]. cbn [for_break]. unfold mbind, io_bind. rewrite Hb.
  by destruct b.
Qed.

Lemma io_write32_trace reg v (st : net_t trace_device) :
  io_write32 reg v st =
    Ok (tt, set_card (Trace (answers (card st)) ((4, u16 (io_base st + reg), u32 v) :: writes (card st))) st).
Proof. done. Qed.

Lemma read_poll_trace reg test (st : net_t trace_device) :
  (v ← io_read32 reg; mret (test v : bool)) st = Ok (test (u32 (answers (card st) 4 (u16 (io_base st + reg)))), st).
Proof. by destruct st. Qed.

(** C21: [rtl8139_send_frame] puts the frame (destination, own address, type,
    payload) into the current buffer of the transmit ring, leaves the other
    buffers alone, moves on in the ring, and gives the card the address of
    the buffer and a length.  That length is the length of the payload: the
    fourteen bytes of the header are not counted, so the card sends only the
    first [payload_len] bytes of the frame.  Payloads that do not fit are
    refused without effect. *)
Theorem send_frame_spec tx_addr (st : net_t trace_device) dest ethertype payload :
  net_wf st -> (6 <= length dest)%nat ->
  let i := tx_index st in
  if 2048 <? Z.of_nat (length payload) + 14
  then rtl8139_send_frame tx_addr dest ethertype payload st = Ok (false, st)
  else exists st' frame, rtl8139_send_frame tx_addr dest ethertype payload st = Ok (true, st') /\
    tx_buffers st' = <[Z.to_nat i := frame]> (tx_buffers st) /\
    take (14 + length payload) frame = take 6 dest ++ local_mac st
      ++ [u8 (Z.shiftr ethertype 8); u8 (Z.land ethertype 0xFF)] ++ payload /\
    tx_index st' = (i + 1) mod 4 /\
    writes (card st') =
      (4, u16 (io_base st + (0x10 + i * 4)), Z.of_nat (length payload)) ::
      (4, u16 (io_base st + (0x20 + i * 4)), u32 (virt_to_phys (tx_addr + i * 2048))) :: writes (card st).
Proof.
  intros [Hm _ Ht Hte _ Hi] Hd i. unfold rtl8139_send_frame, TX_BUFFER_SIZE.
  destruct (Z.ltb_spec 2048 (Z.of_nat (length payload) + 14)) as [|Hp]; [done|].
  destruct (aget_in_range (tx_buffers st) i) as [f Ef]; [unfold i; lia|].
  assert (Hf : length f = 2048%nat).
  { apply aget_lookup in Ef. exact (Forall_lookup_1 _ _ _ _ Hte Ef). }
  rewrite bind_gets. unfold id. fold i. rewrite (bind_lift _ _ _ _ Ef).
  rewrite (bind_lift _ _ _ _ (build_frame_eq _ _ _ _ _ Hm Hf Hd Hp)). set (frame := _ ++ _ ++ _ ++ _ ++ _).
  rewrite (bind_lift _ _ _ (<[Z.to_nat i := frame]> (tx_buffers st))) by (apply aset_in_range; unfold i; lia).
  rewrite bind_modify, (bind_ok _ _ _ _ _ (io_write32_trace _ _ _)), (bind_ok _ _ _ _ _ (io_write32_trace _ _ _)),
    bind_modify.
  erewrite bind_ok; [|apply for_break_same; eexists; apply read_poll_trace].
  eexists _, frame. split; [done|]. cbn [tx_buffers tx_index card set_card set_tx writes io_base].
  rewrite (u8_small ((i + 1) mod TX_DESC_COUNT)) by (unfold TX_DESC_COUNT; lia). rewrite !(u32_small (u32 _)) by apply u32_range.
  rewrite (u32_small (Z.of_nat (length payload))) by lia.
  split_and!; [done| |done|done].
  unfold frame. rewrite !app_assoc. rewrite take_app_length'; [done|].
  rewrite !length_app, length_take, Hm. cbn [length]. lia.
Qed.

Lemma send_frame_spec_witness :
  exists st' frame, rtl8139_send_frame 0x300000 (replicate 6 0xFF) ETH_P_ARP (replicate 46 7)
      (net_boot (replicate 6 1) 0 quiet_card) = Ok (true, st') /\
    tx_buffers st' !! 0%nat = Some frame /\ writes (card st') = [(4, 0xC010, 46); (4, 0xC020, 0x300000)].
Proof.
  assert (Hd : (6 <= length (replicate 6 0xFF))%nat) by (simpl; lia).
  destruct (send_frame_spec 0x300000 (net_boot (replicate 6 1) 0 quiet_card) (replicate 6 0xFF) ETH_P_ARP
    (replicate 46 7) (net_boot_wf (replicate 6 1) 0 quiet_card eq_refl) Hd) as (st' & frame & E & Hb & _ & _ & Hw).
  exists st', frame. split; [exact E|]. split; [|exact Hw]. rewrite Hb. reflexivity.
Defined.

(** *** ARP *)

(** Following one byte back through the stores of a packet. *)
Ltac trace_byte :=
  repeat match goal with
  | H : put ?b ?i ?bs = Some ?b' |- context [aget ?b' ?j] =>
    rewrite (aget_put b i bs b' j H) by lia;
    first [ rewrite (proj2 (Z.leb_gt _ _)) by lia; cbn [andb]
          | rewrite (proj2 (Z.leb_le i j)) by lia; cbn [andb];
            first [ rewrite (proj2 (Z.ltb_ge _ _)) by (rewrite ?length_app, ?length_replicate; simpl; lia)
                  | rewrite (proj2 (Z.ltb_lt _ _)) by (rewrite ?length_app, ?length_replicate; simpl; lia) ] ]
  end.

Lemma arp_request_target mac junk ip frame :
  length mac = 6%nat -> length junk = 60%nat -> write_arp_request mac junk ip = Some frame ->
  Z.of_nat (length frame) = 60 /\ aget frame 20 = Some 0 /\ aget frame 21 = Some 1 /\ ip_pack frame 38 = Some 0.
Proof.
  intros Hm Hj E. destruct (arp_request_ok mac junk ip Hm Hj) as (f & E' & Hl).
  assert (f = frame) as -> by congruence. split; [done|]. clear E'. unfold write_arp_request in E.
  apply bind_Some in E as (b1 & E1 & E). apply bind_Some in E as (b2 & E2 & E).
  apply bind_Some in E as (b3 & E3 & E). apply bind_Some in E as (b4 & E4 & E).
  apply bind_Some in E as (b5 & E5 & E). apply bind_Some in E as (b6 & E6 & E).
  split; [by trace_byte|]. split; [by trace_byte|]. unfold ip_pack.
  assert (aget frame 38 = Some 0) as -> by (by trace_byte). assert (aget frame (38 + 1) = Some 0) as -> by (by trace_byte).
  assert (aget frame (38 + 2) = Some 0) as -> by (by trace_byte). assert (aget frame (38 + 3) = Some 0) as -> by (by trace_byte).
  done.
Qed.

Lemma arp_reply_fields {D} (st : net_t D) junk target ip frame m0 m1 m2 m3 m4 m5 :
  net_wf st -> length junk = 60%nat -> target = [m0; m1; m2; m3; m4; m5] ->
  arp_reply_packet st junk target ip = Some frame ->
  Z.of_nat (length frame) = 60 /\ aget frame 20 = Some 0 /\ aget frame 21 = Some 2 /\
  (forall k, 0 <= k < 6 -> aget frame (22 + k) = local_mac st !! Z.to_nat k) /\
  aget frame 28 = Some m0 /\ aget frame 29 = Some m1 /\ aget frame 30 = Some m2 /\ aget frame 31 = Some m3 /\
  exists t, ip_pack frame 38 = Some t.
Proof.
  intros Hwf Hj Ht E. pose proof (wf_mac _ Hwf) as Hm.
  assert (Ht6 : length target = 6%nat) by (by rewrite Ht).
  assert (Hf : Z.of_nat (length frame) = 60).
  { destruct (arp_reply_ok st junk target ip Hwf Hj Ht6) as (p & E' & Hl). congruence. }
  split; [done|]. unfold arp_reply_packet in E.
  apply bind_Some in E as (b1 & E1 & E). apply bind_Some in E as (b2 & E2 & E).
  apply bind_Some in E as (t & Et & E). rewrite load_eq in Et by lia. injection Et as <-.
  replace (slice target 0 6) with target in E by (by rewrite Ht).
  apply bind_Some in E as (b3 & E3 & E). apply bind_Some in E as (b4 & E4 & E). apply bind_Some in E as (b5 & E5 & E).
  split; [by trace_byte|]. split; [by trace_byte|]. split.
  { intros k Hk. trace_byte. f_equal. lia. }
  split; [trace_byte; by rewrite Ht|]. split; [trace_byte; by rewrite Ht|].
  split; [trace_byte; by rewrite Ht|]. split; [trace_byte; by rewrite Ht|]. apply ip_pack_ok; lia.
Qed.

(** Two machines that run this driver cannot resolve each other's
    addresses.  A request carries the wanted address in the field of the
    target's hardware address, so the machine that owns the (nonzero)
    address ignores it.  A reply carries the addresses in the wrong order,
    so its receiver records for the sender's hardware address the first four
    bytes of its own hardware address as the IP address. *)
Theorem arp_exchange_fails {D} `{!Nic D} tx_addr (st_a st_b : net_t D) junk junk' ip m0 m1 m2 m3 m4 m5 :
  net_wf st_a -> length junk = 60%nat -> local_ip st_b = ip -> ip <> 0 ->
  Forall is_byte [m0; m1; m2; m3; m4; m5] ->
  (forall request, write_arp_request (local_mac st_a) junk ip = Some request ->
    network_handle_arp tx_addr junk' request 60 st_b = Ok (tt, st_b)) /\
  (forall reply, arp_reply_packet st_a junk [m0; m1; m2; m3; m4; m5] ip = Some reply ->
    network_handle_arp tx_addr junk' reply 60 st_b
      = Ok (tt, set_arp (local_mac st_a) (ip_value m0 m1 m2 m3) st_b)).
Proof.
  intros Hwf Hj Hip Hne Hb. pose proof (wf_mac _ Hwf) as Hm. split; intros frame E.
  - destruct (arp_request_target _ _ _ _ Hm Hj E) as (Hl & E20 & E21 & Et).
    unfold network_handle_arp. cbn [Z.ltb Z.compare Pos.compare Pos.compare_cont].
    rewrite (bind_lift _ _ _ _ E20), (bind_lift _ _ _ _ E21).
    rewrite (bind_lift (load frame (14 + 8) 6) _ _ (slice frame 22 6)) by (apply load_eq; lia).
    destruct (ip_pack_ok frame (14 + 14)) as [src Es]; [lia|lia|]. rewrite (bind_lift _ _ _ _ Es).
    rewrite (bind_lift _ _ _ _ Et), bind_gets. unfold id. rewrite Hip.
    destruct (Z.eqb_spec 0 ip); [congruence|]. rewrite andb_false_r. done.
  - destruct (arp_reply_fields st_a junk _ ip frame m0 m1 m2 m3 m4 m5 Hwf Hj eq_refl E)
      as (Hl & E20 & E21 & Emac & F0 & F1 & F2 & F3 & t & Et).
    rewrite !Forall_cons in Hb. destruct Hb as (B0 & B1 & B2 & B3 & _).
    unfold network_handle_arp. cbn [Z.ltb Z.compare Pos.compare Pos.compare_cont].
    rewrite (bind_lift _ _ _ _ E20), (bind_lift _ _ _ _ E21).
    assert (Hmac : slice frame 22 6 = local_mac st_a).
    { apply list_eq. intros k. destruct (decide (k < 6)%nat) as [Hk|Hk].
      - unfold slice. rewrite lookup_take_lt, lookup_drop by lia. rewrite <- (Nat2Z.id k) at 2.
        rewrite <- Emac by lia. rewrite aget_nonneg by lia. f_equal. lia.
      - rewrite !(proj2 (lookup_ge_None _ _)); [done|lia|].
        pose proof (slice_length frame 22 6 ltac:(lia) ltac:(lia) ltac:(lia)). lia. }
    rewrite (bind_lift (load frame (14 + 8) 6) _ _ (local_mac st_a)) by (rewrite <- Hmac; apply load_eq; lia).
    rewrite (bind_lift _ _ _ (ip_value m0 m1 m2 m3)) by (by apply ip_pack_value).
    rewrite (bind_lift _ _ _ _ Et), bind_gets. done.
Qed.

Lemma arp_exchange_fails_witness :
  exists request, write_arp_request (replicate 6 1) (replicate 60 0) 0x0A000202 = Some request /\
    network_handle_arp 0x300000 (replicate 60 0) request 60 (net_boot (replicate 6 2) 0x0A000202 quiet_card)
      = Ok (tt, net_boot (replicate 6 2) 0x0A000202 quiet_card).
Proof.
  assert (Hb : Forall is_byte [2; 2; 2; 2; 2; 2]).
  { repeat apply Forall_cons_2; try apply Forall_nil_2; unfold is_byte; lia. }
  assert (Hne : 0x0A000202 <> 0) by lia.
  eexists. split; [vm_compute; reflexivity|].
  apply (arp_exchange_fails 0x300000 (net_boot (replicate 6 1) 0 quiet_card)
    (net_boot (replicate 6 2) 0x0A000202 quiet_card) (replicate 60 0) (replicate 60 0) 0x0A000202 2 2 2 2 2 2
    (net_boot_wf (replicate 6 1) 0 quiet_card eq_refl) eq_refl eq_refl Hne Hb).
  vm_compute. reflexivity.
Defined.
