(* ===== verification/Fat32.v ===== *)
(** * FAT32 file system ([src/fat32.c])

    Volume layout, cluster chains, directory search, and the file operations.
    Sectors come from the interface [BlockDevice], which stands for
    [ahci_read_sector]; memory for the table comes from a parameter, which
    stands for [kmalloc].  Characters are the signed values of [char]. *)

From S2P Require Import Prelude Io.

Definition FAT32_SECTOR_SIZE : Z := 512.
Definition FAT32_CLUSTER_SIZE : Z := 4096.
Definition FAT32_EOC : Z := 0x0FFFFFF8.
Definition FAT32_ATTR_VOLUME_ID : Z := 0x08.
Definition FAT32_ATTR_LFN : Z := 0x0F.
Definition FAT32_MAX_FILES : Z := 32.

(** A sector read succeeds with 512 bytes or fails. *)
Class BlockDevice := {
  ahci_read_sector : Z -> option (list Z);
  sector_wf lba s : ahci_read_sector lba = Some s -> length s = 512%nat /\ Forall is_byte s
}.

(** ** Little-endian fields *)

Definition le16 (l : list Z) (i : Z) : option Z :=
  a ← aget l i;
  b ← aget l (i + 1);
  Some (a + 256 * b).

Definition le32 (l : list Z) (i : Z) : option Z :=
  lo ← le16 l i;
  hi ← le16 l (i + 2);
  Some (lo + 65536 * hi).

(** ** Structures *)

(** The fields of the boot sector that the code uses. *)
Record fat32_bpb_t := Bpb {
  bytes_per_sector : Z;
  bpb_sectors_per_cluster : Z;
  reserved_sectors : Z;
  num_fats : Z;
  fat_size_32 : Z;
  root_cluster : Z
}.

Definition parse_bpb (sector : list Z) : option fat32_bpb_t :=
  bps ← le16 sector 11;
  spc ← aget sector 13;
  res ← le16 sector 14;
  nf ← aget sector 16;
  fs ← le32 sector 36;
  rc ← le32 sector 44;
  Some (Bpb bps spc res nf fs rc).

Record fat32_file_t := File {
  first_cluster : Z;
  file_size : Z;
  current_position : Z;
  open : bool
}.

Record fat_t := Fat {
  bpb : fat32_bpb_t;
  partition_lba : Z;
  fat_offset : Z;
  data_offset : Z;
  sectors_per_cluster : Z;
  root_dir_cluster : Z;
  fat_size_bytes : Z;
  fat_table : option (list Z);
  fat32_files : list fat32_file_t
}.

Definition set_bpb (b : fat32_bpb_t) (st : fat_t) : fat_t :=
  Fat b (partition_lba st) (fat_offset st) (data_offset st) (sectors_per_cluster st) (root_dir_cluster st)
    (fat_size_bytes st) (fat_table st) (fat32_files st).
Definition set_partition (p : Z) (st : fat_t) : fat_t :=
  Fat (bpb st) p (fat_offset st) (data_offset st) (sectors_per_cluster st) (root_dir_cluster st)
    (fat_size_bytes st) (fat_table st) (fat32_files st).
Definition set_layout (fo dof spc rc : Z) (st : fat_t) : fat_t :=
  Fat (bpb st) (partition_lba st) fo dof spc rc (fat_size_bytes st) (fat_table st) (fat32_files st).
Definition set_table (t : option (list Z)) (n : Z) (st : fat_t) : fat_t :=
  Fat (bpb st) (partition_lba st) (fat_offset st) (data_offset st) (sectors_per_cluster st)
    (root_dir_cluster st) n t (fat32_files st).
Definition set_files (l : list fat32_file_t) (st : fat_t) : fat_t :=
  Fat (bpb st) (partition_lba st) (fat_offset st) (data_offset st) (sectors_per_cluster st)
    (root_dir_cluster st) (fat_size_bytes st) (fat_table st) l.

(** ** Names *)

Definition to_upper (c : Z) : Z := if (97 <=? c) && (c <=? 122) then s8 (c - 32) else c.

(** The first [n] characters up to a stop, and what is left of the name. *)
Fixpoint take_part (n : nat) (stop : Z -> bool) (name : list Z) : list Z * list Z :=
  match n, name with
  | S n', c :: name' =>
    if stop c then ([], name)
    else let '(part, rest) := take_part n' stop name' in (to_upper c :: part, rest)
  | _, _ => ([], name)
  end.

Definition pad (n : nat) (l : list Z) : list Z := l ++ replicate (n - length l) 32.

(** [name] is the string without its terminating zero. *)
Definition fat32_normalize_name (name : list Z) : list Z :=
  let '(base, rest) := take_part 8 (fun c => c =? 46) name in
  let rest := match rest with c :: rest' => if c =? 46 then rest' else rest | [] => [] end in
  let '(ext, _) := take_part 3 (fun _ => false) rest in
  pad 8 base ++ pad 3 ext.

(** A directory entry is its 32 bytes: the name in bytes 0 to 10, the
    attributes in byte 11. *)
Definition entry_name (entry : list Z) : list Z := take 11 entry.
Definition entry_attributes (entry : list Z) : Z := nth 11 entry 0.

(** Bytes of the entry against signed characters. *)
Definition fat32_compare_entry_name (entry target : list Z) : bool :=
  bool_decide (entry_name entry = fat32_normalize_name target).

Definition fat32_make_cluster (entry : list Z) : option Z :=
  hi ← le16 entry 20;
  lo ← le16 entry 26;
  Some (Z.lor (u32 (Z.shiftl hi 16)) lo).

(** The characters of a field up to a blank or zero. *)
Fixpoint until_blank (l : list Z) : list Z :=
  match l with
  | [] => []
  | b :: l' => let c := s8 b in if (c =? 32) || (c =? 0) then [] else c :: until_blank l'
  end.

Definition fat32_extract_entry_name (entry : list Z) : list Z :=
  let base := until_blank (slice entry 0 8) in
  let e0 := nth 8 entry 0 in
  if negb (e0 =? 32) && negb (e0 =? 0) then base ++ 46 :: until_blank (slice entry 8 3) else base.

(** ** Clusters *)

Definition fat32_cluster_lba (st : fat_t) (cluster : Z) : Z :=
  u32 (data_offset st + u32 (u32 (cluster - 2) * sectors_per_cluster st)).

Definition fat32_get_fat_entry (st : fat_t) (cluster : Z) : option Z :=
  match fat_table st with
  | None => Some FAT32_EOC
  | Some t => v ← le32 t (u32 (cluster * 4)); Some (Z.land v 0x0FFFFFFF)
  end.

Definition fat32_is_eoc (cluster : Z) : bool := FAT32_EOC <=? cluster.

Definition fat32_follow_cluster_chain (st : fat_t) (cluster : Z) : option Z :=
  next ← fat32_get_fat_entry st cluster;
  Some (if fat32_is_eoc next then 0 else next).

Section volume.
Context `{!BlockDevice}.

(** [count] sectors from [lba + i] on into the buffer, [None] for a store
    outside of it, [Some (b, false)] when the disk fails. *)
Fixpoint read_sectors (n : nat) (lba i : Z) (buffer : list Z) : option (list Z * bool) :=
  match n with
  | O => Some (buffer, true)
  | S n' =>
    match ahci_read_sector (u32 (lba + i)) with
    | None => Some (buffer, false)
    | Some s => buffer ← put buffer (i * FAT32_SECTOR_SIZE) s; read_sectors n' lba (i + 1) buffer
    end
  end.

Definition fat32_read_sectors (lba count : Z) (buffer : list Z) : option (list Z * bool) :=
  read_sectors (Z.to_nat count) lba 0 buffer.

(** ** Directory search *)

(** What the loop over the entries of a cluster ends with. *)
Inductive scan_result := Hit (entry : list Z) | EndMark | Exhausted.

Definition skipped (entry : list Z) : bool :=
  (nth 0 entry 0 =? 0xE5) || (entry_attributes entry =? FAT32_ATTR_LFN)
  || negb (Z.land (entry_attributes entry) FAT32_ATTR_VOLUME_ID =? 0).

(** [n] entries from [offset] on. *)
Fixpoint scan_entries (n : nat) (offset : Z) (buffer filename : list Z) : scan_result :=
  match n with
  | O => Exhausted
  | S n' =>
    let entry := slice buffer offset 32 in
    if nth 0 entry 0 =? 0 then EndMark
    else if skipped entry then scan_entries n' (offset + 32) buffer filename
    else if fat32_compare_entry_name entry filename then Hit entry
    else scan_entries n' (offset + 32) buffer filename
  end.

(** [buffer] is the local array, 4096 bytes; 128 entries fit. *)
Fixpoint find_in_directory (fuel : nat) (st : fat_t) (current : Z) (buffer filename : list Z) :
    outcome (option (list Z)) :=
  match fuel with
  | O => NoFuel
  | S fuel' =>
    if (2 <=? current) && negb (fat32_is_eoc current) then
      match fat32_read_sectors (fat32_cluster_lba st current) (sectors_per_cluster st) buffer with
      | None => Undef
      | Some (_, false) => Ok None
      | Some (buffer, true) =>
        match scan_entries 128 0 buffer filename with
        | Hit entry => Ok (Some entry)
        | EndMark => Ok None
        | Exhausted =>
          match fat32_follow_cluster_chain st current with
          | None => Undef
          | Some next => find_in_directory fuel' st next buffer filename
          end
        end
      end
    else Ok None
  end.

Definition fat32_find_in_directory (fuel : nat) (st : fat_t) (cluster : Z) (junk filename : list Z) :
    outcome (option (list Z)) :=
  find_in_directory fuel st cluster junk filename.

(** ** Mounting *)

Definition fat32_read_boot_sector (base_lba : Z) (junk : list Z) (st : fat_t) : outcome (bool * fat_t) :=
  match fat32_read_sectors base_lba 1 junk with
  | None => Undef
  | Some (_, false) => Ok (false, st)
  | Some (sector, true) =>
    match parse_bpb sector with
    | None => Undef
    | Some b =>
      let ok := negb (negb (bytes_per_sector b =? FAT32_SECTOR_SIZE) || (bpb_sectors_per_cluster b =? 0)
                      || (fat_size_32 b =? 0)) in
      Ok (ok, set_bpb b st)
    end
  end.

(** [kmalloc]: whether it has a block of the size, and its contents. *)
Context (fat32_alloc : Z -> option (list Z)).

Definition fat32_load_fat (st : fat_t) : outcome (bool * fat_t) :=
  let size := u64 (fat_size_32 (bpb st) * FAT32_SECTOR_SIZE) in
  match fat32_alloc size with
  | None => Ok (false, set_table None (fat_size_bytes st) st)
  | Some block =>
    match fat32_read_sectors (fat_offset st) (fat_size_32 (bpb st)) block with
    | None => Undef
    | Some (t, false) => Ok (false, set_table (Some t) (fat_size_bytes st) st)
    | Some (t, true) => Ok (true, set_table (Some t) size st)
    end
  end.

(** The partition scan: entries [i] to [3] of the table in [mbr]. *)
Fixpoint scan_partitions (n : nat) (i : Z) (mbr junk : list Z) (st : fat_t) : outcome fat_t :=
  match n with
  | O => Ok st
  | S n' =>
    let entry := 0x1BE + i * 16 in
    match aget mbr (entry + 4), le32 mbr (entry + 8) with
    | Some type, Some start =>
      if (type =? 0x0B) || (type =? 0x0C) then
        match fat32_read_boot_sector start junk st with
        | Ok (true, st') => Ok (set_partition start st')
        | Ok (false, st') => scan_partitions n' (i + 1) mbr junk st'
        | Undef => Undef
        | NoFuel => NoFuel
        end
      else scan_partitions n' (i + 1) mbr junk st
    | _, _ => Undef
    end
  end.

Definition close_file (f : fat32_file_t) : fat32_file_t :=
  File (first_cluster f) (file_size f) (current_position f) false.

(** The end of [fat32_initialize], once the boot sector has been looked for. *)
Definition mount (st : fat_t) : outcome fat_t :=
  let b := bpb st in
  if negb (bytes_per_sector b =? FAT32_SECTOR_SIZE) || (fat_size_32 b =? 0) then Ok st
  else
    let fo := u32 (partition_lba st + reserved_sectors b) in
    let dof := u32 (fo + u32 (num_fats b * fat_size_32 b)) in
    let st := set_layout fo dof (bpb_sectors_per_cluster b) (root_cluster b) st in
    match fat32_load_fat st with
    | Ok (false, st') => Ok st'
    | Ok (true, st') =>
      (* the message divides by the cluster size *)
      if sectors_per_cluster st' =? 0 then Undef else Ok st'
    | Undef => Undef
    | NoFuel => NoFuel
    end.

Definition fat32_initialize (junk : list Z) (st : fat_t) : outcome fat_t :=
  let st := set_partition 0 (set_files (close_file <$> fat32_files st) st) in
  match fat32_read_boot_sector 0 junk st with
  | Undef => Undef
  | NoFuel => NoFuel
  | Ok (true, st) => mount st
  | Ok (false, st) =>
    match fat32_read_sectors 0 1 junk with
    | None => Undef
    | Some (_, false) => Ok st
    | Some (mbr, true) =>
      match scan_partitions 4 0 mbr junk st with
      | Ok st => mount st
      | Undef => Undef
      | NoFuel => NoFuel
      end
    end
  end.

(** ** Files *)

Definition is_free (f : fat32_file_t) : bool := negb (open f).

Definition fat32_open (fuel : nat) (filename : option (list Z)) (junk : list Z) (st : fat_t) :
    outcome (Z * fat_t) :=
  match filename with
  | None => Ok (-1, st)
  | Some filename =>
    match first_index is_free (fat32_files st) with
    | None => Ok (-1, st)
    | Some i =>
      match fat32_find_in_directory fuel st (root_dir_cluster st) junk filename with
      | Undef => Undef
      | NoFuel => NoFuel
      | Ok None => Ok (-1, st)
      | Ok (Some entry) =>
        match fat32_make_cluster entry, le32 entry 28 with
        | Some c, Some size =>
          Ok (Z.of_nat i, set_files (<[i := File c size 0 true]> (fat32_files st)) st)
        | _, _ => Undef
        end
      end
    end
  end.

(** [for (i = 0; i < skip_clusters && !fat32_is_eoc(cluster); i++)]. *)
Fixpoint skip_clusters (n : nat) (st : fat_t) (cluster : Z) : option Z :=
  match n with
  | O => Some cluster
  | S n' =>
    if fat32_is_eoc cluster then Some cluster
    else c ← fat32_follow_cluster_chain st cluster; skip_clusters n' st c
  end.

(** The copying loop: what it has read so far is [done_bytes]; the results
    are the return value, the bytes stored in the buffer and the number by
    which the position of the file has moved. *)
Fixpoint read_loop (fuel : nat) (st : fat_t) (junk : list Z) (cluster offset count : Z) (done_bytes : list Z) :
    outcome (Z * list Z * Z) :=
  let cluster_size := u32 (sectors_per_cluster st * FAT32_SECTOR_SIZE) in
  match fuel with
  | O => NoFuel
  | S fuel' =>
    if (0 <? count) && (2 <=? cluster) && negb (fat32_is_eoc cluster) then
      match fat32_read_sectors (fat32_cluster_lba st cluster) (sectors_per_cluster st) junk with
      | None => Undef
      | Some (_, false) => Ok (-1, done_bytes, Z.of_nat (length done_bytes))
      | Some (buf, true) =>
        let cluster_offset := offset mod cluster_size in
        let read_bytes := Z.min (cluster_size - cluster_offset) count in
        match load buf cluster_offset read_bytes with
        | None => Undef
        | Some bytes =>
          let offset' := u32 (offset + read_bytes) in
          let next := if offset' mod cluster_size =? 0 then fat32_follow_cluster_chain st cluster
                      else Some cluster in
          match next with
          | None => Undef
          | Some cluster' => read_loop fuel' st buf cluster' offset' (count - read_bytes) (done_bytes ++ bytes)
          end
        end
      end
    else Ok (s32 (Z.of_nat (length done_bytes)), done_bytes, Z.of_nat (length done_bytes))
  end.

(** [buffer] is NULL or an array of at least [size] bytes; the result is the
    return value and the bytes stored at its start. *)
Definition fat32_read (fd : Z) (buffer : bool) (size : Z) (junk : list Z) (st : fat_t) :
    outcome (Z * list Z * fat_t) :=
  if (fd <? 0) || (FAT32_MAX_FILES <=? fd) then Ok (-1, [], st)
  else
    match fat32_files st !! Z.to_nat fd with
    | None => Undef
    | Some file =>
      if negb (open file) || negb buffer then Ok (-1, [], st)
      else if file_size file <=? current_position file then Ok (0, [], st)
      else
        let remaining := file_size file - current_position file in
        let count := if remaining <? size then remaining else size in
        let offset := current_position file in
        let cluster_size := u32 (sectors_per_cluster st * FAT32_SECTOR_SIZE) in
        if cluster_size =? 0 then Undef
        else
          match skip_clusters (Z.to_nat (offset / cluster_size)) st (first_cluster file) with
          | None => Undef
          | Some cluster =>
            match read_loop (S (Z.to_nat count)) st junk cluster offset count [] with
            | Ok (r, bytes, moved) =>
              let file' := File (first_cluster file) (file_size file) (u32 (current_position file + moved)) true in
              Ok (r, bytes, set_files (<[Z.to_nat fd := file']> (fat32_files st)) st)
            | Undef => Undef
            | NoFuel => NoFuel
            end
          end
    end.

(** Writing is not implemented: the size is returned and nothing happens. *)
Definition fat32_write (fd size : Z) (st : fat_t) : option Z :=
  if (fd <? 0) || (FAT32_MAX_FILES <=? fd) then Some (-1)
  else
    file ← fat32_files st !! Z.to_nat fd;
    Some (if negb (open file) then -1 else s32 size).

Definition fat32_close (fd : Z) (st : fat_t) : option fat_t :=
  if (0 <=? fd) && (fd <? FAT32_MAX_FILES) then
    file ← fat32_files st !! Z.to_nat fd;
    Some (set_files (<[Z.to_nat fd := close_file file]> (fat32_files st)) st)
  else Some st.

(** ** Listing *)

(** The calls of the callback on the entries of a cluster; [true] when the
    end mark was met. *)
Fixpoint list_entries (n : nat) (offset : Z) (buffer : list Z) : list (list Z * Z) * bool :=
  match n with
  | O => ([], false)
  | S n' =>
    let entry := slice buffer offset 32 in
    if nth 0 entry 0 =? 0 then ([], true)
    else
      let '(rest, ended) := list_entries n' (offset + 32) buffer in
      if skipped entry then (rest, ended)
      else ((fat32_extract_entry_name entry, default 0 (le32 entry 28)) :: rest, ended)
  end.

(** The calls of the callback, and the return value. *)
Fixpoint enumerate (fuel : nat) (st : fat_t) (current : Z) (buffer : list Z) :
    outcome (list (list Z * Z) * bool) :=
  match fuel with
  | O => NoFuel
  | S fuel' =>
    if (2 <=? current) && negb (fat32_is_eoc current) then
      match fat32_read_sectors (fat32_cluster_lba st current) (sectors_per_cluster st) buffer with
      | None => Undef
      | Some (_, false) => Ok ([], false)
      | Some (buffer, true) =>
        let '(calls, ended) := list_entries 128 0 buffer in
        if ended : bool then Ok (calls, true)
        else
          match fat32_follow_cluster_chain st current with
          | None => Undef
          | Some next =>
            match enumerate fuel' st next buffer with
            | Ok (calls', r) => Ok (calls ++ calls', r)
            | Undef => Undef
            | NoFuel => NoFuel
            end
          end
      end
    else Ok ([], true)
  end.

Definition fat32_enumerate_root (fuel : nat) (callback : bool) (junk : list Z) (st : fat_t) :
    outcome (list (list Z * Z) * bool) :=
  if negb callback || (root_dir_cluster st <? 2) then Ok ([], false)
  else enumerate fuel st (root_dir_cluster st) junk.
End volume.

(** ** Lists in pieces *)

Lemma slice_split (l : list Z) o a b :
  0 <= o -> 0 <= a -> 0 <= b -> slice l o (a + b) = slice l o a ++ slice l (o + a) b.
Proof.
  intros Ho Ha Hb. unfold slice. replace (Z.to_nat (a + b)) with (Z.to_nat a + Z.to_nat b)%nat by lia.
  replace (Z.to_nat (o + a)) with (Z.to_nat o + Z.to_nat a)%nat by lia.
  rewrite <- drop_drop. generalize (drop (Z.to_nat o) l). intros l'. generalize (Z.to_nat a), (Z.to_nat b).
  intros n m. rewrite <- (take_drop n l') at 1. destruct (decide (n <= length l')%nat).
  - rewrite take_app_ge by (rewrite length_take; lia). f_equal. f_equal. rewrite length_take. lia.
  - rewrite (take_ge l' n) by lia. rewrite (drop_ge l' n) by lia. rewrite app_nil_r, take_nil, app_nil_r.
    apply take_ge. lia.
Qed.

Lemma slice_app_l (l l' : list Z) o n :
  0 <= o -> 0 <= n -> o + n <= Z.of_nat (length l) -> slice (l ++ l') o n = slice l o n.
Proof.
  intros Ho Hn Hl. unfold slice. rewrite drop_app_le by lia. rewrite take_app_le; [done|].
  rewrite length_drop. lia.
Qed.

Lemma slice_app_r (l l' : list Z) o n :
  Z.of_nat (length l) <= o -> slice (l ++ l') o n = slice l' (o - Z.of_nat (length l)) n.
Proof.
  intros Ho. unfold slice. rewrite drop_app_ge by lia. do 2 f_equal. lia.
Qed.

(** A piece of a concatenation of blocks of equal length. *)
Lemma slice_concat (ds : list (list Z)) csz k d o n :
  0 < csz -> Forall (fun d => Z.of_nat (length d) = csz) ds -> ds !! k = Some d ->
  0 <= o -> 0 <= n -> o + n <= csz ->
  slice (mjoin ds) (Z.of_nat k * csz + o) n = slice d o n.
Proof.
  intros Hc Hall. revert k. induction Hall as [|d0 ds Hd Hall IH]; intros k Hk Ho Hn Hon; [done|].
  destruct k as [|k]; simpl in Hk.
  - injection Hk as ->. rewrite Z.mul_0_l, Z.add_0_l. simpl. apply slice_app_l; lia.
  - simpl. rewrite slice_app_r by lia. rewrite <- (IH k) by done. f_equal. lia.
Qed.

Lemma div_mod_at c q x : 0 < c -> 0 <= x < c -> (c * q + x) / c = q /\ (c * q + x) mod c = x.
Proof.
  intros Hc Hx. split.
  - symmetry. by apply (Z.div_unique_pos _ _ _ x).
  - symmetry. by apply (Z.mod_unique_pos _ _ q).
Qed.

Section reading.
Context `{!BlockDevice}.

(** The contents of a cluster on the disk: the clusters are numbered from two
    and follow each other from the data area on. *)
Definition read_cluster (st : fat_t) (c : Z) : option (list Z) :=
  mjoin <$> mapM (fun i => ahci_read_sector (u32 (data_offset st + (c - 2) * sectors_per_cluster st + i)))
    (seqZ 0 (sectors_per_cluster st)).

(** The entry of the table for a cluster is the low 28 bits of the four bytes
    at its number times four; one from [FAT32_EOC] on ends the chain, as does
    a missing table. *)
Definition table_link (st : fat_t) (c next : Z) : Prop :=
  match fat_table st with
  | None => next = 0
  | Some t =>
    let byte i := nth (Z.to_nat (4 * c + i)) t 0 in
    let v := (byte 0 + 256 * byte 1 + 65536 * byte 2 + 16777216 * byte 3) mod 268435456 in
    4 * c + 4 <= Z.of_nat (length t) /\ next = if v <? FAT32_EOC then v else 0
  end.

(** Following the table from the first of [cs] visits [cs] and ends. *)
Fixpoint chain_of (st : fat_t) (cs : list Z) : Prop :=
  match cs with
  | [] => True
  | c :: cs' => 2 <= c < FAT32_EOC /\ table_link st c (nth 0 cs' 0) /\ chain_of st cs'
  end.

Lemma cluster_lba_eq st c i :
  u32 (fat32_cluster_lba st c + i) = u32 (data_offset st + (c - 2) * sectors_per_cluster st + i).
Proof using Type.
  unfold fat32_cluster_lba, u32, wrap. rewrite Zmult_mod_idemp_l. change (2 ^ 32) with 4294967296.
  set (p := (c - 2) * sectors_per_cluster st). clearbody p. lia.
Qed.

Lemma byte_at (l : list Z) i : 0 <= i < Z.of_nat (length l) -> aget l i = Some (nth (Z.to_nat i) l 0).
Proof using Type.
  intros Hi. rewrite aget_nonneg by lia. destruct (lookup_lt_is_Some_2 l (Z.to_nat i)) as [x Hx]; [lia|].
  by rewrite Hx, (nth_lookup_Some _ _ _ _ Hx).
Qed.

Lemma le16_bytes l i : 0 <= i -> i + 2 <= Z.of_nat (length l) ->
  le16 l i = Some (nth (Z.to_nat i) l 0 + 256 * nth (Z.to_nat (i + 1)) l 0).
Proof using Type. intros Hi Hl. unfold le16. by rewrite !byte_at by lia. Qed.

Lemma le32_bytes l i : 0 <= i -> i + 4 <= Z.of_nat (length l) ->
  le32 l i = Some (nth (Z.to_nat i) l 0 + 256 * nth (Z.to_nat (i + 1)) l 0 +
    65536 * nth (Z.to_nat (i + 2)) l 0 + 16777216 * nth (Z.to_nat (i + 3)) l 0).
Proof using Type.
  intros Hi Hl. unfold le32. rewrite !le16_bytes by lia. simpl.
  replace (i + 2 + 1) with (i + 3) by lia. f_equal. lia.
Qed.

Lemma link_follow st c next :
  0 <= c < FAT32_EOC -> table_link st c next -> fat32_follow_cluster_chain st c = Some next.
Proof using Type.
  unfold table_link, fat32_follow_cluster_chain, fat32_get_fat_entry, FAT32_EOC. intros Hc.
  destruct (fat_table st) as [t|]; [|by intros ->]. intros [Hl ->]. rewrite u32_small by lia.
  rewrite le32_bytes by lia. replace (c * 4) with (4 * c) by lia. cbn [mbind option_bind].
  change 0x0FFFFFFF with (Z.ones 28). rewrite Z.land_ones by lia. change (2 ^ 28) with 268435456.
  rewrite Z.add_0_r. unfold fat32_is_eoc, FAT32_EOC. set (v := _ mod 268435456). clearbody v.
  repeat case_cmp; done || lia.
Qed.

Lemma read_sectors_ok lba n i buf ss :
  0 <= i -> (i + Z.of_nat n) * 512 <= Z.of_nat (length buf) ->
  mapM (fun i => ahci_read_sector (u32 (lba + i))) (seqZ i (Z.of_nat n)) = Some ss ->
  read_sectors n lba i buf =
    Some (take (Z.to_nat (i * 512)) buf ++ mjoin ss ++ drop (Z.to_nat ((i + Z.of_nat n) * 512)) buf, true) /\
  Z.of_nat (length (mjoin ss)) = Z.of_nat n * 512.
Proof.
  revert i buf ss. induction n as [|n IH]; intros i buf ss Hi Hl.
  - rewrite seqZ_nil by lia. intros [= <-]. simpl. rewrite Z.add_0_r, take_drop. done.
  - rewrite seqZ_cons by lia. replace (Z.pred (Z.of_nat (S n))) with (Z.of_nat n) by lia.
    simpl. destruct (ahci_read_sector (u32 (lba + i))) as [s|] eqn:Es; [|done]. simpl.
    destruct (mapM _ (seqZ (Z.succ i) (Z.of_nat n))) as [ss'|] eqn:Ess; [|done]. simpl. intros [= <-].
    destruct (sector_wf _ _ Es) as [Hs _]. unfold FAT32_SECTOR_SIZE.
    rewrite put_eq by lia. cbn [mbind option_bind].
    set (buf1 := take _ buf ++ _). assert (Hl1 : Z.of_nat (length buf1) = Z.of_nat (length buf)).
    { unfold buf1. rewrite !length_app, length_take, length_drop. lia. }
    replace (Z.succ i) with (i + 1) in Ess by lia.
    destruct (IH (i + 1) buf1 ss') as [E Hlen]; [lia|lia|done|]. rewrite E. simpl.
    split; [|rewrite length_app, Hs; lia]. f_equal. f_equal.
    assert (Ht : take (Z.to_nat ((i + 1) * 512)) buf1 = take (Z.to_nat (i * 512)) buf ++ s).
    { unfold buf1. rewrite app_assoc. rewrite take_app_length'; [done|].
      rewrite length_app, length_take. lia. }
    assert (Hd : drop (Z.to_nat ((i + 1 + Z.of_nat n) * 512)) buf1 = drop (Z.to_nat ((i + Z.of_nat (S n)) * 512)) buf).
    { unfold buf1. rewrite app_assoc, drop_app_ge by (rewrite length_app, length_take; lia).
      rewrite drop_drop. f_equal. rewrite length_app, length_take. lia. }
    rewrite Ht, Hd. by rewrite <- !app_assoc.
Qed.

Lemma read_cluster_ok st c buf d :
  0 <= sectors_per_cluster st -> sectors_per_cluster st * 512 <= Z.of_nat (length buf) ->
  read_cluster st c = Some d ->
  exists rest, fat32_read_sectors (fat32_cluster_lba st c) (sectors_per_cluster st) buf = Some (d ++ rest, true) /\
    Z.of_nat (length d) = sectors_per_cluster st * 512 /\ (length (d ++ rest) = length buf)%nat.
Proof.
  intros H0 Hl Hd. unfold read_cluster in Hd. apply fmap_Some in Hd as (ss & Hss & ->).
  unfold fat32_read_sectors. destruct (read_sectors_ok (fat32_cluster_lba st c) (Z.to_nat (sectors_per_cluster st)) 0 buf ss)
    as [E Hlen]; [lia|lia| |].
  { rewrite Z2Nat.id by lia. rewrite <- Hss. apply mapM_ext. intros i. by rewrite cluster_lba_eq. }
  rewrite E. simpl. eexists. split; [done|]. split; [lia|]. rewrite length_app, length_drop. lia.
Qed.

Lemma chain_lookup st cs k c :
  chain_of st cs -> cs !! k = Some c ->
  2 <= c < FAT32_EOC /\ fat32_follow_cluster_chain st c = Some (nth (S k) cs 0).
Proof.
  revert k. induction cs as [|c0 cs IH]; intros k; [done|]. intros (Hc & Hf & Hcs).
  destruct k as [|k]; simpl.
  - intros [= <-]. split; [done|]. apply link_follow; [lia|done].
  - intros Hk. destruct (IH k Hcs Hk) as [H1 H2]. done.
Qed.

Lemma skip_clusters_ok st cs k :
  chain_of st cs -> (k <= length cs)%nat -> forall j, (j + k <= length cs)%nat ->
  skip_clusters k st (nth j cs 0) = Some (nth (j + k) cs 0).
Proof.
  intros Hch _. induction k as [|k IH]; intros j Hj; simpl.
  - by rewrite Nat.add_0_r.
  - destruct (lookup_lt_is_Some_2 cs j) as [c Hc]; [lia|]. rewrite (nth_lookup_Some cs j 0 c Hc).
    destruct (chain_lookup st cs j c Hch Hc) as [Hr Hf]. unfold fat32_is_eoc.
    destruct (Z.leb_spec FAT32_EOC c); [lia|]. rewrite Hf. cbn [mbind option_bind].
    rewrite IH by lia. by replace (S j + k)%nat with (j + S k)%nat by lia.
Qed.

Section file.
Context (st : fat_t) (cs : list Z) (ds : list (list Z)).
Context (Hspc : 1 <= sectors_per_cluster st <= 8).
Context (Hchain : chain_of st cs) (Hdata : mapM (read_cluster st) cs = Some ds).
Let csz : Z := sectors_per_cluster st * 512.

Lemma data_at k c : cs !! k = Some c -> exists d, ds !! k = Some d /\ read_cluster st c = Some d.
Proof using Hdata.
  intros Hk. apply mapM_Some in Hdata.
  destruct (Forall2_lookup_l _ _ _ _ _ Hdata Hk) as (d & Hd & Hr). eauto.
Qed.

Lemma data_lengths : Forall (fun d => Z.of_nat (length d) = csz) ds.
Proof using Hdata Hspc.
  apply mapM_Some in Hdata. apply Forall_lookup_2. intros k d Hk.
  destruct (Forall2_lookup_r _ _ _ _ _ Hdata Hk) as (c & _ & Hr).
  destruct (read_cluster_ok st c (replicate (Z.to_nat 4096) 0) d) as (rest & _ & Hl & _); try done;
    rewrite ?length_replicate; lia.
Qed.

(** One round of the loop, at [offset] inside the chain. *)
Lemma read_round fuel junk offset count bs :
  Z.of_nat (length junk) = 4096 -> 0 <= offset -> 0 < count ->
  offset + count <= Z.of_nat (length cs) * csz -> offset + count < 4294967296 ->
  let n := Z.min (csz - offset mod csz) count in
  exists junk', Z.of_nat (length junk') = 4096 /\ 0 < n <= count /\
    read_loop (S fuel) st junk (nth (Z.to_nat (offset / csz)) cs 0) offset count bs =
    read_loop fuel st junk' (nth (Z.to_nat ((offset + n) / csz)) cs 0) (offset + n) (count - n)
      (bs ++ slice (mjoin ds) offset n).
Proof using Hspc Hchain Hdata.
  intros Hj Ho Hc Hin Hmax n.
  assert (Hcsz : csz = sectors_per_cluster st * 512) by done. pose proof data_lengths as Hlens. clearbody csz.
  assert (Hmod : 0 <= offset mod csz < csz) by (apply Z.mod_pos_bound; lia).
  pose proof (Z.div_mod offset csz ltac:(lia)) as Hdm.
  pose proof (Z.div_pos offset csz ltac:(lia) ltac:(lia)) as Hq0.
  set (q := offset / csz) in *. set (r := offset mod csz) in *. set (k := Z.to_nat q).
  assert (Hk : offset = Z.of_nat k * csz + r) by (unfold k; rewrite Z2Nat.id; lia).
  assert (Hklt : (k < length cs)%nat) by (unfold k; clearbody q r; nia).
  destruct (lookup_lt_is_Some_2 cs k Hklt) as [c Hck]. destruct (data_at k c Hck) as (d & Hd & Hr).
  destruct (chain_lookup st cs k c Hchain Hck) as [Hrange Hfollow].
  destruct (read_cluster_ok st c junk d) as (rest & Er & Hld & Hlen); [lia|lia|done|].
  assert (Hn : 0 < n <= count) by (unfold n; lia).
  exists (d ++ rest). split; [lia|]. split; [done|].
  rewrite (nth_lookup_Some cs k 0 c Hck). cbn [read_loop].
  destruct (Z.ltb_spec 0 count); [|lia]. destruct (Z.leb_spec 2 c); [|lia]. unfold fat32_is_eoc at 1.
  destruct (Z.leb_spec FAT32_EOC c); [lia|]. cbn [andb negb]. rewrite Er.
  change (sectors_per_cluster st * FAT32_SECTOR_SIZE) with (sectors_per_cluster st * 512). rewrite <- Hcsz.
  rewrite (u32_small csz) by lia. change (offset mod csz) with r. fold n.
  rewrite load_eq by (rewrite ?length_app; unfold n in *; lia).
  rewrite slice_app_l by (unfold n in *; lia). rewrite (u32_small (offset + n)) by lia.
  rewrite <- (slice_concat ds csz k d r n); [|lia|done|done|lia|lia|unfold n; lia].
  rewrite <- Hk. destruct (Z.eq_dec (r + n) csz) as [Hend|Hinside].
  - destruct (div_mod_at csz (q + 1) 0) as [Hd1 Hm1]; [lia|lia|].
    replace (csz * (q + 1) + 0) with (offset + n) in Hd1, Hm1 by lia. rewrite Hm1, Hd1. cbn [Z.eqb].
    rewrite Hfollow. by replace (Z.to_nat (q + 1)) with (S k) by (unfold k; lia).
  - destruct (div_mod_at csz q (r + n)) as [Hd1 Hm1]; [lia|unfold n in *; lia|].
    replace (csz * q + (r + n)) with (offset + n) in Hd1, Hm1 by lia. rewrite Hm1, Hd1.
    destruct (Z.eqb_spec (r + n) 0); [lia|]. fold k. by rewrite (nth_lookup_Some cs k 0 c Hck).
Qed.

Lemma read_loop_ok fuel junk offset count bs :
  Z.of_nat (length junk) = 4096 -> 0 <= offset -> 0 <= count ->
  offset + count <= Z.of_nat (length cs) * csz -> offset + count < 4294967296 -> count < Z.of_nat fuel ->
  read_loop fuel st junk (nth (Z.to_nat (offset / csz)) cs 0) offset count bs =
    Ok (s32 (Z.of_nat (length (bs ++ slice (mjoin ds) offset count))), bs ++ slice (mjoin ds) offset count,
        Z.of_nat (length (bs ++ slice (mjoin ds) offset count))).
Proof using Hspc Hchain Hdata.
  revert junk offset count bs. induction fuel as [|fuel IH]; intros junk offset count bs Hj Ho Hc Hin Hmax Hf; [lia|].
  destruct (Z.eq_dec count 0) as [->|Hne].
  - cbn [read_loop]. destruct (Z.ltb_spec 0 0); [lia|]. cbn [andb]. by rewrite app_nil_r.
  - destruct (read_round fuel junk offset count bs) as (junk' & Hj' & Hn & ->); [done|done|lia|done|done|].
    set (n := Z.min (csz - offset mod csz) count) in *.
    rewrite IH by lia. rewrite <- app_assoc.
    replace (slice (mjoin ds) offset n ++ slice (mjoin ds) (offset + n) (count - n))
      with (slice (mjoin ds) offset count); [done|].
    rewrite <- slice_split by lia. f_equal. lia.
Qed.
End file.
End reading.

(** ** Theorems *)

(** C22: [fat32_read] of an open file returns the bytes of the file.  For a
    file whose cluster chain is in the table, on a disk that reads the
    clusters, with clusters of at most eight sectors, a read of [size] bytes
    at position [pos] stores the bytes [pos] to [pos + n] of the concatenated
    clusters, where [n] is [size] or what is left of the file, returns [n]
    and moves the position by [n]; at the end of the file it returns 0.  The
    loop over the clusters always ends. *)
Theorem fat32_read_spec `{!BlockDevice} st cs ds fd file size junk :
  1 <= sectors_per_cluster st <= 8 -> chain_of st cs -> mapM (read_cluster st) cs = Some ds ->
  0 <= fd < 32 -> fat32_files st !! Z.to_nat fd = Some file -> open file = true ->
  first_cluster file = nth 0 cs 0 ->
  0 <= current_position file <= file_size file ->
  file_size file <= Z.of_nat (length cs) * (sectors_per_cluster st * 512) -> file_size file < 4294967296 ->
  0 <= size < 2147483648 -> Z.of_nat (length junk) = 4096 ->
  let pos := current_position file in
  let n := Z.min size (file_size file - pos) in
  fat32_read fd true size junk st =
    Ok (n, slice (mjoin ds) pos n,
        set_files (<[Z.to_nat fd := File (first_cluster file) (file_size file) (pos + n) true]> (fat32_files st)) st).
Proof.
  intros Hspc Hchain Hdata Hfd Hfile Hopen Hfirst Hpos Hsize Hmax Hreq Hjunk pos n.
  unfold fat32_read, FAT32_MAX_FILES, FAT32_SECTOR_SIZE.
  destruct (Z.ltb_spec fd 0); [lia|]. destruct (Z.leb_spec 32 fd); [lia|]. cbn [orb].
  rewrite Hfile, Hopen. cbn [negb orb]. fold pos.
  destruct (Z.leb_spec (file_size file) pos) as [Hend|Hbefore].
  - assert (n = 0) as -> by lia. rewrite Z.add_0_r. f_equal. f_equal.
    rewrite list_insert_id; [by destruct st|]. rewrite Hfile. f_equal. unfold pos. rewrite <- Hopen. by destruct file.
  - rewrite (u32_small (sectors_per_cluster st * 512)) by lia.
    destruct (Z.eqb_spec (sectors_per_cluster st * 512) 0); [lia|].
    set (csz := sectors_per_cluster st * 512) in *.
    assert (Hq : 0 <= pos / csz) by (apply Z.div_pos; lia).
    assert (Hk : (Z.to_nat (pos / csz) <= length cs)%nat).
    { assert (pos / csz < Z.of_nat (length cs)) by (apply Z.div_lt_upper_bound; lia). lia. }
    rewrite Hfirst, (skip_clusters_ok st cs _ Hchain Hk 0) by lia. rewrite Nat.add_0_l.
    replace (if file_size file - pos <? size then file_size file - pos else size) with n
      by (unfold n; case_cmp; lia).
    assert (Hn : Z.of_nat (length (slice (mjoin ds) pos n)) = n).
    { apply slice_length; [lia|lia|]. pose proof (data_lengths st cs ds Hspc Hdata) as Hl.
      assert (Hj : Z.of_nat (length (mjoin ds)) = Z.of_nat (length ds) * csz).
      { clear - Hl. induction Hl as [|d ds Hd _ IH]; [done|]. simpl. rewrite length_app. unfold csz in *. lia. }
      assert (length cs = length ds) as Hlen by (eapply Forall2_length, mapM_Some, Hdata). lia. }
    unfold csz. rewrite (read_loop_ok st cs ds Hspc Hchain Hdata) by (unfold csz in *; lia).
    rewrite app_nil_l, Hn. rewrite u32_small by lia. f_equal. f_equal. f_equal.
    unfold s32, swrap, wrap. change (2 ^ 32) with 4294967296. change (2 ^ (32 - 1)) with 2147483648.
    rewrite Z.mod_small by lia. case_cmp; lia.
Qed.

(** A disk whose sectors are filled with their number, and a file of 700
    bytes in the clusters 2 and 3 of one sector each. *)
Definition pattern_disk : BlockDevice.
Proof.
  refine {| ahci_read_sector lba := Some (replicate 512 (lba mod 256)) |}.
  intros lba s E. apply Some_inj in E. subst s. split; [apply length_replicate|].
  apply Forall_replicate. unfold is_byte. lia.
Defined.

Definition sample_table : list Z :=
  [0xF8; 0xFF; 0xFF; 0x0F; 0xFF; 0xFF; 0xFF; 0x0F; 3; 0; 0; 0; 0xFF; 0xFF; 0xFF; 0x0F].

Definition sample_fat : fat_t :=
  Fat (Bpb 512 1 1 1 1 2) 0 1 100 1 2 512 (Some sample_table) (replicate 32 (File 2 700 500 true)).

Lemma fat32_read_spec_witness :
  exists st', fat32_read (H := pattern_disk) 3 true 100 (replicate (Z.to_nat 4096) 0) sample_fat
    = Ok (100, replicate 12 100 ++ replicate 88 101, st').
Proof.
  assert (Hchain : chain_of sample_fat [2; 3]) by (vm_compute; repeat split; discriminate || reflexivity).
  assert (Hdata : mapM (@read_cluster pattern_disk sample_fat) [2; 3] = Some [replicate 512 100; replicate 512 101])
    by (vm_compute; reflexivity).
  assert (Hj : Z.of_nat (length (replicate (Z.to_nat 4096) 0)) = 4096) by (rewrite length_replicate; lia).
  eexists. etransitivity.
  - apply (@fat32_read_spec pattern_disk sample_fat [2; 3] _ 3 (File 2 700 500 true) 100 _ ltac:(simpl; lia)
      Hchain Hdata ltac:(lia) eq_refl eq_refl eq_refl ltac:(simpl; lia) ltac:(simpl; lia) ltac:(simpl; lia)
      ltac:(lia) Hj).
  - vm_compute. reflexivity.
Defined.

(** ** Directories *)

(** The 32-byte entries of a cluster of 4096 bytes. *)
Definition entries_of (d : list Z) : list (list Z) := (fun i => slice d (32 * i) 32) <$> seqZ 0 128.

(** An entry that takes part in the search: not deleted, not a part of a long
    name, not a volume label. *)
Definition live_entry (e : list Z) : bool :=
  negb (nth 0 e 0 =? 0xE5) && negb (nth 11 e 0 =? 0x0F) && negb (Z.testbit (nth 11 e 0) 3).

(** Character [i] of the 8.3 name: the first eight characters before the
    first dot, then the three characters after them or after that dot, in
    upper case and padded with blanks. *)
Definition short_name_char (filename : list Z) (i : nat) : Z :=
  let dot := default (length filename) (first_index (fun c => c =? 46) filename) in
  let n := Nat.min 8 dot in
  let ext := (n + if decide (filename !! n = Some 46%Z) then 1 else 0)%nat in
  match (if (i <? 8)%nat then if (i <? n)%nat then filename !! i else None else filename !! (ext + (i - 8))%nat) with
  | Some c => if (97 <=? c) && (c <=? 122) then c - 32 else c
  | None => 32
  end.

Definition entry_named (e filename : list Z) : bool :=
  forallb (fun i => nth i e 0 =? short_name_char filename i) (seq 0 11).

(** The entry for a name: the first live one with the name that stands before
    the end mark. *)
Fixpoint dir_lookup (entries : list (list Z)) (filename : list Z) : option (list Z) :=
  match entries with
  | [] => None
  | e :: entries' =>
    if nth 0 e 0 =? 0 then None
    else if live_entry e && entry_named e filename then Some e
    else dir_lookup entries' filename
  end.

(** The first cluster and the size that an entry gives. *)
Definition entry_cluster (e : list Z) : Z :=
  nth 26 e 0 + 256 * nth 27 e 0 + 65536 * (nth 20 e 0 + 256 * nth 21 e 0).
Definition entry_length (e : list Z) : Z :=
  nth 28 e 0 + 256 * nth 29 e 0 + 65536 * nth 30 e 0 + 16777216 * nth 31 e 0.

(** What the code tests is what these say. *)
Lemma skipped_live e : skipped e = negb (live_entry e).
Proof.
  unfold skipped, live_entry, entry_attributes, FAT32_ATTR_LFN, FAT32_ATTR_VOLUME_ID.
  pose proof (bit_test_testbit (nth 11 e 0) 3 ltac:(lia)) as Hb. unfold bit_test in Hb.
  change (Z.shiftl 1 3) with 0x08 in Hb. rewrite <- Hb. rewrite !negb_andb, !negb_involutive. done.
Qed.

Lemma take_part_eq n stop l :
  take_part n stop l =
    let k := Nat.min n (default (length l) (first_index stop l)) in (to_upper <$> take k l, drop k l).
Proof.
  revert n. induction l as [|c l IH]; intros [|n]; try done. cbn [take_part first_index].
  destruct (stop c); [done|]. rewrite IH. cbn [length].
  destruct (first_index stop l) as [k|]; done.
Qed.

Lemma to_upper_eq c : to_upper c = if (97 <=? c) && (c <=? 122) then c - 32 else c.
Proof.
  unfold to_upper. repeat case_cmp; cbn [andb]; try done. unfold s8, swrap, wrap.
  change (2 ^ 8) with 256. change (2 ^ (8 - 1)) with 128. rewrite Z.mod_small by lia. case_cmp; lia.
Qed.

Lemma pad_nth n l i : (i < n)%nat -> nth i (pad n l) 0 = default 32 (l !! i).
Proof.
  intros Hi. unfold pad. destruct (decide (i < length l)%nat) as [Hl|Hl].
  - destruct (lookup_lt_is_Some_2 l i Hl) as [x Hx]. rewrite Hx, app_nth1 by done. by apply nth_lookup_Some.
  - rewrite lookup_ge_None_2, app_nth2 by lia. apply nth_lookup_Some. apply lookup_replicate. split; [done|lia].
Qed.

Lemma normalize_char filename i :
  (i < 11)%nat -> nth i (fat32_normalize_name filename) 0 = short_name_char filename i.
Proof.
  intros Hi. unfold fat32_normalize_name. rewrite take_part_eq. cbv zeta. unfold short_name_char.
  set (dot := default _ _). set (n := Nat.min 8 dot).
  assert (Hrest : (match drop n filename with c :: rest' => if c =? 46 then rest' else drop n filename | [] => [] end)
    = drop (n + if decide (filename !! n = Some 46) then 1 else 0) filename).
  { destruct (drop n filename) as [|c rest] eqn:E.
    - rewrite <- drop_drop, E. by destruct (decide _).
    - assert (Hc : filename !! n = Some c) by (rewrite <- (Nat.add_0_r n), <- lookup_drop, E; done).
      rewrite <- drop_drop, E, Hc. destruct (Z.eqb_spec c 46) as [->|Hne]; [by rewrite decide_True|].
      by rewrite decide_False by congruence. }
  rewrite Hrest. clear Hrest. rewrite take_part_eq. cbv zeta. set (e := (n + _)%nat).
  assert (Hl8 : length (pad 8 (to_upper <$> take n filename)) = 8%nat).
  { unfold pad. rewrite length_app, length_replicate, length_fmap, length_take. unfold n. lia. }
  destruct (Nat.ltb_spec i 8) as [H8|H8].
  - rewrite app_nth1 by lia. rewrite pad_nth, list_lookup_fmap by done. destruct (Nat.ltb_spec i n) as [Hn|Hn].
    + rewrite lookup_take_lt by done. destruct (filename !! i) as [c|]; simpl; [apply to_upper_eq|done].
    + rewrite lookup_take_ge by done. done.
  - rewrite app_nth2 by lia. rewrite Hl8, pad_nth, list_lookup_fmap by lia.
    replace (first_index (fun _ : Z => false) (drop e filename)) with (@None nat)
      by (symmetry; by apply first_index_None). cbn [default].
    destruct (decide (i - 8 < length (drop e filename))%nat) as [Hlt|Hge].
    + rewrite lookup_take_lt by lia. rewrite lookup_drop.
      destruct (filename !! (e + (i - 8))%nat) as [c|]; simpl; [apply to_upper_eq|done].
    + rewrite length_drop in Hge. rewrite lookup_take_ge by (rewrite length_drop; lia).
      by rewrite lookup_ge_None_2 by lia.
Qed.

Lemma normalize_length filename : length (fat32_normalize_name filename) = 11%nat.
Proof.
  unfold fat32_normalize_name. rewrite take_part_eq. cbv beta iota zeta. rewrite take_part_eq. cbv beta iota zeta. unfold pad.
  rewrite !length_app, !length_replicate, !length_fmap, !length_take. lia.
Qed.

Lemma compare_named e filename : length e = 32%nat -> fat32_compare_entry_name e filename = entry_named e filename.
Proof.
  intros He. apply eq_true_iff_eq. unfold fat32_compare_entry_name, entry_named, entry_name.
  rewrite bool_decide_eq_true, forallb_forall. split.
  - intros Heq i Hi%in_seq. apply Z.eqb_eq. rewrite <- normalize_char, <- Heq by lia.
    destruct (lookup_lt_is_Some_2 e i) as [x Hx]; [lia|]. rewrite (nth_lookup_Some _ _ _ _ Hx).
    symmetry. apply nth_lookup_Some. by rewrite lookup_take_lt by lia.
  - intros Hall. apply list_eq. intros i. destruct (decide (i < 11)%nat) as [Hi|Hi].
    + rewrite lookup_take_lt by lia. destruct (lookup_lt_is_Some_2 e i) as [x Hx]; [lia|].
      destruct (lookup_lt_is_Some_2 (fat32_normalize_name filename) i) as [y Hy]; [rewrite normalize_length; lia|].
      specialize (Hall i). rewrite in_seq in Hall. specialize (Hall ltac:(lia)). apply Z.eqb_eq in Hall.
      rewrite <- normalize_char in Hall by lia.
      rewrite (nth_lookup_Some _ _ _ _ Hx), (nth_lookup_Some _ _ _ _ Hy) in Hall. congruence.
    + rewrite lookup_take_ge, lookup_ge_None_2 by (rewrite ?normalize_length; lia). done.
Qed.

Definition has_end (entries : list (list Z)) : bool := existsb (fun e => nth 0 e 0 =? 0) entries.

Lemma dir_lookup_app es1 es2 f :
  dir_lookup (es1 ++ es2) f =
    match dir_lookup es1 f with
    | Some e => Some e
    | None => if has_end es1 then None else dir_lookup es2 f
    end.
Proof.
  induction es1 as [|e es1 IH]; [done|]. simpl. destruct (nth 0 e 0 =? 0); simpl; [done|].
  by destruct (live_entry e && entry_named e f).
Qed.

Lemma scan_entries_eq n i buf f :
  0 <= i -> 32 * (i + Z.of_nat n) <= Z.of_nat (length buf) ->
  let es := (fun i => slice buf (32 * i) 32) <$> seqZ i (Z.of_nat n) in
  scan_entries n (32 * i) buf f =
    match dir_lookup es f with
    | Some e => Hit e
    | None => if has_end es then EndMark else Exhausted
    end.
Proof.
  revert i. induction n as [|n IH]; intros i Hi Hl; [by rewrite seqZ_nil by lia|].
  rewrite seqZ_cons by lia. replace (Z.pred (Z.of_nat (S n))) with (Z.of_nat n) by lia.
  specialize (IH (Z.succ i) ltac:(lia) ltac:(lia)). replace (32 * Z.succ i) with (32 * i + 32) in IH by lia.
  cbn [scan_entries]. rewrite fmap_cons. cbn [dir_lookup has_end existsb].
  destruct (nth 0 (slice buf (32 * i) 32) 0 =? 0); cbn [orb]; [done|].
  rewrite skipped_live, compare_named by (pose proof (slice_length buf (32 * i) 32); lia).
  destruct (live_entry _); cbn [negb andb]; [|exact IH]. destruct (entry_named _ f); [done|exact IH].
Qed.

Lemma dir_lookup_length es f e :
  Forall (fun e => length e = 32%nat) es -> dir_lookup es f = Some e -> length e = 32%nat.
Proof.
  induction 1 as [|e0 es He _ IH]; simpl; [done|].
  destruct (nth 0 e0 0 =? 0); [done|]. destruct (_ && _); [by intros [= <-]|done].
Qed.

Lemma dir_lookup_in es f e : dir_lookup es f = Some e -> e ∈ es.
Proof.
  induction es as [|e0 es IH]; simpl; [done|]. destruct (nth 0 e0 0 =? 0); [done|].
  destruct (_ && _); [intros [= <-]; apply list_elem_of_here|]. intros He%IH. by apply list_elem_of_further.
Qed.

Lemma entries_of_length d : Z.of_nat (length d) = 4096 -> Forall (fun e => length e = 32%nat) (entries_of d).
Proof.
  intros Hd. apply Forall_fmap, Forall_forall. intros i Hi%elem_of_seqZ. simpl.
  pose proof (slice_length d (32 * i) 32 ltac:(lia) ltac:(lia) ltac:(lia)). lia.
Qed.

Lemma find_in_directory_ok `{!BlockDevice} st cs ds fuel junk f :
  sectors_per_cluster st = 8 -> chain_of st cs -> mapM (read_cluster st) cs = Some ds ->
  Z.of_nat (length junk) = 4096 -> (length cs < fuel)%nat ->
  find_in_directory fuel st (nth 0 cs 0) junk f = Ok (dir_lookup (ds ≫= entries_of) f).
Proof.
  intros Hspc. revert ds fuel junk. induction cs as [|c cs IH]; intros ds [|fuel] junk Hch Hd Hj Hf;
    try (simpl in Hf; lia).
  - injection Hd as <-. done.
  - destruct Hch as (Hc & Hfollow%link_follow & Hch); [|lia]. cbn [mapM] in Hd. apply bind_Some in Hd as (d & Hd & Hd').
    apply bind_Some in Hd' as (ds' & Hds' & E). injection E as <-.
    cbn [find_in_directory nth]. destruct (Z.leb_spec 2 c); [|lia]. unfold fat32_is_eoc.
    destruct (Z.leb_spec FAT32_EOC c); [lia|]. cbn [andb negb].
    destruct (read_cluster_ok st c junk d) as (rest & -> & Hl & Hlen); [lia|lia|done|].
    assert (rest = []) as ->.
    { rewrite length_app in Hlen. destruct rest; [done|]. simpl in Hlen. lia. }
    rewrite app_nil_r. pose proof (scan_entries_eq 128 0 d f ltac:(lia) ltac:(lia)) as Hscan.
    change (32 * 0) with 0 in Hscan. change (Z.of_nat 128) with 128 in Hscan.
    cbv zeta in Hscan. fold (entries_of d) in Hscan. rewrite Hscan. clear Hscan.
    rewrite bind_cons, dir_lookup_app. destruct (dir_lookup (entries_of d) f); [done|].
    destruct (has_end (entries_of d)); [done|]. rewrite Hfollow. apply IH; [done|done|lia|simpl in Hf; lia].
Qed.

(** The bytes of the directory come from sectors. *)
Lemma cluster_bytes `{!BlockDevice} st c d : read_cluster st c = Some d -> Forall is_byte d.
Proof.
  intros Hd. apply fmap_Some in Hd as (ss & Hss & ->). apply mapM_Some in Hss. apply Forall_join.
  apply Forall_lookup_2. intros k s Hk. destruct (Forall2_lookup_r _ _ _ _ _ Hss Hk) as (i & _ & Hr).
  by destruct (sector_wf _ _ Hr).
Qed.

Lemma directory_bytes `{!BlockDevice} st cs ds e :
  mapM (read_cluster st) cs = Some ds -> e ∈ ds ≫= entries_of -> Forall is_byte e.
Proof.
  intros Hd%mapM_Some (d & He & Hin)%list_elem_of_bind. apply list_elem_of_lookup in Hin as [k Hk].
  destruct (Forall2_lookup_r _ _ _ _ _ Hd Hk) as (c & _ & Hr). apply cluster_bytes in Hr.
  apply list_elem_of_fmap in He as (i & -> & _). unfold slice. by apply Forall_take, Forall_drop.
Qed.

Lemma make_cluster_eq e :
  length e = 32%nat -> Forall is_byte e -> fat32_make_cluster e = Some (entry_cluster e).
Proof.
  intros Hl Hb. unfold fat32_make_cluster, entry_cluster. rewrite !le16_bytes by lia. cbn [mbind option_bind].
  assert (H : forall i, (i < 32)%nat -> is_byte (nth i e 0)).
  { intros i Hi. destruct (lookup_lt_is_Some_2 e i) as [x Hx]; [lia|]. rewrite (nth_lookup_Some _ _ _ _ Hx).
    by eapply Forall_lookup_1. }
  change (Z.to_nat 20) with 20%nat. change (Z.to_nat (20 + 1)) with 21%nat.
  change (Z.to_nat 26) with 26%nat. change (Z.to_nat (26 + 1)) with 27%nat.
  pose proof (H 20%nat ltac:(lia)). pose proof (H 21%nat ltac:(lia)). pose proof (H 26%nat ltac:(lia)).
  pose proof (H 27%nat ltac:(lia)). unfold is_byte in *.
  rewrite u32_small by (rewrite Z.shiftl_mul_pow2 by lia; lia). rewrite lor_shiftl_add by lia. f_equal. lia.
Qed.

(** C23: [fat32_open] on a volume with clusters of eight sectors whose root
    directory chain is in the table: it fails when no handle is free or the
    directory has no entry for the name, and otherwise returns the lowest
    free handle, set to the first cluster and size of the entry, at position
    0, with the other handles unchanged.  The entry is the first one before
    the end mark, over all clusters of the directory, that is not deleted
    (first byte 0xE5), not a long-name part (attributes 0x0F), not a volume
    label (attribute bit 3), and whose eleven bytes are the 8.3 name.  The
    walk over the directory ends. *)
Theorem fat32_open_spec `{!BlockDevice} st cs ds filename junk :
  sectors_per_cluster st = 8 -> root_dir_cluster st = nth 0 cs 0 -> chain_of st cs ->
  mapM (read_cluster st) cs = Some ds -> Z.of_nat (length junk) = 4096 ->
  fat32_open (S (length cs)) (Some filename) junk st = Ok
    match first_index is_free (fat32_files st), dir_lookup (ds ≫= entries_of) filename with
    | Some i, Some e =>
      (Z.of_nat i, set_files (<[i := File (entry_cluster e) (entry_length e) 0 true]> (fat32_files st)) st)
    | _, _ => (-1, st)
    end.
Proof.
  intros Hspc Hroot Hch Hd Hj. unfold fat32_open, fat32_find_in_directory.
  destruct (first_index is_free (fat32_files st)) as [i|]; [|done].
  rewrite Hroot, (find_in_directory_ok st cs ds) by (done || lia).
  destruct (dir_lookup (ds ≫= entries_of) filename) as [e|] eqn:He; [|done].
  assert (Hl : length e = 32%nat).
  { eapply dir_lookup_length, He. apply Forall_bind.
    eapply Forall_impl; [apply (data_lengths st cs ds); [lia|done]|].
    intros d Hd'. apply entries_of_length. simpl in Hd'. lia. }
  pose proof (directory_bytes st cs ds e Hd (dir_lookup_in _ _ _ He)) as Hb.
  rewrite make_cluster_eq, le32_bytes by (done || lia). done.
Qed.

(** A disk whose root directory (cluster 2, from sector 100 on) holds one
    file, [A.TXT] of 5 bytes in cluster 9. *)
Definition entry_a : list Z :=
  [65; 32; 32; 32; 32; 32; 32; 32; 84; 88; 84; 0x20] ++ replicate 14 0 ++ [9; 0; 5; 0; 0; 0].

Definition dir_disk : BlockDevice.
Proof.
  refine {| ahci_read_sector lba := Some (if lba =? 100 then entry_a ++ replicate 480 0 else replicate 512 0) |}.
  intros lba s E. apply Some_inj in E. subst s. destruct (lba =? 100).
  - split; [reflexivity|]. apply Forall_app. split; [|apply Forall_replicate; unfold is_byte; lia].
    repeat apply Forall_cons_2; try apply Forall_nil_2; unfold is_byte; lia.
  - split; [apply length_replicate|]. apply Forall_replicate. unfold is_byte. lia.
Defined.

Definition dir_fat : fat_t :=
  Fat (Bpb 512 8 1 1 1 2) 0 1 100 8 2 512
    (Some ([0xF8; 0xFF; 0xFF; 0x0F; 0xFF; 0xFF; 0xFF; 0x0F; 0xFF; 0xFF; 0xFF; 0x0F]))
    (File 0 0 0 true :: replicate 31 (File 0 0 0 false)).

Lemma fat32_open_spec_witness :
  exists st', fat32_open (H := dir_disk) 2 (Some [97; 46; 116; 120; 116]) (replicate (Z.to_nat 4096) 0) dir_fat
    = Ok (1, st') /\ fat32_files st' !! 1%nat = Some (File 9 5 0 true).
Proof.
  assert (Hchain : chain_of dir_fat [2]) by (vm_compute; repeat split; discriminate || reflexivity).
  assert (Hj : Z.of_nat (length (replicate (Z.to_nat 4096) 0)) = 4096) by (rewrite length_replicate; lia).
  assert (Hdata : exists d, mapM (@read_cluster dir_disk dir_fat) [2] = Some [d] /\
    dir_lookup ([d] ≫= entries_of) [97; 46; 116; 120; 116] = Some entry_a).
  { eexists. split; [vm_compute; reflexivity|]. vm_compute. reflexivity. }
  destruct Hdata as (d & Hd & Hl).
  pose proof (@fat32_open_spec dir_disk dir_fat [2] [d] [97; 46; 116; 120; 116] _ eq_refl eq_refl Hchain Hd Hj)
    as Hspec.
  rewrite Hl in Hspec. eexists. split; [exact Hspec|]. reflexivity.
Defined.

(** ** Names *)

(** A character that a short name can hold: ASCII, visible, no dot, no lower
    case letter. *)
Definition name_char (c : Z) : Prop := 32 < c < 128 /\ c <> 46 /\ (c < 97 \/ 122 < c).

Lemma name_char_upper c : name_char c -> to_upper c = c.
Proof. intros (Hr & _ & Hl). unfold to_upper. repeat case_cmp; cbn [andb]; done || lia. Qed.

Lemma name_char_s8 c : name_char c -> s8 c = c.
Proof.
  intros (Hr & _). unfold s8, swrap, wrap. change (2 ^ 8) with 256. change (2 ^ (8 - 1)) with 128.
  rewrite Z.mod_small by lia. case_cmp; lia.
Qed.

Lemma until_blank_blanks l m :
  Forall name_char l -> until_blank (l ++ replicate m 32) = l.
Proof.
  induction 1 as [|c l Hc Hl IH]; cbn [app until_blank].
  - by destruct m.
  - rewrite name_char_s8 by done. pose proof Hc as (Hr & _).
    destruct (Z.eqb_spec c 32); [lia|]. destruct (Z.eqb_spec c 0); [lia|]. cbn [orb]. by rewrite IH.
Qed.

Lemma pad_length n l : (length l <= n)%nat -> length (pad n l) = n.
Proof. intros H. unfold pad. rewrite length_app, length_replicate. lia. Qed.

(** The characters of a part are taken up to the stop, unchanged. *)
Lemma take_part_name n stop l rest :
  Forall name_char l -> (length l <= n)%nat -> Forall (fun c => stop c = false) l ->
  (length l = n \/ match rest with [] => True | c :: _ => stop c = true end) ->
  take_part n stop (l ++ rest) = (l, rest).
Proof.
  intros Hl. revert n. induction Hl as [|c l Hc Hl IH]; intros n Hn Hs Hend.
  - simpl. destruct n as [|n]; [done|]. destruct Hend as [Hend|Hend]; [done|].
    destruct rest as [|c rest]; [done|]. simpl. by rewrite Hend.
  - destruct n as [|n]; [simpl in Hn; lia|]. apply Forall_cons in Hs as [Hs Hs'].
    simpl. rewrite Hs, IH, name_char_upper by (done || (simpl in *; lia) || (destruct Hend; [left; simpl in *; lia|by right])).
    done.
Qed.

Lemma not_dot l : Forall name_char l -> Forall (fun c => (c =? 46) = false) l.
Proof. intros Hl. eapply Forall_impl; [exact Hl|]. intros c (_ & Hc & _). by apply Z.eqb_neq. Qed.

(** C24: the name that the listing shows for an entry opens that entry.  For
    every directory entry with an 8.3 name of upper-case ASCII characters,
    padded with blanks, normalising the name that
    [fat32_extract_entry_name] gives yields the eleven bytes of the entry, so
    [fat32_compare_entry_name] accepts it. *)
Theorem fat32_name_roundtrip entry base ext tail :
  entry = pad 8 base ++ pad 3 ext ++ tail ->
  Forall name_char base -> Forall name_char ext -> (length base <= 8)%nat -> (length ext <= 3)%nat ->
  fat32_normalize_name (fat32_extract_entry_name entry) = entry_name entry /\
  fat32_compare_entry_name entry (fat32_extract_entry_name entry) = true.
Proof.
  intros -> Hb He Hlb Hle.
  assert (Hname : entry_name (pad 8 base ++ pad 3 ext ++ tail) = pad 8 base ++ pad 3 ext).
  { unfold entry_name. rewrite app_assoc. apply take_app_length'. rewrite length_app, !pad_length by done. done. }
  assert (Hext : fat32_extract_entry_name (pad 8 base ++ pad 3 ext ++ tail)
    = match ext with [] => base | _ => base ++ 46 :: ext end).
  { unfold fat32_extract_entry_name.
    assert (slice (pad 8 base ++ pad 3 ext ++ tail) 0 8 = pad 8 base) as ->.
    { unfold slice. simpl Z.to_nat. rewrite drop_0. apply take_app_length'. by rewrite pad_length. }
    assert (slice (pad 8 base ++ pad 3 ext ++ tail) 8 3 = pad 3 ext) as ->.
    { unfold slice. rewrite drop_app_length' by (by rewrite pad_length).
      apply take_app_length'. by rewrite pad_length. }
    rewrite app_nth2 by (rewrite pad_length; lia). rewrite pad_length by done.
    unfold pad. rewrite !until_blank_blanks by done.
    destruct ext as [|c ext]; [done|]. apply Forall_cons in He as [(Hc & _) _]. simpl.
    destruct (Z.eqb_spec c 32); [lia|]. by destruct (Z.eqb_spec c 0); [lia|]. }
  assert (Hnorm : fat32_normalize_name (fat32_extract_entry_name (pad 8 base ++ pad 3 ext ++ tail))
    = pad 8 base ++ pad 3 ext).
  { rewrite Hext. unfold fat32_normalize_name. destruct ext as [|c ext].
    - rewrite <- (app_nil_r base) at 1. rewrite take_part_name by (done || by apply not_dot || by right). done.
    - rewrite take_part_name by (done || by apply not_dot || by right). simpl Z.eqb. cbv iota.
      rewrite <- (app_nil_r (c :: ext)) at 1.
      rewrite take_part_name by (done || (apply Forall_true; done) || by right). done. }
  split; [by rewrite Hnorm, Hname|]. unfold fat32_compare_entry_name. apply bool_decide_eq_true_2.
  by rewrite Hnorm, Hname.
Qed.

Lemma fat32_name_roundtrip_witness :
  fat32_compare_entry_name entry_a (fat32_extract_entry_name entry_a) = true.
Proof.
  apply (fat32_name_roundtrip entry_a [65] [84; 88; 84] (drop 11 entry_a)); [reflexivity| | |simpl; lia|simpl; lia];
    repeat apply Forall_cons_2; try apply Forall_nil_2; unfold name_char; lia.
Defined.

(** ** Large clusters *)

Lemma read_sectors_overflow `{!BlockDevice} lba n i buf :
  (forall l, is_Some (ahci_read_sector l)) -> 0 <= i -> i * 512 <= Z.of_nat (length buf) ->
  Z.of_nat (length buf) < (i + Z.of_nat n) * 512 -> read_sectors n lba i buf = None.
Proof.
  intros Hdisk. revert i buf. induction n as [|n IH]; intros i buf Hi Hl Hov; [lia|]. simpl.
  destruct (Hdisk (u32 (lba + i))) as [s Hs]. rewrite Hs. destruct (sector_wf _ _ Hs) as [Hlen _].
  unfold FAT32_SECTOR_SIZE. destruct (put buf (i * 512) s) as [buf'|] eqn:E; [|done]. simpl.
  destruct (Z.le_gt_cases (i * 512 + 512) (Z.of_nat (length buf))) as [Hfit|Hno].
  - apply put_length in E. apply IH; lia.
  - exfalso. assert (Hout : aget buf' (i * 512 + 511) = Some (default 0 (s !! 511%nat))).
    { rewrite (aget_put _ _ _ _ _ E) by lia.
      destruct (Z.leb_spec (i * 512) (i * 512 + 511)); [|lia].
      destruct (Z.ltb_spec (i * 512 + 511) (i * 512 + Z.of_nat (length s))); [|lia]. cbn [andb].
      replace (Z.to_nat (i * 512 + 511 - i * 512)) with 511%nat by lia.
      destruct (lookup_lt_is_Some_2 s 511) as [b ->]; [lia|done]. }
    apply aget_Some_range in Hout. apply put_length in E. lia.
Qed.

(** On a volume with more than eight sectors per cluster, which the boot
    sector check accepts, the first cluster that is read overruns the
    4096-byte buffer on the stack: opening any file, when the root directory
    exists and a handle is free, and reading from any open file are undefined
    behaviour. *)
Theorem fat32_large_cluster_overflow `{!BlockDevice} st filename fd size junk fuel file :
  8 < sectors_per_cluster st < 256 -> (forall l, is_Some (ahci_read_sector l)) ->
  Z.of_nat (length junk) = 4096 ->
  (2 <= root_dir_cluster st < FAT32_EOC -> is_Some (first_index is_free (fat32_files st)) ->
    fat32_open (S fuel) (Some filename) junk st = Undef) /\
  (0 <= fd < 32 -> fat32_files st !! Z.to_nat fd = Some file -> open file = true -> 0 < size ->
    2 <= first_cluster file < FAT32_EOC -> current_position file = 0 -> 0 < file_size file ->
    fat32_read fd true size junk st = Undef).
Proof.
  intros Hspc Hdisk Hj.
  assert (Hov : forall c, fat32_read_sectors (fat32_cluster_lba st c) (sectors_per_cluster st) junk = None).
  { intros c. apply read_sectors_overflow; [done|lia|lia|lia]. }
  split.
  - intros Hroot [i Hi]. unfold fat32_open, fat32_find_in_directory. rewrite Hi. cbn [find_in_directory].
    destruct (Z.leb_spec 2 (root_dir_cluster st)); [|lia]. unfold fat32_is_eoc.
    destruct (Z.leb_spec FAT32_EOC (root_dir_cluster st)); [lia|]. cbn [andb negb]. by rewrite Hov.
  - intros Hfd Hfile Hopen Hsize Hc Hpos Hfs. unfold fat32_read, FAT32_MAX_FILES, FAT32_SECTOR_SIZE.
    destruct (Z.ltb_spec fd 0); [lia|]. destruct (Z.leb_spec 32 fd); [lia|]. cbn [orb].
    rewrite Hfile, Hopen, Hpos. cbn [negb orb]. destruct (Z.leb_spec (file_size file) 0); [lia|].
    rewrite (u32_small (sectors_per_cluster st * 512)) by lia.
    destruct (Z.eqb_spec (sectors_per_cluster st * 512) 0); [lia|]. rewrite Z.div_0_l by lia.
    change (Z.to_nat 0) with 0%nat. cbn [skip_clusters read_loop].
    set (count := if _ <? size then _ else size). assert (0 < count) by (unfold count; case_cmp; lia).
    destruct (Z.ltb_spec 0 count); [|lia]. destruct (Z.leb_spec 2 (first_cluster file)); [|lia].
    unfold fat32_is_eoc. destruct (Z.leb_spec FAT32_EOC (first_cluster file)); [lia|]. cbn [andb negb].
    by rewrite Hov.
Qed.

Definition wide_fat : fat_t :=
  Fat (Bpb 512 16 1 1 1 2) 0 1 100 16 2 512 None (replicate 32 (File 2 700 0 false)).

Lemma fat32_large_cluster_overflow_witness :
  fat32_open (H := pattern_disk) 1 (Some [65]) (replicate (Z.to_nat 4096) 0) wide_fat = Undef.
Proof.
  assert (Hj : Z.of_nat (length (replicate (Z.to_nat 4096) 0)) = 4096) by (rewrite length_replicate; lia).
  assert (Hdisk : forall l, is_Some (@ahci_read_sector pattern_disk l)) by (intros l; eexists; reflexivity).
  apply (@fat32_large_cluster_overflow pattern_disk wide_fat [65] 0 0 _ 0 (File 2 700 0 false)
    ltac:(simpl; lia) Hdisk Hj); [simpl; unfold FAT32_EOC; lia|]. by exists 0%nat.
Defined.
