(* ===== verification/Ring.v ===== *)
(** * Ring buffers

    The queues of [src/keyboard.c], [src/mouse.c] and [src/usb.c] are arrays
    with a head and a tail index, one slot always free.  They differ in the
    element, the size and the expression that advances an index; the class
    [RingIndex] states what the expression has to do, and the theorems hold
    for every instance. *)

From S2P Require Import Prelude.

Record ring (A : Type) := Ring { slots : list A; head : Z; tail : Z }.
Arguments Ring {A}.
Arguments slots {A}.
Arguments head {A}.
Arguments tail {A}.

Class RingIndex (n : Z) (advance : Z -> Z) := {
  ring_size : 1 < n;
  advance_spec i : 0 <= i < n -> advance i = (i + 1) mod n
}.

Section ring.
Context {A : Type} (n : Z) (advance : Z -> Z).

(** The value says whether the element was stored. *)
Definition enqueue (x : A) (r : ring A) : option (bool * ring A) :=
  let next := advance (tail r) in
  if next =? head r then Some (false, r)
  else
    s ← aset (slots r) (tail r) x;
    Some (true, Ring s (head r) next).

Definition dequeue (r : ring A) : option (option A * ring A) :=
  if head r =? tail r then Some (None, r)
  else
    x ← aget (slots r) (head r);
    Some (Some x, Ring (slots r) (advance (head r)) (tail r)).

(** [l] is in the queue, oldest first. *)
Record holds (r : ring A) (l : list A) : Prop := {
  holds_slots : Z.of_nat (length (slots r)) = n;
  holds_head : 0 <= head r < n;
  holds_tail : 0 <= tail r < n;
  holds_length : Z.of_nat (length l) = (tail r - head r) mod n;
  holds_items : forall k, (k < length l)%nat -> slots r !! Z.to_nat ((head r + Z.of_nat k) mod n) = l !! k
}.

Context `{!RingIndex n advance}.

Lemma wrap_index a : 0 <= a < 2 * n -> a mod n = if a <? n then a else a - n.
Proof using RingIndex0.
  intros Ha. pose proof (ring_size (n := n) (advance := advance)). case_cmp; [apply Z.mod_small; lia|].
  symmetry. apply (Z.mod_unique_pos _ _ 1); lia.
Qed.

Lemma holds_length_cases r l :
  holds r l -> Z.of_nat (length l) = if head r <=? tail r then tail r - head r else tail r - head r + n.
Proof using RingIndex0.
  intros [_ Hh Ht Hl _]. rewrite Hl. case_cmp; [apply Z.mod_small; lia|].
  symmetry. apply (Z.mod_unique_pos _ _ (-1)); lia.
Qed.

Lemma enqueue_ok x r l :
  holds r l -> exists r', enqueue x r = Some (Z.of_nat (length l) <? n - 1, r') /\
    holds r' (if Z.of_nat (length l) <? n - 1 then l ++ [x] else l).
Proof using RingIndex0.
  intros Hr. pose proof (holds_length_cases r l Hr) as Hcase. pose proof (ring_size (n := n) (advance := advance)).
  destruct Hr as [Hs Hh Ht Hl Hi]. unfold enqueue. rewrite advance_spec by done.
  rewrite (wrap_index (tail r + 1)) by lia.
  destruct (Z.ltb_spec (Z.of_nat (length l)) (n - 1)) as [Hroom|Hfull].
  - set (next := if tail r + 1 <? n then tail r + 1 else tail r + 1 - n).
    assert (Hnext : 0 <= next < n /\ next <> head r) by (unfold next; revert Hcase; repeat case_cmp; lia).
    destruct (Z.eqb_spec next (head r)); [lia|]. rewrite aset_in_range by lia. cbn [mbind option_bind].
    eexists. split; [done|]. split; simpl; [rewrite length_insert; lia|done|lia| |].
    + rewrite length_app. simpl. unfold next. revert Hcase. repeat case_cmp; intros Hcase;
        first [lia | rewrite Z.mod_small by lia; lia | apply (Z.mod_unique_pos _ _ (-1)); lia].
    + intros k Hk. rewrite length_app in Hk. simpl in Hk. rewrite wrap_index by lia.
      destruct (decide (k = length l)) as [->|Hne].
      * rewrite lookup_app_r, Nat.sub_diag by lia. simpl.
        replace (Z.to_nat _) with (Z.to_nat (tail r)) by (revert Hcase; repeat case_cmp; lia).
        apply list_lookup_insert_eq. lia.
      * rewrite lookup_app_l by lia. rewrite <- Hi by lia. rewrite wrap_index by lia.
        apply list_lookup_insert_ne. revert Hcase. repeat case_cmp; lia.
  - destruct (Z.eqb_spec (if tail r + 1 <? n then tail r + 1 else tail r + 1 - n) (head r)) as [_|Hne].
    + by exists r.
    + exfalso. revert Hne Hcase. repeat case_cmp; lia.
Qed.

Lemma dequeue_ok r l :
  holds r l -> exists r', dequeue r = Some (list.head l, r') /\ holds r' (list.tail l).
Proof using RingIndex0.
  intros Hr. pose proof (holds_length_cases r l Hr) as Hcase. pose proof (ring_size (n := n) (advance := advance)).
  pose proof Hr as [Hs Hh Ht Hl Hi]. unfold dequeue. destruct l as [|x l].
  - destruct (Z.eqb_spec (head r) (tail r)); [by exists r|]. exfalso. revert Hcase. simpl. case_cmp; lia.
  - destruct (Z.eqb_spec (head r) (tail r)) as [E|Hne].
    + exfalso. revert Hcase. rewrite E. simpl. case_cmp; lia.
    + assert (Hx : aget (slots r) (head r) = Some x).
      { rewrite aget_nonneg by lia. specialize (Hi 0%nat ltac:(simpl; lia)).
        rewrite Z.add_0_r, Z.mod_small in Hi by lia. done. }
      rewrite Hx. cbn [mbind option_bind]. eexists. split; [done|].
      rewrite advance_spec by done. rewrite (wrap_index (head r + 1)) by lia. simpl in Hcase.
      split; simpl; [done|case_cmp; lia|done| |].
      * revert Hcase. repeat case_cmp; intros Hcase;
          first [lia | rewrite Z.mod_small by lia; lia | apply (Z.mod_unique_pos _ _ (-1)); lia].
      * intros k Hk. specialize (Hi (S k) ltac:(simpl; lia)). simpl in Hi. rewrite <- Hi.
        do 2 f_equal. assert (Z.of_nat (length l) < n) by (revert Hcase; case_cmp; lia).
        destruct (Z.ltb_spec (head r + 1) n); rewrite !wrap_index by lia; repeat case_cmp; lia.
Qed.
End ring.

(** The four expressions of the sources. *)
Definition advance_256 (i : Z) : Z := Z.land (i + 1) 0xFF.
Definition advance_mask32 (i : Z) : Z := Z.land (i + 1) 31.
Definition advance_64 (i : Z) : Z := (i + 1) mod 64.
Definition advance_32 (i : Z) : Z := (i + 1) mod 32.

#[export] Instance ring_256 : RingIndex 256 advance_256.
Proof. split; [lia|]. intros i Hi. apply (land_low _ 8). lia. Qed.
#[export] Instance ring_mask32 : RingIndex 32 advance_mask32.
Proof. split; [lia|]. intros i Hi. apply (land_low _ 5). lia. Qed.
#[export] Instance ring_64 : RingIndex 64 advance_64.
Proof. split; [lia|done]. Qed.
#[export] Instance ring_32 : RingIndex 32 advance_32.
Proof. split; [lia|done]. Qed.

(** ** Sequences of operations *)

Inductive queue_op (A : Type) := Put (x : A) | Get.
Arguments Put {A} _.
Arguments Get {A}.

(** Running a sequence, with the elements that came out. *)
Fixpoint ring_run {A} (advance : Z -> Z) (ops : list (queue_op A)) (r : ring A) : option (list (option A) * ring A) :=
  match ops with
  | [] => Some ([], r)
  | Put x :: ops' => '(_, r') ← enqueue advance x r; ring_run advance ops' r'
  | Get :: ops' =>
    '(o, r') ← dequeue advance r;
    '(os, r'') ← ring_run advance ops' r';
    Some (o :: os, r'')
  end.

(** The contract: a queue of at most [n - 1] elements that drops new ones
    when it is full. *)
Fixpoint queue_run {A} (n : Z) (ops : list (queue_op A)) (l : list A) : list (option A) * list A :=
  match ops with
  | [] => ([], l)
  | Put x :: ops' => queue_run n ops' (if Z.of_nat (length l) <? n - 1 then l ++ [x] else l)
  | Get :: ops' => let '(os, l') := queue_run n ops' (list.tail l) in (list.head l :: os, l')
  end.

(** C27: the ring buffers are bounded FIFO queues. For every index expression
    that advances modulo the size, in particular those of the keyboard, mouse
    and USB queues, any sequence of insertions and removals stays inside the
    array and gives exactly the elements of a queue that holds at most
    [n - 1] elements and drops insertions when it is full. *)
Theorem ring_refines_queue {A} n advance `{!RingIndex n advance} ops (r : ring A) l :
  holds n r l -> exists r', ring_run advance ops r = Some ((queue_run n ops l).1, r') /\
    holds n r' (queue_run n ops l).2.
Proof.
  revert r l. induction ops as [|[x|] ops IH]; intros r l Hr; simpl.
  - by exists r.
  - destruct (enqueue_ok n advance x r l Hr) as (r1 & -> & Hr1). simpl. by apply IH.
  - destruct (dequeue_ok n advance r l Hr) as (r1 & -> & Hr1). simpl.
    destruct (IH r1 _ Hr1) as (r2 & -> & Hr2). simpl. destruct (queue_run n ops (list.tail l)). by exists r2.
Qed.

(** An empty ring. *)
Definition empty_ring {A} (n : nat) (x : A) : ring A := Ring (replicate n x) 0 0.

Lemma empty_ring_holds {A} n (x : A) : (0 < n)%nat -> holds (Z.of_nat n) (empty_ring n x) [].
Proof. intros Hn. split; simpl; rewrite ?length_replicate; try (done || lia). Qed.

Lemma ring_refines_queue_witness :
  exists r', ring_run advance_256 [Put 1; Put 2; Get; Put 3; Get; Get; Get] (empty_ring 256 0)
    = Some ([Some 1; Some 2; Some 3; None], r').
Proof.
  destruct (ring_refines_queue 256 advance_256 [Put 1; Put 2; Get; Put 3; Get; Get; Get] (empty_ring 256 0) []
    (empty_ring_holds 256 0 ltac:(lia))) as (r' & Hr & _).
  exists r'. exact Hr.
Defined.
