(* ===== verification/Input.v ===== *)
(** * Keyboard, mouse and USB input ([src/keyboard.c], [src/mouse.c], [src/usb.c])

    The PS/2 keyboard and mouse drivers and the USB input queues.  The ports
    of the PS/2 controller and the memory-mapped registers of the USB
    controller belong to a device behind the interface [InputDevice]; the
    registers are accessed by width in bytes and address. *)

From stdpp Require Import strings.
From S2P Require Import Prelude Io Ring Pci.

(** The character codes of a string. *)
Definition chars (s : string) : list Z := Z.of_N ∘ Ascii.N_of_ascii <$> String.list_ascii_of_string s.

Definition table_get (t : list Z) (i : Z) : Z := default 0 (t !! Z.to_nat i).

Class InputDevice (D : Type) := {
  input_ports :: PortIO D;
  mmio_read : Z -> Z -> D -> Z;
  mmio_write : Z -> Z -> Z -> D -> D
}.

(** ** USB human interface devices *)

Module Usb.

Definition MAX_HID_DEVICES : nat := 4.

Inductive usb_hid_type_t := USB_HID_NONE | USB_HID_KEYBOARD | USB_HID_MOUSE.
#[export] Instance hid_type_eq_dec : EqDecision usb_hid_type_t.
Proof. solve_decision. Defined.

Record usb_hid_device_t := Hid {
  attached : bool; slot_id : Z; hid_address : Z; hid_type : usb_hid_type_t;
  endpoint_address : Z; max_packet_size : Z; interface_number : Z
}.

(** The registers that the driver has mapped (0 is NULL) and the rings that
    it shares with the controller. *)
Record xhci_trb_t := Trb { parameter_lo : Z; parameter_hi : Z; trb_status : Z; control : Z }.
Record xhci_ring_segment_table_t := Segment {
  ring_segment_base_address : Z; ring_segment_size : Z; segment_reserved : Z
}.
Record xhci_t := Xhci {
  xhci_cap : Z;
  xhci_op : Z;
  xhci_ports : Z;
  xhci_runtime : Z;
  xhci_doorbell : Z;
  cmd_ring : list xhci_trb_t;
  event_ring : list xhci_trb_t;
  cmd_ring_segment : xhci_ring_segment_table_t;
  event_ring_segment : xhci_ring_segment_table_t;
  dcbaa : list Z
}.

Record usb_t := UsbState {
  hid_devices : list usb_hid_device_t;
  keyboard_buffer : ring Z;
  mouse_events : ring (list Z);
  usb_mouse_x : Z;
  usb_mouse_y : Z;
  max_ports : Z;
  xhci_ready : bool;
  xhci : xhci_t
}.

Definition set_hid (l : list usb_hid_device_t) (u : usb_t) : usb_t :=
  UsbState l (keyboard_buffer u) (mouse_events u) (usb_mouse_x u) (usb_mouse_y u) (max_ports u) (xhci_ready u)
    (xhci u).
Definition set_keyboard (r : ring Z) (u : usb_t) : usb_t :=
  UsbState (hid_devices u) r (mouse_events u) (usb_mouse_x u) (usb_mouse_y u) (max_ports u) (xhci_ready u)
    (xhci u).
Definition set_mouse (r : ring (list Z)) (x y : Z) (u : usb_t) : usb_t :=
  UsbState (hid_devices u) (keyboard_buffer u) r x y (max_ports u) (xhci_ready u)
    (xhci u).

Definition set_xhci (ports : Z) (ready : bool) (x : xhci_t) (u : usb_t) : usb_t :=
  UsbState (hid_devices u) (keyboard_buffer u) (mouse_events u) (usb_mouse_x u) (usb_mouse_y u) ports ready x.

Definition xhci_ring_doorbell {D} `{!InputDevice D} (ring : Z) (x : xhci_t) (d : D) : D :=
  if xhci_doorbell x =? 0 then d else mmio_write 4 (xhci_doorbell x + 4 * ring) 1 d.

Definition usb_queue_keyboard_char (c : Z) (u : usb_t) : option (bool * usb_t) :=
  '(ok, r) ← enqueue advance_64 (u8 c) (keyboard_buffer u);
  Some (ok, set_keyboard r u).

(** The character is [None] when the queue is empty. *)
Definition usb_dequeue_keyboard_char (u : usb_t) : option (option Z * usb_t) :=
  '(c, r) ← dequeue advance_64 (keyboard_buffer u);
  Some (option_map s8 c, set_keyboard r u).

Definition usb_queue_mouse_event (report : list Z) (u : usb_t) : option (bool * usb_t) :=
  '(ok, r) ← enqueue advance_32 (take 4 report) (mouse_events u);
  Some (ok, set_mouse r (usb_mouse_x u) (usb_mouse_y u) u).

Definition usb_dequeue_mouse_event (u : usb_t) : option (option (list Z) * usb_t) :=
  '(e, r) ← dequeue advance_32 (mouse_events u);
  Some (e, set_mouse r (usb_mouse_x u) (usb_mouse_y u) u).

Definition usb_hid_keyboard_map : list Z :=
  replicate 4 0 ++ chars "abcdefghijklmnopqrstuvwxyz1234567890" ++ [10; 0x1B; 8; 9]
  ++ chars " -=[]\" ++ [0] ++ chars ";'`,./".

Definition usb_hid_shift_map : list Z :=
  replicate 4 0 ++ chars "ABCDEFGHIJKLMNOPQRSTUVWXYZ!@#$%^&*()" ++ [10; 0x1B; 8; 9]
  ++ chars " _+{}|" ++ [0] ++ chars ":" ++ [34] ++ chars "~<>?".

Definition usb_hid_keycode_to_ascii (keycode : Z) (shift : bool) : option Z :=
  let c := table_get (if shift then usb_hid_shift_map else usb_hid_keyboard_map) keycode in
  if c =? 0 then None else Some c.

Definition key_of_code (shift : bool) (code : Z) : option Z :=
  if (code =? 0) || (code =? 0x2A) || (code =? 0x2C) then None
  else
    let c := table_get (if shift then usb_hid_shift_map else usb_hid_keyboard_map) code in
    if c =? 0 then None else Some c.

(** The loop over the keycodes of a report. *)
Fixpoint queue_codes (shift : bool) (codes : list Z) (u : usb_t) : option usb_t :=
  match codes with
  | [] => Some u
  | code :: codes' =>
    match key_of_code shift code with
    | None => queue_codes shift codes' u
    | Some c => '(_, u') ← usb_queue_keyboard_char c u; queue_codes shift codes' u'
    end
  end.

Definition usb_process_keyboard_report (report : list Z) (u : usb_t) : option usb_t :=
  mods ← aget report 0;
  codes ← load report 2 6;
  queue_codes (negb (Z.land mods 0x22 =? 0)) codes u.

Definition clamp (lo hi v : Z) : Z :=
  let v := if v <? lo then lo else v in if hi <? v then hi else v.

Definition usb_process_mouse_report (report : list Z) (u : usb_t) : option usb_t :=
  b1 ← aget report 1;
  b2 ← aget report 2;
  '(queued, u) ← usb_queue_mouse_event report u;
  Some (if (queued : bool) then
    set_mouse (mouse_events u) (clamp 0 79 (usb_mouse_x u + s8 b1)) (clamp 0 23 (usb_mouse_y u - s8 b2)) u
  else u).

Definition is_at (port : Z) (h : usb_hid_device_t) : bool := attached h && (hid_address h =? port + 1).
Definition is_unused (h : usb_hid_device_t) : bool := negb (attached h).

(** What is stored for a device that is new at a port, in slot [i]. *)
Definition new_hid (port : Z) (i : nat) : usb_hid_device_t :=
  Hid true (u8 (Z.of_nat i + 1)) (u8 (port + 1)) (if (i =? 0)%nat then USB_HID_KEYBOARD else USB_HID_MOUSE)
    (if (i =? 0)%nat then 0x81 else 0x82) 8 0.

Definition attach (port : Z) (devs : list usb_hid_device_t) : list usb_hid_device_t :=
  match first_index (is_at port) devs with
  | Some _ => devs
  | None => match first_index is_unused devs with
            | Some i => <[i := new_hid port i]> devs
            | None => devs
            end
  end.

(** [xhci_ports[port].port_status_ctrl] *)
Definition port_status_ctrl {D} `{!InputDevice D} (base port : Z) (d : D) : Z := mmio_read 4 (base + 16 * port) d.

(** The ports [port] to [port + n - 1]. *)
Fixpoint poll_ports {D} `{!InputDevice D} (base : Z) (n : nat) (port : Z) (d : D) (devs : list usb_hid_device_t) (found : bool) :
    list usb_hid_device_t * bool :=
  match n with
  | O => (devs, found)
  | S n' =>
    let portsc := port_status_ctrl base port d in
    if negb (bit_test portsc 0) || negb (bit_test portsc 1) then poll_ports base n' (port + 1) d devs found
    else poll_ports base n' (port + 1) d (attach port devs) true
  end.

Definition usb_poll_hid_devices {D} `{!InputDevice D} (d : D) (u : usb_t) : usb_t * bool :=
  if negb (xhci_ready u) || (xhci_ports (xhci u) =? 0) then (u, false)
  else
    let '(devs, found) := poll_ports (xhci_ports (xhci u)) (Z.to_nat (Z.min (max_ports u) 256)) 0 d (hid_devices u) false in
    (set_hid devs u, found).

Definition usb_poll {D} `{!InputDevice D} (d : D) (u : usb_t) : usb_t :=
  if negb (xhci_ready u) then u else (usb_poll_hid_devices d u).1.

Definition has_type (t : usb_hid_type_t) (h : usb_hid_device_t) : bool :=
  attached h && bool_decide (hid_type h = t).

Definition usb_has_keyboard (u : usb_t) : bool := existsb (has_type USB_HID_KEYBOARD) (hid_devices u).
Definition usb_has_mouse (u : usb_t) : bool := existsb (has_type USB_HID_MOUSE) (hid_devices u).

(** [pointer] says whether the pointer of the caller is not NULL. *)
Definition usb_get_keyboard_char (pointer : bool) (u : usb_t) : option (option Z * usb_t) :=
  if negb pointer then Some (None, u) else usb_dequeue_keyboard_char u.

End Usb.
Import Usb.

(** ** State of the PS/2 drivers *)

Record mouse_event_t := MouseEvent { dx : Z; dy : Z; left : bool; right : bool; middle : bool }.

Record input_t (D : Type) := InputState {
  key_queue : ring Z;
  shift_down : bool;
  mouse_queue : ring mouse_event_t;
  mouse_packet : list Z;
  mouse_packet_offset : Z;
  mouse_x : Z;
  mouse_y : Z;
  mouse_initialized : bool;
  usb : usb_t;
  controller : D
}.
Arguments InputState {D}. Arguments key_queue {D}. Arguments shift_down {D}. Arguments mouse_queue {D}.
Arguments mouse_packet {D}. Arguments mouse_packet_offset {D}. Arguments mouse_x {D}. Arguments mouse_y {D}.
Arguments mouse_initialized {D}. Arguments usb {D}. Arguments controller {D}.

Section input.
Context {D : Type} `{!InputDevice D}.
Implicit Types st : input_t D.

Definition set_keys (r : ring Z) (sh : bool) st : input_t D :=
  InputState r sh (mouse_queue st) (mouse_packet st) (mouse_packet_offset st) (mouse_x st) (mouse_y st)
    (mouse_initialized st) (usb st) (controller st).
Definition set_mouse_queue (r : ring mouse_event_t) st : input_t D :=
  InputState (key_queue st) (shift_down st) r (mouse_packet st) (mouse_packet_offset st) (mouse_x st) (mouse_y st)
    (mouse_initialized st) (usb st) (controller st).
Definition set_packet (p : list Z) (o : Z) st : input_t D :=
  InputState (key_queue st) (shift_down st) (mouse_queue st) p o (mouse_x st) (mouse_y st)
    (mouse_initialized st) (usb st) (controller st).
Definition set_position (x y : Z) st : input_t D :=
  InputState (key_queue st) (shift_down st) (mouse_queue st) (mouse_packet st) (mouse_packet_offset st) x y
    (mouse_initialized st) (usb st) (controller st).
Definition set_usb (u : usb_t) st : input_t D :=
  InputState (key_queue st) (shift_down st) (mouse_queue st) (mouse_packet st) (mouse_packet_offset st)
    (mouse_x st) (mouse_y st) (mouse_initialized st) u (controller st).
Definition set_controller (d : D) st : input_t D :=
  InputState (key_queue st) (shift_down st) (mouse_queue st) (mouse_packet st) (mouse_packet_offset st)
    (mouse_x st) (mouse_y st) (mouse_initialized st) (usb st) d.

Definition on_port {A} (m : io D A) : io (input_t D) A :=
  fun st => match m (controller st) with
            | Ok (a, d) => Ok (a, set_controller d st)
            | Undef => Undef
            | NoFuel => NoFuel
            end.

(** A partial change of the state. *)
Definition step (f : input_t D -> option (input_t D)) : io (input_t D) unit :=
  transform (fun st => match f st with Some st' => Ok st' | None => Undef end).

(** ** USB controller *)

Definition XHCI_PCI_CLASS_SERIAL_BUS : Z := 0x0C.
Definition XHCI_PCI_SUBCLASS_USB : Z := 0x03.
Definition XHCI_PCI_PROGIF_XHCI : Z := 0x30.
Definition XHCI_CMD_RUN_STOP : Z := 0x01.
Definition XHCI_RUNTIME_REG_OFFSET : Z := 0x200.
Definition XHCI_DOORBELL_OFFSET : Z := 0x1000.

(** The search repeats [pci_find_class]. *)
Definition pci_find_xhci_controller : io D (option pci_device_t) :=
  pci_find_class XHCI_PCI_CLASS_SERIAL_BUS XHCI_PCI_SUBCLASS_USB XHCI_PCI_PROGIF_XHCI.

Definition mmio_store (w a v : Z) : io (input_t D) unit :=
  modify (fun st => set_controller (mmio_write w a v (controller st)) st).

(** Addresses that the linker gives to the rings, the segment descriptors
    and the device context array. *)
Context (cmd_ring_addr event_ring_addr cmd_segment_addr event_segment_addr dcbaa_addr : Z).

Definition set_xhci_regs (ports : Z) (ready : bool) (x : xhci_t) : io (input_t D) unit :=
  modify (fun st => set_usb (set_xhci ports ready x (usb st)) st).

Definition usb_initialize : io (input_t D) unit :=
  c ← on_port pci_find_xhci_controller;
  match c with
  | None => skip
  | Some c =>
    st ← gets id;
    let cap := bar0 c in
    let x := xhci (usb st) in
    if cap =? 0 then
      set_xhci_regs (max_ports (usb st)) (xhci_ready (usb st))
        (Xhci cap (xhci_op x) (xhci_ports x) (xhci_runtime x) (xhci_doorbell x) (cmd_ring x) (event_ring x)
          (cmd_ring_segment x) (event_ring_segment x) (dcbaa x))
    else
      let ports := Z.land (mmio_read 4 (cap + 4) (controller st)) 0xFF in
      let cap_len := u8 (mmio_read 1 cap (controller st)) in
      let op := cap + cap_len in
      let rt := cap + cap_len + XHCI_RUNTIME_REG_OFFSET in
      set_xhci_regs ports (xhci_ready (usb st))
        (Xhci cap op (op + 0x400) rt (cap + cap_len + XHCI_DOORBELL_OFFSET)
          (replicate 256 (Trb 0 0 0 0)) (replicate 256 (Trb 0 0 0 0))
          (Segment cmd_ring_addr 256 0) (Segment event_ring_addr 256 0) (replicate 256 0)) ≫= fun _ =>
      mmio_store 8 (op + 16) (Z.lor cmd_segment_addr 1) ≫= fun _ =>
      mmio_store 8 (op + 32) dcbaa_addr ≫= fun _ =>
      mmio_store 4 (op + 40) 1 ≫= fun _ =>
      st ← gets id;
      mmio_store 4 op (Z.lor (mmio_read 4 op (controller st)) XHCI_CMD_RUN_STOP) ≫= fun _ =>
      mmio_store 4 (rt + 32) 1 ≫= fun _ =>
      mmio_store 4 (rt + 36) 0 ≫= fun _ =>
      mmio_store 4 (rt + 40) 1 ≫= fun _ =>
      mmio_store 8 (rt + 48) event_segment_addr ≫= fun _ =>
      mmio_store 8 (rt + 56) event_ring_addr ≫= fun _ =>
      st ← gets id;
      set_xhci_regs (max_ports (usb st)) true (xhci (usb st))
  end.

(** ** Keyboard *)

Definition KBD_DATA_PORT : Z := 0x60.
Definition KBD_STATUS_PORT : Z := 0x64.
Definition KBD_STATUS_OUTPUT_FULL : Z := 0x01.

Definition keyboard_queue_char (c : Z) st : option (input_t D) :=
  '(_, r) ← enqueue advance_256 c (key_queue st);
  Some (set_keys r (shift_down st) st).

Definition usb_keyboard_poll st : option (input_t D) :=
  if usb_has_keyboard (usb st) then
    '(c, u) ← usb_get_keyboard_char true (usb st);
    let st := set_usb u st in
    match c with
    | Some c => if c =? 0 then Some st else keyboard_queue_char c st
    | None => Some st
    end
  else Some st.

Definition keymap : list Z :=
  [0; 0] ++ chars "1234567890-=" ++ [8; 9] ++ chars "qwertyuiop[]" ++ [10; 0] ++ chars "asdfghjkl;'`" ++ [0]
  ++ chars "\zxcvbnm,./" ++ [0; 42; 0; 32; 0].

Definition shift_keymap : list Z :=
  [0; 0] ++ chars "!@#$%^&*()_+" ++ [8; 9] ++ chars "QWERTYUIOP{}" ++ [10; 0] ++ chars "ASDFGHJKL:" ++ [34]
  ++ chars "~" ++ [0] ++ chars "|ZXCVBNM<>?" ++ [0; 42; 0; 32; 0].

(** What is done with a byte from the keyboard. *)
Definition keyboard_scancode (data : Z) st : option (input_t D) :=
  let released := negb (Z.land data 0x80 =? 0) in
  let scancode := Z.land data 0x7F in
  if (scancode =? 0x2A) || (scancode =? 0x36) then Some (set_keys (key_queue st) (negb released) st)
  else if released then Some st
  else
    let chr := table_get (if shift_down st then shift_keymap else keymap) scancode in
    if chr =? 0 then Some st else keyboard_queue_char chr st.

Definition keyboard_poll : io (input_t D) unit :=
  status ← on_port (inb KBD_STATUS_PORT);
  if (Z.land status KBD_STATUS_OUTPUT_FULL =? 0) || negb (Z.land status 0x20 =? 0) then skip
  else
    scancode ← on_port (inb KBD_DATA_PORT);
    step (keyboard_scancode scancode).

Definition keyboard_initialize st : input_t D := set_keys (Ring (slots (key_queue st)) 0 0) false st.

Definition keyboard_has_data : io (input_t D) bool :=
  keyboard_poll ≫= fun _ =>
  step usb_keyboard_poll ≫= fun _ =>
  gets (fun st => negb (head (key_queue st) =? tail (key_queue st))).

(** Zero stands for no character. *)
Definition keyboard_read_char : io (input_t D) Z :=
  keyboard_poll ≫= fun _ =>
  step usb_keyboard_poll ≫= fun _ =>
  st ← gets id;
  r ← lift (dequeue advance_256 (key_queue st));
  modify (set_keys r.2 (shift_down st)) ≫= fun _ =>
  mret (default 0 r.1).

(** ** Mouse *)

Definition PS2_STATUS_PORT : Z := 0x64.
Definition PS2_DATA_PORT : Z := 0x60.
Definition PS2_STATUS_OUTPUT_FULL : Z := 0x01.
Definition PS2_STATUS_MOUSE_DATA : Z := 0x20.

Definition queue_is_full st : bool := advance_mask32 (tail (mouse_queue st)) =? head (mouse_queue st).
Definition queue_is_empty st : bool := head (mouse_queue st) =? tail (mouse_queue st).

(** A full queue drops the event. *)
Definition enqueue_mouse_event (e : mouse_event_t) st : option (input_t D) :=
  '(_, r) ← enqueue advance_mask32 e (mouse_queue st);
  Some (set_mouse_queue r st).

(** The event of a packet of three bytes. *)
Definition packet_event (b0 b1 b2 : Z) : mouse_event_t :=
  MouseEvent (s8 b1) (s8 b2) (negb (Z.land b0 0x01 =? 0)) (negb (Z.land b0 0x02 =? 0)) (negb (Z.land b0 0x04 =? 0)).

Definition process_ps2_packet st : option (input_t D) :=
  b0 ← aget (mouse_packet st) 0;
  b1 ← aget (mouse_packet st) 1;
  b2 ← aget (mouse_packet st) 2;
  enqueue_mouse_event (packet_event b0 b1 b2) st.

(** What is done with a byte from the mouse. *)
Definition mouse_byte (data : Z) st : option (input_t D) :=
  if (mouse_packet_offset st =? 0) && (Z.land data 0x08 =? 0) then Some st
  else
    p ← aset (mouse_packet st) (mouse_packet_offset st) data;
    let st := set_packet p (mouse_packet_offset st + 1) st in
    if 3 <=? mouse_packet_offset st then
      st ← process_ps2_packet st;
      Some (set_packet (mouse_packet st) 0 st)
    else Some st.

Definition mouse_poll_ps2 : io (input_t D) unit :=
  status ← on_port (inb PS2_STATUS_PORT);
  if (Z.land status PS2_STATUS_OUTPUT_FULL =? 0) || (Z.land status PS2_STATUS_MOUSE_DATA =? 0) then skip
  else
    data ← on_port (inb PS2_DATA_PORT);
    step (mouse_byte data).

Definition wait_input_buffer_clear : io (input_t D) unit :=
  for_break (Z.to_nat 100000) (v ← on_port (inb PS2_STATUS_PORT); mret (Z.land v 0x02 =? 0)).

(** Waiting for the answer; [n] rounds are left. *)
Fixpoint await_response (n : nat) : io (input_t D) bool :=
  match n with
  | O => mret false
  | S n' =>
    status ← on_port (inb PS2_STATUS_PORT);
    if Z.land status PS2_STATUS_OUTPUT_FULL =? 0 then await_response n'
    else response ← on_port (inb PS2_DATA_PORT); mret (response =? 0xFA)
  end.

Definition send_mouse_command (command : Z) : io (input_t D) bool :=
  wait_input_buffer_clear ≫= fun _ =>
  on_port (outb PS2_STATUS_PORT 0xD4) ≫= fun _ =>
  wait_input_buffer_clear ≫= fun _ =>
  on_port (outb PS2_DATA_PORT command) ≫= fun _ =>
  await_response (Z.to_nat 100000).

Definition mouse_initialize : io (input_t D) unit :=
  modify (fun st => InputState (key_queue st) (shift_down st) (Ring (slots (mouse_queue st)) 0 0) (mouse_packet st) 0
    40 12 true (usb st) (controller st)) ≫= fun _ =>
  send_mouse_command 0xF6 ≫= fun _ =>
  send_mouse_command 0xF4 ≫= fun _ =>
  usb_initialize ≫= fun _ =>
  modify (fun st => set_usb (usb_poll (controller st) (usb st)) st).

(** The event of the oldest report. *)
Definition usb_get_mouse_report (u : usb_t) : option (option mouse_event_t * usb_t) :=
  '(report, u) ← usb_dequeue_mouse_event u;
  match report with
  | None => Some (None, u)
  | Some r =>
    b0 ← aget r 0;
    b1 ← aget r 1;
    b2 ← aget r 2;
    Some (Some (packet_event b0 b1 b2), u)
  end.

Definition poll_usb_mouse st : option (input_t D) :=
  let st := set_usb (usb_poll (controller st) (usb st)) st in
  if negb (usb_has_mouse (usb st)) then Some st
  else
    '(event, u) ← usb_get_mouse_report (usb st);
    let st := set_usb u st in
    match event with
    | None => Some st
    | Some e => enqueue_mouse_event e st
    end.

Definition mouse_has_event : io (input_t D) bool :=
  st ← gets id;
  if negb (mouse_initialized st) then mret false
  else
    mouse_poll_ps2 ≫= fun _ =>
    step poll_usb_mouse ≫= fun _ =>
    gets (fun st => negb (queue_is_empty st)).

Definition no_event : mouse_event_t := MouseEvent 0 0 false false false.

(** [pointers] says whether no pointer of the caller is NULL; the result is
    what is stored through those that are not. *)
Definition mouse_get_event (pointers : bool) st : option (mouse_event_t * input_t D) :=
  if queue_is_empty st || negb pointers then Some (no_event, st)
  else
    e ← aget (mouse_queue st).(slots) (head (mouse_queue st));
    let st := set_mouse_queue (Ring (slots (mouse_queue st)) (advance_mask32 (head (mouse_queue st)))
      (tail (mouse_queue st))) st in
    let x := mouse_x st + dx e in
    let y := mouse_y st - dy e in
    let x := if x <? 0 then 0 else if 79 <? x then 79 else x in
    let y := if y <? 0 then 0 else if 23 <? y then 23 else y in
    Some (e, set_position x y st).

Definition mouse_get_x st : Z := mouse_x st.
Definition mouse_get_y st : Z := mouse_y st.
End input.

(** ** A keyboard and a mouse behind one controller

    The controller delivers tagged bytes one by one; the tag, [true] for the
    mouse, is bit 5 of its status. *)
Record ps2_device := Ps2 { pending : list (bool * Z) }.

#[export] Instance ps2_input : InputDevice ps2_device := {|
  input_ports := {|
    port_in w port d :=
      if port =? 0x64 then (match pending d with [] => 0 | (m, _) :: _ => if m : bool then 0x21 else 1 end, d)
      else match pending d with [] => (0, d) | (_, b) :: bs => (b, Ps2 bs) end;
    port_out _ _ _ d := d
  |};
  mmio_read _ _ _ := 0;
  mmio_write _ _ _ d := d
|}.

(** What a sequence of bytes from the keyboard types: the characters, and
    whether a shift key is down at the end. *)
Fixpoint typed (shift : bool) (scs : list Z) : list Z * bool :=
  match scs with
  | [] => ([], shift)
  | sc :: scs' =>
    let pressed := sc <? 128 in
    let key := sc mod 128 in
    if (key =? 42) || (key =? 54) then typed pressed scs'
    else
      let '(cs, sh) := typed shift scs' in
      let c := table_get (if shift then shift_keymap else keymap) key in
      (if pressed && negb (c =? 0) then c :: cs else cs, sh)
  end.

(** What a sequence of bytes from the mouse says after the bytes [part] of an
    unfinished packet: the events, and the packet that is left unfinished.
    A packet starts at a byte with bit 3 set. *)
Fixpoint moved (part bs : list Z) : list mouse_event_t * list Z :=
  match bs with
  | [] => ([], part)
  | b :: bs' =>
    match part with
    | [] => if bit_test b 3 then moved [b] bs' else moved [] bs'
    | [b0] => moved [b0; b] bs'
    | b0 :: b1 :: _ => let '(es, p) := moved [] bs' in (packet_event b0 b1 b :: es, p)
    end
  end.

(** A queue takes elements until it holds [n] of them. *)
Definition fill {A} (n : nat) (l l' : list A) : list A := take n (l ++ l').

Section fill.
Context {A : Type} (n : nat).
Implicit Types l : list A.

Lemma fill_fill l l1 l2 : fill n (fill n l l1) l2 = fill n l (l1 ++ l2).
Proof.
  unfold fill. rewrite app_assoc. destruct (decide (length (l ++ l1) <= n)%nat).
  - by rewrite (take_ge (l ++ l1)) by done.
  - rewrite take_app_le by (rewrite length_take; lia). rewrite take_take, Nat.min_id.
    by rewrite (take_app_le (l ++ l1) l2) by lia.
Qed.

Lemma fill_length l l' : (length (fill n l l') <= n)%nat.
Proof. unfold fill. rewrite length_take. lia. Qed.

Lemma fill_nil l : (length l <= n)%nat -> fill n l [] = l.
Proof. intros. unfold fill. rewrite app_nil_r. by apply take_ge. Qed.

Lemma enqueue_fill (size : Z) adv `{!RingIndex size adv} e r l :
  size = Z.of_nat n + 1 -> holds size r l -> (length l <= n)%nat ->
  exists b r', enqueue adv e r = Some (b, r') /\ holds size r' (fill n l [e]).
Proof.
  intros Hsize Hl Hlen. destruct (enqueue_ok size adv e r l Hl) as (r' & E & Hr).
  eexists _, r'. split; [exact E|]. unfold fill. revert Hr. case_cmp; intros Hr.
  - rewrite take_ge; [done|]. rewrite length_app. simpl. lia.
  - rewrite take_app_le by lia. by rewrite take_ge by lia.
Qed.
End fill.

(** What the drivers have received: the characters in the queue, the shift
    key, the events in the queue and the packet that is being received. *)
Record received := Received { chars_of : list Z; shift_of : bool; events_of : list mouse_event_t; part_of : list Z }.

Record sees (st : input_t ps2_device) (a : received) : Prop := {
  sees_chars : holds 256 (key_queue st) (chars_of a);
  sees_chars_len : (length (chars_of a) <= 255)%nat;
  sees_shift : shift_down st = shift_of a;
  sees_events : holds 32 (mouse_queue st) (events_of a);
  sees_events_len : (length (events_of a) <= 31)%nat;
  sees_offset : mouse_packet_offset st = Z.of_nat (length (part_of a));
  sees_part_len : (length (part_of a) <= 2)%nat;
  sees_part : take (length (part_of a)) (mouse_packet st) = part_of a;
  sees_packet : length (mouse_packet st) = 3%nat
}.

(** The state that the two drivers share with nobody is all that changes. *)
Definition unmoved (st st' : input_t ps2_device) : Prop :=
  mouse_x st' = mouse_x st /\ mouse_y st' = mouse_y st /\
  mouse_initialized st' = mouse_initialized st /\ usb st' = usb st.

(** The effect of a byte. *)
Definition receive (a : received) (mb : bool * Z) : received :=
  let '(m, b) := mb in
  if m : bool then
    Received (chars_of a) (shift_of a) (fill 31 (events_of a) (moved (part_of a) [b]).1) (moved (part_of a) [b]).2
  else
    Received (fill 255 (chars_of a) (typed (shift_of a) [b]).1) (typed (shift_of a) [b]).2 (events_of a) (part_of a).

Lemma scancode_fields data : is_byte data ->
  negb (Z.land data 0x80 =? 0) = negb (data <? 128) /\ Z.land data 0x7F = data mod 128.
Proof.
  intros Hd. unfold is_byte in Hd. split; [|apply (land_low _ 7); lia].
  assert (E : Z.land data (Z.shiftl (Z.ones 1) 7) = (data / 2 ^ 7) mod 2 ^ 1 * 2 ^ 7) by (apply land_field; lia).
  change (Z.shiftl (Z.ones 1) 7) with 128 in E. change (2 ^ 7) with 128 in E. change (2 ^ 1) with 2 in E.
  rewrite E. clear E. case_cmp; case_cmp; done || lia.
Qed.

Lemma scancode_ok st a b :
  is_byte b -> sees st a ->
  exists st', keyboard_scancode b st = Some st' /\ sees st' (receive a (false, b)) /\ unmoved st st' /\
    controller st' = controller st.
Proof.
  intros Hb Hs. unfold keyboard_scancode. destruct (scancode_fields b Hb) as [-> ->].
  cbn [receive typed]. set (key := b mod 128). rewrite (sees_shift _ _ Hs). destruct ((key =? 42) || (key =? 54)).
  - cbn [fst snd]. rewrite negb_involutive, fill_nil by apply Hs.
    eexists. split; [done|]. split; [|done]. by destruct Hs; constructor.
  - cbn [fst snd]. destruct (b <? 128); cbn [negb andb].
    2: { rewrite fill_nil by apply Hs. exists st. by destruct Hs. }
    set (c := table_get _ key). destruct (c =? 0); cbn [negb].
    { rewrite fill_nil by apply Hs. exists st. by destruct Hs. }
    unfold keyboard_queue_char.
    destruct (enqueue_fill 255 256 advance_256 c _ _ eq_refl (sees_chars _ _ Hs) (sees_chars_len _ _ Hs))
      as (ok & r & -> & Hr).
    cbn [mbind option_bind]. eexists. split; [done|]. split; [|done].
    destruct Hs; constructor; try done. apply fill_length.
Qed.

(** Storing the next byte of a packet. *)
Lemma store_packet (p part : list Z) b :
  length p = 3%nat -> (length part <= 2)%nat -> take (length part) p = part ->
  exists p', aset p (Z.of_nat (length part)) b = Some p' /\ length p' = 3%nat /\
    take (length (part ++ [b])) p' = part ++ [b].
Proof.
  intros Hp Hlen Hpart. exists (<[length part := b]> p). split_and!.
  - rewrite aset_in_range by lia. by rewrite Nat2Z.id.
  - by rewrite length_insert.
  - rewrite length_app. simpl. rewrite Nat.add_1_r, (take_S_r _ _ b) by (apply list_lookup_insert_eq; lia).
    by rewrite take_insert_ge, Hpart by lia.
Qed.

Lemma mouse_byte_ok st a b :
  sees st a ->
  exists st', mouse_byte b st = Some st' /\ sees st' (receive a (true, b)) /\ unmoved st st' /\
    controller st' = controller st.
Proof.
  intros Hs. destruct a as [cs sh es part]. pose proof Hs as [Hc Hcl Hsh He Hel Ho Hpl Hp Hlen].
  cbn [chars_of shift_of events_of part_of] in *. unfold mouse_byte. rewrite Ho.
  destruct (store_packet _ part b Hlen Hpl Hp) as (p & Ep & Hp3 & Htake).
  destruct part as [|b0 [|b1 [|b2 part]]]; [| | |simpl in Hpl; lia];
    cbn [receive moved chars_of shift_of events_of part_of].
  - change (Z.land b 8 =? 0) with (Z.land b (Z.shiftl 1 3) =? 0). change (Z.of_nat (length [])) with 0 in *.
    unfold bit_test. destruct (Z.land b (Z.shiftl 1 3) =? 0); cbn [andb negb Z.eqb fst snd]; rewrite fill_nil by done.
    + by exists st.
    + rewrite Ep. cbn. eexists. split; [done|]. split; [|done]. constructor; try done; simpl; lia.
  - change (Z.of_nat (length [b0])) with 1 in *. cbn [andb Z.eqb fst snd]. rewrite fill_nil by done.
    rewrite Ep. cbn. eexists. split; [done|]. split; [|done]. constructor; try done; simpl; lia.
  - change (Z.of_nat (length [b0; b1])) with 2 in *. cbn [andb Z.eqb fst snd]. rewrite Ep.
    destruct p as [|x0 [|x1 [|x2 [|? ?]]]]; try done. simpl in Htake. injection Htake as -> -> ->.
    unfold process_ps2_packet, enqueue_mouse_event.
    destruct (enqueue_fill 31 32 advance_mask32 (packet_event b0 b1 b) _ _ eq_refl He Hel) as (ok & r & E & Hr).
    cbn in E |- *. change (Z.to_nat 0) with 0%nat. change (Z.to_nat 1) with 1%nat. change (Z.to_nat 2) with 2%nat.
    cbn. rewrite E. cbn. eexists. split; [done|]. split; [|done]. constructor; try done; simpl; try lia. apply fill_length.
Qed.

(** Reading the ports of the controller. *)
Lemma read_status (st : input_t ps2_device) :
  on_port (inb 0x64) st
    = Ok (match pending (controller st) with [] => 0 | (m, _) :: _ => if m : bool then 0x21 else 1 end, st).
Proof.
  destruct st as [? ? ? ? ? ? ? ? ? [bs]]. unfold on_port, inb, in_width. by destruct bs as [|[[] b] bs].
Qed.

Lemma read_data (st : input_t ps2_device) m b bs :
  is_byte b -> pending (controller st) = (m, b) :: bs ->
  on_port (inb 0x60) st = Ok (b, set_controller (Ps2 bs) st).
Proof.
  intros Hb Hp. unfold is_byte in Hb. unfold on_port, inb, in_width. cbn. rewrite Hp. change (u16 96 =? 100) with false. cbv iota.
  by rewrite (wrap_small (8 * 1)) by (change (2 ^ (8 * 1)) with 256; lia).
Qed.

Lemma sees_controller st a d : sees st a -> sees (set_controller d st) a.
Proof. intros []. by constructor. Qed.

(** One poll takes [taken] from the bytes that the controller holds. *)
Definition takes (poll : io (input_t ps2_device) unit) (st : input_t ps2_device) (a : received)
    (taken rest : list (bool * Z)) : Prop :=
  exists st', poll st = Ok (tt, st') /\ pending (controller st') = rest /\ sees st' (foldl receive a taken) /\
    unmoved st st'.

(** The byte at the head when it comes from device [m], and what follows. *)
Definition own (m : bool) (bs : list (bool * Z)) : list (bool * Z) :=
  match bs with (m', b) :: _ => if Bool.eqb m m' then [(m', b)] else [] | [] => [] end.
Definition others (m : bool) (bs : list (bool * Z)) : list (bool * Z) :=
  match bs with (m', _) :: bs' => if Bool.eqb m m' then bs' else bs | [] => [] end.

Lemma own_others m bs : own m bs ++ others m bs = bs.
Proof. destruct bs as [|[m' b] bs]; [done|]. simpl. by destruct (Bool.eqb m m'). Qed.

(** Each driver takes the byte at the head when it is its own. *)
Lemma keyboard_poll_ok st a bs :
  Forall (fun mb => is_byte mb.2) bs -> sees st a -> pending (controller st) = bs ->
  takes keyboard_poll st a (own false bs) (others false bs).
Proof.
  intros Hb Hs Hp. unfold takes, keyboard_poll, KBD_STATUS_PORT, KBD_DATA_PORT.
  rewrite (bind_ok _ _ _ _ _ (read_status st)), Hp. destruct bs as [|[[] b] bs].
  1-2: by exists st.
  apply Forall_cons in Hb as [Hb _]. cbn [Z.land Z.eqb orb negb].
  change ((Z.land 1 KBD_STATUS_OUTPUT_FULL =? 0) || _) with false. cbv iota.
  rewrite (bind_ok _ _ _ _ _ (read_data st false b bs Hb Hp)).
  destruct (scancode_ok (set_controller (Ps2 bs) st) a b Hb (sees_controller _ _ _ Hs)) as (st' & E & Hs' & Hu & Hc).
  exists st'. split_and!; [|by rewrite Hc|done|done]. unfold step, transform. by rewrite E.
Qed.

Lemma mouse_poll_ok st a bs :
  Forall (fun mb => is_byte mb.2) bs -> sees st a -> pending (controller st) = bs ->
  takes mouse_poll_ps2 st a (own true bs) (others true bs).
Proof.
  intros Hb Hs Hp. unfold takes, mouse_poll_ps2, PS2_STATUS_PORT, PS2_DATA_PORT.
  rewrite (bind_ok _ _ _ _ _ (read_status st)), Hp. destruct bs as [|[[] b] bs].
  1, 3: by exists st.
  apply Forall_cons in Hb as [Hb _].
  change ((Z.land 0x21 PS2_STATUS_OUTPUT_FULL =? 0) || _) with false. cbv iota.
  rewrite (bind_ok _ _ _ _ _ (read_data st true b bs Hb Hp)).
  destruct (mouse_byte_ok (set_controller (Ps2 bs) st) a b (sees_controller _ _ _ Hs)) as (st' & E & Hs' & Hu & Hc).
  exists st'. split_and!; [|by rewrite Hc|done|done]. unfold step, transform. by rewrite E.
Qed.

Definition poll_both {D} `{!InputDevice D} : io (input_t D) unit := keyboard_poll ≫= fun _ => mouse_poll_ps2.

Lemma unmoved_trans st1 st2 st3 : unmoved st1 st2 -> unmoved st2 st3 -> unmoved st1 st3.
Proof. unfold unmoved. intuition congruence. Qed.

Lemma takes_bind m1 m2 st a t1 t2 mid rest :
  takes m1 st a t1 mid ->
  (forall st', sees st' (foldl receive a t1) -> pending (controller st') = mid ->
    takes m2 st' (foldl receive a t1) t2 rest) ->
  takes (m1 ≫= fun _ => m2) st a (t1 ++ t2) rest.
Proof.
  intros (st1 & E1 & Hp1 & Hs1 & Hu1) H2. destruct (H2 st1 Hs1 Hp1) as (st2 & E2 & Hp2 & Hs2 & Hu2).
  exists st2. rewrite (bind_ok _ _ _ _ _ E1), foldl_app. split_and!; try done. by eapply unmoved_trans.
Qed.

(** A round takes at least one byte when there is one. *)
Lemma poll_both_ok st a bs :
  Forall (fun mb => is_byte mb.2) bs -> sees st a -> pending (controller st) = bs ->
  exists taken rest, bs = taken ++ rest /\ takes poll_both st a taken rest /\ (bs = [] \/ taken <> []).
Proof.
  intros Hb Hs Hp. set (mid := others false bs).
  assert (E : bs = (own false bs ++ own true mid) ++ others true mid)
    by (by rewrite <- app_assoc, own_others; unfold mid; rewrite own_others).
  exists (own false bs ++ own true mid), (others true mid). split_and!; [done| |].
  - eapply takes_bind; [by apply keyboard_poll_ok|]. intros st' Hs' Hp'. apply mouse_poll_ok; try done.
    rewrite <- (own_others false bs) in Hb. by apply Forall_app in Hb as [_ Hb].
  - unfold mid. destruct bs as [|[[] b] bs]; [by left|by right..].
Qed.

Lemma polls_ok n i st a bs :
  Forall (fun mb => is_byte mb.2) bs -> sees st a -> pending (controller st) = bs -> (length bs <= n)%nat ->
  takes (for_loop n i (fun _ => poll_both)) st a bs [].
Proof.
  revert i st a bs. induction n as [|n IH]; intros i st a bs Hb Hs Hp Hlen.
  - destruct bs; [|simpl in Hlen; lia]. by exists st.
  - destruct (poll_both_ok st a bs Hb Hs Hp) as (t & rest & E & Ht & Hprog). cbn [for_loop].
    rewrite E. eapply takes_bind; [done|]. intros st' Hs' Hp'. apply IH; try done.
    + rewrite E in Hb. by apply Forall_app in Hb as [_ Hb].
    + rewrite E in Hlen, Hprog. rewrite length_app in Hlen. destruct Hprog as [Hnil|Hne].
      * apply app_nil in Hnil as [-> ->]. simpl. lia.
      * destruct t; [done|]. simpl in Hlen. lia.
Qed.

(** The bytes of one of the two devices. *)
Definition bytes_of (m : bool) (bs : list (bool * Z)) : list Z := (filter (fun mb => mb.1 = m) bs).*2.

Lemma typed_cons sh b bs :
  typed sh (b :: bs) =
    ((typed sh [b]).1 ++ (typed (typed sh [b]).2 bs).1, (typed (typed sh [b]).2 bs).2).
Proof.
  cbn [typed]. destruct (_ || _); cbn [fst snd]; [by destruct (typed (b <? 128) bs)|].
  destruct (typed sh bs) as [cs sh']. by destruct (_ && _).
Qed.

Lemma moved_cons part b bs :
  moved part (b :: bs) =
    ((moved part [b]).1 ++ (moved (moved part [b]).2 bs).1, (moved (moved part [b]).2 bs).2).
Proof.
  destruct part as [|b0 [|b1 part]]; cbn [moved]; [destruct (bit_test b 3)| |]; cbn [fst snd app];
    by destruct (moved _ bs).
Qed.

(** All bytes together: the two devices do not disturb each other. *)
Lemma receive_all bs cs sh es part :
  (length cs <= 255)%nat -> (length es <= 31)%nat ->
  foldl receive (Received cs sh es part) bs =
    Received (fill 255 cs (typed sh (bytes_of false bs)).1) (typed sh (bytes_of false bs)).2
      (fill 31 es (moved part (bytes_of true bs)).1) (moved part (bytes_of true bs)).2.
Proof.
  revert cs sh es part. induction bs as [|[[] b] bs IH]; intros cs sh es part Hcs Hes.
  - cbn. by rewrite !fill_nil.
  - change (bytes_of false ((true, b) :: bs)) with (bytes_of false bs).
    change (bytes_of true ((true, b) :: bs)) with (b :: bytes_of true bs).
    rewrite moved_cons. cbn [foldl receive]. rewrite IH by (done || apply fill_length).
    cbn [fst snd]. by rewrite fill_fill.
  - change (bytes_of true ((false, b) :: bs)) with (bytes_of true bs).
    change (bytes_of false ((false, b) :: bs)) with (b :: bytes_of false bs).
    rewrite typed_cons. cbn [foldl receive]. rewrite IH by (done || apply fill_length).
    cbn [fst snd]. by rewrite fill_fill.
Qed.

(** C25: one controller, two drivers. The keyboard and the mouse deliver their
    bytes through one pair of ports, interleaved in any way. Enough rounds of
    the two polling routines (one per byte is enough) empty the controller:
    the keyboard queue gains exactly the characters that the bytes of the
    keyboard type, with the shift keys followed through their press and
    release codes, until it holds 255; the mouse queue gains exactly the
    events of the packets that the bytes of the mouse form, resynchronised at
    the first byte with bit 3 set, until it holds 31; the unfinished packet is
    kept. The position of the mouse and the USB state do not change. *)
Theorem ps2_demultiplexes n (st : input_t ps2_device) a :
  let bs := pending (controller st) in
  Forall (fun mb => is_byte mb.2) bs -> sees st a -> (length bs <= n)%nat ->
  let '(cs, sh) := typed (shift_of a) (bytes_of false bs) in
  let '(es, part) := moved (part_of a) (bytes_of true bs) in
  exists st', for_loop n 0 (fun _ => poll_both) st = Ok (tt, st') /\ pending (controller st') = [] /\ unmoved st st' /\
    sees st' (Received (take 255 (chars_of a ++ cs)) sh (take 31 (events_of a ++ es)) part).
Proof.
  intros bs Hb Hs Hlen. destruct (polls_ok n 0 st a bs Hb Hs eq_refl Hlen) as (st' & E & Hp & Hs' & Hu).
  destruct a as [cs sh es part]. rewrite receive_all in Hs' by apply Hs. cbn [chars_of shift_of events_of part_of] in *.
  destruct (typed sh (bytes_of false bs)) as [cs' sh']. destruct (moved part (bytes_of true bs)) as [es' part'].
  by exists st'.
Qed.

(** Shift down, [h], shift up and [i] on the keyboard, and between them a
    stray byte and a packet of the mouse. *)
Definition no_xhci : xhci_t :=
  Xhci 0 0 0 0 0 (replicate 256 (Trb 0 0 0 0)) (replicate 256 (Trb 0 0 0 0)) (Segment 0 0 0) (Segment 0 0 0)
    (replicate 256 0).
Definition quiet_usb : usb_t :=
  UsbState (replicate 4 (Hid false 0 0 USB_HID_NONE 0 0 0)) (empty_ring 64 0) (empty_ring 32 []) 40 12 0 false no_xhci.
Definition busy_hands : input_t ps2_device :=
  InputState (empty_ring 256 0) false (empty_ring 32 no_event) [0; 0; 0] 0 40 12 true quiet_usb
    (Ps2 [(false, 0x2A); (true, 5); (false, 0x23); (true, 9); (true, 255); (false, 0xA3); (false, 0xAA); (true, 2);
          (false, 0x17)]).

Lemma ps2_demultiplexes_witness :
  exists st', for_loop 9 0 (fun _ => poll_both) busy_hands = Ok (tt, st') /\ pending (controller st') = [] /\
    unmoved busy_hands st' /\
    sees st' (Received [72; 105] false [MouseEvent (-1) 2 true false false] []).
Proof.
  assert (Hs : sees busy_hands (Received [] false [] [])).
  { constructor; try reflexivity; cbn; try lia.
    - exact (empty_ring_holds 256 0 ltac:(lia)).
    - exact (empty_ring_holds 32 no_event ltac:(lia)). }
  assert (Hb : Forall (fun mb => is_byte mb.2) (pending (controller busy_hands)))
    by (repeat apply Forall_cons_2; try apply Forall_nil_2; unfold is_byte; simpl; lia).
  exact (ps2_demultiplexes 9 busy_hands _ Hb Hs ltac:(simpl; lia)).
Defined.

(** ** Reading the events of the mouse *)

(** The position after an event, kept on the screen. *)
Definition walk (p : Z * Z) (e : mouse_event_t) : Z * Z :=
  (Z.max 0 (Z.min 79 (p.1 + dx e)), Z.max 0 (Z.min 23 (p.2 - dy e))).

Fixpoint get_events {D} (n : nat) (st : input_t D) : option (list mouse_event_t * input_t D) :=
  match n with
  | O => Some ([], st)
  | S n' =>
    '(e, st) ← mouse_get_event true st;
    '(es, st) ← get_events n' st;
    Some (e :: es, st)
  end.

Lemma get_event_dequeue {D} (st : input_t D) :
  mouse_get_event true st =
    '(e, r) ← dequeue advance_mask32 (mouse_queue st);
    Some match e with
         | None => (no_event, st)
         | Some e => let '(x, y) := walk (mouse_x st, mouse_y st) e in (e, set_position x y (set_mouse_queue r st))
         end.
Proof.
  unfold mouse_get_event, dequeue, queue_is_empty. cbn [negb]. rewrite orb_false_r. destruct (head _ =? tail _); [done|].
  destruct (aget _ _) as [e|]; [|done]. cbn. do 3 f_equal; repeat case_cmp; lia.
Qed.

(** Following the mouse. Reading the events one by one yields exactly the
    queued events in their order and leaves the queue empty; the position is
    the old one moved by each event in turn, kept in the 80 by 24 cells of the
    screen after every step. A further read yields the zero event and changes
    nothing. *)
Theorem mouse_events_followed {D} (st : input_t D) es :
  holds 32 (mouse_queue st) es ->
  let '(x, y) := foldl walk (mouse_x st, mouse_y st) es in
  exists r, let st' := set_position x y (set_mouse_queue r st) in
    get_events (length es) st = Some (es, st') /\ holds 32 r [] /\ mouse_get_event true st' = Some (no_event, st') /\
    (es <> [] \/ (0 <= mouse_x st <= 79 /\ 0 <= mouse_y st <= 23) -> 0 <= x <= 79 /\ 0 <= y <= 23).
Proof.
  revert st. induction es as [|e es IH]; intros st Hes.
  - exists (mouse_queue st). split_and!; [by destruct st|done| |intros [?|?]; [done|lia]].
    rewrite get_event_dequeue. destruct (dequeue_ok 32 advance_mask32 (mouse_queue st) [] Hes) as (r & E & _).
    cbn [mouse_queue set_position set_mouse_queue]. by rewrite E.
  - cbn [foldl length get_events]. rewrite get_event_dequeue.
    destruct (dequeue_ok 32 advance_mask32 (mouse_queue st) (e :: es) Hes) as (r & -> & Hr).
    cbn [mbind option_bind list.head]. destruct (walk (mouse_x st, mouse_y st) e) as [x y] eqn:Ew.
    specialize (IH (set_position x y (set_mouse_queue r st)) Hr). cbn [mouse_x mouse_y set_position] in IH.
    destruct (foldl walk (x, y) es) as [x' y']. destruct IH as (r' & E & Hr' & Hnone & Hpos).
    exists r'. rewrite E. split_and!; try done. intros _. apply Hpos. right.
    injection Ew as <- <-. lia.
Qed.

Definition dragged : input_t ps2_device :=
  InputState (empty_ring 256 0) false
    (Ring ([MouseEvent 100 3 true false false; MouseEvent (-2) (-9) false false false] ++ replicate 30 no_event) 0 2)
    [0; 0; 0] 0 40 12 true quiet_usb (Ps2 []).

Lemma mouse_events_followed_witness :
  exists r, get_events 2 dragged =
    Some ([MouseEvent 100 3 true false false; MouseEvent (-2) (-9) false false false],
          set_position 77 18 (set_mouse_queue r dragged)) /\ holds 32 r [].
Proof.
  assert (H : holds 32 (mouse_queue dragged)
    [MouseEvent 100 3 true false false; MouseEvent (-2) (-9) false false false]).
  { constructor; try reflexivity; try (cbn; lia). intros [|[|k]] Hk; [reflexivity..|simpl in Hk; lia]. }
  destruct (mouse_events_followed dragged _ H) as (r & E & Hr & _). by exists r.
Defined.

(** ** Attaching USB devices *)

Section attach.
Context (old : list usb_hid_device_t) (Hold : length old = MAX_HID_DEVICES)
  (Hfree : Forall (fun h => attached h = false) old).

(** The table after devices appeared at the ports [ps], in this order. *)
Definition hid_table (ps : list Z) : list usb_hid_device_t :=
  imap (fun i port => new_hid port i) (take MAX_HID_DEVICES ps) ++ drop (length ps) old.

Definition port_ok (port : Z) : Prop := 0 <= port < 255.

Lemma table_lookup ps i h :
  hid_table ps !! i = Some h ->
  (exists port, ps !! i = Some port /\ (i < MAX_HID_DEVICES)%nat /\ h = new_hid port i) \/
  (length ps <= i)%nat /\ attached h = false.
Proof using Hold Hfree.
  unfold hid_table, MAX_HID_DEVICES in *. intros [Hi|[Hge Hi]]%lookup_app_Some.
  - rewrite list_lookup_imap in Hi. apply fmap_Some in Hi as (port & Hp & ->).
    apply lookup_take_Some in Hp as [Hp Hlt]. left. eauto.
  - right. rewrite length_imap, length_take in Hge. rewrite lookup_drop in Hi.
    rewrite length_imap, length_take in Hi. pose proof (lookup_lt_Some _ _ _ Hi). split; [lia|].
    by rewrite Forall_lookup in Hfree; eapply Hfree.
Qed.

Lemma is_at_new port i p : port_ok port -> port_ok p -> is_at port (new_hid p i) = (p =? port).
Proof.
  unfold port_ok. intros Hport Hp. unfold is_at. cbn [new_hid attached hid_address andb].
  unfold u8. rewrite wrap_small by (change (2 ^ 8) with 256; lia). case_cmp; case_cmp; done || lia.
Qed.

Lemma find_at ps port :
  port_ok port -> Forall port_ok ps -> port ∉ ps -> first_index (is_at port) (hid_table ps) = None.
Proof using Hold Hfree.
  intros Hport Hps Hnew. apply first_index_None. intros i h [(p & Hp & _ & ->)|[_ Hh]]%table_lookup.
  - rewrite Forall_lookup in Hps. rewrite is_at_new by eauto. apply Z.eqb_neq. intros ->.
    apply Hnew. by eapply list_elem_of_lookup_2.
  - unfold is_at. by rewrite Hh.
Qed.

Lemma find_unused ps :
  first_index is_unused (hid_table ps) = if (length ps <? MAX_HID_DEVICES)%nat then Some (length ps) else None.
Proof using Hold Hfree.
  destruct (Nat.ltb_spec (length ps) MAX_HID_DEVICES) as [Hlt|Hge].
  - apply first_index_Some.
    destruct (lookup_lt_is_Some_2 (hid_table ps) (length ps)) as [h Hh].
    { unfold hid_table, MAX_HID_DEVICES in *. rewrite length_app, length_imap, length_take, length_drop. lia. }
    exists h. split; [done|]. split.
    + apply table_lookup in Hh as [(p & Hp & _)|[_ Hh]]; [|unfold is_unused; by rewrite Hh].
      apply lookup_lt_Some in Hp. lia.
    + intros j h' Hj [(p & _ & _ & ->)|[Hle _]]%table_lookup; [done|lia].
  - apply first_index_None. intros i h Hi. pose proof (lookup_lt_Some _ _ _ Hi) as Hlen.
    apply table_lookup in Hi as [(p & _ & _ & ->)|[Hle _]]; [done|].
    unfold hid_table, MAX_HID_DEVICES in *. rewrite length_app, length_imap, length_take, length_drop in Hlen. lia.
Qed.

Lemma attach_new ps port :
  port_ok port -> Forall port_ok ps -> port ∉ ps -> attach port (hid_table ps) = hid_table (ps ++ [port]).
Proof using Hold Hfree.
  intros Hport Hps Hnew. unfold attach. rewrite find_at, find_unused by done. unfold hid_table.
  destruct (Nat.ltb_spec (length ps) MAX_HID_DEVICES) as [Hlt|Hge].
  - rewrite !take_ge by (rewrite ?length_app; simpl; lia). rewrite insert_app_r_alt by (rewrite length_imap; lia).
    rewrite length_imap, Nat.sub_diag, imap_app, length_app, <- app_assoc. simpl. f_equal.
    destruct (drop (length ps) old) as [|h rest] eqn:E.
    { apply (f_equal length) in E. rewrite length_drop in E. simpl in E. lia. }
    simpl. rewrite Nat.add_0_r. f_equal. rewrite <- drop_drop, E. done.
  - rewrite take_app_le, !drop_ge by (rewrite ?length_app; lia). done.
Qed.

Lemma attach_known ps port :
  port_ok port -> Forall port_ok ps -> port ∈ ps -> attach port (hid_table ps) = hid_table ps.
Proof using Hold Hfree.
  intros Hport Hps [i Hi]%list_elem_of_lookup. unfold attach.
  destruct (first_index (is_at port) (hid_table ps)) eqn:E; [done|]. rewrite find_unused.
  destruct (Nat.ltb_spec (length ps) MAX_HID_DEVICES) as [Hlt|Hge]; [|done]. exfalso.
  rewrite first_index_None in E. specialize (E i (new_hid port i)). rewrite is_at_new, Z.eqb_refl in E by done.
  apply diff_true_false, E. unfold hid_table. pose proof (lookup_lt_Some _ _ _ Hi).
  rewrite lookup_app_l by (rewrite length_imap, length_take; unfold MAX_HID_DEVICES in *; lia).
  by rewrite list_lookup_imap, take_ge, Hi by lia.
Qed.
End attach.

(** What the table says of the devices. *)
Lemma table_has old t ps :
  length old = MAX_HID_DEVICES -> Forall (fun h => attached h = false) old ->
  existsb (has_type t) (hid_table old ps) = true <->
  exists i, (i < length ps)%nat /\ (i < MAX_HID_DEVICES)%nat /\
    (if (i =? 0)%nat then USB_HID_KEYBOARD else USB_HID_MOUSE) = t.
Proof.
  intros Hold Hfree. rewrite existsb_exists. split.
  - intros (h & [i Hi]%list_elem_of_In%list_elem_of_lookup & Ht).
    apply (table_lookup old Hold Hfree) in Hi as [(p & Hp & Hlt & ->)|[_ Hh]].
    + exists i. split; [by eapply lookup_lt_Some|]. split; [done|].
      unfold has_type, new_hid in Ht. cbn [attached hid_type andb] in Ht. by apply bool_decide_eq_true in Ht.
    + unfold has_type in Ht. by rewrite Hh in Ht.
  - intros (i & [p Hp]%lookup_lt_is_Some_2 & Hlt & <-). exists (new_hid p i). split.
    + apply list_elem_of_In, list_elem_of_lookup. exists i. pose proof (lookup_lt_Some _ _ _ Hp).
      unfold hid_table. rewrite lookup_app_l by (rewrite length_imap, length_take; lia).
      by rewrite list_lookup_imap, lookup_take_lt, Hp by done.
    + unfold has_type, new_hid. cbn [attached hid_type andb]. by apply bool_decide_eq_true.
Qed.

(** The ports [port] to [port + n - 1] where a device is connected and enabled. *)
Definition live {D} `{!InputDevice D} (base : Z) (d : D) (port : Z) : Prop :=
  bit_test (port_status_ctrl base port d) 0 && bit_test (port_status_ctrl base port d) 1 = true.
#[export] Instance live_dec {D} `{!InputDevice D} base (d : D) port : Decision (live base d port).
Proof. unfold live. apply _. Defined.
Fixpoint live_ports {D} `{!InputDevice D} (base : Z) (d : D) (n : nat) (port : Z) : list Z :=
  match n with
  | O => []
  | S n' => if decide (live base d port) then port :: live_ports base d n' (port + 1) else live_ports base d n' (port + 1)
  end.

Section poll_ports.
Context {D : Type} `{!InputDevice D} (base : Z) (d : D) (old : list usb_hid_device_t)
  (Hold : length old = MAX_HID_DEVICES) (Hfree : Forall (fun h => attached h = false) old).

Lemma poll_ports_step n port devs found :
  poll_ports base (S n) port d devs found =
    if decide (live base d port) then poll_ports base n (port + 1) d (attach port devs) true
    else poll_ports base n (port + 1) d devs found.
Proof.
  cbn [poll_ports]. destruct (decide (live base d port)) as [Hl|Hl]; unfold live in Hl; revert Hl;
    by destruct (bit_test (port_status_ctrl base port d) 0), (bit_test (port_status_ctrl base port d) 1).
Qed.

Lemma poll_ports_new n port ps found :
  0 <= port -> port + Z.of_nat n <= 255 -> Forall (fun p => 0 <= p < port) ps ->
  poll_ports base n port d (hid_table old ps) found =
    (hid_table old (ps ++ live_ports base d n port),
     found || negb (bool_decide (live_ports base d n port = []))).
Proof using Hold Hfree.
  revert port ps found. induction n as [|n IH]; intros port ps found Hport Hn Hps.
  - simpl. by rewrite app_nil_r, orb_false_r.
  - rewrite poll_ports_step. cbn [live_ports]. destruct (decide (live base d port)).
    + rewrite attach_new; try done; [|unfold port_ok; lia| |].
      * rewrite IH by (first [lia | apply Forall_app; split;
          [eapply Forall_impl; [exact Hps|]; simpl; lia|by apply Forall_singleton; lia]]).
        rewrite <- app_assoc. simpl. by rewrite orb_true_r.
      * eapply Forall_impl; [exact Hps|]. unfold port_ok. simpl. lia.
      * intros Hin. rewrite Forall_forall in Hps. specialize (Hps port Hin). simpl in Hps. lia.
    + apply IH; [lia|lia|]. eapply Forall_impl; [exact Hps|]. simpl. lia.
Qed.

Lemma poll_ports_known n port ps found :
  0 <= port -> port + Z.of_nat n <= 255 -> Forall port_ok ps -> (forall p, p ∈ live_ports base d n port -> p ∈ ps) ->
  poll_ports base n port d (hid_table old ps) found =
    (hid_table old ps, found || negb (bool_decide (live_ports base d n port = []))).
Proof using Hold Hfree.
  revert port found. induction n as [|n IH]; intros port found Hport Hn Hps Hsub.
  - simpl. by rewrite orb_false_r.
  - rewrite poll_ports_step. revert Hsub. cbn [live_ports]. destruct (decide (live base d port)); intros Hsub.
    + rewrite attach_known; try done; [|unfold port_ok; lia|apply Hsub; by left].
      rewrite IH; try done; [|lia|lia|]; [by rewrite orb_true_r|]. intros p Hp. apply Hsub. by right.
    + apply IH; done || lia.
Qed.

Lemma live_ports_ok n port : 0 <= port -> port + Z.of_nat n <= 255 -> Forall port_ok (live_ports base d n port).
Proof using Type.
  clear Hold Hfree. revert port. induction n as [|n IH]; intros port Hport Hn; cbn [live_ports]; [done|].
  destruct (decide (live base d port)); [constructor; [unfold port_ok; lia|]|]; apply IH; lia.
Qed.
End poll_ports.

(** USB devices are taken for what they are by the order of their ports.
    The first poll with an empty table attaches the devices at the first four
    ports that report a connected and enabled device, in the order of the
    ports: the first as the keyboard, with endpoint 0x81, the others as mice,
    with endpoint 0x82, each under the address of its port plus one; further
    devices are ignored. A second poll finds the same table, and the poll
    reports a device iff some port does. *)
Theorem usb_attaches_in_port_order {D} `{!InputDevice D} (d : D) (u : usb_t) :
  xhci_ready u = true -> xhci_ports (xhci u) <> 0 -> 0 <= max_ports u <= 255 -> length (hid_devices u) = MAX_HID_DEVICES ->
  Forall (fun h => attached h = false) (hid_devices u) ->
  let ps := live_ports (xhci_ports (xhci u)) d (Z.to_nat (max_ports u)) 0 in
  let u' := set_hid (imap (fun i port => Hid true (Z.of_nat i + 1) (port + 1)
      (if (i =? 0)%nat then USB_HID_KEYBOARD else USB_HID_MOUSE) (if (i =? 0)%nat then 0x81 else 0x82) 8 0)
      (take 4 ps) ++ drop (length ps) (hid_devices u)) u in
  usb_poll_hid_devices d u = (u', negb (bool_decide (ps = []))) /\ usb_poll d u' = u' /\
  (usb_has_keyboard u' = true <-> ps <> []) /\ (usb_has_mouse u' = true <-> (2 <= length ps)%nat).
Proof.
  intros Hready Hports Hmax Hold Hfree ps u'.
  assert (Hn : Z.to_nat (Z.min (max_ports u) 256) = Z.to_nat (max_ports u)) by (f_equal; lia).
  pose proof (live_ports_ok (xhci_ports (xhci u)) d (Z.to_nat (max_ports u)) 0 ltac:(lia) ltac:(lia)) as Hok. fold ps in Hok.
  assert (Hu' : u' = set_hid (hid_table (hid_devices u) ps) u).
  { unfold u', hid_table. do 2 f_equal. apply imap_ext. intros i p [Hp Hi]%lookup_take_Some.
    rewrite Forall_lookup in Hok. specialize (Hok i p Hp). unfold port_ok in Hok. unfold new_hid, u8.
    assert (i < 4)%nat by exact Hi. rewrite !wrap_small by (change (2 ^ 8) with 256; lia). done. }
  clearbody u'. subst u'. unfold usb_has_keyboard, usb_has_mouse, usb_poll, usb_poll_hid_devices.
  cbn [xhci_ready set_hid max_ports hid_devices xhci].
  rewrite Hready, Hn, (proj2 (Z.eqb_neq _ _) Hports). cbn [negb orb].
  rewrite !table_has by done. split_and!.
  - change (hid_devices u) with (hid_table (hid_devices u) []) at 1.
    rewrite poll_ports_new by (done || lia). done.
  - rewrite poll_ports_known by (done || lia). done.
  - split; [by intros (i & Hi & _) ->; simpl in Hi; lia|]. intros Hps. exists 0%nat.
    split_and!; [|unfold MAX_HID_DEVICES; lia|done]. destruct ps; [done|simpl; lia].
  - split; [|intros ?; exists 1%nat; by split_and!; [lia|unfold MAX_HID_DEVICES; lia|]].
    intros (i & Hi & _ & Ht). destruct i as [|i]; [done|lia].
Qed.

(** A controller whose port registers start at 0x1000, with devices at ports 2
    and 5 of 8. *)
Record usb_bus := UsbBus { plugged : list Z }.
#[export] Instance bus_input : InputDevice usb_bus := {|
  input_ports := {| port_in _ _ d := (0, d); port_out _ _ _ d := d |};
  mmio_read _ a d := if bool_decide ((a - 0x1000) / 16 ∈ plugged d) then 3 else 0;
  mmio_write _ _ _ d := d
|}.

Definition no_hid : usb_hid_device_t := Hid false 0 0 USB_HID_NONE 0 0 0.
Definition fresh_usb : usb_t := UsbState (replicate 4 no_hid) (empty_ring 64 0) (empty_ring 32 []) 40 12 8 true
  (Xhci 0x800 0x820 0x1000 0xA20 0x1820 [] [] (Segment 0 256 0) (Segment 0 256 0) []).

Lemma usb_attaches_in_port_order_witness :
  usb_poll_hid_devices (UsbBus [5; 2]) fresh_usb =
    (set_hid [Hid true 1 3 USB_HID_KEYBOARD 0x81 8 0; Hid true 2 6 USB_HID_MOUSE 0x82 8 0; no_hid; no_hid] fresh_usb,
     true).
Proof.
  destruct (usb_attaches_in_port_order (UsbBus [5; 2]) fresh_usb eq_refl ltac:(done) ltac:(simpl; lia) eq_refl
    ltac:(repeat constructor)) as (E & _). exact E.
Defined.
