(* ===== verification/InputSafety.v ===== *)
(** * Safety of the input drivers ([src/keyboard.c], [src/mouse.c], [src/usb.c])

    The invariant of the state of the keyboard, the mouse and the USB driver,
    which every function keeps whatever the devices answer.  The functions
    return without a bound on their loops, since the loops that wait are
    bounded in the code. *)

From S2P Require Import Prelude Io Pci Ring Input.
Import Usb.

(** A ring with some contents. *)
Definition ring_ok {A} (n : Z) (r : ring A) : Prop := exists l, holds n r l.

Record usb_ok (u : usb_t) : Prop := {
  usb_keys_ok : ring_ok 64 (keyboard_buffer u);
  usb_mouse_ok : exists l, holds 32 (mouse_events u) l /\ Forall (fun r => (3 <= length r)%nat) l
}.

Record input_ok {D} (st : input_t D) : Prop := {
  in_keys : ring_ok 256 (key_queue st);
  in_mouse : ring_ok 32 (mouse_queue st);
  in_packet : length (mouse_packet st) = 3%nat;
  in_offset : 0 <= mouse_packet_offset st < 3;
  in_usb : usb_ok (usb st);
  in_x : 0 <= mouse_x st <= 79;
  in_y : 0 <= mouse_y st <= 23
}.

Lemma ring_enqueue {A} n adv `{!RingIndex n adv} (x : A) r :
  ring_ok n r -> exists ok r', enqueue adv x r = Some (ok, r') /\ ring_ok n r'.
Proof. intros [l Hl]. destruct (enqueue_ok n adv x r l Hl) as (r' & E & H). eexists _, r'. split; [exact E|]. by eexists. Qed.

Lemma ring_dequeue {A} n adv `{!RingIndex n adv} (r : ring A) :
  ring_ok n r -> exists x r', dequeue adv r = Some (x, r') /\ ring_ok n r'.
Proof. intros [l Hl]. destruct (dequeue_ok n adv r l Hl) as (r' & E & H). eexists _, r'. split; [exact E|]. by eexists. Qed.

Lemma ring_empty {A} n (r : ring A) : 1 < n -> ring_ok n r -> ring_ok n (Ring (slots r) 0 0).
Proof.
  intros Hn [l []]. exists []. split; cbn [slots head tail]; [done|lia|lia| |intros k Hk; simpl in Hk; lia].
  simpl. by rewrite Zmod_0_l.
Qed.

Section safety.
Context {D : Type} `{!InputDevice D}.
Implicit Types st : input_t D.

Definition keeps {A} (m : io (input_t D) A) : Prop := total input_ok m (fun _ => input_ok).

Lemma input_ret {A} (a : A) : keeps (mret a).
Proof. intros st H. by exists a, st. Qed.

Lemma input_bind {A B} (m : io (input_t D) A) (f : A -> io (input_t D) B) :
  keeps m -> (forall a, keeps (f a)) -> keeps (m ≫= f).
Proof. intros Hm Hf. by eapply total_bind. Qed.

Lemma input_gets {A} (f : input_t D -> A) : keeps (gets f).
Proof. intros st H. by exists (f st), st. Qed.

Lemma input_modify f : (forall st, input_ok st -> input_ok (f st)) -> keeps (modify f).
Proof. intros Hf st H. exists tt, (f st). split; [done|by apply Hf]. Qed.

Lemma input_port {A} (m : io D A) : defined m -> keeps (on_port m).
Proof.
  intros Hm st H. destruct (Hm (controller st)) as (a & d & E). unfold on_port. rewrite E. exists a, (set_controller d st).
  split; [done|]. by destruct H.
Qed.

Lemma input_partial (f : input_t D -> option (input_t D)) :
  (forall st, input_ok st -> exists st', f st = Some st' /\ input_ok st') -> keeps (step f).
Proof. intros Hf st H. destruct (Hf st H) as (st' & E & H'). exists tt, st'. unfold step, transform. by rewrite E. Qed.

Lemma input_break n (body : io (input_t D) bool) : keeps body -> keeps (for_break n body).
Proof.
  intros Hb. induction n as [|n IH]; [apply input_ret|]. cbn [for_break]. apply input_bind; [done|]. intros []; [apply input_ret|done].
Qed.

Lemma input_skip : keeps skip.
Proof. apply input_ret. Qed.

(** *** Keyboard *)

Lemma queue_char_ok c st : input_ok st -> exists st', keyboard_queue_char c st = Some st' /\ input_ok st'.
Proof.
  intros []. destruct (ring_enqueue 256 advance_256 c (key_queue st)) as (ok & r & E & Hr); [done|].
  unfold keyboard_queue_char. rewrite E. eexists. split; [done|]. by split.
Qed.

Lemma scancode_safe data st : input_ok st -> exists st', keyboard_scancode data st = Some st' /\ input_ok st'.
Proof.
  intros H. unfold keyboard_scancode. cbv zeta. destruct (_ || _); [eexists; split; [done|]; by destruct H|].
  destruct (negb _); [by exists st|]. destruct (_ =? 0); [by exists st|]. by apply queue_char_ok.
Qed.

Lemma usb_keyboard_poll_ok st : input_ok st -> exists st', usb_keyboard_poll st = Some st' /\ input_ok st'.
Proof.
  intros H. unfold usb_keyboard_poll, usb_get_keyboard_char, usb_dequeue_keyboard_char. cbn [negb].
  destruct (usb_has_keyboard _); [|by exists st].
  destruct (ring_dequeue 64 advance_64 (keyboard_buffer (usb st))) as (x & r & E & Hr); [apply H|]. rewrite E.
  cbn [mbind option_bind].
  assert (H' : input_ok (set_usb (set_keyboard r (usb st)) st)) by (destruct H as [? ? ? ? [? ?] ? ?]; by split).
  destruct (option_map s8 x) as [c|]; [|by eexists]. destruct (c =? 0); [by eexists|]. by apply queue_char_ok.
Qed.

Lemma keyboard_poll_keeps : keeps keyboard_poll.
Proof.
  apply input_bind; [apply input_port, in_defined|]. intros status. destruct (_ || _); [apply input_skip|].
  apply input_bind; [apply input_port, in_defined|]. intros data. apply input_partial. intros; by apply scancode_safe.
Qed.

Lemma keyboard_has_data_keeps : keeps keyboard_has_data.
Proof.
  apply input_bind; [apply keyboard_poll_keeps|intros _]. apply input_bind; [apply input_partial, usb_keyboard_poll_ok|intros _].
  apply input_gets.
Qed.

Lemma keyboard_read_char_keeps : keeps keyboard_read_char.
Proof.
  apply input_bind; [apply keyboard_poll_keeps|intros _]. apply input_bind; [apply input_partial, usb_keyboard_poll_ok|intros _].
  intros st H. rewrite bind_gets. unfold id.
  destruct (ring_dequeue 256 advance_256 (key_queue st)) as (x & r & E & Hr); [apply H|].
  rewrite (bind_lift _ _ _ _ E), bind_modify. eexists _, _. split; [done|]. destruct H; by split.
Qed.

(** *** Mouse *)

Lemma enqueue_event_ok e st : input_ok st -> exists st', enqueue_mouse_event e st = Some st' /\ input_ok st'.
Proof.
  intros []. destruct (ring_enqueue 32 advance_mask32 e (mouse_queue st)) as (ok & r & E & Hr); [done|].
  unfold enqueue_mouse_event. rewrite E. eexists. split; [done|]. by split.
Qed.

Lemma mouse_byte_safe data st : input_ok st -> exists st', mouse_byte data st = Some st' /\ input_ok st'.
Proof.
  intros H. unfold mouse_byte. destruct (_ && _); [by exists st|]. pose proof (in_offset _ H). pose proof (in_packet _ H) as Hl.
  rewrite aset_in_range by lia. cbn [mbind option_bind]. cbn [mouse_packet_offset set_packet].
  set (p := <[_ := data]> (mouse_packet st)). assert (Hp : length p = 3%nat) by (unfold p; by rewrite length_insert).
  case_cmp.
  - unfold process_ps2_packet. cbn [mouse_packet set_packet].
    destruct (aget_in_range p 0 ltac:(lia)) as [b0 ->], (aget_in_range p 1 ltac:(lia)) as [b1 ->],
      (aget_in_range p 2 ltac:(lia)) as [b2 ->]. cbn [mbind option_bind].
    destruct (ring_enqueue 32 advance_mask32 (packet_event b0 b1 b2) (mouse_queue st)) as (ok & r & E & Hr); [apply H|].
    unfold enqueue_mouse_event. cbn [mouse_queue set_packet]. rewrite E. cbn [mbind option_bind]. eexists. split; [done|].
    destruct H. split; cbn; try done; lia.
  - eexists. split; [done|]. destruct H. split; cbn; try done; lia.
Qed.

Lemma mouse_poll_ps2_keeps : keeps mouse_poll_ps2.
Proof.
  apply input_bind; [apply input_port, in_defined|]. intros status. destruct (_ || _); [apply input_skip|].
  apply input_bind; [apply input_port, in_defined|]. intros data. apply input_partial. intros; by apply mouse_byte_safe.
Qed.

Lemma wait_keeps : keeps wait_input_buffer_clear.
Proof. apply input_break, input_bind; [apply input_port, in_defined|intros; apply input_ret]. Qed.

Lemma response_keeps n : keeps (await_response n).
Proof.
  induction n as [|n IH]; [apply input_ret|]. cbn [await_response]. apply input_bind; [apply input_port, in_defined|].
  intros status. destruct (_ =? 0); [done|]. apply input_bind; [apply input_port, in_defined|intros; apply input_ret].
Qed.

Lemma send_mouse_command_keeps c : keeps (send_mouse_command c).
Proof.
  pose proof (response_keeps (Z.to_nat 100000)) as Hr. unfold send_mouse_command. revert Hr.
  generalize (await_response (D := D) (Z.to_nat 100000)). intros answer Hr.
  apply input_bind; [apply wait_keeps|intros _]. apply input_bind; [apply input_port, out_defined|intros _].
  apply input_bind; [apply wait_keeps|intros _]. apply input_bind; [apply input_port, out_defined|intros _]. exact Hr.
Qed.

(** *** USB *)

Lemma mmio_store_keeps w a v : keeps (mmio_store w a v).
Proof. apply input_modify. intros st []. by split. Qed.

Lemma set_regs_keeps p b x : keeps (set_xhci_regs p b x).
Proof. apply input_modify. intros st [? ? ? ? [? ?] ? ?]. by split. Qed.

Lemma input_with {A} (f : input_t D -> io (input_t D) A) : (forall a, keeps (f a)) -> keeps (st ← gets id; f st).
Proof. intros Hf st H. rewrite bind_gets. by apply Hf. Qed.

Lemma usb_initialize_keeps c1 c2 c3 c4 c5 : keeps (usb_initialize c1 c2 c3 c4 c5).
Proof.
  unfold usb_initialize. apply input_bind; [apply input_port, find_class_defined|]. intros [c|]; [|apply input_skip].
  apply input_with. intros st. cbv zeta. destruct (_ =? 0); [apply set_regs_keeps|].
  apply input_bind; [apply set_regs_keeps|intros _]. do 3 (apply input_bind; [apply mmio_store_keeps|intros _]).
  apply input_with. intros st1. do 6 (apply input_bind; [apply mmio_store_keeps|intros _]).
  apply input_with. intros st2. apply set_regs_keeps.
Qed.

Lemma usb_poll_ok (d : D) u : usb_ok u -> usb_ok (usb_poll d u).
Proof.
  intros Hu. unfold usb_poll. destruct (negb _); [done|]. unfold usb_poll_hid_devices. destruct (_ || _); [done|].
  destruct (poll_ports _ _ _ _ _ _) as [devs found]. destruct Hu. by split.
Qed.

Lemma poll_usb_mouse_ok st : input_ok st -> exists st', poll_usb_mouse st = Some st' /\ input_ok st'.
Proof.
  intros H. unfold poll_usb_mouse. cbv zeta. cbn [usb set_usb]. pose proof (usb_poll_ok (controller st) _ (in_usb _ H)) as Hu.
  set (u := usb_poll _ _) in *. destruct (negb _); [eexists; split; [done|]; destruct H; by split|].
  unfold usb_get_mouse_report, usb_dequeue_mouse_event. destruct (usb_mouse_ok _ Hu) as (l & Hl & Hlen).
  destruct (dequeue_ok 32 advance_32 (mouse_events u) l Hl) as (r & E & Hr). rewrite E. cbn [mbind option_bind].
  assert (Hok : input_ok (set_usb (set_mouse r (usb_mouse_x u) (usb_mouse_y u) u) st)).
  { destruct H. split; try done. destruct Hu. split; [done|]. exists (list.tail l). split; [done|]. by destruct Hlen. }
  destruct l as [|x l]; cbn [list.head] in *; [by eexists|]. apply Forall_cons in Hlen as [Hx Hlen].
  destruct (aget_in_range x 0 ltac:(lia)) as [b0 ->], (aget_in_range x 1 ltac:(lia)) as [b1 ->],
    (aget_in_range x 2 ltac:(lia)) as [b2 ->]. cbn [mbind option_bind]. apply (enqueue_event_ok _ _ Hok).
Qed.

Lemma mouse_initialize_keeps c1 c2 c3 c4 c5 : keeps (mouse_initialize c1 c2 c3 c4 c5).
Proof.
  unfold mouse_initialize. apply input_bind; [|intros _].
  { apply input_modify. intros st H. pose proof (ring_empty 32 (mouse_queue st) ltac:(lia) (in_mouse _ H)). destruct H.
    split; cbn; done || lia. }
  do 2 (apply input_bind; [apply send_mouse_command_keeps|intros _]). apply input_bind; [apply usb_initialize_keeps|intros _].
  apply input_modify. intros st H. pose proof (usb_poll_ok (controller st) _ (in_usb _ H)). destruct H; by split.
Qed.

Lemma mouse_has_event_keeps : keeps mouse_has_event.
Proof.
  unfold mouse_has_event. apply input_with. intros st. destruct (negb _); [apply input_ret|].
  apply input_bind; [apply mouse_poll_ps2_keeps|intros _]. apply input_bind; [apply input_partial, poll_usb_mouse_ok|intros _].
  apply input_gets.
Qed.

Lemma mouse_get_event_ok p st : input_ok st -> exists e st', mouse_get_event p st = Some (e, st') /\ input_ok st'.
Proof.
  intros H. unfold mouse_get_event. destruct (queue_is_empty st || negb p) eqn:Hc; [by eexists _, st|].
  apply orb_false_iff in Hc as [Hne _]. unfold queue_is_empty in Hne.
  destruct (in_mouse _ H) as (l & Hl). destruct (dequeue_ok 32 advance_mask32 (mouse_queue st) l Hl) as (r & E & Hr).
  unfold dequeue in E. rewrite Hne in E. destruct (aget _ _) as [e|]; [|done]. cbn [mbind option_bind] in *.
  injection E as _ <-. eexists e, _. split; [done|]. destruct H. split; cbn; try done; [by eexists| |];
    repeat case_cmp; lia.
Qed.

Lemma keyboard_initialize_ok st : input_ok st -> input_ok (keyboard_initialize st).
Proof.
  intros H. pose proof (ring_empty 256 (key_queue st) ltac:(lia) (in_keys _ H)). destruct H. by split.
Qed.
End safety.

(** ** Sequences of calls *)

Inductive input_op :=
| KeyboardInitialize
| MouseInitialize
| UsbInitialize
| HasKey
| ReadChar
| HasEvent
| GetEvent (pointers : bool).

Section calls.
Context {D : Type} `{!InputDevice D} (c1 c2 c3 c4 c5 : Z).

Definition input_step (op : input_op) : io (input_t D) unit :=
  match op with
  | KeyboardInitialize => modify keyboard_initialize
  | MouseInitialize => mouse_initialize c1 c2 c3 c4 c5
  | UsbInitialize => usb_initialize c1 c2 c3 c4 c5
  | HasKey => keyboard_has_data ≫= fun _ => skip
  | ReadChar => keyboard_read_char ≫= fun _ => skip
  | HasEvent => mouse_has_event ≫= fun _ => skip
  | GetEvent p => step (fun st => '(_, st) ← mouse_get_event p st; Some st)
  end.

Fixpoint input_run (ops : list input_op) : io (input_t D) unit :=
  match ops with
  | [] => skip
  | op :: ops => input_step op ≫= fun _ => input_run ops
  end.

Lemma input_step_keeps op : keeps (input_step op).
Proof.
  destruct op as [ | | | | | |p]; cbn [input_step].
  - apply input_modify, keyboard_initialize_ok.
  - apply mouse_initialize_keeps.
  - apply usb_initialize_keeps.
  - apply input_bind; [apply keyboard_has_data_keeps|intros; apply input_skip].
  - apply input_bind; [apply keyboard_read_char_keeps|intros; apply input_skip].
  - apply input_bind; [apply mouse_has_event_keeps|intros; apply input_skip].
  - apply input_partial. intros st H. destruct (mouse_get_event_ok p st H) as (e & st' & E & H'). rewrite E. by exists st'.
Qed.

(** C26: the input drivers never leave their arrays and never hang. Whatever
    the keyboard, the mouse and the USB controller answer, any sequence of
    the calls of the kernel runs to completion: the waiting loops are
    bounded, every index stays inside its queue or packet, and the position
    of the mouse stays on the screen of 80 by 24 characters. *)
Theorem input_drivers_safe ops (st : input_t D) :
  input_ok st -> exists st', input_run ops st = Ok (tt, st') /\ input_ok st'.
Proof.
  revert st. induction ops as [|op ops IH]; intros st H; [by exists st|].
  destruct (input_step_keeps op st H) as ([] & st1 & E & H1). destruct (IH st1 H1) as (st' & E' & H').
  exists st'. split; [|done]. cbn [input_run]. by rewrite (bind_ok _ _ _ _ _ E).
Qed.
End calls.

(** ** Keyboard and mouse at rest *)

Lemma empty_ring_ok {A} n (x : A) : (0 < n)%nat -> ring_ok (Z.of_nat n) (empty_ring n x).
Proof. intros Hn. exists []. by apply empty_ring_holds. Qed.

Lemma quiet_input_ok {D} (d : D) :
  input_ok (InputState (empty_ring 256 0) false (empty_ring 32 no_event) [0; 0; 0] 0 40 12 true quiet_usb d).
Proof.
  split; try reflexivity; cbn; try lia; [exact (empty_ring_ok 256 0 ltac:(lia))|exact (empty_ring_ok 32 no_event ltac:(lia))|].
  split; [exact (empty_ring_ok 64 0 ltac:(lia))|]. exists []. split; [exact (empty_ring_holds 32 [] ltac:(lia))|constructor].
Qed.

Lemma input_drivers_safe_witness :
  exists st', input_run 0x1000 0x2000 0x3000 0x4000 0x5000 [KeyboardInitialize; MouseInitialize; HasKey; ReadChar; HasEvent; GetEvent true]
    (InputState (empty_ring 256 0) false (empty_ring 32 no_event) [0; 0; 0] 0 40 12 true quiet_usb
      (Ps2 [(false, 0x2A); (true, 0xFA); (false, 0x23); (true, 9)])) = Ok (tt, st') /\ input_ok st'.
Proof.
  apply (input_drivers_safe 0x1000 0x2000 0x3000 0x4000 0x5000 [KeyboardInitialize; MouseInitialize; HasKey; ReadChar; HasEvent; GetEvent true]).
  apply quiet_input_ok.
Defined.
