(* ===== verification/Vga.v ===== *)
(** * Text screen and framebuffer ([src/vga.c])

    The text screen is 80 by 25 cells of 16 bits; the framebuffer is drawn in
    a back buffer of 1024 by 768 pixels and copied to video memory.  A store
    outside a buffer and an overflow of [int] are undefined. *)

From S2P Require Import Prelude Io.

Definition VGA_WIDTH : Z := 80.
Definition VGA_HEIGHT : Z := 25.

Definition VGA_BLACK : Z := 0.
Definition VGA_LIGHT_GREY : Z := 7.
Definition VGA_WHITE : Z := 15.

(** [int] arithmetic: [None] on overflow. *)
Definition int_of (v : Z) : option Z := if (- 2 ^ 31 <=? v) && (v <? 2 ^ 31) then Some v else None.

(** ** Text mode *)

Record text_t := Text { vga_current_color : Z; vga_cursor_x : Z; vga_cursor_y : Z; vram : list Z }.

Definition set_vram (m : list Z) (t : text_t) : text_t :=
  Text (vga_current_color t) (vga_cursor_x t) (vga_cursor_y t) m.
Definition set_cursor (x y : Z) (t : text_t) : text_t := Text (vga_current_color t) x y (vram t).

Definition vga_initialize : io text_t unit :=
  modify (fun t => Text (Z.lor (Z.shiftl VGA_BLACK 4) VGA_LIGHT_GREY) 0 0 (vram t)).

Definition vram_get (i : Z) : io text_t Z := t ← gets vram; lift (aget t i).
Definition vram_set (i v : Z) : io text_t unit :=
  t ← gets vram;
  m ← lift (aset t i (u16 v));
  modify (set_vram m).

(** The word of a character [c], a signed [char], in a colour. *)
Definition cell (c color : Z) : Z := Z.lor c (Z.shiftl color 8).

Definition vga_clear_screen : io text_t unit :=
  color ← gets vga_current_color;
  for_loop 25 0 (fun y => for_loop 80 0 (fun x => vram_set (y * VGA_WIDTH + x) (cell 32 color))) ≫= fun _ =>
  modify (set_cursor 0 0).

Definition vga_write_char (x y c color : Z) : io text_t unit :=
  if (x <? 0) || (VGA_WIDTH <=? x) || (y <? 0) || (VGA_HEIGHT <=? y) then skip
  else vram_set (y * VGA_WIDTH + x) (cell c color).

Definition vga_scroll_down : io text_t unit :=
  color ← gets vga_current_color;
  for_loop 24 0 (fun y => for_loop 80 0 (fun x =>
    v ← vram_get ((y + 1) * VGA_WIDTH + x);
    vram_set (y * VGA_WIDTH + x) v)) ≫= fun _ =>
  for_loop 80 0 (fun x => vram_set ((VGA_HEIGHT - 1) * VGA_WIDTH + x) (cell 32 color)).

(** ** Linear framebuffer *)

Record framebuffer_t := Fb { fb_vram : option (list Z); width : Z; height : Z; pitch : Z; bpp : Z }.

(** [fb_vram] is the video memory that the pointer leads to. *)
Record graphics_t := Graphics { fb : framebuffer_t; backbuffer : list Z }.

Definition backbuffer_size : Z := 1024 * 768.

Definition vga_initialize_framebuffer (vram : option (list Z)) (w h pitch bpp : Z) : io graphics_t unit :=
  modify (fun g => Graphics (Fb vram w h pitch bpp) (backbuffer g)).

Definition pixel_set (i v : Z) : io graphics_t unit :=
  b ← gets backbuffer;
  m ← lift (aset b i v);
  modify (fun g => Graphics (fb g) m).

(** The comparisons convert the size to [int], the index is computed unsigned. *)
Definition fb_draw_pixel (x y rgb : Z) : io graphics_t unit :=
  f ← gets fb;
  if (x <? 0) || (s32 (width f) <=? x) || (y <? 0) || (s32 (height f) <=? y) then skip
  else pixel_set (s32 (y * width f + x)) rgb.

Definition fb_clear (rgb : Z) : io graphics_t unit :=
  f ← gets fb;
  for_loop (Z.to_nat (u32 (width f * height f))) 0 (fun i => pixel_set i rgb).

(** Eight bytes, two pixels, are copied at a time. *)
Definition fb_swap_buffers : io graphics_t unit :=
  g ← gets id;
  match fb_vram (fb g) with
  | None => skip
  | Some v =>
    let n := Z.to_nat (u32 (width (fb g) * height (fb g) * 4) / 8 * 2) in
    if (n <=? length (backbuffer g))%nat && (n <=? length v)%nat then
      modify (fun g => Graphics (Fb (Some (take n (backbuffer g) ++ drop n v)) (width (fb g)) (height (fb g))
        (pitch (fb g)) (bpp (fb g))) (backbuffer g))
    else fun _ => Undef
  end.

(** [for (i = from; i < to; i++)] in [int]. *)
Definition int_for {S} (from to : Z) (body : Z -> io S unit) : io S unit :=
  for_loop (Z.to_nat (to - from)) from body.

Definition fb_draw_rectangle (x y w h rgb : Z) : io graphics_t unit :=
  bottom ← lift (int_of (y + h));
  int_for y bottom (fun py =>
    right ← lift (int_of (x + w));
    int_for x right (fun px => fb_draw_pixel px py rgb)).

(** The body of the two loops over a circle. *)
Definition circle_point (cx cy r rgb y x : Z) : io graphics_t unit :=
  d ← lift (int_of (x * x + y * y));
  rr ← lift (int_of (r * r));
  if d <=? rr then
    px ← lift (int_of (cx + x));
    py ← lift (int_of (cy + y));
    fb_draw_pixel px py rgb
  else skip.

Definition fb_draw_circle (cx cy r rgb : Z) : io graphics_t unit :=
  minus_r ← lift (int_of (- r));
  int_for minus_r (r + 1) (fun y => int_for minus_r (r + 1) (circle_point cx cy r rgb y)).

(** ** What the screen shows *)

Definition shown (t : text_t) (x y : Z) : option Z := aget (vram t) (y * 80 + x).
Definition on_screen (x y : Z) : Prop := 0 <= x < 80 /\ 0 <= y < 25.
Definition screen_ok (t : text_t) : Prop := length (vram t) = 2000%nat.

(** All but the cells of the screen. *)
Definition same_but_cells (t t' : text_t) : Prop :=
  vga_current_color t' = vga_current_color t /\ vga_cursor_x t' = vga_cursor_x t /\
  vga_cursor_y t' = vga_cursor_y t /\ screen_ok t'.

Lemma vram_set_ok t i v :
  screen_ok t -> 0 <= i < 2000 ->
  exists t', vram_set i v t = Ok (tt, t') /\ same_but_cells t t' /\
    forall j, 0 <= j -> aget (vram t') j = if j =? i then Some (u16 v) else aget (vram t) j.
Proof.
  intros Ht Hi. unfold screen_ok in Ht. unfold vram_set. rewrite bind_gets.
  rewrite (bind_lift _ _ _ _ (aset_in_range (vram t) i (u16 v) ltac:(lia))).
  eexists. split; [done|]. split.
  - unfold same_but_cells, screen_ok. cbn [set_vram vram]. by rewrite length_insert.
  - intros j Hj. cbn [set_vram vram]. apply aget_insert; lia.
Qed.

(** Stores that run over the cells in their order: [k] cells have their new
    contents, given from the old screen. *)
Section sweep.
Context (old : text_t) (new : Z -> Z).

Definition swept (k : Z) (t : text_t) : Prop :=
  same_but_cells old t /\ forall j, 0 <= j -> aget (vram t) j = if j <? k then Some (u16 (new j)) else aget (vram old) j.

Lemma swept_set k v : 0 <= k < 2000 -> v = new k -> total (swept k) (vram_set k v) (fun _ => swept (k + 1)).
Proof.
  intros Hk -> t [Hsame Ht]. destruct Hsame as (Hc & Hx & Hy & Hok).
  destruct (vram_set_ok t k (new k) Hok Hk) as (t' & E & (Hc' & Hx' & Hy' & Hok') & Ht').
  exists tt, t'. split; [done|]. split; [unfold same_but_cells; split_and!; congruence || done|].
  intros j Hj. rewrite Ht' by done. rewrite Ht by done.
  destruct (Z.eqb_spec j k) as [->|]; [case_cmp; done || lia|]. repeat case_cmp; done || lia.
Qed.
End sweep.

(** Rows of 80 cells. *)
Lemma rows_total (Inv : Z -> text_t -> Prop) n body :
  (forall y x, 0 <= y < Z.of_nat n -> 0 <= x < 80 ->
    total (Inv (y * 80 + x)) (body y x) (fun _ => Inv (y * 80 + x + 1))) ->
  total (Inv 0) (for_loop n 0 (fun y => for_loop 80 0 (body y))) (fun _ => Inv (Z.of_nat n * 80)).
Proof.
  intros Hb. apply (total_for (fun y => Inv (y * 80)) n 0). intros y Hy.
  eapply total_weaken; [apply (total_for (fun x => Inv (y * 80 + x)) 80 0); intros x Hx| |]; cbn beta.
  - rewrite Z.add_assoc. apply Hb; lia.
  - intros s. by rewrite Z.add_0_r.
  - intros _ s. by replace (y * 80 + (0 + Z.of_nat 80)) with ((y + 1) * 80) by lia.
Qed.

Definition old_cell (old : text_t) (j : Z) : Z := default 0 (aget (vram old) j).

Definition words_ok (t : text_t) : Prop := Forall (fun w => 0 <= w < 2 ^ 16) (vram t).

Lemma old_cell_ok old j :
  screen_ok old -> words_ok old -> 0 <= j < 2000 -> aget (vram old) j = Some (u16 (old_cell old j)).
Proof.
  unfold screen_ok. intros Hok Hw Hj. destruct (aget_in_range (vram old) j ltac:(lia)) as [v Hv].
  unfold old_cell. rewrite Hv. simpl. f_equal. symmetry. apply wrap_small.
  apply aget_lookup in Hv. unfold words_ok in Hw. rewrite Forall_lookup in Hw. exact (Hw _ _ Hv).
Qed.

Lemma vram_get_ok t i v : aget (vram t) i = Some v -> vram_get i t = Ok (v, t).
Proof. intros E. unfold vram_get. rewrite bind_gets. unfold lift. by rewrite E. Qed.

Lemma clear_ok t :
  screen_ok t ->
  exists t', vga_clear_screen t = Ok (tt, t') /\ vga_current_color t' = vga_current_color t /\
    vga_cursor_x t' = 0 /\ vga_cursor_y t' = 0 /\ screen_ok t' /\
    forall x y, on_screen x y -> shown t' x y = Some (u16 (cell 32 (vga_current_color t))).
Proof.
  intros Ht. unfold vga_clear_screen. rewrite bind_gets.
  set (new := fun _ : Z => cell 32 (vga_current_color t)).
  destruct (rows_total (swept t new) 25
    (fun y x => vram_set (y * VGA_WIDTH + x) (cell 32 (vga_current_color t)))) with (s := t) as ([] & t' & E & Hs & Hc).
  - intros y x Hy Hx. apply swept_set; [unfold VGA_WIDTH; lia|done].
  - split; [by split_and!|]. intros j Hj. by case_cmp; [lia|].
  - rewrite (bind_ok _ _ _ _ _ E). eexists. split; [done|]. destruct Hs as (Hcol & _ & _ & Hok).
    split_and!; try done. intros x y [Hx Hy]. unfold shown. cbn [set_cursor vram]. rewrite Hc by lia. by case_cmp; [|lia].
Qed.

Lemma scroll_ok t :
  screen_ok t -> words_ok t ->
  exists t', vga_scroll_down t = Ok (tt, t') /\ same_but_cells t t' /\
    forall x y, on_screen x y ->
      shown t' x y = if y =? 24 then Some (u16 (cell 32 (vga_current_color t))) else shown t x (y + 1).
Proof.
  intros Ht Hw. unfold vga_scroll_down. rewrite bind_gets.
  set (new := fun j => if j <? 1920 then old_cell t (j + 80) else cell 32 (vga_current_color t)).
  destruct (rows_total (swept t new) 24 (fun y x => v ← vram_get ((y + 1) * VGA_WIDTH + x); vram_set (y * VGA_WIDTH + x) v))
    with (s := t) as ([] & t1 & E1 & H1).
  - unfold VGA_WIDTH. intros y x Hy Hx s Hs.
    assert (Hg : aget (vram s) ((y + 1) * 80 + x) = Some (u16 (new (y * 80 + x)))).
    { rewrite (proj2 Hs) by lia. unfold new. repeat case_cmp; try lia. rewrite old_cell_ok by (done || lia).
      do 3 f_equal. lia. }
    rewrite (bind_ok _ _ _ _ _ (vram_get_ok _ _ _ Hg)).
    assert (Heq : vram_set (y * 80 + x) (u16 (new (y * 80 + x))) s = vram_set (y * 80 + x) (new (y * 80 + x)) s).
    { unfold vram_set, u16. by rewrite (wrap_small 16 (wrap 16 _)) by (apply wrap_range; lia). }
    rewrite Heq. apply (swept_set t new); done || lia.
  - split; [by split_and!|]. intros j Hj. by case_cmp; [lia|].
  - rewrite (bind_ok _ _ _ _ _ E1).
    destruct (total_for (fun x => swept t new (1920 + x)) 80 0
      (fun x => vram_set ((VGA_HEIGHT - 1) * VGA_WIDTH + x) (cell 32 (vga_current_color t)))) with (s := t1)
      as ([] & t2 & E2 & H2 & H3).
    + intros x Hx. rewrite Z.add_assoc. apply swept_set; [lia|]. unfold new. by case_cmp; [lia|].
    + exact H1.
    + exists t2. split; [exact E2|]. split; [done|]. intros x y [Hx Hy]. unfold shown. rewrite H3 by lia.
      unfold new. destruct (Z.eqb_spec y 24) as [->|]; repeat case_cmp; try lia; [done|].
      rewrite old_cell_ok by (done || lia). do 3 f_equal. lia.
Qed.

Lemma write_char_ok t x y c color :
  screen_ok t ->
  exists t', vga_write_char x y c color t = Ok (tt, t') /\ same_but_cells t t' /\
    forall i j, on_screen i j -> shown t' i j = if (i =? x) && (j =? y) then Some (u16 (cell c color)) else shown t i j.
Proof.
  intros Ht. unfold vga_write_char, VGA_WIDTH, VGA_HEIGHT.
  destruct ((x <? 0) || (80 <=? x) || (y <? 0) || (25 <=? y)) eqn:Hout.
  - exists t. split; [done|]. split; [by split_and!|]. intros i j [Hi Hj].
    destruct ((i =? x) && (j =? y)) eqn:E; [lia|done].
  - destruct (vram_set_ok t (y * 80 + x) (cell c color) Ht ltac:(lia)) as (t' & E & Hs & Hc).
    exists t'. split; [done|]. split; [done|]. intros i j [Hi Hj]. unfold shown. rewrite Hc by lia.
    destruct (Z.eqb_spec (j * 80 + i) (y * 80 + x)); destruct ((i =? x) && (j =? y)) eqn:Eb; done || lia.
Qed.

Lemma cell_fields c color :
  0 <= color < 256 -> -128 <= c < 128 ->
  u16 (cell c color) = if c <? 0 then 0xFF00 + (c + 256) else c + 256 * color.
Proof.
  intros Hcol Hc. unfold cell. case_cmp.
  - assert (E : Z.lor c (Z.shiftl color 8) = c).
    { apply Z.bits_inj'. intros i Hi. rewrite Z.lor_spec, Z.shiftl_spec by done. destruct (Z.lt_ge_cases i 8).
      - by rewrite (Z.testbit_neg_r color), orb_false_r by lia.
      - rewrite (Z.bits_above_log2_neg c); [done|lia|].
        apply (Z.le_lt_trans _ (Z.log2 127)); [apply Z.log2_le_mono; lia|]. change (Z.log2 127) with 6. lia. }
    rewrite E. unfold u16, wrap. symmetry. apply (Z.mod_unique_pos _ _ (-1)); [|change (2 ^ 16) with 65536; lia].
    change (2 ^ 16) with 65536. lia.
  - rewrite Z.lor_comm, lor_shiftl_add by lia. change (2 ^ 8) with 256. unfold u16.
    rewrite wrap_small by (change (2 ^ 16) with 65536; lia). lia.
Qed.

(** The text screen. Writing a character changes exactly the cell at its
    position, to the character in the low byte and the colour in the high
    byte, and nothing when the position is off the screen; a character above
    127 is negative as a [char] and replaces the colour by 0xFF. Scrolling
    moves every row up by one and blanks the last one; clearing blanks all
    cells and homes the cursor. None of them writes outside the screen. *)
Theorem text_screen_spec t x y c color :
  screen_ok t -> words_ok t -> 0 <= color < 256 -> -128 <= c < 128 ->
  let blank := u16 (cell 32 (vga_current_color t)) in
  (exists t', vga_write_char x y c color t = Ok (tt, t') /\ same_but_cells t t' /\
    forall i j, on_screen i j -> shown t' i j =
      if (i =? x) && (j =? y) then Some (if c <? 0 then 0xFF00 + (c + 256) else c + 256 * color) else shown t i j) /\
  (exists t', vga_scroll_down t = Ok (tt, t') /\ same_but_cells t t' /\
    forall i j, on_screen i j -> shown t' i j = if j =? 24 then Some blank else shown t i (j + 1)) /\
  (exists t', vga_clear_screen t = Ok (tt, t') /\ vga_cursor_x t' = 0 /\ vga_cursor_y t' = 0 /\
    forall i j, on_screen i j -> shown t' i j = Some blank).
Proof.
  intros Ht Hw Hcol Hc blank. split_and!.
  - destruct (write_char_ok t x y c color Ht) as (t' & E & Hs & Hsh). rewrite cell_fields in Hsh by done. by exists t'.
  - by apply scroll_ok.
  - destruct (clear_ok t Ht) as (t' & E & _ & Hx & Hy & _ & Hsh). by exists t'.
Qed.

Lemma text_screen_spec_witness :
  let t := Text 7 0 0 (replicate 2000 0) in
  exists t', vga_write_char 3 2 65 0x1F t = Ok (tt, t') /\ shown t' 3 2 = Some (65 + 256 * 31) /\ shown t' 4 2 = Some 0.
Proof.
  intros t. assert (Hw : words_ok t) by (apply Forall_replicate; simpl; lia).
  destruct (text_screen_spec t 3 2 65 0x1F eq_refl Hw ltac:(lia) ltac:(lia)) as ((t' & E & _ & H) & _).
  exists t'. split; [exact E|]. unfold on_screen in H. split.
  - rewrite (H 3 2) by lia. reflexivity.
  - rewrite (H 4 2) by lia. reflexivity.
Defined.

(** ** Painting *)

Definition pixel (g : graphics_t) (i j : Z) : option Z := aget (backbuffer g) (j * width (fb g) + i).

(** The picture fits in the back buffer. *)
Record fits (g : graphics_t) : Prop := {
  fits_width : 0 <= width (fb g) < 2 ^ 31;
  fits_height : 0 <= height (fb g) < 2 ^ 31;
  fits_size : width (fb g) * height (fb g) <= backbuffer_size;
  fits_buffer : Z.of_nat (length (backbuffer g)) = backbuffer_size
}.

Definition in_picture (g : graphics_t) (i j : Z) : Prop := 0 <= i < width (fb g) /\ 0 <= j < height (fb g).

Lemma picture_index g i j : fits g -> in_picture g i j -> 0 <= j * width (fb g) + i < backbuffer_size.
Proof. intros [] []. nia. Qed.

Lemma index_inj w i j x y : 0 <= i < w -> 0 <= x < w -> j * w + i = y * w + x -> i = x /\ j = y.
Proof. intros Hi Hx E. assert (j = y) by nia. subst. lia. Qed.

Lemma draw_pixel_ok g x y rgb :
  fits g ->
  exists g', fb_draw_pixel x y rgb g = Ok (tt, g') /\ fb g' = fb g /\ fits g' /\
    forall i j, in_picture g i j -> pixel g' i j = if (i =? x) && (j =? y) then Some rgb else pixel g i j.
Proof.
  intros Hg. unfold fb_draw_pixel. rewrite bind_gets. pose proof Hg as [Hw Hh Hs Hb].
  rewrite !s32_small by done.
  destruct ((x <? 0) || (width (fb g) <=? x) || (y <? 0) || (height (fb g) <=? y)) eqn:Hout.
  - exists g. split_and!; try done. intros i j [Hi Hj]. destruct ((i =? x) && (j =? y)) eqn:E; [lia|done].
  - assert (Hin : in_picture g x y) by (unfold in_picture; lia). pose proof (picture_index g x y Hg Hin) as Hi.
    rewrite s32_small by (unfold backbuffer_size in Hi; change (2 ^ 31) with 2147483648; lia). unfold pixel_set. rewrite bind_gets.
    rewrite (bind_lift _ _ _ _ (aset_in_range (backbuffer g) (y * width (fb g) + x) rgb ltac:(lia))).
    eexists. split; [done|]. split_and!; [done| |].
    + constructor; cbn [fb backbuffer]; try done. by rewrite length_insert.
    + intros i j [Hi' Hj']. unfold pixel. cbn [fb backbuffer]. rewrite aget_insert by nia.
      destruct (Z.eqb_spec (j * width (fb g) + i) (y * width (fb g) + x)) as [E|];
        destruct ((i =? x) && (j =? y)) eqn:Eb; try done; [|lia].
      destruct (index_inj _ _ _ _ _ Hi' (proj1 Hin) E). lia.
Qed.

(** [g] is [old] with the pixels of [P] painted. *)
Record painted (rgb : Z) (old : graphics_t) (P : Z -> Z -> Prop) (g : graphics_t) : Prop := {
  painted_fb : fb g = fb old;
  painted_fits : fits g;
  painted_in i j : in_picture old i j -> P i j -> pixel g i j = Some rgb;
  painted_out i j : in_picture old i j -> ~ P i j -> pixel g i j = pixel old i j
}.

Lemma painted_ext rgb old P P' g :
  (forall i j, P i j <-> P' i j) -> painted rgb old P g -> painted rgb old P' g.
Proof. intros H []. constructor; try done; intros i j; rewrite <- H; auto. Qed.

Lemma painted_draw rgb old P x y :
  total (painted rgb old P) (fb_draw_pixel x y rgb) (fun _ => painted rgb old (fun i j => P i j \/ (i = x /\ j = y))).
Proof.
  intros g [Hfb Hfit Hin Hout]. destruct (draw_pixel_ok g x y rgb Hfit) as (g' & E & Hfb' & Hfit' & Hpix).
  assert (Hpic : forall i j, in_picture g i j <-> in_picture old i j) by (unfold in_picture; by rewrite Hfb).
  exists tt, g'. split; [done|]. constructor; [congruence|done|intros i j Hij HP..]; rewrite Hpix by (by apply Hpic);
    destruct ((i =? x) && (j =? y)) eqn:Eb; try done.
  - apply Hin; [done|]. destruct HP as [|[]]; [done|lia].
  - exfalso. apply HP. right. lia.
  - apply Hout; [done|]. tauto.
Qed.

Section paint.
Context (rgb cx cy x0 x1 y0 y1 : Z) (cond : Z -> Z -> bool) (old : graphics_t) (body : Z -> Z -> io graphics_t unit).
Context (Hbody : forall y x, y0 <= y < y1 -> x0 <= x < x1 -> forall g,
  body y x g = if cond y x then fb_draw_pixel (cx + x) (cy + y) rgb g else Ok (tt, g)).

(** The pixels of the shape before the loops reach row [y], column [x]. *)
Definition shape (y x : Z) (i j : Z) : Prop :=
  y0 <= j - cy /\ x0 <= i - cx < x1 /\ cond (j - cy) (i - cx) = true /\
  (j - cy < y \/ (j - cy = y /\ i - cx < x)).

Lemma paint_step y x :
  y0 <= y < y1 -> x0 <= x < x1 ->
  total (painted rgb old (shape y x)) (body y x) (fun _ => painted rgb old (shape y (x + 1))).
Proof using Hbody.
  intros Hy Hx g Hg. rewrite Hbody by done. destruct (cond y x) eqn:Ec.
  - destruct (painted_draw rgb old (shape y x) (cx + x) (cy + y) g Hg) as ([] & g' & E & Hg').
    exists tt, g'. split; [done|]. eapply painted_ext, Hg'. unfold shape. intros i j. split.
    + intros [|[-> ->]]; [naive_solver lia|]. replace (cy + y - cy) with y by lia.
      replace (cx + x - cx) with x by lia. split_and!; try done; lia.
    + intros (? & ? & Hc & [?|[? ?]]); [left; naive_solver lia|].
      destruct (decide (i = cx + x)) as [->|]; [right; lia|]. left. split_and!; try done; lia.
  - exists tt, g. split; [done|]. eapply painted_ext, Hg. unfold shape. intros i j. split; [naive_solver lia|].
    intros (? & ? & Hc & [?|[Hj ?]]); [naive_solver lia|].
    destruct (decide (i = cx + x)) as [->|]; [|split_and!; done || lia].
    replace (cx + x - cx) with x in Hc by lia. rewrite Hj in Hc. congruence.
Qed.

Lemma paint_ok :
  fits old ->
  exists g, int_for y0 y1 (fun y => int_for x0 x1 (body y)) old = Ok (tt, g) /\
    painted rgb old (fun i j => y0 <= j - cy < y1 /\ x0 <= i - cx < x1 /\ cond (j - cy) (i - cx) = true) g.
Proof using Hbody.
  intros Hfit.
  assert (Hrow : forall y, y0 <= y < y0 + Z.of_nat (Z.to_nat (y1 - y0)) ->
    total (painted rgb old (shape y x0)) (int_for x0 x1 (body y)) (fun _ => painted rgb old (shape (y + 1) x0))).
  { intros y Hy. eapply total_weaken.
    - apply (total_for (fun x => painted rgb old (shape y x)) _ x0). intros x Hx. apply paint_step; lia.
    - done.
    - intros [] g. apply painted_ext. unfold shape. intros i j. naive_solver lia. }
  destruct (total_for (fun y => painted rgb old (shape y x0)) _ y0 _ Hrow old) as ([] & g & E & Hg).
  - constructor; try done; unfold shape; naive_solver lia.
  - exists g. split; [exact E|]. eapply painted_ext, Hg. unfold shape. intros i j. naive_solver lia.
Qed.
End paint.

Lemma int_of_ok v : - 2 ^ 31 <= v < 2 ^ 31 -> int_of v = Some v.
Proof. intros Hv. unfold int_of. by destruct ((- 2 ^ 31 <=? v) && (v <? 2 ^ 31)) eqn:E; [|lia]. Qed.

Lemma square_bound a r : 0 <= r -> a * a <= r * r -> - r <= a <= r.
Proof. intros. split; nia. Qed.

Definition is_int (v : Z) : Prop := - 2 ^ 31 <= v < 2 ^ 31.

(** C29: shapes. On a picture that fits in the back buffer, drawing a rectangle
    paints exactly the pixels of the rectangle that lie in the picture, and
    drawing a circle exactly those of the disc, whatever part of the shape is
    outside; every other pixel keeps its colour, and no store leaves the
    buffer. The corners must be representable, and the radius at most 32767. *)
Theorem shapes_painted g rgb :
  fits g ->
  (forall x y w h, is_int (x + w) -> is_int (y + h) ->
    exists g', fb_draw_rectangle x y w h rgb g = Ok (tt, g') /\
      painted rgb g (fun i j => x <= i < x + w /\ y <= j < y + h) g') /\
  (forall cx cy r, 0 <= r <= 32767 -> is_int (cx - r) -> is_int (cx + r) -> is_int (cy - r) -> is_int (cy + r) ->
    exists g', fb_draw_circle cx cy r rgb g = Ok (tt, g') /\
      painted rgb g (fun i j => (i - cx) * (i - cx) + (j - cy) * (j - cy) <= r * r) g').
Proof.
  unfold is_int. intros Hg. split.
  - intros x y w h Hx Hy. unfold fb_draw_rectangle. rewrite (bind_lift _ _ _ _ (int_of_ok _ Hy)).
    destruct (paint_ok rgb 0 0 x (x + w) y (y + h) (fun _ _ => true) g (fun py px => fb_draw_pixel px py rgb)) as (g' & E & Hp);
      [done|done|].
    exists g'. split; [|eapply painted_ext, Hp; intros i j; cbn beta; rewrite !Z.sub_0_r; naive_solver].
    rewrite <- E. unfold int_for. apply for_loop_ext. intros py s. by rewrite (bind_lift _ _ _ _ (int_of_ok _ Hx)).
  - intros cx cy r Hr Hx1 Hx2 Hy1 Hy2. unfold fb_draw_circle.
    rewrite (bind_lift _ _ _ _ (int_of_ok (- r) ltac:(lia))).
    destruct (paint_ok rgb cx cy (- r) (r + 1) (- r) (r + 1) (fun y x => x * x + y * y <=? r * r) g
      (circle_point cx cy r rgb)) as (g' & E & Hp); [|done|exists g'; split; [exact E|]].
    + intros y x Hy Hx s. unfold circle_point. rewrite (bind_lift _ _ _ _ (int_of_ok (x * x + y * y) ltac:(nia))).
      rewrite (bind_lift _ _ _ _ (int_of_ok (r * r) ltac:(nia))).
      destruct (x * x + y * y <=? r * r); [|done].
      rewrite (bind_lift _ _ _ _ (int_of_ok (cx + x) ltac:(lia))).
      by rewrite (bind_lift _ _ _ _ (int_of_ok (cy + y) ltac:(lia))).
    + eapply painted_ext, Hp. intros i j. cbn beta. rewrite Z.leb_le. split; [naive_solver|]. intros Hd.
      pose proof (square_bound (i - cx) r). pose proof (square_bound (j - cy) r).
      pose proof (Z.square_nonneg (i - cx)). pose proof (Z.square_nonneg (j - cy)). split_and!; lia.
Qed.

(** A picture of 16 by 8 pixels; a rectangle that sticks out on the left. *)
Definition small_picture : graphics_t := Graphics (Fb None 16 8 64 32) (replicate (Z.to_nat backbuffer_size) 0).

Lemma shapes_painted_witness :
  exists g', fb_draw_rectangle (-2) 1 5 3 0xFF0000 small_picture = Ok (tt, g') /\
    pixel g' 0 1 = Some 0xFF0000 /\ pixel g' 2 3 = Some 0xFF0000 /\ pixel g' 3 3 = pixel small_picture 3 3.
Proof.
  assert (Hf : fits small_picture).
  { constructor; cbn [fb width height small_picture backbuffer]; [lia|lia|unfold backbuffer_size; lia|].
    rewrite length_replicate. unfold backbuffer_size. lia. }
  destruct (shapes_painted small_picture 0xFF0000 Hf) as [Hr _].
  destruct (Hr (-2) 1 5 3 ltac:(unfold is_int; lia) ltac:(unfold is_int; lia)) as (g' & E & Hp).
  exists g'. unfold in_picture in Hp. destruct Hp as [_ _ Hin Hout]. unfold in_picture in Hin, Hout.
  cbn [fb width height small_picture] in Hin, Hout.
  split_and!; [exact E|apply Hin; lia|apply Hin; lia|apply Hout; lia].
Defined.

(** The back buffer holds 1024 by 768 pixels, whatever the size of the
    framebuffer: a pixel beyond its end is stored outside of it. *)
Lemma pixel_overflow g x y rgb :
  0 <= width (fb g) < 2 ^ 31 -> 0 <= height (fb g) < 2 ^ 31 ->
  Z.of_nat (length (backbuffer g)) = backbuffer_size -> in_picture g x y ->
  backbuffer_size <= y * width (fb g) + x < 2 ^ 31 -> fb_draw_pixel x y rgb g = Undef.
Proof.
  intros Hw Hh Hb [Hx Hy] Hi. unfold fb_draw_pixel. rewrite bind_gets, !s32_small by (unfold backbuffer_size in *; lia).
  destruct ((x <? 0) || (width (fb g) <=? x) || (y <? 0) || (height (fb g) <=? y)) eqn:E; [lia|].
  unfold pixel_set. rewrite bind_gets. unfold aset, mbind, io_bind, lift.
  by destruct ((0 <=? y * width (fb g) + x) && (y * width (fb g) + x <? Z.of_nat (length (backbuffer g)))) eqn:E2; [lia|].
Qed.
