(* ===== verification/Windows.v ===== *)
(** * Window manager ([src/window_manager.c])

    Up to eight windows in an array, stacked by their z-order.  The operations
    work on the array; [window_manager_render] sorts pointers to the windows,
    here their indices, by z-order and draws them on the text screen.  A title
    is the characters of a C string without the terminator, NULL is [None].
    The log lines that give a title with [%s] read it: a NULL title is
    undefined there. *)

From S2P Require Import Prelude Io Vga.

Definition MAX_WINDOWS : Z := 8.

Record window_t := Window {
  win_id : Z; win_x : Z; win_y : Z; win_width : Z; win_height : Z; title : option (list Z);
  z_order : Z; active : bool; minimized : bool; focused : bool
}.

Record wm_t := Wm { windows : list window_t; window_count : Z; next_window_id : Z; focused_window : Z }.

Definition set_z (z : Z) (w : window_t) : window_t :=
  Window (win_id w) (win_x w) (win_y w) (win_width w) (win_height w) (title w) z (active w) (minimized w) (focused w).
Definition set_focused (b : bool) (w : window_t) : window_t :=
  Window (win_id w) (win_x w) (win_y w) (win_width w) (win_height w) (title w) (z_order w) (active w) (minimized w) b.
Definition set_windows (l : list window_t) (s : wm_t) : wm_t :=
  Wm l (window_count s) (next_window_id s) (focused_window s).
Definition set_focused_window (i : Z) (s : wm_t) : wm_t :=
  Wm (windows s) (window_count s) (next_window_id s) i.

Definition get_window (i : Z) : io wm_t window_t := s ← gets windows; lift (aget s i).
Definition put_window (i : Z) (w : window_t) : io wm_t unit :=
  s ← gets windows;
  l ← lift (aset s i w);
  modify (set_windows l).

(** What [KLOG] does with a string argument. *)
Definition log_string {S} (str : option (list Z)) : io S unit := lift (kstrlen str) ≫= fun _ => skip.

Definition log_title (i : Z) : io wm_t unit := w ← get_window i; log_string (title w).

Definition window_manager_initialize : io wm_t unit := modify (fun s => Wm (windows s) 0 1 (-1)).

Definition window_manager_create_window (x y width height : Z) (title : option (list Z)) : io wm_t unit :=
  s ← gets id;
  if MAX_WINDOWS <=? window_count s then skip
  else
    put_window (window_count s) (Window (next_window_id s) x y width height title (window_count s) true false
      (focused_window s =? -1)) ≫= fun _ =>
    modify (fun s => Wm (windows s) (window_count s + 1) (next_window_id s + 1)
      (if focused_window s =? -1 then window_count s else focused_window s)) ≫= fun _ =>
    log_string title.

(** The index of the first window with the given id. *)
Definition find_window (window_id : Z) : io wm_t (option Z) :=
  gets (fun s => Z.of_nat <$> first_index (fun w => win_id w =? window_id) (take (Z.to_nat (window_count s)) (windows s))).

Definition window_manager_set_focus (window_id : Z) : io wm_t unit :=
  f ← find_window window_id;
  match f with
  | None => skip
  | Some i =>
    modify (set_focused_window i) ≫= fun _ =>
    w ← get_window i;
    n ← gets window_count;
    put_window i (set_z (n - 1) (set_focused true w)) ≫= fun _ =>
    log_title i
  end.

(** [windows[j].z_order += d] if [test] holds of the z-orders of [j] and [i]. *)
Definition shift_z (test : Z -> Z -> bool) (d i j : Z) : io wm_t unit :=
  wj ← get_window j;
  wi ← get_window i;
  if test (z_order wj) (z_order wi) then put_window j (set_z (z_order wj + d) wj) else skip.

Definition window_manager_raise_window (window_id : Z) : io wm_t unit :=
  f ← find_window window_id;
  match f with
  | None => skip
  | Some i =>
    n ← gets window_count;
    for_loop (Z.to_nat n) 0 (shift_z Z.gtb (-1) i) ≫= fun _ =>
    w ← get_window i;
    put_window i (set_z (n - 1) w) ≫= fun _ =>
    modify (set_focused_window i) ≫= fun _ =>
    log_title i
  end.

Definition window_manager_lower_window (window_id : Z) : io wm_t unit :=
  f ← find_window window_id;
  match f with
  | None => skip
  | Some i =>
    n ← gets window_count;
    for_loop (Z.to_nat n) 0 (shift_z Z.ltb 1 i) ≫= fun _ =>
    w ← get_window i;
    put_window i (set_z 0 w) ≫= fun _ =>
    log_title i
  end.

(** ** Rendering *)

(** One comparison of the sort: the entries [i] and [j] of the array of
    pointers are swapped when they are in the wrong order. *)
Definition exchange (ws : list window_t) (i j : Z) : io (list Z) unit :=
  a ← gets id;
  p ← lift (aget a i);
  q ← lift (aget a j);
  wp ← lift (aget ws p);
  wq ← lift (aget ws q);
  if z_order wq <? z_order wp then
    a ← lift (aset a i q);
    a ← lift (aset a j p);
    modify (fun _ => a)
  else skip.

(** The pointers, sorted by z-order. *)
Definition sort_windows (s : wm_t) : outcome (list Z) :=
  let n := window_count s in
  match for_loop (Z.to_nat (n - 1)) 0 (fun i => int_for (i + 1) n (exchange (windows s) i)) (seqZ 0 n) with
  | Ok (_, a) => Ok a
  | Undef => Undef
  | NoFuel => NoFuel
  end.

(** [for (p = text; *p && tx < limit; p++, tx++) vga_write_char(tx, y, *p, color);] *)
Fixpoint draw_text (text : list Z) (tx limit y color : Z) : io text_t unit :=
  match text with
  | [] => skip
  | c :: text' =>
    if tx <? limit then vga_write_char tx y c color ≫= fun _ => draw_text text' (tx + 1) limit y color else skip
  end.

Definition draw_window (w : window_t) : io text_t unit :=
  if negb (active w) || minimized w then skip
  else
    let x := win_x w in
    let y := win_y w in
    let frame_color := if focused w then 0x1F else 0x0F in
    vga_write_char x y 43 frame_color ≫= fun _ =>
    right ← lift (int_of (x + win_width w));
    right1 ← lift (int_of (right - 1));
    vga_write_char right1 y 43 frame_color ≫= fun _ =>
    bottom ← lift (int_of (y + win_height w));
    bottom1 ← lift (int_of (bottom - 1));
    vga_write_char x bottom1 43 frame_color ≫= fun _ =>
    vga_write_char right1 bottom1 43 frame_color ≫= fun _ =>
    width1 ← lift (int_of (win_width w - 1));
    int_for 1 width1 (fun j =>
      vga_write_char (x + j) y 45 frame_color ≫= fun _ =>
      vga_write_char (x + j) bottom1 45 frame_color) ≫= fun _ =>
    height1 ← lift (int_of (win_height w - 1));
    int_for 1 height1 (fun j =>
      vga_write_char x (y + j) 124 frame_color ≫= fun _ =>
      vga_write_char right1 (y + j) 124 frame_color) ≫= fun _ =>
    match title w with
    | None => skip
    | Some t =>
      tx ← lift (int_of (x + 2));
      limit ← lift (int_of (right - 2));
      draw_text t tx limit y 0x1F
    end ≫= fun _ =>
    top ← lift (int_of (y + 1));
    int_for top bottom1 (fun row =>
      left ← lift (int_of (x + 1));
      int_for left right1 (fun col => vga_write_char col row 32 0x07)).

Fixpoint draw_windows (ws : list window_t) (order : list Z) : io text_t unit :=
  match order with
  | [] => skip
  | i :: order' =>
    w ← lift (aget ws i);
    draw_window w ≫= fun _ =>
    draw_windows ws order'
  end.

Definition window_manager_render (s : wm_t) : io text_t unit :=
  fun t => match sort_windows s with
           | Ok order => draw_windows (windows s) order t
           | Undef => Undef
           | NoFuel => NoFuel
           end.

(** ** Stacking

    The specification: the ids of the windows from the bottom to the top. *)

Inductive wm_op :=
| Create (x y width height : Z) (title : option (list Z))
| Raise (window_id : Z)
| Lower (window_id : Z).

Definition wm_step (op : wm_op) : io wm_t unit :=
  match op with
  | Create x y w h t => window_manager_create_window x y w h t
  | Raise i => window_manager_raise_window i
  | Lower i => window_manager_lower_window i
  end.

Fixpoint wm_run (ops : list wm_op) : io wm_t unit :=
  match ops with
  | [] => skip
  | op :: ops' => wm_step op ≫= fun _ => wm_run ops'
  end.

Definition others (i : Z) (l : list Z) : list Z := filter (fun k => k <> i) l.

(** Ids are given out from 1.  A creation that has room needs a title. *)
Definition stack_step (op : wm_op) (st : list Z * Z) : option (list Z * Z) :=
  let '(l, next) := st in
  match op with
  | Create _ _ _ _ title =>
    if (length l <? 8)%nat then match title with Some _ => Some (l ++ [next], next + 1) | None => None end
    else Some (l, next)
  | Raise i => Some (if decide (i ∈ l) then (others i l ++ [i], next) else (l, next))
  | Lower i => Some (if decide (i ∈ l) then (i :: others i l, next) else (l, next))
  end.

Fixpoint stack_run (ops : list wm_op) (st : list Z * Z) : option (list Z * Z) :=
  match ops with
  | [] => Some st
  | op :: ops' => st' ← stack_step op st; stack_run ops' st'
  end.

(** The window at [i] is in use. *)
Definition window_at (s : wm_t) (i : nat) (w : window_t) : Prop :=
  windows s !! i = Some w /\ Z.of_nat i < window_count s.

Record stacked (s : wm_t) (l : list Z) (next : Z) : Prop := {
  st_slots : length (windows s) = 8%nat;
  st_count : window_count s = Z.of_nat (length l);
  st_max : (length l <= 8)%nat;
  st_place i w : window_at s i w -> 0 <= z_order w /\ l !! Z.to_nat (z_order w) = Some (win_id w);
  st_distinct i j w w' : window_at s i w -> window_at s j w' -> win_id w = win_id w' -> i = j;
  st_all k : k ∈ l -> exists i w, window_at s i w /\ win_id w = k;
  st_next : next_window_id s = next;
  st_fresh i w : window_at s i w -> win_id w < next;
  st_nodup : NoDup l;
  st_titles i w : window_at s i w -> is_Some (title w)
}.

Definition shifted (test : Z -> Z -> bool) (d zi : Z) (w : window_t) : window_t :=
  if test (z_order w) zi then set_z (z_order w + d) w else w.

Lemma get_window_ok s i w : windows s !! i = Some w -> get_window (Z.of_nat i) s = Ok (w, s).
Proof.
  intros Hi. unfold get_window. rewrite bind_gets. unfold lift. rewrite aget_nonneg, Nat2Z.id by lia. by rewrite Hi.
Qed.

Lemma put_window_ok s i w :
  (i < length (windows s))%nat -> put_window (Z.of_nat i) w s = Ok (tt, set_windows (<[i := w]> (windows s)) s).
Proof.
  intros Hi. unfold put_window. rewrite bind_gets.
  rewrite (bind_lift _ _ _ _ (aset_in_range (windows s) (Z.of_nat i) w ltac:(lia))). by rewrite Nat2Z.id.
Qed.

Section shift.
Context (test : Z -> Z -> bool) (d : Z) (Htest : forall z, test z z = false) (s0 : wm_t) (i : nat) (wi : window_t)
  (Hwi : windows s0 !! i = Some wi).

(** The array when the first [k] windows have been shifted. *)
Definition shifted_upto (k : Z) (s : wm_t) : Prop :=
  s = set_windows (imap (fun j w => if Z.of_nat j <? k then shifted test d (z_order wi) w else w) (windows s0)) s0.

Lemma shift_step k :
  0 <= k < Z.of_nat (length (windows s0)) ->
  total (shifted_upto k) (shift_z test d (Z.of_nat i) k) (fun _ => shifted_upto (k + 1)).
Proof using Htest Hwi.
  intros Hk s ->. destruct (lookup_lt_is_Some_2 (windows s0) (Z.to_nat k)) as [w Hw]; [lia|].
  set (s := set_windows _ s0).
  assert (Hj : windows s !! Z.to_nat k = Some w).
  { unfold s. cbn [windows set_windows]. rewrite list_lookup_imap, Hw. simpl. by case_cmp; [lia|]. }
  assert (Hi : exists wi', windows s !! i = Some wi' /\ z_order wi' = z_order wi).
  { unfold s. cbn [windows set_windows]. rewrite list_lookup_imap, Hwi. eexists. split; [done|].
    case_cmp; [|done]. unfold shifted. by rewrite Htest. }
  destruct Hi as (wi' & Hi & Hz). unfold shift_z.
  pose proof (get_window_ok _ _ _ Hj) as Hget. pose proof (fun w' => put_window_ok s (Z.to_nat k) w') as Hput.
  rewrite Z2Nat.id in Hget, Hput by lia. rewrite (bind_ok _ _ _ _ _ Hget), (bind_ok _ _ _ _ _ (get_window_ok _ _ _ Hi)), Hz.
  assert (Heq : windows (set_windows (imap (fun j w => if Z.of_nat j <? k + 1 then shifted test d (z_order wi) w else w)
      (windows s0)) s0) = <[Z.to_nat k := shifted test d (z_order wi) w]> (windows s)).
  { unfold s. cbn [windows set_windows]. apply list_eq. intros j. rewrite list_lookup_imap.
    destruct (decide (j = Z.to_nat k)) as [->|Hne].
    - rewrite list_lookup_insert_eq, Hw by (rewrite length_imap; lia). simpl. by case_cmp; [|lia].
    - rewrite list_lookup_insert_ne, list_lookup_imap by done. destruct (windows s0 !! j); [|done]. simpl.
      do 2 f_equal. repeat case_cmp; done || lia. }
  unfold shifted_upto. destruct (test (z_order w) (z_order wi)) eqn:Et.
  - rewrite Hput by (apply lookup_lt_Some in Hj; done). exists tt. eexists. split; [done|].
    cbn [windows set_windows] in Heq. rewrite Heq. unfold shifted. by rewrite Et.
  - exists tt, s. split; [done|]. cbn [windows set_windows] in Heq. rewrite Heq. unfold shifted. rewrite Et.
    by rewrite list_insert_id by done.
Qed.

Lemma shift_loop_ok n :
  0 <= n <= Z.of_nat (length (windows s0)) ->
  exists s, for_loop (Z.to_nat n) 0 (shift_z test d (Z.of_nat i)) s0 = Ok (tt, s) /\ shifted_upto n s.
Proof using Htest Hwi.
  intros Hn. destruct (total_for shifted_upto (Z.to_nat n) 0 (shift_z test d (Z.of_nat i))) with (s := s0)
    as ([] & s & E & Hs).
  - intros k Hk. apply shift_step. lia.
  - unfold shifted_upto. replace (imap _ (windows s0)) with (windows s0); [by destruct s0|].
    apply list_eq. intros j. rewrite list_lookup_imap. destruct (windows s0 !! j); [|done]. simpl. by case_cmp; [lia|].
  - exists s. split; [done|]. by rewrite Z2Nat.id in Hs by lia.
Qed.
End shift.

(** ** Moving a window in the stack *)

Lemma filter_all (P : Z -> Prop) `{!forall x, Decision (P x)} l : Forall P l -> filter P l = l.
Proof. induction 1 as [|x l Hx Hl IH]; [done|]. by rewrite filter_cons_True, IH. Qed.

Lemma others_split i l1 l2 : NoDup (l1 ++ i :: l2) -> others i (l1 ++ i :: l2) = l1 ++ l2.
Proof.
  intros (H1 & H2 & H3)%NoDup_app. apply NoDup_cons in H3 as [H3 _]. unfold others.
  rewrite filter_app, filter_cons_False by (by intros []).
  rewrite !filter_all; [done|..]; apply Forall_forall; intros x Hx ->; [done|]. by apply (H2 i); [|left].
Qed.

(** The place of an element when another one is taken out. *)
Lemma place_without (i : Z) (l1 l2 : list Z) (k : nat) x :
  x <> i -> (l1 ++ i :: l2) !! k = Some x ->
  k <> length l1 /\ (l1 ++ l2) !! (if (length l1 <? k)%nat then k - 1 else k)%nat = Some x.
Proof.
  intros Hne [Hk|[Hge Hk]]%lookup_app_Some.
  - pose proof (lookup_lt_Some _ _ _ Hk). split; [lia|]. destruct (Nat.ltb_spec (length l1) k); [lia|].
    by rewrite lookup_app_l by done.
  - destruct (k - length l1)%nat as [|m] eqn:E; [by injection Hk as ->|]. split; [lia|].
    destruct (Nat.ltb_spec (length l1) k); [|lia]. rewrite lookup_app_r by lia.
    by replace (k - 1 - length l1)%nat with m by lia.
Qed.

(** New z-orders, according to a new order of the same ids. *)
Lemma stacked_renumbered s s' l l' next :
  stacked s l next -> window_count s' = window_count s -> next_window_id s' = next_window_id s ->
  length (windows s') = length (windows s) -> l' ≡ₚ l ->
  (forall j w, window_at s j w -> exists z, windows s' !! j = Some (set_z z w) /\ 0 <= z /\
    l' !! Z.to_nat z = Some (win_id w)) ->
  stacked s' l' next.
Proof.
  intros Hs Hc Hn Hlen Hperm Hz. pose proof Hs as [Hslots Hcount Hmax Hplace Hdist Hall Hnext Hfresh Hnd Htit].
  assert (Hat : forall j w', window_at s' j w' -> exists w z, window_at s j w /\ w' = set_z z w /\ 0 <= z /\
    l' !! Z.to_nat z = Some (win_id w)).
  { intros j w' [Hj Hlt]. destruct (lookup_lt_is_Some_2 (windows s) j) as [w Hw].
    { rewrite <- Hlen. by eapply lookup_lt_Some. }
    assert (Hatw : window_at s j w) by (split; [done|congruence]).
    destruct (Hz j w Hatw) as (z & E & Hz0 & Hl). rewrite E in Hj. injection Hj as <-. by exists w, z. }
  constructor.
  - congruence.
  - by rewrite Hc, Hcount, Hperm.
  - by rewrite Hperm.
  - intros j w' (w & z & _ & -> & ? & ?)%Hat. done.
  - intros i j w' w'' (w1 & z1 & H1 & -> & _)%Hat (w2 & z2 & H2 & -> & _)%Hat E. exact (Hdist _ _ _ _ H1 H2 E).
  - intros k Hk. rewrite Hperm in Hk. destruct (Hall k Hk) as (i & w & Hw & <-).
    destruct (Hz i w Hw) as (z & E & _). exists i, (set_z z w). split; [|done]. split; [done|].
    rewrite Hc. apply Hw.
  - congruence.
  - intros i w' (w & z & Hw & -> & _)%Hat. exact (Hfresh _ _ Hw).
  - by rewrite Hperm.
  - intros i w' (w & z & Hw & -> & _)%Hat. exact (Htit _ _ Hw).
Qed.

Lemma find_window_ok s l next k :
  stacked s l next ->
  (k ∉ l /\ find_window k s = Ok (None, s)) \/
  (k ∈ l /\ exists i w, window_at s i w /\ win_id w = k /\ find_window k s = Ok (Some (Z.of_nat i), s)).
Proof.
  intros Hs. pose proof Hs as [Hslots Hcount Hmax Hplace Hdist Hall Hnext Hfresh Hnd Htit]. unfold find_window, gets.
  destruct (first_index _ _) as [i|] eqn:E.
  - apply first_index_Some in E as (w & Hw & Hid & _). apply Z.eqb_eq in Hid. rewrite lookup_take_Some in Hw.
    assert (Hat : window_at s i w) by (split; [apply Hw|lia]).
    right. split.
    + destruct (Hplace i w Hat) as [_ Hl]. rewrite <- Hid. by eapply list_elem_of_lookup_2.
    + by exists i, w.
  - left. split; [|done]. intros Hk. destruct (Hall k Hk) as (i & w & [Hw Hi] & <-).
    rewrite first_index_None in E. specialize (E i w). rewrite Z.eqb_refl in E.
    apply diff_true_false, E. rewrite lookup_take_lt by lia. done.
Qed.

(** A window at the place [length l1] of the stack. *)
Lemma stack_place s l next i w :
  stacked s l next -> window_at s i w ->
  exists l1 l2, l = l1 ++ win_id w :: l2 /\ z_order w = Z.of_nat (length l1).
Proof.
  intros Hs Hw. destruct (st_place _ _ _ Hs i w Hw) as [Hz Hl].
  exists (take (Z.to_nat (z_order w)) l), (drop (S (Z.to_nat (z_order w))) l). split.
  - symmetry. by apply take_drop_middle.
  - rewrite length_take. apply lookup_lt_Some in Hl. lia.
Qed.

(** The common part of raising and lowering window [i], which goes to place
    [zt]: the others close the gap that it leaves. *)
Lemma move_ok test d s l1 l2 l' next i w zt :
  (forall z, test z z = false) -> stacked s (l1 ++ win_id w :: l2) next -> window_at s i w ->
  z_order w = Z.of_nat (length l1) -> l' ≡ₚ l1 ++ win_id w :: l2 -> 0 <= zt -> l' !! Z.to_nat zt = Some (win_id w) ->
  (forall z x, 0 <= z -> x <> win_id w -> (l1 ++ win_id w :: l2) !! Z.to_nat z = Some x ->
    let z' := if test z (z_order w) then z + d else z in 0 <= z' /\ l' !! Z.to_nat z' = Some x) ->
  exists s1 w1 s2, for_loop (Z.to_nat (window_count s)) 0 (shift_z test d (Z.of_nat i)) s = Ok (tt, s1) /\
    get_window (Z.of_nat i) s1 = Ok (w1, s1) /\ put_window (Z.of_nat i) (set_z zt w1) s1 = Ok (tt, s2) /\
    stacked s2 l' next.
Proof.
  intros Ht Hs Hw Hz Hperm Hzt Hlt Hothers.
  pose proof (st_count _ _ _ Hs) as Hcount. pose proof (st_max _ _ _ Hs) as Hmax. pose proof (st_slots _ _ _ Hs) as Hsl.
  destruct (shift_loop_ok test d Ht s i w (proj1 Hw) (window_count s) ltac:(lia)) as (s1 & E1 & H1).
  assert (Hlook : forall j v, window_at s j v -> windows s1 !! j = Some (shifted test d (z_order w) v)).
  { intros j v [Hj Hjn]. rewrite H1. cbn [windows set_windows]. rewrite list_lookup_imap, Hj. simpl. by case_cmp; [|lia]. }
  pose proof (lookup_lt_Some _ _ _ (Hlook i w Hw)) as Hi.
  exists s1. do 2 eexists. split; [done|]. split; [by apply get_window_ok, Hlook|]. split; [by apply put_window_ok|].
  eapply stacked_renumbered; [exact Hs|by rewrite H1|by rewrite H1| |done|].
  - cbn [windows set_windows]. rewrite length_insert, H1. cbn [windows set_windows]. by rewrite length_imap.
  - intros j v Hv. cbn [windows set_windows]. destruct (decide (j = i)) as [->|Hne].
    + assert (v = w) as -> by (destruct Hw, Hv; congruence).
      exists zt. rewrite list_lookup_insert_eq by done. split; [|done]. f_equal. unfold shifted. by rewrite Ht.
    + rewrite list_lookup_insert_ne, (Hlook j v Hv) by done. destruct (st_place _ _ _ Hs j v Hv) as [Hzv Hlv].
      assert (Hid : win_id v <> win_id w) by (intros E; apply Hne; by eapply (st_distinct _ _ _ Hs)).
      eexists. split; [|by apply Hothers]. unfold shifted. destruct (test _ _); by destruct v.
Qed.

Lemma log_string_ok {S} str (s : S) : is_Some str -> log_string str s = Ok (tt, s).
Proof. intros [t ->]. done. Qed.

Lemma log_title_ok s l next i : stacked s l next -> (i < length l)%nat -> log_title (Z.of_nat i) s = Ok (tt, s).
Proof.
  intros Hs Hi. pose proof (st_max _ _ _ Hs). pose proof (st_count _ _ _ Hs) as Hc.
  destruct (lookup_lt_is_Some_2 (windows s) i) as [w Hw]; [rewrite (st_slots _ _ _ Hs); lia|].
  unfold log_title. rewrite (bind_ok _ _ _ _ _ (get_window_ok s i w Hw)).
  apply log_string_ok, (st_titles _ _ _ Hs i). split; [done|lia].
Qed.

Lemma window_place s l next i w : stacked s l next -> window_at s i w -> (i < length l)%nat.
Proof. intros Hs [_ Hi]. rewrite (st_count _ _ _ Hs) in Hi. lia. Qed.

Lemma stacked_focus s l next f : stacked s l next -> stacked (set_focused_window f s) l next.
Proof. intros []. by constructor. Qed.

Lemma raise_ok s l next k :
  stacked s l next ->
  exists s', window_manager_raise_window k s = Ok (tt, s') /\
    exists l' next', stack_step (Raise k) (l, next) = Some (l', next') /\ stacked s' l' next'.
Proof.
  intros Hs. unfold window_manager_raise_window. cbn [stack_step].
  destruct (find_window_ok s l next k Hs) as [[Hk Ef]|[Hk (i & w & Hw & <- & Ef)]];
    rewrite (bind_ok _ _ _ _ _ Ef);
    [rewrite decide_False by done; exists s; split; [done|]; by exists l, next|]. rewrite decide_True by done.
  destruct (stack_place s l next i w Hs Hw) as (l1 & l2 & -> & Hz).
  pose proof (st_count _ _ _ Hs) as Hcount. rewrite length_app in Hcount. simpl in Hcount.
  rewrite others_split by apply Hs. rewrite bind_gets.
  destruct (move_ok Z.gtb (-1) s l1 l2 ((l1 ++ l2) ++ [win_id w]) next i w (window_count s - 1))
    as (s1 & w1 & s2 & E1 & E2 & E3 & Hs2); try done.
  - intros z. rewrite Z.gtb_ltb. apply Z.ltb_irrefl.
  - rewrite <- app_assoc. apply Permutation_app_head. by rewrite Permutation_app_comm.
  - lia.
  - apply lookup_app_Some. right. rewrite length_app.
    replace (Z.to_nat (window_count s - 1) - (length l1 + length l2))%nat with 0%nat by lia. split; [lia|done].
  - intros z x Hz0 Hx Hlx. destruct (place_without _ _ _ _ _ Hx Hlx) as [Hpos Hp]. rewrite Z.gtb_ltb, Hz. cbv zeta.
    revert Hp. destruct (Nat.ltb_spec (length l1) (Z.to_nat z)); case_cmp; try lia; intros Hp; (split; [lia|]).
    + apply lookup_app_Some. left. rewrite <- Hp. f_equal. lia.
    + apply lookup_app_Some. by left.
  - rewrite (bind_ok _ _ _ _ _ E1), (bind_ok _ _ _ _ _ E2), (bind_ok _ _ _ _ _ E3), bind_modify.
    eexists. split; [|do 2 eexists; split; [done|by apply stacked_focus]].
    apply (log_title_ok _ ((l1 ++ l2) ++ [win_id w]) next); [by apply stacked_focus|].
    pose proof (window_place s _ next i w Hs Hw) as Hi. rewrite !length_app in *. simpl in *. lia.
Qed.

Lemma lower_ok s l next k :
  stacked s l next ->
  exists s', window_manager_lower_window k s = Ok (tt, s') /\
    exists l' next', stack_step (Lower k) (l, next) = Some (l', next') /\ stacked s' l' next'.
Proof.
  intros Hs. unfold window_manager_lower_window. cbn [stack_step].
  destruct (find_window_ok s l next k Hs) as [[Hk Ef]|[Hk (i & w & Hw & <- & Ef)]];
    rewrite (bind_ok _ _ _ _ _ Ef);
    [rewrite decide_False by done; exists s; split; [done|]; by exists l, next|]. rewrite decide_True by done.
  destruct (stack_place s l next i w Hs Hw) as (l1 & l2 & -> & Hz).
  rewrite others_split by apply Hs. rewrite bind_gets.
  destruct (move_ok Z.ltb 1 s l1 l2 (win_id w :: l1 ++ l2) next i w 0)
    as (s1 & w1 & s2 & E1 & E2 & E3 & Hs2); try done.
  - intros z. apply Z.ltb_irrefl.
  - by rewrite Permutation_middle.
  - intros z x Hz0 Hx Hlx. destruct (place_without _ _ _ _ _ Hx Hlx) as [Hpos Hp]. rewrite Hz. cbv zeta.
    revert Hp. destruct (Nat.ltb_spec (length l1) (Z.to_nat z)); case_cmp; try lia; intros Hp; (split; [lia|]).
    + destruct (Z.to_nat z) as [|m] eqn:Em; [lia|]. by replace (S m - 1)%nat with m in Hp by lia.
    + replace (Z.to_nat (z + 1)) with (S (Z.to_nat z)) by lia. done.
  - rewrite (bind_ok _ _ _ _ _ E1), (bind_ok _ _ _ _ _ E2), (bind_ok _ _ _ _ _ E3).
    eexists. split; [|do 2 eexists; split; [done|done]].
    apply (log_title_ok _ (win_id w :: l1 ++ l2) next); [done|].
    pose proof (window_place s _ next i w Hs Hw) as Hi. simpl. rewrite !length_app in *. simpl in *. lia.
Qed.

Lemma wm_create_ok s l next x y w h t :
  stacked s l next -> 0 < next ->
  match stack_step (Create x y w h t) (l, next) with
  | Some (l', next') => exists s', window_manager_create_window x y w h t s = Ok (tt, s') /\ stacked s' l' next'
  | None => window_manager_create_window x y w h t s = Undef
  end.
Proof.
  intros Hs Hpos. pose proof Hs as [Hslots Hcount Hmax Hplace Hdist Hall Hnext Hfresh Hnd Htit].
  unfold window_manager_create_window, MAX_WINDOWS. rewrite bind_gets. cbn [id stack_step].
  destruct (Nat.ltb_spec (length l) 8); case_cmp; try lia; [|by exists s].
  rewrite Hcount, (bind_ok _ _ _ _ _ (put_window_ok s (length l) _ ltac:(lia))).
  set (v := Window _ _ _ _ _ _ _ _ _ _). rewrite bind_modify. destruct t as [t|]; [|done].
  eexists. split; [by apply log_string_ok|].
  cbn [windows window_count next_window_id focused_window set_windows].
  assert (Hold : forall (s' : wm_t), windows s' = <[length l := v]> (windows s) -> window_count s' = Z.of_nat (length l) + 1 ->
    forall i u, window_at s' i u <-> (window_at s i u \/ (i = length l /\ u = v))).
  { intros s' Hw Hc i u. unfold window_at. rewrite Hw, Hc, Hcount. destruct (decide (i = length l)) as [->|].
    - rewrite list_lookup_insert_eq by lia. naive_solver lia.
    - rewrite list_lookup_insert_ne by done. naive_solver lia. }
  set (s' := Wm _ _ _ _). assert (Hat : forall i u, window_at s' i u <-> (window_at s i u \/ (i = length l /\ u = v)))
    by (apply Hold; unfold s'; simpl; lia || done).
  assert (Hnew : forall i u, window_at s i u -> win_id u <> win_id v) by (intros i u Hu; specialize (Hfresh i u Hu); simpl; lia).
  constructor.
  - unfold s'. cbn [windows]. by rewrite length_insert.
  - unfold s'. cbn [window_count]. rewrite length_app. simpl. lia.
  - rewrite length_app. simpl. lia.
  - intros i u [Hu|[-> ->]]%Hat.
    + destruct (Hplace i u Hu) as [Hz Hl]. split; [done|]. by apply lookup_app_l_Some.
    + unfold v. cbn [z_order win_id]. split; [lia|]. rewrite Nat2Z.id, Hnext. by apply list_lookup_middle.
  - intros i j u u' [Hu|[-> ->]]%Hat [Hu'|[-> ->]]%Hat E; [by eapply Hdist| | |done]; exfalso; [by eapply Hnew|].
    symmetry in E. by eapply Hnew.
  - intros k [Hk|Hk]%elem_of_app.
    + destruct (Hall k Hk) as (i & u & Hu & E). exists i, u. split; [|done]. apply Hat. by left.
    + apply list_elem_of_singleton in Hk as ->. exists (length l), v. split; [|done]. apply Hat. by right.
  - unfold s'. cbn [next_window_id]. lia.
  - intros i u [Hu|[-> ->]]%Hat; [specialize (Hfresh i u Hu); lia|]. simpl. lia.
  - apply NoDup_app. split_and!; [done| |apply NoDup_singleton]. intros k Hk Hin.
    apply list_elem_of_singleton in Hin as ->. destruct (Hall next Hk) as (i & u & Hu & E). specialize (Hfresh i u Hu). lia.
  - intros i u [Hu|[-> ->]]%Hat; [by eapply Htit|done].
Qed.

Lemma wm_step_ok op s l next :
  stacked s l next -> 0 < next ->
  match stack_step op (l, next) with
  | Some (l', next') => exists s', wm_step op s = Ok (tt, s') /\ stacked s' l' next' /\ 0 < next'
  | None => wm_step op s = Undef
  end.
Proof.
  intros Hs Hn. destruct op as [x y w h t|k|k]; cbn [wm_step].
  - pose proof (wm_create_ok s l next x y w h t Hs Hn) as H. revert H. cbn [stack_step].
    destruct (length l <? 8)%nat; [destruct t as [t|]; [|done]|]; intros (s' & E & Hs'); exists s'; split_and!; done || lia.
  - destruct (raise_ok s l next k Hs) as (s' & E & l' & next' & Es & Hs'). rewrite Es. exists s'. split; [done|]. split; [done|].
    revert Es. cbn [stack_step]. destruct (decide (k ∈ l)); intros [= _ <-]; done.
  - destruct (lower_ok s l next k Hs) as (s' & E & l' & next' & Es & Hs'). rewrite Es. exists s'. split; [done|]. split; [done|].
    revert Es. cbn [stack_step]. destruct (decide (k ∈ l)); intros [= _ <-]; done.
Qed.

Lemma wm_run_ok ops s l next :
  stacked s l next -> 0 < next ->
  match stack_run ops (l, next) with
  | Some (l', next') => exists s', wm_run ops s = Ok (tt, s') /\ stacked s' l' next'
  | None => wm_run ops s = Undef
  end.
Proof.
  revert s l next. induction ops as [|op ops IH]; intros s l next Hs Hn; [by exists s|].
  pose proof (wm_step_ok op s l next Hs Hn) as H. cbn [stack_run wm_run].
  destruct (stack_step op (l, next)) as [[l1 next1]|]; cbn [mbind option_bind].
  - destruct H as (s1 & E1 & H1 & Hn1). rewrite (bind_ok _ _ _ _ _ E1). by apply IH.
  - unfold mbind, io_bind. by rewrite H.
Qed.

(** ** The sort *)

Section sort.
Context (ws : list window_t) (n : nat) (Hn : (n <= length ws)%nat).

(** The z-order of the window at index [x]. *)
Definition zkey (x : Z) : Z := match aget ws x with Some w => z_order w | None => 0 end.

Definition pointers (a : list Z) : Prop := length a = n /\ NoDup a /\ Forall (fun x => 0 <= x < Z.of_nat n) a.

Definition below (a : list Z) (p q : nat) : Prop := forall x y, a !! p = Some x -> a !! q = Some y -> zkey x <= zkey y.

(** The first [i] entries are in their place, and entry [i] is the least of
    those before [j]. *)
Record sorting (i j : nat) (a : list Z) : Prop := {
  sorting_pointers : pointers a;
  sorting_done p q : (p < i)%nat -> (p <= q)%nat -> below a p q;
  sorting_least q : (i <= q < j)%nat -> below a i q
}.

Definition swapped (i j p : nat) : nat := if decide (p = i) then j else if decide (p = j) then i else p.

Lemma swap_lookup (a : list Z) i j x y p :
  a !! i = Some x -> a !! j = Some y -> <[j := x]> (<[i := y]> a) !! p = a !! swapped i j p.
Proof using Type.
  clear Hn. intros Hx Hy. pose proof (lookup_lt_Some _ _ _ Hx). pose proof (lookup_lt_Some _ _ _ Hy). unfold swapped.
  destruct (decide (p = j)) as [->|Hj].
  - rewrite list_lookup_insert_eq by (by rewrite length_insert). destruct (decide (j = i)) as [->|]; congruence.
  - rewrite list_lookup_insert_ne by done. destruct (decide (p = i)) as [->|Hi].
    + by rewrite list_lookup_insert_eq.
    + by rewrite list_lookup_insert_ne.
Qed.

Lemma swap_pointers a i j x y :
  pointers a -> a !! i = Some x -> a !! j = Some y -> pointers (<[j := x]> (<[i := y]> a)).
Proof using Type.
  clear Hn. intros (Hl & Hnd & Hr) Hx Hy. split_and!.
  - by rewrite !length_insert.
  - apply NoDup_alt. intros p q v. rewrite !(swap_lookup a i j x y) by done. intros Hp Hq.
    rewrite NoDup_alt in Hnd. specialize (Hnd _ _ _ Hp Hq). unfold swapped in Hnd. repeat case_decide; lia.
  - rewrite Forall_lookup in *. intros p v. rewrite (swap_lookup a i j x y) by done. apply Hr.
Qed.

Lemma exchange_step (i j : nat) :
  (i < j < n)%nat -> total (sorting i j) (exchange ws (Z.of_nat i) (Z.of_nat j)) (fun _ => sorting i (j + 1)).
Proof using Hn.
  intros Hij a [Hp Hd Hl]. pose proof Hp as (Hlen & Hnd & Hr).
  destruct (lookup_lt_is_Some_2 a i) as [x Hx]; [lia|]. destruct (lookup_lt_is_Some_2 a j) as [y Hy]; [lia|].
  rewrite Forall_lookup in Hr. pose proof (Hr _ _ Hx) as Hxr. pose proof (Hr _ _ Hy) as Hyr. clear Hr. simpl in Hxr, Hyr.
  destruct (aget_in_range ws x ltac:(lia)) as [wx Hwx]. destruct (aget_in_range ws y ltac:(lia)) as [wy Hwy].
  assert (Hkx : zkey x = z_order wx) by (unfold zkey; by rewrite Hwx).
  assert (Hky : zkey y = z_order wy) by (unfold zkey; by rewrite Hwy).
  unfold exchange. rewrite bind_gets. cbn [id].
  rewrite (bind_lift _ _ _ x) by (by rewrite aget_nonneg, Nat2Z.id by lia).
  rewrite (bind_lift _ _ _ y) by (by rewrite aget_nonneg, Nat2Z.id by lia).
  rewrite (bind_lift _ _ _ _ Hwx), (bind_lift _ _ _ _ Hwy), <- Hkx, <- Hky. case_cmp.
  - rewrite (bind_lift _ _ _ _ (aset_in_range a (Z.of_nat i) y ltac:(lia))).
    rewrite (bind_lift _ _ _ _ (aset_in_range (<[Z.to_nat (Z.of_nat i) := y]> a) (Z.of_nat j) x
      ltac:(rewrite length_insert; lia))). rewrite !Nat2Z.id.
    exists tt. eexists. split; [done|]. constructor.
    + by apply swap_pointers.
    + intros p q Hpi Hpq u v. rewrite !(swap_lookup a i j x y) by done. intros Hu Hv.
      apply (Hd p (swapped i j q)); [lia|unfold swapped; repeat case_decide; lia| |done].
      revert Hu. unfold swapped. by repeat case_decide; try lia.
    + intros q Hq u v. rewrite !(swap_lookup a i j x y) by done. unfold swapped at 1. rewrite decide_True by done.
      intros Hu Hv. rewrite Hy in Hu. injection Hu as <-. revert Hv. unfold swapped. repeat case_decide; subst.
      * intros [= <-]%(eq_trans (eq_sym Hy)). lia.
      * intros [= <-]%(eq_trans (eq_sym Hx)). lia.
      * intros Hv. specialize (Hl q ltac:(lia) x v Hx Hv). lia.
  - exists tt, a. split; [done|]. constructor; try done. intros q Hq. destruct (decide (q = j)) as [->|]; [|apply Hl; lia].
    intros u v Hu Hv. rewrite Hx in Hu. rewrite Hy in Hv. injection Hu as <-. injection Hv as <-. lia.
Qed.

Lemma sorting_next i a : sorting i n a -> sorting (i + 1) (i + 1) a.
Proof using Type.
  clear Hn. intros [Hp Hd Hl]. constructor; [done| |].
  - intros p q Hpi Hpq. destruct (decide (p = i)) as [->|]; [|apply Hd; lia].
    intros x y Hx Hy. apply (Hl q); try done. apply lookup_lt_Some in Hy. destruct Hp as [<- _]. lia.
  - intros q Hq. lia.
Qed.

Lemma sort_row i :
  0 <= i < Z.of_nat n - 1 ->
  total (sorting (Z.to_nat i) (Z.to_nat i)) (int_for (i + 1) (Z.of_nat n) (exchange ws i))
    (fun _ => sorting (Z.to_nat (i + 1)) (Z.to_nat (i + 1))).
Proof using Hn.
  intros Hi. unfold int_for. eapply total_weaken.
  - apply (total_for (fun j => sorting (Z.to_nat i) (Z.to_nat j)) _ (i + 1)). intros j Hj.
    replace (Z.to_nat (j + 1)) with (Z.to_nat j + 1)%nat by lia.
    pose proof (exchange_step (Z.to_nat i) (Z.to_nat j) ltac:(lia)) as H. by rewrite !Z2Nat.id in H by lia.
  - intros a [Hp Hd Hl]. constructor; [done|done|]. intros q Hq. assert (q = Z.to_nat i) as -> by lia.
    intros x y Hx Hy. rewrite Hx in Hy. injection Hy as <-. lia.
  - intros [] a. cbn beta. replace (Z.to_nat (i + 1 + Z.of_nat (Z.to_nat (Z.of_nat n - (i + 1))))) with n by lia.
    intros Ha%sorting_next. by replace (Z.to_nat (i + 1)) with (Z.to_nat i + 1)%nat by lia.
Qed.

Lemma sort_loop_ok :
  exists a, for_loop (Z.to_nat (Z.of_nat n - 1)) 0 (fun i => int_for (i + 1) (Z.of_nat n) (exchange ws i))
      (seqZ 0 (Z.of_nat n)) = Ok (tt, a) /\
    pointers a /\ forall p q, (p < q)%nat -> below a p q.
Proof using Hn.
  destruct (total_for (fun i => sorting (Z.to_nat i) (Z.to_nat i)) (Z.to_nat (Z.of_nat n - 1)) 0
    (fun i => int_for (i + 1) (Z.of_nat n) (exchange ws i))) with (s := seqZ 0 (Z.of_nat n)) as ([] & a & E & [Hp Hd _]).
  - intros i Hi. apply sort_row. lia.
  - constructor; [|intros; lia..]. split_and!.
    + rewrite length_seqZ. lia.
    + apply NoDup_seqZ.
    + apply Forall_forall. intros x Hx%elem_of_seqZ. lia.
  - exists a. split; [done|]. split; [done|]. intros p q Hpq x y Hx Hy.
    apply (Hd p q); try done; [|lia]. apply lookup_lt_Some in Hy. destruct Hp as [Hlen _]. lia.
Qed.
End sort.

(** An increasing sequence of [n] numbers below [n] is the identity. *)
Lemma increasing_id (f : nat -> Z) (n : nat) :
  (forall p q, (p < q < n)%nat -> f p < f q) -> (forall p, (p < n)%nat -> 0 <= f p < Z.of_nat n) ->
  forall p, (p < n)%nat -> f p = Z.of_nat p.
Proof.
  intros Hinc Hr.
  assert (Hgap : forall d p, (p + d < n)%nat -> f p + Z.of_nat d <= f (p + d)%nat).
  { intros d. induction d as [|d IH]; intros p Hp; [rewrite Nat.add_0_r; lia|].
    specialize (IH p ltac:(lia)). specialize (Hinc (p + d)%nat (p + S d)%nat ltac:(lia)). lia. }
  intros p Hp. pose proof (Hgap p 0%nat ltac:(lia)) as H1. pose proof (Hgap (n - 1 - p)%nat p ltac:(lia)) as H2.
  simpl in H1. replace (p + (n - 1 - p))%nat with (n - 1)%nat in H2 by lia.
  pose proof (Hr 0%nat ltac:(lia)). pose proof (Hr (n - 1)%nat ltac:(lia)). lia.
Qed.

(** The windows are drawn from the bottom of the stack to its top. *)
Lemma sort_windows_ok s l next :
  stacked s l next ->
  exists a, sort_windows s = Ok a /\
    Forall2 (fun k x => exists w, aget (windows s) x = Some w /\ win_id w = k) l a.
Proof.
  intros Hs. pose proof Hs as [Hslots Hcount Hmax Hplace Hdist Hall Hnext Hfresh Hnd Htit]. unfold sort_windows. rewrite Hcount.
  destruct (sort_loop_ok (windows s) (length l) ltac:(lia)) as (a & E & (Hlen & Hnda & Hr) & Hsort).
  cbv zeta. rewrite E. exists a. split; [done|].
  assert (Hat : forall p x, a !! p = Some x -> exists w, window_at s (Z.to_nat x) w /\ aget (windows s) x = Some w /\
    zkey (windows s) x = z_order w).
  { intros p x Hx. rewrite Forall_lookup in Hr. specialize (Hr p x Hx). simpl in Hr.
    destruct (aget_in_range (windows s) x ltac:(lia)) as [w Hw]. exists w. split_and!; [|done|unfold zkey; by rewrite Hw].
    split; [by apply aget_lookup|lia]. }
  set (f := fun p => zkey (windows s) (default 0 (a !! p))).
  assert (Hf : forall p x, a !! p = Some x -> f p = zkey (windows s) x) by (intros p x Hx; unfold f; by rewrite Hx).
  assert (Hid : forall p, (p < length l)%nat -> f p = Z.of_nat p).
  { apply increasing_id.
    - intros p q Hpq. destruct (lookup_lt_is_Some_2 a p) as [x Hx]; [lia|].
      destruct (lookup_lt_is_Some_2 a q) as [y Hy]; [lia|]. rewrite (Hf p x), (Hf q y) by done.
      pose proof (Hsort p q ltac:(lia) x y Hx Hy). destruct (Z.eq_dec (zkey (windows s) x) (zkey (windows s) y)); [|lia].
      destruct (Hat p x Hx) as (w & Hw & _ & Hk). destruct (Hat q y Hy) as (w' & Hw' & _ & Hk').
      assert (win_id w = win_id w').
      { destruct (Hplace _ _ Hw) as [_ H1]. destruct (Hplace _ _ Hw') as [_ H2]. congruence. }
      assert (Z.to_nat x = Z.to_nat y) by (by eapply Hdist).
      rewrite Forall_lookup in Hr. pose proof (Hr p x Hx). pose proof (Hr q y Hy). simpl in *.
      rewrite NoDup_alt in Hnda. assert (x = y) as -> by lia. pose proof (Hnda p q y Hx Hy). lia.
    - intros p Hp. destruct (lookup_lt_is_Some_2 a p) as [x Hx]; [lia|]. rewrite (Hf p x) by done.
      destruct (Hat p x Hx) as (w & Hw & _ & ->). destruct (Hplace _ _ Hw) as [Hz Hl]. apply lookup_lt_Some in Hl. lia. }
  apply Forall2_same_length_lookup_2; [done|]. intros p k x Hk Hx. destruct (Hat p x Hx) as (w & Hw & Haw & Hz).
  exists w. split; [done|]. destruct (Hplace _ _ Hw) as [_ Hl]. rewrite <- Hz, <- (Hf p x Hx), Hid, Nat2Z.id in Hl
    by (by eapply lookup_lt_Some). congruence.
Qed.

Lemma initialize_stacked s0 :
  length (windows s0) = 8%nat -> exists s, window_manager_initialize s0 = Ok (tt, s) /\ stacked s [] 1.
Proof.
  intros Hlen. eexists. split; [done|]. constructor; try done; simpl; try lia; try (intros; unfold window_at in *; simpl in *; lia).
  - by intros k Hk%not_elem_of_nil.
  - constructor.
Qed.

(** C28: the window manager is a stack of windows. After any sequence of
    creations, raises and lowers, the windows are those of the specification,
    where a new window goes on top (up to eight), a raised one moves to the
    top, a lowered one to the bottom, and the others keep their order; and
    rendering draws each window once, from the bottom of the stack to its
    top. No array access is out of bounds. The one undefined operation is the
    creation of a window with a NULL title while there is room, and a sequence
    with such a creation is undefined: the log reads the title. *)
Theorem windows_stacked s0 ops :
  length (windows s0) = 8%nat ->
  match stack_run ops ([], 1) with
  | Some (l, _) =>
    exists s a, (window_manager_initialize ≫= fun _ => wm_run ops) s0 = Ok (tt, s) /\
      window_count s = Z.of_nat (length l) /\ (length l <= 8)%nat /\
      (forall t, window_manager_render s t = draw_windows (windows s) a t) /\
      Forall2 (fun k x => exists w, aget (windows s) x = Some w /\ win_id w = k) l a
  | None => (window_manager_initialize ≫= fun _ => wm_run ops) s0 = Undef
  end.
Proof.
  intros Hlen. destruct (initialize_stacked s0 Hlen) as (s1 & E1 & H1).
  pose proof (wm_run_ok ops s1 [] 1 H1 ltac:(lia)) as H. rewrite (bind_ok _ _ _ _ _ E1).
  destruct (stack_run ops ([], 1)) as [[l next]|]; [|done].
  destruct H as (s & E & Hs). destruct (sort_windows_ok s _ _ Hs) as (a & Ea & Ha).
  exists s, a. split_and!; [done|apply Hs|apply Hs| |done]. intros t. unfold window_manager_render. by rewrite Ea.
Qed.

Definition blank_window : window_t := Window 0 0 0 0 0 None 0 false false false.
Definition blank_wm : wm_t := Wm (replicate 8 blank_window) 0 1 (-1).

Definition sample_ops : list wm_op :=
  [Create 0 0 9 5 (Some [65]); Create 4 2 9 5 (Some []); Create 8 4 9 5 (Some [66]); Raise 1; Lower 3].

Lemma windows_stacked_witness :
  exists s a, (window_manager_initialize ≫= fun _ => wm_run sample_ops) blank_wm = Ok (tt, s) /\
    Forall2 (fun k x => exists w, aget (windows s) x = Some w /\ win_id w = k) [3; 2; 1] a.
Proof.
  destruct (windows_stacked blank_wm sample_ops eq_refl) as (s & a & E & _ & _ & _ & H).
  exists s, a. split; [exact E|exact H].
Defined.

(** Focusing a window spoils the stack. Giving the focus to a window that
    is not on top gives it the z-order of the top window without taking that
    from it: the windows are no longer stacked in any order. The windows that
    were marked as focused stay so, beside the new one. *)
Theorem set_focus_ties s l next k :
  stacked s l next -> k ∈ l -> last l <> Some k ->
  exists s', window_manager_set_focus k s = Ok (tt, s') /\ (forall l' next', ~ stacked s' l' next') /\
    (forall j w, window_at s j w -> focused w = true \/ win_id w = k ->
      exists w', window_at s' j w' /\ win_id w' = win_id w /\ focused w' = true).
Proof.
  intros Hs Hk Hlast. unfold window_manager_set_focus.
  destruct (find_window_ok s l next k Hs) as [[Hk' _]|[_ (i & w & Hw & Hid & Ef)]]; [done|].
  rewrite (bind_ok _ _ _ _ _ Ef), bind_modify.
  rewrite (bind_ok _ _ _ _ _ (get_window_ok (set_focused_window (Z.of_nat i) s) i w (proj1 Hw))), bind_gets.
  pose proof (lookup_lt_Some _ _ _ (proj1 Hw)) as Hi.
  rewrite (bind_ok _ _ _ _ _ (put_window_ok (set_focused_window (Z.of_nat i) s) i _ Hi)).
  set (w2 := set_z _ _). set (s' := set_windows _ _). exists s'. split.
  { unfold log_title. rewrite (bind_ok _ _ _ w2 s'); [apply log_string_ok, (st_titles _ _ _ Hs i w Hw)|].
    apply get_window_ok. unfold s'. cbn [windows set_windows]. by rewrite list_lookup_insert_eq. }
  assert (Hat : forall j v, window_at s j v -> j <> i -> window_at s' j v).
  { intros j v [Hv Hj] Hne. split; [|done]. unfold s'. cbn [windows set_windows]. by rewrite list_lookup_insert_ne. }
  assert (Hati : window_at s' i w2).
  { split; [|apply Hw]. unfold s'. cbn [windows set_windows]. by rewrite list_lookup_insert_eq. }
  split.
  - intros l' next' Hs'. destruct (last l) as [top|] eqn:Etop; [|by apply last_None in Etop; subst; apply not_elem_of_nil in Hk].
    assert (Htop : top ∈ l) by (by apply last_Some_elem_of in Etop).
    destruct (st_all _ _ _ Hs top Htop) as (j & v & Hv & Hvid).
    assert (Hne : j <> i). { intros ->. apply Hlast. f_equal. destruct Hw, Hv. congruence. }
    assert (Hzv : z_order v = window_count s - 1).
    { destruct (st_place _ _ _ Hs j v Hv) as [Hz Hl]. rewrite last_lookup in Etop. rewrite Hvid in Hl.
      pose proof (st_nodup _ _ _ Hs) as Hnd. rewrite NoDup_alt in Hnd. specialize (Hnd _ _ _ Etop Hl).
      rewrite (st_count _ _ _ Hs). apply lookup_lt_Some in Hl. lia. }
    destruct (st_place _ _ _ Hs' j v (Hat j v Hv Hne)) as [_ H1]. destruct (st_place _ _ _ Hs' i w2 Hati) as [_ H2].
    apply Hne. apply (st_distinct _ _ _ Hs' j i v w2); [by apply Hat|done|].
    assert (Hz2 : z_order w2 = window_count s - 1) by done. rewrite Hz2 in H2. rewrite Hzv in H1. congruence.
  - intros j v Hv Hf. destruct (decide (j = i)) as [->|Hne].
    + exists w2. split; [done|]. split; [|done]. destruct Hw, Hv. unfold w2. simpl. congruence.
    + exists v. split; [by apply Hat|]. split; [done|]. destruct Hf as [|Hvid]; [done|]. exfalso. apply Hne.
      eapply (st_distinct _ _ _ Hs); [done..|congruence].
Qed.

Definition two_windows : wm_t :=
  Wm ([Window 1 0 0 9 5 (Some []) 0 true false true; Window 2 4 2 9 5 (Some []) 1 true false false] ++ replicate 6 blank_window)
    2 3 0.

Lemma two_windows_stacked : stacked two_windows [1; 2] 3.
Proof.
  assert (H : forall i w, window_at two_windows i w ->
    (i = 0%nat /\ w = Window 1 0 0 9 5 (Some []) 0 true false true) \/
    (i = 1%nat /\ w = Window 2 4 2 9 5 (Some []) 1 true false false)).
  { intros [|[|i]] w [Hw Hi]; simpl in Hw, Hi; [left|right|lia]; by injection Hw as <-. }
  constructor; try done; try (simpl; lia).
  - intros i w [[-> ->]|[-> ->]]%H; split; done || (simpl; lia).
  - intros i j w w' [[-> ->]|[-> ->]]%H [[-> ->]|[-> ->]]%H; done.
  - intros k [->|[->|[]%not_elem_of_nil]%elem_of_cons]%elem_of_cons; [by exists 0%nat; eexists|by exists 1%nat; eexists].
  - intros i w [[-> ->]|[-> ->]]%H; simpl; lia.
  - by apply (bool_decide_unpack _).
  - intros i w [[-> ->]|[-> ->]]%H; done.
Qed.

Lemma set_focus_ties_witness :
  exists s', window_manager_set_focus 1 two_windows = Ok (tt, s') /\ (forall l' next', ~ stacked s' l' next').
Proof.
  destruct (set_focus_ties two_windows [1; 2] 3 1 two_windows_stacked ltac:(by left) ltac:(done)) as (s' & E & H & _).
  by exists s'.
Defined.
