(* ===== verification/Desktop.v ===== *)
(** * Desktop services ([src/clipboard.c], [src/notifications.c], [src/control_center.c])

    The clipboard buffer, the list of notifications and the control center,
    with what the latter two draw on the text screen. *)

From stdpp Require Import strings.
From S2P Require Import Prelude Io Ring Pci Input Vga Windows.

(** ** Clipboard *)

Module Clipboard.

Definition CLIPBOARD_SIZE : Z := 512.

Record clipboard_t := Clip { clipboard_buffer : list Z; clipboard_used : Z }.

Definition clipboard_initialize (c : clipboard_t) : clipboard_t := Clip (clipboard_buffer c) 0.

(** [data] is the memory that the pointer leads to; NULL is [None]. *)
Definition clipboard_copy (data : option (list Z)) (size : Z) (c : clipboard_t) : option clipboard_t :=
  match data with
  | None => Some c
  | Some d =>
    if (size =? 0) || (CLIPBOARD_SIZE <? size) then Some c
    else
      s ← load d 0 size;
      b ← put (clipboard_buffer c) 0 s;
      Some (Clip b size)
  end.

Definition clipboard_paste (c : clipboard_t) : option (list Z) :=
  if clipboard_used c =? 0 then None else Some (clipboard_buffer c).

Definition clipboard_clear (c : clipboard_t) : clipboard_t := Clip (clipboard_buffer c) 0.

End Clipboard.
Import Clipboard.

(** What was copied comes back, followed by what the buffer held before. *)
Lemma clipboard_roundtrip c d :
  length (clipboard_buffer c) = 512%nat -> (0 < length d <= 512)%nat ->
  exists c', clipboard_copy (Some d) (Z.of_nat (length d)) c = Some c' /\
    clipboard_paste c' = Some (d ++ drop (length d) (clipboard_buffer c)).
Proof.
  intros Hc Hd. unfold clipboard_copy, CLIPBOARD_SIZE.
  destruct ((Z.of_nat (length d) =? 0) || (512 <? Z.of_nat (length d))) eqn:E; [lia|].
  rewrite load_eq by lia. cbn [mbind option_bind]. unfold slice. rewrite Nat2Z.id, drop_0, take_ge by lia.
  rewrite put_eq by lia. cbn [mbind option_bind]. eexists. split; [done|]. unfold clipboard_paste.
  cbn [clipboard_used clipboard_buffer]. case_cmp; [lia|done].
Qed.

(** ** Notifications *)

Module Notifications.

Definition MAX_NOTIFICATIONS : Z := 16.

Record notification_t := Notification {
  n_title : option (list Z); n_message : option (list Z); n_priority : Z; n_timestamp : Z; n_active : bool
}.

Record center_t := Center {
  notifications : list notification_t;
  notification_count : Z;
  display_y : Z;
  notification_center_visible : bool
}.

Definition notification_center_initialize (c : center_t) : center_t :=
  Center ((fun n => Notification (n_title n) (n_message n) (n_priority n) (n_timestamp n) false) <$> notifications c)
    0 (display_y c) false.

Definition notification_center_toggle (c : center_t) : center_t :=
  Center (notifications c) (notification_count c) (display_y c) (negb (notification_center_visible c)).

(** The log line at the end reads the title. *)
Definition notification_post (title message : option (list Z)) (priority : Z) (c : center_t) : option center_t :=
  if MAX_NOTIFICATIONS <=? notification_count c then Some c
  else
    l ← aset (notifications c) (notification_count c) (Notification title message priority 0 true);
    _ ← kstrlen title;
    Some (Center l (notification_count c + 1) (display_y c) (notification_center_visible c)).

(** One box. *)
Definition draw_notification (n : notification_t) (y : Z) : io text_t unit :=
  let color := if 1 <? n_priority n then 0x0C else 0x0F in
  vga_write_char 75 y 43 color ≫= fun _ =>
  int_for 76 78 (fun j => vga_write_char j y 45 color) ≫= fun _ =>
  vga_write_char 78 y 43 color ≫= fun _ =>
  t ← lift (n_title n);
  draw_text t 76 78 y color ≫= fun _ =>
  vga_write_char 75 (y + 1) 124 color ≫= fun _ =>
  m ← lift (n_message n);
  draw_text m 76 78 (y + 1) 0x07 ≫= fun _ =>
  vga_write_char 78 (y + 1) 124 color ≫= fun _ =>
  vga_write_char 75 (y + 2) 43 color ≫= fun _ =>
  vga_write_char 76 (y + 2) 45 color ≫= fun _ =>
  vga_write_char 77 (y + 2) 45 color ≫= fun _ =>
  vga_write_char 78 (y + 2) 43 color.

(** The notifications [i] to [i + n - 1]. *)
Fixpoint draw_notifications (n : nat) (i render_y : Z) (c : center_t) : io text_t unit :=
  match n with
  | O => skip
  | S n' =>
    if render_y <? 22 then
      x ← lift (aget (notifications c) i);
      if n_active x then
        draw_notification x render_y ≫= fun _ =>
        draw_notifications n' (i + 1) (render_y + 4) c
      else draw_notifications n' (i + 1) render_y c
    else skip
  end.

Definition notification_center_render (c : center_t) : io text_t unit :=
  if negb (notification_center_visible c) then skip
  else draw_notifications (Z.to_nat (notification_count c)) 0 (display_y c) c.

End Notifications.

(** ** Control center *)

Module ControlCenter.

Definition CONTROL_CENTER_X : Z := 50.
Definition CONTROL_CENTER_Y : Z := 2.
Definition CONTROL_CENTER_W : Z := 28.
Definition CONTROL_CENTER_H : Z := 14.

Definition control_center_initialize (visible : bool) : bool := false.
Definition control_center_toggle (visible : bool) : bool := negb visible.

Definition items : list string :=
  ["WiFi:     [ON]"; "Bluetooth:[OFF]"; "Airplane: [OFF]"; "Brightness: 80%"; "Volume:   65%"; "Battery:  85%"].

(** The items from row [cy] on. *)
Fixpoint draw_items (l : list string) (x y w h cy : Z) : io text_t unit :=
  match l with
  | [] => skip
  | item :: l' =>
    if cy <? y + h - 1 then
      draw_text (chars item) (x + 2) (x + w - 1) cy 0x0F ≫= fun _ => draw_items l' x y w h (cy + 1)
    else skip
  end.

Definition control_center_render (visible : bool) : io text_t unit :=
  if negb visible then skip
  else
    let x := CONTROL_CENTER_X in
    let y := CONTROL_CENTER_Y in
    let w := CONTROL_CENTER_W in
    let h := CONTROL_CENTER_H in
    vga_write_char x y 43 0x0F ≫= fun _ =>
    vga_write_char (x + w - 1) y 43 0x0F ≫= fun _ =>
    vga_write_char x (y + h - 1) 43 0x0F ≫= fun _ =>
    vga_write_char (x + w - 1) (y + h - 1) 43 0x0F ≫= fun _ =>
    int_for 1 (w - 1) (fun i =>
      vga_write_char (x + i) y 45 0x0F ≫= fun _ =>
      vga_write_char (x + i) (y + h - 1) 45 0x0F) ≫= fun _ =>
    int_for 1 (h - 1) (fun i =>
      vga_write_char x (y + i) 124 0x0F ≫= fun _ =>
      vga_write_char (x + w - 1) (y + i) 124 0x0F) ≫= fun _ =>
    draw_text (chars "Control Center") (x + 2) (x + w - 2) y 0x1F ≫= fun _ =>
    draw_items items x y w h (y + 2).

End ControlCenter.
