(* ===== verification/Services.v ===== *)
(** * Background services ([src/services.c])

    The print and audio spooler, the clipboard daemon, the input monitor, the
    disk indexer and the creation of the service tasks.  A service is an
    endless loop that ends each pass with [task_yield]; the model is one pass.
    What is sent to the serial line and to the speaker is kept as a list. *)

From stdpp Require Import strings pretty.
From S2P Require Import Prelude Io Sched Pci Fat32 Ring Input Vga Windows Desktop.
Import Usb Clipboard Notifications.

Definition BACKGROUND_SERVICE_COUNT : Z := 200.
Definition SERVICE_NAME_BUFFER : Z := 32.
Definition PRINT_QUEUE_SLOTS : Z := 8.
Definition PRINT_MESSAGE_SIZE : Z := 128.
Definition AUDIO_QUEUE_SLOTS : Z := 8.

(** ** Print queue *)

Record printer_t := Printer {
  print_queue : list (list Z);
  print_head : Z;
  print_tail : Z;
  print_offset : Z;
  print_queue_full : bool;
  serial_out : list Z
}.

(** The text, without terminator, is cut at 127 characters; NULL is [None]. *)
Definition spool_print (text : option (list Z)) (p : printer_t) : option printer_t :=
  match text with
  | None => Some p
  | Some t =>
    let next := (print_tail p + 1) mod PRINT_QUEUE_SLOTS in
    if (next =? print_head p) && print_queue_full p then Some p
    else
      row ← aget (print_queue p) (print_tail p);
      row ← put row 0 (take (Z.to_nat (PRINT_MESSAGE_SIZE - 1)) t ++ [0]);
      q ← aset (print_queue p) (print_tail p) row;
      Some (Printer q (print_head p) next (print_offset p)
        (if next =? print_head p then true else print_queue_full p) (serial_out p))
  end.

(** The part of a pass of the spooler that prints: one character. *)
Definition print_pass (p : printer_t) : option printer_t :=
  if negb (print_head p =? print_tail p) || negb (print_offset p =? 0) || print_queue_full p then
    row ← aget (print_queue p) (print_head p);
    c ← aget row (print_offset p);
    if negb (c =? 0) then
      Some (Printer (print_queue p) (print_head p) (print_tail p) (u8 (print_offset p + 1)) (print_queue_full p)
        (serial_out p ++ [c]))
    else
      row ← aset row 0 0;
      q ← aset (print_queue p) (print_head p) row;
      Some (Printer q ((print_head p + 1) mod PRINT_QUEUE_SLOTS) (print_tail p) 0 false (serial_out p))
  else Some p.

(** ** Audio queue *)

Record tone_t := Tone { frequency : Z; duration_ms : Z; valid : bool }.

Record speaker_t := Speaker {
  audio_queue : list tone_t;
  audio_head : Z;
  audio_tail : Z;
  audio_queue_full : bool;
  tones_played : list (Z * Z)
}.

Definition spool_audio_tone (freq duration : Z) (a : speaker_t) : option speaker_t :=
  let next := (audio_tail a + 1) mod AUDIO_QUEUE_SLOTS in
  if (next =? audio_head a) && audio_queue_full a then Some a
  else
    q ← aset (audio_queue a) (audio_tail a) (Tone freq duration true);
    Some (Speaker q (audio_head a) next (if next =? audio_head a then true else audio_queue_full a) (tones_played a)).

Definition audio_pass (a : speaker_t) : option speaker_t :=
  t ← aget (audio_queue a) (audio_head a);
  if valid t then
    q ← aset (audio_queue a) (audio_head a) (Tone (frequency t) (duration_ms t) false);
    Some (Speaker q ((audio_head a + 1) mod AUDIO_QUEUE_SLOTS) (audio_tail a) false
      (tones_played a ++ [(frequency t, duration_ms t)]))
  else Some a.

Record spooler_t := Spooler { printer : printer_t; speaker : speaker_t }.

Definition audio_spooler_service (s : spooler_t) : option spooler_t :=
  a ← audio_pass (speaker s);
  p ← print_pass (printer s);
  Some (Spooler p a).

(** ** Other services *)

Record daemon_t := Daemon {
  center : center_t;
  disk_index_ready : bool;
  disk_indexed_files : Z;
  clipboard_snapshot : list Z
}.

Definition post (title message : string) (priority : Z) (d : daemon_t) : option daemon_t :=
  c ← notification_post (Some (chars title)) (Some (chars message)) priority (center d);
  Some (Daemon c (disk_index_ready d) (disk_indexed_files d) (clipboard_snapshot d)).

Definition disk_index_callback (count : Z) (filename : option (list Z)) : Z :=
  match filename with Some _ => u32 (count + 1) | None => count end.

(** The callback is called for the names that [fat32_enumerate_root] lists. *)
Definition disk_indexer_service `{!BlockDevice} (fuel : nat) (junk : list Z) (fs : fat_t) (d : daemon_t) :
    outcome daemon_t :=
  if negb (disk_index_ready d) then
    match fat32_enumerate_root fuel true junk fs with
    | Undef => Undef
    | NoFuel => NoFuel
    | Ok (entries, ok) =>
      let r := if (ok : bool) then
                 post "Disk/File Indexer" "FAT32 root directory indexed" 0
                   (Daemon (center d) true (foldl disk_index_callback 0 (Some <$> entries.*1)) (clipboard_snapshot d))
               else post "Disk/File Indexer" "Indexing failed" 1 d in
      match r with Some d => Ok d | None => Undef end
    end
  else Ok d.

(** [had] is whether a keyboard and a mouse were there in the last pass. *)
Definition input_monitor_service {D} `{!InputDevice D} (dev : D) (had : bool * bool) (u : usb_t) (d : daemon_t) :
    option (daemon_t * usb_t * (bool * bool)) :=
  let u := usb_poll dev u in
  let has_keyboard := usb_has_keyboard u in
  let has_mouse := usb_has_mouse u in
  d ← (if has_keyboard && negb had.1 then post "Input Monitor" "USB keyboard detected" 0 d else Some d);
  d ← (if has_mouse && negb had.2 then post "Input Monitor" "USB mouse detected" 0 d else Some d);
  Some (d, u, (has_keyboard, has_mouse)).

(** Comparing and copying the clipboard, at most [n] characters from [i] on. *)
Fixpoint snapshot (n : nat) (i : Z) (data snap : list Z) (changed : bool) : option (list Z * bool) :=
  match n with
  | O => Some (snap, changed)
  | S n' =>
    c ← aget data i;
    o ← aget snap i;
    snap ← aset snap i c;
    let changed := changed || negb (o =? c) in
    if c =? 0 then Some (snap, changed) else snapshot n' (i + 1) data snap changed
  end.

Definition clipboard_daemon_service (cb : clipboard_t) (d : daemon_t) : option daemon_t :=
  match clipboard_paste cb with
  | None => Some d
  | Some data =>
    '(snap, changed) ← snapshot 63 0 data (clipboard_snapshot d) false;
    let d := Daemon (center d) (disk_index_ready d) (disk_indexed_files d) snap in
    if (changed : bool) then post "Clipboard Daemon" "Clipboard contents updated" 0 d else Some d
  end.

(** The name given to task [i]; the buffer holds 32 bytes. *)
Definition service_table : list string :=
  ["Disk/File Indexer"; "Input Monitor / Polling"; "Clipboard Daemon"; "Print / Audio Spooler"].

(** What is written before the terminator. *)
Definition service_text (i : Z) : list Z :=
  match aget service_table i with
  | Some base => take (Z.to_nat (SERVICE_NAME_BUFFER - 1)) (chars base)
  | None =>
    let base := take (Z.to_nat (SERVICE_NAME_BUFFER - 1)) (chars "BackgroundService") in
    let value := i + 1 in
    let digits := if Z.of_nat (length base) <? SERVICE_NAME_BUFFER - 4
                  then [48 + (value / 100) mod 10; 48 + (value / 10) mod 10; 48 + value mod 10] else [] in
    base ++ digits
  end.

Definition service_name (i : Z) (buffer : list Z) : option (list Z) := put buffer 0 (service_text i ++ [0]).

(** The string in a buffer, up to its terminator. *)
Fixpoint string_of (buffer : list Z) : string :=
  match buffer with
  | [] => EmptyString
  | c :: buffer' => if c =? 0 then EmptyString else String (Ascii.ascii_of_N (Z.to_N c)) (string_of buffer')
  end.

Record services_t := ServicesState { service_names : list (list Z); service_id_map : list Z }.

Section start.
(** The addresses of [task_stacks] and [task_entry_wrapper], of the entries of
    the service table, and of [generic_background_service]. *)
Context (stacks_addr wrapper_addr : Z) (entries : list Z) (generic : Z).

(** The body of the loop for task [i]. *)
Definition start_service (i : Z) (sv : services_t) (st : sched_t) : option (services_t * sched_t) :=
  buffer ← aget (service_names sv) i;
  name ← service_name i buffer;
  names ← aset (service_names sv) i name;
  let entry := default generic (aget entries i) in
  '(st, task) ← create_task stacks_addr wrapper_addr (string_of name) entry 1 st;
  match task with
  | None => Some (ServicesState names (service_id_map sv), st)
  | Some slot =>
    st ← update slot (fun t => Tcb (pid t) (Sched.name t) (state t) (priority t) (timeslice t) (stack_pointer t)
      (Sched.entry t) i (next t)) st;
    ids ← aset (service_id_map sv) i i;
    Some (ServicesState names ids, st)
  end.

(** The tasks [i] to [i + n - 1]. *)
Fixpoint start_services (n : nat) (i : Z) (sv : services_t) (st : sched_t) : option (services_t * sched_t) :=
  match n with
  | O => Some (sv, st)
  | S n' => '(sv, st) ← start_service i sv st; start_services n' (i + 1) sv st
  end.

Definition background_services_initialize (sv : services_t) (st : sched_t) (sp : spooler_t) :
    option (services_t * sched_t * spooler_t) :=
  '(sv, st) ← start_services (Z.to_nat BACKGROUND_SERVICE_COUNT) 0 sv st;
  p ← spool_print (Some (chars "[Spooler] System print queue initialized" ++ [10])) (printer sp);
  a ← spool_audio_tone 440 40 (speaker sp);
  Some (sv, st, Spooler p a).

(** The service task [i] looks at its own number and yields for ever. *)
Definition generic_background_service (st : sched_t) : option Z :=
  match get_current_task st with
  | None => Some 0
  | Some i => t ← task_table st !! i; Some (memory_kb t)
  end.
End start.

(** ** The print queue as a queue of messages *)

Fixpoint passes {A} (f : A -> option A) (n : nat) (x : A) : option A :=
  match n with
  | O => Some x
  | S n' => y ← f x; passes f n' y
  end.

Lemma passes_app {A} (f : A -> option A) n m x : passes f (n + m) x = y ← passes f n x; passes f m y.
Proof. revert x. induction n as [|n IH]; intros x; [done|]. simpl. destruct (f x); [apply IH|done]. Qed.

(** A row that starts with the message [m] and its terminator. *)
Definition starts (row m : list Z) : Prop := take (S (length m)) row = m ++ [0].

Definition message_ok (m : list Z) : Prop := Forall (fun c => c <> 0) m /\ (length m <= 127)%nat.

(** The messages [ms] wait, oldest first; [k] characters of the first one have
    been printed. *)
Record waiting (ms : list (list Z)) (k : nat) (p : printer_t) : Prop := {
  wait_rows : length (print_queue p) = 8%nat;
  wait_sizes : Forall (fun r => length r = 128%nat) (print_queue p);
  wait_head : 0 <= print_head p < 8;
  wait_count : (length ms <= 8)%nat;
  wait_tail : print_tail p = (print_head p + Z.of_nat (length ms)) mod 8;
  wait_full : length ms = 8%nat -> print_queue_full p = true;
  wait_flag : print_queue_full p = true -> ms <> [];
  wait_offset : print_offset p = Z.of_nat k;
  wait_ok : Forall message_ok ms;
  wait_texts j m : ms !! j = Some m ->
    exists row, aget (print_queue p) ((print_head p + Z.of_nat j) mod 8) = Some row /\ starts row m
}.

Definition cut (t : list Z) : list Z := take 127 t.

Lemma cut_ok t : Forall (fun c => c <> 0) t -> message_ok (cut t).
Proof. intros Ht. split; [by apply Forall_take|]. unfold cut. rewrite length_take. lia. Qed.

(** Storing a text in a row. *)
Lemma store_row row t :
  length row = 128%nat -> exists row', put row 0 (cut t ++ [0]) = Some row' /\ length row' = 128%nat /\ starts row' (cut t).
Proof.
  intros Hl. assert (Hc : (length (cut t) <= 127)%nat) by (unfold cut; rewrite length_take; lia).
  assert (Hn : length (cut t ++ [0]) = S (length (cut t))) by (rewrite length_app; simpl; lia).
  rewrite put_eq by lia. eexists. split; [done|]. change (Z.to_nat 0) with 0%nat. split.
  - rewrite !length_app, length_take, length_drop in *. simpl in *. lia.
  - unfold starts. rewrite <- Hn, take_0, app_nil_l. by apply take_app_length.
Qed.

Lemma row_exists p ms k i :
  waiting ms k p -> 0 <= i < 8 -> exists row, aget (print_queue p) i = Some row /\ length row = 128%nat.
Proof.
  intros Hw Hi. destruct (aget_in_range (print_queue p) i) as [row Hr]; [rewrite (wait_rows _ _ _ Hw); lia|].
  exists row. split; [done|]. apply aget_lookup in Hr. pose proof (wait_sizes _ _ _ Hw) as Hs.
  rewrite Forall_lookup in Hs. by eapply Hs.
Qed.

(** Different places of the queue are different rows. *)
Lemma places_differ h a b : 0 <= h < 8 -> 0 <= a < 8 -> 0 <= b < 8 -> a <> b -> (h + a) mod 8 <> (h + b) mod 8.
Proof. intros Hh Ha Hb Hne E. pose proof (Z.div_mod (h + a) 8). pose proof (Z.div_mod (h + b) 8). lia. Qed.

Lemma spool_ok ms k t p :
  waiting ms k p -> print_queue_full p = (length ms =? 8)%nat -> (length ms < 8)%nat -> Forall (fun c => c <> 0) t ->
  exists p', spool_print (Some t) p = Some p' /\ waiting (ms ++ [cut t]) k p' /\
    print_queue_full p' = (length (ms ++ [cut t]) =? 8)%nat /\ serial_out p' = serial_out p.
Proof.
  intros Hw Hex Hlt Ht. pose proof Hw as [Hrows Hsz Hh Hc Htl Hf Hfl Ho Hok Htx]. unfold spool_print, PRINT_QUEUE_SLOTS.
  rewrite Hex, (proj2 (Nat.eqb_neq _ _)), andb_false_r by lia. cbv zeta.
  pose proof (Z.mod_pos_bound (print_head p + Z.of_nat (length ms)) 8 ltac:(lia)) as Htr. rewrite <- Htl in Htr.
  destruct (row_exists p ms k (print_tail p) Hw Htr) as (row & Er & Hrl). rewrite Er. cbn [mbind option_bind].
  change (Z.to_nat (PRINT_MESSAGE_SIZE - 1)) with 127%nat. fold (cut t).
  destruct (store_row row t Hrl) as (row' & -> & Hrl' & Hst). cbn [mbind option_bind].
  rewrite aset_in_range by lia. cbn [mbind option_bind]. eexists. split; [done|].
  assert (Hfull : (if (print_tail p + 1) mod 8 =? print_head p then true else false) = (length (ms ++ [cut t]) =? 8)%nat).
  { rewrite Htl, Zplus_mod_idemp_l, length_app. simpl.
    pose proof (Z.div_mod (print_head p + Z.of_nat (length ms) + 1) 8).
    destruct (Nat.eqb_spec (length ms + 1) 8) as [E|E]; case_cmp; done || lia. }
  split; [|by split].
  constructor; cbn [print_queue print_head print_tail print_offset print_queue_full]; try done.
  - by rewrite length_insert.
  - by apply Forall_insert.
  - rewrite length_app. simpl. lia.
  - rewrite Htl, length_app. simpl. rewrite Zplus_mod_idemp_l. f_equal. lia.
  - intros E. rewrite Hfull, E. done.
  - intros _. by destruct ms.
  - apply Forall_app. split; [done|]. apply Forall_singleton. by apply cut_ok.
  - intros j m Hj. rewrite aget_insert by (rewrite ?Hrows; lia || (apply Z.mod_pos_bound; lia)).
    apply lookup_app_Some in Hj as [Hj|[Hge Hj]].
    + pose proof (lookup_lt_Some _ _ _ Hj). rewrite (proj2 (Z.eqb_neq _ _)); [by apply Htx|].
      rewrite Htl. apply places_differ; lia.
    + apply list_lookup_singleton_Some in Hj as [Hj <-]. replace j with (length ms) by lia.
      rewrite <- Htl, Z.eqb_refl. by exists row'.
Qed.

(** The condition of the spooler holds while a message waits. *)
Lemma print_ready p m ms k :
  waiting (m :: ms) k p ->
  negb (print_head p =? print_tail p) || negb (print_offset p =? 0) || print_queue_full p = true.
Proof.
  intros [_ _ Hh Hc Ht Hf _ _ _ _]. destruct (decide (length (m :: ms) = 8%nat)) as [E|E]; [rewrite Hf by done; apply orb_true_r|].
  rewrite Ht. simpl length in *. pose proof (Z.div_mod (print_head p + Z.of_nat (S (length ms))) 8).
  case_cmp; [lia|done].
Qed.

Lemma print_char m ms k c p :
  waiting (m :: ms) k p -> m !! k = Some c ->
  exists p', print_pass p = Some p' /\ waiting (m :: ms) (S k) p' /\ serial_out p' = serial_out p ++ [c].
Proof.
  intros Hw Hk. unfold print_pass. rewrite (print_ready _ _ _ _ Hw). pose proof Hw as [Hrows Hsz Hh Hc Htl Hf Hfl Ho Hok Htx].
  destruct (Htx 0%nat m eq_refl) as (row & Er & Hst). rewrite Z.add_0_r, Z.mod_small in Er by lia. rewrite Er.
  apply Forall_cons in Hok as [[Hnz Hml] _]. pose proof (lookup_lt_Some _ _ _ Hk) as Hlt.
  assert (Erk : aget row (print_offset p) = Some c).
  { rewrite Ho, aget_nonneg, Nat2Z.id by lia. unfold starts in Hst.
    rewrite <- (lookup_take_lt row (S (length m))) by lia. rewrite Hst. by rewrite lookup_app_l. }
  cbn [mbind option_bind]. rewrite Erk. cbn [mbind option_bind].
  rewrite Forall_lookup in Hnz. specialize (Hnz k c Hk). case_cmp; [done|]. cbn [negb].
  eexists. split; [done|]. split; [|done].
  constructor; cbn [print_queue print_head print_tail print_offset print_queue_full]; try done.
  - rewrite Ho. unfold u8. rewrite wrap_small by (change (2 ^ 8) with 256; lia). lia.
  - by apply Hw.
Qed.

Lemma print_end m ms p :
  waiting (m :: ms) (length m) p ->
  exists p', print_pass p = Some p' /\ waiting ms 0 p' /\ serial_out p' = serial_out p.
Proof.
  intros Hw. unfold print_pass. rewrite (print_ready _ _ _ _ Hw). pose proof Hw as [Hrows Hsz Hh Hc Htl Hf Hfl Ho Hok Htx].
  destruct (Htx 0%nat m eq_refl) as (row & Er & Hst). rewrite Z.add_0_r, Z.mod_small in Er by lia. rewrite Er.
  assert (Hrl : length row = 128%nat).
  { rewrite Forall_lookup in Hsz. eapply Hsz. by apply aget_lookup. }
  assert (Erk : aget row (print_offset p) = Some 0).
  { rewrite Ho, aget_nonneg, Nat2Z.id by lia. unfold starts in Hst.
    rewrite <- (lookup_take_lt row (S (length m))) by lia. rewrite Hst. by apply list_lookup_middle. }
  cbn [mbind option_bind]. rewrite Erk. cbn [mbind option_bind Z.eqb negb].
  rewrite (aset_in_range row) by lia. cbn [mbind option_bind]. rewrite aset_in_range by lia. cbn [mbind option_bind].
  eexists. split; [done|]. split; [|done]. simpl length in *.
  assert (Hnext : forall j, ((print_head p + 1) mod 8 + Z.of_nat j) mod 8 = (print_head p + Z.of_nat (S j)) mod 8)
    by (intros j; rewrite Zplus_mod_idemp_l; f_equal; lia).
  constructor; cbn [print_queue print_head print_tail print_offset print_queue_full]; unfold PRINT_QUEUE_SLOTS.
  - by rewrite length_insert.
  - apply Forall_insert; [done|]. by rewrite length_insert.
  - apply Z.mod_pos_bound. lia.
  - lia.
  - by rewrite Htl, Hnext.
  - intros E. lia.
  - done.
  - done.
  - by apply Forall_cons in Hok as [_ Hok].
  - intros j m' Hj. pose proof (lookup_lt_Some _ _ _ Hj). rewrite Hnext.
    rewrite aget_insert by (rewrite ?Hrows; lia || (apply Z.mod_pos_bound; lia)).
    rewrite (proj2 (Z.eqb_neq _ _)); [by apply (Htx (S j))|].
    rewrite <- (Z.mod_small (print_head p) 8) at 2 by lia. rewrite <- (Z.add_0_r (print_head p)) at 2.
    apply places_differ; lia.
Qed.

Lemma print_rest m ms n k p :
  waiting (m :: ms) k p -> (length m = k + n)%nat ->
  exists p', passes print_pass (S n) p = Some p' /\ waiting ms 0 p' /\ serial_out p' = serial_out p ++ drop k m.
Proof.
  revert k p. induction n as [|n IH]; intros k p Hw Hl.
  - rewrite Nat.add_0_r in Hl. rewrite <- Hl in *. destruct (print_end m ms p Hw) as (p' & E & Hw' & Hs).
    exists p'. cbn [passes]. rewrite E. split; [done|]. split; [done|]. by rewrite drop_ge, app_nil_r.
  - destruct (lookup_lt_is_Some_2 m k) as [c Hc]; [lia|].
    destruct (print_char m ms k c p Hw Hc) as (p1 & E1 & Hw1 & Hs1).
    destruct (IH (S k) p1 Hw1 ltac:(lia)) as (p' & E & Hw' & Hs). exists p'.
    change (passes print_pass (S (S n)) p) with (y ← print_pass p; passes print_pass (S n) y). rewrite E1.
    split; [exact E|]. split; [done|]. by rewrite Hs, Hs1, <- app_assoc, (drop_S _ _ _ Hc).
Qed.

Definition print_time (ms : list (list Z)) : nat := sum_list (S ∘ length <$> ms).

Lemma print_all ms p :
  waiting ms 0 p ->
  exists p', passes print_pass (print_time ms) p = Some p' /\ waiting [] 0 p' /\ serial_out p' = serial_out p ++ concat ms.
Proof.
  revert p. induction ms as [|m ms IH]; intros p Hw.
  - exists p. split; [done|]. split; [done|]. by rewrite app_nil_r.
  - destruct (print_rest m ms (length m) 0 p Hw eq_refl) as (p1 & E1 & Hw1 & Hs1).
    destruct (IH p1 Hw1) as (p' & E & Hw' & Hs). exists p'.
    change (print_time (m :: ms)) with (S (length m) + print_time ms)%nat. rewrite passes_app, E1.
    split; [exact E|]. split; [done|]. rewrite Hs, Hs1, <- app_assoc. done.
Qed.

Fixpoint spool_all (ts : list (list Z)) (p : printer_t) : option printer_t :=
  match ts with
  | [] => Some p
  | t :: ts' => p ← spool_print (Some t) p; spool_all ts' p
  end.

Lemma spool_all_ok ts ms p :
  waiting ms 0 p -> print_queue_full p = (length ms =? 8)%nat -> (length ms + length ts <= 8)%nat ->
  Forall (Forall (fun c => c <> 0)) ts ->
  exists p', spool_all ts p = Some p' /\ waiting (ms ++ (cut <$> ts)) 0 p' /\ serial_out p' = serial_out p.
Proof.
  revert ms p. induction ts as [|t ts IH]; intros ms p Hw Hex Hl Ht.
  - exists p. simpl. by rewrite app_nil_r.
  - apply Forall_cons in Ht as [Ht Hts]. simpl in Hl.
    destruct (spool_ok ms 0 t p Hw Hex ltac:(lia) Ht) as (p1 & E1 & Hw1 & Hex1 & Hs1).
    destruct (IH (ms ++ [cut t]) p1 Hw1 Hex1 ltac:(rewrite length_app; simpl; lia) Hts) as (p' & E & Hw' & Hs).
    exists p'. cbn [spool_all]. rewrite E1. split; [exact E|]. rewrite <- app_assoc in Hw'. split; [exact Hw'|]. congruence.
Qed.

(** The speaker does not disturb the printer. *)
Definition speaker_ok (a : speaker_t) : Prop := length (audio_queue a) = 8%nat /\ 0 <= audio_head a < 8.

Lemma audio_pass_ok a : speaker_ok a -> exists a', audio_pass a = Some a' /\ speaker_ok a'.
Proof.
  intros [Hl Hh]. unfold audio_pass. destruct (aget_in_range (audio_queue a) (audio_head a) ltac:(lia)) as [t Ht].
  rewrite Ht. cbn [mbind option_bind]. destruct (valid t); [|by exists a].
  rewrite aset_in_range by lia. cbn [mbind option_bind]. eexists. split; [done|]. split.
  - cbn [audio_queue]. by rewrite length_insert.
  - apply Z.mod_pos_bound. unfold AUDIO_QUEUE_SLOTS. lia.
Qed.

Lemma service_passes n p a p' :
  speaker_ok a -> passes print_pass n p = Some p' ->
  exists a', passes audio_spooler_service n (Spooler p a) = Some (Spooler p' a').
Proof.
  revert p a. induction n as [|n IH]; intros p a Ha; cbn [passes].
  - intros [= ->]. by exists a.
  - destruct (print_pass p) as [p1|] eqn:E; [|done]. cbn [mbind option_bind]. intros Hp.
    destruct (audio_pass_ok a Ha) as (a1 & Ea & Ha1). 
    change (audio_spooler_service (Spooler p a)) with (a ← audio_pass a; p ← print_pass p; Some (Spooler p a)).
    rewrite Ea, E. cbn [mbind option_bind]. by apply IH.
Qed.

(** A printer at rest. *)
Definition idle : printer_t -> Prop := waiting [] 0.

Lemma idle_flag p : idle p -> print_queue_full p = false.
Proof. intros Hp. destruct (print_queue_full p) eqn:E; [by apply (wait_flag _ _ _ Hp) in E|done]. Qed.

(** C30: up to eight messages. Texts given to [spool_print] while the spooler
    is at rest come out of the serial line complete and in order, each cut at
    127 characters, one character per pass of the spooler task; after one
    pass per character and one more per message the spooler is at rest again. *)
Theorem spooler_prints ts p a :
  idle p -> speaker_ok a -> (length ts <= 8)%nat -> Forall (Forall (fun c => c <> 0)) ts ->
  exists p1 p' a', spool_all ts p = Some p1 /\
    passes audio_spooler_service (print_time (cut <$> ts)) (Spooler p1 a) = Some (Spooler p' a') /\
    idle p' /\ serial_out p' = serial_out p ++ concat (cut <$> ts).
Proof.
  intros Hp Ha Hl Ht. destruct (spool_all_ok ts [] p Hp (idle_flag p Hp) Hl Ht) as (p1 & E1 & Hw1 & Hs1).
  destruct (print_all _ p1 Hw1) as (p' & E & Hw & Hs). destruct (service_passes _ _ a _ Ha E) as (a' & Ea).
  exists p1, p', a'. split_and!; [done|done|done|]. by rewrite Hs, Hs1.
Qed.

Definition rest_printer : printer_t := Printer (replicate 8 (replicate 128 0)) 6 6 0 false [].
Definition rest_speaker : speaker_t := Speaker (replicate 8 (Tone 0 0 false)) 0 0 false [].

Lemma rest_idle : idle rest_printer.
Proof. constructor; try done; try (simpl; lia). by apply Forall_replicate. Qed.

Lemma spooler_prints_witness :
  exists p1 p' a', spool_all [[72; 105]; []; [33]] rest_printer = Some p1 /\
    passes audio_spooler_service 6 (Spooler p1 rest_speaker) = Some (Spooler p' a') /\ serial_out p' = [72; 105; 33].
Proof.
  destruct (spooler_prints [[72; 105]; []; [33]] rest_printer rest_speaker rest_idle ltac:(by split) ltac:(simpl; lia)
    ltac:(repeat constructor; done)) as (p1 & p' & a' & E1 & E & _ & Hs).
  exists p1, p', a'. split; [exact E1|]. split; [exact E|exact Hs].
Defined.

(** The ninth message. The test for a full queue can never succeed, since
    a full queue has equal ends: a text that arrives while eight messages wait
    overwrites the oldest one and moves the end of the queue past it. The
    spooler prints this text and then rests: the eight messages are lost. *)
Theorem spooler_overflow_loses ms t p a :
  waiting ms 0 p -> length ms = 8%nat -> speaker_ok a -> Forall (fun c => c <> 0) t ->
  exists p1 p' a', spool_print (Some t) p = Some p1 /\
    passes audio_spooler_service (S (length (cut t))) (Spooler p1 a) = Some (Spooler p' a') /\
    idle p' /\ serial_out p' = serial_out p ++ cut t.
Proof.
  intros Hw H8 Ha Ht. pose proof Hw as [Hrows Hsz Hh Hc Htl Hf Hfl Ho Hok Htx]. unfold spool_print, PRINT_QUEUE_SLOTS.
  assert (Etl : print_tail p = print_head p).
  { rewrite Htl, H8. symmetry. apply (Z.mod_unique_pos _ _ 1); lia. }
  rewrite Etl. assert (Hne : (print_head p + 1) mod 8 <> print_head p)
    by (pose proof (Z.div_mod (print_head p + 1) 8); lia).
  rewrite (proj2 (Z.eqb_neq _ _) Hne). cbn [andb]. destruct (row_exists p ms 0 (print_head p) Hw Hh) as (row & Er & Hrl).
  rewrite Er. cbn [mbind option_bind]. change (Z.to_nat (PRINT_MESSAGE_SIZE - 1)) with 127%nat. fold (cut t).
  destruct (store_row row t Hrl) as (row' & -> & Hrl' & Hst). cbn [mbind option_bind].
  rewrite aset_in_range by lia. cbn [mbind option_bind].
  match goal with |- exists p1 _ _, Some ?p1' = _ /\ _ => set (p1 := p1') end.
  assert (Hw1 : waiting [cut t] 0 p1).
  { constructor; cbn [print_queue print_head print_tail print_offset print_queue_full p1]; try done.
    - by rewrite length_insert.
    - by apply Forall_insert.
    - simpl. lia.
    - apply Forall_singleton. by apply cut_ok.
    - intros j m [-> <-]%list_lookup_singleton_Some. exists row'. split; [|done].
      rewrite Z.add_0_r, Z.mod_small, aget_insert by lia. by rewrite Z.eqb_refl. }
  destruct (print_rest (cut t) [] (length (cut t)) 0 p1 Hw1 eq_refl) as (p' & E & Hw' & Hs).
  destruct (service_passes _ _ a _ Ha E) as (a' & Ea). exists p1, p', a'. split_and!; done.
Qed.

(** Eight one-letter messages and a ninth. *)
Definition full_printer : printer_t :=
  Printer ((fun c => [c] ++ replicate 127 0) <$> [65; 66; 67; 68; 69; 70; 71; 72]) 0 0 0 true [].

Lemma full_printer_waiting : waiting [[65]; [66]; [67]; [68]; [69]; [70]; [71]; [72]] 0 full_printer.
Proof.
  constructor; try done; try (simpl; lia).
  - repeat constructor.
  - by repeat (constructor; [split; [by repeat constructor|simpl; lia]|]).
  - intros j m Hj. do 8 (destruct j as [|j]; [injection Hj as <-; by eexists|]). done.
Qed.

Lemma spooler_overflow_loses_witness :
  exists p1 p' a', spool_print (Some [73]) full_printer = Some p1 /\
    passes audio_spooler_service 2 (Spooler p1 rest_speaker) = Some (Spooler p' a') /\ idle p' /\ serial_out p' = [73].
Proof.
  destruct (spooler_overflow_loses _ [73] full_printer rest_speaker full_printer_waiting eq_refl ltac:(by split)
    ltac:(by repeat constructor)) as (p1 & p' & a' & E1 & E & Hi & Hs).
  exists p1, p', a'. split; [exact E1|]. split; [exact E|]. split; [exact Hi|exact Hs].
Defined.

(** ** Starting the service tasks *)

(** Fields of a task that other creations leave alone. *)
Definition same_program (t t' : tcb_t) : Prop :=
  Sched.name t' = Sched.name t /\ Sched.entry t' = Sched.entry t /\ priority t' = priority t /\ memory_kb t' = memory_kb t.

#[local] Instance same_program_preorder : PreOrder same_program.
Proof. split; [by intros t|]. unfold same_program. intros ? ? ? (? & ? & ? & ?) (? & ? & ? & ?). split_and!; congruence. Qed.

(** The programs of the tasks of a table are kept, slot by slot. *)
Definition programs_kept (tt tt' : list tcb_t) : Prop :=
  forall j t, tt !! j = Some t -> exists t', tt' !! j = Some t' /\ same_program t t'.

#[local] Instance programs_kept_preorder : PreOrder programs_kept.
Proof.
  split.
  - intros tt j t Ht. by exists t.
  - intros t1 t2 t3 H1 H2 j t (t' & (t'' & ? & ?)%H2 & ?)%H1. exists t''. split; [done|]. by etrans.
Qed.

Lemma programs_kept_insert tt i t t' : tt !! i = Some t -> same_program t t' -> programs_kept tt (<[i := t']> tt).
Proof.
  intros Hi Hs j u Hj. destruct (decide (j = i)) as [->|Hne].
  - exists t'. rewrite list_lookup_insert_eq by (by eapply lookup_lt_Some). split; [done|]. congruence.
  - exists u. by rewrite list_lookup_insert_ne.
Qed.

Lemma update_programs i f st st' :
  (forall t, same_program t (f t)) -> update i f st = Some st' ->
  programs_kept (task_table st) (task_table st') /\ task_count st' = task_count st.
Proof.
  intros Hf. unfold update. destruct (task_table st !! i) as [t|] eqn:Ht; [|done]. intros [= <-]. split; [|done].
  by eapply programs_kept_insert.
Qed.

(** The new task is in the next slot, and the others keep their programs. *)
Lemma create_program sa wa nm ent prio st st' slot :
  create_task sa wa nm ent prio st = Some (st', Some slot) -> slot = Z.to_nat (task_count st) /\
  (exists t, task_table st' !! slot = Some t /\ Sched.name t = Some nm /\ Sched.entry t = ent /\ priority t = prio) /\
  (forall j t, j <> slot -> task_table st !! j = Some t -> exists t', task_table st' !! j = Some t' /\ same_program t t').
Proof.
  unfold create_task. destruct (MAX_TASKS <=? task_count st); [done|].
  destruct (aset (task_table st) (task_count st) _) as [tt|] eqn:Ha; [|done]. apply aset_Some in Ha as [Hr ->].
  cbn [mbind option_bind]. set (t := Tcb _ _ _ _ _ _ _ _ _). set (st1 := Sched _ _ _ _ _ _ _).
  assert (Hslot : task_table st1 !! Z.to_nat (task_count st) = Some t) by (apply list_lookup_insert_eq; lia).
  assert (Hstep : forall st2, programs_kept (task_table st1) (task_table st2) ->
    (exists u, task_table st2 !! Z.to_nat (task_count st) = Some u /\ Sched.name u = Some nm /\ Sched.entry u = ent /\
      priority u = prio) /\
    (forall j v, j <> Z.to_nat (task_count st) -> task_table st !! j = Some v ->
      exists v', task_table st2 !! j = Some v' /\ same_program v v')).
  { intros st2 Hk. split.
    - destruct (Hk _ _ Hslot) as (u & Hu & Hn & He & Hp & _). by exists u.
    - intros j v Hne Hv. apply Hk. unfold st1. cbn [task_table]. by rewrite list_lookup_insert_ne. }
  destruct (ready_queue_head st1) as [h|].
  - destruct (find_last _ _ _) as [last|]; [|done]. cbn [mbind option_bind].
    destruct (update last _ st1) as [st2|] eqn:Hu; [|done]. cbn [mbind option_bind]. intros [= <- <-].
    apply update_programs in Hu as [Hk _]; [|done]. split; [done|]. by apply Hstep.
  - destruct (update _ _ _) as [st2|] eqn:Hu; [|done]. cbn [mbind option_bind]. intros [= <- <-].
    apply update_programs in Hu as [Hk _]; [|done]. split; [done|]. by apply Hstep.
Qed.

(** Writing a field that the queue does not use. *)
Lemma wf_memory st q (i : nat) t v :
  sched_wf st q -> task_table st !! i = Some t ->
  sched_wf (Sched.set_table (<[i := Tcb (pid t) (Sched.name t) (state t) (priority t) (timeslice t) (stack_pointer t)
    (Sched.entry t) v (next t)]> (task_table st)) st) q.
Proof.
  intros [Hl Hc Hn Hp Hq Hnd Hs Hst Hcur] Ht. split; cbn [task_table task_count next_pid Sched.set_table current_task ready_queue_head];
    try done.
  - by rewrite length_insert.
  - intros j u [(<- & <- & _)|(Hne & Hu)]%list_lookup_insert_Some Hlt; [exact (Hp i t Ht Hlt)|by apply Hp].
  - by eapply seg_same_next.
  - intros j u Hj [(<- & <- & _)|(Hne & Hu)]%list_lookup_insert_Some; [exact (Hst i t Hj Ht)|by apply Hst].
Qed.

Lemma string_of_terminated l r : Forall (fun c => c <> 0) l -> string_of (l ++ 0 :: r) = string_of (l ++ [0]).
Proof. induction 1 as [|c l Hc Hl IH]; [done|]. simpl. by rewrite (proj2 (Z.eqb_neq _ _) Hc), IH. Qed.

Definition text_fits (i : Z) : bool :=
  bool_decide (Forall (fun c => c <> 0) (service_text i)) && (length (service_text i) <=? 31)%nat.

Lemma texts_fit i : 0 <= i < 200 -> text_fits i = true.
Proof.
  intros Hi. assert (Hall : forallb text_fits (seqZ 0 200) = true) by (vm_compute; reflexivity).
  rewrite forallb_forall in Hall. apply Hall, list_elem_of_In, elem_of_seqZ. lia.
Qed.

(** The name of task [i]. *)
Definition service_title (i : Z) : string := string_of (service_text i ++ [0]).

(** The names that the services should have: the four services of the table,
    and the generic ones numbered from one with three decimal digits. *)
Definition expected_title (i : Z) : string :=
  if i =? 0 then "Disk/File Indexer"
  else if i =? 1 then "Input Monitor / Polling"
  else if i =? 2 then "Clipboard Daemon"
  else if i =? 3 then "Print / Audio Spooler"
  else "BackgroundService" +:+
    (if i + 1 <? 10 then "00" else if i + 1 <? 100 then "0" else "") +:+ pretty (i + 1).

Lemma service_title_expected i : 0 <= i < 200 -> service_title i = expected_title i.
Proof.
  intros Hi. assert (Hall : forallb (fun i => bool_decide (service_title i = expected_title i)) (seqZ 0 200) = true)
    by (vm_compute; reflexivity).
  rewrite forallb_forall in Hall. eapply bool_decide_eq_true, Hall, list_elem_of_In, elem_of_seqZ. lia.
Qed.

Section started.
Context (sa wa : Z) (entries : list Z) (generic : Z).

(** What is known of the tasks of the services [0] to [i - 1], the first of
    which is in slot [base]. *)
Definition running_services (base i : Z) (st : sched_t) : Prop :=
  forall k, 0 <= k < i -> base + k < 256 ->
    exists t, task_table st !! Z.to_nat (base + k) = Some t /\ Sched.name t = Some (expected_title k) /\
      Sched.entry t = default generic (aget entries k) /\ priority t = 1 /\ memory_kb t = k.

Definition buffers_ok (sv : services_t) : Prop :=
  length (service_names sv) = 200%nat /\ Forall (fun b => length b = 32%nat) (service_names sv) /\
  length (service_id_map sv) = 200%nat.

Lemma service_name_ok i b :
  0 <= i < 200 -> length b = 32%nat ->
  exists b', service_name i b = Some b' /\ length b' = 32%nat /\ string_of b' = expected_title i.
Proof using Type.
  intros Hi Hb. pose proof (texts_fit i Hi) as Hf. unfold text_fits in Hf. apply andb_true_iff in Hf as [Hnz Hlen].
  apply bool_decide_eq_true in Hnz. apply Nat.leb_le in Hlen. unfold service_name.
  rewrite put_eq by (rewrite ?length_app; simpl; lia). eexists. split; [done|]. change (Z.to_nat 0) with 0%nat.
  rewrite take_0, app_nil_l. split.
  - rewrite !length_app, length_drop. simpl. lia.
  - rewrite <- service_title_expected by done. unfold service_title. rewrite <- app_assoc. by apply string_of_terminated.
Qed.

Lemma start_service_ok base i sv st q :
  0 <= i < 200 -> buffers_ok sv -> sched_wf st q -> 0 <= base -> task_count st = Z.min 256 (base + i) ->
  running_services base i st ->
  exists sv' st' q', start_service sa wa entries generic i sv st = Some (sv', st') /\ buffers_ok sv' /\ sched_wf st' q' /\
    sched_abs st' q' = spec_create (sched_abs st q) /\ running_services base (i + 1) st'.
Proof using Type.
  intros Hi (Hn & Hb & Hm) Hwf Hbase Hcount Hrun. unfold start_service.
  destruct (aget_in_range (service_names sv) i ltac:(lia)) as [b Eb]. rewrite Eb. cbn [mbind option_bind].
  assert (Hbl : length b = 32%nat) by (rewrite Forall_lookup in Hb; eapply Hb; by apply aget_lookup).
  destruct (service_name_ok i b Hi Hbl) as (b' & -> & Hb' & Ht). cbn [mbind option_bind].
  rewrite (aset_in_range (service_names sv)) by lia. cbn [mbind option_bind]. rewrite Ht.
  destruct (create_ok sa wa (expected_title i) (default generic (aget entries i)) 1 st q Hwf)
    as (st1 & r & q1 & E1 & Hwf1 & Habs1 & Er). rewrite E1. cbn [mbind option_bind].
  assert (Hbuf : Forall (fun b => length b = 32%nat) (<[Z.to_nat i := b']> (service_names sv))) by (by apply Forall_insert).
  revert Er. case_cmp; intros Er; subst r.
  - eexists _, st1, q1. split; [done|]. split; [split_and!; cbn [service_names service_id_map]; rewrite ?length_insert; done|].
    split; [done|]. split; [done|]. intros k Hk Hroom.
    assert (Hst : st1 = st) by (revert E1; unfold create_task, MAX_TASKS; case_cmp; [by intros [= ->]|lia]).
    subst st1. apply Hrun; lia.
  - destruct (create_program _ _ _ _ _ _ _ _ E1) as (_ & (t & Hslot & Hnm & Hent & Hprio) & Hkeep).
    rewrite (update_eq _ _ _ _ Hslot). cbn [mbind option_bind]. rewrite aset_in_range by lia. cbn [mbind option_bind].
    eexists _, _, q1. split; [done|]. split; [split_and!; cbn [service_names service_id_map]; rewrite ?length_insert; done|].
    split; [by apply wf_memory|]. split; [exact Habs1|]. intros k Hk Hroom. cbn [task_table Sched.set_table].
    destruct (decide (k = i)) as [->|Hne].
    + replace (Z.to_nat (base + i)) with (Z.to_nat (task_count st)) by lia.
      rewrite list_lookup_insert_eq by (by eapply lookup_lt_Some). by eexists.
    + rewrite list_lookup_insert_ne by lia. destruct (Hrun k ltac:(lia) Hroom) as (u & Hu & Hu1 & Hu2 & Hu3 & Hu4).
      destruct (Hkeep (Z.to_nat (base + k)) u ltac:(lia) Hu) as (u' & Hu' & Hs1 & Hs2 & Hs3 & Hs4).
      exists u'. split; [done|]. split_and!; congruence.
Qed.

Lemma start_services_ok base n i sv st q :
  0 <= i -> i + Z.of_nat n <= 200 -> buffers_ok sv -> sched_wf st q -> 0 <= base ->
  task_count st = Z.min 256 (base + i) -> running_services base i st ->
  exists sv' st' q', start_services sa wa entries generic n i sv st = Some (sv', st') /\ buffers_ok sv' /\
    sched_wf st' q' /\ sched_abs st' q' = Nat.iter n spec_create (sched_abs st q) /\
    running_services base (i + Z.of_nat n) st'.
Proof using Type.
  revert i sv st q. induction n as [|n IH]; intros i sv st q Hi Hn Hsv Hwf Hb Hc Hrun.
  - exists sv, st, q. by rewrite Z.add_0_r.
  - destruct (start_service_ok base i sv st q ltac:(lia) Hsv Hwf Hb Hc Hrun) as (sv1 & st1 & q1 & E1 & Hsv1 & Hwf1 & Ha1 & Hr1).
    cbn [start_services]. rewrite E1. cbn [mbind option_bind].
    assert (Hc1 : task_count st1 = Z.min 256 (base + (i + 1))).
    { apply (f_equal sq_count) in Ha1. revert Ha1. unfold spec_create. cbn [sq_count sched_abs].
      case_cmp; cbn [sq_count sched_abs]; lia. }
    destruct (IH (i + 1) sv1 st1 q1 ltac:(lia) ltac:(lia) Hsv1 Hwf1 Hb Hc1 Hr1) as (sv' & st' & q' & E & Hsv' & Hwf' & Ha & Hr).
    exists sv', st', q'. split; [done|]. split; [done|]. split; [done|]. split.
    + by rewrite Ha, Ha1, <- Nat.iter_succ_r.
    + by replace (i + Z.of_nat (S n)) with (i + 1 + Z.of_nat n) by lia.
Qed.
End started.

Lemma titles_nodup : NoDup (expected_title <$> seqZ 0 200).
Proof. apply (bool_decide_unpack _). vm_compute. exact I. Qed.

(** A tone is put at the end of the queue, unless the queue is full. *)
Definition tone_queued (freq duration : Z) (a a' : speaker_t) : Prop :=
  let full := (audio_tail a + 1) mod 8 = audio_head a /\ audio_queue_full a = true in
  full /\ a' = a \/
  ~ full /\ audio_queue a' = <[Z.to_nat (audio_tail a) := Tone freq duration true]> (audio_queue a) /\
  audio_tail a' = (audio_tail a + 1) mod 8 /\ audio_head a' = audio_head a /\ tones_played a' = tones_played a.

Lemma spool_tone_ok freq duration a :
  length (audio_queue a) = 8%nat -> 0 <= audio_tail a < 8 ->
  exists a', spool_audio_tone freq duration a = Some a' /\ tone_queued freq duration a a'.
Proof.
  intros Ha Hat. unfold spool_audio_tone, tone_queued, AUDIO_QUEUE_SLOTS.
  destruct (Z.eqb_spec ((audio_tail a + 1) mod 8) (audio_head a)), (audio_queue_full a); cbn [andb];
    [exists a; split; [done|by left]|..].
  all: rewrite (aset_in_range (audio_queue a)) by lia; cbn [mbind option_bind]; eexists; (split; [done|right]).
  all: split; [by intros [? ?]|done].
Qed.

Lemma services_start_ok sa wa entries generic sv st sp q :
  buffers_ok sv -> sched_wf st q -> idle (printer sp) -> length (audio_queue (speaker sp)) = 8%nat ->
  0 <= audio_tail (speaker sp) < 8 ->
  exists sv' st' sp' q', background_services_initialize sa wa entries generic sv st sp = Some (sv', st', sp') /\
    sched_wf st' q' /\ sched_abs st' q' = Nat.iter 200 spec_create (sched_abs st q) /\
    running_services entries generic (task_count st) 200 st' /\ NoDup (expected_title <$> seqZ 0 200) /\
    waiting [chars "[Spooler] System print queue initialized" ++ [10]] 0 (printer sp') /\
    tone_queued 440 40 (speaker sp) (speaker sp').
Proof.
  intros Hsv Hwf Hsp Ha Hat. destruct (wf_count _ _ Hwf) as [Hc0 Hc1].
  destruct (start_services_ok sa wa entries generic (task_count st) 200 0 sv st q ltac:(lia) ltac:(lia) Hsv Hwf Hc0
    ltac:(lia) ltac:(unfold running_services; lia)) as (sv' & st' & q' & E & _ & Hwf' & Habs & Hrun).
  unfold background_services_initialize. change (Z.to_nat BACKGROUND_SERVICE_COUNT) with 200%nat. rewrite E.
  cbn [mbind option_bind].
  destruct (spool_ok [] 0 (chars "[Spooler] System print queue initialized" ++ [10]) (printer sp) Hsp (idle_flag _ Hsp)
    ltac:(simpl; lia) ltac:(apply (bool_decide_unpack _); vm_compute; exact I)) as (p' & -> & Hw & _).
  cbn [mbind option_bind]. destruct (spool_tone_ok 440 40 (speaker sp) Ha Hat) as (a' & -> & Htone).
  cbn [mbind option_bind]. exists sv', st', (Spooler p' a'), q'. split; [done|].
  split_and!; [done|done|exact Hrun|exact titles_nodup|exact Hw|exact Htone].
Qed.

(** C31: the service tasks. From a well-formed scheduler with buffers of the
    right sizes the 200 creations run to completion and queue the tasks that
    the contract of the scheduler gives; service [k] that finds a free slot
    runs its own program (the entry of the service table, or the generic
    one), at priority 1, and holds its number. Its name is that of the table,
    or BackgroundService with three decimal digits from 005 to 200; the names
    are pairwise different. Of the spooler's queues, one message waits to be
    printed, and a tone of 440 Hz for 40 ms follows the tones that wait unless
    that queue is full. *)
Theorem services_started sa wa entries generic sv st sp q :
  buffers_ok sv -> sched_wf st q -> idle (printer sp) -> length (audio_queue (speaker sp)) = 8%nat ->
  0 <= audio_tail (speaker sp) < 8 ->
  exists sv' st' sp' q', background_services_initialize sa wa entries generic sv st sp = Some (sv', st', sp') /\
    sched_wf st' q' /\ sched_abs st' q' = Nat.iter 200 spec_create (sched_abs st q) /\
    running_services entries generic (task_count st) 200 st' /\ NoDup (expected_title <$> seqZ 0 200) /\
    waiting [chars "[Spooler] System print queue initialized" ++ [10]] 0 (printer sp') /\
    tone_queued 440 40 (speaker sp) (speaker sp').
Proof. apply services_start_ok. Qed.

Definition empty_services : services_t := ServicesState (replicate 200 (replicate 32 0)) (replicate 200 0).

Lemma services_started_witness :
  exists sv' st' sp', background_services_initialize 0x300000 0x101000 [] 0x102000 empty_services two_tasks
    (Spooler rest_printer rest_speaker) = Some (sv', st', sp') /\
    (exists t, task_table st' !! 101%nat = Some t /\ Sched.name t = Some "BackgroundService100" /\ memory_kb t = 99) /\
    audio_queue (speaker sp') !! 0%nat = Some (Tone 440 40 true).
Proof.
  destruct (services_started 0x300000 0x101000 [] 0x102000 empty_services two_tasks (Spooler rest_printer rest_speaker)
    [0%nat; 1%nat]) as (sv' & st' & sp' & q' & E & _ & _ & Hrun & _ & _ & Htone).
  - split_and!; [done| |done]. by apply Forall_replicate.
  - exact (proj1 two_tasks_wf).
  - exact rest_idle.
  - done.
  - simpl. lia.
  - exists sv', st', sp'. split; [exact E|].
    split; [|destruct Htone as [[[Hf _] _]|(_ & -> & _)]; [discriminate Hf|reflexivity]].
    destruct (Hrun 99 ltac:(lia) ltac:(by vm_compute)) as (t & Ht & Hn & _ & _ & Hm).
    exists t. split; [exact Ht|]. split; [exact Hn|exact Hm].
Defined.
