(* ===== verification/FileOps.v ===== *)
(** * File table ([src/file_ops.c])

    A table of 64 entries whose paths are pointers to the strings of the
    callers.  A pointer is an address, 0 is NULL, and [memory] gives the string
    at an address; the strings do not change while the table refers to them. *)

From S2P Require Import Prelude.

Definition MAX_FILES : Z := 64.

Record vfs_file_t := Vfs { path : Z; is_directory : bool; vsize : Z; vexists : bool }.

Record files_t := Files { file_table : list vfs_file_t; file_count : Z }.

(** The loop of [strings_equal] on the characters before the terminators. *)
Fixpoint chars_equal (a b : list Z) : bool :=
  match a, b with
  | x :: a', y :: b' => if negb (x =? y) then false else chars_equal a' b'
  | [], [] => true
  | _, _ => false
  end.

Section files.
Context (memory : Z -> list Z).

Definition strings_equal (a b : Z) : bool :=
  if (a =? 0) || (b =? 0) then false else chars_equal (memory a) (memory b).

Definition file_ops_initialize (s : files_t) : files_t := Files (file_table s) 0.

Definition matches (p : Z) (f : vfs_file_t) : bool := strings_equal (path f) p && vexists f.

(** The first entry in use with the given path. *)
Definition find_file (p : Z) (s : files_t) : option nat :=
  first_index (matches p) (take (Z.to_nat (file_count s)) (file_table s)).

Definition put_file (i : nat) (f : vfs_file_t) (s : files_t) : files_t :=
  Files (<[i := f]> (file_table s)) (file_count s).

(** Results are [None] only for an access outside of the table. *)
Definition file_op_delete (p : Z) (s : files_t) : option (Z * files_t) :=
  if p =? 0 then Some (-1, s)
  else
    match find_file p s with
    | Some i => f ← file_table s !! i; Some (0, put_file i (Vfs (path f) (is_directory f) (vsize f) false) s)
    | None => Some (-1, s)
    end.

Definition append (f : vfs_file_t) (s : files_t) : option files_t :=
  l ← aset (file_table s) (file_count s) f;
  Some (Files l (file_count s + 1)).

Definition file_op_copy (src dst : Z) (s : files_t) : option (Z * files_t) :=
  if (src =? 0) || (dst =? 0) then Some (-1, s)
  else
    match find_file src s with
    | Some i =>
      if MAX_FILES <=? file_count s then Some (-1, s)
      else
        f ← file_table s !! i;
        s ← append (Vfs dst (is_directory f) (vsize f) true) s;
        Some (0, s)
    | None => Some (-1, s)
    end.

Definition file_op_mkdir (p : Z) (s : files_t) : option (Z * files_t) :=
  if (p =? 0) || (MAX_FILES <=? file_count s) then Some (-1, s)
  else
    s ← append (Vfs p true 0 true) s;
    Some (0, s).

Definition file_op_move (src dst : Z) (s : files_t) : option (Z * files_t) :=
  if (src =? 0) || (dst =? 0) then Some (-1, s)
  else
    match find_file src s with
    | Some i => f ← file_table s !! i; Some (0, put_file i (Vfs dst (is_directory f) (vsize f) (vexists f)) s)
    | None => Some (-1, s)
    end.

Inductive file_op := Delete (p : Z) | Copy (src dst : Z) | Mkdir (p : Z) | Move (src dst : Z).

Definition file_step (op : file_op) (s : files_t) : option (Z * files_t) :=
  match op with
  | Delete p => file_op_delete p s
  | Copy src dst => file_op_copy src dst s
  | Mkdir p => file_op_mkdir p s
  | Move src dst => file_op_move src dst s
  end.

Fixpoint file_run (ops : list file_op) (s : files_t) : option (list Z * files_t) :=
  match ops with
  | [] => Some ([], s)
  | op :: ops' => '(r, s) ← file_step op s; '(rs, s) ← file_run ops' s; Some (r :: rs, s)
  end.

(** ** The specification

    The files in the order of their creation, as (path, is_directory, size),
    and the number of creations so far, at most 64. *)
Definition file : Type := list Z * bool * Z.

Definition named (p : Z) (f : file) : bool := bool_decide (f.1.1 = memory p).

Definition spec_file (op : file_op) (l : list file) (used : Z) : Z * list file * Z :=
  match op with
  | Delete p =>
    if p =? 0 then (-1, l, used)
    else match first_index (named p) l with Some k => (0, delete k l, used) | None => (-1, l, used) end
  | Copy src dst =>
    if (src =? 0) || (dst =? 0) || (64 <=? used) then (-1, l, used)
    else
      match first_index (named src) l with
      | Some k => match l !! k with
                  | Some f => (0, l ++ [(memory dst, f.1.2, f.2)], used + 1)
                  | None => (-1, l, used)
                  end
      | None => (-1, l, used)
      end
  | Mkdir p => if (p =? 0) || (64 <=? used) then (-1, l, used) else (0, l ++ [(memory p, true, 0)], used + 1)
  | Move src dst =>
    if (src =? 0) || (dst =? 0) then (-1, l, used)
    else
      match first_index (named src) l with
      | Some k => (0, alter (fun f => (memory dst, f.1.2, f.2)) k l, used)
      | None => (-1, l, used)
      end
  end.

Fixpoint spec_files (ops : list file_op) (l : list file) (used : Z) : list Z * list file * Z :=
  match ops with
  | [] => ([], l, used)
  | op :: ops' =>
    let '(r, l, used) := spec_file op l used in
    let '(rs, l, used) := spec_files ops' l used in
    (r :: rs, l, used)
  end.

Definition view (f : vfs_file_t) : file := (memory (path f), is_directory f, vsize f).

(** The entries of a table that stand for files. *)
Definition live (t : list vfs_file_t) : list file := view <$> filter (fun f => vexists f = true) t.

Record files_ok (s : files_t) : Prop := {
  ok_slots : length (file_table s) = 64%nat;
  ok_count : 0 <= file_count s <= 64;
  ok_paths : Forall (fun f => path f <> 0) (take (Z.to_nat (file_count s)) (file_table s))
}.

Definition used_part (s : files_t) : list vfs_file_t := take (Z.to_nat (file_count s)) (file_table s).

Lemma chars_equal_spec a b : chars_equal a b = bool_decide (a = b).
Proof using Type.
  revert b. induction a as [|x a IH]; intros [|y b]; try done. cbn [chars_equal].
  destruct (Z.eqb_spec x y) as [->|Hne]; cbn [negb].
  - rewrite IH. apply bool_decide_ext. split; [by intros ->|by intros [= ->]].
  - symmetry. apply bool_decide_eq_false. by intros [= ? ?].
Qed.

Lemma matches_named p f : p <> 0 -> path f <> 0 -> vexists f = true -> matches p f = named p (view f).
Proof using Type.
  intros Hp Hf Hv. unfold matches, strings_equal, named, view.
  rewrite (proj2 (Z.eqb_neq _ _) Hp), (proj2 (Z.eqb_neq _ _) Hf), Hv. cbn [orb fst]. by rewrite andb_true_r, chars_equal_spec.
Qed.

(** The search in the table and the search in the list of files: both find
    the same file, and its neighbours are the same. *)
Lemma find_live p t :
  p <> 0 -> Forall (fun f => path f <> 0) t ->
  match first_index (matches p) t with
  | Some i => exists t1 f t2, t = t1 ++ f :: t2 /\ length t1 = i /\ vexists f = true /\
      first_index (named p) (live t) = Some (length (live t1)) /\ live t = live t1 ++ view f :: live t2
  | None => first_index (named p) (live t) = None
  end.
Proof using Type.
  intros Hp. induction 1 as [|f t Hf Ht IH]; [done|]. cbn [first_index].
  destruct (matches p f) eqn:Em.
  - assert (Hv : vexists f = true) by (unfold matches in Em; by apply andb_true_iff in Em as [_ ?]).
    exists [], f, t. split_and!; [done|done|done| |].
    + unfold live. rewrite filter_cons_True by done. cbn [fmap list_fmap first_index].
      by rewrite <- matches_named, Em by done.
    + unfold live. by rewrite filter_cons_True.
  - destruct (decide (vexists f = true)) as [Hv|Hv].
    + assert (En : named p (view f) = false) by (by rewrite <- matches_named).
      destruct (first_index (matches p) t) as [i|]; cbn [fmap option_fmap option_map].
      * destruct IH as (t1 & f' & t2 & -> & <- & Hf' & Hi & Hl). exists (f :: t1), f', t2.
        unfold live in *. rewrite !filter_cons_True by done. cbn [fmap list_fmap first_index app]. rewrite En.
        split_and!; [done|done|done|by rewrite Hi|by rewrite Hl].
      * unfold live in *. rewrite filter_cons_True by done. cbn [fmap list_fmap first_index]. by rewrite En, IH.
    + destruct (first_index (matches p) t) as [i|]; cbn [fmap option_fmap option_map].
      * destruct IH as (t1 & f' & t2 & -> & <- & Hf' & Hi & Hl). exists (f :: t1), f', t2.
        unfold live in *. rewrite !filter_cons_False by done. by split_and!.
      * unfold live in *. by rewrite filter_cons_False.
Qed.

Lemma live_app a b : live (a ++ b) = live a ++ live b.
Proof using Type. unfold live. by rewrite filter_app, fmap_app. Qed.

Lemma live_one f : vexists f = true -> live [f] = [view f].
Proof using Type. intros H. unfold live. by rewrite filter_cons_True. Qed.

Lemma live_none f : vexists f = false -> live [f] = [].
Proof using Type. intros H. unfold live. rewrite filter_cons_False by congruence. done. Qed.

(** Appending an entry appends a file. *)
Lemma append_live f s :
  files_ok s -> file_count s < 64 -> path f <> 0 -> vexists f = true ->
  exists s', append f s = Some s' /\ files_ok s' /\ live (used_part s') = live (used_part s) ++ [view f] /\
    file_count s' = file_count s + 1.
Proof using Type.
  intros [Hl Hc Hp] Hlt Hf Hv. unfold append. rewrite (aset_in_range (file_table s) (file_count s) f) by lia.
  cbn [mbind option_bind]. eexists. split; [done|].
  assert (Hu : used_part (Files (<[Z.to_nat (file_count s) := f]> (file_table s)) (file_count s + 1))
             = used_part s ++ [f]).
  { unfold used_part. cbn [file_table file_count].
    replace (Z.to_nat (file_count s + 1)) with (Datatypes.S (Z.to_nat (file_count s))) by lia.
    rewrite (take_S_r _ _ f) by (apply list_lookup_insert_eq; lia). by rewrite take_insert_ge by lia. }
  split_and!; [|by rewrite Hu, live_app, live_one|done].
  split; cbn [file_table file_count]; [by rewrite length_insert|lia|].
  change (take (Z.to_nat (file_count s + 1)) (<[Z.to_nat (file_count s) := f]> (file_table s)))
    with (used_part (Files (<[Z.to_nat (file_count s) := f]> (file_table s)) (file_count s + 1))).
  rewrite Hu. apply Forall_app. by repeat constructor.
Qed.

(** The entry that the search finds, and its replacement. *)
Lemma find_file_spec p s :
  files_ok s -> p <> 0 ->
  match find_file p s with
  | Some i => exists f k,
      file_table s !! i = Some f /\ vexists f = true /\ path f <> 0 /\
      first_index (named p) (live (used_part s)) = Some k /\ live (used_part s) !! k = Some (view f) /\
      (forall f', path f' <> 0 -> files_ok (put_file i f' s) /\
         live (used_part (put_file i f' s)) =
           if vexists f' then alter (fun _ => view f') k (live (used_part s)) else delete k (live (used_part s)))
  | None => first_index (named p) (live (used_part s)) = None
  end.
Proof using Type.
  intros [Hl Hc Hp] H0. pose proof (find_live p (used_part s) H0 Hp) as H. unfold find_file.
  change (take (Z.to_nat (file_count s)) (file_table s)) with (used_part s).
  destruct (first_index (matches p) (used_part s)) as [i|]; [|done].
  destruct H as (t1 & f & t2 & Eu & <- & Hv & Hi & El). exists f, (length (live t1)).
  assert (Hlu : (length t1 < Z.to_nat (file_count s))%nat).
  { assert (Hlen : length (used_part s) = Z.to_nat (file_count s)).
    { unfold used_part. rewrite length_take. lia. }
    rewrite <- Hlen, Eu, length_app. simpl. lia. }
  assert (Hpu : Forall (fun f => path f <> 0) (used_part s)) by done.
  rewrite Eu in Hpu. apply Forall_app in Hpu as [Hp1 [Hpf Hp2]%Forall_cons].
  split_and!; [|done|done|done|by rewrite El, list_lookup_middle|].
  - rewrite <- (lookup_take_lt (file_table s) (Z.to_nat (file_count s))) by done.
    change (used_part s !! length t1 = Some f). by rewrite Eu, list_lookup_middle.
  - intros f' Hf'.
    assert (Hu : used_part (put_file (length t1) f' s) = t1 ++ f' :: t2).
    { unfold used_part, put_file in *. cbn [file_table file_count].
      rewrite take_insert_lt by done. rewrite Eu. by rewrite insert_app_r_alt, Nat.sub_diag by lia. }
    split.
    + split; cbn [put_file file_table file_count]; [by rewrite length_insert|done|].
      change (take _ (<[length t1:=f']> _)) with (used_part (put_file (length t1) f' s)). rewrite Hu.
      apply Forall_app. by split; [|constructor].
    + change (f' :: t2) with ([f'] ++ t2) in Hu. rewrite Hu, El, (live_app t1), (live_app [f'] t2).
      destruct (vexists f') eqn:E.
      * rewrite live_one by done. rewrite alter_app_r_alt, Nat.sub_diag by lia. done.
      * rewrite live_none by done. by rewrite delete_middle.
Qed.

Lemma alter_same {A} (g : A -> A) k (l : list A) a : l !! k = Some a -> alter g k l = alter (fun _ => g a) k l.
Proof using Type. clear memory. revert k. induction l as [|x l IH]; intros [|k]; [done|done|by intros [= ->]|]. intros H. simpl. f_equal. by apply IH. Qed.

(** One operation. *)
Lemma file_step_spec op s r l used :
  files_ok s -> spec_file op (live (used_part s)) (file_count s) = (r, l, used) ->
  exists s', file_step op s = Some (r, s') /\ files_ok s' /\ live (used_part s') = l /\ file_count s' = used.
Proof using Type.
  intros Hs. destruct op as [p|src dst|p|src dst]; cbn [spec_file file_step].
  - unfold file_op_delete. destruct (Z.eqb_spec p 0) as [|Hp]; [intros [= <- <- <-]; by eauto|].
    pose proof (find_file_spec p s Hs Hp) as Hf. destruct (find_file p s) as [i|].
    + destruct Hf as (f & k & Ef & Hv & Hpf & Hk & _ & Hput). rewrite Hk, Ef. cbn [mbind option_bind].
      intros [= <- <- <-]. eexists. split; [done|].
      by destruct (Hput (Vfs (path f) (is_directory f) (vsize f) false) Hpf) as [? Hd].
    + rewrite Hf. intros [= <- <- <-]. eauto.
  - unfold file_op_copy. destruct (Z.eqb_spec src 0) as [|Hsrc]; [intros [= <- <- <-]; by eauto|].
    destruct (Z.eqb_spec dst 0) as [|Hdst]; [intros [= <- <- <-]; by eauto|]. cbn [orb].
    change MAX_FILES with 64.
    pose proof (find_file_spec src s Hs Hsrc) as Hf. destruct (find_file src s) as [i|].
    + destruct Hf as (f & k & Ef & Hv & Hpf & Hk & Hlk & _). rewrite Hk. cbn iota. unfold file in Hlk |- *. rewrite Hlk, Ef. cbn [mbind option_bind].
      case_cmp; intros [= <- <- <-]; [by eauto|].
      destruct (append_live (Vfs dst (is_directory f) (vsize f) true) s Hs ltac:(lia) Hdst eq_refl)
        as (s' & -> & ? & ? & ?). cbn [mbind option_bind]. eauto.
    + rewrite Hf. case_cmp; intros [= <- <- <-]; eauto.
  - unfold file_op_mkdir. change MAX_FILES with 64. destruct (Z.eqb_spec p 0) as [|Hp]; [intros [= <- <- <-]; by eauto|].
    cbn [orb]. case_cmp; intros [= <- <- <-]; [by eauto|].
    destruct (append_live (Vfs p true 0 true) s Hs ltac:(lia) Hp eq_refl) as (s' & -> & ? & ? & ?).
    cbn [mbind option_bind]. eauto.
  - unfold file_op_move. destruct (Z.eqb_spec src 0) as [|Hsrc]; [intros [= <- <- <-]; by eauto|].
    destruct (Z.eqb_spec dst 0) as [|Hdst]; [intros [= <- <- <-]; by eauto|]. cbn [orb].
    pose proof (find_file_spec src s Hs Hsrc) as Hf. destruct (find_file src s) as [i|].
    + destruct Hf as (f & k & Ef & Hv & Hpf & Hk & Hlk & Hput). rewrite Hk, Ef. cbn [mbind option_bind].
      intros [= <- <- <-]. eexists. split; [done|].
      destruct (Hput (Vfs dst (is_directory f) (vsize f) (vexists f)) Hdst) as [? Hd].
      split_and!; [done| |done]. rewrite Hd. cbn [vexists]. rewrite Hv. symmetry. exact (alter_same (fun f : file => (memory dst, f.1.2, f.2)) k _ (view f) Hlk).
    + rewrite Hf. intros [= <- <- <-]. eauto.
Qed.

(** C33: The file table refines the list of files in creation order.  From a
    table with 64 slots whose used entries have non-null paths, any sequence
    of delete, copy, mkdir and move is defined (no access outside the table),
    returns the codes of the specification, and leaves exactly the files of
    the specification: a deletion removes the first file of that name, a copy
    and a directory are appended, a move renames in place, and everything
    fails with -1 on a null or unknown path.  The specification shows what
    the table does not give: mkdir accepts a name in use, and the 64 slots
    count creations, deleted files included. *)
Theorem file_table_refines ops s rs l used :
  files_ok s -> spec_files ops (live (used_part s)) (file_count s) = (rs, l, used) ->
  exists s', file_run ops s = Some (rs, s') /\ files_ok s' /\ live (used_part s') = l /\ file_count s' = used.
Proof using Type.
  revert s rs l used. induction ops as [|op ops IH]; intros s rs l used Hs; cbn [spec_files file_run].
  - intros [= <- <- <-]. eauto.
  - destruct (spec_file op (live (used_part s)) (file_count s)) as [[r l1] u1] eqn:E1.
    destruct (spec_files ops l1 u1) as [[rs1 l2] u2] eqn:E2. intros [= <- <- <-].
    destruct (file_step_spec op s r l1 u1 Hs E1) as (s1 & -> & Hs1 & <- & <-).
    destruct (IH s1 rs1 l2 u2 Hs1 E2) as (s2 & E & ? & ? & ?). cbn [mbind option_bind]. rewrite E. eauto.
Qed.
End files.

(** Strings "a", "b" and another "a" at three addresses. *)
Definition sample_memory (p : Z) : list Z := if p =? 2 then [98] else [97].

Definition empty_table : files_t := Files (replicate 64 (Vfs 0 false 0 false)) 0.

Lemma empty_table_ok : files_ok empty_table.
Proof. split; [done|simpl; lia|constructor]. Qed.

(** Two directories of one name; the deletion by a third pointer takes the
    first one. *)
Lemma file_table_refines_witness :
  exists s', file_run sample_memory [Mkdir 1; Mkdir 3; Copy 1 2; Delete 3; Move 2 0; Delete 2; Delete 2] empty_table
             = Some ([0; 0; 0; 0; -1; 0; -1], s') /\
    live sample_memory (used_part s') = [([97], true, 0)] /\ file_count s' = 3.
Proof.
  destruct (file_table_refines sample_memory
    [Mkdir 1; Mkdir 3; Copy 1 2; Delete 3; Move 2 0; Delete 2; Delete 2] empty_table
    [0; 0; 0; 0; -1; 0; -1] [([97], true, 0)] 3 empty_table_ok ltac:(vm_compute; reflexivity))
    as (s' & H1 & _ & H2 & H3).
  exists s'. split; [exact H1|split; [exact H2|exact H3]].
Defined.
