(* ===== verification/Launcher.v ===== *)
(** * Application launcher ([src/app_launcher.c])

    A registry of applications, of which three are entered at start.  An
    application is started as a task of the scheduler.  A name is the
    characters of a C string, NULL is [None]; the entry points are the
    addresses of the functions. *)

From S2P Require Import Prelude Io Sched Pci Fat32 Ring Input Vga Windows Services FileOps.

Definition MAX_APPS : Z := 16.

Record app_t := App { app_name : option (list Z); app_entry : Z; running : bool; app_pid : Z }.

Record launcher_t := Launcher { app_registry : list app_t; app_count : Z }.

(** The same function as in the file table, on the strings themselves. *)
Definition strings_equal (a b : option (list Z)) : bool :=
  match a, b with
  | Some a, Some b => chars_equal a b
  | _, _ => false
  end.

Section launcher.
(** The addresses of [task_stacks], [task_entry_wrapper] and the three
    programs. *)
Context (stacks_addr wrapper_addr file_manager_app terminal_app settings_app : Z).

Definition register (nm : string) (entry : Z) (l : launcher_t) : option launcher_t :=
  r ← aset (app_registry l) (app_count l) (App (Some (chars nm)) entry false 0);
  Some (Launcher r (app_count l + 1)).

Definition app_launcher_initialize (l : launcher_t) : option launcher_t :=
  l ← register "Files" file_manager_app (Launcher (app_registry l) 0);
  l ← register "Terminal" terminal_app l;
  register "Settings" settings_app l.

(** The loop of [app_launch] from entry [i] on, [n] entries left.  A creation
    that fails lets the loop go on. *)
Fixpoint launch_from (n : nat) (i : Z) (nm : list Z) (l : launcher_t) (st : sched_t) :
    option (Z * launcher_t * sched_t) :=
  match n with
  | O => Some (-1, l, st)
  | S n' =>
    a ← aget (app_registry l) i;
    if strings_equal (app_name a) (Some nm) then
      if running a then Some (s32 (app_pid a), l, st)
      else
        '(st, task) ← create_task stacks_addr wrapper_addr (string_of (nm ++ [0])) (app_entry a) 1 st;
        match task with
        | Some slot =>
          t ← task_table st !! slot;
          r ← aset (app_registry l) i (App (app_name a) (app_entry a) true (pid t));
          Some (s32 (pid t), Launcher r (app_count l), st)
        | None => launch_from n' (i + 1) nm l st
        end
    else launch_from n' (i + 1) nm l st
  end.

Definition app_launch (nm : option (list Z)) (l : launcher_t) (st : sched_t) : option (Z * launcher_t * sched_t) :=
  match nm with
  | None => Some (-1, l, st)
  | Some nm => launch_from (Z.to_nat (app_count l)) 0 nm l st
  end.

(** ** Drawing *)

Definition draw_box (x y width height : Z) : io text_t unit :=
  vga_write_char x y 43 0x0F ≫= fun _ =>
  vga_write_char (x + width - 1) y 43 0x0F ≫= fun _ =>
  vga_write_char x (y + height - 1) 43 0x0F ≫= fun _ =>
  vga_write_char (x + width - 1) (y + height - 1) 43 0x0F ≫= fun _ =>
  int_for 1 (width - 1) (fun i =>
    vga_write_char (x + i) y 45 0x0F ≫= fun _ =>
    vga_write_char (x + i) (y + height - 1) 45 0x0F) ≫= fun _ =>
  int_for 1 (height - 1) (fun i =>
    vga_write_char x (y + i) 124 0x0F ≫= fun _ =>
    vga_write_char (x + width - 1) (y + i) 124 0x0F).

(** The name of entry [i]; reading through a NULL name is undefined. *)
Definition draw_app (l : launcher_t) (i : Z) : io text_t unit :=
  a ← lift (aget (app_registry l) i);
  name ← lift (app_name a);
  draw_text name (4 + 2) (4 + 28 - 2) (16 + 1 + i) 0x0F.

Definition app_launcher_render (l : launcher_t) : io text_t unit :=
  draw_box 4 16 28 8 ≫= fun _ =>
  draw_text (chars "App Launcher") (4 + 2) (4 + 28 - 2) 16 0x1F ≫= fun _ =>
  int_for 0 (Z.min (app_count l) (8 - 2)) (draw_app l).

(** ** The registry *)

Definition called (nm : list Z) (a : app_t) : bool := strings_equal (app_name a) (Some nm).

Definition apps (l : launcher_t) : list app_t := take (Z.to_nat (app_count l)) (app_registry l).

(** Entries in use have different names, and a running one has the
    identifier of a task. *)
Record apps_ok (l : launcher_t) : Prop := {
  apps_slots : length (app_registry l) = 16%nat;
  apps_count : 0 <= app_count l <= 16;
  apps_named a : a ∈ apps l -> is_Some (app_name a) /\ (running a = true -> 1 <= app_pid a <= 256);
  apps_distinct : NoDup (app_name <$> apps l)
}.

Lemma called_eq nm a : called nm a = true <-> app_name a = Some nm.
Proof using Type.
  unfold called, strings_equal. destruct (app_name a) as [x|]; [|done].
  rewrite chars_equal_spec, bool_decide_eq_true. by split; [intros ->|intros [= ->]].
Qed.

Lemma apps_lookup l i : (i < Z.to_nat (app_count l))%nat -> apps l !! i = app_registry l !! i.
Proof using Type. intros Hi. unfold apps. by rewrite lookup_take_lt. Qed.

(** The loop passes over the entries of other names. *)
Lemma launch_from_skip nm l st n i k :
  apps_ok l -> (i + n + k = Z.to_nat (app_count l))%nat ->
  (forall j a, (i <= j < i + n)%nat -> apps l !! j = Some a -> called nm a = false) ->
  launch_from (n + k) (Z.of_nat i) nm l st = launch_from k (Z.of_nat (i + n)) nm l st.
Proof using Type.
  intros Hl. revert i. induction n as [|n IH]; intros i Hk Hne; [by rewrite Nat.add_0_r|].
  pose proof (apps_slots _ Hl). pose proof (apps_count _ Hl).
  cbn [Nat.add launch_from]. destruct (aget_in_range (app_registry l) (Z.of_nat i) ltac:(lia)) as [a Ea]. rewrite Ea.
  cbn [mbind option_bind]. apply aget_lookup in Ea. rewrite Nat2Z.id, <- apps_lookup in Ea by lia.
  pose proof (Hne i a ltac:(lia) Ea) as Hc. unfold called in Hc. rewrite Hc.
  replace (Z.of_nat i + 1) with (Z.of_nat (S i)) by lia. rewrite IH; [by rewrite Nat.add_succ_comm|lia|].
  intros j b Hj. apply Hne. lia.
Qed.

Lemma first_app l nm i :
  first_index (called nm) (apps l) = Some i ->
  exists a, apps l !! i = Some a /\ app_name a = Some nm /\ (i < Z.to_nat (app_count l))%nat /\
    (forall j b, (j < i)%nat -> apps l !! j = Some b -> called nm b = false).
Proof using Type.
  intros Hi. apply first_index_Some in Hi as (a & Ha & Hc & Hbefore). exists a. apply called_eq in Hc. split_and!; try done.
  - apply lookup_lt_Some in Ha. unfold apps in Ha. rewrite length_take in Ha. lia.
Qed.

(** Marking an entry keeps the registry in order. *)
Lemma apps_ok_insert l i a p :
  apps_ok l -> apps l !! i = Some a -> 1 <= p <= 256 ->
  let l' := Launcher (<[i := App (app_name a) (app_entry a) true p]> (app_registry l)) (app_count l) in
  apps_ok l' /\ apps l' = <[i := App (app_name a) (app_entry a) true p]> (apps l).
Proof using Type.
  intros Hl Hi Hp l'.
  assert (Hlt : (i < Z.to_nat (app_count l))%nat).
  { apply lookup_lt_Some in Hi. unfold apps in Hi. rewrite length_take in Hi. lia. }
  assert (E : apps l' = <[i := App (app_name a) (app_entry a) true p]> (apps l)).
  { unfold apps, l'. cbn [app_count app_registry]. by rewrite take_insert_lt. }
  split; [|done]. destruct Hl as [Hs Hc Hn Hd]. split; [by unfold l'; cbn [app_registry]; rewrite length_insert|done| |].
  - intros b. rewrite E. intros (j & [(<- & <- & _)|(_ & Hb)]%list_lookup_insert_Some)%list_elem_of_lookup.
    + cbn [app_name running app_pid]. split; [|done]. apply Hn. by eapply list_elem_of_lookup_2.
    + apply Hn. by eapply list_elem_of_lookup_2.
  - rewrite E, list_fmap_insert. cbn [app_name]. rewrite list_insert_id; [done|]. by rewrite list_lookup_fmap, Hi.
Qed.

Lemma called_once l nm i j a b :
  apps_ok l -> apps l !! i = Some a -> app_name a = Some nm -> apps l !! j = Some b -> i <> j -> called nm b = false.
Proof using Type.
  intros [_ _ _ Hd] Hi Ha Hj Hne. destruct (called nm b) eqn:Hc; [|done]. apply called_eq in Hc. destruct Hne.
  rewrite NoDup_alt in Hd. apply (Hd i j (Some nm)); rewrite list_lookup_fmap; [by rewrite Hi, <- Ha|by rewrite Hj, <- Hc].
Qed.

(** The loop at the entry that carries the name. *)
Lemma launch_at l st nm i a :
  apps_ok l -> first_index (called nm) (apps l) = Some i -> apps l !! i = Some a ->
  app_launch (Some nm) l st =
    if running a then Some (app_pid a, l, st)
    else
      '(st, task) ← create_task stacks_addr wrapper_addr (string_of (nm ++ [0])) (app_entry a) 1 st;
      match task with
      | Some slot =>
        t ← task_table st !! slot;
        r ← aset (app_registry l) (Z.of_nat i) (App (app_name a) (app_entry a) true (pid t));
        Some (s32 (pid t), Launcher r (app_count l), st)
      | None => Some (-1, l, st)
      end.
Proof using Type.
  intros Hl Hi Ha. destruct (first_app l nm i Hi) as (a' & Ha' & Hn & Hlt & Hbefore). simplify_eq.
  unfold app_launch. replace (Z.to_nat (app_count l)) with (i + S (Z.to_nat (app_count l) - i - 1))%nat by lia.
  change 0 with (Z.of_nat 0). rewrite launch_from_skip; [|done|lia|intros j b Hj; apply Hbefore; lia].
  cbn [launch_from Nat.add]. rewrite aget_nonneg, Nat2Z.id, <- apps_lookup, Ha by lia. cbn [mbind option_bind].
  rewrite Hn. cbn [strings_equal]. rewrite chars_equal_spec, bool_decide_eq_true_2 by done.
  destruct (running a) eqn:Hr.
  - destruct (apps_named l Hl a) as [_ Hp]; [by eapply list_elem_of_lookup_2|]. specialize (Hp Hr).
    do 3 f_equal. apply s32_small. lia.
  - destruct (create_task _ _ _ _ _ _) as [[st1 [slot|]]|]; cbn [mbind option_bind]; [done| |done].
    replace (Z.of_nat i + 1) with (Z.of_nat (i + 1)) by lia. rewrite <- (Nat.add_0_r (Z.to_nat (app_count l) - i - 1)).
    rewrite launch_from_skip; [done|done|lia|]. intros j b Hj Hb. apply (called_once l nm i j a b Hl Ha Hn Hb). lia.
Qed.

(** One launch. *)
Lemma launch_ok l st q nm :
  apps_ok l -> sched_wf st q ->
  exists r l' st' q', app_launch (Some nm) l st = Some (r, l', st') /\ apps_ok l' /\ sched_wf st' q' /\
    match first_index (called nm) (apps l) with
    | None => r = -1 /\ l' = l /\ st' = st
    | Some i =>
      exists a, apps l !! i = Some a /\
      if running a then r = app_pid a /\ l' = l /\ st' = st
      else if 256 <=? task_count st then r = -1 /\ l' = l /\ st' = st
      else
        r = task_count st + 1 /\ sched_abs st' q' = spec_create (sched_abs st q) /\
        (exists t, task_table st' !! Z.to_nat (task_count st) = Some t /\ pid t = r /\
          Sched.name t = Some (string_of (nm ++ [0])) /\ Sched.entry t = app_entry a /\ priority t = 1) /\
        apps l' = <[i := App (app_name a) (app_entry a) true r]> (apps l)
    end.
Proof using Type.
  intros Hl Hwf. destruct (first_index (called nm) (apps l)) as [i|] eqn:Hi.
  - destruct (first_app l nm i Hi) as (a & Ha & Hn & Hlt & Hbefore). rewrite (launch_at l st nm i a Hl Hi Ha).
    destruct (running a) eqn:Hr; [by exists (app_pid a), l, st, q; split_and!; try done; exists a; rewrite Hr|].
    destruct (create_ok stacks_addr wrapper_addr (string_of (nm ++ [0])) (app_entry a) 1 st q Hwf)
      as (st1 & slot & q1 & E1 & Hwf1 & Habs & Eslot). rewrite E1. cbn [mbind option_bind].
    destruct (Z.leb_spec 256 (task_count st)) as [Hfull|Hroom]; subst slot.
    + assert (st1 = st) as -> by (revert E1; unfold create_task, MAX_TASKS; case_cmp; [by intros [= ->]|lia]).
      exists (-1), l, st, q. split_and!; try done. exists a. by rewrite Hr.
    + destruct (create_program _ _ _ _ _ _ _ _ E1) as (_ & (t & Ht & Hnm & Hent & Hprio) & _). rewrite Ht.
      cbn [mbind option_bind]. pose proof (wf_count _ _ Hwf).
      assert (Hcount : task_count st1 = task_count st + 1).
      { apply (f_equal sq_count) in Habs. revert Habs. unfold spec_create. cbn [sq_count sched_abs]. case_cmp; cbn [sq_count]; lia. }
      assert (Hpid : pid t = task_count st + 1) by (rewrite (wf_pids _ _ Hwf1 _ _ Ht) by lia; lia).
      pose proof (apps_slots _ Hl). pose proof (apps_count _ Hl).
      rewrite aset_in_range by lia. cbn [mbind option_bind]. rewrite Nat2Z.id, Hpid, s32_small by lia.
      destruct (apps_ok_insert l i a (task_count st + 1) Hl Ha ltac:(lia)) as [Hl' Happs].
      eexists _, _, st1, q1. split; [done|]. split; [exact Hl'|]. split; [done|]. exists a. split; [done|]. rewrite Hr.
      split; [done|]. split; [done|]. split; [by exists t|]. exact Happs.
  - exists (-1), l, st, q. split_and!; try done. unfold app_launch. rewrite first_index_None in Hi.
    rewrite <- (Nat.add_0_r (Z.to_nat (app_count l))). change 0 with (Z.of_nat 0).
    rewrite launch_from_skip; [done|done|lia|]. intros j b _. apply Hi.
Qed.

(** C35: launching an application.  With a well-formed scheduler and registry,
    a name that is not registered gives -1 and changes nothing; a running
    application gives its identifier and changes nothing; with no free task
    slot the result is -1 and nothing changes; otherwise exactly one task is
    queued, in the next slot, under the given name, with the program of the
    application at priority 1, its identifier is returned, and every later
    launch of the name, in whatever state the scheduler is by then, only
    returns that identifier again. *)
Theorem app_launch_spec l st q nm :
  apps_ok l -> sched_wf st q ->
  exists r l' st' q', app_launch (Some nm) l st = Some (r, l', st') /\ apps_ok l' /\ sched_wf st' q' /\
    match first_index (called nm) (apps l) with
    | None => r = -1 /\ l' = l /\ st' = st
    | Some i =>
      exists a, apps l !! i = Some a /\
      if running a then r = app_pid a /\ l' = l /\ st' = st
      else if 256 <=? task_count st then r = -1 /\ l' = l /\ st' = st
      else
        r = task_count st + 1 /\ sched_abs st' q' = spec_create (sched_abs st q) /\
        (exists t, task_table st' !! Z.to_nat (task_count st) = Some t /\ pid t = r /\
          Sched.name t = Some (string_of (nm ++ [0])) /\ Sched.entry t = app_entry a /\ priority t = 1) /\
        apps l' = <[i := App (app_name a) (app_entry a) true r]> (apps l) /\
        (forall st'', app_launch (Some nm) l' st'' = Some (r, l', st''))
    end.
Proof using Type.
  intros Hl Hwf. destruct (launch_ok l st q nm Hl Hwf) as (r & l' & st' & q' & E & Hl' & Hwf' & H).
  exists r, l', st', q'. split_and!; try done. destruct (first_index (called nm) (apps l)) as [i|] eqn:Hi; [|done].
  destruct H as (a & Ha & H). exists a. split; [done|]. destruct (running a); [done|].
  destruct (256 <=? task_count st); [done|]. destruct H as (Hr & Habs & Ht & Happs). split_and!; try done. intros st''.
  destruct (first_app l nm i Hi) as (a' & Ha' & Hn & _ & Hbefore). simplify_eq.
  set (a' := App (app_name a) (app_entry a) true (task_count st + 1)) in *.
  assert (Hai : apps l' !! i = Some a').
  { rewrite Happs. apply list_lookup_insert_eq. by eapply lookup_lt_Some. }
  rewrite (launch_at l' st'' nm i a'); [done|done| |done].
  apply first_index_Some. exists a'. split; [done|]. split; [by apply called_eq|]. intros j b Hj. rewrite Happs.
  rewrite list_lookup_insert_ne by lia. by apply Hbefore.
Qed.
End launcher.

Definition no_app : app_t := App None 0 false 0.
Definition empty_launcher : launcher_t := Launcher (replicate 16 no_app) 0.

(** The registry after the initialisation. *)
Lemma initialize_apps fm term sets l :
  length (app_registry l) = 16%nat ->
  exists l', app_launcher_initialize fm term sets l = Some l' /\ apps_ok l' /\
    apps l' = [App (Some (chars "Files")) fm false 0; App (Some (chars "Terminal")) term false 0;
               App (Some (chars "Settings")) sets false 0].
Proof.
  destruct l as [r c]. cbn [app_registry]. intros Hl. destruct r as [|r0 [|r1 [|r2 r]]]; try done.
  unfold app_launcher_initialize, register. cbn [app_count app_registry length] in *.
  do 3 (rewrite aset_in_range by (rewrite ?length_insert; cbn [length]; lia); cbn [mbind option_bind app_count app_registry]).
  eexists. split; [reflexivity|]. change (Z.to_nat 0) with 0%nat. change (Z.to_nat (0 + 1)) with 1%nat.
  change (Z.to_nat (0 + 1 + 1)) with 2%nat. cbn [insert list_insert]. split; [|done]. split; cbn [app_count app_registry].
  - exact Hl.
  - lia.
  - intros a. unfold apps. cbn [app_count app_registry]. change (Z.to_nat (0 + 1 + 1 + 1)) with 3%nat. cbn [take].
    rewrite !elem_of_cons. intros [->|[->|[->|[]%not_elem_of_nil]]]; split; done.
  - apply (bool_decide_unpack _). vm_compute. exact I.
Qed.

Lemma app_launch_spec_witness :
  exists l l' st' q', app_launcher_initialize 0x1000 0x2000 0x3000 empty_launcher = Some l /\
    app_launch 0x300000 0x101000 (Some (chars "Terminal")) l two_tasks = Some (3, l', st') /\ sched_wf st' q' /\
    forall st'', app_launch 0x300000 0x101000 (Some (chars "Terminal")) l' st'' = Some (3, l', st'').
Proof.
  destruct (initialize_apps 0x1000 0x2000 0x3000 empty_launcher eq_refl) as (l & E & Hl & Happs).
  destruct (app_launch_spec 0x300000 0x101000 l two_tasks [0%nat; 1%nat] (chars "Terminal") Hl (proj1 two_tasks_wf))
    as (r & l' & st' & q' & El & _ & Hwf & H).
  rewrite Happs in H. change (first_index _ _) with (Some 1%nat) in H. destruct H as (a & Ha & H).
  injection Ha as <-. cbn [running] in H. change (256 <=? task_count two_tasks) with false in H.
  change (task_count two_tasks + 1) with 3 in H. destruct H as (-> & _ & _ & _ & Hagain).
  exists l, l', st', q'. split; [exact E|]. split; [exact El|]. split; [exact Hwf|exact Hagain].
Defined.
