(* ===== verification/Gui.v ===== *)
(** * Desktop ([src/gui.c])

    The desktop draws itself with its windows, the window manager, the
    notifications, the control center and the launcher on the text screen,
    and gives the meaning of mouse clicks.  [desktop_t] is the state of all
    these components and of the scheduler, in which the launcher starts
    programs.  Titles are the characters of C strings, NULL is [None]. *)

From S2P Require Import Prelude Io Sched Pci Fat32 Ring Input Vga Windows Desktop Services FileOps Launcher.

Definition GUI_STATUS_COLOR : Z := 0x1F.
Definition GUI_STATUS_TEXT : Z := 0x0F.
Definition GUI_PANEL_COLOR : Z := 0x2F.
Definition GUI_PANEL_TEXT : Z := 0x0F.
Definition GUI_FRAME_COLOR : Z := 0x0F.

Definition GUI_MAX_WINDOWS : Z := 6.
Definition GUI_MAX_TASKBAR : Z := 8.

Record gui_window_t := GuiWindow {
  gx : Z; gy : Z; gwidth : Z; gheight : Z; gtitle : option (list Z); gactive : bool; gminimized : bool
}.

Record taskbar_item_t := TaskbarItem { label : option (list Z); item_active : bool; window_id : Z }.

Record gui_t := Gui {
  gui_windows : list gui_window_t; gui_window_count : Z;
  taskbar_items : list taskbar_item_t; taskbar_count : Z;
  active_window : Z; screen_width : Z; screen_height : Z
}.

(** ** Drawing

    The sums of a position and a size are computed in [int]; other
    intermediate results lie between values that are in range. *)

Section drawing.
Context (g : gui_t).

Definition draw_string (x y : Z) (text : list Z) (color : Z) : io text_t unit :=
  draw_text text x (screen_width g) y color.

Definition fill_rect (x y width height color : Z) : io text_t unit :=
  bottom ← lift (int_of (y + height));
  int_for y (Z.min bottom (screen_height g)) (fun row =>
    right ← lift (int_of (x + width));
    int_for x (Z.min right (screen_width g)) (fun col => vga_write_char col row 32 color)).

Definition draw_horizontal (x y length glyph color : Z) : io text_t unit :=
  int_for 0 (Z.min length (screen_width g - x)) (fun i => vga_write_char (x + i) y glyph color).

Definition draw_vertical (x y length glyph color : Z) : io text_t unit :=
  int_for 0 (Z.min length (screen_height g - y)) (fun i => vga_write_char x (y + i) glyph color).

Definition draw_panel (x y width height : Z) (title : option (list Z)) : io text_t unit :=
  if (width <? 2) || (height <? 2) || (x <? 0) || (y <? 0) then skip
  else
    right ← lift (int_of (x + width));
    let width := if screen_width g <? right then screen_width g - x else width in
    bottom ← lift (int_of (y + height));
    let height := if screen_height g <? bottom then screen_height g - y else height in
    fill_rect x y width height GUI_PANEL_COLOR ≫= fun _ =>
    vga_write_char x y 43 GUI_FRAME_COLOR ≫= fun _ =>
    vga_write_char (x + width - 1) y 43 GUI_FRAME_COLOR ≫= fun _ =>
    vga_write_char x (y + height - 1) 43 GUI_FRAME_COLOR ≫= fun _ =>
    vga_write_char (x + width - 1) (y + height - 1) 43 GUI_FRAME_COLOR ≫= fun _ =>
    draw_horizontal (x + 1) y (width - 2) 45 GUI_FRAME_COLOR ≫= fun _ =>
    draw_horizontal (x + 1) (y + height - 1) (width - 2) 45 GUI_FRAME_COLOR ≫= fun _ =>
    draw_vertical x (y + 1) (height - 2) 124 GUI_FRAME_COLOR ≫= fun _ =>
    draw_vertical (x + width - 1) (y + 1) (height - 2) 124 GUI_FRAME_COLOR ≫= fun _ =>
    match title with
    | Some t => draw_text t (x + 2) (x + width - 2) y GUI_PANEL_TEXT
    | None => skip
    end.

Definition colors : list Z := [0x16; 0x15; 0x14; 0x13].

Definition draw_background : io text_t unit :=
  int_for 1 (screen_height g - 3) (fun y =>
    color ← lift (aget colors (y mod 4));
    int_for 0 (screen_width g) (fun x => vga_write_char x y 32 color)).

Definition draw_status_bar : io text_t unit :=
  fill_rect 0 0 (screen_width g) 1 GUI_STATUS_COLOR ≫= fun _ =>
  draw_string 1 0 (chars ".C OS") GUI_STATUS_TEXT ≫= fun _ =>
  draw_string 10 0 (chars "Online | WiFi | 89% Battery") GUI_STATUS_TEXT ≫= fun _ =>
  draw_string (screen_width g - 18) 0 (chars "[N]") GUI_STATUS_TEXT ≫= fun _ =>
  draw_string (screen_width g - 10) 0 (chars "[C]") GUI_STATUS_TEXT.

Definition draw_desktop_icons : io text_t unit :=
  draw_string 2 2 (chars "[Files]") GUI_PANEL_TEXT ≫= fun _ =>
  draw_string 2 4 (chars "[Term ]") GUI_PANEL_TEXT ≫= fun _ =>
  draw_string 2 6 (chars "[Sets ]") GUI_PANEL_TEXT ≫= fun _ =>
  draw_string 14 2 (chars "[Web  ]") GUI_PANEL_TEXT ≫= fun _ =>
  draw_string 14 4 (chars "[Edit ]") GUI_PANEL_TEXT.

Definition draw_gui_windows : io text_t unit :=
  int_for 0 (gui_window_count g) (fun i =>
    w ← lift (aget (gui_windows g) i);
    if negb (gactive w) || gminimized w then skip
    else draw_panel (gx w) (gy w) (gwidth w) (gheight w) (gtitle w)).

Definition options : list string := ["Open"; "Edit"; "Move"; "Close"].

Definition draw_context_menu (x y : Z) : io text_t unit :=
  let menu_width := 18 in
  let menu_height := 5 in
  right ← lift (int_of (x + menu_width));
  let menu_x := if screen_width g <=? right then screen_width g - menu_width - 1 else x in
  bottom ← lift (int_of (y + menu_height));
  let menu_y := if screen_height g <=? bottom then screen_height g - menu_height - 1 else y in
  draw_horizontal menu_x menu_y menu_width 45 GUI_FRAME_COLOR ≫= fun _ =>
  draw_horizontal menu_x (menu_y + menu_height - 1) menu_width 45 GUI_FRAME_COLOR ≫= fun _ =>
  draw_vertical menu_x (menu_y + 1) (menu_height - 2) 124 GUI_FRAME_COLOR ≫= fun _ =>
  draw_vertical (menu_x + menu_width - 1) (menu_y + 1) (menu_height - 2) 124 GUI_FRAME_COLOR ≫= fun _ =>
  vga_write_char menu_x menu_y 43 GUI_FRAME_COLOR ≫= fun _ =>
  vga_write_char (menu_x + menu_width - 1) menu_y 43 GUI_FRAME_COLOR ≫= fun _ =>
  vga_write_char menu_x (menu_y + menu_height - 1) 43 GUI_FRAME_COLOR ≫= fun _ =>
  vga_write_char (menu_x + menu_width - 1) (menu_y + menu_height - 1) 43 GUI_FRAME_COLOR ≫= fun _ =>
  int_for 0 4 (fun i =>
    option ← lift (aget options i);
    draw_text (chars option) (menu_x + 2) (menu_x + menu_width - 2) (menu_y + 1 + i) GUI_PANEL_TEXT).

Definition draw_floating_taskbar : io text_t unit :=
  let taskbar_height := 4 in
  let taskbar_y := screen_height g - taskbar_height - 2 in
  let taskbar_x := 4 in
  draw_panel taskbar_x taskbar_y (screen_width g - 8) taskbar_height (Some (chars " ")) ≫= fun _ =>
  draw_string (taskbar_x + 2) (taskbar_y + 1) (chars "[Files] [Term] [Sets] [Web] [Edit]") GUI_PANEL_TEXT ≫= fun _ =>
  draw_string (screen_width g - 18) (taskbar_y + 1) (chars "[NOTIF]") GUI_PANEL_TEXT ≫= fun _ =>
  draw_string (screen_width g - 10) (taskbar_y + 1) (chars "[CTRL]") GUI_PANEL_TEXT.

Definition gui_draw_icon (x y : Z) (label : list Z) : io text_t unit := draw_string x y label GUI_PANEL_TEXT.
End drawing.

(** ** The whole desktop *)

Record desktop_t := DesktopState {
  gui : gui_t; wm : wm_t; center : Notifications.center_t; control_visible : bool;
  launcher : launcher_t; sched : sched_t; screen : text_t
}.

Definition set_gui (g : gui_t) (d : desktop_t) : desktop_t :=
  DesktopState g (wm d) (center d) (control_visible d) (launcher d) (sched d) (screen d).
Definition set_wm (w : wm_t) (d : desktop_t) : desktop_t :=
  DesktopState (gui d) w (center d) (control_visible d) (launcher d) (sched d) (screen d).
Definition set_center (c : Notifications.center_t) (d : desktop_t) : desktop_t :=
  DesktopState (gui d) (wm d) c (control_visible d) (launcher d) (sched d) (screen d).
Definition set_control (b : bool) (d : desktop_t) : desktop_t :=
  DesktopState (gui d) (wm d) (center d) b (launcher d) (sched d) (screen d).
Definition set_apps (l : launcher_t) (st : sched_t) (d : desktop_t) : desktop_t :=
  DesktopState (gui d) (wm d) (center d) (control_visible d) l st (screen d).
Definition set_screen (t : text_t) (d : desktop_t) : desktop_t :=
  DesktopState (gui d) (wm d) (center d) (control_visible d) (launcher d) (sched d) t.

(** Drawing reads the components and changes the screen. *)
Definition paint (m : desktop_t -> io text_t unit) : io desktop_t unit :=
  fun d => match m d (screen d) with
           | Ok (_, t) => Ok (tt, set_screen t d)
           | Undef => Undef
           | NoFuel => NoFuel
           end.

Definition gui_render : io desktop_t unit :=
  paint (fun d =>
    draw_background (gui d) ≫= fun _ =>
    draw_status_bar (gui d) ≫= fun _ =>
    draw_desktop_icons (gui d) ≫= fun _ =>
    draw_gui_windows (gui d) ≫= fun _ =>
    window_manager_render (wm d) ≫= fun _ =>
    draw_floating_taskbar (gui d) ≫= fun _ =>
    Notifications.notification_center_render (center d) ≫= fun _ =>
    ControlCenter.control_center_render (control_visible d) ≫= fun _ =>
    app_launcher_render (launcher d)).

Definition gui_initialize : io desktop_t unit :=
  modify (fun d => set_gui (Gui (gui_windows (gui d)) 0 (taskbar_items (gui d)) 0 (-1) 80 24) d) ≫= fun _ =>
  paint (fun _ => vga_clear_screen).

Definition gui_open_window (title : option (list Z)) (x y width height : Z) : io desktop_t unit :=
  g ← gets gui;
  if GUI_MAX_WINDOWS <=? gui_window_count g then skip
  else
    ws ← lift (aset (gui_windows g) (gui_window_count g) (GuiWindow x y width height title true false));
    ti ← (if taskbar_count g <? GUI_MAX_TASKBAR then
            l ← lift (aset (taskbar_items g) (taskbar_count g) (TaskbarItem title true (gui_window_count g)));
            mret (l, taskbar_count g + 1)
          else mret (taskbar_items g, taskbar_count g));
    modify (set_gui (Gui ws (gui_window_count g + 1) ti.1 ti.2
      (if active_window g <? 0 then gui_window_count g else active_window g) (screen_width g) (screen_height g))).

Definition gui_set_resolution (width height : Z) : io desktop_t unit :=
  if (0 <? width) && (0 <? height) then
    modify (fun d => let g := gui d in
      set_gui (Gui (gui_windows g) (gui_window_count g) (taskbar_items g) (taskbar_count g) (active_window g) width height) d)
  else skip.

(** ** Clicks *)

Definition toggle_notifications : io desktop_t unit :=
  modify (fun d => set_center (Notifications.notification_center_toggle (center d)) d).
Definition toggle_control : io desktop_t unit :=
  modify (fun d => set_control (ControlCenter.control_center_toggle (control_visible d)) d).

Definition point_in_rect (x y rx ry rw rh : Z) : bool :=
  (rx <=? x) && (x <? rx + rw) && (ry <=? y) && (y <? ry + rh).

Section clicks.
(** The addresses of [task_stacks] and [task_entry_wrapper]. *)
Context (stacks_addr wrapper_addr : Z).

Definition launch (nm : string) : io desktop_t unit :=
  d ← gets id;
  '(_, l, st) ← lift (app_launch stacks_addr wrapper_addr (Some (chars nm)) (launcher d) (sched d));
  modify (set_apps l st).

Definition gui_handle_left_click (x y : Z) : io desktop_t unit :=
  g ← gets gui;
  let status_notif_x := screen_width g - 18 in
  let status_ctrl_x := screen_width g - 10 in
  let taskbar_y := screen_height g - 6 in
  if point_in_rect x y status_notif_x 0 3 1 then toggle_notifications
  else if point_in_rect x y status_ctrl_x 0 3 1 then toggle_control
  else if point_in_rect x y (screen_width g - 18) (taskbar_y + 1) 7 1 then toggle_notifications
  else if point_in_rect x y (screen_width g - 10) (taskbar_y + 1) 6 1 then toggle_control
  else if point_in_rect x y 6 (taskbar_y + 1) 7 1 then launch "Files"
  else if point_in_rect x y 14 (taskbar_y + 1) 6 1 then launch "Terminal"
  else if point_in_rect x y 21 (taskbar_y + 1) 6 1 then launch "Settings"
  else if point_in_rect x y 28 (taskbar_y + 1) 5 1 then launch "Web"
  else if point_in_rect x y 34 (taskbar_y + 1) 6 1 then launch "Edit"
  else if point_in_rect x y 2 2 7 1 then launch "Files"
  else if point_in_rect x y 2 4 7 1 then launch "Terminal"
  else if point_in_rect x y 2 6 7 1 then launch "Settings"
  else skip.

Definition gui_handle_right_click (x y : Z) : io desktop_t unit :=
  g ← gets gui;
  let status_notif_x := screen_width g - 18 in
  let status_ctrl_x := screen_width g - 10 in
  let taskbar_y := screen_height g - 6 in
  if (y =? 0) && (status_ctrl_x <=? x) && (x <? status_ctrl_x + 3) then toggle_control
  else if (y =? 0) && (status_notif_x <=? x) && (x <? status_notif_x + 3) then toggle_notifications
  else if (2 <=? x) && (x <=? 8) && (y =? 2) then launch "Files"
  else if (2 <=? x) && (x <=? 8) && (y =? 4) then launch "Terminal"
  else if (2 <=? x) && (x <=? 8) && (y =? 6) then launch "Settings"
  else if (screen_width g - 18 <=? x) && (x <? screen_width g - 11) && (y =? taskbar_y + 1) then toggle_notifications
  else if (screen_width g - 10 <=? x) && (x <? screen_width g - 4) && (y =? taskbar_y + 1) then toggle_control
  else paint (fun d => draw_context_menu (gui d) x y).

Definition gui_handle_mouse_click (x y : Z) (left right middle : bool) : io desktop_t unit :=
  (if left then gui_handle_left_click x y else skip) ≫= fun _ =>
  (if right then gui_handle_right_click x y else skip) ≫= fun _ =>
  (if middle then toggle_control else skip).
End clicks.

(** ** Drawing never fails

    [draws m]: on a screen of the right size [m] ends and leaves such a
    screen. *)
Definition draws (m : io text_t unit) : Prop := total screen_ok m (fun _ => screen_ok).

(** Coordinates and sizes whose sums stay in [int]. *)
Definition coord (v : Z) : Prop := - 2 ^ 30 < v < 2 ^ 30.
Definition rect_ok (x y w h : Z) : Prop := coord x /\ coord y /\ coord w /\ coord h.

Create HintDb draw.

Lemma draws_skip : draws skip.
Proof. by apply total_ret. Qed.

Lemma draws_write x y c color : draws (vga_write_char x y c color).
Proof. intros t Ht. destruct (write_char_ok t x y c color Ht) as (t' & E & (_ & _ & _ & Hok) & _). by exists tt, t'. Qed.

Lemma draws_bind m f : draws m -> (forall a, draws (f a)) -> draws (m ≫= f).
Proof. intros Hm Hf. by eapply total_bind. Qed.

Lemma draws_int_for from to body : (forall j, from <= j < to -> draws (body j)) -> draws (int_for from to body).
Proof.
  intros Hb. unfold int_for. apply (total_for (fun _ => screen_ok)). intros j Hj. apply Hb. lia.
Qed.

Lemma draws_lift {A} (o : option A) f : (exists a, o = Some a /\ draws (f a)) -> draws (lift o ≫= f).
Proof. intros (a & -> & Ha) t Ht. by apply Ha. Qed.

Lemma draws_int v f : is_int v -> draws (f v) -> draws (lift (int_of v) ≫= f).
Proof. intros Hv Hf. apply draws_lift. exists v. split; [by apply int_of_ok|done]. Qed.

Lemma draws_text text tx limit y color : draws (draw_text text tx limit y color).
Proof.
  revert tx. induction text as [|c text IH]; intros tx; [exact draws_skip|]. cbn [draw_text].
  case_cmp; [|exact draws_skip]. apply draws_bind; [apply draws_write|intros _; apply IH].
Qed.

#[export] Hint Resolve draws_skip draws_write draws_bind draws_text : draw.

(** Drawing code: sequences, loops, checked sums and cases. *)
Ltac draw :=
  repeat first
    [ progress intros
    | simple apply draws_write
    | simple apply draws_text
    | apply draws_bind
    | apply draws_int_for
    | apply draws_int; [unfold is_int, rect_ok, coord in *; lia|]
    | solve [auto with draw]
    | match goal with |- draws (if ?b then _ else _) => destruct b eqn:? end
    | match goal with |- draws (match ?t with Some _ => _ | None => _ end) => destruct t end ].

Section gui_drawing.
Context (g : gui_t) (Hw : 0 < screen_width g < 2 ^ 31) (Hh : 0 < screen_height g < 2 ^ 31).

Lemma draws_fill x y w h color : is_int (x + w) -> is_int (y + h) -> draws (fill_rect g x y w h color).
Proof using Type. unfold fill_rect. draw. Qed.

Lemma draws_panel x y w h t : is_int (x + w) -> is_int (y + h) -> draws (draw_panel g x y w h t).
Proof using All.
  unfold is_int. intros Hx Hy. unfold draw_panel, draw_horizontal, draw_vertical.
  destruct (_ || _) eqn:E; [apply draws_skip|]. do 2 (apply draws_int; [unfold is_int; lia|]).
  apply draws_bind; [|intros _; draw]. apply draws_fill; unfold is_int; repeat case_cmp; lia.
Qed.

Lemma draws_background : draws (draw_background g).
Proof using All.
  unfold draw_background. apply draws_int_for. intros y Hy. apply draws_lift.
  destruct (aget_in_range colors (y mod 4)) as [c Hc]; [simpl; lia|]. exists c. split; [done|]. draw.
Qed.

Lemma draws_status : draws (draw_status_bar g).
Proof using All. unfold draw_status_bar, draw_string. draw. Qed.

Lemma draws_icons : draws (draw_desktop_icons g).
Proof using Type. unfold draw_desktop_icons, draw_string. draw. Qed.

Lemma draws_menu x y : coord x -> coord y -> draws (draw_context_menu g x y).
Proof using Hw Hh.
  intros Hx Hy. unfold draw_context_menu, draw_horizontal, draw_vertical. unfold coord in *. cbv zeta.
  do 2 (apply draws_int; [unfold is_int; lia|]). do 8 (apply draws_bind; [draw|intros _]).
  apply draws_int_for. intros j Hj. apply draws_lift. destruct (aget_in_range options j) as [o Ho]; [simpl; lia|]. exists o. split; [done|]. draw.
Qed.

Lemma draws_taskbar : draws (draw_floating_taskbar g).
Proof using All.
  unfold draw_floating_taskbar, draw_string. cbv zeta. apply draws_bind; [|draw]. apply draws_panel; unfold is_int; lia.
Qed.
End gui_drawing.

(** ** Well-formed desktops *)

Record gui_ok (g : gui_t) : Prop := {
  gui_slots : length (gui_windows g) = 6%nat;
  gui_items : length (taskbar_items g) = 8%nat;
  gui_count : 0 <= gui_window_count g <= 6;
  gui_bar : taskbar_count g = gui_window_count g;
  gui_labels i w : gui_windows g !! i = Some w -> Z.of_nat i < gui_window_count g ->
    rect_ok (gx w) (gy w) (gwidth w) (gheight w) /\
    taskbar_items g !! i = Some (TaskbarItem (gtitle w) true (Z.of_nat i));
  gui_active : active_window g = if gui_window_count g =? 0 then -1 else 0;
  gui_width : 0 < screen_width g < 2 ^ 31;
  gui_height : 0 < screen_height g < 2 ^ 31
}.

Definition window_fits (w : window_t) : Prop := rect_ok (win_x w) (win_y w) (win_width w) (win_height w).

Record wm_ok (s : wm_t) : Prop := {
  wm_slots : length (windows s) = 8%nat;
  wm_count : 0 <= window_count s <= 8;
  wm_fit : Forall window_fits (windows s);
  wm_titles i w : windows s !! i = Some w -> Z.of_nat i < window_count s -> is_Some (title w)
}.

Definition notification_shown (n : Notifications.notification_t) : Prop :=
  Notifications.n_active n = true -> is_Some (Notifications.n_title n) /\ is_Some (Notifications.n_message n).

Record center_ok (c : Notifications.center_t) : Prop := {
  center_slots : length (Notifications.notifications c) = 16%nat;
  center_count : 0 <= Notifications.notification_count c <= 16;
  center_texts : Forall notification_shown (Notifications.notifications c)
}.

(** A post adds a notification as long as there is room. *)
Lemma notification_post_ok t m p c :
  center_ok c -> exists c', Notifications.notification_post (Some t) (Some m) p c = Some c' /\ center_ok c' /\
    Notifications.notification_count c' = Z.min 16 (Notifications.notification_count c + 1).
Proof.
  intros [Hl Hc Ht]. unfold Notifications.notification_post, Notifications.MAX_NOTIFICATIONS. case_cmp.
  - exists c. split; [done|]. split; [by split|lia].
  - rewrite aset_in_range by lia. eexists. split; [done|]. cbn [Notifications.notification_count]. split; [|lia].
    split; cbn [Notifications.notifications Notifications.notification_count]; [by rewrite length_insert|lia|].
    apply Forall_insert; [done|]. by split.
Qed.

Record desktop_ok (d : desktop_t) : Prop := {
  ok_gui : gui_ok (gui d);
  ok_wm : wm_ok (wm d);
  ok_center : center_ok (center d);
  ok_apps : apps_ok (launcher d);
  ok_sched : exists q, sched_wf (sched d) q;
  ok_screen : screen_ok (screen d)
}.

(** *** The components draw *)

Lemma draws_gui_windows g : gui_ok g -> draws (draw_gui_windows g).
Proof.
  intros Hg. pose proof (gui_slots _ Hg). pose proof (gui_count _ Hg). unfold draw_gui_windows. apply draws_int_for.
  intros i Hi. apply draws_lift. destruct (aget_in_range (gui_windows g) i ltac:(lia)) as [w Ew]. exists w. split; [done|].
  apply aget_lookup in Ew. destruct (gui_labels _ Hg _ _ Ew ltac:(lia)) as [(Hx & Hy & Hw & Hh) _].
  destruct (_ || _); [apply draws_skip|]. unfold coord in *. apply draws_panel; [apply Hg|apply Hg|unfold is_int; lia..].
Qed.

Lemma draws_window w : window_fits w -> draws (draw_window w).
Proof.
  unfold window_fits. intros Hr. pose proof Hr as (Hx & Hy & Hw & Hh). unfold draw_window.
  destruct (_ || _); [apply draws_skip|]. draw.
Qed.

Lemma draws_windows ws order :
  Forall window_fits ws -> Forall (fun x => 0 <= x < Z.of_nat (length ws)) order -> draws (draw_windows ws order).
Proof.
  intros Hws. induction 1 as [|x order Hx Ho IH]; [exact draws_skip|]. cbn [draw_windows]. apply draws_lift.
  destruct (aget_in_range ws x Hx) as [w Ew]. exists w. split; [done|]. apply draws_bind; [|done].
  apply draws_window. apply aget_lookup in Ew. by eapply Forall_lookup_1.
Qed.

Lemma draws_wm s : wm_ok s -> draws (window_manager_render s).
Proof.
  intros [Hl Hc Hf _]. destruct (sort_loop_ok (windows s) (Z.to_nat (window_count s)) ltac:(lia)) as (a & E & (_ & _ & Hr) & _).
  rewrite Z2Nat.id in E by lia. intros t Ht. unfold window_manager_render, sort_windows. rewrite E.
  apply (draws_windows (windows s) a); [done| |done]. eapply Forall_impl; [exact Hr|]. simpl. lia.
Qed.

Lemma draws_notifications c n i y :
  center_ok c -> 0 <= i -> i + Z.of_nat n <= 16 -> draws (Notifications.draw_notifications n i y c).
Proof.
  intros [Hl _ Ht]. revert i y. induction n as [|n IH]; intros i y Hi Hn; [exact draws_skip|].
  cbn [Notifications.draw_notifications]. case_cmp; [|exact draws_skip]. apply draws_lift.
  destruct (aget_in_range (Notifications.notifications c) i ltac:(lia)) as [x Ex]. exists x. split; [done|].
  apply aget_lookup in Ex. rewrite Forall_lookup in Ht. specialize (Ht _ _ Ex). unfold notification_shown in Ht.
  destruct (Notifications.n_active x); [|apply IH; lia]. destruct Ht as [[t Et] [m Em]]; [done|].
  apply draws_bind; [|intros _; apply IH; lia]. unfold Notifications.draw_notification. rewrite Et, Em. cbv zeta.
  draw; apply draws_lift; eexists; (split; [reflexivity|]); draw; apply draws_lift; eexists; (split; [reflexivity|]); draw.
Qed.

Lemma draws_center c : center_ok c -> draws (Notifications.notification_center_render c).
Proof.
  intros Hc. unfold Notifications.notification_center_render. destruct (negb _); [exact draws_skip|].
  pose proof (center_count _ Hc). apply draws_notifications; [done|lia..].
Qed.

Lemma draws_items l x y w h cy : draws (ControlCenter.draw_items l x y w h cy).
Proof. revert cy. induction l as [|item l IH]; intros cy; cbn [ControlCenter.draw_items]; draw. Qed.

Lemma draws_control b : draws (ControlCenter.control_center_render b).
Proof.
  unfold ControlCenter.control_center_render. destruct (negb b); [exact draws_skip|]. cbv zeta.
  do 7 (apply draws_bind; [draw|intros _]). apply draws_items.
Qed.

Lemma draws_launcher l : apps_ok l -> draws (app_launcher_render l).
Proof.
  intros Hl. pose proof (apps_slots _ Hl). pose proof (apps_count _ Hl). unfold app_launcher_render, draw_box.
  apply draws_bind; [draw|intros _]. apply draws_bind; [draw|intros _]. apply draws_int_for. intros i Hi. unfold draw_app.
  apply draws_lift. destruct (aget_in_range (app_registry l) i ltac:(lia)) as [a Ea]. exists a. split; [done|].
  apply aget_lookup in Ea. rewrite <- apps_lookup in Ea by lia. apply list_elem_of_lookup_2 in Ea.
  destruct (apps_named _ Hl _ Ea) as [[nm En] _]. apply draws_lift. exists nm. split; [done|]. draw.
Qed.

Lemma draws_clear : draws vga_clear_screen.
Proof. intros t Ht. destruct (clear_ok t Ht) as (t' & E & _ & _ & _ & Hok & _). by exists tt, t'. Qed.

(** *** The window manager *)

Definition wm_at (n : Z) (s : wm_t) : Prop := wm_ok s /\ window_count s = n.

Lemma total_get n i :
  0 <= i < 8 ->
  total (wm_at n) (get_window i) (fun w s => wm_at n s /\ window_fits w /\ (i < n -> is_Some (title w))).
Proof.
  intros Hi s [Hs Hn]. destruct Hs as [Hl Hc Hf Ht]. unfold get_window. rewrite bind_gets.
  destruct (aget_in_range (windows s) i ltac:(lia)) as [w Ew]. exists w, s. unfold lift. rewrite Ew.
  split; [done|]. split; [done|]. apply aget_lookup in Ew. split; [by eapply Forall_lookup_1|].
  intros Hin. apply (Ht _ _ Ew). lia.
Qed.

Lemma total_put n i w :
  0 <= i < 8 -> window_fits w -> (i < n -> is_Some (title w)) -> total (wm_at n) (put_window i w) (fun _ => wm_at n).
Proof.
  intros Hi Hw Htw s [Hs Hn]. destruct Hs as [Hl Hc Hf Ht]. unfold put_window. rewrite bind_gets.
  rewrite (bind_lift _ _ _ _ (aset_in_range (windows s) i w ltac:(lia))). exists tt. eexists. split; [done|].
  split; [|done]. split; cbn [set_windows windows window_count];
    [by rewrite length_insert|done|by apply Forall_insert|].
  intros j u [(<- & <- & _)|(Hne & Hu)]%list_lookup_insert_Some Hj; [apply Htw; lia|by apply (Ht j u)].
Qed.

Lemma total_shift n test d i j : 0 <= i < 8 -> 0 <= j < 8 -> total (wm_at n) (shift_z test d i j) (fun _ => wm_at n).
Proof.
  intros Hi Hj. unfold shift_z. eapply total_bind; [by apply total_get|]. intros wj s (Hs & Hwj & Htj).
  destruct (total_get n i Hi s Hs) as (wi & s1 & E & Hs1 & _). rewrite (bind_ok _ _ _ _ _ E).
  destruct (test _ _); [by apply (total_put n j)|by exists tt, s1].
Qed.

(** The log line about a window in use. *)
Lemma total_log n i : 0 <= i < n -> n <= 8 -> total (wm_at n) (log_title i) (fun _ => wm_at n).
Proof.
  intros Hi Hn. unfold log_title. eapply total_bind; [apply (total_get n); lia|]. intros w s (Hs & _ & Ht).
  exists tt, s. split; [|done]. apply log_string_ok, Ht. lia.
Qed.

Lemma found_range s i id :
  wm_ok s -> Z.of_nat <$> first_index (fun w => win_id w =? id) (take (Z.to_nat (window_count s)) (windows s)) = Some i ->
  0 <= i < window_count s.
Proof.
  intros [Hl Hc _ _] (k & (w & Hk & _)%first_index_Some & ->)%fmap_Some. apply lookup_lt_Some in Hk. rewrite length_take in Hk.
  lia.
Qed.

(** The shape of the operations on a window found by its id. *)
Lemma total_found id (f : Z -> io wm_t unit) n :
  (forall i, 0 <= i < n -> total (wm_at n) (f i) (fun _ => wm_at n)) -> 0 <= n <= 8 ->
  total (wm_at n) (r ← find_window id; match r with None => skip | Some i => f i end) (fun _ => wm_at n).
Proof.
  intros Hf Hn s [Hs En]. unfold find_window. rewrite bind_gets. cbn beta.
  destruct (Z.of_nat <$> first_index (fun w => win_id w =? id) (take (Z.to_nat (window_count s)) (windows s))) as [i|] eqn:E; [|by exists tt, s]. apply Hf; [|done]. rewrite <- En. by eapply found_range.
Qed.

Lemma wm_at_focus n i s : wm_at n s -> wm_at n (set_focused_window i s).
Proof. by intros [[? ? ? ?] ?]. Qed.

Lemma total_focus id n : 0 <= n <= 8 -> total (wm_at n) (window_manager_set_focus id) (fun _ => wm_at n).
Proof.
  intros Hn. apply total_found; [|done]. intros i Hi s Hs. rewrite bind_modify. apply (wm_at_focus n i) in Hs.
  destruct (total_get n i ltac:(lia) _ Hs) as (w & s1 & E & Hs1 & Hw & Ht). rewrite (bind_ok _ _ _ _ _ E), bind_gets.
  eapply total_bind; [apply (total_put n i); [lia|done|done]|intros []; by apply total_log; [|lia]|done].
Qed.

Lemma total_restack test d i n z :
  0 <= i < n -> n <= 8 ->
  total (wm_at n) (for_loop (Z.to_nat n) 0 (shift_z test d i) ≫= fun _ => w ← get_window i; put_window i (set_z z w))
    (fun _ => wm_at n).
Proof.
  intros Hi Hn. eapply total_bind; [apply (total_for (fun _ => wm_at n)); intros j Hj; apply total_shift; lia|].
  intros []. eapply total_bind; [apply (total_get n); lia|]. intros w s (Hs & Hw & Ht).
  by apply (total_put n i); [lia| | |].
Qed.

Lemma total_create x y w h t :
  rect_ok x y w h -> is_Some t -> total wm_ok (window_manager_create_window x y w h t) (fun _ => wm_ok).
Proof.
  intros Hr Ht s Hs. pose proof (wm_count _ Hs) as Hn. pose proof (conj Hs eq_refl : wm_at (window_count s) s) as Hat.
  unfold window_manager_create_window. rewrite bind_gets. unfold id, MAX_WINDOWS. case_cmp; [by exists tt, s|].
  set (v := Window _ _ _ _ _ _ _ _ _ _).
  destruct (total_put (window_count s) (window_count s) v ltac:(lia) Hr ltac:(intros; lia) s Hat) as ([] & s1 & E & [[Hl Hc Hf Htit] En]).
  rewrite (bind_ok _ _ _ _ _ E), bind_modify. exists tt. eexists. split; [by apply log_string_ok|].
  split; cbn [windows window_count]; [done|lia|done|]. intros i u Hu Hi. rewrite En in Hi.
  destruct (decide (i = Z.to_nat (window_count s))) as [->|Hne]; [|apply (Htit i u Hu); lia].
  revert E. unfold put_window. rewrite bind_gets.
  rewrite (bind_lift _ _ _ _ (aset_in_range (windows s) (window_count s) v ltac:(rewrite (wm_slots _ Hs); lia))).
  intros [= <-]. cbn [windows set_windows] in Hu. rewrite list_lookup_insert_eq in Hu by (rewrite (wm_slots _ Hs); lia).
  by injection Hu as <-.
Qed.

Lemma total_wm_step op :
  (forall x y w h t, op = Windows.Create x y w h t -> rect_ok x y w h /\ is_Some t) ->
  total wm_ok (wm_step op) (fun _ => wm_ok).
Proof.
  intros Hop. destruct op as [x y w h t|id|id]; cbn [wm_step].
  { destruct (Hop _ _ _ _ _ eq_refl). by apply total_create. }
  all: intros s Hs; pose proof (wm_count _ Hs) as Hn; pose proof (conj Hs eq_refl : wm_at (window_count s) s) as Hat.
  - destruct (total_found id (fun i =>
      n ← gets window_count; for_loop (Z.to_nat n) 0 (shift_z Z.gtb (-1) i) ≫= fun _ => w ← get_window i;
      put_window i (set_z (n - 1) w) ≫= fun _ => modify (set_focused_window i) ≫= fun _ => log_title i)
      (window_count s)) with (s := s) as ([] & s' & E & [Hs' _]); [|done|done|by exists tt, s'].
    intros i Hi s1 Hs1. rewrite bind_gets, (proj2 Hs1).
    destruct (total_restack Z.gtb (-1) i (window_count s) (window_count s - 1) Hi ltac:(lia) s1 Hs1) as ([] & s2 & E & Hs2).
    destruct (total_log (window_count s) i Hi ltac:(lia) (set_focused_window i s2)) as ([] & s3 & E3 & Hs3);
      [by apply wm_at_focus|].
    exists tt, s3. split; [|done]. revert E. unfold mbind at 1 2, io_bind at 1 2. unfold mbind at 1 2, io_bind at 1 2.
    destruct (for_loop _ _ _ _) as [[[] s4]| |]; [|done|done]. destruct (get_window i s4) as [[w s5]| |]; [|done|done].
    intros E. rewrite (bind_ok _ _ _ _ _ E), bind_modify. exact E3.
  - destruct (total_found id (fun i =>
      n ← gets window_count; for_loop (Z.to_nat n) 0 (shift_z Z.ltb 1 i) ≫= fun _ => w ← get_window i;
      put_window i (set_z 0 w) ≫= fun _ => log_title i)
      (window_count s)) with (s := s) as ([] & s' & E & [Hs' _]); [|done|done|by exists tt, s'].
    intros i Hi s1 Hs1. rewrite bind_gets, (proj2 Hs1).
    destruct (total_restack Z.ltb 1 i (window_count s) 0 Hi ltac:(lia) s1 Hs1) as ([] & s2 & E & Hs2).
    destruct (total_log (window_count s) i Hi ltac:(lia) s2 Hs2) as ([] & s3 & E3 & Hs3).
    exists tt, s3. split; [|done]. revert E. unfold mbind at 1 2, io_bind at 1 2. unfold mbind at 1 2, io_bind at 1 2.
    destruct (for_loop _ _ _ _) as [[[] s4]| |]; [|done|done]. destruct (get_window i s4) as [[w s5]| |]; [|done|done].
    intros E. rewrite (bind_ok _ _ _ _ _ E). exact E3.
Qed.

(** *** All operations *)

(** An operation of the window manager, as part of the desktop. *)
Definition on_wm (m : io wm_t unit) : io desktop_t unit :=
  fun d => match m (wm d) with
           | Ok (_, w) => Ok (tt, set_wm w d)
           | Undef => Undef
           | NoFuel => NoFuel
           end.

Definition post_notification (title message : option (list Z)) (priority : Z) : io desktop_t unit :=
  d ← gets id;
  c ← lift (Notifications.notification_post title message priority (center d));
  modify (set_center c).

Inductive desk_op :=
| Render
| Initialize
| Click (x y : Z) (left right middle : bool)
| OpenWindow (title : option (list Z)) (x y width height : Z)
| SetResolution (width height : Z)
| DrawIcon (x y : Z) (label : list Z)
| Notify (title message : list Z) (priority : Z)
| Manage (op : wm_op)
| Focus (id : Z).

(** The arguments are in the range of coordinates, and a window of the window
    manager has a title. *)
Definition op_ok (op : desk_op) : Prop :=
  match op with
  | Click x y _ _ _ => coord x /\ coord y
  | OpenWindow _ x y w h => rect_ok x y w h
  | SetResolution w h => w < 2 ^ 31 /\ h < 2 ^ 31
  | Manage (Windows.Create x y w h t) => rect_ok x y w h /\ is_Some t
  | _ => True
  end.

Section operations.
Context (stacks_addr wrapper_addr : Z).

Definition desk_step (op : desk_op) : io desktop_t unit :=
  match op with
  | Render => gui_render
  | Initialize => gui_initialize
  | Click x y l r m => gui_handle_mouse_click stacks_addr wrapper_addr x y l r m
  | OpenWindow t x y w h => gui_open_window t x y w h
  | SetResolution w h => gui_set_resolution w h
  | DrawIcon x y label => paint (fun d => gui_draw_icon (gui d) x y label)
  | Notify t m p => post_notification (Some t) (Some m) p
  | Manage op => on_wm (wm_step op)
  | Focus id => on_wm (window_manager_set_focus id)
  end.

Fixpoint desk_run (ops : list desk_op) : io desktop_t unit :=
  match ops with
  | [] => skip
  | op :: ops' => desk_step op ≫= fun _ => desk_run ops'
  end.

Definition keeps (m : io desktop_t unit) : Prop := total desktop_ok m (fun _ => desktop_ok).

Lemma keeps_paint m : (forall d, desktop_ok d -> draws (m d)) -> keeps (paint m).
Proof using Type.
  intros Hm d Hd. destruct (Hm d Hd (screen d) (ok_screen _ Hd)) as ([] & t & E & Ht). unfold paint. rewrite E.
  exists tt. eexists. split; [done|]. by destruct Hd.
Qed.

Lemma keeps_skip : keeps skip.
Proof using Type. by apply total_ret. Qed.

Lemma keeps_bind m f : keeps m -> (forall a, keeps (f a)) -> keeps (m ≫= f).
Proof using Type. intros Hm Hf. by eapply total_bind. Qed.

Lemma keeps_wm m : total wm_ok m (fun _ => wm_ok) -> keeps (on_wm m).
Proof using Type.
  intros Hm d Hd. destruct (Hm (wm d) (ok_wm _ Hd)) as ([] & w & E & Hw). unfold on_wm. rewrite E.
  exists tt. eexists. split; [done|]. by destruct Hd.
Qed.

Lemma keeps_render : keeps gui_render.
Proof using Type.
  apply keeps_paint. intros d [Hg Hw Hc Ha _ _]. destruct (gui_width _ Hg), (gui_height _ Hg).
  apply draws_bind; [by apply draws_background|intros _]. apply draws_bind; [by apply draws_status|intros _].
  apply draws_bind; [by apply draws_icons|intros _]. apply draws_bind; [by apply draws_gui_windows|intros _].
  apply draws_bind; [by apply draws_wm|intros _]. apply draws_bind; [by apply draws_taskbar|intros _].
  apply draws_bind; [by apply draws_center|intros _]. apply draws_bind; [by apply draws_control|intros _].
  by apply draws_launcher.
Qed.

Lemma keeps_launch nm : keeps (launch stacks_addr wrapper_addr nm).
Proof using Type.
  intros d Hd. destruct (ok_sched _ Hd) as [q Hq].
  destruct (launch_ok stacks_addr wrapper_addr (launcher d) (sched d) q (chars nm) (ok_apps _ Hd) Hq)
    as (r & l & st & q' & E & Hl & Hq' & _). unfold launch. rewrite bind_gets. unfold id. rewrite (bind_lift _ _ _ _ E).
  exists tt. eexists. split; [done|]. destruct Hd. split; try done. by exists q'.
Qed.

Lemma keeps_toggles : keeps toggle_notifications /\ keeps toggle_control.
Proof using Type.
  split; intros d Hd; exists tt; eexists; (split; [done|]); destruct Hd as [? ? [? ? ?] ? ? ?]; by split.
Qed.

Lemma keeps_gets {A} (f : desktop_t -> A) (m : A -> io desktop_t unit) : (forall a, keeps (m a)) -> keeps (a ← gets f; m a).
Proof using Type. intros Hm d Hd. by apply Hm. Qed.

Lemma keeps_click x y l r m : coord x -> coord y -> keeps (gui_handle_mouse_click stacks_addr wrapper_addr x y l r m).
Proof using Type.
  intros Hx Hy. pose proof keeps_toggles as [Hn Hc].
  apply keeps_bind; [|intros _; apply keeps_bind; [|intros _]].
  - destruct l; [|exact keeps_skip]. apply keeps_gets. intros g. cbv zeta.
    repeat (destruct (point_in_rect _ _ _ _ _ _); [done || apply keeps_launch|]). exact keeps_skip.
  - destruct r; [|exact keeps_skip]. apply keeps_gets. intros g. cbv zeta.
    repeat (destruct (_ && _ && _); [done || apply keeps_launch|]). apply keeps_paint. intros d Hd.
    destruct (gui_width _ (ok_gui _ Hd)), (gui_height _ (ok_gui _ Hd)). by apply draws_menu.
  - by destruct m; [|exact keeps_skip].
Qed.

Lemma keeps_open t x y w h : rect_ok x y w h -> keeps (gui_open_window t x y w h).
Proof using Type.
  intros Hr d Hd. pose proof (ok_gui _ Hd) as [Hl Hi Hc Hb Hlab Ha Hw Hh]. unfold gui_open_window, GUI_MAX_WINDOWS, GUI_MAX_TASKBAR.
  rewrite bind_gets. destruct (Z.leb_spec 6 (gui_window_count (gui d))); [by exists tt, d|]. rewrite (bind_lift _ _ _ _ (aset_in_range (gui_windows (gui d)) (gui_window_count (gui d)) (GuiWindow x y w h t true false) ltac:(lia))).
  rewrite Hb, (proj2 (Z.ltb_lt _ 8)) by lia.
  rewrite (bind_ok _ _ d (<[Z.to_nat (gui_window_count (gui d)) := TaskbarItem t true (gui_window_count (gui d))]> (taskbar_items (gui d)),
    gui_window_count (gui d) + 1) d); [|by rewrite (bind_lift _ _ _ _ (aset_in_range (taskbar_items (gui d)) (gui_window_count (gui d)) (TaskbarItem t true (gui_window_count (gui d))) ltac:(lia)))].
  exists tt. eexists. split; [done|]. cbn [fst snd]. destruct Hd as [_ ? ? ? ? ?]. split; try done. cbn [gui set_gui].
  split; cbn [gui_windows gui_window_count taskbar_items taskbar_count active_window screen_width screen_height]; rewrite ?length_insert;
    try done; [lia| |].
  - intros i u [(<- & <- & _)|(Hne & Hu)]%list_lookup_insert_Some Hlt.
    + cbn [gx gy gwidth gheight gtitle]. split; [done|]. rewrite list_lookup_insert_eq by lia. by rewrite Z2Nat.id by lia.
    + rewrite list_lookup_insert_ne by lia. apply Hlab; [done|lia].
  - rewrite Ha. destruct (Z.eqb_spec (gui_window_count (gui d)) 0), (Z.eqb_spec (gui_window_count (gui d) + 1) 0); cbn [Z.ltb Z.compare]; lia.
Qed.

Lemma keeps_step op : op_ok op -> keeps (desk_step op).
Proof using Type.
  destruct op as [ | |x y l r m|t x y w h|w h|x y label|t m p|op|id]; cbn [op_ok desk_step]; intros Hop.
  - exact keeps_render.
  - apply keeps_bind; [|intros _; apply keeps_paint; intros; exact draws_clear].
    intros d Hd. exists tt. eexists. split; [done|]. destruct Hd as [[Hl Hi Hc Hb Hlab Ha Hw Hh] ? ? ? ? ?]. split; try done.
    split; cbn [gui set_gui gui_windows gui_window_count taskbar_items taskbar_count active_window screen_width screen_height];
      done || lia || (intros; exfalso; lia).
  - destruct Hop. by apply keeps_click.
  - by apply keeps_open.
  - unfold gui_set_resolution. destruct (_ && _) eqn:E; [|exact keeps_skip]. intros d Hd. exists tt. eexists. split; [done|].
    destruct Hd as [[Hl Hi Hc Hb Hlab Ha Hw Hh] ? ? ? ? ?]. split; try done.
    split; cbn [gui set_gui gui_windows gui_window_count taskbar_items taskbar_count active_window screen_width screen_height];
      done || lia || (intros; exfalso; lia).
  - apply keeps_paint. intros d _. apply draws_text.
  - intros d Hd. unfold post_notification. rewrite bind_gets. unfold Datatypes.id.
    destruct (notification_post_ok t m p _ (ok_center _ Hd)) as (c & E & Hc & _). rewrite (bind_lift _ _ _ _ E).
    exists tt. eexists. split; [done|]. by destruct Hd.
  - apply keeps_wm, total_wm_step. by intros x y w h t ->.
  - apply keeps_wm. intros s Hs. destruct (total_focus id (window_count s) (wm_count _ Hs) s (conj Hs eq_refl))
      as ([] & s' & E & [Hs' _]). by exists tt, s'.
Qed.

(** C34: the desktop is well formed and drawing is safe.  From a well-formed
    desktop, any sequence of renderings, clicks, window openings, changes of
    resolution, icons, notifications and window manager operations, at
    coordinates and sizes below 2^30, runs to completion, provided that the
    windows of the window manager are created with a title: no access outside
    of an array, of the screen or through NULL (the texts that are drawn and
    those that are logged included), and no overflow of an [int].
    The result is well formed again: up to six windows each with its taskbar
    item, the first one active, positive screen sizes, notifications with
    texts, a registry whose running applications have identifiers, and a
    well-formed scheduler. *)
Theorem desktop_runs ops d :
  desktop_ok d -> Forall op_ok ops -> exists d', desk_run ops d = Ok (tt, d') /\ desktop_ok d'.
Proof using Type.
  intros Hd Hops. revert d Hd. induction Hops as [|op ops Hop Hops IH]; intros d Hd; [by exists d|].
  destruct (keeps_step op Hop d Hd) as ([] & d1 & E & Hd1). destruct (IH d1 Hd1) as (d' & E' & Hd').
  exists d'. split; [|done]. cbn [desk_run]. by rewrite (bind_ok _ _ _ _ _ E).
Qed.
End operations.

Definition blank_gui : gui_t :=
  Gui (replicate 6 (GuiWindow 0 0 0 0 None false false)) 0 (replicate 8 (TaskbarItem None false 0)) 0 (-1) 80 24.
Definition blank_center : Notifications.center_t :=
  Notifications.Center (replicate 16 (Notifications.Notification None None 0 0 false)) 0 2 false.
Definition started_launcher : launcher_t :=
  default empty_launcher (app_launcher_initialize 0x1000 0x2000 0x3000 empty_launcher).
Definition blank_desktop : desktop_t :=
  DesktopState blank_gui blank_wm blank_center false started_launcher two_tasks (Text 7 0 0 (replicate 2000 0)).

Lemma blank_desktop_ok : desktop_ok blank_desktop.
Proof.
  split; cbn [blank_desktop gui wm center launcher sched screen].
  - split; try done; intros; simpl in *; lia || (exfalso; lia).
  - split; [done|simpl; lia| |simpl; lia]. apply Forall_replicate. by split_and!.
  - split; [done|simpl; lia|]. by apply Forall_replicate.
  - destruct (initialize_apps 0x1000 0x2000 0x3000 empty_launcher eq_refl) as (l & E & Hl & _).
    unfold started_launcher. by rewrite E.
  - exists [0%nat; 1%nat]. exact (proj1 two_tasks_wf).
  - done.
Qed.

Lemma desktop_runs_witness :
  exists d', desk_run 0x300000 0x101000 [Initialize; OpenWindow (Some [65]) 70 20 100 100; Click 7 19 true false false;
    Notify [66] [67] 2; Click 63 0 true false true; Manage (Windows.Create 5 5 20 5 (Some [87])); Focus 1; Render] blank_desktop
    = Ok (tt, d') /\ desktop_ok d'.
Proof.
  apply (desktop_runs 0x300000 0x101000 [Initialize; OpenWindow (Some [65]) 70 20 100 100; Click 7 19 true false false;
    Notify [66] [67] 2; Click 63 0 true false true; Manage (Windows.Create 5 5 20 5 (Some [87])); Focus 1; Render] blank_desktop
    blank_desktop_ok).
  repeat (constructor; [cbn [op_ok]; unfold rect_ok, coord; split_and?; exact I || lia || by eexists|]). constructor.
Defined.

(** ** What is on the screen where one clicks *)

(** A text on the screen. *)
Definition reads (t : text_t) (x y : Z) (text : list Z) (color : Z) : Prop :=
  forall k c, text !! k = Some c -> shown t (x + Z.of_nat k) y = Some (u16 (cell c color)).

(** The text is written to its row from [tx] on, and nothing else changes. *)
Lemma draw_text_shown text tx limit y color t :
  screen_ok t -> 0 <= tx -> tx + Z.of_nat (length text) <= limit -> limit <= 80 -> 0 <= y < 25 ->
  exists t', draw_text text tx limit y color t = Ok (tt, t') /\ screen_ok t' /\ reads t' tx y text color /\
    (forall i j, on_screen i j -> (j <> y \/ i < tx) -> shown t' i j = shown t i j).
Proof.
  revert tx t. induction text as [|c text IH]; intros tx t Ht Htx Hl Hlim Hy; [by exists t|].
  cbn [draw_text length] in *. rewrite (proj2 (Z.ltb_lt _ _)) by lia.
  destruct (write_char_ok t tx y c color Ht) as (t1 & E1 & (_ & _ & _ & Ht1) & Hsh1). rewrite (bind_ok _ _ _ _ _ E1).
  destruct (IH (tx + 1) t1 Ht1 ltac:(lia) ltac:(lia) Hlim Hy) as (t' & E & Ht' & Hr & Hk). exists t'. split_and!; try done.
  - intros [|k] c' Hc'; simpl in Hc'.
    + simplify_eq. rewrite Z.add_0_r, Hk by (unfold on_screen; lia). rewrite Hsh1 by (unfold on_screen; lia).
      by rewrite !Z.eqb_refl.
    + replace (tx + Z.of_nat (S k)) with (tx + 1 + Z.of_nat k) by lia. by apply Hr.
  - intros i j Hij Hout. rewrite Hk, Hsh1 by (done || lia). destruct ((i =? tx) && (j =? y)) eqn:Eb; [lia|done].
Qed.

Lemma reads_kept t t' x y text color :
  reads t x y text color -> 0 <= x -> x + Z.of_nat (length text) <= 80 -> 0 <= y < 25 ->
  (forall i, 0 <= i < 80 -> shown t' i y = shown t i y) -> reads t' x y text color.
Proof.
  intros Hr Hx Hl Hy Hk k c Hc. pose proof (lookup_lt_Some _ _ _ Hc). rewrite Hk by lia. by apply Hr.
Qed.

(** One entry of the launcher. *)
Lemma draw_app_shown l i a nm t :
  screen_ok t -> apps l !! i = Some a -> app_name a = Some nm -> (length nm <= 24)%nat -> (i < 6)%nat ->
  exists t', draw_app l (Z.of_nat i) t = Ok (tt, t') /\ screen_ok t' /\ reads t' 6 (17 + Z.of_nat i) nm 0x0F /\
    (forall x y, on_screen x y -> y <> 17 + Z.of_nat i -> shown t' x y = shown t x y).
Proof.
  intros Ht Ha Hn Hl Hi. assert (Hlt : (i < Z.to_nat (app_count l))%nat).
  { apply lookup_lt_Some in Ha. unfold apps in Ha. rewrite length_take in Ha. lia. }
  unfold draw_app. rewrite (bind_lift _ _ _ a) by (rewrite aget_nonneg, Nat2Z.id, <- apps_lookup by lia; done).
  rewrite (bind_lift _ _ _ _ Hn). destruct (draw_text_shown nm 6 30 (17 + Z.of_nat i) 0x0F t) as (t' & E & Ht' & Hr & Hk);
    [done|lia..|]. exists t'. split_and!; try done. intros x y Hxy Hne. apply Hk; [done|by left].
Qed.

(** The launcher lists its three applications on the rows 17 to 19. *)
Lemma launcher_shown l t a0 a1 a2 n0 n1 n2 :
  screen_ok t -> apps_ok l -> apps l = [a0; a1; a2] -> app_name a0 = Some n0 -> app_name a1 = Some n1 -> app_name a2 = Some n2 ->
  (length n0 <= 24)%nat -> (length n1 <= 24)%nat -> (length n2 <= 24)%nat ->
  exists t', app_launcher_render l t = Ok (tt, t') /\ screen_ok t' /\
    reads t' 6 17 n0 0x0F /\ reads t' 6 18 n1 0x0F /\ reads t' 6 19 n2 0x0F.
Proof.
  intros Ht Hl Happs H0 H1 H2 L0 L1 L2.
  assert (Hcount : app_count l = 3).
  { pose proof (f_equal length Happs) as Hlen. unfold apps in Hlen. rewrite length_take in Hlen. simpl in Hlen.
    pose proof (apps_slots _ Hl). pose proof (apps_count _ Hl). lia. }
  unfold app_launcher_render. assert (Hbox : draws (draw_box 4 16 28 8)) by (unfold draw_box; draw).
  destruct (Hbox t Ht) as ([] & t1 & E1 & Ht1). rewrite (bind_ok _ _ _ _ _ E1).
  destruct (draws_text (chars "App Launcher") (4 + 2) (4 + 28 - 2) 16 0x1F t1 Ht1) as ([] & t2 & E2 & Ht2).
  rewrite (bind_ok _ _ _ _ _ E2), Hcount. change (int_for 0 (Z.min 3 (8 - 2)) (draw_app l)) with
    (draw_app l (Z.of_nat 0) ≫= fun _ => draw_app l (Z.of_nat 1) ≫= fun _ => draw_app l (Z.of_nat 2) ≫= fun _ => skip).
  destruct (draw_app_shown l 0 a0 n0 t2 Ht2) as (t3 & E3 & Ht3 & R3 & K3); [by rewrite Happs|done|done|lia|].
  rewrite (bind_ok _ _ _ _ _ E3).
  destruct (draw_app_shown l 1 a1 n1 t3 Ht3) as (t4 & E4 & Ht4 & R4 & K4); [by rewrite Happs|done|done|lia|].
  rewrite (bind_ok _ _ _ _ _ E4).
  destruct (draw_app_shown l 2 a2 n2 t4 Ht4) as (t5 & E5 & Ht5 & R5 & K5); [by rewrite Happs|done|done|lia|].
  rewrite (bind_ok _ _ _ _ _ E5). exists t5. split; [done|]. split; [done|]. split_and!.
  - apply (reads_kept t3); [exact R3|lia..|]. intros i Hi. rewrite K5, K4; done || (unfold on_screen; lia).
  - apply (reads_kept t4); [exact R4|lia..|]. intros i Hi. rewrite K5; done || (unfold on_screen; lia).
  - exact R5.
Qed.

(** What the launcher draws is what the desktop shows in the end. *)
Lemma render_ends_with d (Q : text_t -> Prop) :
  desktop_ok d -> total screen_ok (app_launcher_render (launcher d)) (fun _ => Q) ->
  exists d', gui_render d = Ok (tt, d') /\ Q (screen d') /\ gui d' = gui d.
Proof.
  intros Hd HQ. pose proof Hd as [Hg Hw Hc Ha _ Hs]. destruct (gui_width _ Hg), (gui_height _ Hg).
  match goal with |- context [gui_render d] => unfold gui_render, paint end.
  match goal with |- context [match ?m (screen d) with _ => _ end] => assert (H' : total screen_ok m (fun _ => Q)) end.
  { eapply total_bind; [by apply draws_background|intros []]. eapply total_bind; [by apply draws_status|intros []].
    eapply total_bind; [by apply draws_icons|intros []]. eapply total_bind; [by apply draws_gui_windows|intros []].
    eapply total_bind; [by apply draws_wm|intros []]. eapply total_bind; [by apply draws_taskbar|intros []].
    eapply total_bind; [by apply draws_center|intros []]. by eapply total_bind; [by apply draws_control|intros []]. }
  destruct (H' (screen d) Hs) as ([] & t & -> & Ht). by eexists.
Qed.

(** The launcher list hides the buttons of the taskbar.  On the 80 by 24
    screen with the three registered applications, the rendered desktop shows
    "Files" on row 17 and "Settings" on row 19, the row of the taskbar
    buttons; but a left click on the first seven letters of "Settings"
    launches "Files", and a left click on the name "Files" does nothing. *)
Theorem launcher_hides_taskbar sa wa d a0 a1 a2 :
  desktop_ok d -> screen_width (gui d) = 80 -> screen_height (gui d) = 24 ->
  apps (launcher d) = [a0; a1; a2] -> app_name a0 = Some (chars "Files") -> app_name a1 = Some (chars "Terminal") ->
  app_name a2 = Some (chars "Settings") ->
  exists d', gui_render d = Ok (tt, d') /\ reads (screen d') 6 17 (chars "Files") 0x0F /\
    reads (screen d') 6 19 (chars "Settings") 0x0F /\
    (forall x, 6 <= x < 13 -> gui_handle_left_click sa wa x 19 d' = launch sa wa "Files" d') /\
    (forall x, 6 <= x < 11 -> gui_handle_left_click sa wa x 17 d' = Ok (tt, d')).
Proof.
  intros Hd Hsw Hsh Happs H0 H1 H2.
  destruct (render_ends_with d (fun t => reads t 6 17 (chars "Files") 0x0F /\ reads t 6 19 (chars "Settings") 0x0F) Hd)
    as (d' & E & (R0 & R2) & Eg).
  { intros t Ht. destruct (launcher_shown (launcher d) t a0 a1 a2 _ _ _ Ht (ok_apps _ Hd) Happs H0 H1 H2)
      as (t' & E & _ & R0 & _ & R2); [vm_compute; lia..|]. by exists tt, t'. }
  exists d'. split; [done|]. split; [done|]. split; [done|].
  split; intros x Hx; unfold gui_handle_left_click; rewrite bind_gets, Eg, Hsw, Hsh; unfold point_in_rect.
  - change (24 - 6 + 1) with 19. change (19 <? 0 + 1) with false. change (80 - 18) with 62. change (80 - 10) with 70.
    rewrite !andb_false_r, (proj2 (Z.leb_gt 62 x)), (proj2 (Z.leb_gt 70 x)), (proj2 (Z.leb_le 6 x)), (proj2 (Z.ltb_lt x (6 + 7)))
      by lia. done.
  - change (24 - 6 + 1) with 19. change (17 <? 0 + 1) with false. change (19 <=? 17) with false.
    change (17 <? 2 + 1) with false. change (17 <? 4 + 1) with false. change (17 <? 6 + 1) with false.
    by rewrite !andb_false_r.
Qed.

Lemma launcher_hides_taskbar_witness :
  exists d', gui_render blank_desktop = Ok (tt, d') /\ shown (screen d') 6 19 = Some (83 + 256 * 15) /\
    gui_handle_left_click 0x300000 0x101000 6 19 d' = launch 0x300000 0x101000 "Files" d'.
Proof.
  destruct (launcher_hides_taskbar 0x300000 0x101000 blank_desktop (App (Some (chars "Files")) 0x1000 false 0)
    (App (Some (chars "Terminal")) 0x2000 false 0) (App (Some (chars "Settings")) 0x3000 false 0) blank_desktop_ok
    eq_refl eq_refl eq_refl eq_refl eq_refl eq_refl) as (d' & E & _ & R & Hc & _).
  exists d'. split; [exact E|]. split; [exact (R 0%nat 83 eq_refl)|]. apply Hc. lia.
Defined.
