(* ===== verification/Daemons.v ===== *)
(** * Passes of the services ([src/services.c])

    The invariants of what the service tasks work on, and that each pass of a
    service keeps them. *)

From S2P Require Import Prelude Io Sched Pci Fat32 Ring Input InputSafety Vga Windows Desktop Services FileOps Launcher Gui.

(** ** The spooler *)

(** Some messages wait, and of the first one some characters are printed. *)
Definition printer_ok (p : printer_t) : Prop :=
  exists ms k, waiting ms k p /\ match ms with [] => k = 0%nat | m :: _ => (k <= length m)%nat end.

Record spooler_ok (s : spooler_t) : Prop := {
  spool_printer : printer_ok (printer s);
  spool_speaker : speaker_ok (speaker s)
}.

Lemma print_pass_ok p : printer_ok p -> exists p', print_pass p = Some p' /\ printer_ok p'.
Proof.
  intros (ms & k & Hw & Hk). destruct ms as [|m ms].
  - subst k. exists p. split; [|by exists [], 0%nat]. pose proof Hw as [_ _ Hh _ Ht _ Hf Ho _ _]. unfold print_pass.
    rewrite Ht, Ho. simpl length. rewrite Z.add_0_r, Z.mod_small, Z.eqb_refl by lia. cbn [negb orb].
    destruct (print_queue_full p); [by destruct (Hf eq_refl)|done].
  - destruct (decide (k = length m)) as [->|Hne].
    + destruct (print_end m ms p Hw) as (p' & E & Hw' & _). exists p'. split; [done|]. exists ms, 0%nat. split; [done|].
      destruct ms; [done|lia].
    + destruct (lookup_lt_is_Some_2 m k ltac:(lia)) as [c Hc]. destruct (print_char m ms k c p Hw Hc) as (p' & E & Hw' & _).
      exists p'. split; [done|]. exists (m :: ms), (S k). split; [done|lia].
Qed.

Lemma spooler_pass_ok s : spooler_ok s -> exists s', audio_spooler_service s = Some s' /\ spooler_ok s'.
Proof.
  intros [Hp Ha]. destruct (audio_pass_ok _ Ha) as (a & Ea & Ha'), (print_pass_ok _ Hp) as (p & Ep & Hp').
  unfold audio_spooler_service. rewrite Ea. cbn [mbind option_bind]. rewrite Ep. eexists. split; [done|by split].
Qed.

(** The start of the services leaves a message and a tone. *)
Lemma services_spooler sa wa entries generic sv st sp sv' st' sp' :
  background_services_initialize sa wa entries generic sv st sp = Some (sv', st', sp') ->
  speaker_ok (speaker sp) -> speaker_ok (speaker sp').
Proof.
  intros E Ha. revert E. unfold background_services_initialize.
  destruct (start_services _ _ _ _ _ _ _ _) as [[sv1 st1]|]; [|done]. cbn [mbind option_bind].
  destruct (spool_print _ _) as [p|]; [|done]. cbn [mbind option_bind]. unfold spool_audio_tone.
  destruct (_ && _); [by intros [= _ _ <-]|]. destruct (aset (audio_queue (speaker sp)) _ _) as [q|] eqn:Eq; [|done].
  cbn [mbind option_bind]. intros [= _ _ <-]. destruct Ha as [Hl Hh]. split; cbn [speaker audio_queue audio_head]; [|done].
  revert Eq. unfold aset. destruct (_ && _); [|done]. intros [= <-]. by rewrite length_insert.
Qed.

(** ** The daemons *)

(** The variables of the services and, in [had], the locals of the input
    monitor; the notifications are those of the desktop. *)
Record daemons_t := Daemons { index_ready : bool; indexed : Z; snap : list Z; had : bool * bool }.

Definition daemon (c : Notifications.center_t) (d : daemons_t) : daemon_t := Daemon c (index_ready d) (indexed d) (snap d).

Record daemon_ok (d : daemon_t) : Prop := {
  daemon_center : center_ok (Services.center d);
  daemon_snap : length (clipboard_snapshot d) = 64%nat
}.

Lemma post_ok title message p d :
  daemon_ok d -> exists d', post title message p d = Some d' /\ daemon_ok d' /\ disk_index_ready d' = disk_index_ready d /\
    Notifications.notification_count (Services.center d') = Z.min 16 (Notifications.notification_count (Services.center d) + 1).
Proof.
  intros [Hc Hs]. unfold post. destruct (notification_post_ok (chars title) (chars message) p _ Hc) as (c & -> & Hc' & Hn).
  eexists. split; [done|]. split; [by split|done].
Qed.

(** Without a file system the indexer reports a failure on every pass. *)
Lemma indexer_pass_ok `{!BlockDevice} fuel junk fs d :
  root_dir_cluster fs = 0 -> daemon_ok d ->
  exists d', disk_indexer_service fuel junk fs d = Ok d' /\ daemon_ok d' /\ disk_index_ready d' = disk_index_ready d /\
    (disk_index_ready d = false -> Notifications.notification_count (Services.center d') =
       Z.min 16 (Notifications.notification_count (Services.center d) + 1)).
Proof.
  intros Hr Hd. unfold disk_indexer_service. destruct (disk_index_ready d) eqn:Er; [by exists d|]. cbn [negb].
  unfold fat32_enumerate_root. rewrite Hr. cbn [negb orb Z.ltb Z.compare].
  destruct (post_ok "Disk/File Indexer" "Indexing failed" 1 d Hd) as (d' & -> & Hd' & Hrd & Hn). exists d'. split_and!; try done.
  by rewrite Hrd, Er.
Qed.

Lemma maybe_post_ok (b : bool) title message p d :
  daemon_ok d -> exists d', (if b then post title message p d else Some d) = Some d' /\ daemon_ok d'.
Proof. intros Hd. destruct b; [|by exists d]. destruct (post_ok title message p d Hd) as (d' & ? & ? & _). by exists d'. Qed.

Lemma monitor_pass_ok {D} `{!InputDevice D} (dev : D) h u d :
  usb_ok u -> daemon_ok d ->
  exists d' u' h', input_monitor_service dev h u d = Some (d', u', h') /\ daemon_ok d' /\ usb_ok u'.
Proof.
  intros Hu Hd. unfold input_monitor_service. cbv zeta. pose proof (usb_poll_ok dev u Hu) as Hu'.
  destruct (maybe_post_ok (Usb.usb_has_keyboard (Usb.usb_poll dev u) && negb h.1) "Input Monitor" "USB keyboard detected" 0 d Hd)
    as (d1 & -> & Hd1). cbn [mbind option_bind].
  destruct (maybe_post_ok (Usb.usb_has_mouse (Usb.usb_poll dev u) && negb h.2) "Input Monitor" "USB mouse detected" 0 d1 Hd1)
    as (d2 & -> & Hd2). cbn [mbind option_bind]. by eexists _, _, _.
Qed.

Lemma snapshot_ok n i data s changed :
  0 <= i -> i + Z.of_nat n <= Z.of_nat (length data) -> i + Z.of_nat n <= Z.of_nat (length s) ->
  exists s' c, snapshot n i data s changed = Some (s', c) /\ length s' = length s.
Proof.
  revert i s changed. induction n as [|n IH]; intros i s changed Hi Hd Hs; [by exists s, changed|]. cbn [snapshot].
  destruct (aget_in_range data i ltac:(lia)) as [c ->], (aget_in_range s i ltac:(lia)) as [o ->]. cbn [mbind option_bind].
  rewrite (aset_in_range s i c) by lia. cbn [mbind option_bind]. cbv zeta.
  destruct (c =? 0); [eexists _, _; split; [done|]; by rewrite length_insert|].
  destruct (IH (i + 1) (<[Z.to_nat i := c]> s) (changed || negb (o =? c))) as (s' & b & E & Hl); rewrite ?length_insert; try lia.
  exists s', b. split; [done|]. by rewrite Hl, length_insert.
Qed.

Lemma clipboard_pass_ok cb d :
  length (Clipboard.clipboard_buffer cb) = 512%nat -> daemon_ok d ->
  exists d', clipboard_daemon_service cb d = Some d' /\ daemon_ok d'.
Proof.
  intros Hb Hd. unfold clipboard_daemon_service, Clipboard.clipboard_paste. destruct (_ =? 0); [by exists d|].
  destruct (snapshot_ok 63 0 (Clipboard.clipboard_buffer cb) (clipboard_snapshot d) false) as (s & c & -> & Hl);
    [lia|rewrite Hb; lia|rewrite (daemon_snap _ Hd); lia|]. cbn [mbind option_bind].
  apply maybe_post_ok. split; [apply Hd|]. cbn [clipboard_snapshot]. by rewrite Hl, (daemon_snap _ Hd).
Qed.

(** The generic service reads its own entry in the table of tasks. *)
Lemma generic_pass_ok st q : sched_wf st q -> is_Some (generic_background_service st).
Proof.
  intros Hq. unfold generic_background_service, get_current_task. destruct (current_task st) as [i|] eqn:Hc; [|by eexists].
  destruct (slot_in_table _ _ i Hq (wf_current _ _ Hq i Hc)) as [t ->]. by eexists.
Qed.
