(* ===== verification/Syscalls.v ===== *)
(** * System calls ([src/syscalls.c], [src/syscall_entry.asm])

    The dispatcher works on the scheduler and prints; what it prints is kept
    as the list of its calls of [kprintf], with format and arguments; where
    the format has a [%s], the string at the address is read up to its
    terminator.  A model-specific register holds two halves of 32 bits, as the processor
    presents it in EAX and EDX. *)

From stdpp Require Import strings functions.
From S2P Require Import Prelude Sched.

Definition SYS_GET_PID : Z := 5.
Definition SYS_SND_BEEP : Z := 3.
Definition SYS_KPRINTF : Z := 1.
Definition SYS_OPEN_FILE : Z := 2.
Definition SYS_EXIT : Z := 60.

Definition KERNEL_SPACE_START : Z := 0xFFFFFFFF80000000.

Record sys_t := Sys {
  sched : sched_t;
  msrs : Z -> Z * Z;
  printed : list (string * list Z)
}.

Definition set_sched (st : sched_t) (s : sys_t) : sys_t := Sys st (msrs s) (printed s).
Definition kprintf (fmt : string) (args : list Z) (s : sys_t) : sys_t :=
  Sys (sched s) (msrs s) (printed s ++ [(fmt, args)]).
Definition newline : string := String (Ascii.ascii_of_nat 10) EmptyString.
Definition KLOG (fmt : string) (args : list Z) (s : sys_t) : sys_t := kprintf ("[KERNEL] " +:+ fmt +:+ newline) args s.
Definition KERROR (fmt : string) (args : list Z) (s : sys_t) : sys_t := kprintf ("[ERROR] " +:+ fmt +:+ newline) args s.

(** The identifier of the running task. *)
Definition current_pid (s : sys_t) : option (option Z) :=
  match get_current_task (sched s) with
  | None => Some None
  | Some i => t ← task_table (sched s) !! i; Some (Some (pid t))
  end.

Section dispatcher.
(** The memory of the program that calls: the string at an address, without
    its terminator, or [None] when memory that is not mapped comes before a
    terminator. *)
Context (text : Z -> option (list Z)).

(** What [kprintf] reads for [%s]. *)
Definition string_at (a : Z) : option (list Z) := if a =? 0 then None else text a.

(** [None] is undefined behaviour. *)
Definition syscall_dispatcher (syscall_id arg1 arg2 arg3 : Z) (s : sys_t) : option (Z * sys_t) :=
  if (KERNEL_SPACE_START <=? arg1) || (KERNEL_SPACE_START <=? arg2) || (KERNEL_SPACE_START <=? arg3) then
    Some (u64 (-1), KERROR "Syscall: Illegal privilege violation (address in kernel space)" [] s)
  else if syscall_id =? SYS_GET_PID then
    p ← current_pid s;
    Some (default 0 p, s)
  else if syscall_id =? SYS_EXIT then
    p ← current_pid s;
    match p with
    | None => Some (0, s)
    | Some p =>
      let s := KLOG "Task PID %u exiting with code %u" [p; u32 arg1] s in
      st ← kill_task p (sched s);
      Some (0, set_sched st s)
    end
  else if syscall_id =? SYS_SND_BEEP then
    Some (0, KLOG "Beep requested: %u Hz for %u ms" [u16 arg1; u16 arg2] s)
  else if syscall_id =? SYS_KPRINTF then
    if arg1 =? 0 then Some (0, s)
    else
      _ ← kstrlen (string_at arg1);
      Some (0, kprintf ("[User] %s" +:+ newline) [arg1] s)
  else if syscall_id =? SYS_OPEN_FILE then
    _ ← kstrlen (string_at arg1);
    Some (0, KLOG "Open file syscall: '%s' (flags 0x%x)" [arg1; u32 arg2] s)
  else Some (u64 (-2), KERROR "Unknown syscall ID: %lu" [syscall_id] s).
End dispatcher.

(** ** Model-specific registers *)

Definition MSR_EFER : Z := 0xC0000080.
Definition MSR_STAR : Z := 0xC0000081.
Definition MSR_LSTAR : Z := 0xC0000082.
Definition MSR_SFMASK : Z := 0xC0000084.

Definition rdmsr (msr : Z) (s : sys_t) : Z :=
  let '(low, high) := msrs s msr in Z.lor (u64 (Z.shiftl high 32)) low.

Definition wrmsr (msr value : Z) (s : sys_t) : sys_t :=
  Sys (sched s) (<[msr := (u32 value, u32 (Z.shiftr value 32))]> (msrs s)) (printed s).

(** [entry] is the address of [syscall_entry]. *)
Definition enable_syscall_engine (entry : Z) (s : sys_t) : sys_t :=
  let efer := Z.lor (rdmsr MSR_EFER s) 1 in
  let s := wrmsr MSR_EFER efer s in
  let star := Z.lor (Z.lor 0 (Z.shiftl 0x08 32)) (Z.shiftl 0x18 48) in
  let s := wrmsr MSR_STAR star s in
  let s := wrmsr MSR_LSTAR entry s in
  let s := wrmsr MSR_SFMASK 0x200 s in
  KLOG "SYSCALL/SYSRET engine enabled" [] s.

Definition get_pid (s : sys_t) : option Z := p ← current_pid s; Some (default 0 p).
Definition get_ppid : Z := 0.

(** ** The entry point

    The registers of a program that executes SYSCALL; the processor has put
    the return address in RCX and the flags in R11. *)
Record regs_t := Regs {
  rax : Z; rdi : Z; rsi : Z; rdx : Z; rcx : Z; r11 : Z; reg_r12 : Z; reg_rsp : Z
}.

(** The [call] passes RDI, RSI, RDX and RCX; [after] is what the C function
    leaves in RCX and R11, which it need not preserve, and which [sysretq]
    takes as the address and flags to go on with. *)
Definition syscall_entry (text : Z -> option (list Z)) (after : Z * Z) (r : regs_t) (s : sys_t) :
    option (regs_t * sys_t) :=
  '(v, s) ← syscall_dispatcher text (rdi r) (rsi r) (rdx r) (rcx r) s;
  Some (Regs v (rdi r) (rsi r) (rdx r) after.1 after.2 (reg_rsp r) (reg_rsp r), s).

(** ** Theorems *)

(** A running task of a well-formed scheduler has the number of its slot,
    plus one, as its identifier. *)
Lemma current_pid_ok s q :
  sched_wf (sched s) q ->
  current_pid s = Some (option_map (fun i => Z.of_nat i + 1) (current_task (sched s))).
Proof.
  intros Hwf. unfold current_pid, get_current_task. destruct (current_task (sched s)) as [i|] eqn:Hc; [|done].
  pose proof (wf_current _ _ Hwf i Hc) as Hi. destruct (slot_in_table _ _ i Hwf Hi) as [t Ht]. rewrite Ht. simpl.
  by rewrite (wf_pids _ _ Hwf i t Ht (wf_slots _ _ Hwf i Hi)).
Qed.

Definition kernel_address (a : Z) : bool := KERNEL_SPACE_START <=? a.

(** The calls that read a string of the program: those that print, with an
    address, and open. *)
Definition reads_string (n a1 a2 a3 : Z) : bool :=
  negb (kernel_address a1 || kernel_address a2 || kernel_address a3) &&
  ((n =? 1) && negb (a1 =? 0) || (n =? 2)).

(** There is a string at the address. *)
Definition readable (text : Z -> option (list Z)) (a : Z) : bool :=
  negb (a =? 0) && match text a with Some _ => true | None => false end.

Definition call_defined (text : Z -> option (list Z)) (n a1 a2 a3 : Z) : bool :=
  negb (reads_string n a1 a2 a3) || readable text a1.

Section calls.
Context (text : Z -> option (list Z)) (s : sys_t) (q : list nat) (Hwf : sched_wf (sched s) q).

Lemma string_at_readable a : readable text a = true -> is_Some (string_at text a).
Proof using Type.
  unfold readable, string_at. destruct (a =? 0); [done|]. cbn [negb andb]. destruct (text a); [by eexists|done].
Qed.

Lemma string_at_unreadable a : readable text a = false -> string_at text a = None.
Proof using Type. unfold readable, string_at. destruct (a =? 0); [done|]. cbn [negb andb]. by destruct (text a). Qed.

(** What a call that is not exit does, as long as the string it reads is
    there. *)
Lemma dispatcher_plain n a1 a2 a3 :
  n <> SYS_EXIT ->
  if call_defined text n a1 a2 a3 then
    exists v s', syscall_dispatcher text n a1 a2 a3 s = Some (v, s') /\ msrs s' = msrs s /\ sched s' = sched s /\
      (n = SYS_GET_PID -> kernel_address a1 || kernel_address a2 || kernel_address a3 = false -> s' = s) /\
      v = if kernel_address a1 || kernel_address a2 || kernel_address a3 then 2 ^ 64 - 1
          else if n =? SYS_GET_PID then match current_task (sched s) with Some i => Z.of_nat i + 1 | None => 0 end
          else if (n =? SYS_SND_BEEP) || (n =? SYS_KPRINTF) || (n =? SYS_OPEN_FILE) then 0 else 2 ^ 64 - 2
  else syscall_dispatcher text n a1 a2 a3 s = None.
Proof using Hwf.
  intros Hne. unfold call_defined, reads_string, syscall_dispatcher.
  fold (kernel_address a1) (kernel_address a2) (kernel_address a3). rewrite (current_pid_ok s q Hwf).
  destruct (kernel_address a1 || kernel_address a2 || kernel_address a3); cbn [negb andb orb]; [by eexists _, _|].
  destruct (Z.eqb_spec n SYS_GET_PID) as [->|H5]; [by destruct (current_task (sched s)); eexists _, _|].
  destruct (Z.eqb_spec n SYS_EXIT); [done|].
  destruct (Z.eqb_spec n SYS_SND_BEEP) as [->|H3]; [by eexists _, _|].
  change 1 with SYS_KPRINTF. change 2 with SYS_OPEN_FILE.
  destruct (Z.eqb_spec n SYS_KPRINTF) as [->|H1]; cbn [orb andb].
  { change (SYS_KPRINTF =? SYS_OPEN_FILE) with false. rewrite orb_false_r.
    destruct (Z.eqb_spec a1 0); cbn [negb andb orb]; [by eexists _, _|].
    destruct (readable text a1) eqn:Hr.
    - apply string_at_readable in Hr as [t ->]. by eexists _, _.
    - by rewrite (string_at_unreadable _ Hr). }
  destruct (Z.eqb_spec n SYS_OPEN_FILE) as [->|H2]; cbn [orb andb negb]; [|by eexists _, _].
  destruct (readable text a1) eqn:Hr.
  - apply string_at_readable in Hr as [t ->]. by eexists _, _.
  - by rewrite (string_at_unreadable _ Hr).
Qed.

(** Exit takes the running task out of the queue. *)
Lemma dispatcher_exit a1 a2 a3 :
  exists v s', syscall_dispatcher text SYS_EXIT a1 a2 a3 s = Some (v, s') /\ msrs s' = msrs s /\
    if kernel_address a1 || kernel_address a2 || kernel_address a3 then v = 2 ^ 64 - 1 /\ sched s' = sched s
    else v = 0 /\
      match current_task (sched s) with
      | None => s' = s
      | Some i => exists q1 q2, q = q1 ++ i :: q2 /\ sched_wf (sched s') (q1 ++ q2) /\ current_task (sched s') = None
      end.
Proof using Hwf.
  unfold syscall_dispatcher. fold (kernel_address a1) (kernel_address a2) (kernel_address a3).
  rewrite (current_pid_ok s q Hwf). destruct (kernel_address a1 || _ || _); [by eexists _, _|].
  change (SYS_EXIT =? SYS_GET_PID) with false. change (SYS_EXIT =? SYS_EXIT) with true. cbv iota.
  destruct (current_task (sched s)) as [i|] eqn:Hc; cbn [mbind option_bind option_map]; [|by eexists _, _].
  pose proof (wf_current _ _ Hwf i Hc) as Hi. apply list_elem_of_split in Hi as (q1 & q2 & ->).
  destruct (kill_unlink _ _ _ _ Hwf) as (st' & Hk & Hwf' & _ & Hcur). cbn [sched KLOG kprintf]. rewrite Hk.
  cbn [mbind option_bind]. eexists _, _. split; [done|]. split; [done|]. split; [done|]. exists q1, q2.
  split_and!; [done|done|]. cbn [sched set_sched]. by rewrite Hcur, decide_True.
Qed.

(** Every call whose string is there returns, and leaves a well-formed
    scheduler; all but exit leave the scheduler alone. *)
Lemma dispatcher_wf n a1 a2 a3 :
  call_defined text n a1 a2 a3 = true ->
  exists v s' q', syscall_dispatcher text n a1 a2 a3 s = Some (v, s') /\ sched_wf (sched s') q' /\
    (n <> SYS_EXIT -> sched s' = sched s).
Proof using Hwf.
  intros Hd. destruct (decide (n = SYS_EXIT)) as [->|Hne].
  - destruct (dispatcher_exit a1 a2 a3) as (v & s' & E & _ & Hs).
    assert (exists q', sched_wf (sched s') q') as [q' Hq'].
    { destruct (_ || _); [destruct Hs as [_ ->]; by exists q|]. destruct Hs as [_ Hs].
      destruct (current_task (sched s)); [destruct Hs as (q1 & q2 & _ & Hq' & _); by exists (q1 ++ q2)|].
      subst s'. by exists q. }
    by exists v, s', q'.
  - pose proof (dispatcher_plain n a1 a2 a3 Hne) as H. rewrite Hd in H. destruct H as (v & s' & E & _ & Hs & _).
    exists v, s', q. by rewrite Hs.
Qed.
End calls.

(** C17: the dispatcher. From a well-formed scheduler a call is undefined
    exactly when it is a print with an address, or an open, none of its
    arguments is in kernel space, and no string can be read at its first
    argument (NULL included, for open). Every other call returns. An argument
    in kernel space is refused with -1 before anything else. Else the calls
    do what they say: the identifier is that of the running task, or zero;
    exit takes the running task, and it alone, out of the queue and leaves no
    task running; beep, print and open leave the scheduler alone and return
    zero; every other number is answered by -2. The scheduler stays
    well-formed and the model-specific registers are untouched. *)
Theorem syscall_dispatcher_spec text s q n a1 a2 a3 :
  sched_wf (sched s) q ->
  let refused := kernel_address a1 || kernel_address a2 || kernel_address a3 in
  if negb refused && ((n =? SYS_KPRINTF) && negb (a1 =? 0) || (n =? SYS_OPEN_FILE)) &&
     ((a1 =? 0) || match text a1 with Some _ => false | None => true end)
  then syscall_dispatcher text n a1 a2 a3 s = None
  else exists v s' q', syscall_dispatcher text n a1 a2 a3 s = Some (v, s') /\ msrs s' = msrs s /\ sched_wf (sched s') q' /\
    if refused then v = 2 ^ 64 - 1 /\ sched s' = sched s
    else if n =? SYS_GET_PID then
      v = match current_task (sched s) with Some i => Z.of_nat i + 1 | None => 0 end /\ s' = s
    else if n =? SYS_EXIT then
      v = 0 /\
      match current_task (sched s) with
      | None => s' = s
      | Some i => exists q1 q2, q = q1 ++ i :: q2 /\ q' = q1 ++ q2 /\ current_task (sched s') = None
      end
    else v = (if (n =? SYS_SND_BEEP) || (n =? SYS_KPRINTF) || (n =? SYS_OPEN_FILE) then 0 else 2 ^ 64 - 2) /\
      sched s' = sched s.
Proof.
  intros Hwf refused. destruct (decide (n = SYS_EXIT)) as [->|Hne].
  - change (SYS_EXIT =? SYS_KPRINTF) with false. change (SYS_EXIT =? SYS_OPEN_FILE) with false.
    rewrite andb_false_r. cbn [andb]. destruct (dispatcher_exit text s q Hwf a1 a2 a3) as (v & s' & E & Hm & Hs).
    exists v, s'. fold refused in Hs. destruct refused; [exists q; destruct Hs as [-> Hs]; by rewrite Hs|].
    change (SYS_EXIT =? SYS_GET_PID) with false. change (SYS_EXIT =? SYS_EXIT) with true. cbv iota in *.
    destruct Hs as [-> Hs]. destruct (current_task (sched s)) as [i|].
    + destruct Hs as (q1 & q2 & Hq & Hq' & Hc). exists (q1 ++ q2). split_and!; try done. by exists q1, q2.
    + subst s'. by exists q.
  - pose proof (dispatcher_plain text s q Hwf n a1 a2 a3 Hne) as H.
    assert (Hd : call_defined text n a1 a2 a3 = negb (negb refused && ((n =? SYS_KPRINTF) && negb (a1 =? 0) || (n =? SYS_OPEN_FILE)) &&
      ((a1 =? 0) || match text a1 with Some _ => false | None => true end))).
    { unfold call_defined, reads_string, readable. rewrite (negb_andb (negb refused && _)), (negb_orb (a1 =? 0)). by destruct (text a1). }
    rewrite Hd in H. destruct (_ && _ && _); cbn [negb] in H; [done|].
    destruct H as (v & s' & E & Hm & Hs & Hpid & Hv). exists v, s', q. fold refused in Hpid, Hv. rewrite Hs. split_and!; try done.
    destruct refused; [done|]. rewrite (proj2 (Z.eqb_neq n SYS_EXIT) Hne).
    destruct (Z.eqb_spec n SYS_GET_PID) as [->|]; [split; [done|by apply Hpid]|done].
Qed.

Definition two_task_system : sys_t := Sys two_tasks (fun _ => (0, 0)) [].

(** Exit, and open with a name at 0x400000 and without one. *)
Definition user_text (a : Z) : option (list Z) := if a =? 0x400000 then Some [97] else None.

Lemma syscall_dispatcher_spec_witness :
  (exists v s', syscall_dispatcher user_text SYS_EXIT 0 0 0 two_task_system = Some (v, s') /\
    sched_wf (sched s') [1%nat] /\ current_task (sched s') = None) /\
  (exists s', syscall_dispatcher user_text SYS_OPEN_FILE 0x400000 0 0 two_task_system = Some (0, s')) /\
  syscall_dispatcher user_text SYS_OPEN_FILE 0 0 0 two_task_system = None.
Proof.
  pose proof (syscall_dispatcher_spec user_text two_task_system [0%nat; 1%nat]) as H. split_and!.
  - destruct (H SYS_EXIT 0 0 0 (proj1 two_tasks_wf)) as (v & s' & q' & E & _ & Hwf & _ & q1 & q2 & Hq & -> & Hcur).
    exists v, s'. split; [exact E|]. split; [|exact Hcur].
    destruct q1 as [|x q1]; [injection Hq as <-; exact Hwf|].
    injection Hq as <- Hq. destruct q1; [discriminate Hq|]. injection Hq as _ Hq. by destruct q1.
  - destruct (H SYS_OPEN_FILE 0x400000 0 0 (proj1 two_tasks_wf)) as (v & s' & q' & E & _ & _ & -> & _). by exists s'.
  - exact (H SYS_OPEN_FILE 0 0 0 (proj1 two_tasks_wf)).
Defined.

(** The registers of the SYSCALL convention do not reach the dispatcher as
    intended. The entry point never reads RAX: the first argument is taken
    for the number of the call, the others move up by one, and the last is
    the return address. A program that asks to exit with a code other than 60
    goes on, and its task stays in the queue. *)
Theorem syscall_entry_misroutes text after r s q :
  sched_wf (sched s) q -> call_defined text (rdi r) (rsi r) (rdx r) (rcx r) = true ->
  exists r' s', syscall_entry text after r s = Some (r', s') /\
    syscall_dispatcher text (rdi r) (rsi r) (rdx r) (rcx r) s = Some (rax r', s') /\
    (forall id, syscall_entry text after (Regs id (rdi r) (rsi r) (rdx r) (rcx r) (r11 r) (reg_r12 r) (reg_rsp r)) s
      = Some (r', s')) /\
    (rax r = SYS_EXIT -> rdi r <> SYS_EXIT -> sched s' = sched s).
Proof.
  intros Hwf Hd. destruct (dispatcher_wf text s q Hwf (rdi r) (rsi r) (rdx r) (rcx r) Hd) as (v & s' & q' & E & _ & Hs).
  unfold syscall_entry. cbn [rdi rsi rdx rcx reg_rsp]. rewrite E. cbn [mbind option_bind].
  eexists _, s'. split_and!; [done|done|done|]. intros _ Hne. by apply Hs.
Qed.

(** Exit with code 5, as the convention wants it. *)
Lemma syscall_entry_misroutes_witness :
  exists r' s', syscall_entry user_text (0, 0) (Regs SYS_EXIT 5 0 0 0x400000 0x202 0 0x7FFF0000) two_task_system = Some (r', s') /\
    rax r' = 1 /\ sched s' = sched two_task_system.
Proof.
  destruct (syscall_entry_misroutes user_text (0, 0) (Regs SYS_EXIT 5 0 0 0x400000 0x202 0 0x7FFF0000) two_task_system
    [0%nat; 1%nat] (proj1 two_tasks_wf) eq_refl) as (r' & s' & E & Ed & _ & Hs).
  exists r', s'. split; [exact E|]. split; [|exact (Hs eq_refl ltac:(discriminate))].
  cbn in Ed. injection Ed as <- _. reflexivity.
Defined.

(** ** Writing and reading a register *)

Lemma wrmsr_rdmsr msr v s : 0 <= v < 2 ^ 64 -> rdmsr msr (wrmsr msr v s) = v.
Proof.
  intros Hv. unfold rdmsr, wrmsr. cbn [msrs]. rewrite fn_lookup_insert. unfold u32, u64.
  rewrite Z.shiftr_div_pow2 by lia. assert (0 <= v / 2 ^ 32 < 2 ^ 32).
  { split; [apply Z.div_pos; lia|]. apply Z.div_lt_upper_bound; [lia|]. change (2 ^ 32 * 2 ^ 32) with (2 ^ 64). lia. }
  rewrite (wrap_small 32 (v / 2 ^ 32)) by done.
  rewrite (wrap_small 64) by (rewrite Z.shiftl_mul_pow2 by lia; change (2 ^ 64) with (2 ^ 32 * 2 ^ 32); lia).
  rewrite lor_shiftl_add by (lia || (unfold wrap; apply Z.mod_pos_bound; lia)).
  unfold wrap. pose proof (Z.div_mod v (2 ^ 32)). lia.
Qed.
