(* ===== verification/Sync.v ===== *)
(** * Spin locks ([src/sync.c])

    A lock is the byte [locked]; NULL is [None].  [spin_lock] is split at its
    only atomic access, so that threads can be interleaved between the rounds
    of its loop. *)

From S2P Require Import Prelude.

Record spinlock_t := Lock { locked : Z }.

Definition spinlock_init (lock : option spinlock_t) : option spinlock_t :=
  match lock with None => None | Some _ => Some (Lock 0) end.

(** [__atomic_test_and_set]: the old value as a truth value, and the set lock. *)
Definition test_and_set (l : spinlock_t) : bool * spinlock_t := (negb (locked l =? 0), Lock 1).

(** One round of [spin_lock]; the result says whether the call returns. *)
Definition spin_lock_round (lock : option spinlock_t) : bool * option spinlock_t :=
  match lock with
  | None => (true, None)
  | Some l => let '(was_set, l) := test_and_set l in (negb was_set, Some l)
  end.

Definition spin_unlock (lock : option spinlock_t) : option spinlock_t :=
  match lock with None => None | Some _ => Some (Lock 0) end.

(** [spin_lock] with nobody else running; [None] when the rounds run out. *)
Fixpoint spin_lock (rounds : nat) (lock : option spinlock_t) : option (option spinlock_t) :=
  match rounds with
  | O => None
  | S rounds' => let '(returns, lock) := spin_lock_round lock in
      if (returns : bool) then Some lock else spin_lock rounds' lock
  end.

(** ** Threads

    Each thread calls [spin_lock], works, and calls [spin_unlock], for ever. *)
Inductive thread := Outside | Spinning | Inside.
Record world := World { the_lock : option spinlock_t; threads : list thread }.

(** The next step of thread [i]. *)
Definition thread_step (w : world) (i : nat) : world :=
  match threads w !! i with
  | None => w
  | Some Outside => World (the_lock w) (<[i := Spinning]> (threads w))
  | Some Spinning =>
    let '(returns, l) := spin_lock_round (the_lock w) in
    World l (<[i := if (returns : bool) then Inside else Spinning]> (threads w))
  | Some Inside => World (spin_unlock (the_lock w)) (<[i := Outside]> (threads w))
  end.

(** A schedule is the sequence of threads that take a step. *)
Definition run_schedule (schedule : list nat) (w : world) : world := foldl thread_step w schedule.

Definition inside (w : world) (i : nat) : Prop := threads w !! i = Some Inside.

Record exclusive (w : world) : Prop := {
  ex_one i j : inside w i -> inside w j -> i = j;
  ex_lock : exists l, the_lock w = Some l /\ (locked l <> 0 <-> exists i, inside w i)
}.

Lemma inside_insert w l i t j :
  (i < length (threads w))%nat ->
  inside (World l (<[i := t]> (threads w))) j <-> (if decide (j = i) then t = Inside else inside w j).
Proof.
  intros Hi. unfold inside. cbn [threads]. case_decide as Hji.
  - subst. rewrite list_lookup_insert_eq by done. naive_solver.
  - by rewrite list_lookup_insert_ne.
Qed.

(** Who is inside after a step that lets [i] neither in nor out. *)
Lemma exclusive_same w l i t :
  threads w !! i <> Some Inside -> t <> Inside -> (i < length (threads w))%nat ->
  exclusive w -> (exists l0, the_lock w = Some l0 /\ exists l1, l = Some l1 /\ (locked l1 <> 0 <-> locked l0 <> 0)) ->
  exclusive (World l (<[i := t]> (threads w))).
Proof.
  intros Hold Ht Hi [Hone (l' & El' & Hl')] (l0 & El0 & l1 & -> & Hl1). rewrite El' in El0. injection El0 as <-.
  assert (Hsame : forall j, inside (World (Some l1) (<[i := t]> (threads w))) j <-> inside w j).
  { intros j. rewrite inside_insert by done. case_decide; [subst; naive_solver|done]. }
  constructor; [intros a b; rewrite !Hsame; apply Hone|]. exists l1. split; [done|].
  rewrite Hl1, Hl'. by setoid_rewrite Hsame.
Qed.

Lemma exclusive_step w i : exclusive w -> exclusive (thread_step w i).
Proof.
  intros Hw. pose proof Hw as [Hone (l & El & Hl)]. unfold thread_step.
  destruct (threads w !! i) as [t|] eqn:Ht; [|done]. pose proof (lookup_lt_Some _ _ _ Ht) as Hi.
  destruct t; [apply exclusive_same; try done; [by rewrite Ht|exists l; by eauto]|..].
  - rewrite El. cbn [spin_lock_round test_and_set]. destruct (Z.eqb_spec (locked l) 0) as [H0|H0]; cbn [negb].
    + assert (Hno : forall j, ~ inside w j) by (intros j Hj; apply (proj2 Hl); eauto).
      constructor.
      * intros a b. rewrite !inside_insert by done. repeat case_decide; try congruence; intros; exfalso; by eapply Hno.
      * exists (Lock 1). split; [done|]. split; [|done]. intros _. exists i. apply inside_insert; [done|].
        by rewrite decide_True.
    + apply exclusive_same; try done; [by rewrite Ht|]. exists l. split; [done|]. exists (Lock 1). split; [done|simpl; lia].
  - rewrite El. cbn [spin_unlock]. constructor.
    + intros a b. rewrite !inside_insert by done. repeat case_decide; try done. apply Hone.
    + exists (Lock 0). split; [done|]. split; [done|]. intros [j Hj]. rewrite inside_insert in Hj by done.
      revert Hj. case_decide as Hji; [done|]. intros Hj. exfalso. apply Hji. by apply Hone.
Qed.

Lemma exclusive_run schedule w : exclusive w -> exclusive (run_schedule schedule w).
Proof. revert w. induction schedule as [|i sch IH]; intros w Hw; [done|]. apply IH. by apply exclusive_step. Qed.

Lemma exclusive_initial l n : exclusive (World (spinlock_init (Some l)) (replicate n Outside)).
Proof.
  assert (Hno : forall i, ~ inside (World (spinlock_init (Some l)) (replicate n Outside)) i).
  { intros i [Hi _]%lookup_replicate. done. }
  constructor; [intros i j Hi; by apply Hno in Hi|]. exists (Lock 0). split; [done|]. split; [done|].
  intros [i Hi]. by apply Hno in Hi.
Qed.

(** C18: mutual exclusion. Any number of threads that share a lock after
    [spinlock_init] run under any schedule: never are two threads between
    [spin_lock] and [spin_unlock], the lock is set exactly while one is, a
    thread that spins enters with its next round once the lock is free, and
    the one inside frees the lock with its next step. *)
Theorem spinlock_exclusion l n schedule :
  let w := run_schedule schedule (World (spinlock_init (Some l)) (replicate n Outside)) in
  (forall i j, inside w i -> inside w j -> i = j) /\
  (exists l', the_lock w = Some l' /\ (locked l' <> 0 <-> exists i, inside w i)) /\
  (forall i, threads w !! i = Some Spinning -> (forall j, ~ inside w j) -> inside (thread_step w i) i) /\
  (forall i, inside w i -> forall j, ~ inside (thread_step w i) j).
Proof.
  intros w. pose proof (exclusive_run schedule _ (exclusive_initial l n)) as Hw. fold w in Hw. clearbody w.
  pose proof Hw as [Hone (l' & El & Hl)]. split_and!; [done|by exists l'| |].
  - intros i Hi Hno. unfold thread_step. rewrite Hi, El. cbn [spin_lock_round test_and_set].
    destruct (Z.eqb_spec (locked l') 0) as [H0|H0]; cbn [negb].
    + apply inside_insert; [by eapply lookup_lt_Some|]. by rewrite decide_True.
    + apply Hl in H0 as [j Hj]. by apply Hno in Hj.
  - intros i Hi j Hj. pose proof (exclusive_step w i Hw) as Hw'. revert Hj Hw'. unfold thread_step. rewrite Hi, El.
    cbn [spin_unlock]. intros Hj [_ (l2 & [= <-] & Hl2)]. apply (proj2 Hl2); [by exists j|done].
Qed.

(** A thread that has to wait gets in after the other has left. *)
Example two_threads :
  let w := World (spinlock_init (Some (Lock 7))) (replicate 2 Outside) in
  threads (run_schedule [0; 1; 0; 1; 1]%nat w) = [Inside; Spinning] /\
  threads (run_schedule [0; 1; 0; 1; 1; 0; 1]%nat w) = [Outside; Inside].
Proof. done. Qed.
