(* ===== verification/Console.v ===== *)
(** * Serial line and kernel log ([src/serial.c], [kprintf] in [src/kernel.c])

    The port COM1 belongs to a device; the waiting loops of the driver take a
    bound on their rounds.  [kprintf] walks over the format in memory, so the
    format is the bytes with their terminator, and reading past it is
    undefined. *)

From S2P Require Import Prelude Io.

(** ** Serial port *)

Definition COM1_PORT : Z := 0x3F8.
Definition COM_DATA : Z := 0.
Definition COM_INT_EN : Z := 1.
Definition COM_INT_ID : Z := 2.
Definition COM_LINE_CTRL : Z := 3.
Definition COM_MODEM_CTRL : Z := 4.
Definition COM_LINE_STATUS : Z := 5.

Section serial.
Context {D : Type} `{!PortIO D}.

Definition serial_initialize : io D unit :=
  outb (COM1_PORT + COM_INT_EN) 0x00 ≫= fun _ =>
  outb (COM1_PORT + COM_LINE_CTRL) 0x80 ≫= fun _ =>
  outb (COM1_PORT + COM_DATA) 0x01 ≫= fun _ =>
  outb (COM1_PORT + COM_INT_EN) 0x00 ≫= fun _ =>
  outb (COM1_PORT + COM_LINE_CTRL) 0x03 ≫= fun _ =>
  outb (COM1_PORT + COM_INT_ID) 0xC7 ≫= fun _ =>
  outb (COM1_PORT + COM_MODEM_CTRL) 0x0B.

Definition serial_is_transmit_empty : io D bool :=
  v ← inb (COM1_PORT + COM_LINE_STATUS); mret (negb (Z.land v 0x20 =? 0)).

Definition serial_putchar (fuel : nat) (c : Z) : io D unit :=
  while_loop fuel (empty ← serial_is_transmit_empty; mret (negb empty)) ≫= fun _ =>
  outb (COM1_PORT + COM_DATA) (u8 c).

Definition serial_is_receive_full : io D bool :=
  v ← inb (COM1_PORT + COM_LINE_STATUS); mret (negb (Z.land v 1 =? 0)).

Definition serial_getchar (fuel : nat) : io D Z :=
  while_loop fuel (full ← serial_is_receive_full; mret (negb full)) ≫= fun _ =>
  c ← inb (COM1_PORT + COM_DATA);
  mret (s8 c).

(** ** The log *)

(** An argument: a number, or a string without its terminator; a NULL string
    is [None]. *)
Inductive arg := Num (v : Z) | Str (s : option (list Z)).

(** [written += n] on an [int]: the overflow of a signed sum is undefined. *)
Definition add_int (w n : Z) : option Z :=
  if (- 2 ^ 31 <=? w + n) && (w + n <? 2 ^ 31) then Some (w + n) else None.

(** One directive: the new count, and the arguments left.  The length of a
    string is a [size_t], so that sum is unsigned and its low half is kept. *)
Definition directive (c written : Z) (args : list arg) : option (Z * list arg) :=
  let number n := match args with Num _ :: args' => w ← add_int written n; Some (w, args') | _ => None end in
  if c =? 100 then number 10
  else if (c =? 120) || (c =? 88) then number 16
  else if c =? 115 then
    match args with Str s :: args' => n ← kstrlen s; Some (s32 (written + n), args') | _ => None end
  else if c =? 112 then number 18
  else if c =? 117 then number 20
  else if c =? 37 then w ← add_int written 1; Some (w, args)
  else Some (written, args).

(** [n] bounds the characters of the format that are looked at, [fuel] the
    wait before each character; [i] is the position in the format. *)
Fixpoint kprintf_loop (n fuel : nat) (fmt : list Z) (i written : Z) (args : list arg) : io D Z :=
  match n with
  | O => fun _ => NoFuel
  | S n' =>
    c ← lift (aget fmt i);
    if c =? 0 then mret written
    else if c =? 37 then
      d ← lift (aget fmt (i + 1));
      r ← lift (directive d written args);
      kprintf_loop n' fuel fmt (i + 2) r.1 r.2
    else
      serial_putchar fuel c ≫= fun _ =>
      w ← lift (add_int written 1);
      kprintf_loop n' fuel fmt (i + 1) w args
  end.

Definition kprintf (fuel : nat) (fmt : list Z) (args : list arg) : io D Z :=
  kprintf_loop (S (length fmt)) fuel fmt 0 0 args.
End serial.

(** ** What reaches the line

    A device that is ready to send: it keeps the bytes that were sent. *)
Class Transmitter (D : Type) `{!PortIO D} := {
  sent : D -> list Z;
  line_status d : exists v d', inb 0x3FD d = Ok (v, d') /\ Z.land v 0x20 <> 0 /\ sent d' = sent d;
  line_data v d : exists d', outb 0x3F8 v d = Ok (tt, d') /\ sent d' = sent d ++ [u8 v]
}.

Section log.
Context {D : Type} `{Transmitter D}.

Lemma putchar_ok fuel c (d : D) : exists d', serial_putchar (S fuel) c d = Ok (tt, d') /\ sent d' = sent d ++ [u8 c].
Proof.
  destruct (line_status d) as (v & d1 & E1 & Hv & Hs1). destruct (line_data (u8 c) d1) as (d2 & E2 & Hs2).
  exists d2. split; [|rewrite Hs2, Hs1, (u8_small (u8 c)) by apply u8_range; done].
  assert (Ee : serial_is_transmit_empty d = Ok (true, d1)).
  { unfold serial_is_transmit_empty. rewrite (bind_ok _ _ _ _ _ E1). by rewrite (proj2 (Z.eqb_neq _ _) Hv). }
  unfold serial_putchar. erewrite bind_ok; [exact E2|]. cbn [while_loop].
  erewrite bind_ok; [|by rewrite (bind_ok _ _ _ _ _ Ee)]. done.
Qed.

(** The pieces of a format: a character to print, a directive with its
    argument, [%%], or a percent sign before any other character. *)
Inductive item :=
| FLit (c : Z)
| FDec (v : Z)
| FHex (upper : bool) (v : Z)
| FText (s : list Z)
| FPtr (v : Z)
| FUns (v : Z)
| FPercent
| FOther (c : Z).

Definition item_ok (it : item) : Prop :=
  match it with
  | FLit c => c <> 0 /\ c <> 37
  | FOther c => c ∉ [0; 100; 120; 88; 115; 112; 117; 37]
  | _ => True
  end.

(** The characters of the format, [%d] for a [FDec]. *)
Definition encode (it : item) : list Z :=
  match it with
  | FLit c => [c]
  | FDec _ => [37; 100]
  | FHex upper _ => [37; if upper then 88 else 120]
  | FText _ => [37; 115]
  | FPtr _ => [37; 112]
  | FUns _ => [37; 117]
  | FPercent => [37; 37]
  | FOther c => [37; c]
  end.

Definition args_of (it : item) : list arg :=
  match it with
  | FDec v | FHex _ v | FPtr v | FUns v => [Num v]
  | FText s => [Str (Some s)]
  | FLit _ | FPercent | FOther _ => []
  end.

Definition literals (it : item) : list Z := match it with FLit c => [u8 c] | _ => [] end.

(** What the piece adds to the result. *)
Definition counted (it : item) : Z :=
  match it with
  | FLit _ | FPercent => 1
  | FDec _ => 10
  | FHex _ _ => 16
  | FText s => Z.of_nat (length s)
  | FPtr _ => 18
  | FUns _ => 20
  | FOther _ => 0
  end.

Definition counted_all (items : list item) : Z := foldr (fun it n => counted it + n) 0 items.

Definition format (items : list item) : list Z := mjoin (encode <$> items) ++ [0].

Lemma counted_nonneg it : 0 <= counted it.
Proof. destruct it; simpl; lia. Qed.

Lemma counted_all_nonneg items : 0 <= counted_all items.
Proof. induction items as [|it items IH]; simpl; [done|]. pose proof (counted_nonneg it). lia. Qed.

Lemma add_int_ok w n : 0 <= w -> 0 <= n -> w + n < 2 ^ 31 -> add_int w n = Some (w + n).
Proof. intros Hw Hn Hs. unfold add_int. rewrite (proj2 (Z.leb_le _ _)), (proj2 (Z.ltb_lt _ _)) by lia. done. Qed.

(** A directive does what its piece says. *)
Lemma directive_ok it c w rest :
  encode it = [37; c] -> item_ok it -> 0 <= w -> w + counted it < 2 ^ 31 ->
  c <> 0 /\ directive c w (args_of it ++ rest) = Some (w + counted it, rest).
Proof.
  intros Henc Hok Hw Hs. destruct it as [|v|[] v|s|v|v| |c']; [discriminate Henc|injection Henc as <-..]; cbn [args_of app counted] in *.
  all: try (split; [done|]; unfold directive; cbn; by rewrite add_int_ok by lia).
  - split; [done|]. unfold directive. cbn. rewrite s32_small by lia. done.
  - cbn [item_ok] in Hok. rewrite !not_elem_of_cons in Hok. destruct Hok as (H0 & H1 & H2 & H3 & H4 & H5 & H6 & H7 & _).
    split; [done|]. unfold directive. rewrite (proj2 (Z.eqb_neq _ _) H1), (proj2 (Z.eqb_neq _ _) H2), (proj2 (Z.eqb_neq _ _) H3),
      (proj2 (Z.eqb_neq _ _) H4), (proj2 (Z.eqb_neq _ _) H5), (proj2 (Z.eqb_neq _ _) H6), (proj2 (Z.eqb_neq _ _) H7).
    cbn. by rewrite Z.add_0_r.
Qed.

Lemma encode_shape it : (exists c, it = FLit c) \/ exists c, encode it = [37; c] /\ literals it = [].
Proof. destruct it; [by left; eauto|right; eexists; split; reflexivity..]. Qed.

(** The walk over the items [items] at the end of the format. *)
Lemma kprintf_loop_ok items n fuel pre w rest d :
  Forall item_ok items -> (length items < n)%nat -> 0 <= w -> w + counted_all items < 2 ^ 31 ->
  exists d', kprintf_loop n (S fuel) (pre ++ format items) (Z.of_nat (length pre)) w (mjoin (args_of <$> items) ++ rest) d
      = Ok (w + counted_all items, d') /\
    sent d' = sent d ++ mjoin (literals <$> items).
Proof.
  revert n pre w d. induction items as [|it items IH]; intros [|n] pre w d Hok Hn Hw Ht; simpl in Hn; try lia.
  - exists d. cbn [kprintf_loop]. rewrite (bind_lift _ _ _ 0)
      by (rewrite aget_nonneg, Nat2Z.id by lia; by apply list_lookup_middle).
    split; [by rewrite Z.add_0_r|]. simpl. by rewrite app_nil_r.
  - apply Forall_cons in Hok as [Hit Hok]. cbn [kprintf_loop].
    change (counted_all (it :: items)) with (counted it + counted_all items) in *.
    pose proof (counted_nonneg it) as Hci. pose proof (counted_all_nonneg items) as Hti. rewrite Z.add_assoc in *.
    assert (Hget : forall k, aget (pre ++ format (it :: items)) (Z.of_nat (length pre) + Z.of_nat k)
      = (encode it ++ format items) !! k).
    { intros k. rewrite aget_nonneg by lia. replace (Z.to_nat _) with (length pre + k)%nat by lia.
      rewrite lookup_app_r by lia. unfold format. cbn [fmap list_fmap mjoin list_join]. rewrite <- app_assoc. f_equal. lia. }
    assert (Hsplit : pre ++ format (it :: items) = (pre ++ encode it) ++ format items)
      by (unfold format; cbn [fmap list_fmap mjoin list_join]; by rewrite <- !app_assoc).
    pose proof (Hget 0%nat) as H0. rewrite Z.add_0_r in H0.
    destruct (encode_shape it) as [[c ->]|(c & Henc & Hlit)]; [cbn [encode] in *|rewrite Henc in *].
    + destruct Hit as [Hc0 Hc37]. rewrite (bind_lift _ _ _ _ H0).
      rewrite (proj2 (Z.eqb_neq _ _) Hc0), (proj2 (Z.eqb_neq _ _) Hc37).
      destruct (putchar_ok fuel c d) as (d1 & E1 & Hs1). rewrite (bind_ok _ _ _ _ _ E1), Hsplit.
      cbn [counted] in *. rewrite (bind_lift _ _ _ _ (add_int_ok w 1 Hw ltac:(lia) ltac:(lia))).
      destruct (IH n (pre ++ [c]) (w + 1) d1 Hok ltac:(lia) ltac:(lia) Ht) as (d' & E & Hs). exists d'.
      rewrite length_app, Nat2Z.inj_add in E. split; [exact E|]. by rewrite Hs, Hs1, <- app_assoc.
    + destruct (directive_ok it c w (mjoin (args_of <$> items) ++ rest) Henc Hit Hw ltac:(lia)) as [Hc0 Hdir].
      rewrite (bind_lift _ _ _ _ H0). change (37 =? 0) with false. change (37 =? 37) with true. cbv iota.
      pose proof (Hget 1%nat) as H1. change (Z.of_nat 1) with 1 in H1. rewrite (bind_lift _ _ _ _ H1).
      cbn [fmap list_fmap mjoin list_join]. rewrite <- app_assoc.
      rewrite (bind_lift _ _ _ _ Hdir). cbn [fst snd]. rewrite Hsplit.
      destruct (IH n (pre ++ [37; c]) (w + counted it) d Hok ltac:(lia) ltac:(lia) Ht) as (d' & E & Hs). exists d'.
      rewrite length_app, Nat2Z.inj_add in E. split; [exact E|]. by rewrite Hs, Hlit.
Qed.
End log.

(** C32: what the log prints. On a line that is ready, for every format made of
    characters and directives whose arguments are there (more arguments may
    follow), [kprintf] ends and sends exactly the characters between the
    directives, percent signs not included: no argument is ever printed, nor
    the percent sign of [%%]. A character and [%%] count for one, [%d] for 10,
    [%x] and [%X] for 16, [%p] for 18, [%u] for 20, [%s] for the length of the
    string, and a percent sign before any other character for nothing; as long
    as the total fits an [int], it is the result. *)
Theorem kprintf_prints_literals {D} `{Transmitter D} fuel items rest (d : D) :
  Forall item_ok items -> counted_all items < 2 ^ 31 ->
  exists d', kprintf (S fuel) (format items) (mjoin (args_of <$> items) ++ rest) d = Ok (counted_all items, d') /\
    sent d' = sent d ++ mjoin (literals <$> items).
Proof.
  intros Hok Ht. assert (Hlen : (length items <= length (mjoin (encode <$> items)))%nat).
  { clear Ht. induction items as [|it items IH]; [done|]. apply Forall_cons in Hok as [_ Hok]. specialize (IH Hok).
    change (mjoin (encode <$> (it :: items))) with (encode it ++ mjoin (encode <$> items)). rewrite length_app. destruct it; cbn [encode length]; lia. }
  destruct (kprintf_loop_ok items (S (length (format items))) fuel [] 0 rest d Hok) as (d' & E & Hs).
  { unfold format. rewrite length_app. simpl. lia. }
  { lia. } { done. }
  exists d'. split; [exact E|exact Hs].
Qed.

(** A line that is always ready. *)
Record uart := Uart { line : list Z }.
#[export] Instance uart_ports : PortIO uart := {|
  port_in _ _ d := (0x20, d);
  port_out _ _ v d := Uart (line d ++ [v])
|}.
#[export, refine] Instance uart_transmitter : Transmitter uart := {| sent := line |}.
Proof.
  - intros d. by exists 0x20, d.
  - intros v d. by eexists.
Defined.

(** [a%d%%%s%q%pb] *)
Lemma kprintf_prints_literals_witness :
  exists d', kprintf 1 [97; 37; 100; 37; 37; 37; 115; 37; 113; 37; 112; 98; 0] [Num 42; Str (Some [88; 89]); Num 7; Num 8] (Uart [])
      = Ok (33, d') /\ sent d' = [97; 98].
Proof.
  assert (Hok : Forall item_ok [FLit 97; FDec 42; FPercent; FText [88; 89]; FOther 113; FPtr 7; FLit 98]).
  { repeat constructor; try done. simpl. rewrite !not_elem_of_cons. repeat split; try discriminate. by intros ?%elem_of_nil. }
  destruct (kprintf_prints_literals 0 _ [Num 8] (Uart []) Hok) as (d' & E & Hs); [reflexivity|].
  exists d'. split; [exact E|exact Hs].
Defined.

(** A format that ends in a single [%] is read past its terminator. *)
Lemma kprintf_trailing_percent {D} `{Transmitter D} fuel (d : D) : kprintf (S fuel) [37; 0] [] d = Undef.
Proof. reflexivity. Qed.
