(* ===== verification/Interrupts.v ===== *)
(** * Interrupts ([src/interrupts.c])

    The descriptor table with its gates, the programming of the interrupt
    controllers and of the timer, and the dispatch to handlers.  The
    processor takes the address of a handler from the three parts of a gate;
    the addresses of the assembly stubs are given by the linker. *)

From S2P Require Import Prelude Io.

Definition PIC1_COMMAND : Z := 0x20.
Definition PIC1_DATA : Z := 0x21.
Definition PIC2_COMMAND : Z := 0xA0.
Definition PIC2_DATA : Z := 0xA1.
Definition PIC_EOI : Z := 0x20.
Definition IDT_GATES : Z := 256.

Record idt_entry_t := Gate {
  offset_low : Z; selector : Z; ist : Z; type_attr : Z; offset_mid : Z; offset_high : Z; zero : Z
}.

Record idt_ptr_t := IdtPtr { limit : Z; base : Z }.

(** The words that the stubs push, from the lowest address up. *)
Record isr_frame_t := Frame {
  f_r15 : Z; f_r14 : Z; f_r13 : Z; f_r12 : Z; f_r11 : Z; f_r10 : Z; f_r9 : Z; f_r8 : Z;
  f_rbp : Z; f_rdi : Z; f_rsi : Z; f_rdx : Z; f_rcx : Z; f_rbx : Z; f_rax : Z;
  interrupt_number : Z; error_code : Z
}.

(** [loaded] is the register that LIDT sets, [enabled] the interrupt flag; a
    handler is the address of a function, NULL is [None]. *)
Record int_t (D : Type) := Int {
  idt : list idt_entry_t;
  idt_ptr : idt_ptr_t;
  interrupt_handlers : list (option Z);
  loaded : idt_ptr_t;
  enabled : bool;
  chips : D
}.
Arguments Int {D}. Arguments idt {D}. Arguments idt_ptr {D}. Arguments interrupt_handlers {D}. Arguments loaded {D}.
Arguments enabled {D}. Arguments chips {D}.

Section interrupts.
Context {D : Type} `{!PortIO D}.
Implicit Types st : int_t D.

Definition set_idt (l : list idt_entry_t) st : int_t D :=
  Int l (idt_ptr st) (interrupt_handlers st) (loaded st) (enabled st) (chips st).
Definition set_handlers (l : list (option Z)) st : int_t D :=
  Int (idt st) (idt_ptr st) l (loaded st) (enabled st) (chips st).
Definition set_chips (d : D) st : int_t D :=
  Int (idt st) (idt_ptr st) (interrupt_handlers st) (loaded st) (enabled st) d.
Definition set_enabled (b : bool) st : int_t D :=
  Int (idt st) (idt_ptr st) (interrupt_handlers st) (loaded st) b (chips st).

Definition on_chips {A} (m : io D A) : io (int_t D) A :=
  fun st => match m (chips st) with
            | Ok (a, d) => Ok (a, set_chips d st)
            | Undef => Undef
            | NoFuel => NoFuel
            end.

(** The gate for a handler at address [handler]. *)
Definition gate_of (handler : Z) : idt_entry_t :=
  Gate (Z.land handler 0xFFFF) 0x08 0 0x8E (Z.land (Z.shiftr handler 16) 0xFFFF)
    (Z.land (Z.shiftr handler 32) 0xFFFFFFFF) 0.

Definition set_idt_gate (vector handler : Z) : io (int_t D) unit :=
  l ← gets idt;
  l ← lift (aset l vector (gate_of handler));
  modify (set_idt l).

Definition pic_remap : io D unit :=
  outb PIC1_COMMAND 0x11 ≫= fun _ =>
  outb PIC2_COMMAND 0x11 ≫= fun _ =>
  outb PIC1_DATA 0x20 ≫= fun _ =>
  outb PIC2_DATA 0x28 ≫= fun _ =>
  outb PIC1_DATA 0x04 ≫= fun _ =>
  outb PIC2_DATA 0x02 ≫= fun _ =>
  outb PIC1_DATA 0x01 ≫= fun _ =>
  outb PIC2_DATA 0x01 ≫= fun _ =>
  outb PIC1_DATA 0x00 ≫= fun _ =>
  outb PIC2_DATA 0x00.

Definition pic_send_eoi (irq : Z) : io D unit :=
  (if 8 <=? irq then outb PIC2_COMMAND PIC_EOI else skip) ≫= fun _ =>
  outb PIC1_COMMAND PIC_EOI.

(** The address of the table, and of the stub [isr<v>] or [irq<v>] of vector
    [v]; [call] runs the function at an address. *)
Context (idt_addr : Z) (stub : Z -> Z) (call : Z -> io (int_t D) unit).

(** [set_idt_gate(i, 0); interrupt_handlers[i] = NULL;] *)
Definition clear_vector (i : Z) : io (int_t D) unit :=
  set_idt_gate i 0 ≫= fun _ =>
  h ← gets interrupt_handlers;
  h ← lift (aset h i None);
  modify (set_handlers h).

Definition idt_initialize : io (int_t D) unit :=
  for_loop (Z.to_nat IDT_GATES) 0 clear_vector ≫= fun _ =>
  on_chips pic_remap ≫= fun _ =>
  for_loop 21 0 (fun v => set_idt_gate v (stub v)) ≫= fun _ =>
  for_loop 16 32 (fun v => set_idt_gate v (stub v)) ≫= fun _ =>
  modify (fun st =>
    let p := IdtPtr (u16 (16 * IDT_GATES - 1)) idt_addr in
    Int (idt st) p (interrupt_handlers st) p (enabled st) (chips st)).

Definition set_interrupt_handler (irq : Z) (handler : option Z) : io (int_t D) unit :=
  if (irq <? 0) || (IDT_GATES <=? irq) then skip
  else
    h ← gets interrupt_handlers;
    h ← lift (aset h irq handler);
    modify (set_handlers h).

(** Division by zero is undefined. *)
Definition pit_initialize (frequency : Z) : io (int_t D) unit :=
  if frequency =? 0 then fun _ => Undef
  else
    let divisor := u16 (1193180 / frequency) in
    on_chips (
      outb 0x43 0x36 ≫= fun _ =>
      outb 0x40 (u8 (Z.land divisor 0xFF)) ≫= fun _ =>
      outb 0x40 (u8 (Z.land (Z.shiftr divisor 8) 0xFF))).

Definition enable_interrupts : io (int_t D) unit := modify (set_enabled true).
Definition disable_interrupts : io (int_t D) unit := modify (set_enabled false).

(** The message about an unhandled interrupt is left out. *)
Definition isr_handler (frame : isr_frame_t) : io (int_t D) unit :=
  let irq := u32 (interrupt_number frame) in
  h ← gets interrupt_handlers;
  handler ← lift (aget h irq);
  let run := match handler with Some f => call f | None => skip end in
  if (32 <=? irq) && (irq <? 48) then
    run ≫= fun _ => on_chips (pic_send_eoi (irq - 32))
  else run.
End interrupts.

(** ** The gates as the processor reads them *)

Definition gate_offset (g : idt_entry_t) : Z :=
  Z.lor (Z.lor (offset_low g) (Z.shiftl (offset_mid g) 16)) (Z.shiftl (offset_high g) 32).
Definition gate_present (g : idt_entry_t) : bool := bit_test (type_attr g) 7.

Lemma gate_of_offset a : 0 <= a < 2 ^ 64 -> gate_offset (gate_of a) = a.
Proof.
  intros Ha. unfold gate_offset, gate_of. cbn [offset_low offset_mid offset_high].
  change 0xFFFF with (Z.ones 16). change 0xFFFFFFFF with (Z.ones 32). apply Z.bits_inj'. intros i Hi.
  rewrite !Z.lor_spec, !Z.shiftl_spec by done. rewrite Z.land_spec, Z.testbit_ones_nonneg by lia.
  destruct (Z.ltb_spec i 16); [rewrite !(Z.testbit_neg_r _ (i - _)) by lia; by rewrite andb_true_r, !orb_false_r|].
  rewrite andb_false_r, orb_false_l, Z.land_spec, Z.shiftr_spec by lia. replace (i - 16 + 16) with i by lia.
  rewrite Z.testbit_ones_nonneg by lia. destruct (Z.ltb_spec (i - 16) 16).
  - by rewrite (Z.testbit_neg_r _ (i - 32)), andb_true_r, orb_false_r by lia.
  - rewrite andb_false_r, orb_false_l, Z.land_spec, Z.shiftr_spec by lia. replace (i - 32 + 32) with i by lia.
    rewrite Z.testbit_ones_nonneg by lia. destruct (Z.ltb_spec (i - 32) 32); [by rewrite andb_true_r|].
    rewrite andb_false_r. symmetry. destruct (decide (a = 0)) as [->|]; [apply Z.bits_0|].
    apply Z.bits_above_log2; [lia|]. apply (Z.lt_le_trans _ 64); [|lia]. apply Z.log2_lt_pow2; lia.
Qed.

Section table.
Context {D : Type} `{!PortIO D}.
Implicit Types st : int_t D.

(** The gates of [st], as a function of the vector, with the handlers and the
    rest unchanged. *)
Definition table_is (gate : Z -> idt_entry_t) st : Prop :=
  length (idt st) = 256%nat /\ length (interrupt_handlers st) = 256%nat /\
  forall v, 0 <= v < 256 -> aget (idt st) v = Some (gate v).

Lemma set_gate_ok (Q : int_t D -> Prop) gate v h :
  0 <= v < 256 -> (forall st l, Q st -> Q (set_idt l st)) ->
  total (fun st => table_is gate st /\ Q st) (set_idt_gate v h)
    (fun _ st => table_is (fun w => if w =? v then gate_of h else gate w) st /\ Q st).
Proof.
  intros Hv HQ st [(Hl & Hh & Hg) Hq]. unfold set_idt_gate. rewrite bind_gets.
  rewrite (bind_lift _ _ _ _ (aset_in_range (idt st) v (gate_of h) ltac:(lia))). eexists _, _. split; [done|].
  split; [|by apply HQ]. split_and!; cbn [idt set_idt interrupt_handlers]; [by rewrite length_insert|done|].
  intros w Hw. rewrite aget_insert by lia. case_cmp; [done|by apply Hg].
Qed.

(** Gates [from] to [from + n - 1] set to the stubs. *)
Lemma set_gates_ok (stub : Z -> Z) (Q : int_t D -> Prop) gate n from :
  0 <= from -> from + Z.of_nat n <= 256 -> (forall st l, Q st -> Q (set_idt l st)) ->
  total (fun st => table_is gate st /\ Q st) (for_loop n from (fun v => set_idt_gate v (stub v)))
    (fun _ st => table_is (fun w => if (from <=? w) && (w <? from + Z.of_nat n) then gate_of (stub w) else gate w) st /\ Q st).
Proof.
  intros Hf Hn HQ. eapply total_weaken;
    [apply (total_for (fun k st => table_is (fun w => if (from <=? w) && (w <? k) then gate_of (stub w) else gate w) st /\ Q st))
    | | ].
  - intros k Hk. eapply total_weaken; [apply (set_gate_ok Q (fun w => if (from <=? w) && (w <? k) then gate_of (stub w) else gate w) k (stub k)); [lia|done]|done|].
    intros [] st [(Hl & Hh & Hg) Hq]. split; [|done]. split_and!; [done|done|]. intros w Hw. rewrite Hg by done.
    repeat case_cmp; cbn [andb]; try lia; try done. by subst.
  - intros st [(Hl & Hh & Hg) Hq]. split; [|done]. split_and!; [done|done|]. intros w Hw. rewrite Hg by done.
    repeat case_cmp; cbn [andb]; done || lia.
  - done.
Qed.

Definition no_handlers (k : Z) st : Prop := forall v, 0 <= v < k -> aget (interrupt_handlers st) v = Some None.

Lemma clear_vectors_ok st :
  length (idt st) = 256%nat -> length (interrupt_handlers st) = 256%nat ->
  exists st', for_loop 256 0 clear_vector st = Ok (tt, st') /\ table_is (fun _ => gate_of 0) st' /\ no_handlers 256 st'.
Proof.
  intros Hl Hh.
  destruct (total_for (fun k (st : int_t D) => length (idt st) = 256%nat /\ length (interrupt_handlers st) = 256%nat /\
      (forall v, 0 <= v < k -> aget (idt st) v = Some (gate_of 0)) /\ no_handlers k st) 256 0 clear_vector)
    with (s := st) as ([] & st' & E & Hl' & Hh' & Hg & Hn).
  - intros k Hk s (Hl1 & Hh1 & Hg1 & Hn1). unfold clear_vector, set_idt_gate.
    exists tt. eexists. split.
    { unfold mbind at 1, io_bind at 1. rewrite bind_gets.
      rewrite (bind_lift _ _ _ _ (aset_in_range (idt s) k (gate_of 0) ltac:(lia))).
      cbn [modify]. rewrite bind_gets. cbn [interrupt_handlers set_idt].
      by rewrite (bind_lift _ _ _ _ (aset_in_range (interrupt_handlers s) k None ltac:(lia))). }
    cbn [idt interrupt_handlers set_idt set_handlers]. rewrite !length_insert. split_and!; [done|done| |].
    + intros v Hv. rewrite aget_insert by lia. case_cmp; [done|]. apply Hg1. lia.
    + intros v Hv. cbn [interrupt_handlers set_handlers]. rewrite aget_insert by lia. case_cmp; [done|]. apply Hn1. lia.
  - split_and!; [done|done|lia|]. unfold no_handlers. lia.
  - exists st'. split; [done|]. split; [split_and!; done|done].
Qed.

Lemma on_chips_ok {A} (m : io D A) st :
  defined m -> exists a d, on_chips m st = Ok (a, set_chips d st).
Proof. intros Hm. destruct (Hm (chips st)) as (a & d & E). exists a, d. unfold on_chips. by rewrite E. Qed.

Lemma pic_remap_defined : defined (pic_remap (D := D)).
Proof. repeat (apply defined_bind; [apply out_defined|intros _]). apply out_defined. Qed.
End table.

(** The descriptor table. After [idt_initialize] the table is loaded, no
    handler is installed, and each of the 256 gates is a present interrupt
    gate of the kernel code segment. The processor reassembles from the parts
    of gate [v] exactly the 64-bit address of its stub, for the exceptions 0
    to 20 and the interrupts 32 to 47; all other gates lead to address 0,
    although they are marked present. *)
Theorem idt_gates_decode {D} `{!PortIO D} idt_addr (stub : Z -> Z) (st : int_t D) :
  length (idt st) = 256%nat -> length (interrupt_handlers st) = 256%nat -> (forall v, 0 <= stub v < 2 ^ 64) ->
  exists st', idt_initialize idt_addr stub st = Ok (tt, st') /\ loaded st' = IdtPtr 4095 idt_addr /\
    (forall v, 0 <= v < 256 -> aget (interrupt_handlers st') v = Some None) /\
    forall v, 0 <= v < 256 -> exists g, aget (idt st') v = Some g /\ gate_present g = true /\ selector g = 8 /\
      gate_offset g = if (v <=? 20) || ((32 <=? v) && (v <=? 47)) then stub v else 0.
Proof.
  intros Hl Hh Hstub. destruct (clear_vectors_ok st Hl Hh) as (st1 & E1 & Ht1 & Hn1). unfold idt_initialize.
  change (Z.to_nat IDT_GATES) with 256%nat. rewrite (bind_ok _ _ _ _ _ E1).
  destruct (on_chips_ok pic_remap st1 pic_remap_defined) as (a & d & E2). rewrite (bind_ok _ _ _ _ _ E2).
  destruct (set_gates_ok stub (no_handlers 256) (fun _ => gate_of 0) 21 0 ltac:(lia) ltac:(lia) ltac:(done) (set_chips d st1))
    as ([] & st3 & E3 & H3); [by split|]. rewrite (bind_ok _ _ _ _ _ E3).
  destruct (set_gates_ok stub (no_handlers 256) _ 16 32 ltac:(lia) ltac:(lia) ltac:(done) st3 H3)
    as ([] & st4 & E4 & (_ & _ & Hg) & Hn4). rewrite (bind_ok _ _ _ _ _ E4).
  eexists. split; [done|]. split; [done|]. split; [exact Hn4|]. intros v Hv. cbn [idt]. rewrite (Hg v Hv).
  eexists. split; [done|]. simpl (Z.of_nat _). repeat case_cmp; cbn [andb orb]; try lia;
    (split; [done|]; split; [done|]; apply gate_of_offset; done || lia).
Qed.

Definition cold_chips : int_t trace_device :=
  Int (replicate 256 (Gate 0 0 0 0 0 0 0)) (IdtPtr 0 0) (replicate 256 None) (IdtPtr 0 0) false
    (Trace (fun _ _ => 0) []).

Lemma idt_gates_decode_witness :
  exists st', idt_initialize 0x120000 (fun v => 0xFFFFFFFF80100000 + 16 * (v mod 256)) cold_chips = Ok (tt, st') /\
    exists g g', aget (idt st') 33 = Some g /\ gate_offset g = 0xFFFFFFFF80100210 /\
      aget (idt st') 128 = Some g' /\ gate_present g' = true /\ gate_offset g' = 0.
Proof.
  assert (Hs : forall v, 0 <= 0xFFFFFFFF80100000 + 16 * (v mod 256) < 2 ^ 64).
  { intros v. pose proof (Z.mod_pos_bound v 256 ltac:(lia)). change (2 ^ 64) with 18446744073709551616. lia. }
  destruct (idt_gates_decode 0x120000 (fun v => 0xFFFFFFFF80100000 + 16 * (v mod 256)) cold_chips eq_refl eq_refl Hs)
    as (st' & E & _ & _ & Hg). exists st'. split; [exact E|].
  destruct (Hg 33 ltac:(lia)) as (g & H1 & _ & _ & H2). destruct (Hg 128 ltac:(lia)) as (g' & H3 & H4 & _ & H5).
  exists g, g'. split_and!; done.
Defined.
