(* ===== verification/Stubs.v ===== *)
(** * Interrupt stubs ([src/isr_stubs.asm])

    What the processor and the assembly code do around [isr_handler]: the
    processor finds the gate of the vector and pushes where it was, a stub
    pushes the number, [common_isr] pushes the registers and calls the C code,
    and everything is popped again.  The instructions are data with an
    execution function.  Memory is a function from the addresses of 64-bit
    words, registers are a function from their names. *)

From stdpp Require Import functions.
From S2P Require Import Prelude Io Interrupts.

Inductive reg := RAX | RBX | RCX | RDX | RSI | RDI | RBP | R8 | R9 | R10 | R11 | R12 | R13 | R14 | R15 | RSP.

#[export] Instance reg_eq_dec : EqDecision reg.
Proof. solve_decision. Defined.

Record machine_t := Machine {
  regs : reg -> Z; rip : Z; rflags : Z; cs : Z; ss : Z; memory : Z -> Z
}.

(** The instructions of the stubs, and how a block of them ends. *)
Inductive instr :=
| PushI (v : Z)
| Push (r : reg)
| Pop (r : reg)
| Mov (d s : reg)
| AddI (r : reg) (v : Z)
| Call_isr_handler.

Inductive branch := Jmp_common_isr | Iretq.

Definition block : Type := list instr * branch.

Definition isr_noerrcode (n : Z) : block := ([PushI 0; PushI n], Jmp_common_isr).
Definition isr_errcode (n : Z) : block := ([PushI n], Jmp_common_isr).
Definition irq_noerrcode (n : Z) : block := ([PushI 0; PushI n], Jmp_common_isr).

(** The stubs [isr0] to [isr20] and [irq32] to [irq47]. *)
Definition stub_block (v : Z) : option block :=
  if (0 <=? v) && (v <=? 20) then
    Some (if bool_decide (v ∈ [8; 10; 11; 12; 13; 14; 17]) then isr_errcode v else isr_noerrcode v)
  else if (32 <=? v) && (v <=? 47) then Some (irq_noerrcode v)
  else None.

Definition saved : list reg := [RAX; RBX; RCX; RDX; RSI; RDI; RBP; R8; R9; R10; R11; R12; R13; R14; R15].
Definition restored : list reg := [R15; R14; R13; R12; R11; R10; R9; R8; RBP; RDI; RSI; RDX; RCX; RBX; RAX].

Definition common_isr : block :=
  ((Push <$> saved) ++ [Mov RDI RSP; Call_isr_handler] ++ (Pop <$> restored) ++ [AddI RSP 16], Iretq).

(** ** The processor *)

Definition set_reg (r : reg) (v : Z) (c : machine_t) : machine_t :=
  Machine (<[r := v]> (regs c)) (rip c) (rflags c) (cs c) (ss c) (memory c).

Definition push (v : Z) (c : machine_t) : machine_t :=
  let sp := u64 (regs c RSP - 8) in
  Machine (<[RSP := sp]> (regs c)) (rip c) (rflags c) (cs c) (ss c) (<[sp := v]> (memory c)).

Definition pop (r : reg) (c : machine_t) : machine_t :=
  let v := memory c (regs c RSP) in
  set_reg r v (set_reg RSP (u64 (regs c RSP + 8)) c).

(** The frame that [isr_handler] finds at the address it is given. *)
Definition frame_at (m : Z -> Z) (a : Z) : isr_frame_t :=
  let w i := m (a + 8 * i) in
  Frame (w 0) (w 1) (w 2) (w 3) (w 4) (w 5) (w 6) (w 7) (w 8) (w 9) (w 10) (w 11) (w 12) (w 13) (w 14) (w 15) (w 16).

Definition callee_saved (r : reg) : bool :=
  match r with RBX | RBP | R12 | R13 | R14 | R15 | RSP => true | _ => false end.

(** Bits of the flags. *)
Definition IF_BIT : Z := 9.
Definition DF_BIT : Z := 10.

(** Exceptions for which the processor pushes an error code. *)
Definition has_error_code (v : Z) : bool := bool_decide (v ∈ [8; 10; 11; 12; 13; 14; 17; 21; 29; 30]).

Record world_t (D : Type) := World { cpu : machine_t; ints : int_t D }.
Arguments World {D}. Arguments cpu {D}. Arguments ints {D}.

Section stubs.
Context {D : Type} `{!PortIO D}.

(** Values that C code leaves in registers it need not keep, in the flags and
    in the memory below the stack pointer; the functions that handlers
    address; where the linker puts the table and the blocks. *)
Context (junk : reg -> Z) (junk_flags : Z) (scratch : Z -> Z).
Context (call : Z -> io (int_t D) unit) (idt_addr : Z) (block_at : Z -> option block).

Definition undefined {A} : io (world_t D) A := fun _ => Undef.

Definition on_cpu (f : machine_t -> machine_t) : io (world_t D) unit :=
  modify (fun w => World (f (cpu w)) (ints w)).

Definition on_ints {A} (m : io (int_t D) A) : io (world_t D) A :=
  fun w => match m (ints w) with
           | Ok (a, i) => Ok (a, World (cpu w) i)
           | Undef => Undef
           | NoFuel => NoFuel
           end.

Definition returned (c : machine_t) : machine_t :=
  Machine (fun r => if callee_saved r then regs c r else junk r) (rip c) junk_flags (cs c) (ss c)
    (fun a => if regs c RSP <=? a then memory c a else scratch a).

(** A call of compiled C code, by the calling convention: the stack pointer is
    a multiple of 16 and the direction flag is clear; callee-saved registers
    and the memory from the stack pointer up are kept. *)
Definition call_c (m : machine_t -> io (int_t D) unit) : io (world_t D) unit :=
  c ← gets cpu;
  if negb (regs c RSP mod 16 =? 0) || bit_test (rflags c) DF_BIT then undefined
  else
    on_ints (m c) ≫= fun _ => on_cpu returned.

Definition exec (i : instr) : io (world_t D) unit :=
  match i with
  | PushI v => on_cpu (push v)
  | Push r => on_cpu (fun c => push (regs c r) c)
  | Pop r => on_cpu (pop r)
  | Mov d s => on_cpu (fun c => set_reg d (regs c s) c)
  | AddI r v => on_cpu (fun c => set_reg r (u64 (regs c r + v)) c)
  | Call_isr_handler => call_c (fun c => isr_handler call (frame_at (memory c) (regs c RDI)))
  end.

Fixpoint exec_all (l : list instr) : io (world_t D) unit :=
  match l with
  | [] => skip
  | i :: l => exec i ≫= fun _ => exec_all l
  end.

(** Pops the instruction pointer, code segment, flags, stack pointer and stack
    segment. *)
Definition iretq (c : machine_t) : machine_t :=
  let w i := memory c (regs c RSP + 8 * i) in
  Machine (<[RSP := w 3]> (regs c)) (w 0) (w 2) (w 1) (w 4) (memory c).

Definition run_block (b : block) : io (world_t D) unit :=
  exec_all b.1 ≫= fun _ =>
  match b.2 with
  | Jmp_common_isr => exec_all common_isr.1 ≫= fun _ => on_cpu iretq
  | Iretq => on_cpu iretq
  end.

(** The processor takes vector [v] in 64-bit mode: it reads the gate from the
    loaded table, aligns the stack, pushes its state and clears the interrupt
    flag. *)
Definition deliver (v err : Z) : io (world_t D) unit :=
  st ← gets ints;
  if negb ((base (loaded st) =? idt_addr) && (16 * v + 15 <=? limit (loaded st))) then undefined
  else
    g ← lift (aget (idt st) v);
    if negb (gate_present g) then undefined
    else
      on_cpu (fun c =>
        let c0 := set_reg RSP (Z.land (regs c RSP) (Z.lnot 15)) c in
        let c1 := push (rip c) (push (cs c) (push (rflags c) (push (regs c RSP) (push (ss c) c0)))) in
        let c2 := if has_error_code v then push err c1 else c1 in
        Machine (regs c2) (gate_offset g) (Z.clearbit (rflags c) IF_BIT) (selector g) (ss c) (memory c2)).

Definition interrupt (v err : Z) : io (world_t D) unit :=
  deliver v err ≫= fun _ =>
  a ← gets (fun w => rip (cpu w));
  b ← lift (block_at a);
  run_block b.
End stubs.

(** ** The stack *)

(** The words of [l] from address [a] up. *)
Definition words (m : Z -> Z) (a : Z) (l : list Z) : Prop :=
  forall i v, l !! i = Some v -> m (a + 8 * Z.of_nat i) = v.

Lemma words_cons m a v l : words m a (v :: l) <-> m a = v /\ words m (a + 8) l.
Proof.
  split.
  - intros H. split; [by rewrite <- (H 0%nat v eq_refl), Z.add_0_r|].
    intros i w Hi. rewrite <- (H (S i) w Hi). f_equal. lia.
  - intros [H1 H2] [|i] w Hi; [injection Hi as <-; by rewrite Z.add_0_r|].
    rewrite <- (H2 i w Hi). f_equal. lia.
Qed.

Lemma words_ext m m' a l : (forall b, a <= b -> m' b = m b) -> words m a l -> words m' a l.
Proof. intros Hm H i v Hi. rewrite Hm by lia. by apply H. Qed.

Lemma words_app_r m a l1 l2 : words m a (l1 ++ l2) -> words m (a + 8 * Z.of_nat (length l1)) l2.
Proof.
  revert a. induction l1 as [|v l1 IH]; intros a H; [by rewrite Z.add_0_r|].
  simpl in H. apply words_cons in H as [_ H]. apply IH in H.
  replace (a + 8 * Z.of_nat (length (v :: l1))) with (a + 8 + 8 * Z.of_nat (length l1)) by (simpl length; lia). done.
Qed.

(** Two states of the processor with the same registers and flags, whose
    memories agree from address [a] up. *)
Record agree_from (a : Z) (c c' : machine_t) : Prop := {
  agree_rip : rip c' = rip c;
  agree_flags : rflags c' = rflags c;
  agree_cs : cs c' = cs c;
  agree_ss : ss c' = ss c;
  agree_mem b : a <= b -> memory c' b = memory c b
}.

Lemma agree_refl a c : agree_from a c c.
Proof. by split. Qed.

Lemma agree_trans a c1 c2 c3 : agree_from a c1 c2 -> agree_from a c2 c3 -> agree_from a c1 c3.
Proof. intros [] []. split; try congruence. intros b Hb. by rewrite agree_mem1, agree_mem0. Qed.

Lemma agree_le a b c c' : a <= b -> agree_from a c c' -> agree_from b c c'.
Proof. intros Hab []. split; try done. intros d Hd. apply agree_mem0. lia. Qed.

Lemma push_ok v c l :
  8 <= regs c RSP < 2 ^ 64 -> words (memory c) (regs c RSP) l ->
  let c' := push v c in
  regs c' RSP = regs c RSP - 8 /\ words (memory c') (regs c' RSP) (v :: l) /\ agree_from (regs c RSP) c c' /\
  (forall r, r <> RSP -> regs c' r = regs c r).
Proof.
  intros Hr Hl. change (2 ^ 64) with 18446744073709551616 in Hr. unfold push. cbn [regs memory].
  rewrite fn_lookup_insert. nowrap.
  assert (Hm : forall b, regs c RSP <= b -> (<[regs c RSP - 8:=v]> (memory c)) b = memory c b)
    by (intros b Hb; by rewrite fn_lookup_insert_ne by lia).
  split; [done|]. split.
  - apply words_cons. split; [by rewrite fn_lookup_insert|]. replace (regs c RSP - 8 + 8) with (regs c RSP) by lia.
    by apply (words_ext (memory c)).
  - split; [by split|]. intros r Hne. by rewrite fn_lookup_insert_ne.
Qed.

Fixpoint pushes (vs : list Z) (c : machine_t) : machine_t :=
  match vs with
  | [] => c
  | v :: vs => pushes vs (push v c)
  end.

Lemma pushes_ok vs c l :
  8 * Z.of_nat (length vs) <= regs c RSP < 2 ^ 64 -> words (memory c) (regs c RSP) l ->
  let c' := pushes vs c in
  regs c' RSP = regs c RSP - 8 * Z.of_nat (length vs) /\
  words (memory c') (regs c' RSP) (reverse vs ++ l) /\ agree_from (regs c RSP) c c' /\
  (forall r, r <> RSP -> regs c' r = regs c r).
Proof.
  cbv zeta. revert c l. induction vs as [|v vs IH]; intros c l Hr Hl.
  - split; [simpl; lia|]. split; [done|]. split; [apply agree_refl|done].
  - simpl length in *. destruct (push_ok v c l) as (H1 & H2 & H3 & H4); [lia|done|].
    destruct (IH (push v c) (v :: l)) as (R1 & R2 & R3 & R4); [lia|done|]. simpl pushes. split; [lia|]. split.
    + by rewrite reverse_cons, <- (assoc (++)).
    + split; [|intros x Hx; by rewrite R4, H4]. eapply agree_trans; [exact H3|]. eapply agree_le; [|exact R3]. lia.
Qed.

(** The words that the processor has pushed when a stub starts. *)
Definition processor_frame (v err : Z) (c : machine_t) : list Z :=
  (if has_error_code v then [err] else []) ++ [rip c; cs c; rflags c; regs c RSP; ss c].

Lemma deliver_ok {D} idt_addr v err c (st : int_t D) g :
  256 <= regs c RSP < 2 ^ 64 -> base (loaded st) = idt_addr -> 16 * v + 15 <= limit (loaded st) ->
  aget (idt st) v = Some g -> gate_present g = true ->
  exists c', deliver idt_addr v err (World c st) = Ok (tt, World c' st) /\
    rip c' = gate_offset g /\ rflags c' = Z.clearbit (rflags c) IF_BIT /\
    regs c' RSP = regs c RSP - regs c RSP mod 16 - 8 * Z.of_nat (length (processor_frame v err c)) /\
    words (memory c') (regs c' RSP) (processor_frame v err c) /\
    (forall r, r <> RSP -> regs c' r = regs c r) /\ (forall b, regs c RSP <= b -> memory c' b = memory c b).
Proof.
  intros Hr Hb Hlim Hg Hp. change (2 ^ 64) with 18446744073709551616 in Hr. unfold deliver. rewrite bind_gets.
  cbn [ints]. rewrite Hb, Z.eqb_refl. destruct (Z.leb_spec (16 * v + 15) (limit (loaded st))); [|lia]. cbn [andb negb].
  rewrite (bind_lift _ _ _ _ Hg), Hp. cbn [negb]. unfold on_cpu, modify. cbn [cpu ints]. cbv zeta.
  set (c0 := set_reg RSP (Z.land (regs c RSP) (Z.lnot 15)) c).
  assert (H0 : regs c0 RSP = regs c RSP - regs c RSP mod 16).
  { unfold c0, set_reg. cbn [regs]. rewrite fn_lookup_insert, <- Z.ldiff_land. change 15 with (Z.ones 4).
    rewrite Z.ldiff_ones_r, Z.shiftr_div_pow2, Z.shiftl_mul_pow2 by lia. change (2 ^ 4) with 16. pose proof (Z.div_mod (regs c RSP) 16 ltac:(lia)). lia. }
  assert (R0 : forall r, r <> RSP -> regs c0 r = regs c r).
  { intros r Hne. unfold c0, set_reg. cbn [regs]. by rewrite fn_lookup_insert_ne. }
  assert (M0 : memory c0 = memory c) by done. clearbody c0. pose proof (Z.mod_pos_bound (regs c RSP) 16 ltac:(lia)).
  set (vs := [ss c; regs c RSP; rflags c; cs c; rip c] ++ if has_error_code v then [err] else []).
  destruct (pushes_ok vs c0 []) as (S1 & W1 & A1 & R1).
  { unfold vs. rewrite length_app. rewrite H0. destruct (has_error_code v); simpl length; lia. }
  { by intros i x Hx. }
  assert (Hvs : reverse vs = processor_frame v err c) by (unfold vs, processor_frame; by destruct (has_error_code v)).
  rewrite app_nil_r, Hvs in W1.
  exists (Machine (regs (pushes vs c0)) (gate_offset g) (Z.clearbit (rflags c) IF_BIT) (selector g) (ss c)
            (memory (pushes vs c0))).
  split; [unfold vs; by destruct (has_error_code v)|]. cbn [rip rflags regs memory].
  split_and!; [done|done| |done| |].
  - rewrite S1, H0, <- Hvs. by rewrite length_reverse.
  - intros r Hne. by rewrite R1, R0.
  - intros b Hb'. rewrite <- M0. apply (agree_mem _ _ _ A1). lia.
Qed.

Section execution.
Context {D : Type} `{!PortIO D}.
Context (junk : reg -> Z) (junk_flags : Z) (scratch : Z -> Z).
Context (call : Z -> io (int_t D) unit).
Local Notation exec_all := (exec_all junk junk_flags scratch call).
Implicit Types (w : world_t D) (c : machine_t).

Lemma exec_all_app l1 l2 w : exec_all (l1 ++ l2) w = (exec_all l1 ≫= fun _ => exec_all l2) w.
Proof.
  revert w. induction l1 as [|i l1 IH]; intros w; [done|]. simpl. unfold mbind, io_bind.
  destruct (exec _ _ _ _ i w) as [[[] w']| |]; [|done|done]. apply IH.
Qed.

Lemma push_regs_eq rs c c0 i :
  RSP ∉ rs -> (forall r, r <> RSP -> regs c r = regs c0 r) ->
  exec_all (Push <$> rs) (World c i) = Ok (tt, World (pushes (regs c0 <$> rs) c) i).
Proof.
  revert c. induction rs as [|r rs IH]; intros c Hn Hc; [done|]. apply not_elem_of_cons in Hn as [Hr Hn].
  simpl. rewrite <- (Hc r) by done. apply IH; [done|]. intros x Hx. rewrite <- Hc by done.
  unfold push. cbn [regs]. by rewrite fn_lookup_insert_ne.
Qed.

Lemma not_rsp : RSP ∉ saved /\ RSP ∉ restored.
Proof. split; intros H; repeat (apply elem_of_cons in H as [H|H]; [done|]); by apply elem_of_nil in H. Qed.

Lemma pop_regs_ok (f : reg -> Z) rs c i l :
  RSP ∉ rs -> 0 <= regs c RSP -> regs c RSP + 8 * Z.of_nat (length rs) < 2 ^ 64 ->
  words (memory c) (regs c RSP) ((f <$> rs) ++ l) ->
  exists c', exec_all (Pop <$> rs) (World c i) = Ok (tt, World c' i) /\
    regs c' RSP = regs c RSP + 8 * Z.of_nat (length rs) /\ memory c' = memory c /\
    (forall r, r ∈ rs -> regs c' r = f r) /\ (forall r, r ∉ rs -> r <> RSP -> regs c' r = regs c r).
Proof.
  revert c. induction rs as [|r rs IH]; intros c Hn Hp Hr Hl.
  - exists c. split; [done|]. split; [simpl; lia|]. split; [done|]. split; [|done]. intros r Hr'. by apply elem_of_nil in Hr'.
  - simpl length in *. change (2 ^ 64) with 18446744073709551616 in Hr.
    apply words_cons in Hl as [Hv Hl]. apply not_elem_of_cons in Hn as [Hrsp Hn].
    assert (Hsp : regs (pop r c) RSP = regs c RSP + 8).
    { unfold pop, set_reg. cbn [regs]. rewrite fn_lookup_insert_ne by done. rewrite fn_lookup_insert. by nowrap. }
    destruct (IH (pop r c)) as (c' & E & R1 & R2 & R3 & R4); [done|lia|change (2 ^ 64) with 18446744073709551616; lia| |].
    { rewrite Hsp. done. }
    exists c'. split; [exact E|]. split; [lia|]. split; [done|]. split.
    + intros x Hx. destruct (decide (x ∈ rs)) as [Hin|Hout]; [by apply R3|]. apply elem_of_cons in Hx as [->|?]; [|done].
      rewrite R4 by done. unfold pop, set_reg. cbn [regs]. by rewrite fn_lookup_insert.
    + intros x Hx Hne. apply not_elem_of_cons in Hx as [Hx1 Hx2]. rewrite R4 by done. unfold pop, set_reg. cbn [regs].
      by rewrite !fn_lookup_insert_ne by done.
Qed.

Lemma push_saved_ok c i l :
  128 <= regs c RSP < 2 ^ 64 -> words (memory c) (regs c RSP) l ->
  exists c1, exec_all (Push <$> saved) (World c i) = Ok (tt, World c1 i) /\ regs c1 RSP = regs c RSP - 120 /\
    words (memory c1) (regs c1 RSP) ((regs c <$> restored) ++ l) /\ agree_from (regs c RSP) c c1.
Proof.
  intros Hr Hl. exists (pushes (regs c <$> saved) c). split; [apply push_regs_eq; [apply not_rsp|done]|].
  assert (Hlen : length (regs c <$> saved) = 15%nat) by done.
  assert (Hrev : reverse (regs c <$> saved) = regs c <$> restored) by done.
  rewrite <- Hrev. clear Hrev. revert Hlen. generalize (regs c <$> saved). intros vs Hlen.
  destruct (pushes_ok vs c l) as (S1 & W1 & A1 & R1); [rewrite Hlen; lia|done|]. rewrite Hlen in S1.
  split_and!; [lia|done|done].
Qed.

Lemma in_restored r : r <> RSP -> r ∈ restored.
Proof. intros Hr. apply list_elem_of_In. destruct r; simpl; tauto || done. Qed.

(** The frame for registers [f], vector [v] and error code [e]. *)
Definition frame_of (f : reg -> Z) (v e : Z) : isr_frame_t :=
  Frame (f R15) (f R14) (f R13) (f R12) (f R11) (f R10) (f R9) (f R8) (f RBP) (f RDI) (f RSI) (f RDX) (f RCX) (f RBX)
    (f RAX) v e.

Lemma frame_at_words m a f v e l :
  words m a ((f <$> restored) ++ v :: e :: l) -> frame_at m a = frame_of f v e.
Proof.
  intros H. unfold frame_at, frame_of. f_equal;
    [apply (H 0%nat)|apply (H 1%nat)|apply (H 2%nat)|apply (H 3%nat)|apply (H 4%nat)|apply (H 5%nat)|apply (H 6%nat)
    |apply (H 7%nat)|apply (H 8%nat)|apply (H 9%nat)|apply (H 10%nat)|apply (H 11%nat)|apply (H 12%nat)|apply (H 13%nat)
    |apply (H 14%nat)|apply (H 15%nat)|apply (H 16%nat)]; reflexivity.
Qed.

Lemma call_isr_ok (k : unit -> io (world_t D) unit) c i :
  regs c RSP mod 16 = 0 -> bit_test (rflags c) DF_BIT = false ->
  (exec junk junk_flags scratch call Call_isr_handler ≫= k) (World c i) =
  match isr_handler call (frame_at (memory c) (regs c RDI)) i with
  | Ok (_, i') => k tt (World (returned junk junk_flags scratch c) i')
  | Undef => Undef
  | NoFuel => NoFuel
  end.
Proof.
  intros Hal Hdf. cbn [exec]. unfold call_c, mbind, io_bind, gets, on_ints, on_cpu, modify. cbn [cpu ints].
  rewrite Hal, Hdf. cbn [Z.eqb negb orb]. by destruct (isr_handler _ _ _) as [[[] i']| |].
Qed.

(** [common_isr] up to its return calls [isr_handler] with the frame of the
    interrupted code and brings the registers back. *)
Lemma common_isr_ok c i v e l :
  128 <= regs c RSP -> regs c RSP + 16 < 2 ^ 64 -> regs c RSP mod 16 = 8 -> bit_test (rflags c) DF_BIT = false ->
  words (memory c) (regs c RSP) (v :: e :: l) ->
  match isr_handler call (frame_of (regs c) v e) i with
  | Ok (_, i') => exists c', exec_all common_isr.1 (World c i) = Ok (tt, World c' i') /\
      (forall r, r <> RSP -> regs c' r = regs c r) /\ regs c' RSP = regs c RSP + 16 /\
      words (memory c') (regs c' RSP) l /\ (forall b, regs c RSP <= b -> memory c' b = memory c b)
  | Undef => exec_all common_isr.1 (World c i) = Undef
  | NoFuel => exec_all common_isr.1 (World c i) = NoFuel
  end.
Proof.
  intros Hlo Hhi Hal Hdf Hw. change (2 ^ 64) with 18446744073709551616 in Hhi.
  destruct (push_saved_ok c i (v :: e :: l)) as (c1 & E1 & S1 & W1 & A1);
    [change (2 ^ 64) with 18446744073709551616; lia|done|].
  set (c2 := set_reg RDI (regs c1 RSP) c1).
  assert (Hcall : exec_all common_isr.1 (World c i) =
    (exec junk junk_flags scratch call Call_isr_handler ≫= fun _ => exec_all ((Pop <$> restored) ++ [AddI RSP 16]))
      (World c2 i)).
  { unfold common_isr. cbn [fst]. rewrite exec_all_app, (bind_ok _ _ _ _ _ E1). apply bind_modify. }
  rewrite Hcall, call_isr_ok;
    [|change (regs c2 RSP) with (regs c1 RSP); rewrite S1; lia|change (rflags c2) with (rflags c1); by rewrite (agree_flags _ _ _ A1)].
  change (memory c2) with (memory c1). change (regs c2 RDI) with (regs c1 RSP).
  rewrite (frame_at_words _ _ _ _ _ _ W1).
  destruct (isr_handler call (frame_of (regs c) v e) i) as [[[] i']| |]; [|done|done].
  set (c3 := returned junk junk_flags scratch c2).
  assert (Hsp : regs c3 RSP = regs c1 RSP) by done.
  assert (Hm : forall b, regs c1 RSP <= b -> memory c3 b = memory c1 b).
  { intros b Hb. unfold c3, returned. cbn [memory]. change (regs c2 RSP) with (regs c1 RSP).
    change (memory c2) with (memory c1). by case_cmp; [|lia]. }
  destruct (pop_regs_ok (regs c) restored c3 i' (v :: e :: l)) as (c4 & E4 & S4 & M4 & P4 & _).
  { apply not_rsp. }
  { lia. }
  { change (2 ^ 64) with 18446744073709551616. simpl length. lia. }
  { rewrite Hsp. by apply (words_ext (memory c1)). }
  exists (set_reg RSP (u64 (regs c4 RSP + 16)) c4). split.
  { rewrite exec_all_app, (bind_ok _ _ _ _ _ E4). apply bind_modify. } simpl length in S4. unfold set_reg. cbn [regs memory cpu]. rewrite fn_lookup_insert.
  rewrite (u64_small (regs c4 RSP + 16)), M4 by lia. split_and!.
  - intros r Hr. rewrite fn_lookup_insert_ne by done. apply P4, in_restored, Hr.
  - lia.
  - change (v :: e :: l) with ([v; e] ++ l) in W1. rewrite (assoc (++)) in W1. apply words_app_r in W1. simpl length in W1.
    replace (regs c4 RSP + 16) with (regs c1 RSP + 8 * 17) by lia. apply (words_ext (memory c1)); [|exact W1].
    intros b Hb. apply Hm. lia.
  - intros b Hb. rewrite Hm by lia. by apply (agree_mem _ _ _ A1).
Qed.

(** [c'] goes on where [c] was: same registers, flags and segments, and the
    memory in use by the stack of [c] is as it was. *)
Record resumed c c' : Prop := {
  resumed_regs r : regs c' r = regs c r;
  resumed_state : agree_from (regs c RSP) c c'
}.

Definition has_stub (v : Z) : bool := (v <=? 20) || ((32 <=? v) && (v <=? 47)).

(** The linker places the stub of vector [v] at [stub v], and nothing at
    address zero. *)
Record linked (block_at : Z -> option block) (stub : Z -> Z) : Prop := {
  linked_stub v b : stub_block v = Some b -> block_at (stub v) = Some b;
  linked_zero : block_at 0 = None;
  linked_range v : 0 <= stub v < 2 ^ 64
}.

Definition error_word (v err : Z) : Z := if has_error_code v then err else 0.

(** A stub brings the stack to the same form with or without an error code. *)
Lemma stub_ok v err c c0 i b :
  stub_block v = Some b -> 128 <= regs c RSP < 2 ^ 64 ->
  words (memory c) (regs c RSP) (processor_frame v err c0) ->
  exists c', exec_all b.1 (World c i) = Ok (tt, World c' i) /\ b.2 = Jmp_common_isr /\
    regs c' RSP = regs c RSP - (if has_error_code v then 8 else 16) /\
    words (memory c') (regs c' RSP) (v :: error_word v err :: [rip c0; cs c0; rflags c0; regs c0 RSP; ss c0]) /\
    agree_from (regs c RSP) c c' /\ (forall r, r <> RSP -> regs c' r = regs c r).
Proof.
  intros Hb Hr Hw.
  assert (Hcase : (has_error_code v = true /\ b = isr_errcode v) \/ (has_error_code v = false /\ b = isr_noerrcode v)).
  { revert Hb. unfold stub_block. destruct ((0 <=? v) && (v <=? 20)) eqn:E1; intros Hb.
    - injection Hb as <-. replace (has_error_code v) with (bool_decide (v ∈ [8; 10; 11; 12; 13; 14; 17]));
        [case_bool_decide; tauto|]. apply bool_decide_ext. set_solver by lia.
    - destruct ((32 <=? v) && (v <=? 47)) eqn:E2; [|done]. injection Hb as <-. right. split; [|reflexivity].
      apply bool_decide_eq_false_2. set_solver by lia. }
  unfold processor_frame, error_word in *. destruct Hcase as [[He ->]|[He ->]]; rewrite He in *.
  - destruct (pushes_ok [v] c _ ltac:(simpl length; lia) Hw) as (S1 & W1 & A1 & R1).
    exists (pushes [v] c). split_and!; try done.
  - destruct (pushes_ok [0; v] c _ ltac:(simpl length; lia) Hw) as (S1 & W1 & A1 & R1).
    exists (pushes [0; v] c). split_and!; try done.
Qed.

(** From the stub to the return, on a machine that has delivered [v] while it
    was in state [c0]. *)
Lemma run_stub_ok v err b c0 c st :
  stub_block v = Some b -> 200 <= regs c RSP -> regs c RSP + 48 < 2 ^ 64 -> bit_test (rflags c) DF_BIT = false ->
  regs c RSP mod 16 = (if has_error_code v then 0 else 8) ->
  words (memory c) (regs c RSP) (processor_frame v err c0) ->
  (forall r, r <> RSP -> regs c r = regs c0 r) ->
  (forall b, regs c0 RSP <= b -> memory c b = memory c0 b) -> regs c RSP <= regs c0 RSP ->
  match isr_handler call (frame_of (regs c0) v (error_word v err)) st with
  | Ok (_, st') => exists c', run_block junk junk_flags scratch call b (World c st) = Ok (tt, World c' st') /\ resumed c0 c'
  | Undef => run_block junk junk_flags scratch call b (World c st) = Undef
  | NoFuel => run_block junk junk_flags scratch call b (World c st) = NoFuel
  end.
Proof.
  intros Hb Hlo Hhi Hdf Hal Hw Hregs Hmem Hle. change (2 ^ 64) with 18446744073709551616 in Hhi.
  destruct (stub_ok v err c c0 st b Hb) as (c1 & E1 & Eb & S1 & W1 & A1 & R1);
    [change (2 ^ 64) with 18446744073709551616; lia|done|].
  pose proof (common_isr_ok c1 st v (error_word v err) [rip c0; cs c0; rflags c0; regs c0 RSP; ss c0]) as H.
  unfold run_block. rewrite (bind_ok _ _ _ _ _ E1), Eb.
  assert (Hf : frame_of (regs c1) v (error_word v err) = frame_of (regs c0) v (error_word v err)).
  { unfold frame_of. by rewrite !R1, !Hregs. }
  rewrite Hf in H. change (2 ^ 64) with 18446744073709551616 in H.
  specialize (H ltac:(destruct (has_error_code v); lia) ltac:(destruct (has_error_code v); lia)
    ltac:(rewrite S1; destruct (has_error_code v); lia) ltac:(by rewrite (agree_flags _ _ _ A1)) W1).
  destruct (isr_handler _ _ st) as [[[] st']| |]; [|unfold mbind, io_bind; by rewrite H..].
  destruct H as (c2 & E2 & R2 & S2 & W2 & M2). rewrite (bind_ok _ _ _ _ _ E2). exists (iretq c2). split; [reflexivity|].
  unfold iretq. split.
  - intros r. cbn [regs]. destruct (decide (r = RSP)) as [->|Hne].
    + rewrite fn_lookup_insert. exact (W2 3%nat _ eq_refl).
    + rewrite fn_lookup_insert_ne by done. by rewrite R2, R1, Hregs.
  - split; cbn [rip rflags cs ss memory];
      [exact (W2 0%nat _ eq_refl)|exact (W2 2%nat _ eq_refl)|exact (W2 1%nat _ eq_refl)|exact (W2 4%nat _ eq_refl)|].
    intros a Ha. rewrite M2, (agree_mem _ _ _ A1) by (destruct (has_error_code v); lia). by apply Hmem.
Qed.

End execution.

Lemma has_stub_block v : 0 <= v -> has_stub v = true -> exists b, stub_block v = Some b.
Proof.
  intros Hv. unfold has_stub, stub_block. repeat case_cmp; cbn [andb orb]; try lia; eauto; done.
Qed.

Lemma clear_if_df f : bit_test (Z.clearbit f IF_BIT) DF_BIT = bit_test f DF_BIT.
Proof. rewrite !bit_test_testbit by done. by rewrite Z.clearbit_neq by done. Qed.

(** One interrupt, from any state whose loaded table leads to the stubs. *)
Lemma table_transparent {D} `{!PortIO D} junk junk_flags scratch call idt_addr block_at (stub : Z -> Z) (st : int_t D) v err c :
  linked block_at stub -> loaded st = IdtPtr 4095 idt_addr ->
  (forall v, 0 <= v < 256 -> exists g, aget (idt st) v = Some g /\ gate_present g = true /\ selector g = 8 /\
    gate_offset g = if has_stub v then stub v else 0) ->
  0 <= v < 256 -> 256 <= regs c RSP < 2 ^ 64 -> bit_test (rflags c) DF_BIT = false ->
  let run := interrupt junk junk_flags scratch call idt_addr block_at v err (World c st) in
  if has_stub v then
    match isr_handler call (frame_of (regs c) v (error_word v err)) st with
    | Ok (_, st2) => exists c', run = Ok (tt, World c' st2) /\ resumed c c'
    | Undef => run = Undef
    | NoFuel => run = NoFuel
    end
  else run = Undef.
Proof.
  intros Hlink Hld Hg Hv Hr Hdf. cbv zeta. destruct (Hg v Hv) as (g & Hgv & Hp & _ & Hoff).
  destruct (deliver_ok idt_addr v err c st g Hr) as (c1 & E1 & R1 & F1 & S1 & W1 & G1 & M1);
    [by rewrite Hld|rewrite Hld; cbn [limit]; lia|done|done|].
  unfold interrupt. rewrite (bind_ok _ _ _ _ _ E1), bind_gets. cbn [cpu]. rewrite R1, Hoff. fold (has_stub v).
  destruct (has_stub v) eqn:Hs.
  - destruct (has_stub_block v) as (b & Hb); [lia|done|]. rewrite (bind_lift _ _ _ _ (linked_stub _ _ Hlink v b Hb)).
    change (2 ^ 64) with 18446744073709551616 in Hr.
    assert (Hlen : Z.of_nat (length (processor_frame v err c)) = if has_error_code v then 6 else 5)
      by (unfold processor_frame; by destruct (has_error_code v)).
    rewrite Hlen in S1. pose proof (Z.mod_pos_bound (regs c RSP) 16 ltac:(lia)).
    apply run_stub_ok; try done; change (2 ^ 64) with 18446744073709551616.
    + destruct (has_error_code v); lia.
    + destruct (has_error_code v); lia.
    + by rewrite F1, clear_if_df.
    + rewrite S1. destruct (has_error_code v); lia.
    + destruct (has_error_code v); lia.
  - by rewrite (linked_zero _ _ Hlink).
Qed.

(** C15: interrupts are transparent. Once [idt_initialize] has built the table,
    and as long as the table is not changed, each exception 0 to 20 and each
    interrupt 32 to 47 that reaches the processor, at any point with the
    direction flag clear and room on the stack, runs [isr_handler] exactly
    once, on a frame that holds the interrupted registers, the number of the
    vector and its error code (zero where the processor has none), with the
    stack aligned as C code requires; afterwards the interrupted code goes on
    with all registers, flags, segments and its stack as they were, whatever
    C code leaves in the registers it may use. Every other vector is marked
    present but leads to address zero, where there is no code. *)
Theorem interrupts_transparent {D} `{!PortIO D} junk junk_flags scratch call idt_addr block_at (stub : Z -> Z) (st0 : int_t D) :
  length (idt st0) = 256%nat -> length (interrupt_handlers st0) = 256%nat -> linked block_at stub ->
  exists st, idt_initialize idt_addr stub st0 = Ok (tt, st) /\
  forall v err c st1, idt st1 = idt st -> loaded st1 = loaded st -> 0 <= v < 256 ->
    256 <= regs c RSP < 2 ^ 64 -> bit_test (rflags c) DF_BIT = false ->
    let run := interrupt junk junk_flags scratch call idt_addr block_at v err (World c st1) in
    if has_stub v then
      match isr_handler call (frame_of (regs c) v (error_word v err)) st1 with
      | Ok (_, st2) => exists c', run = Ok (tt, World c' st2) /\ resumed c c'
      | Undef => run = Undef
      | NoFuel => run = NoFuel
      end
    else run = Undef.
Proof.
  intros Hl Hh Hlink. destruct (idt_gates_decode idt_addr stub st0 Hl Hh (linked_range _ _ Hlink)) as (st & E & Hld & _ & Hg).
  exists st. split; [exact E|]. intros v err c st1 Ei El Hv Hr Hdf.
  apply (table_transparent junk junk_flags scratch call idt_addr block_at stub st1 v err c Hlink); [by rewrite El|by rewrite Ei|done..].
Qed.

(** A linker that puts the stubs sixteen bytes apart, and a timer tick while
    a task runs: the handler that is installed for vector 32 runs and the
    acknowledgement goes to the first controller. *)
Definition sample_stub (v : Z) : Z := 0x100000 + 16 * (v mod 256).
Definition sample_block_at (a : Z) : option block :=
  if (0x100000 <=? a) && (a mod 16 =? 0) then stub_block ((a - 0x100000) / 16) else None.
Definition sample_machine : machine_t :=
  Machine (fun r => match r with RSP => 0x7FF3 | RAX => 11 | R12 => 12 | _ => 7 end) 0x4000 0x202 8 16 (fun _ => 0).

Lemma sample_linked : linked sample_block_at sample_stub.
Proof.
  split; [|done|].
  - intros v b Hb. assert (Hv : 0 <= v < 48).
    { revert Hb. unfold stub_block. repeat case_cmp; cbn [andb]; intros; try done; lia. }
    unfold sample_block_at, sample_stub. rewrite (Z.mod_small v 256) by lia.
    destruct (Z.leb_spec 0x100000 (0x100000 + 16 * v)); [|lia].
    replace ((0x100000 + 16 * v) mod 16) with 0 by lia. replace (0x100000 + 16 * v - 0x100000) with (v * 16) by lia.
    by rewrite Z.div_mul.
  - intros v. unfold sample_stub. pose proof (Z.mod_pos_bound v 256 ltac:(lia)).
    change (2 ^ 64) with 18446744073709551616. lia.
Qed.

Lemma interrupts_transparent_witness :
  exists st c' st2, idt_initialize 0x120000 sample_stub cold_chips = Ok (tt, st) /\
    interrupt (fun _ => 99) 0x246 (fun _ => 55) (fun _ => skip) 0x120000 sample_block_at 32 0 (World sample_machine st)
      = Ok (tt, World c' st2) /\ regs c' RAX = 11 /\ regs c' R12 = 12 /\ regs c' RSP = 0x7FF3 /\ rip c' = 0x4000 /\ rflags c' = 0x202.
Proof.
  destruct (interrupts_transparent (fun _ => 99) 0x246 (fun _ => 55) (fun _ => skip) 0x120000 sample_block_at sample_stub
    cold_chips eq_refl eq_refl sample_linked) as (st & E & H).
  specialize (H 32 0 sample_machine st eq_refl eq_refl ltac:(lia) ltac:(change (2 ^ 64) with 18446744073709551616; simpl; lia) eq_refl).
  assert (Hst : exists st', idt_initialize 0x120000 sample_stub cold_chips = Ok (tt, st') /\
    exists st2, isr_handler (fun _ => skip) (frame_of (regs sample_machine) 32 0) st' = Ok (tt, st2)).
  { eexists. split; [vm_compute; reflexivity|]. eexists. vm_compute. reflexivity. }
  destruct Hst as (st' & E' & st2 & E2). rewrite E in E'. injection E' as <-.
  cbv zeta in H. change (has_stub 32) with true in H. change (error_word 32 0) with 0 in H. cbv iota in H. rewrite E2 in H.
  destruct H as (c' & Hrun & [Hregs [Hrip Hfl _ _ _]]).
  exists st, c', st2. split; [exact E|]. split; [exact Hrun|]. rewrite !Hregs, Hrip, Hfl. repeat split; reflexivity.
Defined.
