(* ===== verification/Boot.v ===== *)
(** * Boot memory map ([src/kernel.c])

    The boot loader leaves a list of tags in memory, one of which holds the
    memory map.  Memory is a function from addresses to bytes.  The two
    functions that walk the tags share their loops, so the walk is written
    once, with what to do at a map and at each of its entries as arguments.
    The loops trust the sizes that they read, so they have a bound on the
    rounds. *)

From S2P Require Import Prelude Io Pmm.

Section memory.
Context (mem : Z -> Z).

(** A little-endian word of [n] bytes. *)
Fixpoint read (n : nat) (a : Z) : Z :=
  match n with
  | O => 0
  | S n' => u8 (mem a) + 256 * read n' (a + 1)
  end.

(** The fields of [multiboot_info_t], [multiboot_tag_t],
    [multiboot_tag_mmap_t] and [multiboot_mmap_entry_t] at an address. *)
Definition total_size (info : Z) : Z := read 4 info.
Definition tag_type (tag : Z) : Z := read 4 tag.
Definition tag_size (tag : Z) : Z := read 4 (tag + 4).
Definition entry_size (tag : Z) : Z := read 4 (tag + 8).
Definition entry_addr (entry : Z) : Z := read 8 entry.
Definition entry_len (entry : Z) : Z := read 8 (entry + 8).
Definition entry_type (entry : Z) : Z := read 4 (entry + 16).

(** [(size + 7) & ~7u]. *)
Definition aligned (size : Z) : Z := Z.land (u32 (size + 7)) (u32 (Z.lnot 7)).

Section walk.
Context {A : Type} (at_map : A -> A) (visit : Z -> Z -> Z -> A -> option A).

Fixpoint scan_map (fuel : nat) (entry_ptr tag_end size : Z) (s : A) : outcome A :=
  match fuel with
  | O => NoFuel
  | S fuel' =>
    if entry_ptr <? tag_end then
      match visit (entry_addr entry_ptr) (entry_len entry_ptr) (entry_type entry_ptr) s with
      | Some s => scan_map fuel' (u64 (entry_ptr + size)) tag_end size s
      | None => Undef
      end
    else Ok s
  end.

(** [fuel0] bounds the rounds over the entries of one map. *)
Fixpoint scan_tags (fuel0 fuel : nat) (tag_ptr info_end : Z) (s : A) : outcome A :=
  match fuel with
  | O => NoFuel
  | S fuel' =>
    if tag_ptr <? info_end then
      if tag_type tag_ptr =? 0 then Ok s
      else
        match
          (if tag_type tag_ptr =? 6 then
             scan_map fuel0 (u64 (tag_ptr + 16)) (u64 (tag_ptr + tag_size tag_ptr)) (entry_size tag_ptr) (at_map s)
           else Ok s)
        with
        | Ok s => scan_tags fuel0 fuel' (u64 (tag_ptr + aligned (tag_size tag_ptr))) info_end s
        | Undef => Undef
        | NoFuel => NoFuel
        end
    else Ok s
  end.

Definition scan (fuel : nat) (info : Z) (s : A) : outcome A :=
  scan_tags fuel fuel (u64 (info + 8)) (u64 (info + total_size info)) s.
End walk.

Definition higher (addr len _type max_addr : Z) : option Z :=
  let end_addr := u64 (addr + len) in
  Some (if max_addr <? end_addr then end_addr else max_addr).

Definition get_multiboot_memory_top (fuel : nat) (info : Z) : outcome Z :=
  if info =? 0 then Ok 0 else scan id higher fuel info 0.

Definition mark_entry (addr len type : Z) (s : bool * pmm_t) : option (bool * pmm_t) :=
  if type =? 1 then st ← pmm_add_available_range s.2 addr len; Some (s.1, st) else Some s.

(** The result and the memory manager. *)
Definition mark_multiboot_memory (fuel : nat) (info : Z) (st : pmm_t) : outcome (bool * pmm_t) :=
  if info =? 0 then Ok (false, st) else scan (fun s => (true, s.2)) mark_entry fuel info (false, st).

(** The memory part of [kernel_main]. *)
Definition boot_physical_memory (fuel : nat) (info : Z) : outcome pmm_t :=
  match get_multiboot_memory_top fuel info with
  | Ok top =>
    let max_memory := if top =? 0 then 0x180000000 else top in
    match pmm_initialize pmm_boot max_memory with
    | Some st =>
      match mark_multiboot_memory fuel info st with
      | Ok (found, st) =>
        match (st ← if (found : bool) then Some st else pmm_add_available_range st 0x100000 (u64 (max_memory - 0x100000));
               pmm_reserve_range st 0x0 0x200000) with
        | Some st => Ok st
        | None => Undef
        end
      | Undef => Undef
      | NoFuel => NoFuel
      end
    | None => Undef
    end
  | Undef => Undef
  | NoFuel => NoFuel
  end.
End memory.

(** ** The format of the boot loader

    Tags and their bytes.  A tag of another kind has a type and contents; a
    memory map has the size of its entries, a version, and the entries, each
    with an address, a length, a type and the bytes that follow. *)

Record mentry := MEntry { m_addr : Z; m_len : Z; m_type : Z; m_rest : list Z }.

Inductive mtag :=
| Other (type : Z) (contents : list Z)
| Mmap (size version : Z) (entries : list mentry).

Fixpoint le (n : nat) (v : Z) : list Z :=
  match n with
  | O => []
  | S n' => v mod 256 :: le n' (v / 256)
  end.

Definition encode_entry (e : mentry) : list Z := le 8 (m_addr e) ++ le 8 (m_len e) ++ le 4 (m_type e) ++ m_rest e.

(** Padding to a multiple of eight bytes. *)
Definition padding (n : Z) : list Z := replicate (Z.to_nat ((- n) mod 8)) 0.

Definition encode_tag (t : mtag) : list Z :=
  match t with
  | Other ty l => let size := 8 + Z.of_nat (length l) in le 4 ty ++ le 4 size ++ l ++ padding size
  | Mmap es v l =>
    let size := 16 + es * Z.of_nat (length l) in
    le 4 6 ++ le 4 size ++ le 4 es ++ le 4 v ++ mjoin (encode_entry <$> l) ++ padding size
  end.

Definition encode_tags (l : list mtag) : list Z := mjoin (encode_tag <$> l) ++ le 4 0 ++ le 4 8.
Definition encode_info (l : list mtag) : list Z :=
  le 4 (8 + Z.of_nat (length (encode_tags l))) ++ le 4 0 ++ encode_tags l.

Definition entry_ok (es : Z) (e : mentry) : Prop :=
  0 <= m_addr e < 2 ^ 64 /\ 0 <= m_len e < 2 ^ 64 /\ 0 <= m_type e < 2 ^ 32 /\ 20 + Z.of_nat (length (m_rest e)) = es.

Definition tag_ok (t : mtag) : Prop :=
  match t with
  | Other ty l => 0 < ty < 2 ^ 32 /\ ty <> 6
  | Mmap es v l => 24 <= es < 2 ^ 32 /\ Forall (entry_ok es) l
  end.

(** All entries of the maps, in their order. *)
Definition entries_of (t : mtag) : list mentry := match t with Other _ _ => [] | Mmap _ _ l => l end.
Definition all_entries (l : list mtag) : list mentry := mjoin (entries_of <$> l).
Definition is_map (t : mtag) : bool := match t with Other _ _ => false | Mmap _ _ _ => true end.

(** ** Reading what was written *)

Lemma join_cons {A} (x : list A) l : mjoin (x :: l) = x ++ mjoin l.
Proof. done. Qed.

Definition holds (mem : Z -> Z) (a : Z) (bs : list Z) : Prop := forall i b, bs !! i = Some b -> mem (a + Z.of_nat i) = b.

Lemma holds_app mem a x y : holds mem a (x ++ y) <-> holds mem a x /\ holds mem (a + Z.of_nat (length x)) y.
Proof.
  unfold holds. split.
  - intros H. split; intros i b Hi.
    + apply H. by apply lookup_app_l_Some.
    + rewrite <- Z.add_assoc, <- Nat2Z.inj_add. apply H. rewrite lookup_app_r by lia. by rewrite Nat.add_comm, Nat.add_sub.
  - intros [H1 H2] i b [Hi|[Hge Hi]]%lookup_app_Some; [by apply H1|].
    rewrite <- (H2 _ _ Hi). f_equal. lia.
Qed.

Lemma le_length n v : length (le n v) = n.
Proof. revert v. induction n as [|n IH]; intros v; simpl; [done|by rewrite IH]. Qed.

Lemma read_le mem n a v : holds mem a (le n v) -> 0 <= v < 256 ^ Z.of_nat n -> read mem n a = v.
Proof.
  revert a v. induction n as [|n IH]; intros a v Hh Hv; [simpl in *; lia|]. cbn [read le] in *.
  change (v mod 256 :: le n (v / 256)) with ([v mod 256] ++ le n (v / 256)) in Hh. apply holds_app in Hh as [H1 H2].
  rewrite Nat2Z.inj_succ, Z.pow_succ_r in Hv by lia.
  rewrite (IH (a + 1) (v / 256)); [|exact H2|split; [lia|apply Z.div_lt_upper_bound; lia]].
  specialize (H1 0%nat _ eq_refl). rewrite Z.add_0_r in H1. rewrite H1, u8_small by lia. lia.
Qed.

Lemma read_le32 mem a v : holds mem a (le 4 v) -> 0 <= v < 2 ^ 32 -> read mem 4 a = v.
Proof. intros Hh Hv. by apply read_le. Qed.

Lemma read_le64 mem a v : holds mem a (le 8 v) -> 0 <= v < 2 ^ 64 -> read mem 8 a = v.
Proof. intros Hh Hv. by apply read_le. Qed.

Lemma aligned_eq size : 0 <= size -> size + 7 < 2 ^ 32 -> aligned size = size + (- size) mod 8.
Proof.
  intros H0 H1. unfold aligned. rewrite (u32_small (size + 7)) by lia. change (u32 (Z.lnot 7)) with (Z.lnot 7 mod 2 ^ 32).
  assert (E : Z.land (size + 7) (Z.lnot 7 mod 2 ^ 32) = Z.ldiff (size + 7) (Z.ones 3)).
  { apply Z.bits_inj'. intros i Hi. rewrite Z.land_spec, Z.ldiff_spec, Z.testbit_mod_pow2 by lia.
    destruct (Z.ltb_spec i 32).
    - rewrite Z.lnot_spec by lia. done.
    - by rewrite (range_testbit_high 32 (size + 7) i) by lia. }
  rewrite E, Z.ldiff_ones_r, Z.shiftl_mul_pow2, Z.shiftr_div_pow2 by lia. change (2 ^ 3) with 8. lia.
Qed.

Lemma entry_length es e : entry_ok es e -> Z.of_nat (length (encode_entry e)) = es.
Proof. intros (_ & _ & _ & H). unfold encode_entry. rewrite !length_app, !le_length. lia. Qed.

Lemma entries_length es l :
  Forall (entry_ok es) l -> Z.of_nat (length (mjoin (encode_entry <$> l))) = es * Z.of_nat (length l).
Proof.
  induction 1 as [|e l He Hl IH]; [simpl; lia|]. rewrite fmap_cons, join_cons, length_app, Nat2Z.inj_add, IH.
  rewrite (entry_length es) by done. simpl. lia.
Qed.

Lemma encode_tags_cons t l : encode_tags (t :: l) = encode_tag t ++ encode_tags l.
Proof. unfold encode_tags. by rewrite fmap_cons, join_cons, <- app_assoc. Qed.

Lemma entry_count es l : 24 <= es -> Forall (entry_ok es) l -> (length l <= length (mjoin (encode_entry <$> l)))%nat.
Proof. intros Hes Hl. pose proof (entries_length es l Hl). nia. Qed.

(** What the walk reads at a tag. *)
Lemma tag_fields mem p t :
  tag_ok t -> holds mem p (encode_tag t) -> Z.of_nat (length (encode_tag t)) < 2 ^ 32 - 8 ->
  tag_type mem p <> 0 /\ (tag_type mem p = 6 <-> is_map t = true) /\
  aligned (tag_size mem p) = Z.of_nat (length (encode_tag t)) /\
  match t with
  | Other _ _ => True
  | Mmap es _ l => entry_size mem p = es /\ tag_size mem p = 16 + es * Z.of_nat (length l) /\
      holds mem (p + 16) (mjoin (encode_entry <$> l))
  end.
Proof.
  unfold tag_type, tag_size, entry_size. destruct t as [ty l|es v l]; cbn [tag_ok encode_tag is_map]; cbv zeta.
  - intros (Hty & H6) (R1 & (R2 & _)%holds_app)%holds_app Hlen. rewrite le_length in R2.
    rewrite !length_app, !le_length in Hlen. rewrite (read_le32 _ p ty) by (done || lia).
    assert (Hpad : Z.of_nat (length (padding (8 + Z.of_nat (length l)))) = (- (8 + Z.of_nat (length l))) mod 8).
    { unfold padding. rewrite length_replicate. lia. }
    rewrite (read_le32 _ (p + 4) (8 + Z.of_nat (length l))) by (done || lia).
    split; [lia|]. split; [done|]. split; [|done]. rewrite aligned_eq by lia. rewrite !length_app, !le_length. lia.
  - intros (Hes & Hl) (R1 & (R2 & (R3 & (_ & (R5 & _)%holds_app)%holds_app)%holds_app)%holds_app)%holds_app Hlen.
    rewrite !le_length in R2, R3, R5. rewrite !length_app, !le_length in Hlen. rewrite (read_le32 _ p 6) by done.
    pose proof (entries_length es l Hl) as Hel. set (size := 16 + es * Z.of_nat (length l)) in *.
    assert (Hpad : Z.of_nat (length (padding size)) = (- size) mod 8) by (unfold padding; rewrite length_replicate; lia).
    assert (0 <= es * Z.of_nat (length l)) by lia.
    rewrite (read_le32 _ (p + 4) size) by (done || lia).
    replace (p + 8) with (p + Z.of_nat 4 + Z.of_nat 4) by lia. rewrite (read_le32 _ _ es) by (done || lia).
    split; [lia|]. split; [done|]. split; [rewrite aligned_eq by lia; rewrite !length_app, !le_length; lia|].
    split; [done|]. split; [done|]. by replace (p + 16) with (p + Z.of_nat 4 + Z.of_nat 4 + Z.of_nat 4 + Z.of_nat 4) by lia.
Qed.

(** ** The walk visits the entries in order *)

Section visits.
Context {A : Type} (at_map : A -> A) (visit : Z -> Z -> Z -> A -> option A).

Fixpoint visit_all (l : list mentry) (s : A) : option A :=
  match l with
  | [] => Some s
  | e :: l' => s ← visit (m_addr e) (m_len e) (m_type e) s; visit_all l' s
  end.

Fixpoint visit_tags (l : list mtag) (s : A) : option A :=
  match l with
  | [] => Some s
  | t :: l' => s ← (if is_map t then visit_all (entries_of t) (at_map s) else Some s); visit_tags l' s
  end.

Definition outcome_of (o : option A) : outcome A := match o with Some s => Ok s | None => Undef end.

Lemma scan_map_ok mem es l fuel p tag_end s :
  Forall (entry_ok es) l -> 24 <= es -> holds mem p (mjoin (encode_entry <$> l)) -> 0 <= p ->
  tag_end = p + es * Z.of_nat (length l) -> tag_end < 2 ^ 64 -> (length l < fuel)%nat ->
  scan_map mem visit fuel p tag_end es s = outcome_of (visit_all l s).
Proof using Type.
  clear at_map. intros Hl Hes. revert fuel p s. induction Hl as [|e l He Hl IH]; intros fuel p s Hh Hp -> Hend Hf;
    (destruct fuel as [|fuel]; [lia|]); cbn [scan_map visit_all length] in *.
  - by case_cmp; [lia|].
  - rewrite (proj2 (Z.ltb_lt _ _)) by lia. rewrite fmap_cons, join_cons in Hh. apply holds_app in Hh as [He' Hh].
    rewrite (entry_length es) in Hh by done. pose proof He as (Ha & Hlen & Ht & _). unfold encode_entry in He'.
    apply holds_app in He' as [R1 [R2 [R3 _]%holds_app]%holds_app]. rewrite !le_length in R2, R3.
    unfold entry_addr, entry_len, entry_type. rewrite (read_le64 _ p (m_addr e)), (read_le64 _ (p + 8) (m_len e)) by done.
    replace (p + 16) with (p + Z.of_nat 8 + Z.of_nat 8) by lia. rewrite (read_le32 _ _ (m_type e)) by done.
    destruct (visit _ _ _ s) as [s1|]; [|done]. cbn [mbind option_bind]. rewrite u64_small by lia.
    apply IH; [done|lia..].
Qed.

Lemma scan_tags_ok mem fuel0 l fuel p s :
  Forall tag_ok l -> holds mem p (encode_tags l) -> 0 <= p -> p + Z.of_nat (length (encode_tags l)) < 2 ^ 64 ->
  Z.of_nat (length (encode_tags l)) < 2 ^ 32 - 8 -> (length (encode_tags l) < fuel0)%nat -> (length l < fuel)%nat ->
  scan_tags mem at_map visit fuel0 fuel p (p + Z.of_nat (length (encode_tags l))) s = outcome_of (visit_tags l s).
Proof using Type.
  intros Hl. revert fuel p s. induction Hl as [|t l Ht Hl IH]; intros fuel p s Hh Hp Hend Hlen Hf0 Hf;
    (destruct fuel as [|fuel]; [lia|]); cbn [scan_tags visit_tags].
  - case_cmp; [|done]. unfold tag_type. apply holds_app in Hh as [_ [R _]%holds_app]. rewrite Z.add_0_r in R.
    by rewrite (read_le32 _ p 0).
  - rewrite encode_tags_cons in *. apply holds_app in Hh as [H1 H2].
    rewrite length_app in Hend, Hlen, Hf0 |- *. set (n := length (encode_tag t)) in *.
    set (m := length (encode_tags l)) in *.
    destruct (tag_fields mem p t Ht H1 ltac:(lia)) as (Hty & H6 & Hal & Hmap).
    assert (Hn : (8 <= m)%nat) by (unfold m, encode_tags; rewrite !length_app, !le_length; lia).
    rewrite (proj2 (Z.ltb_lt _ _)) by lia. rewrite (proj2 (Z.eqb_neq _ _) Hty), Hal.
    assert (Hstep : (if tag_type mem p =? 6 then
        scan_map mem visit fuel0 (u64 (p + 16)) (u64 (p + tag_size mem p)) (entry_size mem p) (at_map s) else Ok s)
      = outcome_of (if is_map t then visit_all (entries_of t) (at_map s) else Some s)).
    { destruct t as [ty c|es v es'].
      - cbn [is_map] in *. destruct (Z.eqb_spec (tag_type mem p) 6) as [E|]; [by apply H6 in E|done].
      - cbn [is_map entries_of] in *. rewrite (proj2 H6) by done. destruct Hmap as (-> & -> & R). cbn [Z.eqb Pos.eqb].
        destruct Ht as [Hes Hel]. pose proof (entries_length es es' Hel) as Hee. pose proof (entry_count es es' ltac:(lia) Hel).
        assert (Hnn : Z.of_nat n >= 16 + es * Z.of_nat (length es')).
        { unfold n, encode_tag. cbv zeta. rewrite !length_app, !le_length. lia. }
        rewrite !u64_small by lia. apply scan_map_ok; [done|lia|done|lia..]. }
    rewrite Hstep. destruct (if is_map t then _ else _) as [s1|]; [|done]. cbn [outcome_of mbind option_bind].
    rewrite u64_small by lia. rewrite Nat2Z.inj_add, Z.add_assoc. apply IH; [done|lia..|].
    cbn [length] in Hf. lia.
Qed.

Lemma scan_ok mem l fuel info s :
  Forall tag_ok l -> holds mem info (encode_info l) -> 0 <= info -> info + Z.of_nat (length (encode_info l)) < 2 ^ 64 ->
  Z.of_nat (length (encode_info l)) < 2 ^ 32 - 8 -> (length (encode_info l) < fuel)%nat ->
  scan mem at_map visit fuel info s = outcome_of (visit_tags l s).
Proof using Type.
  intros Hl Hh Hi Hend Hlen Hf. unfold encode_info in *. apply holds_app in Hh as [R1 [_ Hh]%holds_app].
  rewrite !le_length in Hh. rewrite !length_app, !le_length in *. unfold scan, total_size.
  rewrite (read_le32 _ info (8 + Z.of_nat (length (encode_tags l)))) by (done || lia). rewrite !u64_small by lia.
  replace (info + (8 + Z.of_nat (length (encode_tags l)))) with (info + 8 + Z.of_nat (length (encode_tags l))) by lia.
  assert (Hc : (length l <= length (encode_tags l))%nat).
  { unfold encode_tags. rewrite length_app. assert ((length l <= length (mjoin (encode_tag <$> l)))%nat); [|lia].
    clear. induction l as [|t l IH]; [done|]. rewrite fmap_cons, join_cons, length_app. simpl length.
    assert (1 <= length (encode_tag t))%nat; [|lia]. destruct t; unfold encode_tag; rewrite !length_app, !le_length; lia. }
  apply scan_tags_ok; [done| |lia..]. by replace (info + 8) with (info + Z.of_nat 4 + Z.of_nat 4) by lia.
Qed.
End visits.

(** ** The memory that the map describes *)

Definition entry_end (e : mentry) : Z := u64 (m_addr e + m_len e).
Definition top_of (l : list mentry) : Z := foldl (fun m e => Z.max m (entry_end e)) 0 l.

Lemma visit_higher l s : visit_all higher l s = Some (foldl (fun m e => Z.max m (entry_end e)) s l).
Proof.
  revert s. induction l as [|e l IH]; intros s; [done|]. cbn [visit_all higher mbind option_bind foldl]. rewrite IH.
  do 2 f_equal. unfold entry_end. case_cmp; lia.
Qed.

Lemma visit_tags_higher l s : visit_tags id higher l s = Some (foldl (fun m e => Z.max m (entry_end e)) s (all_entries l)).
Proof.
  revert s. induction l as [|t l IH]; intros s; [done|]. unfold all_entries. rewrite fmap_cons, join_cons, foldl_app.
  cbn [visit_tags]. destruct t as [ty c|es v es']; cbn [is_map entries_of foldl]; [apply IH|].
  unfold id. rewrite visit_higher. cbn [mbind option_bind]. apply IH.
Qed.

(** Frame [f] is touched by a usable range. *)
Definition usable (e : mentry) (f : Z) : Prop :=
  m_type e = 1 /\ 0 < m_len e /\ m_addr e / FRAME_SIZE <= f < (m_addr e + m_len e + 4095) / FRAME_SIZE.

Definition in_range (e : mentry) : Prop := 0 <= m_addr e /\ 0 <= m_len e /\ m_addr e + m_len e + 4095 < 2 ^ 64.

Lemma top_range l s :
  Forall in_range l -> 0 <= s < 2 ^ 64 - 4095 -> 0 <= foldl (fun m e => Z.max m (entry_end e)) s l < 2 ^ 64 - 4095.
Proof.
  intros Hl. revert s. induction Hl as [|e l (Ha & Hle & Hov) Hl IH]; intros s Hs; [done|]. cbn [foldl]. apply IH.
  unfold entry_end. rewrite u64_small by lia. lia.
Qed.

(** [st'] has the frames of [st] and those of the ranges [l] below its limit. *)
Definition added (st : pmm_t) (l : list mentry) (st' : pmm_t) : Prop :=
  pmm_wf st' /\ total_frames st' = total_frames st /\
  forall f, f ∈ free_set st' <-> f ∈ free_set st \/ (f < total_frames st /\ exists e, e ∈ l /\ usable e f).

Lemma added_trans st l st1 l' st2 : added st l st1 -> added st1 l' st2 -> added st (l ++ l') st2.
Proof.
  intros (_ & Ht1 & H1) (Hw & Ht2 & H2). split; [done|]. split; [congruence|]. intros f. rewrite H2, H1, Ht1.
  setoid_rewrite elem_of_app. naive_solver.
Qed.

Lemma mark_entry_ok e b st :
  pmm_wf st -> in_range e -> exists st', mark_entry (m_addr e) (m_len e) (m_type e) (b, st) = Some (b, st') /\ added st [e] st'.
Proof.
  intros Hwf (Ha & Hl & Hov). unfold mark_entry. cbn [fst snd].
  assert (Hsame : ~ (m_type e = 1 /\ 0 < m_len e) -> added st [e] st).
  { intros Hno. split; [done|]. split; [done|]. setoid_rewrite list_elem_of_singleton. intros f. split; [by left|].
    intros [|(_ & ? & -> & H1 & H2 & _)]; [done|]. by destruct Hno. }
  destruct (Z.eqb_spec (m_type e) 1) as [Ht|Ht]; [|exists st; split; [done|]; apply Hsame; naive_solver].
  destruct (Z.eq_dec (m_len e) 0) as [Hz|Hz].
  - unfold pmm_add_available_range. rewrite Hz, Z.eqb_refl. exists st. split; [done|]. apply Hsame. lia.
  - destruct (pmm_add_available_range_ok st (m_addr e) (m_len e) Hwf Ha ltac:(lia) Hov) as (st' & -> & Hwf' & Htot & Hset).
    exists st'. split; [done|]. split; [done|]. split; [done|]. setoid_rewrite list_elem_of_singleton. intros f.
    rewrite Hset, elem_of_union, elem_of_frames, Z.min_glb_lt_iff. unfold usable. naive_solver lia.
Qed.

Lemma visit_mark l b st :
  pmm_wf st -> Forall in_range l -> exists st', visit_all mark_entry l (b, st) = Some (b, st') /\ added st l st'.
Proof.
  intros Hwf Hl. revert st Hwf. induction Hl as [|e l He Hl IH]; intros st Hwf.
  - exists st. split; [done|]. split; [done|]. split; [done|]. intros f. split; [by left|].
    by intros [|(_ & e & []%not_elem_of_nil & _)].
  - destruct (mark_entry_ok e b st Hwf He) as (st1 & E1 & H1). destruct (IH st1 (proj1 H1)) as (st' & E & H).
    exists st'. cbn [visit_all]. rewrite E1. split; [done|]. exact (added_trans _ [e] _ _ _ H1 H).
Qed.

Lemma visit_tags_mark l b st :
  pmm_wf st -> Forall in_range (all_entries l) ->
  exists st', visit_tags (fun s => (true, s.2)) mark_entry l (b, st) = Some (b || existsb is_map l, st') /\
    added st (all_entries l) st'.
Proof.
  revert b st. induction l as [|t l IH]; intros b st Hwf Hl.
  - exists st. cbn [visit_tags existsb]. rewrite orb_false_r. split; [done|]. split; [done|]. split; [done|]. intros f.
    split; [by left|]. by intros [|(_ & e & []%not_elem_of_nil & _)].
  - unfold all_entries in *. rewrite fmap_cons, join_cons in *. apply Forall_app in Hl as [Ht Hl]. cbn [visit_tags existsb].
    destruct t as [ty c|es v es']; cbn [is_map entries_of snd] in *.
    + destruct (IH b st Hwf Hl) as (st' & E & H). exists st'. by rewrite orb_false_l.
    + destruct (visit_mark es' true st Hwf Ht) as (st1 & -> & H1). destruct (IH true st1 (proj1 H1) Hl) as (st' & E & H).
      exists st'. cbn [mbind option_bind]. rewrite E, orb_true_r. split; [done|]. by eapply added_trans.
Qed.

Lemma no_map_entries l : existsb is_map l = false -> all_entries l = [].
Proof.
  induction l as [|t l IH]; [done|]. cbn [existsb]. intros [Ht Hl]%orb_false_iff. unfold all_entries in *.
  rewrite fmap_cons, join_cons, IH by done. by destruct t.
Qed.

Lemma free_range st f : pmm_wf st -> f ∈ free_set st -> 0 <= f < total_frames st.
Proof.
  intros Hwf Hf. apply elem_of_free_set in Hf; [|done]. split; [by eapply frame_free_nonneg|].
  destruct (Z.lt_ge_cases f (total_frames st)) as [|Hge]; [done|]. apply (wf_tail _ Hwf) in Hge. congruence.
Qed.

(** Reserving the first 2 MiB. *)
Lemma reserve_low st :
  pmm_wf st -> exists st', pmm_reserve_range st 0 0x200000 = Some st' /\ pmm_wf st' /\ total_frames st' = total_frames st /\
    forall f, f ∈ free_set st' <-> f ∈ free_set st /\ 512 <= f.
Proof.
  intros Hwf. destruct (pmm_reserve_range_ok st 0 0x200000 Hwf) as (st' & E & Hwf' & Htot & Hset); [lia..|].
  exists st'. split_and!; try done. intros f. rewrite Hset, elem_of_difference, elem_of_frames.
  change ((0 + 0x200000 + 4095) / FRAME_SIZE) with 512. change (0 / FRAME_SIZE) with 0.
  split; intros [Hf Hout]; (split; [done|]); pose proof (free_range st f Hwf Hf); lia.
Qed.

(** The end of the set-up, with and without a map. *)
Lemma map_free l st0 st m :
  Forall in_range (all_entries l) -> added st0 (all_entries l) st -> free_set st0 = ∅ ->
  (existsb is_map l = false -> m = 0x180000000 /\ total_frames st0 = frames_of_memory m) ->
  exists st', (st ← if existsb is_map l then Some st else pmm_add_available_range st 0x100000 (u64 (m - 0x100000));
               pmm_reserve_range st 0x0 0x200000) = Some st' /\ pmm_wf st' /\ total_frames st' = total_frames st0 /\
    forall f, f ∈ free_set st' <->
      512 <= f < total_frames st0 /\ (existsb is_map l = true -> exists e, e ∈ all_entries l /\ usable e f).
Proof.
  intros Hr (Hwf & Htot & Hset) H0 Hm. destruct (existsb is_map l) eqn:Hmap; cbn [mbind option_bind].
  - destruct (reserve_low st Hwf) as (st' & E & Hwf' & Htot' & Hset'). exists st'. split_and!; [done|done|congruence|].
    intros f. rewrite Hset', Hset, H0, elem_of_empty.
    split; [intros [[[]|[? ?]] ?]; split; [lia|done]|intros [? He]; split; [right; split; [lia|by apply He]|lia]].
  - destruct (Hm eq_refl) as [-> Ht0]. change (u64 (0x180000000 - 0x100000)) with 0x17FF00000.
    destruct (pmm_add_available_range_ok st 0x100000 0x17FF00000 Hwf) as (st1 & -> & Hwf1 & Htot1 & Hset1); [lia..|].
    cbn [mbind option_bind]. destruct (reserve_low st1 Hwf1) as (st' & E & Hwf' & Htot' & Hset').
    exists st'. split_and!; [done|done|congruence|]. intros f. rewrite Hset', Hset1, elem_of_union, elem_of_frames, Hset, H0,
      elem_of_empty, (no_map_entries l Hmap), Htot.
    change (0x100000 / FRAME_SIZE) with 256. change ((0x100000 + 0x17FF00000 + 4095) / FRAME_SIZE) with 1572864.
    rewrite Ht0. change (frames_of_memory 0x180000000) with 1572864. setoid_rewrite elem_of_nil.
    split; [intros [[[[]|(_ & ? & [] & _)]|?] ?]; split; [lia|done]|intros [? _]; split; [right; lia|lia]].
Qed.

(** C36: the boot memory map is decoded and applied.  When the boot loader
    left the encoding of a list of tags, the boot ends with the memory
    manager well formed and sized for the highest end of any range (6 GiB if
    that is zero), and, with a memory map among the tags, free are exactly
    the frames from 2 MiB on, below the size, that a range of type 1
    touches; without one, all frames from 2 MiB on.  The loops end within
    as many rounds as the tags have bytes. *)
Theorem boot_memory_map mem l info fuel :
  Forall tag_ok l -> Forall in_range (all_entries l) -> holds mem info (encode_info l) -> 0 < info ->
  info + Z.of_nat (length (encode_info l)) < 2 ^ 64 -> Z.of_nat (length (encode_info l)) < 2 ^ 32 - 8 ->
  (length (encode_info l) < fuel)%nat ->
  let top := top_of (all_entries l) in
  let total := frames_of_memory (if top =? 0 then 0x180000000 else top) in
  exists st, boot_physical_memory mem fuel info = Ok st /\ pmm_wf st /\ total_frames st = total /\
    forall f, f ∈ free_set st <->
      512 <= f < total /\ (existsb is_map l = true -> exists e, e ∈ all_entries l /\ usable e f).
Proof.
  intros Hl Hr Hh Hi Hend Hlen Hf top total. unfold boot_physical_memory, get_multiboot_memory_top, mark_multiboot_memory.
  rewrite (proj2 (Z.eqb_neq info 0)) by lia. rewrite (scan_ok id higher mem l fuel info 0 Hl Hh ltac:(lia) Hend Hlen Hf).
  rewrite visit_tags_higher. cbn [outcome_of]. cbv zeta. change (foldl _ 0 (all_entries l)) with top.
  pose proof (top_range (all_entries l) 0 Hr ltac:(lia)) as Htop. change (foldl _ 0 (all_entries l)) with top in Htop.
  set (m := if top =? 0 then 0x180000000 else top) in *.
  assert (Hm : 0 <= m /\ m + 4095 < 2 ^ 64) by (unfold m; case_cmp; lia).
  destruct (pmm_initialize_ok pmm_boot m pmm_boot_ok (proj1 Hm) (proj2 Hm)) as (st & -> & Hwf & Htot & Hset).
  rewrite (scan_ok _ mark_entry mem l fuel info _ Hl Hh ltac:(lia) Hend Hlen Hf).
  destruct (visit_tags_mark l false st Hwf Hr) as (st1 & -> & Hadd). cbn [outcome_of orb].
  destruct (map_free l st st1 m Hr Hadd Hset) as (st2 & -> & Hwf2 & Htot2 & Hset2); [by intros Hno; split; [unfold m, top; rewrite (no_map_entries l Hno)|]|].
  exists st2. split; [done|]. split; [done|]. split; [by rewrite Htot2|]. intros f. rewrite Hset2, Htot. done.
Qed.

(** Without the pointer to the tags the memory is taken to be 6 GiB. *)
Lemma boot_default (m : Z) :
  match pmm_initialize pmm_boot m with
  | Some st =>
    match (st ← pmm_add_available_range st 0x100000 (u64 (m - 0x100000)); pmm_reserve_range st 0x0 0x200000) with
    | Some st => Ok st
    | None => Undef
    end
  | None => Undef
  end = match boot_memory m with Some st => Ok st | None => Undef end.
Proof. with_strategy transparent [boot_memory] unfold boot_memory. by destruct (pmm_initialize pmm_boot m). Qed.

Lemma default_memory mem fuel :
  exists st, boot_physical_memory mem fuel 0 = Ok st /\ pmm_wf st /\ forall f, f ∈ free_set st <-> 512 <= f < 0x180000.
Proof.
  destruct (boot_memory_ok 0x180000000) as (st & Hb & Hwf & _ & Hset); [lia|lia|]. exists st. split.
  - pose proof (boot_default 0x180000000) as H. rewrite Hb in H. exact H.
  - split; [done|]. intros f. rewrite Hset, elem_of_frames. reflexivity.
Qed.

(** A machine with 1 MiB of low memory, 15 MiB from 1 MiB on and a hole. *)
Definition sample_tags : list mtag :=
  [Other 4 [1; 2; 3];
   Mmap 24 0 [MEntry 0 0x9F000 1 (replicate 4 0); MEntry 0x100000 0x1F00000 1 (replicate 4 0);
              MEntry 0x2000000 0x100000 2 (replicate 4 0)]].

Definition sample_memory (a : Z) : Z := default 0 (encode_info sample_tags !! Z.to_nat (a - 0x9000)).

Lemma boot_memory_map_witness :
  exists st, boot_physical_memory sample_memory 200 0x9000 = Ok st /\ total_frames st = 8448 /\
    600 ∈ free_set st /\ 8200 ∉ free_set st.
Proof.
  destruct (boot_memory_map sample_memory sample_tags 0x9000 200) as (st & E & Hwf & Htot & Hset).
  - repeat (constructor; [cbn; unfold entry_ok; repeat (constructor || split); cbn; lia|]). constructor.
  - cbn. unfold in_range. repeat (constructor; [cbn; lia|]). constructor.
  - intros i b Hi. unfold sample_memory. replace (0x9000 + Z.of_nat i - 0x9000) with (Z.of_nat i) by lia.
    by rewrite Nat2Z.id, Hi.
  - lia.
  - by vm_compute.
  - by vm_compute.
  - vm_compute. lia.
  - exists st. split; [exact E|]. split; [exact Htot|]. rewrite !Hset. clear E Hset Htot. cbn. split.
    + split; [by vm_compute|]. intros _. exists (MEntry 0x100000 0x1F00000 1 (replicate 4 0)). split; [set_solver|].
      by vm_compute.
    + intros [_ H]. destruct (H eq_refl) as (e & He & Hu). revert He.
      rewrite !elem_of_cons. intros [->|[->|[->|[]%not_elem_of_nil]]]; destruct Hu as (Ht & _ & Hu); vm_compute in Ht, Hu; naive_solver.
Defined.

(** ** Termination *)

Section tags.
Context (mem : Z -> Z) (info : Z).

Definition info_end : Z := info + total_size mem info.

(** The places where the walk looks for a tag. *)
Inductive reached : Z -> Prop :=
| reached_first : reached (info + 8)
| reached_next p : reached p -> p < info_end -> tag_type mem p <> 0 -> reached (p + aligned (tag_size mem p)).

(** A tag that lets the walk go on: its rounded size is not zero, and the
    entries of a map have a size. *)
Definition tag_advances (p : Z) : Prop :=
  aligned (tag_size mem p) <> 0 /\ (tag_type mem p = 6 -> entry_size mem p <> 0 \/ tag_size mem p <= 16).

#[export] Instance tag_advances_dec p : Decision (tag_advances p).
Proof. unfold tag_advances. apply _. Defined.

Definition tags_advance : Prop := forall p, reached p -> p < info_end -> tag_type mem p <> 0 -> tag_advances p.
End tags.

Lemma read_range mem n a : 0 <= read mem n a < 256 ^ Z.of_nat n.
Proof.
  revert a. induction n as [|n IH]; intros a; [simpl; lia|]. cbn [read]. specialize (IH (a + 1)).
  rewrite Nat2Z.inj_succ, Z.pow_succ_r by lia. pose proof (u8_range (mem a)). lia.
Qed.

Lemma read_range32 mem a : 0 <= read mem 4 a < 2 ^ 32.
Proof. exact (read_range mem 4 a). Qed.

Lemma aligned_range size : 0 <= size < 2 ^ 32 -> 0 <= aligned size < 2 ^ 32.
Proof.
  intros Hs. unfold aligned. split; [apply Z.land_nonneg; left; apply u32_range|].
  apply testbit_high_range; [lia|apply Z.land_nonneg; left; apply u32_range|]. intros i Hi.
  rewrite Z.land_spec, (range_testbit_high 32 _ i (u32_range _) Hi). done.
Qed.

Lemma reached_ge mem info p : reached mem info p -> info + 8 <= p.
Proof.
  induction 1 as [|p Hp IH Hlt Ht]; [lia|]. pose proof (aligned_range _ (read_range32 mem (p + 4))).
  unfold tag_size in *. lia.
Qed.

Section termination.
Context {A : Type} (at_map : A -> A) (visit : Z -> Z -> Z -> A -> option A).
Context (P : A -> Prop) (Hmap : forall s, P s -> P (at_map s)).
Context (Hvisit : forall a l t s, 0 <= a -> P s -> exists s', visit a l t s = Some s' /\ P s').

Lemma scan_map_ends mem fuel p tag_end size s :
  0 <= p < 2 ^ 63 -> 1 <= size < 2 ^ 32 -> tag_end < 2 ^ 63 -> 0 < Z.of_nat fuel -> tag_end - p < Z.of_nat fuel -> P s ->
  exists s', scan_map mem visit fuel p tag_end size s = Ok s' /\ P s'.
Proof using Hvisit.
  clear at_map Hmap. intros Hp Hs Hend. revert p s Hp. induction fuel as [|fuel IH]; intros p s Hp H0 Hf HP; [lia|].
  cbn [scan_map]. case_cmp; [|by eexists].
  destruct (Hvisit (entry_addr mem p) (entry_len mem p) (entry_type mem p) s) as (s1 & -> & HP1); [apply read_range|done|].
  rewrite u64_small by lia. destruct (Z.lt_ge_cases (p + size) (2 ^ 63)); [apply IH; done || lia|].
  destruct fuel as [|fuel]; [lia|]. cbn [scan_map]. case_cmp; [lia|]. by eexists.
Qed.

Lemma scan_tags_ends mem info fuel0 fuel p s :
  0 <= info < 2 ^ 62 -> tags_advance mem info -> 2 ^ 32 < Z.of_nat fuel0 -> reached mem info p -> p < 2 ^ 63 ->
  0 < Z.of_nat fuel -> info_end mem info - p < Z.of_nat fuel -> P s ->
  exists s', scan_tags mem at_map visit fuel0 fuel p (info_end mem info) s = Ok s' /\ P s'.
Proof using All.
  intros Hi Hadv Hf0. pose proof (read_range32 mem info) as Htot. fold (total_size mem info) in Htot.
  revert p s. induction fuel as [|fuel IH]; intros p s Hp Hb H0 Hf HP; [lia|]. pose proof (reached_ge _ _ _ Hp) as Hge.
  cbn [scan_tags]. case_cmp; [|by eexists]. destruct (Z.eqb_spec (tag_type mem p) 0) as [|Hty]; [by eexists|].
  destruct (Hadv p Hp ltac:(done) Hty) as [Hal Hes]. pose proof (read_range32 mem (p + 4)) as Hsz.
  fold (tag_size mem p) in Hsz. pose proof (aligned_range _ Hsz) as Har.
  assert (Hstep : exists s1, (if tag_type mem p =? 6 then
     scan_map mem visit fuel0 (u64 (p + 16)) (u64 (p + tag_size mem p)) (entry_size mem p) (at_map s) else Ok s) = Ok s1 /\ P s1).
  { case_cmp; [|by eexists]. unfold info_end in *. pose proof (read_range32 mem (p + 8)) as He.
    fold (entry_size mem p) in He. rewrite !u64_small by lia. destruct (Hes ltac:(done)) as [Hne|Hle].
    - apply scan_map_ends; lia || by apply Hmap.
    - destruct fuel0 as [|fuel0]; [lia|]. cbn [scan_map]. case_cmp; [lia|]. eexists. split; [done|]. by apply Hmap. }
  destruct Hstep as (s1 & -> & HP1). unfold info_end in *. rewrite u64_small by lia.
  destruct fuel as [|fuel]; [lia|]. apply IH; try done; try lia. by apply reached_next.
Qed.

(** Without it, the walk does not return. *)
Definition diverges mem info (p : Z) : Prop :=
  forall fuel0 fuel s s', scan_tags mem at_map visit fuel0 fuel p (info_end mem info) s <> Ok s'.

Lemma scan_map_stuck mem fuel p tag_end s s' : 0 <= p < 2 ^ 64 -> p < tag_end ->
  scan_map mem visit fuel p tag_end 0 s <> Ok s'.
Proof using Type.
  clear at_map Hmap. intros Hp Hlt. revert s. induction fuel as [|fuel IH]; intros s; [done|]. cbn [scan_map].
  rewrite (proj2 (Z.ltb_lt _ _)) by lia. destruct (visit _ _ _ s) as [s1|]; [|done]. rewrite Z.add_0_r, u64_small by lia. apply IH.
Qed.

Lemma stuck_diverges mem info p :
  0 <= info < 2 ^ 62 -> reached mem info p -> p < info_end mem info -> tag_type mem p <> 0 -> ~ tag_advances mem p ->
  diverges mem info p.
Proof using Type.
  clear Hmap Hvisit P. intros Hi Hp Hlt Hty Hbad fuel0 fuel. pose proof (reached_ge _ _ _ Hp) as Hge.
  pose proof (read_range32 mem info) as Htot. fold (total_size mem info) in Htot.
  pose proof (read_range32 mem (p + 4)) as Hsz. fold (tag_size mem p) in Hsz.
  induction fuel as [|fuel IH]; intros s s'; [done|]. cbn [scan_tags].
  rewrite (proj2 (Z.ltb_lt _ _)) by lia. rewrite (proj2 (Z.eqb_neq _ _) Hty). unfold info_end in *.
  destruct (if tag_type mem p =? 6 then _ else _) as [s1| |] eqn:Estep; [|done|done].
  destruct (Z.eq_dec (aligned (tag_size mem p)) 0) as [Hz|Hz].
  - rewrite Hz, Z.add_0_r, u64_small by lia. apply IH.
  - exfalso. apply Hbad. split; [done|]. intros H6. rewrite H6 in Estep. cbn [Z.eqb Pos.eqb] in Estep.
    destruct (Z.eq_dec (entry_size mem p) 0) as [He|He]; [|by left]. right. rewrite He in Estep.
    destruct (Z.le_gt_cases (tag_size mem p) 16); [done|exfalso]. rewrite !u64_small in Estep by lia.
    revert Estep. apply scan_map_stuck; lia.
Qed.

Lemma reached_diverges mem info p :
  0 <= info < 2 ^ 62 -> reached mem info p -> diverges mem info p -> diverges mem info (info + 8).
Proof using Type.
  clear Hmap Hvisit P. intros Hi. induction 1 as [|p Hp IH Hlt Hty]; [done|]. intros Hd. apply IH.
  intros fuel0 [|fuel] s s'; [done|]. cbn [scan_tags]. rewrite (proj2 (Z.ltb_lt _ _)) by lia.
  rewrite (proj2 (Z.eqb_neq _ _) Hty). destruct (if tag_type mem p =? 6 then _ else _) as [s1| |]; [|done|done].
  pose proof (reached_ge _ _ _ Hp). pose proof (read_range32 mem info). pose proof (aligned_range _ (read_range32 mem (p + 4))).
  unfold info_end, total_size, tag_size in *. rewrite u64_small by lia. apply Hd.
Qed.
End termination.

(** Any range keeps the memory manager in order, those that wrap around
    included. *)
Lemma mark_total a l t (s : bool * pmm_t) :
  0 <= a -> pmm_wf s.2 -> exists s', mark_entry a l t s = Some s' /\ pmm_wf s'.2.
Proof.
  intros Ha Hwf. unfold mark_entry. case_cmp; [|by eexists]. unfold pmm_add_available_range. case_cmp; [by eexists|]. cbv zeta.
  destruct (add_loop_spec (Z.to_nat (range_end a l - range_start a)) (range_start a) (range_end a l) s.2 Hwf)
    as (st' & -> & Hwf' & _); [unfold range_start, FRAME_SIZE; lia|lia|]. by eexists.
Qed.

(** C37: when the walk over the tags ends.  For any contents of memory,
    [get_multiboot_memory_top] returns exactly when every tag that the walk
    reaches has a rounded size other than zero and every map among them has
    entries of a size other than zero (or no room for an entry); it then
    returns within 2^32 + 1 rounds, and so does [mark_multiboot_memory], which
    keeps the memory manager well formed whatever the ranges are.  A single
    tag of size zero makes the boot hang. *)
Theorem multiboot_scan_terminates mem info fuel st :
  0 < info < 2 ^ 62 -> 2 ^ 32 < Z.of_nat fuel -> pmm_wf st ->
  ((exists n top, get_multiboot_memory_top mem n info = Ok top) <-> tags_advance mem info) /\
  (tags_advance mem info ->
    (exists top, get_multiboot_memory_top mem fuel info = Ok top) /\
    (exists found st', mark_multiboot_memory mem fuel info st = Ok (found, st') /\ pmm_wf st')).
Proof.
  intros Hi Hf Hwf. unfold get_multiboot_memory_top, mark_multiboot_memory.
  rewrite (proj2 (Z.eqb_neq info 0)) by lia. pose proof (read_range32 mem info) as Htot. fold (total_size mem info) in Htot.
  unfold scan. rewrite !u64_small by lia. change (info + total_size mem info) with (info_end mem info).
  assert (Hends : tags_advance mem info -> (exists top, scan_tags mem id higher fuel fuel (info + 8) (info_end mem info) 0 = Ok top) /\
    (exists found st', scan_tags mem (fun s => (true, s.2)) mark_entry fuel fuel (info + 8) (info_end mem info) (false, st)
      = Ok (found, st') /\ pmm_wf st')).
  { intros Hadv. unfold info_end. split.
    - destruct (scan_tags_ends id higher (fun _ => True) ltac:(done) ltac:(by eexists) mem info fuel fuel (info + 8) 0)
        as (top & E & _); [done || (constructor; done) || (unfold info_end; lia)..|]. by exists top.
    - destruct (scan_tags_ends (fun s => (true, s.2)) mark_entry (fun s => pmm_wf s.2) ltac:(done) mark_total
        mem info fuel fuel (info + 8) (false, st)) as ([found st'] & E & Hwf');
        [done || (constructor; done) || (unfold info_end; lia)..|]. by exists found, st'. }
  split; [|exact Hends]. split.
  - intros (n & top & E) p Hp Hlt Hty. destruct (decide (tag_advances mem p)) as [|Hbad]; [done|exfalso].
    by apply (reached_diverges id higher mem info p ltac:(lia) Hp (stuck_diverges id higher mem info p ltac:(lia) Hp Hlt Hty Hbad)
      n n 0 top).
  - intros Hadv. exists fuel. by apply Hends.
Qed.

(** A structure of 16 bytes with one tag of type 1 and size zero. *)
Definition stuck_memory (a : Z) : Z := if a =? 0x9000 then 16 else if a =? 0x9008 then 1 else 0.

Lemma multiboot_scan_terminates_witness :
  ~ (exists n top, get_multiboot_memory_top stuck_memory n 0x9000 = Ok top) /\
  exists found st', mark_multiboot_memory sample_memory (Z.to_nat 5000000000) 0x9000 small_machine = Ok (found, st').
Proof.
  assert (Hf : 2 ^ 32 < Z.of_nat (Z.to_nat 5000000000)) by (rewrite Z2Nat.id; lia). split.
  - intros H. destruct (multiboot_scan_terminates stuck_memory 0x9000 (Z.to_nat 5000000000) small_machine ltac:(lia) Hf
      (proj1 small_machine_wf)) as [Hiff _].
    clear Hf. apply Hiff in H. specialize (H 0x9008 (reached_first _ _) ltac:(by vm_compute) ltac:(by vm_compute)).
    destruct H as [H _]. by vm_compute in H.
  - destruct (multiboot_scan_terminates sample_memory 0x9000 (Z.to_nat 5000000000) small_machine ltac:(lia) Hf
      (proj1 small_machine_wf)) as [_ Hends].
    clear Hf. destruct Hends as (_ & found & st' & E & _); [|exists found, st'; exact E].
    intros p Hp. remember 0x9000 as info eqn:Hinfo. revert Hinfo.
    assert (Hcases : info = 0x9000 -> p ∈ [0x9008; 0x9018; 0x9070]).
    { induction Hp as [|p Hp IH Hlt Ht]; intros ->; [set_solver|]. specialize (IH eq_refl).
      rewrite !elem_of_cons in IH. destruct IH as [->|[->|[->|[]%not_elem_of_nil]]]; vm_compute in Hlt, Ht |- *; set_solver. }
    intros ->. specialize (Hcases eq_refl). rewrite !elem_of_cons in Hcases.
    destruct Hcases as [->|[->|[->|[]%not_elem_of_nil]]]; intros Hlt Ht; apply (bool_decide_unpack _); vm_compute; done.
Defined.
