(* ===== verification/Start.v ===== *)
(** * The boot code ([src/boot.asm], [src/gdt.asm], [src/multiboot2.h])

    The header that the loader looks for, the segment table, and the
    instructions that take the processor from the 32-bit entry point [_start]
    through the far jump and the 64-bit code to [kernel_main]: they are data
    with an execution function.  The linker gives the addresses of the tables,
    the stack and the code.  Memory is a function
    from the addresses of 32-bit words. *)

From stdpp Require Import functions.
From S2P Require Import Prelude Io Pmm Syscalls Interrupts Boot.

(** ** The header *)

Definition MULTIBOOT2_HEADER_MAGIC : Z := 0xe85250d6.
Definition MULTIBOOT_ARCHITECTURE_I386 : Z := 0.
Definition MULTIBOOT_HEADER_TAG_END : Z := 0.

Record multiboot_header := MbHeader { mb_magic : Z; mb_architecture : Z; mb_header_length : Z; mb_checksum : Z }.
Record multiboot_header_tag := MbTag { mb_type : Z; mb_flags : Z; mb_size : Z }.
Record multiboot_tag_information_request := MbRequest { mb_request : multiboot_header_tag; mb_requests : list Z }.

Definition MAGIC : Z := 0xe85250d6.
Definition ARCH : Z := 0.

(** The data after the four words of the header, from the information request
    to [header_end]. *)
Definition header_tags : list Z :=
  le 2 1 ++ le 2 0 ++ le 4 16 ++ le 4 6 ++ le 4 0 ++ le 4 0 ++ le 2 0 ++ le 2 0 ++ le 4 8.
Definition header_length : Z := 16 + Z.of_nat (length header_tags).
Definition header_bytes : list Z :=
  le 4 MAGIC ++ le 4 ARCH ++ le 4 header_length ++ le 4 (u32 (- (MAGIC + ARCH + header_length))) ++ header_tags.

(** ** The segment table *)

Record descriptor := Desc { d_limit : Z; d_base_low : Z; d_base_mid : Z; d_access : Z; d_granularity : Z; d_base_high : Z }.

Definition null_descriptor : descriptor := Desc 0 0 0 0 0 0.
Definition gdt64 : list descriptor :=
  [null_descriptor; Desc 0xFFFF 0 0 0x9A 0xA0 0; Desc 0xFFFF 0 0 0x92 0xA0 0; Desc 0xFFFF 0 0 0xFA 0xA0 0;
   Desc 0xFFFF 0 0 0xF2 0xA0 0; null_descriptor; null_descriptor].
Definition gdt64_limit : Z := 8 * Z.of_nat (length gdt64) - 1.

(** What the processor reads in a descriptor. *)
Definition seg_present (d : descriptor) : bool := bit_test (d_access d) 7.
Definition seg_ring (d : descriptor) : Z := Z.land (Z.shiftr (d_access d) 5) 3.
Definition seg_code (d : descriptor) : bool := bit_test (d_access d) 4 && bit_test (d_access d) 3.
Definition seg_data (d : descriptor) : bool := bit_test (d_access d) 4 && negb (bit_test (d_access d) 3).
Definition seg_writable (d : descriptor) : bool := bit_test (d_access d) 1.
Definition seg_long (d : descriptor) : bool := bit_test (d_granularity d) 5 && negb (bit_test (d_granularity d) 6).

(** The descriptor that a selector names in the table with the given limit. *)
Definition segment (limit sel : Z) : option descriptor :=
  let i := Z.shiftr sel 3 in
  if (i =? 0) || (limit <? 8 * i + 7) then None else gdt64 !! Z.to_nat i.

(** ** The processor at the entry point *)

Inductive reg32 := EAX | EBX | ECX | EDX | ESI | EDI | ESP.
Inductive creg := CR0 | CR3 | CR4.

Inductive sreg := CS | DS | ES | FS | GS | SS.

#[export] Instance sreg_eq_dec : EqDecision sreg.
Proof. solve_decision. Defined.
#[export] Instance reg32_eq_dec : EqDecision reg32.
Proof. solve_decision. Defined.
#[export] Instance creg_eq_dec : EqDecision creg.
Proof. solve_decision. Defined.

(** [b_zf] is the zero flag, [b_if] the interrupt flag, [b_segs] the selectors
    in the segment registers.  In 64-bit mode a register stands for the whole
    one, EDI for RDI: a 32-bit write clears the high half. *)
Record boot_t := BootCpu {
  b_regs : reg32 -> Z; b_cregs : creg -> Z; b_msr : Z -> Z; b_gdtr : option (Z * Z); b_zf : bool; b_if : bool; b_mem : Z -> Z;
  b_segs : sreg -> Z
}.

Inductive operand := R (r : reg32) | I (v : Z).

(** The instructions of [boot.asm]; [Store b off s] writes 32 bits at address
    [b + off], and the 8 and 16 bit forms work on AL and AX. *)
Inductive instr32 :=
| Cli
| Mov (d : reg32) (s : operand)
| MovFromCr (d : reg32) (c : creg)
| MovToCr (c : creg) (s : reg32)
| AndAl (v : Z)
| OrAl (v : Z)
| OrAx (v : Z)
| Or (d : reg32) (s : operand)
| Add (d : reg32) (v : Z)
| Dec (d : reg32)
| Store (b : operand) (off : Z) (s : operand)
| Lgdt (limit base : Z)
| Rdmsr
| Wrmsr.

Definition value (m : boot_t) (o : operand) : Z := match o with R r => b_regs m r | I v => v end.

Definition set32 (d : reg32) (v : Z) (m : boot_t) : boot_t :=
  BootCpu (<[d := v]> (b_regs m)) (b_cregs m) (b_msr m) (b_gdtr m) (b_zf m) (b_if m) (b_mem m) (b_segs m).
Definition set_cr (c : creg) (v : Z) (m : boot_t) : boot_t :=
  BootCpu (b_regs m) (<[c := v]> (b_cregs m)) (b_msr m) (b_gdtr m) (b_zf m) (b_if m) (b_mem m) (b_segs m).
Definition set_zf (z : bool) (m : boot_t) : boot_t :=
  BootCpu (b_regs m) (b_cregs m) (b_msr m) (b_gdtr m) z (b_if m) (b_mem m) (b_segs m).

(** Arithmetic sets the zero flag from its result. *)
Definition alu (d : reg32) (v : Z) (m : boot_t) : boot_t := set_zf (v =? 0) (set32 d v m).

Definition exec32 (i : instr32) (m : boot_t) : boot_t :=
  match i with
  | Cli => BootCpu (b_regs m) (b_cregs m) (b_msr m) (b_gdtr m) (b_zf m) false (b_mem m) (b_segs m)
  | Mov d s => set32 d (value m s) m
  | MovFromCr d c => set32 d (b_cregs m c) m
  | MovToCr c s => set_cr c (b_regs m s) m
  | AndAl v =>
    let eax := b_regs m EAX in
    set_zf (Z.land (u8 eax) v =? 0) (set32 EAX (Z.lor (eax - u8 eax) (Z.land (u8 eax) v)) m)
  | OrAl v =>
    let eax := b_regs m EAX in
    set_zf (Z.lor (u8 eax) v =? 0) (set32 EAX (Z.lor (eax - u8 eax) (Z.lor (u8 eax) v)) m)
  | OrAx v =>
    let eax := b_regs m EAX in
    set_zf (Z.lor (u16 eax) v =? 0) (set32 EAX (Z.lor (eax - u16 eax) (Z.lor (u16 eax) v)) m)
  | Or d s => alu d (Z.lor (b_regs m d) (value m s)) m
  | Add d v => alu d (u32 (b_regs m d + v)) m
  | Dec d => alu d (u32 (b_regs m d - 1)) m
  | Store b off s =>
    BootCpu (b_regs m) (b_cregs m) (b_msr m) (b_gdtr m) (b_zf m) (b_if m) (<[u32 (value m b + off) := value m s]> (b_mem m))
      (b_segs m)
  | Lgdt l b => BootCpu (b_regs m) (b_cregs m) (b_msr m) (Some (l, b)) (b_zf m) (b_if m) (b_mem m) (b_segs m)
  | Rdmsr =>
    let v := b_msr m (b_regs m ECX) in
    set32 EDX (u32 (Z.shiftr v 32)) (set32 EAX (u32 v) m)
  | Wrmsr =>
    BootCpu (b_regs m) (b_cregs m) (<[b_regs m ECX := Z.lor (Z.shiftl (b_regs m EDX) 32) (b_regs m EAX)]> (b_msr m))
      (b_gdtr m) (b_zf m) (b_if m) (b_mem m) (b_segs m)
  end.

Fixpoint exec_list (l : list instr32) (m : boot_t) : boot_t :=
  match l with
  | [] => m
  | i :: l => exec_list l (exec32 i m)
  end.

Definition IA32_EFER : Z := 0xC0000080.

(** ** Address translation of the processor *)

Definition entry64 (m : Z -> Z) (a : Z) : Z := u32 (m a) + 2 ^ 32 * u32 (m (a + 4)).

(** The levels are given by their shifts; an entry with the size bit ends the
    walk at the levels of 1 GiB and 2 MiB pages. *)
Fixpoint walk (m : Z -> Z) (shifts : list Z) (table va : Z) : option Z :=
  match shifts with
  | [] => None
  | s :: shifts =>
    let e := entry64 m (table + 8 * (Z.shiftr va s mod 512)) in
    let frame w := e mod 2 ^ 52 / 2 ^ w * 2 ^ w in
    if negb (bit_test e 0) then None
    else if (s =? 12) || (bit_test e 7 && negb (s =? 39)) then Some (frame s + va mod 2 ^ s)
    else walk m shifts (frame 12) va
  end.

Definition translate (m : boot_t) (va : Z) : option Z := walk (b_mem m) [39; 30; 21; 12] (b_cregs m CR3) va.

(** ** Into 64-bit code *)

(** The instructions of [bits64_entry] that are executed. *)
Inductive instr64 := MovAx (v : Z) | MovSeg (s : sreg) | Call.

Definition set_seg (s : sreg) (v : Z) (m : boot_t) : boot_t :=
  BootCpu (b_regs m) (b_cregs m) (b_msr m) (b_gdtr m) (b_zf m) (b_if m) (b_mem m) (<[s := v]> (b_segs m)).

Definition set_bmem (f : Z -> Z) (m : boot_t) : boot_t :=
  BootCpu (b_regs m) (b_cregs m) (b_msr m) (b_gdtr m) (b_zf m) (b_if m) f (b_segs m).

Definition long_mode (m : boot_t) : bool :=
  bit_test (b_cregs m CR0) 31 && bit_test (b_cregs m CR0) 0 && bit_test (b_cregs m CR4) 5 && bit_test (b_msr m IA32_EFER) 8.

(** The descriptor of a selector in the table that was loaded. *)
Definition loaded_segment (m : boot_t) (sel : Z) : option descriptor :=
  '(limit, _) ← b_gdtr m; segment limit sel.

(** The far jump needs long mode and a 64-bit code segment of the kernel. *)
Definition far_jump (sel : Z) (m : boot_t) : option boot_t :=
  d ← loaded_segment m sel;
  if long_mode m && seg_present d && seg_code d && seg_long d && (seg_ring d =? 0) then Some (set_seg CS sel m) else None.

(** Loading a data segment register needs a writable data segment of the
    kernel; CS cannot be loaded this way. *)
Definition load_segment (s : sreg) (sel : Z) (m : boot_t) : option boot_t :=
  d ← loaded_segment m sel;
  if seg_present d && seg_data d && seg_writable d && (seg_ring d =? 0) && negb (bool_decide (s = CS))
  then Some (set_seg s sel m) else None.

(** Eight bytes at the top of the stack, through the page tables. *)
Definition push64 (v : Z) (m : boot_t) : option boot_t :=
  let sp := u64 (b_regs m ESP - 8) in
  lo ← translate m sp;
  hi ← translate m (sp + 4);
  Some (set32 ESP sp (set_bmem (<[hi := u32 (Z.shiftr v 32)]> (<[lo := u32 v]> (b_mem m))) m)).

(** A fault is [None]: there is no handler yet, so that the processor resets.
    [ret] is the address after the [call]. *)
Definition exec64 (ret : Z) (i : instr64) (m : boot_t) : option boot_t :=
  match i with
  | MovAx v => let eax := b_regs m EAX in Some (set32 EAX (Z.lor (eax - u16 eax) v) m)
  | MovSeg s => load_segment s (u16 (b_regs m EAX)) m
  | Call => push64 ret m
  end.

Fixpoint exec_list64 (ret : Z) (l : list instr64) (m : boot_t) : option boot_t :=
  match l with
  | [] => Some m
  | i :: l => m ← exec64 ret i m; exec_list64 ret l m
  end.

(** From [bits64_entry] to the first instruction of [kernel_main]. *)
Definition bits64_entry : list instr64 :=
  [MovAx 0x10; MovSeg DS; MovSeg ES; MovSeg FS; MovSeg GS; MovSeg SS; Call].

Section boot.
(** The addresses of [boot_pml4], [boot_pdpt], [stack_top], [gdt64] and of the
    instruction after [call kernel_main]. *)
Context (boot_pml4 boot_pdpt stack_top gdt64_addr halt_addr : Z).

(** From [_start] to [long_mode_paging_loop]. *)
Definition start_code : list instr32 :=
  [Cli;
   Mov EDI (R EBX);
   Mov ESI (R EAX);
   MovFromCr EAX CR0;
   AndAl 0xFB;
   OrAl 0x02;
   MovToCr CR0 EAX;
   MovFromCr EAX CR4;
   OrAx 0x600;
   MovToCr CR4 EAX;
   Mov ESP (I stack_top);
   Lgdt gdt64_limit gdt64_addr;
   Mov ECX (I boot_pdpt);
   Mov EBX (I 0);
   Mov EAX (I 0x00000083);
   Mov EDI (I 4)].

(** The body of the loop, repeated while the last result is not zero. *)
Definition long_mode_paging_loop : list instr32 :=
  [Mov EDX (R EBX);
   Or EDX (R EAX);
   Store (R ECX) 0 (R EDX);
   Store (R ECX) 4 (I 0);
   Add EBX 0x40000000;
   Add ECX 8;
   Dec EDI].

(** After the loop, up to the far jump. *)
Definition paging_code : list instr32 :=
  [Mov EAX (I boot_pdpt);
   Or EAX (I 0x03);
   Store (I boot_pml4) 0 (R EAX);
   Store (I boot_pml4) 4 (I 0);
   MovFromCr EAX CR4;
   Or EAX (I (Z.shiftl 1 5));
   MovToCr CR4 EAX;
   Mov ECX (I IA32_EFER);
   Rdmsr;
   Or EAX (I (Z.shiftl 1 8));
   Wrmsr;
   Mov EAX (I boot_pml4);
   MovToCr CR3 EAX;
   MovFromCr EAX CR0;
   Or EAX (I 0x80000001);
   MovToCr CR0 EAX].

Fixpoint repeat_loop (fuel : nat) (m : boot_t) : outcome boot_t :=
  match fuel with
  | O => NoFuel
  | S fuel =>
    let m := exec_list long_mode_paging_loop m in
    if b_zf m then Ok m else repeat_loop fuel m
  end.

(** The arguments of [kernel_main] and the machine that enters it.  The high
    halves of the registers are zero since reset. *)
Definition _start (fuel : nat) (m : boot_t) : outcome (Z * Z * boot_t) :=
  match repeat_loop fuel (exec_list start_code m) with
  | Ok m =>
    match far_jump 0x08 (exec_list paging_code m) ≫= exec_list64 halt_addr bits64_entry with
    | Some m => Ok (b_regs m EDI, b_regs m ESI, m)
    | None => Undef
    end
  | Undef => Undef
  | NoFuel => NoFuel
  end.
End boot.

(** ** The boot code, instruction by instruction *)

Section boot_proof.
Context (boot_pml4 boot_pdpt stack_top gdt64_addr : Z).

(** The tables are pages of the first 4 GiB that do not overlap each other nor
    the 16 KiB of the stack, which lies there too and is aligned to 16. *)
Record symbols_ok : Prop := {
  pml4_aligned : boot_pml4 mod 4096 = 0;
  pdpt_aligned : boot_pdpt mod 4096 = 0;
  pml4_range : 0 <= boot_pml4 /\ boot_pml4 + 4096 <= 2 ^ 32;
  pdpt_range : 0 <= boot_pdpt /\ boot_pdpt + 4096 <= 2 ^ 32;
  tables_apart : boot_pml4 <> boot_pdpt;
  stack_aligned : stack_top mod 16 = 0;
  stack_range : 16384 <= stack_top < 2 ^ 32;
  stack_apart_pml4 : stack_top <= boot_pml4 \/ boot_pml4 + 4096 <= stack_top - 16384;
  stack_apart_pdpt : stack_top <= boot_pdpt \/ boot_pdpt + 4096 <= stack_top - 16384
}.

(** Everything but the other general registers, the zero flag and the memory. *)
Record same_control (m m' : boot_t) : Prop := {
  same_cregs : b_cregs m' = b_cregs m;
  same_msr : b_msr m' = b_msr m;
  same_gdtr : b_gdtr m' = b_gdtr m;
  same_if : b_if m' = b_if m;
  same_esp : b_regs m' ESP = b_regs m ESP
}.

Lemma loop_step m :
  let m' := exec_list long_mode_paging_loop m in
  b_regs m' EAX = b_regs m EAX /\ b_regs m' ESI = b_regs m ESI /\ b_regs m' EBX = u32 (b_regs m EBX + 0x40000000) /\
  b_regs m' ECX = u32 (b_regs m ECX + 8) /\ b_regs m' EDI = u32 (b_regs m EDI - 1) /\
  b_zf m' = (u32 (b_regs m EDI - 1) =? 0) /\ same_control m m' /\
  b_mem m' = <[u32 (b_regs m ECX + 4) := 0]> (<[u32 (b_regs m ECX + 0) := Z.lor (b_regs m EBX) (b_regs m EAX)]> (b_mem m)).
Proof. repeat (split; [reflexivity|]). split; [by split|]. reflexivity. Qed.

Lemma boot_gigabyte_entry k : 0 <= k < 4 -> Z.lor (k * 0x40000000) 0x83 = k * 0x40000000 + 0x83.
Proof. intros Hk. assert (k = 0 \/ k = 1 \/ k = 2 \/ k = 3) as [-> | [-> | [-> | ->]]] by lia; reflexivity. Qed.

(** From entry [k] on, with [n] rounds to go. *)
Lemma repeat_loop_ok n fuel k m :
  symbols_ok -> 0 <= k -> (0 < n)%nat -> k + Z.of_nat n <= 4 -> (n <= fuel)%nat ->
  b_regs m EAX = 0x83 -> b_regs m EBX = k * 0x40000000 -> b_regs m ECX = boot_pdpt + 8 * k -> b_regs m EDI = Z.of_nat n ->
  exists m', repeat_loop fuel m = Ok m' /\ b_regs m' EDI = 0 /\ b_regs m' ESI = b_regs m ESI /\ same_control m m' /\
    (forall j, k <= j < k + Z.of_nat n -> b_mem m' (boot_pdpt + 8 * j) = j * 0x40000000 + 0x83 /\ b_mem m' (boot_pdpt + 8 * j + 4) = 0) /\
    (forall a, a < boot_pdpt + 8 * k \/ boot_pdpt + 8 * (k + Z.of_nat n) <= a -> b_mem m' a = b_mem m a).
Proof.
  intros Hs. pose proof (pdpt_range Hs) as Hr. change (2 ^ 32) with 4294967296 in Hr.
  revert fuel k m. induction n as [|n IH]; intros fuel k m Hk Hn Hle Hf Ha Hb Hc Hd; [lia|].
  destruct fuel as [|fuel]; [lia|]. cbn [repeat_loop]. set (m1 := exec_list long_mode_paging_loop m).
  destruct (loop_step m) as (A1 & A2 & A3 & A4 & A5 & A6 & A7 & A8). fold m1 in A1, A2, A3, A4, A5, A6, A7, A8. clearbody m1.
  rewrite Hc, Hb, Ha, boot_gigabyte_entry in A8 by lia. rewrite !(u32_small (boot_pdpt + _ + _)) in A8 by lia.
  rewrite Hd in A5, A6. rewrite (u32_small (Z.of_nat (S n) - 1)) in A5, A6 by lia. rewrite A6.
  destruct (Z.eqb_spec (Z.of_nat (S n) - 1) 0) as [E|E].
  - exists m1. split; [done|]. split; [lia|]. split; [done|]. split; [done|]. rewrite A8. split.
    + intros j Hj. replace j with k by lia. rewrite fn_lookup_insert_ne, Z.add_0_r, !fn_lookup_insert by lia. done.
    + intros a Haa. by rewrite !fn_lookup_insert_ne by lia.
  - destruct (IH fuel (k + 1) m1) as (m' & R1 & R2 & R3 & R4 & R5 & R6); try lia.
    { rewrite A3, Hb. nowrap. lia. } { rewrite A4, Hc. nowrap. lia. }
    exists m'. split; [done|]. split; [done|]. split; [congruence|]. split; [destruct A7, R4; split; congruence|]. split.
    + intros j Hj. destruct (decide (j = k)) as [->|Hne]; [|apply R5; lia]. rewrite !R6 by lia. rewrite A8.
      rewrite fn_lookup_insert_ne, Z.add_0_r, !fn_lookup_insert by lia. done.
    + intros a Haa. rewrite R6, A8 by lia. by rewrite !fn_lookup_insert_ne by lia.
Qed.

Definition cr0_sse (x : Z) : Z :=
  let y := Z.lor (x - u8 x) (Z.land (u8 x) 0xFB) in Z.lor (y - u8 y) (Z.lor (u8 y) 0x02).
Definition cr4_sse (x : Z) : Z := Z.lor (x - u16 x) (Z.lor (u16 x) 0x600).

Lemma start_code_eq m :
  let m' := exec_list (start_code boot_pdpt stack_top gdt64_addr) m in
  b_regs m' EAX = 0x83 /\ b_regs m' EBX = 0 /\ b_regs m' ECX = boot_pdpt /\ b_regs m' EDI = 4 /\
  b_regs m' ESI = b_regs m EAX /\ b_if m' = false /\ b_gdtr m' = Some (gdt64_limit, gdt64_addr) /\ b_mem m' = b_mem m /\
  b_msr m' = b_msr m /\ b_cregs m' CR0 = cr0_sse (b_cregs m CR0) /\ b_cregs m' CR4 = cr4_sse (b_cregs m CR4) /\
  b_regs m' ESP = stack_top.
Proof. split_and!; reflexivity. Qed.

Lemma paging_code_eq m :
  let m' := exec_list (paging_code boot_pml4 boot_pdpt) m in
  let efer := b_msr m IA32_EFER in
  b_regs m' EDI = b_regs m EDI /\ b_regs m' ESI = b_regs m ESI /\ b_if m' = b_if m /\ b_gdtr m' = b_gdtr m /\
  b_mem m' = <[u32 (boot_pml4 + 4) := 0]> (<[u32 (boot_pml4 + 0) := Z.lor boot_pdpt 0x03]> (b_mem m)) /\
  b_cregs m' CR3 = boot_pml4 /\ b_cregs m' CR4 = Z.lor (b_cregs m CR4) 32 /\
  b_cregs m' CR0 = Z.lor (b_cregs m CR0) 0x80000001 /\
  b_msr m' IA32_EFER = Z.lor (Z.shiftl (u32 (Z.shiftr efer 32)) 32) (Z.lor (u32 efer) 256) /\
  b_regs m' ESP = b_regs m ESP.
Proof. split_and!; reflexivity. Qed.

Lemma replace_low_testbit w x b i :
  0 <= w -> 0 <= b < 2 ^ w -> 0 <= i ->
  Z.testbit (Z.lor (x - wrap w x) b) i = if i <? w then Z.testbit b i else Z.testbit x i.
Proof.
  intros Hw Hb Hi. rewrite Z.lor_spec.
  replace (x - wrap w x) with (Z.shiftl (Z.shiftr x w) w).
  2: { rewrite Z.shiftl_mul_pow2, Z.shiftr_div_pow2 by done. unfold wrap.
       pose proof (Z.div_mod x (2 ^ w) ltac:(lia)). lia. }
  rewrite Z.shiftl_spec by done. case_cmp.
  - by rewrite Z.testbit_neg_r by lia.
  - rewrite Z.shiftr_spec by lia. replace (i - w + w) with i by lia.
    rewrite (range_testbit_high w b i) by lia. apply orb_false_r.
Qed.

(** The tables that the boot code leaves in memory. *)
Record boot_tables (f : Z -> Z) : Prop := {
  tables_root : f boot_pml4 = boot_pdpt + 3 /\ f (boot_pml4 + 4) = 0;
  tables_root_rest i : 1 <= i < 512 -> f (boot_pml4 + 8 * i) = 0 /\ f (boot_pml4 + 8 * i + 4) = 0;
  tables_pages j : 0 <= j < 4 -> f (boot_pdpt + 8 * j) = j * 0x40000000 + 0x83 /\ f (boot_pdpt + 8 * j + 4) = 0;
  tables_pages_rest j : 4 <= j < 512 -> f (boot_pdpt + 8 * j) = 0 /\ f (boot_pdpt + 8 * j + 4) = 0
}.

Lemma walk_cons f s shifts table va :
  walk f (s :: shifts) table va =
  let e := entry64 f (table + 8 * (Z.shiftr va s mod 512)) in
  let frame w := e mod 2 ^ 52 / 2 ^ w * 2 ^ w in
  if negb (bit_test e 0) then None
  else if (s =? 12) || (bit_test e 7 && negb (s =? 39)) then Some (frame s + va mod 2 ^ s)
  else walk f shifts (frame 12) va.
Proof. reflexivity. Qed.

Lemma walk_low f va :
  symbols_ok -> boot_tables f -> 0 <= va < 2 ^ 39 ->
  walk f [39; 30; 21; 12] boot_pml4 va = walk f [30; 21; 12] boot_pdpt va.
Proof.
  intros Hs Ht Hva. pose proof (pdpt_range Hs) as Hr. pose proof (pdpt_aligned Hs) as Hal.
  change (2 ^ 32) with 4294967296 in Hr. rewrite (walk_cons f 39). cbv zeta.
  replace (Z.shiftr va 39) with 0 by (rewrite Z.shiftr_div_pow2 by lia; symmetry; by apply Z.div_small).
  change (8 * (0 mod 512)) with 0. rewrite Z.add_0_r. unfold entry64. destruct (tables_root f Ht) as [-> ->].
  change (u32 0) with 0. rewrite Z.mul_0_r, Z.add_0_r. nowrap.
  replace (bit_test (boot_pdpt + 3) 0) with true.
  2: { rewrite bit_test_testbit, Z.bit0_odd by done. symmetry. apply Z.odd_spec. exists (boot_pdpt / 2 + 1). lia. }
  cbn [negb Z.eqb Pos.eqb orb]. rewrite andb_false_r. cbn [orb]. f_equal.
  change (2 ^ 52) with 4503599627370496. change (2 ^ 12) with 4096. rewrite Z.mod_small by lia. lia.
Qed.

Lemma walk_mapped f va :
  symbols_ok -> boot_tables f -> 0 <= va < 2 ^ 32 -> walk f [39; 30; 21; 12] boot_pml4 va = Some va.
Proof.
  intros Hs Ht Hva. change (2 ^ 32) with 4294967296 in Hva.
  rewrite walk_low by (done || change (2 ^ 39) with 549755813888; lia). rewrite walk_cons. cbv zeta. rewrite Z.shiftr_div_pow2 by lia.
  change (2 ^ 30) with 1073741824. assert (Hj : 0 <= va / 1073741824 < 4) by lia.
  rewrite (Z.mod_small _ 512) by lia. unfold entry64. destruct (tables_pages f Ht _ Hj) as [-> ->].
  change (u32 0) with 0. rewrite Z.mul_0_r, Z.add_0_r. nowrap.
  pose proof (Z.div_mod va 1073741824 ltac:(lia)).
  assert (va / 1073741824 = 0 \/ va / 1073741824 = 1 \/ va / 1073741824 = 2 \/ va / 1073741824 = 3) as [E | [E | [E | E]]] by lia;
    rewrite E in *;
    repeat match goal with
    | |- context [bit_test ?e ?b] => let v := eval vm_compute in (bit_test e b) in change (bit_test e b) with v
    end; cbn [negb andb orb Z.eqb Pos.eqb]; f_equal; change (2 ^ 52) with 4503599627370496; lia.
Qed.

Lemma walk_unmapped f va :
  symbols_ok -> boot_tables f -> 2 ^ 32 <= va < 2 ^ 48 -> walk f [39; 30; 21; 12] boot_pml4 va = None.
Proof.
  intros Hs Ht Hva. change (2 ^ 32) with 4294967296 in Hva. change (2 ^ 48) with 281474976710656 in Hva.
  destruct (Z.lt_ge_cases va (2 ^ 39)) as [Hlt|Hge].
  - rewrite walk_low by (done || lia). change (2 ^ 39) with 549755813888 in Hlt. rewrite walk_cons. cbv zeta. rewrite Z.shiftr_div_pow2 by lia.
    change (2 ^ 30) with 1073741824. rewrite (Z.mod_small _ 512) by lia. unfold entry64.
    destruct (tables_pages_rest f Ht (va / 1073741824)) as [-> ->]; [lia|]. done.
  - change (2 ^ 39) with 549755813888 in Hge. rewrite walk_cons. cbv zeta. rewrite Z.shiftr_div_pow2 by lia.
    change (2 ^ 39) with 549755813888. rewrite (Z.mod_small _ 512) by lia. unfold entry64.
    destruct (tables_root_rest f Ht (va / 549755813888)) as [-> ->]; [lia|]. done.
Qed.

(** The loader clears the pages of the tables, which lie in the BSS. *)
Definition tables_clear (f : Z -> Z) : Prop :=
  forall i, 0 <= i < 1024 -> f (boot_pml4 + 4 * i) = 0 /\ f (boot_pdpt + 4 * i) = 0.

Lemma boot_tables_ok f f1 :
  symbols_ok -> tables_clear f ->
  (forall j, 0 <= j < 4 -> f1 (boot_pdpt + 8 * j) = j * 0x40000000 + 0x83 /\ f1 (boot_pdpt + 8 * j + 4) = 0) ->
  (forall a, a < boot_pdpt \/ boot_pdpt + 32 <= a -> f1 a = f a) ->
  boot_tables (<[u32 (boot_pml4 + 4) := 0]> (<[u32 (boot_pml4 + 0) := Z.lor boot_pdpt 0x03]> f1)).
Proof.
  intros Hs Hc Hp Hrest. pose proof (pdpt_range Hs) as Hr. pose proof (pdpt_aligned Hs) as Hal.
  pose proof (pml4_range Hs) as Hr'. pose proof (pml4_aligned Hs) as Hal'. pose proof (tables_apart Hs) as Hne.
  change (2 ^ 32) with 4294967296 in Hr, Hr'. rewrite Z.add_0_r. nowrap.
  assert (Hgap : boot_pml4 + 4096 <= boot_pdpt \/ boot_pdpt + 4096 <= boot_pml4) by lia.
  assert (Hlor : Z.lor boot_pdpt 3 = boot_pdpt + 3).
  { rewrite <- Z.add_lor_land. replace (Z.land boot_pdpt 3) with (boot_pdpt mod 4) by (change 3 with (Z.ones 2); by rewrite Z.land_ones).
    lia. }
  assert (Hz : forall i, 0 <= i < 1024 -> f (boot_pml4 + 4 * i) = 0) by (intros i Hi; by apply Hc).
  assert (Hz' : forall i, 0 <= i < 1024 -> f (boot_pdpt + 4 * i) = 0) by (intros i Hi; by apply Hc).
  split.
  - split; [rewrite fn_lookup_insert_ne, fn_lookup_insert by lia; exact Hlor|by rewrite fn_lookup_insert].
  - intros i Hi. rewrite !fn_lookup_insert_ne, !Hrest by lia.
    replace (8 * i) with (4 * (2 * i)) by lia. replace (boot_pml4 + 4 * (2 * i) + 4) with (boot_pml4 + 4 * (2 * i + 1)) by lia.
    split; apply Hz; lia.
  - intros j Hj. rewrite !fn_lookup_insert_ne by lia. by apply Hp.
  - intros j Hj. rewrite !fn_lookup_insert_ne, !Hrest by lia.
    replace (8 * j) with (4 * (2 * j)) by lia. replace (boot_pdpt + 4 * (2 * j) + 4) with (boot_pdpt + 4 * (2 * j + 1)) by lia.
    split; apply Hz'; lia.
Qed.

(** The call writes to the stack, not to the tables. *)
Lemma boot_tables_push f lo hi :
  symbols_ok -> boot_tables f -> boot_tables (<[stack_top - 4 := hi]> (<[stack_top - 8 := lo]> f)).
Proof.
  intros Hs [T1 T2 T3 T4]. pose proof (stack_apart_pml4 Hs). pose proof (stack_apart_pdpt Hs).
  split; intros; rewrite !fn_lookup_insert_ne by lia; auto.
Qed.

Lemma u8_land_range x v : 0 <= v < 256 -> 0 <= Z.land (u8 x) v < 256.
Proof.
  intros Hv. pose proof (u8_range x). change 256 with (2 ^ 8) in *. apply Z.bounded_iff_bits_nonneg'; [lia|apply Z.land_nonneg; lia|].
  intros i Hi. by rewrite Z.land_spec, (range_testbit_high 8 v i), andb_false_r by lia.
Qed.

Lemma cr0_sse_testbit x i :
  0 <= i -> Z.testbit (cr0_sse x) i = if i <? 8 then Z.testbit (u8 x) i && Z.testbit 0xFB i || Z.testbit 0x02 i else Z.testbit x i.
Proof.
  intros Hi. unfold cr0_sse. pose proof (u8_land_range x 0xFB ltac:(lia)) as Hl. set (y := Z.lor (x - u8 x) _).
  pose proof (u8_range y). rewrite (replace_low_testbit 8) by (done || apply (lor_range 8); lia). case_cmp.
  - rewrite Z.lor_spec. f_equal. unfold u8 at 1. rewrite wrap_testbit by lia.
    replace (i <? 8) with true by (symmetry; apply Z.ltb_lt; lia). cbn [andb]. unfold y.
    rewrite (replace_low_testbit 8) by (done || lia). replace (i <? 8) with true by (symmetry; apply Z.ltb_lt; lia). apply Z.land_spec.
  - unfold y. rewrite (replace_low_testbit 8) by (done || lia). by destruct (Z.ltb_spec i 8); [lia|].
Qed.
End boot_proof.

Lemma long_mode_on x0 x4 efer :
  bit_test (Z.lor x0 0x80000001) 31 && bit_test (Z.lor x0 0x80000001) 0 && bit_test (Z.lor x4 32) 5 &&
  bit_test (Z.lor (Z.shiftl (u32 (Z.shiftr efer 32)) 32) (Z.lor (u32 efer) 256)) 8 = true.
Proof.
  generalize (Z.shiftl (u32 (Z.shiftr efer 32)) 32) (u32 efer). intros a b. rewrite !bit_test_testbit by done.
  rewrite !Z.lor_spec. replace (Z.testbit 0x80000001 31) with true by reflexivity.
  replace (Z.testbit 0x80000001 0) with true by reflexivity. replace (Z.testbit 32 5) with true by reflexivity.
  replace (Z.testbit 256 8) with true by reflexivity. by rewrite !orb_true_r.
Qed.

(** A selector of the kernel's data segment in AX. *)
Lemma load_data_ok ret base s m :
  b_gdtr m = Some (gdt64_limit, base) -> u16 (b_regs m EAX) = 0x10 -> s <> CS -> exec64 ret (MovSeg s) m = Some (set_seg s 0x10 m).
Proof.
  intros Hg Ha Hs. cbn [exec64]. rewrite Ha. unfold load_segment, loaded_segment. rewrite Hg. cbn [mbind option_bind].
  rewrite (bool_decide_eq_false_2 _ Hs). reflexivity.
Qed.

Lemma load_all_ok ret base l m :
  b_gdtr m = Some (gdt64_limit, base) -> u16 (b_regs m EAX) = 0x10 -> CS ∉ l ->
  exec_list64 ret (map MovSeg l ++ [Call]) m =
  push64 ret (BootCpu (b_regs m) (b_cregs m) (b_msr m) (b_gdtr m) (b_zf m) (b_if m) (b_mem m)
    (foldl (fun f s => <[s := 0x10]> f) (b_segs m) l)).
Proof.
  revert m. induction l as [|s l IH]; intros m Hg Ha Hl; cbn [map app exec_list64 foldl].
  - cbn [exec64]. destruct m. by destruct (push64 ret _).
  - apply not_elem_of_cons in Hl as [Hs Hl]. rewrite (load_data_ok ret base) by (done || congruence). cbn [mbind option_bind].
    by rewrite IH.
Qed.

(** The 64-bit code, once the tables map the first 4 GiB. *)
Lemma bits64_ok ret base m :
  b_gdtr m = Some (gdt64_limit, base) -> long_mode m = true -> 8 <= b_regs m ESP <= 2 ^ 32 ->
  (forall va, 0 <= va < 2 ^ 32 -> translate m va = Some va) ->
  exists m', far_jump 0x08 m ≫= exec_list64 ret bits64_entry = Some m' /\
    b_regs m' EDI = b_regs m EDI /\ b_regs m' ESI = b_regs m ESI /\ b_if m' = b_if m /\ b_cregs m' = b_cregs m /\
    b_gdtr m' = b_gdtr m /\ b_regs m' ESP = b_regs m ESP - 8 /\
    b_mem m' = <[b_regs m ESP - 4 := u32 (Z.shiftr ret 32)]> (<[b_regs m ESP - 8 := u32 ret]> (b_mem m)) /\
    b_segs m' CS = 0x08 /\ forall s, s <> CS -> b_segs m' s = 0x10.
Proof.
  intros Hg Hl Hsp Ht. change (2 ^ 32) with 4294967296 in *.
  unfold far_jump, loaded_segment. rewrite Hg, Hl. cbn [mbind option_bind]. set (ax := Z.lor (b_regs m EAX - u16 (b_regs m EAX)) 0x10).
  assert (Hax : u16 ax = 0x10).
  { unfold ax, u16. apply (word_eq_testbit 16); [by apply wrap_range|lia|]. intros i Hi. rewrite wrap_testbit by lia.
    rewrite (replace_low_testbit 16) by lia. by rewrite (proj2 (Z.ltb_lt i 16)) by lia. }
  change (segment gdt64_limit 8) with (Some (Desc 0xFFFF 0 0 0x9A 0xA0 0)). cbn [mbind option_bind].
  change (true && _ && _ && _ && _) with true. cbv iota.
  change bits64_entry with (MovAx 0x10 :: (map MovSeg [DS; ES; FS; GS; SS] ++ [Call])). cbn [mbind option_bind].
  change (exec_list64 ret (MovAx 0x10 :: ?l) ?x) with (exec_list64 ret l (set32 EAX ax x)).
  rewrite (load_all_ok ret base) by (done || (by vm_compute) || set_solver). cbn [b_regs b_cregs b_msr b_gdtr b_zf b_if b_mem set32 set_seg].
  unfold push64. cbn [b_regs set32]. rewrite fn_lookup_insert_ne by done.
  unfold u64, wrap. rewrite (Z.mod_small (_ - 8)) by (change (2 ^ 64) with 18446744073709551616; lia).
  unfold translate in Ht |- *. cbn [b_mem b_cregs]. rewrite !Ht by lia. cbn [mbind option_bind].
  eexists. split; [reflexivity|]. cbn [b_regs b_cregs b_msr b_gdtr b_zf b_if b_mem b_segs set32 set_bmem].
  replace (b_regs m ESP - 8 + 4) with (b_regs m ESP - 4) by lia. split_and!; try done.
  intros s Hs. by destruct s.
Qed.

Lemma start_ok boot_pml4 boot_pdpt stack_top gdt64_addr halt_addr fuel m :
  symbols_ok boot_pml4 boot_pdpt stack_top -> tables_clear boot_pml4 boot_pdpt (b_mem m) -> (4 <= fuel)%nat ->
  exists info m', _start boot_pml4 boot_pdpt stack_top gdt64_addr halt_addr fuel m = Ok (info, b_regs m EAX, m') /\
    b_if m' = false /\ bit_test (b_cregs m' CR0) 2 = false /\ bit_test (b_cregs m' CR4) 9 = true /\
    (forall va, 0 <= va < 2 ^ 48 -> translate m' va = if va <? 2 ^ 32 then Some va else None) /\
    b_gdtr m' = Some (gdt64_limit, gdt64_addr) /\ b_segs m' CS = 0x08 /\ (forall s, s <> CS -> b_segs m' s = 0x10) /\
    b_regs m' ESP = stack_top - 8 /\ b_mem m' (stack_top - 8) = u32 halt_addr /\
    b_mem m' (stack_top - 4) = u32 (Z.shiftr halt_addr 32) /\
    info = 0 /\
    forall mem fuel', exists st, boot_physical_memory mem fuel' info = Ok st /\ pmm_wf st /\
      forall f, f ∈ free_set st <-> 512 <= f < 0x180000.
Proof.
  intros Hs Hclear Hf.
  destruct (start_code_eq boot_pdpt stack_top gdt64_addr m) as (A1 & A2 & A3 & A4 & A5 & A6 & A7 & A8 & A9 & A10 & A11 & A12).
  unfold _start. set (m0 := exec_list (start_code boot_pdpt stack_top gdt64_addr) m) in *. clearbody m0.
  destruct (repeat_loop_ok boot_pml4 boot_pdpt stack_top 4 fuel 0 m0 Hs) as (m1 & R1 & R2 & R3 & R4 & R5 & R6);
    [done|lia|done|done|done|done|rewrite A3; lia|done|]. rewrite R1. destruct R4 as [C1 C2 C3 C4 C5].
  destruct (paging_code_eq boot_pml4 boot_pdpt m1) as (B1 & B2 & B3 & B4 & B5 & B6 & B7 & B8 & B9 & B10).
  set (m2 := exec_list (paging_code boot_pml4 boot_pdpt) m1) in *. clearbody m2.
  assert (Hl : long_mode m2 = true) by (unfold long_mode; rewrite B7, B8, B9; apply long_mode_on).
  assert (Hrest : forall a, a < boot_pdpt \/ boot_pdpt + 32 <= a -> b_mem m1 a = b_mem m a)
    by (intros a Ha; rewrite R6 by lia; exact (f_equal (fun f => f a) A8)).
  pose proof (boot_tables_ok boot_pml4 boot_pdpt stack_top (b_mem m) (b_mem m1) Hs Hclear R5 Hrest) as Ht. rewrite <- B5 in Ht.
  pose proof (stack_range _ _ _ Hs) as Hsp. change (2 ^ 32) with 4294967296 in Hsp.
  destruct (bits64_ok halt_addr gdt64_addr m2) as (m3 & D0 & D1 & D2 & D3 & D4 & D5 & D6 & D7 & D8 & D9); [congruence|done|lia| |].
  { intros va Hva. unfold translate. rewrite B6. by apply (walk_mapped boot_pml4 boot_pdpt stack_top). }
  rewrite B10, C5, A12 in D6, D7.
  assert (Ht' : boot_tables boot_pml4 boot_pdpt (b_mem m3)) by (rewrite D7; by apply boot_tables_push).
  rewrite D0. exists (b_regs m3 EDI), m3. rewrite D2, B2, R3, A5. split; [done|]. split; [by rewrite D3, B3, C4|].
  rewrite D4, D5, D7, D8. split_and!; try done; try congruence.
  - rewrite B8, C1, A10, bit_test_testbit, Z.lor_spec, cr0_sse_testbit by done.
    replace (Z.testbit 0xFB 2) with false by reflexivity. by rewrite andb_false_r.
  - rewrite B7, C1, A11, bit_test_testbit, !Z.lor_spec by done. unfold cr4_sse. rewrite !Z.lor_spec.
    replace (Z.testbit 0x600 9) with true by reflexivity. by rewrite !orb_true_r.
  - intros va Hva. unfold translate. rewrite D4, B6.
    destruct (Z.ltb_spec va (2 ^ 32)); [apply (walk_mapped boot_pml4 boot_pdpt stack_top); (done || lia)|
      apply (walk_unmapped boot_pml4 boot_pdpt stack_top); (done || lia)].
  - by rewrite fn_lookup_insert_ne, fn_lookup_insert by lia.
  - by rewrite fn_lookup_insert.
  - intros. rewrite D1, B1, R2. apply default_memory.
Qed.

(** C16: the boot code. From any state of the processor at [_start], with
    clear tables that like the stack lie in the first 4 GiB and do not overlap
    it or each other, the code enters [kernel_main] in long mode with a 64-bit
    code segment and writable data segments of the table of [gdt.asm],
    interrupts off, the SSE instructions enabled, the return address of the
    [call] in the eight bytes at the top of the stack and the stack pointer
    there, and the page tables map each address of the first 4 GiB to itself
    and nothing else.  The second argument is the magic number that the
    loader left in EAX; the first is zero whatever pointer the loader left in
    EBX, because the loop that builds the page tables counts down EDI, where
    the pointer was saved.  So the kernel never sees the memory map: it always
    takes the memory to be 6 GiB, and the frames it hands out are those from
    2 MiB up to 6 GiB. *)
Theorem boot_enters_kernel boot_pml4 boot_pdpt stack_top gdt64_addr halt_addr fuel m :
  symbols_ok boot_pml4 boot_pdpt stack_top -> tables_clear boot_pml4 boot_pdpt (b_mem m) -> (4 <= fuel)%nat ->
  exists info m', _start boot_pml4 boot_pdpt stack_top gdt64_addr halt_addr fuel m = Ok (info, b_regs m EAX, m') /\
    b_if m' = false /\ bit_test (b_cregs m' CR0) 2 = false /\ bit_test (b_cregs m' CR4) 9 = true /\
    (forall va, 0 <= va < 2 ^ 48 -> translate m' va = if va <? 2 ^ 32 then Some va else None) /\
    b_gdtr m' = Some (gdt64_limit, gdt64_addr) /\ b_segs m' CS = 0x08 /\ (forall s, s <> CS -> b_segs m' s = 0x10) /\
    b_regs m' ESP = stack_top - 8 /\ b_mem m' (stack_top - 8) = u32 halt_addr /\
    b_mem m' (stack_top - 4) = u32 (Z.shiftr halt_addr 32) /\
    info = 0 /\
    forall mem fuel', exists st, boot_physical_memory mem fuel' info = Ok st /\ pmm_wf st /\
      forall f, f ∈ free_set st <-> 512 <= f < 0x180000.
Proof. apply start_ok. Qed.

(** The state in which a loader enters: protected mode, the magic number in
    EAX, the address of the information in EBX. *)
Definition loader_state : boot_t :=
  BootCpu (fun r => match r with EAX => 0x36d76289 | EBX => 0x9000 | _ => 0 end)
    (fun c => match c with CR0 => 0x11 | _ => 0 end) (fun _ => 0) None false false (fun _ => 0)
    (fun _ => 0).

Lemma boot_enters_kernel_witness :
  exists m', _start 0x101000 0x102000 0x108000 0x103000 0x100100 4 loader_state = Ok (0, 0x36d76289, m') /\
    translate m' 0xB8000 = Some 0xB8000 /\ translate m' 0x100000000 = None /\ b_regs m' ESP = 0x107FF8 /\ b_mem m' 0x107FF8 = 0x100100.
Proof.
  destruct (boot_enters_kernel 0x101000 0x102000 0x108000 0x103000 0x100100 4 loader_state)
    as (info & m' & E & _ & _ & _ & Ht & _ & _ & _ & Hsp & Hret & _ & Hi & _).
  - split; vm_compute; (reflexivity || (split; (discriminate || reflexivity)) || discriminate || (by left) || (by right)).
  - intros i Hi. by split.
  - lia.
  - exists m'. split; [rewrite <- Hi; exact E|]. split_and!; [rewrite Ht by lia; reflexivity..|exact Hsp|exact Hret].
Defined.

(** ** The header and the selectors *)

Section header.
Context (bytes : list Z).

Definition get (n : nat) (off : Z) : Z := read (fun a => default 0 (bytes !! Z.to_nat a)) n off.

Definition read_header : multiboot_header := MbHeader (get 4 0) (get 4 4) (get 4 8) (get 4 12).
Definition read_tag (off : Z) : multiboot_header_tag := MbTag (get 2 off) (get 2 (off + 2)) (get 4 (off + 4)).

(** What a loader checks: the magic number, the architecture, and that the
    four words sum to zero. *)
Definition header_ok (h : multiboot_header) : bool :=
  (mb_magic h =? MULTIBOOT2_HEADER_MAGIC) && (mb_architecture h =? MULTIBOOT_ARCHITECTURE_I386) &&
  (u32 (mb_magic h + mb_architecture h + mb_header_length h + mb_checksum h) =? 0).
End header.

(** The header is accepted and its first tag asks for the memory map; the
    next tag is read at the next multiple of eight, where a word of padding
    stands: it has the type of the end tag, but size 0, not 8. *)
Theorem header_accepted :
  header_ok (read_header header_bytes) = true /\ mb_header_length (read_header header_bytes) = Z.of_nat (length header_bytes) /\
  MbRequest (read_tag header_bytes 16) [get header_bytes 4 24; get header_bytes 4 28] = MbRequest (MbTag 1 0 16) [6; 0] /\
  read_tag header_bytes (16 + 16) = MbTag MULTIBOOT_HEADER_TAG_END 0 0.
Proof. by vm_compute. Qed.

(** The segments that SYSCALL and SYSRET load, from the high half of the STAR
    register. *)
Definition syscall_cs (star : Z) : Z := Z.land (Z.shiftr star 32) 0xFFFF.
Definition sysret_cs (star : Z) : Z := Z.land (Z.shiftr star 48) 0xFFFF + 16.
Definition sysret_ss (star : Z) : Z := Z.land (Z.shiftr star 48) 0xFFFF + 8.

Definition is_segment (f : descriptor -> bool) (ring sel : Z) : bool :=
  match segment gdt64_limit sel with
  | Some d => seg_present d && f d && (seg_ring d =? ring)
  | None => false
  end.
Definition code64 (d : descriptor) : bool := seg_code d && seg_long d.

(** The selectors that the C code uses, against the table of [gdt.asm].
    The gates of [idt_initialize] and SYSCALL name the 64-bit code segment of
    the kernel, SYSCALL and SYSRET a data segment of the right ring; but the
    code selector of SYSRET is that of the empty task segment: the processor
    adds 16 to the value in STAR, which the code chose as if it were the
    selector itself. *)
Theorem selectors_decode entry s :
  let star := rdmsr MSR_STAR (enable_syscall_engine entry s) in
  (forall a, is_segment code64 0 (selector (gate_of a)) = true) /\
  is_segment code64 0 (syscall_cs star) = true /\ is_segment seg_data 0 (syscall_cs star + 8) = true /\
  is_segment code64 3 0x18 = true /\
  is_segment seg_data 3 (sysret_ss star) = true /\ segment gdt64_limit (sysret_cs star) = Some null_descriptor.
Proof.
  assert (Hstar : rdmsr MSR_STAR (enable_syscall_engine entry s) = 0x18000800000000).
  { unfold rdmsr, enable_syscall_engine, KLOG, wrmsr. cbn [msrs]. reflexivity. }
  rewrite Hstar. split_and!; reflexivity.
Qed.
