(* ===== verification/Audio.v ===== *)
(** * Sound ([src/audio.c])

    The PC speaker, driven by the second channel of the interval timer, and
    the detection of an HDA controller.  The registers of the controller are
    words of device memory, reached through the interface [Mmio]. *)

From S2P Require Import Prelude Io Pci.

Definition PIT_CONTROL_PORT : Z := 0x43.
Definition PIT_CHANNEL_2_PORT : Z := 0x42.
Definition PC_SPEAKER_PORT : Z := 0x61.
Definition PIT_FREQUENCY : Z := 1193180.

Definition AUDIO_PCI_CLASS_MULTIMEDIA : Z := 0x04.
Definition AUDIO_PCI_SUBCLASS_HDA : Z := 0x03.
Definition AUDIO_PCI_PROGIF_HDA : Z := 0x00.

Definition HDA_REG_GCTL : Z := 0x08.
Definition HDA_GCTL_RESET : Z := 1.

(** 32-bit registers at addresses. *)
Class Mmio (D : Type) := {
  mmio_in : Z -> D -> Z * D;
  mmio_out : Z -> Z -> D -> D
}.

Record audio_t (D : Type) := Audio {
  audio_initialized : bool; hda_controller_present : bool; hda_mmio : Z; hda_bar0 : Z; audio_volume : Z; machine : D
}.
Arguments Audio {D}. Arguments audio_initialized {D}. Arguments hda_controller_present {D}. Arguments hda_mmio {D}.
Arguments hda_bar0 {D}. Arguments audio_volume {D}. Arguments machine {D}.

Section audio.
Context {D : Type} `{!PortIO D} `{!Mmio D}.
Implicit Types a : audio_t D.

Definition set_machine (d : D) a : audio_t D :=
  Audio (audio_initialized a) (hda_controller_present a) (hda_mmio a) (hda_bar0 a) (audio_volume a) d.
Definition set_hda (present : bool) (mmio bar0 : Z) a : audio_t D :=
  Audio (audio_initialized a) present mmio bar0 (audio_volume a) (machine a).

Definition on_machine {A} (m : io D A) : io (audio_t D) A :=
  fun a => match m (machine a) with
           | Ok (x, d) => Ok (x, set_machine d a)
           | Undef => Undef
           | NoFuel => NoFuel
           end.

Definition mmio_read (addr : Z) : io D Z := fun d => let '(v, d) := mmio_in addr d in Ok (u32 v, d).
Definition mmio_write (addr v : Z) : io D unit := fun d => Ok (tt, mmio_out addr (u32 v) d).

Definition audio_pit_disable : io D unit :=
  value ← inb PC_SPEAKER_PORT;
  outb PC_SPEAKER_PORT (Z.land value 0xFC).

Definition audio_pit_set_frequency (frequency : Z) : io D unit :=
  if frequency =? 0 then audio_pit_disable
  else
    let divisor := u16 (PIT_FREQUENCY / frequency) in
    outb PIT_CONTROL_PORT 0xB6 ≫= fun _ =>
    outb PIT_CHANNEL_2_PORT (Z.land divisor 0xFF) ≫= fun _ =>
    outb PIT_CHANNEL_2_PORT (Z.land (Z.shiftr divisor 8) 0xFF) ≫= fun _ =>
    value ← inb PC_SPEAKER_PORT;
    outb PC_SPEAKER_PORT (Z.lor value 0x03).

(** The number of rounds that the processor spends waiting. *)
Definition audio_busy_wait (milliseconds : Z) : Z := u64 (milliseconds * 2000).

(** [hda_mmio[HDA_REG_GCTL / 4]] of an array of words. *)
Definition hda_reset : io (audio_t D) bool :=
  base ← gets hda_mmio;
  if base =? 0 then mret false
  else
    let gctl := base + 4 * (HDA_REG_GCTL / 4) in
    v ← on_machine (mmio_read gctl);
    on_machine (mmio_write gctl (Z.lor v HDA_GCTL_RESET)) ≫= fun _ =>
    (fix wait (n : nat) : io (audio_t D) bool :=
       match n with
       | O => mret false
       | Datatypes.S n' =>
         v ← on_machine (mmio_read gctl);
         if Z.land v HDA_GCTL_RESET =? 0 then mret true else wait n'
       end) (Z.to_nat 100000).

Definition hda_enable_bus_master (b d f : Z) : io D bool :=
  command ← pci_read_config_dword b d f 0x04;
  pci_write_config_dword b d f 0x04 (Z.lor command 0x00000006) ≫= fun _ =>
  mret true.

Definition hda_find_controller : io (audio_t D) bool :=
  r ← on_machine (pci_find_class AUDIO_PCI_CLASS_MULTIMEDIA AUDIO_PCI_SUBCLASS_HDA AUDIO_PCI_PROGIF_HDA);
  match r with
  | None => mret false
  | Some controller =>
    if bar0 controller =? 0 then mret false
    else
      modify (fun a => set_hda (hda_controller_present a) (bar0 controller) (bar0 controller) a) ≫= fun _ =>
      on_machine (hda_enable_bus_master (bus controller) (device controller) (function controller))
  end.

(** [pci_initialize] does nothing. *)
Definition audio_initialize : io (audio_t D) unit :=
  modify (fun a => Audio false false 0 0 128 (machine a)) ≫= fun _ =>
  found ← hda_find_controller;
  (if (found : bool) then
     ok ← hda_reset;
     if (ok : bool) then modify (fun a => set_hda true (hda_mmio a) (hda_bar0 a) a)
     else modify (set_hda false 0 0)
   else skip) ≫= fun _ =>
  modify (fun a => Audio true (hda_controller_present a) (hda_mmio a) (hda_bar0 a) (audio_volume a) (machine a)).

Definition audio_is_ready a : bool := audio_initialized a && (hda_controller_present a || true).

Definition audio_set_volume (volume : Z) : io (audio_t D) unit :=
  let v := u8 volume in
  modify (fun a => Audio (audio_initialized a) (hda_controller_present a) (hda_mmio a) (hda_bar0 a)
    (if 255 <? v then 255 else v) (machine a)).

(** The result is the number of waiting rounds while the tone sounds. *)
Definition audio_play_tone (frequency duration_ms : Z) : io (audio_t D) Z :=
  ready ← gets audio_initialized;
  if negb ready || (frequency =? 0) || (duration_ms =? 0) then on_machine audio_pit_disable ≫= fun _ => mret 0
  else
    on_machine (audio_pit_set_frequency frequency) ≫= fun _ =>
    on_machine audio_pit_disable ≫= fun _ =>
    mret (audio_busy_wait duration_ms).

Definition audio_stop_tone : io (audio_t D) unit := on_machine audio_pit_disable.

Definition audio_play_pcm a : bool :=
  if negb (audio_initialized a) then false
  else if negb (hda_controller_present a) then false
  else false.
End audio.

(** ** What the speaker plays

    The timer channel takes its divisor in two halves after the control word
    0xB6, low byte first; the speaker sounds when the two low bits of port
    0x61 are set.  [heard] are the divisors that sounded. *)
Record beeper := Beeper { halves : list Z; speaker_bits : Z; heard : list Z }.

Definition divisor_of (l : list Z) : Z := match l with [lo; hi] => lo + 256 * hi | _ => 0 end.

#[export] Instance beeper_io : PortIO beeper := {
  port_in w port b := (if port =? 0x61 then speaker_bits b else 0, b);
  port_out w port v b :=
    if port =? 0x43 then Beeper [] (speaker_bits b) (heard b)
    else if port =? 0x42 then Beeper (halves b ++ [v]) (speaker_bits b) (heard b)
    else if port =? 0x61 then
      Beeper (halves b) v (if Z.land v 3 =? 3 then heard b ++ [divisor_of (halves b)] else heard b)
    else b
}.

#[export] Instance beeper_mmio : Mmio beeper := { mmio_in _ b := (0, b); mmio_out _ _ b := b }.

Lemma land_halves d : 0 <= d < 2 ^ 16 -> Z.land d 0xFF + 256 * Z.land (Z.shiftr d 8) 0xFF = d.
Proof.
  intros Hd. change 0xFF with (Z.ones 8). rewrite !Z.land_ones, Z.shiftr_div_pow2 by lia. change (2 ^ 8) with 256. lia.
Qed.

Definition speaker_facts (v : Z) : bool :=
  (u8 (Z.lor v 3) =? Z.lor v 3) && (Z.land (Z.lor v 3) 3 =? 3) && (Z.land (Z.lor v 3) 0xFC =? Z.land v 0xFC) &&
  (u8 (Z.land v 0xFC) =? Z.land v 0xFC) && negb (Z.land (Z.land v 0xFC) 3 =? 3).

Lemma speaker_facts_ok v : 0 <= v < 256 -> speaker_facts v = true.
Proof.
  intros Hv. assert (Hall : forallb speaker_facts (seqZ 0 256) = true) by (vm_compute; reflexivity).
  rewrite forallb_forall in Hall. apply Hall, list_elem_of_In, elem_of_seqZ. lia.
Qed.

Lemma beeper_read b : 0 <= speaker_bits b < 256 -> inb PC_SPEAKER_PORT b = Ok (speaker_bits b, b).
Proof. intros Hb. change (inb PC_SPEAKER_PORT b) with (Ok (u8 (speaker_bits b), b)). by rewrite u8_small. Qed.

Lemma beeper_speaker v b :
  outb PC_SPEAKER_PORT v b =
    Ok (tt, Beeper (halves b) (u8 v) (if Z.land (u8 v) 3 =? 3 then heard b ++ [divisor_of (halves b)] else heard b)).
Proof. done. Qed.

Lemma beeper_control v b : outb PIT_CONTROL_PORT v b = Ok (tt, Beeper [] (speaker_bits b) (heard b)).
Proof. done. Qed.

Lemma beeper_data v b : outb PIT_CHANNEL_2_PORT v b = Ok (tt, Beeper (halves b ++ [u8 v]) (speaker_bits b) (heard b)).
Proof. done. Qed.

Lemma disable_ok b :
  0 <= speaker_bits b < 256 -> audio_pit_disable b = Ok (tt, Beeper (halves b) (Z.land (speaker_bits b) 0xFC) (heard b)).
Proof.
  intros Hb. pose proof (speaker_facts_ok _ Hb) as Hf. unfold speaker_facts in Hf. unfold audio_pit_disable.
  rewrite (bind_ok _ _ _ _ _ (beeper_read b Hb)), beeper_speaker.
  repeat (apply andb_true_iff in Hf as [Hf ?]). rewrite (proj1 (Z.eqb_eq _ _) ltac:(eassumption)).
  by destruct (Z.land (Z.land (speaker_bits b) 0xFC) 3 =? 3).
Qed.

Lemma set_frequency_ok f b :
  0 < f -> 0 <= speaker_bits b < 256 ->
  exists b', audio_pit_set_frequency f b = Ok (tt, b') /\ speaker_bits b' = Z.lor (speaker_bits b) 3 /\
    heard b' = heard b ++ [u16 (1193180 / f)].
Proof.
  intros Hf Hb. pose proof (speaker_facts_ok _ Hb) as Hs. unfold speaker_facts in Hs. apply andb_true_iff in Hs as [Hs _].
  apply andb_true_iff in Hs as [Hs _]. apply andb_true_iff in Hs as [Hs _]. apply andb_true_iff in Hs as [H1 H3].
  unfold audio_pit_set_frequency. rewrite (proj2 (Z.eqb_neq f 0)) by lia. cbv zeta. unfold PIT_FREQUENCY.
  pose proof (u16_range (1193180 / f)) as Hd. set (d := u16 (1193180 / f)) in *.
  rewrite (bind_ok _ _ _ _ _ (beeper_control _ _)), (bind_ok _ _ _ _ _ (beeper_data _ _)), (bind_ok _ _ _ _ _ (beeper_data _ _)).
  rewrite (bind_ok _ _ _ (speaker_bits b) _) by (by apply (beeper_read (Beeper _ _ _))). rewrite beeper_speaker.
  apply Z.eqb_eq in H1. rewrite H1, H3. eexists. split; [done|]. split; [done|]. cbn [heard halves app divisor_of].
  do 2 f_equal. rewrite <- (land_halves d) at 3 by (change (2 ^ 16) with 65536; lia). change 0xFF with (Z.ones 8).
  rewrite !Z.land_ones by lia. change (2 ^ 8) with 256. by rewrite !u8_small by lia.
Qed.

(** The tone that is played has the divisor of the frequency cut to 16 bits:
    right from 19 Hz on, wrong below.  The speaker is silent afterwards and
    its other bits are kept. *)
Lemma tone_played f ms (a : audio_t beeper) :
  audio_initialized a = true -> 0 < f -> 0 < ms < 2 ^ 32 -> 0 <= speaker_bits (machine a) < 256 ->
  exists a', audio_play_tone f ms a = Ok (ms * 2000, a') /\
    heard (machine a') = heard (machine a) ++ [u16 (1193180 / f)] /\
    speaker_bits (machine a') = Z.land (speaker_bits (machine a)) 0xFC /\
    (19 <= f -> u16 (1193180 / f) = 1193180 / f).
Proof.
  intros Hi Hf Hm Hb. destruct (set_frequency_ok f (machine a) Hf Hb) as (b1 & E1 & Hb1 & Hh1).
  pose proof (speaker_facts_ok _ Hb) as Hs. unfold speaker_facts in Hs. repeat (apply andb_true_iff in Hs as [Hs ?]).
  repeat match goal with H : (_ =? _) = true |- _ => apply Z.eqb_eq in H end.
  assert (Hr : 0 <= speaker_bits b1 < 256) by (rewrite Hb1, <- Hs; apply u8_range).
  unfold audio_play_tone. rewrite bind_gets, Hi, (proj2 (Z.eqb_neq f 0)), (proj2 (Z.eqb_neq ms 0)) by lia. cbn [negb orb].
  rewrite (bind_ok _ _ a tt (set_machine b1 a)) by (unfold on_machine; by rewrite E1).
  rewrite (bind_ok _ _ _ tt (set_machine (Beeper (halves b1) (Z.land (speaker_bits b1) 0xFC) (heard b1)) a))
    by (unfold on_machine; cbn [machine set_machine]; by rewrite disable_ok).
  eexists. split; [unfold audio_busy_wait; by rewrite u64_small by lia|]. cbn [machine set_machine heard speaker_bits].
  split; [done|]. split; [rewrite Hb1; congruence|]. intros H19. apply u16_small.
  assert (1193180 / f < 65536) by (apply Z.div_lt_upper_bound; lia). pose proof (Z.div_pos 1193180 f). lia.
Qed.
