(* ===== verification/Ahci.v ===== *)
(** * SATA driver ([src/ahci.c])

    The driver finds the controller on the PCI bus, gives every port with a
    device its command list, and issues one command at a time.  The registers
    of a port are words of device memory; the command lists and tables are
    bytes of the driver.  [ahci_memcpy] copies from string literals, and an
    access beyond a literal is undefined.  Waiting loops have a bound. *)

From S2P Require Import Prelude Io Pci Audio.

Definition AHCI_MAX_PORTS : Z := 32.
Definition AHCI_MAX_COMMAND_SLOTS : Z := 32.
Definition AHCI_MAX_PRDT_ENTRIES : Z := 8.

Definition AHCI_PCI_CLASS_STORAGE : Z := 0x01.
Definition AHCI_PCI_SUBCLASS_SATA : Z := 0x06.
Definition AHCI_PCI_PROGIF_AHCI : Z := 0x01.

Definition SATA_SIG_ATA : Z := 0x00000101.
Definition SATA_SIG_ATAPI : Z := 0xEB140101.

Definition HBA_PxCMD_ST : Z := Z.shiftl 1 0.
Definition HBA_PxCMD_FRE : Z := Z.shiftl 1 4.
Definition HBA_PxCMD_FR : Z := Z.shiftl 1 14.
Definition HBA_PxCMD_CR : Z := Z.shiftl 1 15.
Definition HBA_PxIS_TFES : Z := Z.shiftl 1 30.

Definition ATA_CMD_READ_DMA_EXT : Z := 0x25.
Definition ATA_CMD_WRITE_DMA_EXT : Z := 0x35.
Definition FIS_TYPE_REG_H2D : Z := 0x27.

(** Offsets of the fields of [ahci_port_mem_t], and of [pi] in
    [ahci_hba_mem_t]. *)
Definition px_clb : Z := 0x00.
Definition px_clbu : Z := 0x04.
Definition px_fb : Z := 0x08.
Definition px_fbu : Z := 0x0C.
Definition px_is : Z := 0x10.
Definition px_cmd : Z := 0x18.
Definition px_tfd : Z := 0x20.
Definition px_sig : Z := 0x24.
Definition px_ssts : Z := 0x28.
Definition px_sact : Z := 0x34.
Definition px_ci : Z := 0x38.
Definition hba_pi : Z := 0x0C.

(** Sizes of [ahci_cmd_header_t] and [ahci_cmd_tbl_t], and the offsets of
    their fields. *)
Definition header_size : Z := 32.
Definition header_prdtl : Z := 2.
Definition header_ctba : Z := 8.
Definition header_ctbau : Z := 12.
Definition table_size : Z := 64 + 16 + 48 + 8 * 16.
Definition table_acmd : Z := 64.
Definition table_prdt : Z := 128.

(** Ports are addresses of their registers, NULL is 0; [cmd_list], [fis] and
    [tables] are the static arrays, the tables of a port one after the other. *)
Record ahci_t (D : Type) := AhciState {
  ahci_hba : Z; ahci_ports : list Z; ahci_cmd_list : list (list Z); ahci_fis : list (list Z);
  ahci_cmd_tables : list (list (list Z)); hardware : D
}.
Arguments AhciState {D}. Arguments ahci_hba {D}. Arguments ahci_ports {D}. Arguments ahci_cmd_list {D}.
Arguments ahci_fis {D}. Arguments ahci_cmd_tables {D}. Arguments hardware {D}.

(** The bytes of a 32-bit word. *)
Definition le32 (v : Z) : list Z :=
  [Z.land v 0xFF; Z.land (Z.shiftr v 8) 0xFF; Z.land (Z.shiftr v 16) 0xFF; Z.land (Z.shiftr v 24) 0xFF].
Definition le16 (v : Z) : list Z := [Z.land v 0xFF; Z.land (Z.shiftr v 8) 0xFF].

(** A string literal of [n] zero characters and its terminator. *)
Definition literal (n : nat) : list Z := replicate (S n) 0.

(** [count] bytes from [src] to the start of [dest]. *)
Definition ahci_memcpy (dest src : list Z) (count : Z) : option (list Z) :=
  s ← load src 0 count;
  put dest 0 s.

(** ** Commands *)

(** The register part of a command. *)
Definition command_fis (count : Z) (write : bool) (lba : Z) : list (Z * Z) :=
  [(0, FIS_TYPE_REG_H2D); (1, Z.shiftl 1 7); (2, if write then ATA_CMD_WRITE_DMA_EXT else ATA_CMD_READ_DMA_EXT); (3, 0);
   (4, u8 lba); (5, u8 (Z.shiftr lba 8)); (6, u8 (Z.shiftr lba 16)); (7, 0);
   (8, u8 (Z.shiftr lba 24)); (9, u8 (Z.shiftr lba 32)); (10, u8 (Z.shiftr lba 40));
   (12, u8 (Z.land count 0xFF)); (13, u8 (Z.land (Z.shiftr count 8) 0xFF))].

Fixpoint store_all (l : list (Z * Z)) (buf : list Z) : option (list Z) :=
  match l with
  | [] => Some buf
  | (i, v) :: l' => b ← aset buf i v; store_all l' b
  end.

(** The stores of [ahci_prepare_command] to the table. *)
Definition fill_table (table : list Z) (buffer count : Z) (write : bool) (lba : Z) : option (list Z) :=
  t ← put table table_prdt (le32 (u32 buffer));
  t ← put t (table_prdt + 4) (le32 (u32 (Z.shiftr buffer 32)));
  let dbc := u32 (u32 (count * 512) - 1) in
  t ← put t (table_prdt + 12) (le32 (Z.lor dbc (Z.shiftl 1 31)));
  t ← store_all (command_fis count write lba) t;
  aset t table_acmd 0.

(** Its stores to the header: the bit fields [cfl] (bits 0 to 4) and [w]
    (bit 6), and [prdtl]. *)
Definition fill_header (list_bytes : list Z) (slot : Z) (write : bool) : option (list Z) :=
  b ← aget list_bytes (slot * header_size);
  let b := Z.lor (Z.land b 0xE0) 5 in
  let b := Z.lor (Z.land b 0xBF) (if write then 0x40 else 0) in
  l ← aset list_bytes (slot * header_size) b;
  put l (slot * header_size + header_prdtl) (le16 1).

Section ahci.
Context {D : Type} `{!PortIO D} `{!Mmio D}.
(** The addresses of the static arrays. *)
Context (cmd_list_addr fis_addr tables_addr : Z) (fuel : nat).
Implicit Types s : ahci_t D.

Definition on_hardware {A} (m : io D A) : io (ahci_t D) A :=
  fun s => match m (hardware s) with
           | Ok (x, d) => Ok (x, AhciState (ahci_hba s) (ahci_ports s) (ahci_cmd_list s) (ahci_fis s) (ahci_cmd_tables s) d)
           | Undef => Undef
           | NoFuel => NoFuel
           end.

Definition set_ports (l : list Z) s : ahci_t D :=
  AhciState (ahci_hba s) l (ahci_cmd_list s) (ahci_fis s) (ahci_cmd_tables s) (hardware s).
Definition set_hba (a : Z) s : ahci_t D :=
  AhciState a (ahci_ports s) (ahci_cmd_list s) (ahci_fis s) (ahci_cmd_tables s) (hardware s).
Definition set_lists (l f : list (list Z)) s : ahci_t D :=
  AhciState (ahci_hba s) (ahci_ports s) l f (ahci_cmd_tables s) (hardware s).
Definition set_tables (t : list (list (list Z))) s : ahci_t D :=
  AhciState (ahci_hba s) (ahci_ports s) (ahci_cmd_list s) (ahci_fis s) t (hardware s).

(** A register of a port. *)
Definition reg (port field : Z) : io D Z := mmio_read (port + field).
Definition set_reg (port field v : Z) : io D unit := mmio_write (port + field) v.

(** The two functions are those of the sound driver. *)
Definition pci_config_read (b d f off : Z) : io D Z := pci_read_config_dword b d f off.
Definition pci_config_write (b d f off v : Z) : io D unit := pci_write_config_dword b d f off v.

(** One function of a device. *)
Definition probe_ahci (b d f : Z) : io D probe_result :=
  vendor_device ← pci_config_read b d f 0x00;
  if Z.land vendor_device 0xFFFF =? 0xFFFF then mret (if f =? 0 then NextDevice else NextFunction)
  else
    class_code ← pci_config_read b d f 0x08;
    if (Z.land (Z.shiftr class_code 24) 0xFF =? AHCI_PCI_CLASS_STORAGE)
       && (Z.land (Z.shiftr class_code 16) 0xFF =? AHCI_PCI_SUBCLASS_SATA)
       && (Z.land (Z.shiftr class_code 8) 0xFF =? AHCI_PCI_PROGIF_AHCI)
    then mret (Found (PciDevice b d f 0 0 0 0 0 0))
    else
      header_type ← pci_config_read b d f 0x0C;
      mret (if (f =? 0) && (Z.land header_type 0x00800000 =? 0) then NextDevice else NextFunction).

(** The bus, device and function of the controller. *)
Definition pci_find_ahci_controller : io D (option (Z * Z * Z)) :=
  r ← scan_buses probe_ahci 8 0;
  mret ((fun p => (bus p, device p, function p)) <$> r).

Definition pci_get_bar5 (b d f : Z) : io D Z :=
  bar_lo ← pci_config_read b d f 0x24;
  bar_hi ← pci_config_read b d f 0x28;
  mret (if Z.land bar_lo 0x1 =? 0 then Z.lor (Z.shiftl bar_hi 32) (Z.land bar_lo (u64 (Z.lnot 0xF))) else 0).

Definition ahci_port_present (port : Z) : io D bool :=
  v ← reg port px_ssts;
  mret ((Z.land v 0x0F =? 3) && (Z.land (Z.shiftr v 8) 0x0F =? 1)).

(** The condition reads the register twice, the second time only if the
    first bit is clear. *)
Definition port_running (port : Z) : io D bool :=
  v ← reg port px_cmd;
  if negb (Z.land v HBA_PxCMD_FR =? 0) then mret true
  else
    v ← reg port px_cmd;
    mret (negb (Z.land v HBA_PxCMD_CR =? 0)).

Definition ahci_port_stop (port : Z) : io D unit :=
  v ← reg port px_cmd;
  set_reg port px_cmd (Z.land v (u32 (Z.lnot HBA_PxCMD_ST))) ≫= fun _ =>
  v ← reg port px_cmd;
  set_reg port px_cmd (Z.land v (u32 (Z.lnot HBA_PxCMD_FRE))) ≫= fun _ =>
  while_loop fuel (port_running port).

Definition ahci_port_start (port : Z) : io D unit :=
  while_loop fuel (v ← reg port px_cmd; mret (negb (Z.land v HBA_PxCMD_CR =? 0))) ≫= fun _ =>
  v ← reg port px_cmd;
  set_reg port px_cmd (Z.lor v HBA_PxCMD_FRE) ≫= fun _ =>
  v ← reg port px_cmd;
  set_reg port px_cmd (Z.lor v HBA_PxCMD_ST).

(** The lowest clear bit. *)
Definition free_slot (slots : Z) : option nat := first_index (fun i => Z.land slots (Z.shiftl 1 i) =? 0) (seqZ 0 32).

Definition ahci_port_find_free_slot (port : Z) : io D Z :=
  a ← reg port px_sact;
  c ← reg port px_ci;
  mret (match free_slot (Z.lor a c) with Some i => Z.of_nat i | None => -1 end).

(** The loop over the command headers of a port, [n] left from [i] on. *)
Fixpoint rebase_headers (n : nat) (port_index i : Z) : io (ahci_t D) unit :=
  match n with
  | O => skip
  | S n' =>
    s ← gets id;
    l ← lift (aget (ahci_cmd_list s) port_index);
    l ← lift (put l (i * header_size + header_prdtl) (le16 AHCI_MAX_PRDT_ENTRIES));
    let ctba := tables_addr + (port_index * AHCI_MAX_COMMAND_SLOTS + i) * table_size in
    l ← lift (put l (i * header_size + header_ctba) (le32 (u32 ctba)));
    l ← lift (put l (i * header_size + header_ctbau) (le32 (u32 (Z.shiftr ctba 32))));
    cl ← lift (aset (ahci_cmd_list s) port_index l);
    modify (set_lists cl (ahci_fis s)) ≫= fun _ =>
    ts ← lift (aget (ahci_cmd_tables s) port_index);
    t ← lift (aget ts i);
    t ← lift (ahci_memcpy t (literal 184) table_size);
    ts ← lift (aset ts i t);
    at_ ← lift (aset (ahci_cmd_tables s) port_index ts);
    modify (set_tables at_) ≫= fun _ =>
    rebase_headers n' port_index (i + 1)
  end.

Definition ahci_port_rebase (port_index : Z) : io (ahci_t D) unit :=
  s ← gets id;
  port ← lift (aget (ahci_ports s) port_index);
  if port =? 0 then skip
  else
    on_hardware (ahci_port_stop port) ≫= fun _ =>
    let list_at := cmd_list_addr + port_index * 1024 in
    let fis_at := fis_addr + port_index * 256 in
    on_hardware (set_reg port px_clb (u32 list_at)) ≫= fun _ =>
    on_hardware (set_reg port px_clbu (u32 (Z.shiftr list_at 32))) ≫= fun _ =>
    on_hardware (set_reg port px_fb (u32 fis_at)) ≫= fun _ =>
    on_hardware (set_reg port px_fbu (u32 (Z.shiftr fis_at 32))) ≫= fun _ =>
    l ← lift (aget (ahci_cmd_list s) port_index);
    l ← lift (ahci_memcpy l (literal 100) 1024);
    f ← lift (aget (ahci_fis s) port_index);
    f ← lift (ahci_memcpy f (literal 167) 256);
    cl ← lift (aset (ahci_cmd_list s) port_index l);
    fl ← lift (aset (ahci_fis s) port_index f);
    modify (set_lists cl fl) ≫= fun _ =>
    rebase_headers (Z.to_nat AHCI_MAX_COMMAND_SLOTS) port_index 0 ≫= fun _ =>
    on_hardware (ahci_port_start port).

(** The command list at an address. *)
Definition list_at (a : Z) : option Z :=
  let k := (a - cmd_list_addr) / 1024 in
  if (cmd_list_addr <=? a) && ((a - cmd_list_addr) mod 1024 =? 0) && (k <? AHCI_MAX_PORTS) then Some k else None.

(** The index of the tables is the distance in bytes of the registers of the
    port from those of the first port. *)
Definition ahci_prepare_command (port slot buffer count : Z) (write : bool) (lba : Z) : io (ahci_t D) bool :=
  if AHCI_MAX_COMMAND_SLOTS <=? slot then mret false
  else
    lo ← on_hardware (reg port px_clb);
    hi ← on_hardware (reg port px_clbu);
    s ← gets id;
    first ← lift (aget (ahci_ports s) 0);
    let k := u32 (port - first) in
    ts ← lift (aget (ahci_cmd_tables s) k);
    t ← lift (aget ts slot);
    t ← lift (ahci_memcpy t (literal 171) table_size);
    h ← lift (list_at (Z.lor lo (Z.shiftl hi 32)));
    l ← lift (aget (ahci_cmd_list s) h);
    l ← lift (fill_header l slot write);
    t ← lift (fill_table t buffer count write lba);
    cl ← lift (aset (ahci_cmd_list s) h l);
    ts ← lift (aset ts slot t);
    at_ ← lift (aset (ahci_cmd_tables s) k ts);
    modify (set_lists cl (ahci_fis s)) ≫= fun _ =>
    modify (set_tables at_) ≫= fun _ =>
    on_hardware (set_reg port px_is (u32 (-1))) ≫= fun _ =>
    v ← on_hardware (reg port px_ci);
    on_hardware (set_reg port px_ci (Z.lor v (Z.shiftl 1 slot))) ≫= fun _ =>
    mret true.

(** The loop of [ahci_wait_completion]: [false] for a task file error. *)
Fixpoint wait_ci (n : nat) (port slot : Z) : io D bool :=
  match n with
  | O => fun _ => NoFuel
  | S n' =>
    v ← reg port px_ci;
    if Z.land v (Z.shiftl 1 slot) =? 0 then mret true
    else
      e ← reg port px_tfd;
      if negb (Z.land e HBA_PxIS_TFES =? 0) then mret false else wait_ci n' port slot
  end.

Definition ahci_wait_completion (port slot : Z) : io D bool :=
  ok ← wait_ci fuel port slot;
  if negb ok then mret false
  else
    v ← reg port px_is;
    mret (Z.land v HBA_PxIS_TFES =? 0).

Definition ahci_do_transfer (lba buffer count : Z) (write : bool) : io (ahci_t D) bool :=
  s ← gets id;
  if ahci_hba s =? 0 then mret false
  else
    match first_index (fun p => negb (p =? 0)) (ahci_ports s) with
    | None => mret false
    | Some port_index =>
      port ← lift (ahci_ports s !! port_index);
      slot ← on_hardware (ahci_port_find_free_slot port);
      if slot <? 0 then mret false
      else
        ok ← ahci_prepare_command port slot buffer count write lba;
        if negb ok then mret false
        else on_hardware (ahci_wait_completion port slot)
    end.

(** The body of the loop over the ports. *)
Definition start_port (implemented i : Z) : io (ahci_t D) unit :=
  if Z.land implemented (Z.shiftl 1 i) =? 0 then skip
  else
    hba ← gets ahci_hba;
    let port := hba + 0x100 + i * 0x80 in
    present ← on_hardware (ahci_port_present port);
    if negb present then skip
    else
      g ← on_hardware (reg port px_sig);
      ata ← (if g =? SATA_SIG_ATA then mret true
             else g ← on_hardware (reg port px_sig); mret (g =? SATA_SIG_ATAPI));
      if negb ata then skip
      else
        ports ← gets ahci_ports;
        ports ← lift (aset ports i port);
        modify (set_ports ports) ≫= fun _ =>
        ahci_port_rebase i.

Definition ahci_initialize : io (ahci_t D) unit :=
  modify (fun s => set_ports (replicate 32 0) s) ≫= fun _ =>
  c ← on_hardware pci_find_ahci_controller;
  match c with
  | None => skip
  | Some (b, d, f) =>
    bar5 ← on_hardware (pci_get_bar5 b d f);
    if bar5 =? 0 then skip
    else
      command ← on_hardware (pci_config_read b d f 0x04);
      on_hardware (pci_config_write b d f 0x04 (Z.lor command 0x00000004)) ≫= fun _ =>
      modify (set_hba bar5) ≫= fun _ =>
      implemented ← on_hardware (reg bar5 hba_pi);
      for_loop (Z.to_nat AHCI_MAX_PORTS) 0 (start_port implemented)
  end.

(** [buffer] is an address. *)
Definition ahci_read_sector (lba buffer : Z) : io (ahci_t D) Z :=
  if buffer =? 0 then mret (-1)
  else ok ← ahci_do_transfer lba buffer 1 false; mret (if negb ok then -1 else 0).

Definition ahci_write_sector (lba buffer : Z) : io (ahci_t D) Z :=
  if buffer =? 0 then mret (-1)
  else ok ← ahci_do_transfer lba buffer 1 true; mret (if negb ok then -1 else 0).
End ahci.

(** ** What a command says

    The fields of a command table as the device reads them. *)

Definition byte_at (t : list Z) (i : Z) : Z := default 0 (aget t i).
Definition word_at (t : list Z) (i : Z) : Z :=
  byte_at t i + 2 ^ 8 * byte_at t (i + 1) + 2 ^ 16 * byte_at t (i + 2) + 2 ^ 24 * byte_at t (i + 3).

Definition command_lba (t : list Z) : Z :=
  byte_at t 4 + 2 ^ 8 * byte_at t 5 + 2 ^ 16 * byte_at t 6 + 2 ^ 24 * byte_at t 8 + 2 ^ 32 * byte_at t 9 + 2 ^ 40 * byte_at t 10.
Definition command_count (t : list Z) : Z := byte_at t 12 + 2 ^ 8 * byte_at t 13.
Definition command_buffer (t : list Z) : Z := word_at t 128 + 2 ^ 32 * word_at t 132.
Definition command_bytes (t : list Z) : Z := word_at t 140 - 2 ^ 31 + 1.

Fixpoint stored (j : Z) (l : list (Z * Z)) : option Z :=
  match l with
  | [] => None
  | (i, v) :: l' => if j =? i then Some v else stored j l'
  end.

Lemma stored_None j l : j ∉ l.*1 -> stored j l = None.
Proof.
  induction l as [|[i v] l IH]; [done|]. cbn [stored]. rewrite fmap_cons, not_elem_of_cons. intros [Hne Hj].
  rewrite (proj2 (Z.eqb_neq _ _)) by done. by apply IH.
Qed.

Lemma store_all_ok l buf :
  NoDup l.*1 -> Forall (fun p => 0 <= p.1 < Z.of_nat (length buf)) l ->
  exists t, store_all l buf = Some t /\ length t = length buf /\
    forall j, 0 <= j -> aget t j = match stored j l with Some v => Some v | None => aget buf j end.
Proof.
  revert buf. induction l as [|[i v] l IH]; intros buf Hnd Hr; [by exists buf|]. apply NoDup_cons in Hnd as [Hi Hnd].
  apply Forall_cons in Hr as [Hir Hr]. cbn [store_all fst] in *. rewrite aset_in_range by lia. cbn [mbind option_bind].
  destruct (IH (<[Z.to_nat i := v]> buf) Hnd) as (t & E & Hl & Ht); [by rewrite length_insert|].
  exists t. split; [done|]. rewrite length_insert in Hl. split; [done|]. intros j Hj. rewrite Ht, aget_insert by lia.
  cbn [stored]. destruct (Z.eqb_spec j i) as [->|]; [by rewrite stored_None|done].
Qed.

Lemma put_lookup buf i bs :
  0 <= i -> i + Z.of_nat (length bs) <= Z.of_nat (length buf) ->
  exists t, put buf i bs = Some t /\ length t = length buf /\
    forall j, 0 <= j -> aget t j = if (i <=? j) && (j <? i + Z.of_nat (length bs)) then bs !! Z.to_nat (j - i) else aget buf j.
Proof.
  intros Hi Hl. pose proof (put_eq buf i bs Hi Hl) as E. eexists. split; [exact E|]. split; [by eapply put_length|].
  intros j Hj. by apply (aget_put buf i bs).
Qed.

Lemma le32_value v : 0 <= v < 2 ^ 32 ->
  Z.land v 0xFF + 2 ^ 8 * Z.land (Z.shiftr v 8) 0xFF + 2 ^ 16 * Z.land (Z.shiftr v 16) 0xFF + 2 ^ 24 * Z.land (Z.shiftr v 24) 0xFF = v.
Proof.
  intros Hv. change 0xFF with (Z.ones 8). rewrite !Z.land_ones, !Z.shiftr_div_pow2 by lia.
  change (2 ^ 8) with 256. change (2 ^ 16) with 65536. change (2 ^ 24) with 16777216. change (2 ^ 32) with 4294967296 in Hv. lia.
Qed.

Lemma byte_split v w : 0 <= w -> 0 <= v < 256 ^ (w + 1) -> 0 <= v / 256 < 256 ^ w.
Proof. intros Hw Hv. rewrite Z.pow_add_r, Z.pow_1_r in Hv by lia. split; [apply Z.div_pos; lia|apply Z.div_lt_upper_bound; lia]. Qed.
Lemma lba_value v : 0 <= v < 2 ^ 48 ->
  v mod 256 + 256 * (v / 256 mod 256) + 65536 * (v / 65536 mod 256) + 16777216 * (v / 16777216 mod 256) +
  4294967296 * (v / 4294967296 mod 256) + 1099511627776 * (v / 1099511627776 mod 256) = v.
Proof.
  intros Hv. change (2 ^ 48) with (256 ^ (4 + 1 + 1)) in Hv.
  replace (v / 65536) with (v / 256 / 256) by (by rewrite Z.div_div).
  replace (v / 16777216) with (v / 256 / 256 / 256) by (by rewrite !Z.div_div).
  replace (v / 4294967296) with (v / 256 / 256 / 256 / 256) by (by rewrite !Z.div_div).
  replace (v / 1099511627776) with (v / 256 / 256 / 256 / 256 / 256) by (by rewrite !Z.div_div).
  set (q1 := v / 256). assert (H1 : v = 256 * q1 + v mod 256) by (apply Z.div_mod; lia).
  set (q2 := q1 / 256). assert (H2 : q1 = 256 * q2 + q1 mod 256) by (apply Z.div_mod; lia).
  set (q3 := q2 / 256). assert (H3 : q2 = 256 * q3 + q2 mod 256) by (apply Z.div_mod; lia).
  set (q4 := q3 / 256). assert (H4 : q3 = 256 * q4 + q3 mod 256) by (apply Z.div_mod; lia).
  set (q5 := q4 / 256). assert (H5 : q4 = 256 * q5 + q4 mod 256) by (apply Z.div_mod; lia).
  assert (Hq : 0 <= q5 < 256 ^ 1) by (unfold q5, q4, q3, q2, q1; do 5 (apply byte_split; [lia|]); exact Hv).
  rewrite (Z.mod_small q5) by lia.
  clearbody q1 q2 q3 q4 q5.
  generalize dependent (v mod 256). generalize dependent (q1 mod 256). generalize dependent (q2 mod 256).
  generalize dependent (q3 mod 256). generalize dependent (q4 mod 256). intros. subst. lia.
Qed.

(** The bytes of a filled table. *)
Lemma fill_table_ok table buffer count write lba :
  length table = 256%nat ->
  exists t, fill_table table buffer count write lba = Some t /\ length t = 256%nat /\
    (forall j, 0 <= j < 14 -> j <> 11 -> aget t j = stored j (command_fis count write lba)) /\
    word_at t 128 = word_at (le32 (u32 buffer)) 0 /\ word_at t 132 = word_at (le32 (u32 (Z.shiftr buffer 32))) 0 /\
    word_at t 140 = word_at (le32 (Z.lor (u32 (u32 (count * 512) - 1)) (Z.shiftl 1 31))) 0.
Proof.
  intros Hl. unfold fill_table, table_prdt, table_acmd. change (128 + 4) with 132. change (128 + 12) with 140.
  destruct (put_lookup table 128 (le32 (u32 buffer))) as (t1 & -> & L1 & G1); [lia|simpl; lia|]. cbn [mbind option_bind].
  destruct (put_lookup t1 132 (le32 (u32 (Z.shiftr buffer 32)))) as (t2 & -> & L2 & G2); [lia|simpl; lia|]. cbn [mbind option_bind].
  cbv zeta. set (dbc := Z.lor _ _). destruct (put_lookup t2 140 (le32 dbc)) as (t3 & -> & L3 & G3); [lia|simpl; lia|].
  cbn [mbind option_bind].
  destruct (store_all_ok (command_fis count write lba) t3) as (t4 & -> & L4 & G4).
  { apply (bool_decide_unpack _). by vm_compute. }
  { assert (Hlen : Z.of_nat (length t3) = 256) by lia. rewrite Hlen. unfold command_fis.
    repeat (constructor; [cbn [fst]; lia|]). constructor. }
  cbn [mbind option_bind]. rewrite aset_in_range by lia. eexists. split; [done|]. split; [rewrite length_insert; lia|].
  assert (Hword : forall i, 128 <= i -> i + 3 < 256 ->
    word_at (<[Z.to_nat 64 := 0]> t4) i = word_at t3 i).
  { intros i Hi Hi'. unfold word_at, byte_at.
    assert (Hb : forall j, 128 <= j < 256 -> aget (<[Z.to_nat 64 := 0]> t4) j = aget t3 j).
    { intros j Hj. rewrite aget_insert by lia. rewrite (proj2 (Z.eqb_neq j 64)) by lia. rewrite G4 by lia.
      rewrite stored_None; [done|]. change ((command_fis count write lba).*1) with [0; 1; 2; 3; 4; 5; 6; 7; 8; 9; 10; 12; 13].
      rewrite !not_elem_of_cons. split_and!; try lia. apply not_elem_of_nil. }
    by rewrite !Hb by lia. }
  split.
  - intros j Hj Hne. rewrite aget_insert by lia. rewrite (proj2 (Z.eqb_neq j 64)) by lia. rewrite G4 by lia.
    destruct (stored j (command_fis count write lba)) eqn:E; [done|]. exfalso.
    assert (Hc : j = 0 \/ j = 1 \/ j = 2 \/ j = 3 \/ j = 4 \/ j = 5 \/ j = 6 \/ j = 7 \/ j = 8 \/ j = 9 \/ j = 10 \/ j = 12 \/ j = 13) by lia.
    by destruct Hc as [->|[->|[->|[->|[->|[->|[->|[->|[->|[->|[->|[->| ->]]]]]]]]]]]].
  - rewrite !Hword by lia. unfold word_at, byte_at.
    split_and!; rewrite ?G3, ?G2, ?G1 by lia; reflexivity.
Qed.

(** C39: a command says what was asked.  On any table of 256 bytes the stores
    of [ahci_prepare_command] stay inside of it, and a device that reads the
    table back finds the command, the 48-bit block address, the 16-bit block
    count, the 64-bit address of the buffer and the number of bytes, with the
    bit for an interrupt. *)
Theorem ahci_command_roundtrip table buffer count write lba :
  length table = 256%nat -> 0 <= lba < 2 ^ 48 -> 0 < count < 2 ^ 16 -> 0 <= buffer < 2 ^ 64 ->
  exists t, fill_table table buffer count write lba = Some t /\ length t = 256%nat /\
    byte_at t 0 = FIS_TYPE_REG_H2D /\ byte_at t 1 = 128 /\
    byte_at t 2 = (if write then ATA_CMD_WRITE_DMA_EXT else ATA_CMD_READ_DMA_EXT) /\
    command_lba t = lba /\ command_count t = count /\ command_buffer t = buffer /\ command_bytes t = count * 512.
Proof.
  intros Hl Hlba Hcount Hbuf. destruct (fill_table_ok table buffer count write lba Hl) as (t & E & Ht & Hf & H1 & H2 & H3).
  exists t. split; [done|]. split; [done|]. unfold command_lba, command_count, command_buffer, command_bytes, byte_at.
  rewrite !Hf by lia. rewrite H1, H2, H3. cbn [stored command_fis Z.eqb Pos.eqb default from_option id].
  split; [done|]. split; [done|]. split; [done|]. unfold u8, wrap.
  change 0xFF with (Z.ones 8). rewrite !Z.land_ones, !Z.shiftr_div_pow2 by lia.
  change (2 ^ 8) with 256. change (2 ^ 16) with 65536 in *. change (2 ^ 24) with 16777216. change (2 ^ 32) with 4294967296.
  change (2 ^ 40) with 1099511627776. split; [by apply lba_value|]. split; [lia|].
  assert (Hw : forall v, 0 <= v < 2 ^ 32 -> word_at (le32 v) 0 = v) by (intros v Hv; exact (le32_value v Hv)).
  split.
  - rewrite !Hw by apply u32_range. unfold u32, wrap. change (2 ^ 32) with 4294967296.
    change (2 ^ 64) with 18446744073709551616 in *. lia.
  - rewrite (u32_small (count * 512)) by lia. rewrite u32_small by lia. rewrite Z.lor_comm.
    assert (Hlor : Z.lor (Z.shiftl 1 31) (count * 512 - 1) = 2 ^ 31 + (count * 512 - 1)).
    { rewrite lor_shiftl_add by lia. lia. }
    rewrite Hlor, Hw by lia. lia.
Qed.

Lemma ahci_command_roundtrip_witness :
  exists t, fill_table (replicate 256 0) 0x123456789A 2 true 0xABCDEF012345 = Some t /\
    command_lba t = 0xABCDEF012345 /\ command_count t = 2 /\ command_buffer t = 0x123456789A /\ command_bytes t = 1024.
Proof.
  destruct (ahci_command_roundtrip (replicate 256 0) 0x123456789A 2 true 0xABCDEF012345 eq_refl ltac:(lia) ltac:(lia) ltac:(lia))
    as (t & E & _ & _ & _ & _ & H1 & H2 & H3 & H4).
  exists t. split; [exact E|]. split; [exact H1|]. split; [exact H2|]. split; [exact H3|exact H4].
Defined.

(** The slot that is chosen is the lowest one that is neither active nor
    issued. *)
Lemma free_slot_spec slots i :
  free_slot slots = Some i -> (i < 32)%nat /\ bit_test slots (Z.of_nat i) = false /\
    forall j, (j < i)%nat -> bit_test slots (Z.of_nat j) = true.
Proof.
  unfold free_slot, bit_test. intros (x & Hx & Hc & Hmin)%first_index_Some. apply lookup_seqZ in Hx as [-> Hlt].
  split; [lia|]. rewrite Z.add_0_l in Hc. split; [by rewrite Hc|]. intros j Hj.
  specialize (Hmin j (Z.of_nat j) Hj). rewrite Hmin; [done|]. apply lookup_seqZ. lia.
Qed.

(** ** The driver serves no port

    Clearing the command list reads 1024 bytes from a literal of 101. *)

Lemma bind_Ok {S A B} (m : io S A) (f : A -> io S B) s b s' :
  (m ≫= f) s = Ok (b, s') -> exists a s1, m s = Ok (a, s1) /\ f a s1 = Ok (b, s').
Proof. unfold mbind, io_bind. destruct (m s) as [[a s1]| |]; [|done|done]. by eauto. Qed.

Section serves.
Context {D : Type} `{!PortIO D} `{!Mmio D} (cmd_list_addr fis_addr tables_addr : Z) (fuel : nat).
Implicit Types s : ahci_t D.

Lemma on_hardware_ports {A} (m : io D A) s a s' :
  on_hardware m s = Ok (a, s') -> ahci_ports s' = ahci_ports s /\ ahci_hba s' = ahci_hba s.
Proof using Type. unfold on_hardware. destruct (m (hardware s)) as [[x d]| |]; [|done|done]. by intros [= _ <-]. Qed.

Lemma list_not_cleared l : ahci_memcpy l (literal 100) 1024 = None.
Proof using Type. done. Qed.

Lemma rebase_never_returns i port s u s' :
  aget (ahci_ports s) i = Some port -> port <> 0 ->
  ahci_port_rebase cmd_list_addr fis_addr tables_addr fuel i s <> Ok (u, s').
Proof using Type.
  intros Hp Hne. unfold ahci_port_rebase. rewrite bind_gets. unfold id. rewrite (bind_lift _ _ _ _ Hp).
  rewrite (proj2 (Z.eqb_neq _ _) Hne).
  intros (? & s1 & _ & (? & s2 & _ & (? & s3 & _ & (? & s4 & _ & (? & s5 & _ & (l & s6 & _ & H)%bind_Ok)%bind_Ok)%bind_Ok)%bind_Ok)%bind_Ok)%bind_Ok.
  by rewrite list_not_cleared in H.
Qed.

(** A port that is started is not left in the table. *)
Lemma start_port_ports implemented i s u s' :
  0 <= ahci_hba s -> 0 <= i ->
  start_port cmd_list_addr fis_addr tables_addr fuel implemented i s = Ok (u, s') ->
  ahci_ports s' = ahci_ports s /\ ahci_hba s' = ahci_hba s.
Proof using Type.
  intros Hhba Hi. unfold start_port. destruct (_ =? 0); [by intros [= _ <-]|]. rewrite bind_gets. cbv zeta.
  set (port := ahci_hba s + 0x100 + i * 0x80). intros (present & s1 & E1 & H)%bind_Ok. apply on_hardware_ports in E1 as [P1 B1].
  destruct present; cbn [negb] in H; [|by injection H as _ <-; rewrite P1, B1].
  apply bind_Ok in H as (g & s2 & E2 & H). apply on_hardware_ports in E2 as [P2 B2].
  apply bind_Ok in H as (ata & s3 & E3 & H).
  assert (P3 : ahci_ports s3 = ahci_ports s2 /\ ahci_hba s3 = ahci_hba s2).
  { destruct (g =? SATA_SIG_ATA); [by injection E3 as _ <-|]. apply bind_Ok in E3 as (g' & s4 & E4 & E3).
    injection E3 as _ <-. by apply on_hardware_ports in E4. }
  destruct P3 as [P3 B3]. destruct ata; cbn [negb] in H; [|injection H as _ <-; split; congruence].
  rewrite bind_gets in H. apply bind_Ok in H as (ports & s4 & E4 & H). unfold lift in E4.
  destruct (aset (ahci_ports s3) i port) as [l|] eqn:Ea; [|done]. injection E4 as <- <-. rewrite bind_modify in H.
  exfalso. revert H. apply (rebase_never_returns i port); [|unfold port; lia]. apply aset_Some in Ea as [Hr ->].
  cbn [set_ports ahci_ports]. rewrite aget_insert by lia. by rewrite Z.eqb_refl.
Qed.

Lemma start_ports_ports implemented n i s u s' :
  0 <= ahci_hba s -> 0 <= i ->
  for_loop n i (start_port cmd_list_addr fis_addr tables_addr fuel implemented) s = Ok (u, s') -> ahci_ports s' = ahci_ports s.
Proof using Type.
  revert i s. induction n as [|n IH]; intros i s Hs Hi; cbn [for_loop]; [by intros [= _ <-]|].
  intros (? & s1 & [P1 B1]%start_port_ports & H)%bind_Ok; [|done|done]. rewrite <- P1. eapply IH; [|exact (Z.le_le_succ_r _ _ Hi)|exact H]. congruence.
Qed.
End serves.

(** A base address is not negative. *)
Lemma bar5_nonneg {D} `{!PortIO D} b d f (x x' : D) v : pci_get_bar5 b d f x = Ok (v, x') -> 0 <= v.
Proof.
  unfold pci_get_bar5, pci_config_read, pci_read_config_dword. intros (lo & x1 & E1 & (hi & x2 & E2 & H)%bind_Ok)%bind_Ok.
  apply bind_Ok in E1 as (? & ? & _ & E1). apply bind_Ok in E2 as (? & ? & _ & E2).
  apply in_range in E1 as [H1 _]; [|lia]. apply in_range in E2 as [H2 _]; [|lia]. injection H as <- _.
  destruct (_ =? 0); [|done]. apply Z.lor_nonneg. split; [by apply Z.shiftl_nonneg|apply Z.land_nonneg; by left].
Qed.

(** No start of the driver that returns leaves a port to serve. *)
Lemma initialize_no_ports {D} `{!PortIO D} `{!Mmio D} la fa ta fuel (s s' : ahci_t D) :
  ahci_initialize la fa ta fuel s = Ok (tt, s') -> ahci_ports s' = replicate 32 0.
Proof.
  intros H. unfold ahci_initialize in H. rewrite bind_modify in H. apply bind_Ok in H as (c & s1 & [P1 _]%on_hardware_ports & H).
  cbn [set_ports ahci_ports] in P1. destruct c as [[[b d] f]|]; [|by injection H as <-].
  apply bind_Ok in H as (bar & s2 & E2 & H). pose proof (on_hardware_ports _ _ _ _ E2) as [P2 _].
  assert (Hbar : 0 <= bar).
  { unfold on_hardware in E2. destruct (pci_get_bar5 b d f (hardware s1)) as [[v x]| |] eqn:E; [|done|done].
    injection E2 as <- _. by eapply bar5_nonneg. }
  destruct (bar =? 0); [injection H as <-; congruence|].
  apply bind_Ok in H as (? & s3 & [P3 _]%on_hardware_ports & H). apply bind_Ok in H as (? & s4 & [P4 _]%on_hardware_ports & H).
  rewrite bind_modify in H. apply bind_Ok in H as (? & s5 & [P5 B5]%on_hardware_ports & H). cbn [set_hba ahci_ports ahci_hba] in *.
  apply start_ports_ports in H; [congruence|by rewrite B5|done].
Qed.

Lemma no_ports_transfer {D} `{!PortIO D} `{!Mmio D} la fuel (s : ahci_t D) lba buffer :
  ahci_ports s = replicate 32 0 ->
  ahci_read_sector la fuel lba buffer s = Ok (-1, s) /\ ahci_write_sector la fuel lba buffer s = Ok (-1, s).
Proof.
  intros Hp. assert (Ht : forall w, ahci_do_transfer la fuel lba buffer 1 w s = Ok (false, s)).
  { intros w. unfold ahci_do_transfer. rewrite bind_gets. unfold id. rewrite Hp. by destruct (ahci_hba s =? 0). }
  unfold ahci_read_sector, ahci_write_sector.
  destruct (buffer =? 0); [done|]. by rewrite !(bind_ok _ _ _ _ _ (Ht _)).
Qed.

(** C40: the driver never serves a disk.  Whatever the hardware, if
    [ahci_initialize] ends at all without undefined behaviour, no port is in
    use and every read and write of a sector returns -1 and changes nothing:
    a port with a disk makes the initialisation copy 1024 bytes from a string
    literal of 101 bytes. *)
Theorem ahci_serves_no_port {D} `{!PortIO D} `{!Mmio D} la fa ta fuel (s s' : ahci_t D) lba buffer :
  ahci_initialize la fa ta fuel s = Ok (tt, s') ->
  ahci_ports s' = replicate 32 0 /\ ahci_read_sector la fuel lba buffer s' = Ok (-1, s') /\
  ahci_write_sector la fuel lba buffer s' = Ok (-1, s').
Proof.
  intros H. pose proof (initialize_no_ports _ _ _ _ _ _ H) as Hp. split; [done|]. by apply no_ports_transfer.
Qed.

#[export] Instance trace_mmio : Mmio trace_device := { mmio_in a d := (answers d 4 a, d); mmio_out a v d := d }.

(** A machine without a controller. *)
Definition diskless : ahci_t trace_device :=
  AhciState 0 (replicate 32 7) [] [] [] (Trace (fun _ _ => 0xFFFFFFFF) []).

Lemma ahci_serves_no_port_witness :
  exists s', ahci_initialize 0x10000 0x20000 0x30000 10 diskless = Ok (tt, s') /\
    ahci_read_sector 0x10000 10 5 0x5000 s' = Ok (-1, s').
Proof.
  eexists. split; [vm_compute; reflexivity|].
  apply (ahci_serves_no_port 0x10000 0x20000 0x30000 10 diskless). vm_compute. reflexivity.
Defined.
