(* ===== verification/AhciNew.v ===== *)
(** * Placeholder disk driver ([src/ahci_new.c])

    Three functions with the names of those of [src/ahci.c], meant as a
    replacement for it, which do nothing but write a log line.  The lemma
    compares them with the driver that they are to replace. *)

From S2P Require Import Prelude Io Audio Ahci.

Section placeholder.
Context {D : Type}.

Definition ahci_initialize : io (ahci_t D) unit := skip.
Definition ahci_read_sector (lba : Z) (buffer : Z) : io (ahci_t D) Z := mret (-1).
Definition ahci_write_sector (lba : Z) (buffer : Z) : io (ahci_t D) Z := mret (-1).
End placeholder.

(** The driver drops the ports that it finds, so that once it is initialised
    no caller can tell it from the placeholder. *)
Lemma placeholder_equivalent {D} `{!PortIO D} `{!Mmio D} la fa ta fuel (s0 s : ahci_t D) lba buffer :
  Ahci.ahci_initialize la fa ta fuel s0 = Ok (tt, s) ->
  Ahci.ahci_read_sector la fuel lba buffer s = ahci_read_sector lba buffer s /\
  Ahci.ahci_write_sector la fuel lba buffer s = ahci_write_sector lba buffer s.
Proof. intros E. apply no_ports_transfer. by apply (initialize_no_ports _ _ _ _ _ _ E). Qed.
