(* ===== verification/Kernel.v ===== *)
(** * Kernel ([src/kernel.c])

    The start of the desktop and of the tasks in [kernel_main], its main
    loop, the panic handler, and the shell task.  The start of the memory
    manager is in [Boot]; the drivers that [kernel_main] starts are in their
    own files. *)

From S2P Require Import Prelude Io Sched Pci Net Fat32 Ring Input InputSafety Vga Windows Desktop Services FileOps Launcher Gui Console Interrupts.

(** ** The desktop at boot *)

(** From [vga_initialize] to [gui_render].  The entry points of the three
    applications are arguments.  The clipboard and the file table, which are
    started in between, are not part of the desktop: see [start_stores]. *)
Definition start_desktop (file_manager_app terminal_app settings_app : Z) : io desktop_t unit :=
  paint (fun _ => vga_initialize) ≫= fun _ =>
  paint (fun _ => vga_clear_screen) ≫= fun _ =>
  gui_initialize ≫= fun _ =>
  gui_set_resolution 80 24 ≫= fun _ =>
  modify (fun d => set_center (Notifications.notification_center_initialize (center d)) d) ≫= fun _ =>
  post_notification (Some (chars "Welcome")) (Some (chars "System started")) 0 ≫= fun _ =>
  modify (fun d => set_control (ControlCenter.control_center_initialize (control_visible d)) d) ≫= fun _ =>
  d ← gets id;
  l ← lift (app_launcher_initialize file_manager_app terminal_app settings_app (launcher d));
  modify (set_apps l (sched d)) ≫= fun _ =>
  gui_open_window (Some (chars "System Console")) 10 3 40 12 ≫= fun _ =>
  gui_open_window (Some (chars "Task Monitor")) 52 3 26 10 ≫= fun _ =>
  gui_open_window (Some (chars "File Manager")) 15 14 50 8 ≫= fun _ =>
  on_wm window_manager_initialize ≫= fun _ =>
  on_wm (window_manager_create_window 2 2 36 10 (Some (chars "System Console"))) ≫= fun _ =>
  on_wm (window_manager_create_window 40 2 36 10 (Some (chars "Task Monitor"))) ≫= fun _ =>
  gui_render.

Definition start_stores (c : Clipboard.clipboard_t) (f : files_t) : Clipboard.clipboard_t * files_t :=
  (Clipboard.clipboard_initialize c, file_ops_initialize f).

(** From the static variables, which are well formed, the boot sequence leads
    to a well-formed desktop with the three applications. *)
Lemma start_desktop_ok fm te se d :
  desktop_ok d -> exists d', start_desktop fm te se d = Ok (tt, d') /\ desktop_ok d'.
Proof.
  intros Hd. assert (H : keeps (start_desktop fm te se)); [|destruct (H d Hd) as ([] & d' & ?); by exists d'].
  assert (Hop : forall m op, m = desk_step 0 0 op -> op_ok op -> keeps m) by (intros m op ->; apply keeps_step).
  unfold start_desktop.
  apply keeps_bind; [apply keeps_paint; intros ? ? t Ht; by exists tt; eexists|intros _].
  apply keeps_bind; [apply keeps_paint; intros; exact draws_clear|intros _].
  apply keeps_bind; [by apply (Hop _ Initialize)|intros _].
  apply keeps_bind; [by apply (Hop _ (SetResolution 80 24))|intros _].
  apply keeps_bind; [|intros _].
  { intros x Hx. exists tt. eexists. split; [done|]. destruct Hx as [? ? [Hl Hc Ht] ? ? ?]. split; try done.
    cbn [center set_center Notifications.notification_center_initialize]. split; cbn; [by rewrite length_fmap|lia|].
    rewrite Forall_fmap. by eapply Forall_impl; [exact Ht|]. }
  apply keeps_bind; [by apply (Hop _ (Notify (chars "Welcome") (chars "System started") 0))|intros _].
  apply keeps_bind; [intros x Hx; exists tt; eexists; split; [done|]; by destruct Hx|intros _].
  intros x Hx. rewrite bind_gets. unfold id.
  destruct (initialize_apps fm te se (launcher x) (apps_slots _ (ok_apps _ Hx))) as (l & E & Hl & _).
  rewrite (bind_lift _ _ _ _ E), bind_modify.
  assert (Hx' : desktop_ok (set_apps l (sched x) x)) by (by destruct Hx). revert Hx'. generalize (set_apps l (sched x) x).
  assert (Hrect : forall v, -1000 < v < 1000 -> coord v) by (unfold coord; lia).
  change (keeps (gui_open_window (Some (chars "System Console")) 10 3 40 12 ≫= fun _ =>
    gui_open_window (Some (chars "Task Monitor")) 52 3 26 10 ≫= fun _ =>
    gui_open_window (Some (chars "File Manager")) 15 14 50 8 ≫= fun _ =>
    on_wm window_manager_initialize ≫= fun _ =>
    on_wm (window_manager_create_window 2 2 36 10 (Some (chars "System Console"))) ≫= fun _ =>
    on_wm (window_manager_create_window 40 2 36 10 (Some (chars "Task Monitor"))) ≫= fun _ => gui_render)).
  do 3 (apply keeps_bind; [apply keeps_open; split_and!; apply Hrect; lia|intros _]).
  apply keeps_bind; [apply keeps_wm; intros w [Hw1 Hw2 Hw3 Hw4]; exists tt; eexists; split; [done|]; split; done || (simpl; lia)|intros _].
  do 2 (apply keeps_bind; [apply keeps_wm, total_create; [split_and!; apply Hrect; lia|by eexists]|intros _]).
  exact keeps_render.
Qed.

(** ** Tasks *)

Section tasks.
Context (stacks_addr wrapper_addr idle_task_func shell_task : Z) (entries : list Z) (generic : Z).

(** The first tasks and the services. *)
Definition start_tasks (sv : services_t) (st : sched_t) (sp : spooler_t) : option (services_t * sched_t * spooler_t) :=
  '(st, _) ← create_task stacks_addr wrapper_addr "idle" idle_task_func 0 st;
  '(st, _) ← create_task stacks_addr wrapper_addr "shell" shell_task 1 st;
  background_services_initialize stacks_addr wrapper_addr entries generic sv st sp.
End tasks.

(** One round of the loop at the end of [kernel_main]; [yield_ret] is the
    return address in [task_yield]. *)
Definition kernel_loop (yield_ret : Z) (st : sched_t) : option (sched_t * option Z) :=
  if scheduler_pending st then schedule yield_ret st else Some (st, None).

Definition pit_tick (st : sched_t) : sched_t := request_schedule st.

(** One round of [idle_task_func]. *)
Definition idle_round (yield_ret : Z) (st : sched_t) : option (sched_t * option Z) := task_yield yield_ret st.

(** ** The shell *)

(** The locals of [shell_task]; [commands] are the lines given to [kprintf],
    latest first. *)
Record shell_t := Shell { sh_x : Z; sh_y : Z; pos : Z; line : list Z; commands : list (list Z) }.

Definition prompt : string := "[.C OS]> ".

(** [for (p = prompt; *p; p++) vga_write_char(x++, y, *p, 0x0F);] *)
Fixpoint draw_prompt (text : list Z) (x y : Z) : io text_t Z :=
  match text with
  | [] => mret x
  | c :: text' => vga_write_char x y c 0x0F ≫= fun _ => draw_prompt text' (x + 1) y
  end.

Definition shell_start : io text_t shell_t :=
  x ← draw_prompt (chars prompt) 0 22;
  mret (Shell x 22 0 (replicate 80 0) []).

(** The characters up to the terminator. *)
Fixpoint c_string (l : list Z) : list Z :=
  match l with
  | [] => []
  | c :: l' => if c =? 0 then [] else c :: c_string l'
  end.

(** What happens with the character [c]. *)
Definition shell_key (c : Z) (s : shell_t) : io text_t shell_t :=
  if (c =? 13) || (c =? 10) then
    l ← lift (aset (line s) (pos s) 0);
    let y := sh_y s + 1 in
    let y := if 24 <=? y then 23 else y in
    x ← draw_prompt (chars prompt) 0 y;
    mret (Shell x y 0 l (c_string l :: commands s))
  else if c =? 8 then
    if 0 <? pos s then
      let x := sh_x s - 1 in
      vga_write_char x (sh_y s) 32 0x0F ≫= fun _ =>
      mret (Shell x (sh_y s) (pos s - 1) (line s) (commands s))
    else mret s
  else if pos s <? 80 - 1 then
    l ← lift (aset (line s) (pos s) c);
    vga_write_char (sh_x s) (sh_y s) c 0x0F ≫= fun _ =>
    mret (Shell (sh_x s + 1) (sh_y s) (pos s + 1) l (commands s))
  else mret s.

(** [mx / 10] and [mx % 10] are those of C. *)
Definition draw_mouse_status (x y mx my : Z) (left right middle : bool) : io text_t unit :=
  if (x <? 0) || (78 <=? x) || (y <? 0) || (24 <=? y) then skip
  else
    vga_write_char x y 77 0x0F ≫= fun _ =>
    vga_write_char (x + 1) y 88 0x0F ≫= fun _ =>
    vga_write_char (x + 2) y 58 0x0F ≫= fun _ =>
    vga_write_char (x + 3) y (s8 (48 + Z.quot mx 10)) 0x0F ≫= fun _ =>
    vga_write_char (x + 4) y (s8 (48 + Z.rem mx 10)) 0x0F ≫= fun _ =>
    vga_write_char (x + 5) y 32 0x0F ≫= fun _ =>
    vga_write_char (x + 6) y 77 0x0F ≫= fun _ =>
    vga_write_char (x + 7) y 89 0x0F ≫= fun _ =>
    vga_write_char (x + 8) y 58 0x0F ≫= fun _ =>
    vga_write_char (x + 9) y (s8 (48 + Z.quot my 10)) 0x0F ≫= fun _ =>
    vga_write_char (x + 10) y (s8 (48 + Z.rem my 10)) 0x0F ≫= fun _ =>
    vga_write_char (x + 11) y 32 0x0F ≫= fun _ =>
    vga_write_char (x + 12) y (if left then 76 else 45) 0x0F ≫= fun _ =>
    vga_write_char (x + 13) y (if right then 82 else 45) 0x0F ≫= fun _ =>
    vga_write_char (x + 14) y (if middle then 77 else 45) 0x0F.

(** *** One round of the shell *)

Definition within_screen {A} (m : io text_t A) : io desktop_t A :=
  fun d => match m (screen d) with
           | Ok (a, t) => Ok (a, set_screen t d)
           | Undef => Undef
           | NoFuel => NoFuel
           end.

Record session_t (I N : Type) := Session { shell : shell_t; input : input_t I; net : net_t N; desk : desktop_t }.
Arguments Session {I N}. Arguments shell {I N}. Arguments input {I N}. Arguments net {I N}. Arguments desk {I N}.

Section round.
Context {I N : Type} `{!InputDevice I} `{!Nic N}.
Context (tx_addr : Z) (junk60 junk1514 : list Z) (fuel : nat) (stacks_addr wrapper_addr yield_ret : Z).

(** A computation on one component. *)
Definition within {S A} (get : session_t I N -> S) (set : S -> session_t I N -> session_t I N) (m : io S A) :
    io (session_t I N) A :=
  fun s => match m (get s) with
           | Ok (a, x) => Ok (a, set x s)
           | Undef => Undef
           | NoFuel => NoFuel
           end.

Definition on_input {A} (m : io (input_t I) A) : io (session_t I N) A :=
  within input (fun x s => Session (shell s) x (net s) (desk s)) m.
Definition on_net {A} (m : io (net_t N) A) : io (session_t I N) A :=
  within net (fun x s => Session (shell s) (input s) x (desk s)) m.
Definition on_desk {A} (m : io desktop_t A) : io (session_t I N) A :=
  within desk (fun x s => Session (shell s) (input s) (net s) x) m.
Definition on_screen_of {A} (m : io text_t A) : io (session_t I N) A :=
  on_desk (within_screen m).

(** The keyboard in a round. *)
Definition shell_keyboard : io (session_t I N) unit :=
  has_key ← on_input keyboard_has_data;
  if (has_key : bool) then
    c ← on_input keyboard_read_char;
    s ← gets shell;
    s ← on_screen_of (shell_key c s);
    modify (fun t => Session s (input t) (net t) (desk t))
  else skip.

(** The mouse in a round. *)
Definition shell_mouse : io (session_t I N) unit :=
  has_event ← on_input mouse_has_event;
  if (has_event : bool) then
    st ← gets input;
    '(e, st) ← lift (mouse_get_event true st);
    on_input (modify (fun _ => st)) ≫= fun _ =>
    let mouse_x := mouse_get_x st in
    let mouse_y := mouse_get_y st in
    on_screen_of (draw_mouse_status 0 23 mouse_x mouse_y (left e) (right e) (middle e)) ≫= fun _ =>
    if left e || right e || middle e then
      on_desk (gui_handle_mouse_click stacks_addr wrapper_addr mouse_x mouse_y (left e) (right e) (middle e))
    else skip
  else skip.

Definition shell_round : io (session_t I N) (option Z) :=
  shell_keyboard ≫= fun _ =>
  shell_mouse ≫= fun _ =>
  on_net (network_poll tx_addr junk60 junk1514 fuel) ≫= fun _ =>
  d ← gets desk;
  '(st, rip) ← lift (task_yield yield_ret (sched d));
  on_desk (modify (set_apps (launcher d) st)) ≫= fun _ =>
  mret rip.
End round.

(** ** Panic *)

Section panic.
Context {D : Type} `{!PortIO D}.

Definition on_fst {S T A} (m : io S A) : io (S * T) A :=
  fun s => match m s.1 with Ok (a, x) => Ok (a, (x, s.2)) | Undef => Undef | NoFuel => NoFuel end.
Definition on_snd {S T A} (m : io T A) : io (S * T) A :=
  fun s => match m s.2 with Ok (a, x) => Ok (a, (s.1, x)) | Undef => Undef | NoFuel => NoFuel end.

Definition log_format (text : string) : list Z := chars "[ERROR] " ++ chars text ++ [10; 0].

(** Up to the point where the processor halts. *)
Definition kpanic (fuel : nat) (msg : option (list Z)) : io (int_t D * text_t) unit :=
  on_fst disable_interrupts ≫= fun _ =>
  on_snd vga_clear_screen ≫= fun _ =>
  on_fst (on_chips (kprintf fuel (log_format "KERNEL PANIC: %s") [Str msg])) ≫= fun _ =>
  on_fst (on_chips (kprintf fuel (log_format "System halted.") [])) ≫= fun _ =>
  skip.
End panic.

(** ** The shell edits lines

    The specification: the text of the line and the commands, latest first. *)

Definition spec_key (c : Z) (s : list Z * list (list Z)) : list Z * list (list Z) :=
  let '(text, done) := s in
  if (c =? 13) || (c =? 10) then ([], text :: done)
  else if c =? 8 then (take (length text - 1) text, done)
  else if (length text <? 79)%nat then (text ++ [c], done) else (text, done).

Fixpoint shell_keys (cs : list Z) (s : shell_t) : io text_t shell_t :=
  match cs with
  | [] => mret s
  | c :: cs' => s ← shell_key c s; shell_keys cs' s
  end.

(** The line on the screen: the prompt and as much of the text as fits. *)
Record shell_ok (s : shell_t) (text : list Z) (t : text_t) : Prop := {
  sh_pos : pos s = Z.of_nat (length text);
  sh_max : (length text <= 79)%nat;
  sh_col : sh_x s = 9 + pos s;
  sh_row : 22 <= sh_y s <= 23;
  sh_size : length (line s) = 80%nat;
  sh_line : take (length text) (line s) = text;
  sh_nonzero : Forall (fun c => c <> 0) text;
  sh_screen : screen_ok t;
  sh_prompt : reads t 0 (sh_y s) (chars prompt) 0x0F;
  sh_text : reads t 9 (sh_y s) (take 71 text) 0x0F
}.

Lemma draw_prompt_ok text x y t :
  screen_ok t -> 0 <= x -> x + Z.of_nat (length text) <= 80 -> 0 <= y < 25 ->
  exists t', draw_prompt text x y t = Ok (x + Z.of_nat (length text), t') /\ screen_ok t' /\ reads t' x y text 0x0F.
Proof.
  intros Ht Hx Hl Hy. destruct (draw_text_shown text x 80 y 0x0F t Ht Hx Hl ltac:(lia) Hy) as (t' & E & Ht' & Hr & _).
  exists t'. split; [|done]. clear Ht Ht' Hr. revert x t Hx Hl E.
  induction text as [|c text IH]; intros x t Hx Hl E; cbn [draw_prompt draw_text length] in *.
  - injection E as <-. by rewrite Z.add_0_r.
  - rewrite (proj2 (Z.ltb_lt x 80)) in E by lia. revert E. unfold mbind, io_bind.
    destruct (vga_write_char x y c 0x0F t) as [[[] t1]| |]; [|done|done]. intros E. rewrite (IH (x + 1) t1) by (done || lia).
    do 2 f_equal. lia.
Qed.

Lemma reads_app t x y a b color :
  reads t x y (a ++ b) color <-> reads t x y a color /\ reads t (x + Z.of_nat (length a)) y b color.
Proof.
  unfold reads. split.
  - intros H. split; intros k c Hk.
    + apply H. by apply lookup_app_l_Some.
    + rewrite <- Z.add_assoc, <- Nat2Z.inj_add. apply H. rewrite lookup_app_r by lia. by rewrite Nat.add_comm, Nat.add_sub.
  - intros [H1 H2] k c [Hk|[Hge Hk]]%lookup_app_Some; [by apply H1|]. rewrite <- (H2 _ _ Hk). f_equal. lia.
Qed.

(** Writing one cell leaves the texts to the left of it. *)
Lemma write_char_reads t x y c color :
  screen_ok t -> 0 <= y < 25 ->
  exists t', vga_write_char x y c color t = Ok (tt, t') /\ screen_ok t' /\
    (0 <= x < 80 -> reads t' x y [c] color) /\
    (forall tx text text_color, reads t tx y text text_color -> 0 <= tx -> tx + Z.of_nat (length text) <= Z.min x 80 ->
      reads t' tx y text text_color).
Proof.
  intros Ht Hy. destruct (write_char_ok t x y c color Ht) as (t' & E & (_ & _ & _ & Ht') & Hs).
  exists t'. split_and!; try done.
  - intros Hx [|k] c' Hc; [|done]. injection Hc as <-. rewrite Z.add_0_r, Hs by (unfold on_screen; lia). by rewrite !Z.eqb_refl.
  - intros tx' text' col Hr Htx Hl k c' Hc. pose proof (lookup_lt_Some _ _ _ Hc). rewrite Hs by (unfold on_screen; lia).
    rewrite (proj2 (Z.eqb_neq _ x)) by lia. by apply Hr.
Qed.

Lemma c_string_ok text rest : Forall (fun c => c <> 0) text -> c_string (text ++ 0 :: rest) = text.
Proof. induction 1 as [|c text Hc Ht IH]; [done|]. simpl. by rewrite (proj2 (Z.eqb_neq _ _) Hc), IH. Qed.

(** The line after a store at the end of the text. *)
Lemma line_store (l text : list Z) c :
  length l = 80%nat -> (length text <= 79)%nat -> take (length text) l = text ->
  aset l (Z.of_nat (length text)) c = Some (text ++ c :: drop (S (length text)) l).
Proof.
  intros Hl Hn Ht. rewrite aset_in_range by lia. rewrite Nat2Z.id. f_equal.
  rewrite insert_take_drop by lia. by rewrite Ht.
Qed.

Lemma shell_enter s text t :
  shell_ok s text t -> exists s' t', shell_key 10 s t = Ok (s', t') /\ shell_key 13 s t = Ok (s', t') /\ shell_ok s' [] t' /\
    commands s' = text :: commands s.
Proof.
  intros [Hp Hm Hx Hy Hl Ht Hz Hs Hr1 Hr2]. unfold shell_key. cbn [Z.eqb Pos.eqb orb]. rewrite Hp.
  rewrite !(bind_lift _ _ _ _ (line_store _ _ 0 Hl Hm Ht)). cbv zeta.
  set (y := if 24 <=? sh_y s + 1 then 23 else sh_y s + 1). assert (Hy' : 22 <= y <= 23) by (unfold y; case_cmp; lia).
  destruct (draw_prompt_ok (chars prompt) 0 y t Hs ltac:(lia) ltac:(vm_compute; done) ltac:(lia)) as (t' & E & Ht' & Hr).
  rewrite !(bind_ok _ _ _ _ _ E). eexists _, t'. split; [done|]. split; [done|].
  assert (Hlen : length (text ++ 0 :: drop (S (length text)) (line s)) = 80%nat).
  { rewrite length_app, length_cons, length_drop. lia. }
  split; [|cbn [commands]; by rewrite c_string_ok].
  split; cbn [pos sh_x sh_y line length take]; try done; lia.
Qed.

Lemma shell_back s text t :
  shell_ok s text t -> exists s' t', shell_key 8 s t = Ok (s', t') /\ shell_ok s' (take (length text - 1) text) t' /\
    commands s' = commands s.
Proof.
  intros Hok. pose proof Hok as [Hp Hm Hx Hy Hl Ht Hz Hs Hr1 Hr2]. unfold shell_key. cbn [Z.eqb Pos.eqb orb]. rewrite Hp.
  case_cmp.
  - destruct (write_char_reads t (sh_x s - 1) (sh_y s) 32 0x0F Hs ltac:(lia)) as (t' & E & Hs' & _ & Hk).
    cbv zeta. rewrite (bind_ok _ _ _ _ _ E). eexists _, t'. split; [done|]. split; [|done].
    assert (Hn : length (take (length text - 1) text) = (length text - 1)%nat) by (rewrite length_take; lia).
    split; cbn [pos sh_x sh_y line]; rewrite ?Hn; try done; try lia.
    + trans (take (length text - 1) (take (length text) (line s))); [rewrite take_take; f_equal; lia|by rewrite Ht].
    + by apply Forall_take.
    + apply Hk; [done|lia|]. change (length (chars prompt)) with 9%nat. lia.
    + apply Hk; [|lia|rewrite !length_take; lia].
      rewrite <- (take_drop (length text - 1) (take 71 text)) in Hr2. apply reads_app in Hr2 as [Hr2 _].
      rewrite take_take in Hr2 |- *. by rewrite Nat.min_comm.
  - exists s, t. split; [done|]. assert (text = []) as -> by (destruct text; [done|simpl in *; lia]). done.
Qed.

Lemma shell_char c s text t :
  shell_ok s text t -> c <> 0 -> c <> 8 -> c <> 10 -> c <> 13 ->
  exists s' t', shell_key c s t = Ok (s', t') /\ commands s' = commands s /\
    shell_ok s' (if (length text <? 79)%nat then text ++ [c] else text) t'.
Proof.
  intros Hok H0 H8 H10 H13. pose proof Hok as [Hp Hm Hx Hy Hl Ht Hz Hs Hr1 Hr2]. unfold shell_key.
  rewrite !(proj2 (Z.eqb_neq c _)) by done. cbn [orb]. rewrite Hp. change (80 - 1) with 79.
  destruct (Nat.ltb_spec (length text) 79) as [Hlt|Hge]; [rewrite (proj2 (Z.ltb_lt _ 79)) by lia|
    rewrite (proj2 (Z.ltb_ge _ 79)) by lia; by exists s, t].
  rewrite (bind_lift _ _ _ _ (line_store _ _ c Hl Hm Ht)).
  destruct (write_char_reads t (sh_x s) (sh_y s) c 0x0F Hs ltac:(lia)) as (t' & E & Hs' & Hw & Hk).
  rewrite (bind_ok _ _ _ _ _ E). eexists _, t'. split; [done|]. split; [done|].
  split; cbn [pos sh_x sh_y line]; rewrite ?length_app; cbn [length]; try done; try lia.
  - rewrite length_drop. lia.
  - replace (length text + 1)%nat with (length (text ++ [c])) by (rewrite length_app; done).
    change (c :: drop (S (length text)) (line s)) with ([c] ++ drop (S (length text)) (line s)).
    by rewrite app_assoc, take_app_length.
  - apply Forall_app. split; [done|by constructor].
  - apply Hk; [done|lia|]. change (length (chars prompt)) with 9%nat. lia.
  - assert (Hr2' : reads t' 9 (sh_y s) (take 71 text) 0x0F) by (apply Hk; [done|lia|rewrite length_take; lia]).
    destruct (Nat.lt_ge_cases (length text) 71) as [Hs71|Hs71].
    + rewrite take_ge in Hr2' |- * by (rewrite ?length_app; simpl; lia). apply reads_app. split; [done|].
      replace (9 + Z.of_nat (length text)) with (sh_x s) by lia. apply Hw. lia.
    + rewrite take_app_le by lia. done.
Qed.

Lemma shell_step c s text t :
  shell_ok s text t -> c <> 0 ->
  exists s' t', shell_key c s t = Ok (s', t') /\ shell_ok s' (spec_key c (text, commands s)).1 t' /\
    commands s' = (spec_key c (text, commands s)).2.
Proof.
  intros Hok H0. unfold spec_key. destruct (Z.eqb_spec c 13) as [->|H13]; [destruct (shell_enter _ _ _ Hok) as (s' & t' & _ & E & H & Hc); by exists s', t'|].
  destruct (Z.eqb_spec c 10) as [->|H10]; [destruct (shell_enter _ _ _ Hok) as (s' & t' & E & _ & H & Hc); by exists s', t'|].
  destruct (Z.eqb_spec c 8) as [->|H8]; [destruct (shell_back _ _ _ Hok) as (s' & t' & E & H & Hc); by exists s', t'|].
  destruct (shell_char c _ _ _ Hok H0 H8 H10 H13) as (s' & t' & E & Hc & H). cbn [orb]. exists s', t'.
  destruct (length text <? 79)%nat; by split_and!.
Qed.

Lemma shell_keys_ok cs s text t :
  Forall (fun c => c <> 0) cs -> shell_ok s text t ->
  exists s' t', shell_keys cs s t = Ok (s', t') /\
    commands s' = (foldl (fun s c => spec_key c s) (text, commands s) cs).2 /\
    shell_ok s' (foldl (fun s c => spec_key c s) (text, commands s) cs).1 t'.
Proof.
  intros Hcs. revert s text t. induction Hcs as [|c cs Hc Hcs IH]; intros s text t Hs; [by exists s, t|].
  destruct (shell_step c s text t Hs Hc) as (s1 & t2 & E1 & H1 & C1). cbn [foldl shell_keys].
  rewrite (bind_ok _ _ _ _ _ E1). destruct (spec_key c (text, commands s)) as [text1 cmds1]. cbn [fst snd] in *. subst cmds1.
  by apply IH.
Qed.

(** ** The rounds of the shell are safe

    Whatever is typed and clicked, and whatever the devices answer. *)

Record shell_fits (s : shell_t) : Prop := {
  fits_pos : 0 <= pos s < 80;
  fits_row : 22 <= sh_y s <= 23;
  fits_size : length (line s) = 80%nat
}.

Record session_ok {I N} (s : session_t I N) : Prop := {
  session_shell : shell_fits (shell s);
  session_input : input_ok (input s);
  session_net : net_wf (net s);
  session_desk : desktop_ok (desk s)
}.

Lemma draw_prompt_total text x y : total screen_ok (draw_prompt text x y) (fun _ => screen_ok).
Proof.
  revert x. induction text as [|c text IH]; intros x; [by apply total_ret|].
  eapply total_bind; [apply draws_write|intros []; apply IH].
Qed.

Lemma shell_start_fits : total screen_ok shell_start (fun s t => shell_fits s /\ screen_ok t).
Proof.
  eapply total_bind; [apply draw_prompt_total|]. intros x. apply total_ret. intros t Ht. split; [|done]. split; try done; cbn; lia.
Qed.

Lemma shell_key_fits c s : shell_fits s -> total screen_ok (shell_key c s) (fun s t => shell_fits s /\ screen_ok t).
Proof.
  intros [Hp Hy Hl]. unfold shell_key. destruct (_ || _); [|destruct (c =? 8); [|destruct (Z.ltb_spec (pos s) (80 - 1))]].
  - intros t Ht. rewrite (bind_lift _ _ _ _ (aset_in_range (line s) (pos s) 0 ltac:(lia))). cbv zeta.
    revert t Ht. eapply total_bind; [apply draw_prompt_total|]. intros x. apply total_ret. intros t Ht. split; [|done].
    split; cbn [pos sh_y line]; [lia| |by rewrite length_insert]. case_cmp; lia.
  - destruct (Z.ltb_spec 0 (pos s)); [|by apply total_ret].
    eapply total_bind; [apply draws_write|]. intros []. apply total_ret. intros t Ht. split; [|done]. split; cbn; done || lia.
  - intros t Ht. rewrite (bind_lift _ _ _ _ (aset_in_range (line s) (pos s) c ltac:(lia))).
    revert t Ht. eapply total_bind; [apply draws_write|]. intros []. apply total_ret. intros t Ht. split; [|done].
    split; cbn [pos sh_y line]; [lia|done|by rewrite length_insert].
  - by apply total_ret.
Qed.

Lemma mouse_status_draws x y mx my l r m : draws (draw_mouse_status x y mx my l r m).
Proof.
  unfold draw_mouse_status. destruct (_ || _); [apply draws_skip|].
  do 14 (apply draws_bind; [apply draws_write|intros []]). apply draws_write.
Qed.

Lemma within_screen_ok {A} (m : io text_t A) (P : A -> Prop) d :
  total screen_ok m (fun a t => P a /\ screen_ok t) -> desktop_ok d ->
  exists a d', within_screen m d = Ok (a, d') /\ P a /\ desktop_ok d'.
Proof.
  intros Hm Hd. destruct (Hm _ (ok_screen _ Hd)) as (a & t & E & Ha & Ht). unfold within_screen. rewrite E.
  exists a. eexists. split; [done|]. split; [done|]. by destruct Hd.
Qed.

Section rounds.
Context {I N : Type} `{!InputDevice I} `{!Nic N}.
Context (tx_addr : Z) (junk60 junk1514 : list Z) (fuel : nat) (stacks_addr wrapper_addr yield_ret : Z).
Local Notation session := (session_t I N).

(** Total rounds, with a property of the result. *)
Definition held {A} (m : io session A) (P : A -> Prop) : Prop := total session_ok m (fun a s => P a /\ session_ok s).

Lemma held_input {A} (m : io (input_t I) A) : InputSafety.keeps m -> held (on_input m) (fun _ => True).
Proof.
  intros Hm s Hs. destruct (Hm _ (session_input _ Hs)) as (a & i & E & Hi). unfold on_input, within. rewrite E.
  exists a. eexists. split; [done|]. split; [done|]. by destruct Hs.
Qed.

Lemma held_screen {A} (m : io text_t A) P : total screen_ok m (fun a t => P a /\ screen_ok t) -> held (on_screen_of m) P.
Proof.
  intros Hm s Hs. destruct (within_screen_ok m P _ Hm (session_desk _ Hs)) as (a & d & E & Ha & Hd).
  unfold on_screen_of, on_desk, within. rewrite E. exists a. eexists. split; [done|]. split; [done|]. by destruct Hs.
Qed.

Lemma held_bind {A B} (m : io session A) (f : A -> io session B) P Q :
  held m P -> (forall a, P a -> held (f a) Q) -> held (m ≫= f) Q.
Proof. intros Hm Hf. eapply total_bind; [exact Hm|]. intros a s [Ha Hs]. by apply (Hf a Ha). Qed.

Lemma held_skip : held skip (fun _ => True).
Proof. by apply total_ret. Qed.

Lemma held_ret {A} (a : A) : held (mret a) (fun _ => True).
Proof using Type. by apply total_ret. Qed.

(** A state is given to the rest of the computation. *)
Lemma held_gets {A B} (f : session -> A) (m : A -> io session B) P :
  (forall s, session_ok s -> held (m (f s)) P) -> held (a ← gets f; m a) P.
Proof using Type. intros Hm s Hs. rewrite bind_gets. by apply (Hm s Hs). Qed.

Lemma held_lift {A B} (o : option A) a (m : A -> io session B) P : o = Some a -> held (m a) P -> held (lift o ≫= m) P.
Proof using Type. intros E Hm s Hs. rewrite (bind_lift _ _ _ _ E). by apply Hm. Qed.

Lemma held_modify f : (forall s, session_ok s -> session_ok (f s)) -> held (modify f) (fun _ => True).
Proof using Type. intros Hf s Hs. exists tt. eexists. split; [done|]. split; [done|by apply Hf]. Qed.

(** A step on the desktop. *)
Lemma held_desk {A} (m : io desktop_t A) :
  total desktop_ok m (fun _ => desktop_ok) -> held (on_desk m) (fun _ => True).
Proof using Type.
  intros Hm s Hs. destruct (Hm _ (session_desk _ Hs)) as (a & d & E & Hd). unfold on_desk, within. rewrite E.
  exists a. eexists. split; [done|]. split; [done|]. by destruct Hs.
Qed.

Lemma keyboard_held : held shell_keyboard (fun _ => True).
Proof using Type.
  eapply held_bind; [apply held_input, keyboard_has_data_keeps|]. intros [] _; [|apply held_skip].
  eapply held_bind; [apply held_input, keyboard_read_char_keeps|]. intros c _. apply held_gets. intros s0 [Hf _ _ _].
  eapply held_bind; [apply held_screen, (shell_key_fits c _ Hf)|]. intros s Hs. apply held_modify. intros t Ht. by destruct Ht.
Qed.

Lemma mouse_held : held (shell_mouse stacks_addr wrapper_addr) (fun _ => True).
Proof using Type.
  eapply held_bind; [apply held_input, mouse_has_event_keeps|]. intros [] _; [|apply held_skip].
  apply held_gets. intros s0 Hs0. destruct (mouse_get_event_ok true _ (session_input _ Hs0)) as (e & st & E & Hst).
  apply (held_lift _ _ _ _ E). eapply held_bind; [apply held_input, input_modify; by intros|]. intros [] _. cbv zeta.
  eapply held_bind; [apply (held_screen _ (fun _ => True))|intros [] _].
  { eapply total_weaken; [apply mouse_status_draws|done|done]. }
  destruct (_ || _); [|apply held_skip]. apply held_desk, keeps_click; unfold coord, mouse_get_x, mouse_get_y;
    [pose proof (in_x _ Hst)|pose proof (in_y _ Hst)]; change (2 ^ 30) with 1073741824; lia.
Qed.

(** Rounds of the shell never leave an array and keep everything well
    formed; only the network driver has loops without a bound. *)
Lemma shell_round_safe :
  length junk60 = 60%nat -> Net.bytes_of 1514 junk1514 ->
  safe session_ok (shell_round tx_addr junk60 junk1514 fuel stacks_addr wrapper_addr yield_ret) (fun _ => session_ok).
Proof using Type.
  intros H60 H1514 s Hs. unfold shell_round.
  destruct (keyboard_held s Hs) as ([] & s1 & E1 & _ & Hs1). rewrite (bind_ok _ _ _ _ _ E1).
  destruct (mouse_held s1 Hs1) as ([] & s2 & E2 & _ & Hs2). rewrite (bind_ok _ _ _ _ _ E2).
  pose proof (poll_net_keeps tx_addr junk60 junk1514 fuel H60 H1514 (net s2) (session_net _ Hs2)) as Hn.
  unfold mbind at 1, io_bind at 1, on_net, within. destruct (network_poll _ _ _ _ (net s2)) as [[r n]| |]; [|done|done].
  rewrite bind_gets. cbn [desk]. destruct Hs2 as [Hf Hi _ Hd]. destruct (ok_sched _ Hd) as [q Hq].
  destruct (yield_ok yield_ret (sched (desk s2)) q Hq) as (st & rip & E & Hst & _). rewrite (bind_lift _ _ _ _ E).
  cbn. split; [done|done|done|]. cbn. destruct Hd. split; try done. by exists q.
Qed.
End rounds.

(** C38: the shell is a line editor.  Whatever is typed on the shell prompt,
    the commands that it hands out are those of the specification, in which
    a return ends the line, a backspace removes the last character and other
    characters are appended up to 79; and the row of the cursor shows the
    prompt followed by the line, as far as the 80 columns go.  The buffer is
    never left. *)
Theorem shell_edits_lines cs t :
  screen_ok t -> Forall (fun c => c <> 0) cs ->
  let spec := foldl (fun s c => spec_key c s) ([], []) cs in
  exists s t', (s ← shell_start; shell_keys cs s) t = Ok (s, t') /\ commands s = spec.2 /\
    take (Z.to_nat (pos s)) (line s) = spec.1 /\
    reads t' 0 (sh_y s) (take 80 (chars prompt ++ spec.1)) 0x0F /\ 22 <= sh_y s <= 23.
Proof.
  intros Ht Hcs. cbv zeta.
  destruct (draw_prompt_ok (chars prompt) 0 22 t Ht ltac:(lia) ltac:(vm_compute; done) ltac:(lia)) as (t0 & E & Ht0 & Hr).
  unfold shell_start. set (s0 := Shell 9 22 0 (replicate 80 0) []).
  assert (Hs0 : shell_ok s0 [] t0) by (split; try done; simpl; lia).
  rewrite (bind_ok _ _ t s0 t0) by (by rewrite (bind_ok _ _ _ _ _ E)).
  destruct (shell_keys_ok cs s0 [] t0 Hcs Hs0) as (s & t' & E' & Hc & [Hp Hm Hx Hy Hl Htx Hz Hsc Hr1 Hr2]).
  exists s, t'. split; [done|]. split; [done|]. rewrite Hp, Nat2Z.id. split; [done|]. split; [|done].
  rewrite take_app_ge by (vm_compute; lia). change (80 - length (chars prompt))%nat with 71%nat. by apply reads_app.
Qed.

Lemma shell_edits_lines_witness :
  exists s t', (s ← shell_start; shell_keys [108; 120; 8; 115; 10; 97] s) (Text 7 0 0 (replicate 2000 0)) = Ok (s, t') /\
    commands s = [[108; 115]] /\ take (Z.to_nat (pos s)) (line s) = [97].
Proof.
  destruct (shell_edits_lines [108; 120; 8; 115; 10; 97] (Text 7 0 0 (replicate 2000 0)) eq_refl) as (s & t' & E & Hc & Hl & _).
  - repeat (constructor; [lia|]). constructor.
  - exists s, t'. split; [exact E|]. split; [exact Hc|exact Hl].
Defined.
