(* ===== verification/System.v ===== *)
(** * The whole kernel ([kernel_main] of [src/kernel.c])

    The components together: the state of the kernel, and the start in the
    order of [kernel_main].  What happens afterwards is in [Running].  The
    state of the interrupt code is outermost, with everything else in the
    place of its devices, so that an interrupt handler can reach it.  Every
    driver sees the machine through an interface of its own.  Log lines are
    left out. *)

From S2P Require Import Prelude Io Interrupts Stubs Pmm Vmm Heap Sched Pci Net Fat32 Ring Input InputSafety Vga Windows Desktop Services FileOps Launcher Gui Daemons Syscalls Console Boot Audio Ahci Kernel.

(** Everything but the interrupt table; [k_ready] is [kernel_initialized]. *)
Record rest_t (H I N : Type) := Rest {
  k_chips : H;
  k_pmm : pmm_t;
  k_vmm : vmm_t;
  k_heap : heap_t;
  k_msrs : Z -> Z * Z;
  k_printed : list (string * list Z);
  k_desk : desktop_t;
  k_clip : Clipboard.clipboard_t;
  k_files : files_t;
  k_input : input_t I;
  k_audio : audio_t H;
  k_net : net_t N;
  k_ahci : ahci_t H;
  k_fat : fat_t;
  k_sv : services_t;
  k_spool : spooler_t;
  k_daemons : daemons_t;
  k_shell : option shell_t;
  k_ready : bool
}.
Arguments Rest {H I N}. Arguments k_chips {H I N}. Arguments k_pmm {H I N}. Arguments k_vmm {H I N}. Arguments k_heap {H I N}.
Arguments k_msrs {H I N}. Arguments k_printed {H I N}. Arguments k_desk {H I N}. Arguments k_clip {H I N}.
Arguments k_files {H I N}. Arguments k_input {H I N}. Arguments k_audio {H I N}. Arguments k_net {H I N}.
Arguments k_ahci {H I N}. Arguments k_fat {H I N}. Arguments k_sv {H I N}. Arguments k_spool {H I N}.
Arguments k_daemons {H I N}. Arguments k_shell {H I N}. Arguments k_ready {H I N}.

Section kernel.
Context {H I N : Type} `{!PortIO H} `{!Mmio H} `{!InputDevice I} `{!Nic N}.
Local Notation rest := (rest_t H I N).
Implicit Types r : rest.

Definition set_hw (x : H) r : rest :=
  Rest x (k_pmm r) (k_vmm r) (k_heap r) (k_msrs r) (k_printed r) (k_desk r) (k_clip r) (k_files r) (k_input r) (k_audio r)
    (k_net r) (k_ahci r) (k_fat r) (k_sv r) (k_spool r) (k_daemons r) (k_shell r) (k_ready r).
Definition set_memory (p : pmm_t) (v : vmm_t) (h : heap_t) r : rest :=
  Rest (k_chips r) p v h (k_msrs r) (k_printed r) (k_desk r) (k_clip r) (k_files r) (k_input r) (k_audio r)
    (k_net r) (k_ahci r) (k_fat r) (k_sv r) (k_spool r) (k_daemons r) (k_shell r) (k_ready r).
Definition set_desk (d : desktop_t) r : rest :=
  Rest (k_chips r) (k_pmm r) (k_vmm r) (k_heap r) (k_msrs r) (k_printed r) d (k_clip r) (k_files r) (k_input r) (k_audio r)
    (k_net r) (k_ahci r) (k_fat r) (k_sv r) (k_spool r) (k_daemons r) (k_shell r) (k_ready r).
Definition set_sys (s : sys_t) r : rest :=
  Rest (k_chips r) (k_pmm r) (k_vmm r) (k_heap r) (msrs s) (printed s) (set_apps (launcher (k_desk r)) (Syscalls.sched s) (k_desk r))
    (k_clip r) (k_files r) (k_input r) (k_audio r) (k_net r) (k_ahci r) (k_fat r) (k_sv r) (k_spool r) (k_daemons r) (k_shell r) (k_ready r).
Definition set_stores (c : Clipboard.clipboard_t) (f : files_t) r : rest :=
  Rest (k_chips r) (k_pmm r) (k_vmm r) (k_heap r) (k_msrs r) (k_printed r) (k_desk r) c f (k_input r) (k_audio r)
    (k_net r) (k_ahci r) (k_fat r) (k_sv r) (k_spool r) (k_daemons r) (k_shell r) (k_ready r).
Definition set_input (i : input_t I) r : rest :=
  Rest (k_chips r) (k_pmm r) (k_vmm r) (k_heap r) (k_msrs r) (k_printed r) (k_desk r) (k_clip r) (k_files r) i (k_audio r)
    (k_net r) (k_ahci r) (k_fat r) (k_sv r) (k_spool r) (k_daemons r) (k_shell r) (k_ready r).
Definition set_audio (a : audio_t H) r : rest :=
  Rest (k_chips r) (k_pmm r) (k_vmm r) (k_heap r) (k_msrs r) (k_printed r) (k_desk r) (k_clip r) (k_files r) (k_input r) a
    (k_net r) (k_ahci r) (k_fat r) (k_sv r) (k_spool r) (k_daemons r) (k_shell r) (k_ready r).
Definition set_net (n : net_t N) r : rest :=
  Rest (k_chips r) (k_pmm r) (k_vmm r) (k_heap r) (k_msrs r) (k_printed r) (k_desk r) (k_clip r) (k_files r) (k_input r)
    (k_audio r) n (k_ahci r) (k_fat r) (k_sv r) (k_spool r) (k_daemons r) (k_shell r) (k_ready r).
Definition set_disk (a : ahci_t H) (f : fat_t) r : rest :=
  Rest (k_chips r) (k_pmm r) (k_vmm r) (k_heap r) (k_msrs r) (k_printed r) (k_desk r) (k_clip r) (k_files r) (k_input r)
    (k_audio r) (k_net r) a f (k_sv r) (k_spool r) (k_daemons r) (k_shell r) (k_ready r).
Definition set_services (sv : services_t) (sp : spooler_t) r : rest :=
  Rest (k_chips r) (k_pmm r) (k_vmm r) (k_heap r) (k_msrs r) (k_printed r) (k_desk r) (k_clip r) (k_files r) (k_input r)
    (k_audio r) (k_net r) (k_ahci r) (k_fat r) sv sp (k_daemons r) (k_shell r) (k_ready r).
Definition set_spool (sp : spooler_t) (d : daemons_t) r : rest :=
  Rest (k_chips r) (k_pmm r) (k_vmm r) (k_heap r) (k_msrs r) (k_printed r) (k_desk r) (k_clip r) (k_files r) (k_input r)
    (k_audio r) (k_net r) (k_ahci r) (k_fat r) (k_sv r) sp d (k_shell r) (k_ready r).
Definition set_shell (s : option shell_t) r : rest :=
  Rest (k_chips r) (k_pmm r) (k_vmm r) (k_heap r) (k_msrs r) (k_printed r) (k_desk r) (k_clip r) (k_files r) (k_input r)
    (k_audio r) (k_net r) (k_ahci r) (k_fat r) (k_sv r) (k_spool r) (k_daemons r) s (k_ready r).
Definition set_ready r : rest :=
  Rest (k_chips r) (k_pmm r) (k_vmm r) (k_heap r) (k_msrs r) (k_printed r) (k_desk r) (k_clip r) (k_files r) (k_input r)
    (k_audio r) (k_net r) (k_ahci r) (k_fat r) (k_sv r) (k_spool r) (k_daemons r) (k_shell r) true.

(** The scheduler is part of the desktop, which launches applications. *)
Definition k_sched r : sched_t := Gui.sched (k_desk r).
Definition set_ksched (st : sched_t) r : rest := set_desk (set_apps (launcher (k_desk r)) st (k_desk r)) r.
Definition k_sys r : sys_t := Sys (k_sched r) (k_msrs r) (k_printed r).

#[export] Instance rest_ports : PortIO rest := {
  port_in w p r := let '(v, x) := port_in w p (k_chips r) in (v, set_hw x r);
  port_out w p v r := set_hw (port_out w p v (k_chips r)) r
}.

(** A computation on a component. *)
Definition part {S A} (get : rest -> S) (put : S -> rest -> rest) (m : io S A) : io rest A :=
  fun r => match m (get r) with
           | Ok (a, x) => Ok (a, put x r)
           | Undef => Undef
           | NoFuel => NoFuel
           end.

(** A function of a component that is defined or not. *)
Definition assign {A} (f : rest -> option A) (put : A -> rest -> rest) : io rest unit :=
  r ← gets id;
  x ← lift (f r);
  modify (put x).

(** Addresses of code and data, fixed by the linker. *)
Record linker_t := Linker {
  idt_addr : Z; stub_addr : Z -> Z; pit_tick_addr : Z; pml4_addr : Z; pdpt_addr : Z; syscall_entry_addr : Z;
  stacks_addr : Z; wrapper_addr : Z; idle_addr : Z; shell_addr : Z; service_entries : list Z; generic_addr : Z;
  apps_addr : Z * Z * Z; usb_addrs : Z * Z * Z * Z * Z; rx_addr : Z; tx_addr : Z; command_list_addr : Z; fis_addr : Z;
  tables_addr : Z; yield_ret : Z
}.
Context (ld : linker_t).

(** Contents of locals that are not initialised, the memory that the boot
    loader leaves, bounds on the loops without one, the disk behind the SATA
    driver, and the heap as [fat32_load_fat] sees it. *)
Context (junk60 junk300 junk1514 junk_sector : list Z) (mem : Z -> Z) (fuel : nat).
Context (disk : ahci_t H -> BlockDevice) (fat32_alloc : Z -> option (list Z)).

Definition on_desktop {A} (m : io desktop_t A) : io rest A := part k_desk set_desk m.
Definition on_inputs {A} (m : io (input_t I) A) : io rest A := part k_input set_input m.
Definition on_sound {A} (m : io (audio_t H) A) : io rest A := part k_audio set_audio m.
Definition on_network {A} (m : io (net_t N) A) : io rest A := part k_net set_net m.
Definition on_disk {A} (m : io (ahci_t H) A) : io rest A := part k_ahci (fun a r => set_disk a (k_fat r) r) m.

(** The handlers that can be installed: only that of the timer is. *)
Definition call_handler (f : Z) : io (int_t rest) unit :=
  if f =? pit_tick_addr ld then on_chips (modify (fun r => set_ksched (pit_tick (k_sched r)) r)) else fun _ => Undef.

(** From [serial_initialize] to [pit_initialize]. *)
Definition start_interrupts : io (int_t rest) unit :=
  on_chips serial_initialize ≫= fun _ =>
  idt_initialize (idt_addr ld) (stub_addr ld) ≫= fun _ =>
  set_interrupt_handler 32 (Some (pit_tick_addr ld)) ≫= fun _ =>
  pit_initialize 100.

(** From [get_multiboot_memory_top] to [scheduler_initialize]. *)
Definition start_core (info : Z) : io rest unit :=
  transform (fun r => match boot_physical_memory mem fuel info with
                      | Ok p => Ok (set_memory p (k_vmm r) (k_heap r) r)
                      | Undef => Undef
                      | NoFuel => NoFuel
                      end) ≫= fun _ =>
  assign (fun r => vmm_initialize (pml4_addr ld) (pdpt_addr ld) (k_vmm r)) (fun v r => set_memory (k_pmm r) v (k_heap r) r)
    ≫= fun _ =>
  modify (fun r => set_memory (k_pmm r) (k_vmm r) heap_initialize r) ≫= fun _ =>
  modify (fun r => set_sys (enable_syscall_engine (syscall_entry_addr ld) (k_sys r)) r) ≫= fun _ =>
  modify (fun r => set_ksched (scheduler_initialize (k_sched r)) r).

(** From [vga_initialize] to [gui_render]. *)
Definition start_screen : io rest unit :=
  on_desktop (start_desktop (apps_addr ld).1.1 (apps_addr ld).1.2 (apps_addr ld).2) ≫= fun _ =>
  modify (fun r => let '(c, f) := start_stores (k_clip r) (k_files r) in set_stores c f r).

(** The tone at the start. *)
Definition start_sound : io (audio_t H) unit :=
  audio_initialize ≫= fun _ =>
  a ← gets id;
  if audio_is_ready a then
    audio_set_volume 128 ≫= fun _ =>
    audio_play_tone 880 100 ≫= fun _ => skip
  else skip.

Definition start_usb : io (input_t I) unit :=
  let '(c1, c2, c3, c4, c5) := usb_addrs ld in usb_initialize c1 c2 c3 c4 c5.
Definition start_mouse : io (input_t I) unit :=
  let '(c1, c2, c3, c4, c5) := usb_addrs ld in mouse_initialize c1 c2 c3 c4 c5.

(** The driver and the file system. *)
Definition start_disk : io rest unit :=
  on_disk (ahci_initialize (command_list_addr ld) (fis_addr ld) (tables_addr ld) fuel) ≫= fun _ =>
  transform (fun r => match @fat32_initialize (disk (k_ahci r)) fat32_alloc junk_sector (k_fat r) with
                      | Ok f => Ok (set_disk (k_ahci r) f r)
                      | Undef => Undef
                      | NoFuel => NoFuel
                      end).

(** From [usb_initialize] to [fat32_initialize]. *)
Definition start_drivers : io rest unit :=
  on_inputs start_usb ≫= fun _ =>
  on_sound start_sound ≫= fun _ =>
  on_network (network_initialize (rx_addr ld) (tx_addr ld) junk60 junk300 junk1514 fuel) ≫= fun _ =>
  on_inputs start_mouse ≫= fun _ =>
  start_disk.

(** From [keyboard_initialize] to [background_services_initialize]. *)
Definition start_processes : io rest unit :=
  on_inputs (modify keyboard_initialize) ≫= fun _ =>
  assign (fun r => start_tasks (stacks_addr ld) (wrapper_addr ld) (idle_addr ld) (shell_addr ld) (service_entries ld)
                     (generic_addr ld) (k_sv r) (k_sched r) (k_spool r))
    (fun '(sv, st, sp) r => set_services sv sp (set_ksched st r)).

(** [kernel_main] up to its loop. *)
Definition kernel_main (info : Z) : io (int_t rest) unit :=
  start_interrupts ≫= fun _ =>
  on_chips (start_core info) ≫= fun _ =>
  on_chips start_screen ≫= fun _ =>
  on_chips start_drivers ≫= fun _ =>
  enable_interrupts ≫= fun _ =>
  on_chips (modify set_ready) ≫= fun _ =>
  on_chips start_processes.
End kernel.

(** ** What a computation leaves alone *)

Section frame.
Context {H I N : Type} `{!PortIO H}.
Local Notation rest := (rest_t H I N).

(** Ports change the hardware only. *)
Definition hw_only {A} (m : io rest A) : Prop := forall r a r', m r = Ok (a, r') -> exists x, r' = set_hw x r.

Lemma hw_out w p v : hw_only (out_width w p v).
Proof. intros r a r' [= _ <-]. by eexists. Qed.

Lemma hw_bind {A B} (m : io rest A) (f : A -> io rest B) : hw_only m -> (forall a, hw_only (f a)) -> hw_only (m ≫= f).
Proof.
  intros Hm Hf r b r'. unfold mbind, io_bind. destruct (m r) as [[a r1]| |] eqn:E; [|done|done]. intros E'.
  destruct (Hm _ _ _ E) as [x ->]. destruct (Hf _ _ _ _ E') as [y ->]. by exists y.
Qed.

(** The interrupt code changes its own state and the hardware. *)
Definition ints_only {A} (m : io (int_t rest) A) : Prop :=
  forall k a k', m k = Ok (a, k') -> (exists x, chips k' = set_hw x (chips k)) /\ enabled k' = enabled k.

Lemma ints_bind {A B} (m : io (int_t rest) A) (f : A -> io (int_t rest) B) :
  ints_only m -> (forall a, ints_only (f a)) -> ints_only (m ≫= f).
Proof.
  intros Hm Hf k b k'. unfold mbind, io_bind. destruct (m k) as [[a k1]| |] eqn:E; [|done|done]. intros E'.
  destruct (Hm _ _ _ E) as [[x E1] E2], (Hf _ _ _ _ E') as [[y E3] E4]. split; [|congruence]. exists y. by rewrite E3, E1.
Qed.

Lemma set_hw_same (r : rest) : r = set_hw (k_chips r) r.
Proof. by destruct r. Qed.

Lemma ints_chips {A} (m : io rest A) : hw_only m -> ints_only (on_chips m).
Proof.
  intros Hm k a k'. unfold on_chips. destruct (m (chips k)) as [[b r]| |] eqn:E; [|done|done]. intros [= <- <-].
  split; [|done]. by apply (Hm _ _ _ E).
Qed.

Lemma ints_gets {A} (f : int_t rest -> A) : ints_only (gets f).
Proof. intros k a k' [= _ <-]. split; [|done]. eexists. apply set_hw_same. Qed.

Lemma ints_lift {A} (o : option A) : ints_only (lift o).
Proof. intros k a k'. unfold lift. destruct o; [|done]. intros [= _ <-]. split; [|done]. eexists. apply set_hw_same. Qed.

Lemma ints_modify f : (forall k, chips (f k) = chips k /\ enabled (f k) = enabled k) -> ints_only (modify f).
Proof.
  intros Hf k a k' [= _ <-]. destruct (Hf k) as [E1 E2]. split; [|done]. exists (k_chips (chips k)). rewrite E1. apply set_hw_same.
Qed.

Lemma ints_for n i (body : Z -> io (int_t rest) unit) : (forall v, ints_only (body v)) -> ints_only (for_loop n i body).
Proof.
  intros Hb. revert i. induction n as [|n IH]; intros i; [by apply (ints_modify id)|]. cbn [for_loop]. by apply ints_bind.
Qed.

Lemma ints_gate v h : ints_only (set_idt_gate v h).
Proof.
  apply ints_bind; [apply ints_gets|]. intros l. apply ints_bind; [apply ints_lift|]. intros l'. by apply ints_modify.
Qed.

Lemma ints_clear v : ints_only (clear_vector v).
Proof.
  apply ints_bind; [apply ints_gate|intros _]. apply ints_bind; [apply ints_gets|]. intros h.
  apply ints_bind; [apply ints_lift|]. intros h'. by apply ints_modify.
Qed.

Lemma ints_initialize a stub : ints_only (idt_initialize a stub).
Proof.
  unfold idt_initialize. apply ints_bind; [apply ints_for, ints_clear|intros _].
  apply ints_bind; [apply ints_chips; do 9 (apply hw_bind; [apply hw_out|intros _]); apply hw_out|intros _].
  do 2 (apply ints_bind; [apply ints_for; intros; apply ints_gate|intros _]). by apply ints_modify.
Qed.

(** Drawing and the windows do not change the scheduler. *)
Definition no_sched {A} (m : io desktop_t A) : Prop := forall d a d', m d = Ok (a, d') -> Gui.sched d' = Gui.sched d.

Lemma no_sched_bind {A B} (m : io desktop_t A) (f : A -> io desktop_t B) :
  no_sched m -> (forall a, no_sched (f a)) -> no_sched (m ≫= f).
Proof.
  intros Hm Hf d b d'. unfold mbind, io_bind. destruct (m d) as [[a d1]| |] eqn:E; [|done|done]. intros E'.
  by rewrite (Hf _ _ _ _ E'), (Hm _ _ _ E).
Qed.

Lemma no_sched_gets {A} (f : desktop_t -> A) : no_sched (gets f).
Proof. by intros d a d' [= _ <-]. Qed.

Lemma no_sched_lift {A} (o : option A) : no_sched (lift o).
Proof. intros d a d'. unfold lift. destruct o; [|done]. by intros [= _ <-]. Qed.

Lemma no_sched_modify f : (forall d, Gui.sched (f d) = Gui.sched d) -> no_sched (modify f).
Proof. intros Hf d a d' [= _ <-]. apply Hf. Qed.

Lemma no_sched_paint m : no_sched (paint m).
Proof. intros d a d'. unfold paint. destruct (m d (screen d)) as [[? ?]| |]; [|done|done]. by intros [= _ <-]. Qed.

Lemma no_sched_wm m : no_sched (on_wm m).
Proof. intros d a d'. unfold on_wm. destruct (m (wm d)) as [[? ?]| |]; [|done|done]. by intros [= _ <-]. Qed.

Lemma no_sched_with (f : desktop_t -> io desktop_t unit) :
  (forall d0 d a d', d0 = d -> f d0 d = Ok (a, d') -> Gui.sched d' = Gui.sched d) -> no_sched (d ← gets id; f d).
Proof. intros Hf d a d' E. rewrite bind_gets in E. by eapply Hf. Qed.
End frame.

Create HintDb no_sched.
#[export] Hint Resolve no_sched_bind no_sched_gets no_sched_lift no_sched_paint no_sched_wm : no_sched.

Lemma no_sched_open t x y w h : no_sched (gui_open_window t x y w h).
Proof.
  unfold gui_open_window. apply no_sched_bind; [apply no_sched_gets|]. intros g.
  destruct (GUI_MAX_WINDOWS <=? gui_window_count g); [by apply (no_sched_modify id)|].
  apply no_sched_bind; [apply no_sched_lift|]. intros l.
  apply no_sched_bind; [|intros p; by apply no_sched_modify].
  destruct (_ <? _); [apply no_sched_bind; [apply no_sched_lift|]; intros ?|]; by intros ? ? ? [= _ <-].
Qed.

Lemma no_sched_start a1 a2 a3 : no_sched (start_desktop a1 a2 a3).
Proof.
  unfold start_desktop.
  do 2 (apply no_sched_bind; [apply no_sched_paint|intros _]).
  apply no_sched_bind; [apply no_sched_bind; [by apply no_sched_modify|intros; apply no_sched_paint]|intros _].
  apply no_sched_bind; [unfold gui_set_resolution; destruct (_ && _); by apply no_sched_modify || apply (no_sched_modify id)|intros _].
  apply no_sched_bind; [by apply no_sched_modify|intros _].
  apply no_sched_bind; [apply no_sched_bind; [apply no_sched_gets|intros]; apply no_sched_bind; [apply no_sched_lift|intros]; by apply no_sched_modify|intros _].
  apply no_sched_bind; [by apply no_sched_modify|intros _].
  apply no_sched_with. intros d0 d a d' ->. unfold mbind at 1, io_bind at 1, lift.
  destruct (app_launcher_initialize _ _ _ _) as [l|]; [|done]. rewrite bind_modify. intros E.
  change (Gui.sched d) with (Gui.sched (set_apps l (Gui.sched d) d)). revert a d' E. generalize (set_apps l (Gui.sched d) d).
  do 3 (apply no_sched_bind; [apply no_sched_open|intros _]). do 3 (apply no_sched_bind; [apply no_sched_wm|intros _]).
  apply no_sched_paint.
Qed.

(** ** The start *)

(** The static variables before [kernel_main]. *)
Record static_ok {H I N} (k : int_t (rest_t H I N)) : Prop := {
  static_gates : length (idt k) = 256%nat;
  static_handlers : length (interrupt_handlers k) = 256%nat;
  static_vmm : vmm_wf (k_vmm (chips k));
  static_desk : desktop_ok (k_desk (chips k));
  static_sched : exists tt c, k_sched (chips k) = sched_static tt c /\ length tt = 256%nat;
  static_input : input_ok (k_input (chips k));
  static_net : net_wf (k_net (chips k));
  static_services : buffers_ok (k_sv (chips k));
  static_printer : idle (printer (k_spool (chips k)));
  static_tones : speaker_ok (speaker (k_spool (chips k))) /\ 0 <= audio_tail (speaker (k_spool (chips k))) < 8;
  static_texts : length (Clipboard.clipboard_buffer (k_clip (chips k))) = 512%nat /\ length (snap (k_daemons (chips k))) = 64%nat;
  static_shell : k_shell (chips k) = None;
  static_fat : bytes_per_sector (bpb (k_fat (chips k))) = 0 /\ root_dir_cluster (k_fat (chips k)) = 0
}.

Section starting.
Context {H I N : Type} `{!PortIO H} `{!Mmio H} `{!InputDevice I} `{!Nic N}.
Local Notation rest := (rest_t H I N).
Context (ld : linker_t).

(** The gates lead to the stubs, and the only handler is that of the timer. *)
Record table_ok (k : int_t rest) : Prop := {
  table_handlers v : 0 <= v < 256 -> aget (interrupt_handlers k) v = Some (if v =? 32 then Some (pit_tick_addr ld) else None);
  table_loaded : loaded k = IdtPtr 4095 (idt_addr ld);
  table_gates v : 0 <= v < 256 -> exists g, aget (idt k) v = Some g /\ gate_present g = true /\ selector g = 8 /\
    gate_offset g = if (v <=? 20) || ((32 <=? v) && (v <=? 47)) then stub_addr ld v else 0
}.

Lemma on_chips_eq {A} (m : io rest A) (k : int_t rest) a r :
  m (chips k) = Ok (a, r) -> on_chips m k = Ok (a, Interrupts.set_chips r k).
Proof. intros E. unfold on_chips. by rewrite E. Qed.

Lemma serial_defined : defined (serial_initialize (D := rest)).
Proof. unfold serial_initialize. do 6 (apply defined_bind; [apply out_defined|intros _]). apply out_defined. Qed.

Lemma set_handler_ok irq h (k : int_t rest) :
  0 <= irq < Z.of_nat (length (interrupt_handlers k)) -> irq < IDT_GATES ->
  set_interrupt_handler irq h k = Ok (tt, set_handlers (<[Z.to_nat irq := h]> (interrupt_handlers k)) k).
Proof.
  intros Hi Hm. unfold set_interrupt_handler. rewrite (proj2 (Z.ltb_ge irq 0)), (proj2 (Z.leb_gt IDT_GATES irq)) by lia.
  cbn [orb]. rewrite bind_gets. by rewrite (bind_lift _ _ _ _ (aset_in_range (interrupt_handlers k) irq h Hi)).
Qed.

Definition pit_ports : io rest unit :=
  outb 0x43 0x36 ≫= fun _ => outb 0x40 (u8 (Z.land (u16 11931) 0xFF)) ≫= fun _ => outb 0x40 (u8 (Z.land (Z.shiftr (u16 11931) 8) 0xFF)).

Lemma pit_ok (r : rest) : exists x, pit_ports r = Ok (tt, set_hw x r).
Proof.
  assert (Hd : defined pit_ports) by (do 2 (apply defined_bind; [apply out_defined|intros _]); apply out_defined).
  assert (Hh : hw_only pit_ports) by (do 2 (apply hw_bind; [apply hw_out|intros _]); apply hw_out).
  destruct (Hd r) as ([] & r' & E). destruct (Hh _ _ _ E) as [x ->]. by exists x.
Qed.

Lemma start_interrupts_ok (k : int_t rest) :
  length (idt k) = 256%nat -> length (interrupt_handlers k) = 256%nat -> (forall v, 0 <= stub_addr ld v < 2 ^ 64) ->
  exists k', start_interrupts ld k = Ok (tt, k') /\ (exists x, chips k' = set_hw x (chips k)) /\ table_ok k'.
Proof.
  intros Hl Hh Hs. unfold start_interrupts. destruct (serial_defined (chips k)) as ([] & r1 & E1).
  assert (Hserial : hw_only (serial_initialize (D := rest)))
    by (unfold serial_initialize; do 6 (apply hw_bind; [apply hw_out|intros _]); apply hw_out).
  destruct (Hserial _ _ _ E1) as [x1 ->]. rewrite (bind_ok _ _ _ _ _ (on_chips_eq _ _ _ _ E1)). set (k1 := Interrupts.set_chips _ k).
  destruct (idt_gates_decode (idt_addr ld) (stub_addr ld) k1 Hl Hh Hs) as (k2 & E2 & Hld & Hno & Hg).
  destruct (ints_initialize _ _ _ _ _ E2) as [[x2 C2] _]. rewrite (bind_ok _ _ _ _ _ E2).
  assert (Hlen : 32 < Z.of_nat (length (interrupt_handlers k2))).
  { pose proof (aget_Some_range _ _ _ (Hno 255 ltac:(lia))). lia. }
  rewrite (bind_ok _ _ _ _ _ (set_handler_ok 32 (Some (pit_tick_addr ld)) k2 ltac:(lia) ltac:(unfold IDT_GATES; lia))).
  set (k3 := set_handlers _ k2). destruct (pit_ok (chips k3)) as (x & E4).
  exists (Interrupts.set_chips (set_hw x (chips k3)) k3). split; [by apply on_chips_eq|]. split.
  - exists x. cbn [chips Interrupts.set_chips k3 set_handlers]. by rewrite C2.
  - split; [|done|done]. intros v Hv. cbn [interrupt_handlers Interrupts.set_chips k3 set_handlers].
    rewrite aget_insert by lia. case_cmp; [done|]. by apply Hno.
Qed.

(** The state after [start_core], whose devices are as before. *)
Record core_ok (r r' : rest) : Prop := {
  core_pmm : pmm_wf (k_pmm r') /\ forall f, f ∈ free_set (k_pmm r') <-> 512 <= f < 0x180000;
  core_vmm : vmm_wf (k_vmm r');
  core_heap : k_heap r' = heap_initialize;
  core_desk : k_desk r' = set_apps (launcher (k_desk r)) (scheduler_initialize (k_sched r)) (k_desk r);
  core_input : k_input r' = k_input r;
  core_net : k_net r' = k_net r;
  core_fat : k_fat r' = k_fat r;
  core_sv : k_sv r' = k_sv r;
  core_spool : k_spool r' = k_spool r;
  core_shell : k_shell r' = k_shell r;
  core_clip : k_clip r' = k_clip r;
  core_daemons : k_daemons r' = k_daemons r
}.

Lemma start_core_ok mem fuel (r : rest) :
  vmm_wf (k_vmm r) -> exists r', start_core ld mem fuel 0 r = Ok (tt, r') /\ core_ok r r'.
Proof.
  intros [Hl Hc]. unfold start_core. destruct (default_memory mem fuel) as (p & Ep & Hp).
  destruct (vmm_initialize_eq (pml4_addr ld) (pdpt_addr ld) (k_vmm r)) as (pdpt & _ & Ev).
  set (r1 := set_memory p (k_vmm r) (k_heap r) r).
  rewrite (bind_ok _ _ _ tt r1); [|unfold transform; by rewrite Ep].
  eexists. split.
  - unfold assign, mbind at 1 2, io_bind at 1 2. rewrite bind_gets. unfold id.
    rewrite (bind_lift _ _ _ _ (Ev : vmm_initialize (pml4_addr ld) (pdpt_addr ld) (k_vmm r1) = _)). cbn [modify]. reflexivity.
  - split; [exact Hp|split; [exact Hl|exact Hc]|reflexivity..].
Qed.

(** What holds of the parts of the kernel from [start_screen] on. *)
Record parts_ok (r : rest) : Prop := {
  parts_pmm : pmm_wf (k_pmm r);
  parts_vmm : vmm_wf (k_vmm r);
  parts_heap : heap_wf (k_heap r);
  parts_desk : desktop_ok (k_desk r);
  parts_input : input_ok (k_input r);
  parts_net : net_wf (k_net r)
}.

(** The parts that the start of the screen and of the drivers leaves alone. *)
Record framed (r r' : rest) : Prop := {
  framed_pmm : k_pmm r' = k_pmm r;
  framed_heap : k_heap r' = k_heap r;
  framed_sched : k_sched r' = k_sched r;
  framed_sv : k_sv r' = k_sv r;
  framed_spool : k_spool r' = k_spool r;
  framed_shell : k_shell r' = k_shell r;
  framed_clip : Clipboard.clipboard_buffer (k_clip r') = Clipboard.clipboard_buffer (k_clip r);
  framed_daemons : k_daemons r' = k_daemons r
}.

Lemma framed_trans r1 r2 r3 : framed r1 r2 -> framed r2 r3 -> framed r1 r3.
Proof. intros [] []. split; congruence. Qed.

Lemma start_screen_ok (r : rest) :
  parts_ok r -> exists r', start_screen ld r = Ok (tt, r') /\ parts_ok r' /\ framed r r' /\ k_fat r' = k_fat r.
Proof.
  intros [? ? ? Hd ? ?]. unfold start_screen.
  destruct (start_desktop_ok (apps_addr ld).1.1 (apps_addr ld).1.2 (apps_addr ld).2 _ Hd) as (d' & E & Hd').
  pose proof (no_sched_start _ _ _ _ _ _ E) as Hs.
  rewrite (bind_ok _ _ r tt (set_desk d' r)); [|unfold on_desktop, part; by rewrite E].
  eexists. split; [reflexivity|]. split; [by split|]. split; [|reflexivity]. split; try reflexivity. exact Hs.
Qed.

(** *** The drivers *)

Definition no_card : Prop := forall d : N, exists d', pci_find_device RTL8139_VENDOR_ID RTL8139_DEVICE_ID d = Ok (None, d').
Definition no_controller : Prop := forall d : H, exists d', pci_find_ahci_controller d = Ok (None, d').

Lemma keeps_inputs (m : io (input_t I) unit) r :
  InputSafety.keeps m -> parts_ok r -> exists i, on_inputs m r = Ok (tt, set_input i r) /\ parts_ok (set_input i r).
Proof.
  intros Hm Hr. destruct (Hm _ (parts_input _ Hr)) as ([] & i & E & Hi). exists i. unfold on_inputs, part. rewrite E.
  split; [done|]. destruct Hr. by split.
Qed.

Lemma usb_keeps : InputSafety.keeps (start_usb ld (I := I)) /\ InputSafety.keeps (start_mouse ld (I := I)).
Proof.
  unfold start_usb, start_mouse. destruct (usb_addrs ld) as [[[[c1 c2] c3] c4] c5].
  split; [apply usb_initialize_keeps|apply mouse_initialize_keeps].
Qed.

Lemma on_machine_defined {A} (m : io H A) : defined m -> defined (on_machine m).
Proof. intros Hm a. destruct (Hm (machine a)) as (x & d & E). unfold on_machine. rewrite E. by eexists _, _. Qed.

Lemma defined_gets {S A} (f : S -> A) : defined (gets f).
Proof. intros s. by eexists _, _. Qed.
Lemma defined_modify {S} (f : S -> S) : defined (modify f).
Proof. intros s. by eexists _, _. Qed.

Lemma hda_reset_defined : defined (hda_reset (D := H)).
Proof.
  unfold hda_reset. apply defined_bind; [apply defined_gets|]. intros base. destruct (base =? 0); [apply defined_ret|]. cbv zeta.
  assert (Hr : forall a, defined (mmio_read (D := H) a)) by (intros a d; unfold mmio_read; destruct (mmio_in a d); by eexists _, _).
  apply defined_bind; [apply on_machine_defined, Hr|intros v]. apply defined_bind; [apply on_machine_defined; intros d; by eexists _, _|intros _].
  generalize (Z.to_nat 100000). intros n. induction n as [|n IH]; [apply defined_ret|].
  apply defined_bind; [apply on_machine_defined, Hr|intros w]. destruct (_ =? 0); [apply defined_ret|exact IH].
Qed.

Lemma tone_defined f ms : defined (audio_play_tone (D := H) f ms).
Proof.
  assert (Hdis : defined (audio_pit_disable (D := H))) by (apply defined_bind; [apply in_defined|intros; apply out_defined]).
  unfold audio_play_tone. apply defined_bind; [apply defined_gets|]. intros b. destruct (_ || _ || _).
  - apply defined_bind; [by apply on_machine_defined|intros; apply defined_ret].
  - apply defined_bind; [|intros _; apply defined_bind; [by apply on_machine_defined|intros; apply defined_ret]].
    apply on_machine_defined. unfold audio_pit_set_frequency. destruct (f =? 0); [done|]. cbv zeta.
    do 3 (apply defined_bind; [apply out_defined|intros _]). apply defined_bind; [apply in_defined|intros; apply out_defined].
Qed.

Lemma start_sound_defined : defined (start_sound (H := H)).
Proof.
  unfold start_sound, audio_initialize, hda_find_controller.
  apply defined_bind; [|intros _; apply defined_bind; [apply defined_gets|]; intros a; destruct (audio_is_ready a); [|apply defined_ret]].
  - apply defined_bind; [apply defined_modify|intros _]. apply defined_bind; [|intros found].
    { apply defined_bind; [apply on_machine_defined, find_class_defined|]. intros [c|]; [|apply defined_ret].
      destruct (_ =? 0); [apply defined_ret|]. apply defined_bind; [apply defined_modify|intros _]. apply on_machine_defined.
      apply defined_bind; [apply read_config_defined|intros v]. apply defined_bind; [apply write_config_defined|intros _]. apply defined_ret. }
    apply defined_bind; [|intros; apply defined_modify]. destruct found; [|apply defined_ret].
    apply defined_bind; [apply hda_reset_defined|]. intros []; apply defined_modify.
  - apply defined_bind; [apply defined_modify|intros _]. apply defined_bind; [apply tone_defined|intros _]. apply defined_ret.
Qed.

Context (junk60 junk300 junk1514 junk_sector : list Z) (fuel : nat).
Context (disk : ahci_t H -> BlockDevice) (fat32_alloc : Z -> option (list Z)).

(** The file system gets a sector only when the driver reports success. *)
Definition disk_serves : Prop := forall s lba data,
  @Fat32.ahci_read_sector (disk s) lba = Some data ->
  exists buffer s', Ahci.ahci_read_sector (command_list_addr ld) fuel lba buffer s = Ok (0, s').

Lemma unserved_disk s lba : disk_serves -> ahci_ports s = replicate 32 0 -> @Fat32.ahci_read_sector (disk s) lba = None.
Proof.
  intros Hd Hp. destruct (@Fat32.ahci_read_sector (disk s) lba) as [data|] eqn:E; [|done].
  destruct (Hd _ _ _ E) as (b & s' & E'). rewrite (proj1 (no_ports_transfer _ _ _ _ _ Hp)) in E'. done.
Qed.

(** Without a disk nothing is mounted. *)
Lemma fat32_unmounted (dev : BlockDevice) st :
  (forall lba, @Fat32.ahci_read_sector dev lba = None) ->
  exists st', @fat32_initialize dev fat32_alloc junk_sector st = Ok st' /\ root_dir_cluster st' = root_dir_cluster st /\ bpb st' = bpb st.
Proof.
  intros Hd. unfold fat32_initialize, fat32_read_boot_sector, fat32_read_sectors. cbn [Z.to_nat Pos.to_nat read_sectors].
  change (Z.to_nat 1) with 1%nat. cbn [read_sectors]. rewrite Hd. by eexists.
Qed.

Definition unmounted (r : rest) : Prop := ahci_ports (k_ahci r) = replicate 32 0 /\ root_dir_cluster (k_fat r) = 0.

(** The end of the driver phase, from [ahci_initialize] on. *)
Lemma start_disk_ok (r : rest) :
  disk_serves -> parts_ok r -> root_dir_cluster (k_fat r) = 0 ->
  match start_disk ld junk_sector fuel disk fat32_alloc r with
  | Ok (_, r') => parts_ok r' /\ framed r r' /\ unmounted r'
  | Undef | NoFuel => ~ no_controller
  end.
Proof.
  intros Hdisk Hr Hroot. unfold start_disk, mbind, io_bind, on_disk, part.
  destruct (ahci_initialize _ _ _ _ (k_ahci r)) as [[[] a]| |] eqn:E.
  - pose proof (initialize_no_ports _ _ _ _ _ _ E) as Hp. unfold transform. cbn [k_ahci k_fat set_disk].
    destruct (fat32_unmounted (disk a) (k_fat r)) as (f & -> & Hf & _); [intros; by apply unserved_disk|].
    destruct Hr. split; [by split|]. split; [by split|]. split; [done|]. cbn [k_fat set_disk]. by rewrite Hf.
  - intros Hno. unfold ahci_initialize in E. rewrite bind_modify in E. destruct (Hno (hardware (set_ports (replicate 32 0) (k_ahci r)))) as (d & Ed).
    unfold mbind, io_bind, on_hardware at 1 in E. by rewrite Ed in E.
  - intros Hno. unfold ahci_initialize in E. rewrite bind_modify in E. destruct (Hno (hardware (set_ports (replicate 32 0) (k_ahci r)))) as (d & Ed).
    unfold mbind, io_bind, on_hardware at 1 in E. by rewrite Ed in E.
Qed.

Lemma no_card_ready (n : net_t N) :
  no_card -> exists n', network_initialize (rx_addr ld) (tx_addr ld) junk60 junk300 junk1514 fuel n = Ok (false, n').
Proof.
  intros Hno. unfold network_initialize. destruct (Hno (card n)) as (d & E).
  exists (set_card d n). by rewrite (bind_ok _ _ n None (set_card d n)) by (unfold on_card; by rewrite E).
Qed.

Lemma start_drivers_ok (r : rest) :
  disk_serves -> length junk60 = 60%nat -> length junk300 = 300%nat -> Net.bytes_of 1514 junk1514 ->
  parts_ok r -> root_dir_cluster (k_fat r) = 0 ->
  match start_drivers ld junk60 junk300 junk1514 junk_sector fuel disk fat32_alloc r with
  | Ok (_, r') => parts_ok r' /\ framed r r' /\ unmounted r'
  | Undef => ~ no_controller
  | NoFuel => ~ (no_card /\ no_controller)
  end.
Proof.
  intros Hdisk H60 H300 H1514 Hr Hroot. unfold start_drivers. destruct usb_keeps as [Hu Hm].
  destruct (keeps_inputs _ r Hu Hr) as (i1 & E1 & Hr1). rewrite (bind_ok _ _ _ _ _ E1). set (r1 := set_input i1 r) in *.
  destruct (start_sound_defined (k_audio r1)) as ([] & a & E2).
  rewrite (bind_ok _ _ r1 tt (set_audio a r1)) by (unfold on_sound, part; by rewrite E2).
  assert (Hr2 : parts_ok (set_audio a r1)) by (destruct Hr1; by split). set (r2 := set_audio a r1) in *.
  pose proof (initialize_keeps (rx_addr ld) (tx_addr ld) junk60 junk300 junk1514 fuel H60 H300 H1514 _ (parts_net _ Hr2)) as Hn.
  destruct (network_initialize _ _ _ _ _ _ (k_net r2)) as [[b n]| |] eqn:E3; [|done|].
  - rewrite (bind_ok _ _ r2 b (set_net n r2)) by (unfold on_network, part; by rewrite E3).
    assert (Hr3 : parts_ok (set_net n r2)) by (destruct Hr2; by split). set (r3 := set_net n r2) in *.
    destruct (keeps_inputs _ r3 Hm Hr3) as (i2 & E4 & Hr4). rewrite (bind_ok _ _ _ _ _ E4).
    pose proof (start_disk_ok (set_input i2 r3) Hdisk Hr4 Hroot) as Hend.
    destruct (start_disk _ _ _ _ _ (set_input i2 r3)) as [[[] r5]| |]; [|done|by intros [_ ?]].
    destruct Hend as (H5 & F5 & U5). split; [done|]. split; [|done]. eapply framed_trans; [|exact F5]. by split.
  - unfold mbind at 1, io_bind at 1, on_network, part. rewrite E3. intros [Hno _].
    destruct (no_card_ready (k_net r2) Hno) as (n' & E'). by rewrite E' in E3.
Qed.
End starting.

Section started.
Context {H I N : Type} `{!PortIO H} `{!Mmio H} `{!InputDevice I} `{!Nic N}.
Local Notation rest := (rest_t H I N).
Context (ld : linker_t).

(** The queue after the start: the idle task, the shell and the services. *)
Definition boot_queue : squeue := SQueue 202 (seq 0 202) (Some 0%nat).

Lemma boot_queue_eq : Nat.iter 200 spec_create (spec_create (spec_create (SQueue 0 [] None))) = boot_queue.
Proof. by vm_compute. Qed.

Lemma tasks_ok (sv : services_t) (sp : spooler_t) st q :
  buffers_ok sv -> idle (printer sp) -> speaker_ok (speaker sp) -> 0 <= audio_tail (speaker sp) < 8 ->
  sched_wf st q -> sched_abs st q = SQueue 0 [] None ->
  exists sv' st' sp', start_tasks (stacks_addr ld) (wrapper_addr ld) (idle_addr ld) (shell_addr ld) (service_entries ld)
      (generic_addr ld) sv st sp = Some (sv', st', sp') /\
    sched_wf st' (seq 0 202) /\ sched_abs st' (seq 0 202) = boot_queue /\
    running_services (service_entries ld) (generic_addr ld) 2 200 st' /\ spooler_ok sp'.
Proof.
  intros Hsv Hsp Ha Hat Hwf Habs. unfold start_tasks.
  destruct (create_ok (stacks_addr ld) (wrapper_addr ld) "idle" (idle_addr ld) 0 st q Hwf) as (st1 & r1 & q1 & -> & Hwf1 & Ha1 & _).
  cbn [mbind option_bind].
  destruct (create_ok (stacks_addr ld) (wrapper_addr ld) "shell" (shell_addr ld) 1 st1 q1 Hwf1) as (st2 & r2 & q2 & -> & Hwf2 & Ha2 & _).
  cbn [mbind option_bind]. rewrite Habs in Ha1. rewrite Ha1 in Ha2.
  assert (Hcount : task_count st2 = 2) by (by apply (f_equal sq_count) in Ha2).
  destruct (services_start_ok (stacks_addr ld) (wrapper_addr ld) (service_entries ld) (generic_addr ld) sv st2 sp q2 Hsv Hwf2 Hsp (proj1 Ha) Hat)
    as (sv' & st' & sp' & q' & E & Hwf' & Habs' & Hrun & _ & Hm & _).
  rewrite Ha2, boot_queue_eq in Habs'. rewrite Hcount in Hrun.
  assert (Hq : q' = seq 0 202) by (by apply (f_equal sq_queue) in Habs'). subst q'.
  exists sv', st', sp'. split_and!; try done. split; [|by apply (services_spooler _ _ _ _ _ _ _ _ _ _ E)].
  eexists [_], 0%nat. split; [exact Hm|lia].
Qed.

(** What holds once [kernel_main] reaches its loop. *)
Record started (k : int_t rest) : Prop := {
  started_enabled : enabled k = true;
  started_table : table_ok ld k;
  started_parts : parts_ok (chips k);
  started_frames f : f ∈ free_set (k_pmm (chips k)) <-> 512 <= f < 0x180000;
  started_tasks : sched_wf (k_sched (chips k)) (seq 0 202) /\ sched_abs (k_sched (chips k)) (seq 0 202) = boot_queue;
  started_services : running_services (service_entries ld) (generic_addr ld) 2 200 (k_sched (chips k));
  started_unmounted : unmounted (chips k);
  started_shell : k_shell (chips k) = None;
  started_spool : spooler_ok (k_spool (chips k));
  started_texts : length (Clipboard.clipboard_buffer (k_clip (chips k))) = 512%nat /\ length (snap (k_daemons (chips k))) = 64%nat;
  started_ready : k_ready (chips k) = true
}.

(** The start of the processes, on the state that the drivers leave. *)
Lemma start_processes_ok (r : rest) q :
  parts_ok r -> buffers_ok (k_sv r) -> idle (printer (k_spool r)) -> speaker_ok (speaker (k_spool r)) ->
  0 <= audio_tail (speaker (k_spool r)) < 8 -> sched_wf (k_sched r) q -> sched_abs (k_sched r) q = SQueue 0 [] None ->
  exists r', start_processes ld r = Ok (tt, r') /\ parts_ok r' /\ k_pmm r' = k_pmm r /\ k_ready r' = k_ready r /\ k_shell r' = k_shell r /\
    k_clip r' = k_clip r /\ k_daemons r' = k_daemons r /\ spooler_ok (k_spool r') /\
    k_ahci r' = k_ahci r /\ k_fat r' = k_fat r /\
    (sched_wf (k_sched r') (seq 0 202) /\ sched_abs (k_sched r') (seq 0 202) = boot_queue) /\
    running_services (service_entries ld) (generic_addr ld) 2 200 (k_sched r').
Proof.
  intros Hr Hsv Hsp Ha Hat Hwf Habs. unfold start_processes.
  set (r1 := set_input (keyboard_initialize (k_input r)) r). rewrite (bind_ok _ _ r tt r1) by done.
  destruct (tasks_ok (k_sv r1) (k_spool r1) (k_sched r1) q Hsv Hsp Ha Hat Hwf Habs) as (sv & st & sp & E & Hst & Hq & Hrun & Hspool).
  exists (set_services sv sp (set_ksched st r1)). split.
  { unfold assign. rewrite bind_gets. unfold id. by rewrite (bind_lift _ _ _ _ E). }
  split; [|by split_and!]. destruct Hr as [? ? ? [] ? ?]. split; try done.
  - split; try done. by exists (seq 0 202).
  - by apply keyboard_initialize_ok.
Qed.
End started.

Lemma chips_step {D A B} (m : io D A) (g : A -> io (int_t D) B) k a r :
  m (chips k) = Ok (a, r) -> (on_chips m ≫= g) k = g a (Interrupts.set_chips r k).
Proof. intros E. unfold mbind, io_bind, on_chips. by rewrite E. Qed.

(** A well-formed scheduler keeps a desktop well formed. *)
Lemma desktop_rescheduled d st : desktop_ok d -> (exists q, sched_wf st q) -> desktop_ok (set_apps (launcher d) st d).
Proof. intros [] Hst. by split. Qed.

Lemma bind_chips_modify {D B} (f : D -> D) (g : unit -> io (int_t D) B) k :
  (on_chips (modify f) ≫= g) k = g tt (Interrupts.set_chips (f (chips k)) k).
Proof. reflexivity. Qed.

Lemma kernel_main_ok {H I N} `{!PortIO H} `{!Mmio H} `{!InputDevice I} `{!Nic N} ld junk60 junk300 junk1514 junk_sector mem fuel
    (disk : ahci_t H -> BlockDevice) fat32_alloc (k : int_t (rest_t H I N)) :
  static_ok k -> (forall v, 0 <= stub_addr ld v < 2 ^ 64) -> disk_serves ld fuel disk ->
  length junk60 = 60%nat -> length junk300 = 300%nat -> Net.bytes_of 1514 junk1514 ->
  match kernel_main ld junk60 junk300 junk1514 junk_sector mem fuel disk fat32_alloc 0 k with
  | Ok (_, k') => started ld k'
  | Undef => ~ no_controller (H := H)
  | NoFuel => ~ (no_card (N := N) /\ no_controller (H := H))
  end.
Proof.
  intros [Hl Hh Hv Hd (tt0 & c & Hs & Htt) Hi Hn Hsv Hp [Ha Hat] [Hclip Hsnap] Hsh [Hbpb Hroot]] Hstub Hdisk H60 H300 H1514.
  unfold kernel_main.
  destruct (start_interrupts_ok ld k Hl Hh Hstub) as (k1 & E1 & [x C1] & Ht). rewrite (bind_ok _ _ _ _ _ E1). cbv beta.
  destruct (start_core_ok ld mem fuel (chips k1)) as (r2 & E2 & [[Cp Cf] Cv Ch Cd Ci Cn Cfat Csv Csp Csh Cclip Cdae]); [by rewrite C1|].
  set (rest2 := fun _ : unit => _). rewrite (chips_step (start_core ld mem fuel 0) rest2 k1 tt r2 E2). unfold rest2. clear rest2.
  rewrite C1 in Cd, Ci, Cn, Cfat, Csv, Csp, Csh, Cclip, Cdae.
  assert (Hw2 : sched_wf (k_sched r2) [] /\ sched_abs (k_sched r2) [] = SQueue 0 [] None).
  { unfold k_sched at 1 2. rewrite Cd. cbn [Gui.sched set_apps]. change (k_sched (set_hw x (chips k))) with (k_sched (chips k)).
    rewrite Hs. split; [by apply initialize_wf|done]. }
  assert (H2 : parts_ok r2).
  { split; [exact Cp|exact Cv|rewrite Ch; apply heap_initialize_wf| |rewrite Ci; exact Hi|rewrite Cn; exact Hn].
    rewrite Cd. apply desktop_rescheduled; [exact Hd|]. exists []. unfold k_sched at 1 in Hw2. rewrite Cd in Hw2. apply Hw2. }
  destruct (start_screen_ok ld r2 H2) as (r3 & E3 & H3 & F3 & Fat3). rewrite (chips_step _ _ (Interrupts.set_chips r2 k1) _ _ E3).
  pose proof (start_drivers_ok ld junk60 junk300 junk1514 junk_sector fuel disk fat32_alloc r3 Hdisk H60 H300 H1514 H3
    ltac:(by rewrite Fat3, Cfat)) as H4.
  unfold mbind at 1, io_bind at 1, on_chips at 1. cbn [chips Interrupts.set_chips].
  destruct (start_drivers _ _ _ _ _ _ _ _ r3) as [[[] r4]| |]; [|done|done]. destruct H4 as (H4 & F4 & [U4 V4]).
  pose proof (framed_trans _ _ _ F3 F4) as [Gp _ Gs Gsv Gsp Gsh Gclip Gdae].
  unfold enable_interrupts. rewrite bind_modify, bind_chips_modify. cbn [chips Interrupts.set_chips set_enabled].
  assert (H4' : parts_ok (set_ready r4)) by (destruct H4; split; assumption).
  destruct (start_processes_ok ld (set_ready r4) []) as (r5 & E5 & H5 & P5 & R5 & W5 & X5 & Y5 & Z5 & A5 & B5 & T5 & S5); [exact H4'|..];
    change (k_sv (set_ready r4)) with (k_sv r4); change (k_spool (set_ready r4)) with (k_spool r4);
    change (k_sched (set_ready r4)) with (k_sched r4); rewrite ?Gsv, ?Csv, ?Gsp, ?Csp, ?Gs; [exact Hsv|exact Hp|exact Ha|exact Hat|apply Hw2..|].
  unfold on_chips. cbn [chips Interrupts.set_chips]. rewrite E5.
  split; [reflexivity|destruct Ht; split; assumption|exact H5| |exact T5|exact S5| | |exact Z5| |exact R5].
  - intros f. cbn [chips Interrupts.set_chips]. rewrite P5. change (k_pmm (set_ready r4)) with (k_pmm r4). rewrite Gp. apply Cf.
  - split; cbn [chips Interrupts.set_chips]; [exact (eq_trans (f_equal _ A5) U4)|exact (eq_trans (f_equal _ B5) V4)].
  - exact (eq_trans W5 (eq_trans Gsh (eq_trans Csh Hsh))).
  - split; cbn [chips Interrupts.set_chips].
    + rewrite X5. exact (eq_trans (f_equal length Gclip) (eq_trans (f_equal (fun c => length (Clipboard.clipboard_buffer c)) Cclip) Hclip)).
    + rewrite Y5. exact (eq_trans (f_equal (fun d => length (snap d)) Gdae) (eq_trans (f_equal (fun d => length (snap d)) Cdae) Hsnap)).
Qed.

(** C11: the start of the kernel. With the zero that the boot code passes as
    the address of the memory map, whatever the hardware answers, from the
    static variables: if there is no SATA controller, [kernel_main] never
    reaches undefined behaviour, and if there is no network card either it
    reaches its loop for certain. Whenever it gets there, interrupts are on,
    the stubs are in the table with the timer as the only handler, the memory
    managers, the desktop, the input and the network driver are well formed,
    the frames from 2 MiB to 6 GiB are free, the idle task, the shell and the
    200 services are in the queue in this order with the idle task taken as
    running, and no file system is mounted. *)
Theorem kernel_main_starts {H I N} `{!PortIO H} `{!Mmio H} `{!InputDevice I} `{!Nic N} ld junk60 junk300 junk1514 junk_sector mem fuel
    (disk : ahci_t H -> BlockDevice) fat32_alloc (k : int_t (rest_t H I N)) :
  static_ok k -> (forall v, 0 <= stub_addr ld v < 2 ^ 64) -> disk_serves ld fuel disk ->
  length junk60 = 60%nat -> length junk300 = 300%nat -> Net.bytes_of 1514 junk1514 ->
  match kernel_main ld junk60 junk300 junk1514 junk_sector mem fuel disk fat32_alloc 0 k with
  | Ok (_, k') => started ld k'
  | Undef => ~ no_controller (H := H)
  | NoFuel => ~ (no_card (N := N) /\ no_controller (H := H))
  end.
Proof. apply kernel_main_ok. Qed.

(** ** A machine with nothing attached *)

Inductive bare := Bare.

#[export] Instance bare_ports : PortIO bare := { port_in _ _ d := (0xFFFFFFFF, d); port_out _ _ _ d := d }.
#[export] Instance bare_mmio : Mmio bare := { mmio_in _ d := (0xFFFFFFFF, d); mmio_out _ _ d := d }.
#[export] Instance bare_input : InputDevice bare := {| Input.mmio_read _ _ _ := 0xFFFFFFFF; Input.mmio_write _ _ _ d := d |}.
#[export] Instance bare_nic : Nic bare.
Proof.
  refine {| rx_buffer _ := replicate (Z.to_nat RX_BUFFER_SIZE) 0 |}.
  - intros _. rewrite length_replicate. unfold RX_BUFFER_SIZE. lia.
  - intros _. apply Forall_replicate. unfold is_byte. lia.
Defined.

Definition bare_disk (a : ahci_t bare) : BlockDevice.
Proof. refine {| Fat32.ahci_read_sector _ := None |}. done. Defined.

Definition bare_linker : linker_t :=
  Linker 0x120000 sample_stub 0x110000 0x121000 0x122000 0x110100 0x200000 0x110200 0x110300 0x110400 [] 0x110500
    (0x110600, 0x110700, 0x110800) (0x130000, 0x131000, 0x132000, 0x133000, 0x134000) 0x140000 0x150000 0x160000 0x161000
    0x162000 0x110900.

(** The static variables. *)
Definition static_desktop : desktop_t :=
  DesktopState blank_gui blank_wm blank_center false empty_launcher (sched_static (replicate 256 zero_tcb) zero_cpu)
    (Text 7 0 0 (replicate 2000 0)).
Definition static_rest : rest_t bare bare bare :=
  Rest Bare pmm_boot (Vmm [] [] 0 (replicate 1024 (Mapping 0 0 0)) 0 []) (Heap [] [] 0) (fun _ => (0, 0)) []
    static_desktop (Clipboard.Clip (replicate 512 0) 0) (Files [] 0)
    (InputState (empty_ring 256 0) false (empty_ring 32 no_event) [0; 0; 0] 0 40 12 true quiet_usb Bare)
    (Audio false false 0 0 128 Bare)
    (Net 0 false false (replicate 6 0) 0 0 0 0 0x393047 (replicate 6 0) 0 (replicate 4 (replicate (Z.to_nat 2048) 0))
      (replicate 4 0) 0 Bare)
    (AhciState 0 (replicate 32 0) [] [] [] Bare) (Fat (Bpb 0 0 0 0 0 0) 0 0 0 0 0 0 None (replicate 32 (File 0 0 0 false)))
    empty_services (Spooler rest_printer rest_speaker) (Daemons false 0 (replicate 64 0) (false, false)) None false.
Definition static_kernel : int_t (rest_t bare bare bare) :=
  Int (replicate 256 (Gate 0 0 0 0 0 0 0)) (IdtPtr 0 0) (replicate 256 None) (IdtPtr 0 0) false static_rest.

Lemma static_desktop_ok : desktop_ok static_desktop.
Proof.
  destruct blank_desktop_ok as [? ? ? _ _ ?]. split; try assumption.
  - split; [done|simpl; lia|by intros a ?%elem_of_nil|constructor].
  - exists []. split; cbn [Gui.sched static_desktop sched_static task_table task_count Sched.next_pid ready_queue_head current_task].
    + by rewrite length_replicate.
    + lia.
    + done.
    + intros i t _ Hi. lia.
    + done.
    + constructor.
    + by intros i ?%elem_of_nil.
    + by intros i t ?%elem_of_nil.
    + done.
Qed.

Lemma bare_no_card : no_card (N := bare).
Proof. intros []. exists Bare. vm_compute. reflexivity. Qed.
Lemma bare_no_controller : no_controller (H := bare).
Proof. intros []. exists Bare. vm_compute. reflexivity. Qed.

Lemma static_kernel_ok : static_ok static_kernel.
Proof.
  split; cbn [static_kernel chips idt interrupt_handlers static_rest k_vmm k_desk k_input k_net k_sv k_spool k_shell k_fat printer
    speaker audio_queue audio_tail]; try reflexivity.
  - split; [apply length_replicate|cbn [vmm_mapping_count]; lia].
  - exact static_desktop_ok.
  - exists (replicate 256 zero_tcb), zero_cpu. split; [reflexivity|by rewrite length_replicate].
  - exact (quiet_input_ok Bare).
  - split; [done|done|done| |done|simpl; lia]. apply Forall_replicate. rewrite length_replicate. lia.
  - split_and!; [done| |done]. by apply Forall_replicate.
  - exact rest_idle.
  - split; [split; [done|simpl; lia]|simpl; lia].
  - by split.
  - by split.
Qed.

Lemma bare_disk_serves fuel : disk_serves bare_linker fuel bare_disk.
Proof. by intros s lba data [=]. Qed.

Definition kernel_start : outcome (unit * int_t (rest_t bare bare bare)) :=
  kernel_main bare_linker (replicate 60 0) (replicate 300 0) (replicate (Z.to_nat 1514) 0) [] (fun _ => 0) 10 bare_disk
    (fun _ => None) 0 static_kernel.

Lemma zero_packet : Net.bytes_of 1514 (replicate (Z.to_nat 1514) 0).
Proof. split; [rewrite length_replicate; lia|]. apply Forall_replicate. unfold is_byte. lia. Qed.

Lemma sample_stub_range v : 0 <= sample_stub v < 2 ^ 64.
Proof. apply (linked_range _ _ sample_linked). Qed.

Lemma kernel_main_starts_witness : exists k, kernel_start = Ok (tt, k) /\ started bare_linker k.
Proof.
  pose proof (kernel_main_starts bare_linker (replicate 60 0) (replicate 300 0) (replicate (Z.to_nat 1514) 0) [] (fun _ => 0) 10
    bare_disk (fun _ => None) static_kernel static_kernel_ok sample_stub_range (bare_disk_serves 10)
    (length_replicate 60 0) (length_replicate 300 0) zero_packet) as Hstart.
  unfold kernel_start. destruct (kernel_main _ _ _ _ _ _ _ _ _ _ _) as [[[] k]| |].
  - exists k. split; [reflexivity|exact Hstart].
  - destruct (Hstart bare_no_controller).
  - destruct (Hstart (conj bare_no_card bare_no_controller)).
Defined.

