(* ===== verification/Running.v ===== *)
(** * The running kernel

    What happens once [kernel_main] has reached its loop, as steps: rounds of
    the loop, of the idle task, of the shell and of the services, system
    calls, tasks that compute or return, and interrupts.  The processor takes
    interrupts at any point; the handlers that are installed change only the
    request for a switch, so that an interrupt in the middle of a round has
    the effect of one before or after it.  Which task runs is left open: a
    step may be a round of any task. *)

From S2P Require Import Prelude Io Interrupts Stubs Pmm Vmm Heap Sched Pci Net Fat32 Ring Input InputSafety Vga Windows Desktop Services FileOps Launcher Gui Daemons Syscalls Console Boot Audio Ahci Kernel System.

Section running.
Context {H I N : Type} `{!PortIO H} `{!InputDevice I} `{!Nic N}.

(** As in [System]; [junk_cluster] are the contents of a buffer that is not
    initialised. *)
Context (ld : linker_t) (junk60 junk1514 junk_cluster : list Z) (fuel : nat) (disk : ahci_t H -> BlockDevice).
Local Notation rest := (rest_t H I N).
Implicit Types r : rest.
Implicit Types k : int_t rest.

Inductive event :=
| Interrupted (frame : isr_frame_t)
| MainRound
| IdleRound
| ShellRound
| IndexerRound
| MonitorRound
| ClipboardRound
| SpoolerRound
| ServiceRound
| SystemCall (text : Z -> option (list Z)) (after : Z * Z) (args : regs_t)
| TaskReturns
| Computes (c : Context.cpu_t).

Definition on_sched (f : sched_t -> option (sched_t * option Z)) : io rest unit :=
  assign (fun r => f (k_sched r)) (fun '(st, _) r => set_ksched st r).

(** The end of every round of a service. *)
Definition yield_round : io rest unit := on_sched (task_yield (yield_ret ld)).

(** The first round of the shell task is its start. *)
Definition shell_turn : io rest unit :=
  s ← gets k_shell;
  match s with
  | None =>
    s ← on_desktop (within_screen shell_start);
    modify (set_shell (Some s))
  | Some s =>
    transform (fun r =>
      match shell_round (tx_addr ld) junk60 junk1514 fuel (stacks_addr ld) (wrapper_addr ld) (yield_ret ld)
              (Session s (k_input r) (k_net r) (k_desk r)) with
      | Ok (_, s) => Ok (set_shell (Some (shell s)) (set_desk (desk s) (set_net (net s) (set_input (input s) r))))
      | Undef => Undef
      | NoFuel => NoFuel
      end)
  end.

(** What the daemons share with the rest. *)
Definition k_daemon r : daemon_t := daemon (Gui.center (k_desk r)) (k_daemons r).
Definition set_daemon (d : daemon_t) (h : bool * bool) r : rest :=
  set_spool (k_spool r) (Daemons (disk_index_ready d) (disk_indexed_files d) (clipboard_snapshot d) h)
    (set_desk (Gui.set_center (Services.center d) (k_desk r)) r).

Definition indexer_turn : io rest unit :=
  transform (fun r =>
    match @disk_indexer_service (disk (k_ahci r)) fuel junk_cluster (k_fat r) (k_daemon r) with
    | Ok d => Ok (set_daemon d (had (k_daemons r)) r)
    | Undef => Undef
    | NoFuel => NoFuel
    end) ≫= fun _ => yield_round.

Definition monitor_turn : io rest unit :=
  assign (fun r => input_monitor_service (controller (k_input r)) (had (k_daemons r)) (usb (k_input r)) (k_daemon r))
    (fun '(d, u, h) r => set_daemon d h (set_input (set_usb u (k_input r)) r)) ≫= fun _ => yield_round.

Definition clipboard_turn : io rest unit :=
  assign (fun r => clipboard_daemon_service (k_clip r) (k_daemon r)) (fun d r => set_daemon d (had (k_daemons r)) r)
    ≫= fun _ => yield_round.

(** One after the other. *)
Fixpoint each {A S} (f : A -> io S unit) (l : list A) : io S unit :=
  match l with
  | [] => skip
  | a :: l => f a ≫= fun _ => each f l
  end.

(** The tone and the character that a pass adds to the lists of [Services] go
    to the speaker and to the serial port. *)
Definition spooler_turn : io rest unit :=
  s ← gets k_spool;
  s' ← lift (audio_spooler_service s);
  modify (fun r => set_spool s' (k_daemons r) r) ≫= fun _ =>
  each (fun '(f, ms) => on_sound (audio_play_tone f ms) ≫= fun _ => skip)
    (drop (length (tones_played (speaker s))) (tones_played (speaker s'))) ≫= fun _ =>
  each (serial_putchar fuel) (drop (length (serial_out (printer s))) (serial_out (printer s'))) ≫= fun _ =>
  yield_round.

Definition service_turn : io rest unit :=
  assign (fun r => generic_background_service (k_sched r)) (fun _ r => r) ≫= fun _ => yield_round.

(** R12 and RSP are those of the task that runs; the other registers of a
    program are not part of [cpu_t]. *)
Definition at_entry (c : Context.cpu_t) (args : regs_t) : regs_t :=
  Regs (rax args) (rdi args) (rsi args) (rdx args) (rcx args) (r11 args) (Context.r12 c) (Context.rsp c).
Definition after_entry (out : regs_t) (c : Context.cpu_t) : Context.cpu_t :=
  Context.Cpu (reg_rsp out) (Context.rbx c) (Context.rbp c) (reg_r12 out) (Context.r13 c) (Context.r14 c) (Context.r15 c)
    (Context.mem c).

(** A system call, up to [sysretq].  Execution goes on at the address that
    RCX holds then: when the dispatcher has changed it, that is no place the
    model knows. *)
Definition system_call (text : Z -> option (list Z)) (after : Z * Z) (args : regs_t) : io rest regs_t :=
  r ← gets id;
  '(out, s) ← lift (syscall_entry text after (at_entry (cpu (k_sched r)) args) (k_sys r));
  modify (fun r => let st := k_sched (set_sys s r) in set_ksched (set_cpu (after_entry out (cpu st)) st) (set_sys s r)) ≫= fun _ =>
  lift (if rcx out =? rcx args then Some out else None).

(** [sysretq] takes the flags from R11, bit 9 is the interrupt flag. *)
Definition perform (e : event) : io (int_t rest) unit :=
  match e with
  | Interrupted frame => isr_handler (call_handler ld) frame
  | MainRound => on_chips (on_sched (kernel_loop (yield_ret ld)))
  | IdleRound => on_chips (on_sched (idle_round (yield_ret ld)))
  | ShellRound => on_chips shell_turn
  | IndexerRound => on_chips indexer_turn
  | MonitorRound => on_chips monitor_turn
  | ClipboardRound => on_chips clipboard_turn
  | SpoolerRound => on_chips spooler_turn
  | ServiceRound => on_chips service_turn
  | SystemCall text after args =>
    out ← on_chips (system_call text after args);
    modify (set_enabled (bit_test (r11 out) 9))
  | TaskReturns => on_chips (on_sched (task_exit (yield_ret ld)))
  | Computes c => on_chips (modify (fun r => set_ksched (set_cpu c (k_sched r)) r))
  end.

(** Events without a loop that waits for a device without a bound. *)
Definition bounded (e : event) : bool := match e with ShellRound | SpoolerRound => false | _ => true end.

(** Vectors of exceptions are taken at any time, those of the interrupt
    controllers only when interrupts are enabled. A system call has a string
    where the dispatcher reads one (of the registers, the first gives the
    number of the call and the second the address), and the dispatcher leaves
    the return address in RCX. *)
Definition allowed (e : event) k : Prop :=
  match e with
  | Interrupted frame =>
    0 <= interrupt_number frame <= 20 \/ 32 <= interrupt_number frame < 48 /\ enabled k = true
  | SystemCall text after args =>
    call_defined text (rdi args) (rsi args) (rdx args) (rcx args) = true /\ after.1 = rcx args
  | _ => True
  end.

Inductive kernel_step : int_t rest -> int_t rest -> Prop :=
| step_event e k k' : allowed e k -> perform e k = Ok (tt, k') -> kernel_step k k'.

(** The events one after the other. *)
Inductive kernel_run : list event -> int_t rest -> int_t rest -> Prop :=
| run_nil k : kernel_run [] k k
| run_cons e es k k1 k2 : allowed e k -> perform e k = Ok (tt, k1) -> kernel_run es k1 k2 -> kernel_run (e :: es) k k2.

(** The interrupt flag after an event, and after events: only a system call
    changes it. *)
Definition flag_after (b : bool) (e : event) : bool :=
  match e with SystemCall _ after _ => Z.testbit after.2 9 | _ => b end.
Definition flag_of (es : list event) : bool := foldl flag_after true es.

Lemma run_steps es k k' : kernel_run es k k' -> rtc kernel_step k k'.
Proof using Type.
  induction 1 as [k|e es k k1 k2 Ha E _ IH]; [apply rtc_refl|]. eapply rtc_l; [|exact IH]. by apply (step_event e).
Qed.

Lemma steps_run k k' : rtc kernel_step k k' -> exists es, kernel_run es k k'.
Proof using Type.
  induction 1 as [k|k1 k2 k3 [e k k' Ha E] _ [es IH]]; [by exists []; constructor|].
  exists (e :: es). by apply run_cons with k'.
Qed.

Lemma run_snoc es e k k1 k2 : kernel_run es k k1 -> allowed e k1 -> perform e k1 = Ok (tt, k2) -> kernel_run (es ++ [e]) k k2.
Proof using Type.
  intros Hrun Ha E. induction Hrun as [k|e' es k k' k1 Ha' E' _ IH]; cbn [app].
  - apply run_cons with k2; [done|done|constructor].
  - apply run_cons with k'; [done|done|by apply IH].
Qed.

(** ** What the steps keep *)

Record rest_ok r : Prop := {
  rest_parts : parts_ok r;
  rest_shell : forall s, k_shell r = Some s -> shell_fits s;
  rest_unmounted : unmounted r;
  rest_spool : spooler_ok (k_spool r);
  rest_clip : length (Clipboard.clipboard_buffer (k_clip r)) = 512%nat;
  rest_snap : length (snap (k_daemons r)) = 64%nat
}.

Record kernel_ok k : Prop := {
  kept_table : table_ok ld k;
  kept_rest : rest_ok (chips k)
}.

Lemma kernel_ok_flag b k : kernel_ok k -> kernel_ok (set_enabled b k).
Proof using Type. intros [[T1 T2 T3] ?]. split; [by split|assumption]. Qed.

Lemma kernel_ok_chips k r : kernel_ok k -> rest_ok r -> kernel_ok (Interrupts.set_chips r k).
Proof using Type. intros [[T1 T2 T3] _] Hr. split; try assumption. split; assumption. Qed.

Lemma rest_sched r : rest_ok r -> exists q, sched_wf (k_sched r) q.
Proof using Type. intros Hr. apply (ok_sched _ (parts_desk _ (rest_parts _ Hr))). Qed.

(** Only a part changes. *)
Lemma rest_ok_hw x r : rest_ok r -> rest_ok (set_hw x r).
Proof using Type. intros [[] ? ? ? ? ?]. split; try assumption. by split. Qed.

Lemma rest_ok_ksched st r : rest_ok r -> (exists q, sched_wf st q) -> rest_ok (set_ksched st r).
Proof using Type.
  intros [[? ? ? Hd ? ?] ? ? ? ? ?] Hst. split; try assumption. split; try assumption. by apply desktop_rescheduled.
Qed.

Lemma rest_ok_sys s r : rest_ok r -> (exists q, sched_wf (Syscalls.sched s) q) -> rest_ok (set_sys s r).
Proof using Type.
  intros [[? ? ? Hd ? ?] ? ? ? ? ?] Hst. split; try assumption. split; try assumption. by apply desktop_rescheduled.
Qed.

Lemma daemon_rest r : rest_ok r -> daemon_ok (k_daemon r).
Proof using Type. intros Hr. split; [apply (ok_center _ (parts_desk _ (rest_parts _ Hr)))|apply Hr]. Qed.

Lemma rest_ok_daemon d h r : rest_ok r -> daemon_ok d -> rest_ok (set_daemon d h r).
Proof using Type.
  intros [[? ? ? [] ? ?] ? ? ? ? ?] [Hc Hs]. split; try assumption. split; try assumption. by split.
Qed.

Lemma rest_ok_spool s r : rest_ok r -> spooler_ok s -> rest_ok (set_spool s (k_daemons r) r).
Proof using Type. intros [[] ? ? ? ? ?] Hs. split; try assumption. by split. Qed.

(** Total and partial computations that keep the rest well formed. *)
Definition calm {A} (m : io rest A) : Prop := total rest_ok m (fun _ => rest_ok).
Definition harmless {A} (m : io rest A) : Prop := safe rest_ok m (fun _ => rest_ok).

Lemma calm_harmless {A} (m : io rest A) : calm m -> harmless m.
Proof using Type. apply total_safe. Qed.

Lemma calm_bind {A B} (m : io rest A) (f : A -> io rest B) : calm m -> (forall a, calm (f a)) -> calm (m ≫= f).
Proof using Type. intros Hm Hf. by eapply total_bind. Qed.

Lemma harmless_bind {A B} (m : io rest A) (f : A -> io rest B) : harmless m -> (forall a, harmless (f a)) -> harmless (m ≫= f).
Proof using Type. intros Hm Hf. by eapply safe_bind. Qed.

Lemma calm_assign {A} (f : rest -> option A) put :
  (forall r, rest_ok r -> exists a, f r = Some a /\ rest_ok (put a r)) -> calm (assign f put).
Proof using Type.
  intros Hf r Hr. destruct (Hf r Hr) as (a & E & Ha). exists tt, (put a r). split; [|done].
  unfold assign. rewrite bind_gets. unfold id. by rewrite (bind_lift _ _ _ _ E).
Qed.

Lemma calm_modify f : (forall r, rest_ok r -> rest_ok (f r)) -> calm (modify f).
Proof using Type. intros Hf r Hr. exists tt, (f r). split; [done|by apply Hf]. Qed.

(** *** The scheduler *)

Lemma schedule_keeps st q :
  sched_wf st q -> exists st' x q', task_yield (yield_ret ld) st = Some (st', x) /\ sched_wf st' q'.
Proof using Type. intros Hq. destruct (yield_ok (yield_ret ld) st q Hq) as (st' & x & E & H' & _). by exists st', x, q. Qed.

Lemma main_keeps st q :
  sched_wf st q -> exists st' x q', kernel_loop (yield_ret ld) st = Some (st', x) /\ sched_wf st' q'.
Proof using Type. intros Hq. unfold kernel_loop. destruct (scheduler_pending st); [by apply (schedule_keeps st q)|by exists st, None, q]. Qed.

Lemma exit_keeps st q :
  sched_wf st q -> exists st' x q', task_exit (yield_ret ld) st = Some (st', x) /\ sched_wf st' q'.
Proof using Type.
  intros Hq. destruct (current_task st) as [i|] eqn:Hc.
  - destruct (exit_ok (yield_ret ld) st q i Hq Hc) as (st' & q1 & q2 & _ & E & H' & _). by exists st', None, (q1 ++ q2).
  - exists st, None, q. split; [|done]. unfold task_exit. by rewrite Hc.
Qed.

Lemma calm_sched f :
  (forall st q, sched_wf st q -> exists st' x q', f st = Some (st', x) /\ sched_wf st' q') -> calm (on_sched f).
Proof using Type.
  intros Hf. apply calm_assign. intros r Hr. destruct (rest_sched r Hr) as [q Hq]. destruct (Hf _ _ Hq) as (st & x & q' & E & Hst).
  exists (st, x). split; [done|]. apply rest_ok_ksched; [done|by exists q'].
Qed.

Lemma yield_calm : calm yield_round.
Proof using Type. apply calm_sched, schedule_keeps. Qed.

(** *** The services *)

Lemma indexer_calm : calm indexer_turn.
Proof using Type.
  apply calm_bind; [|intros _; exact yield_calm]. intros r Hr. unfold transform.
  destruct (indexer_pass_ok (H := disk (k_ahci r)) fuel junk_cluster (k_fat r) (k_daemon r) (proj2 (rest_unmounted _ Hr)) (daemon_rest _ Hr))
    as (d & -> & Hd & _). exists tt. eexists. split; [done|]. by apply rest_ok_daemon.
Qed.

Lemma monitor_calm : calm monitor_turn.
Proof using Type.
  apply calm_bind; [|intros _; exact yield_calm]. apply calm_assign. intros r Hr. pose proof (parts_input _ (rest_parts _ Hr)) as Hi.
  destruct (monitor_pass_ok (controller (k_input r)) (had (k_daemons r)) (usb (k_input r)) (k_daemon r) (in_usb _ Hi) (daemon_rest _ Hr))
    as (d & u & h & E & Hd & Hu). exists (d, u, h). split; [exact E|]. apply rest_ok_daemon; [|done].
  destruct Hr as [[? ? ? ? [] ?] ? ? ? ? ?]. split; try assumption. split; try assumption. by split.
Qed.

Lemma clipboard_calm : calm clipboard_turn.
Proof using Type.
  apply calm_bind; [|intros _; exact yield_calm]. apply calm_assign. intros r Hr.
  destruct (clipboard_pass_ok (k_clip r) (k_daemon r) (rest_clip _ Hr) (daemon_rest _ Hr)) as (d & E & Hd).
  exists d. split; [exact E|by apply rest_ok_daemon].
Qed.

Lemma service_calm : calm service_turn.
Proof using Type.
  apply calm_bind; [|intros _; exact yield_calm]. apply calm_assign. intros r Hr. destruct (rest_sched r Hr) as [q Hq].
  destruct (generic_pass_ok _ q Hq) as [v E]. by exists v.
Qed.

Lemma each_harmless {A} (f : A -> io rest unit) l : (forall a, harmless (f a)) -> harmless (each f l).
Proof using Type. intros Hf. induction l as [|a l IH]; [by apply safe_ret|]. apply harmless_bind; [apply Hf|intros _; exact IH]. Qed.

Lemma tone_harmless f ms : harmless (on_sound (audio_play_tone f ms)).
Proof using Type.
  intros r Hr. unfold on_sound, part. destruct (tone_defined f ms (k_audio r)) as (v & a & ->).
  destruct Hr as [[] ? ? ? ? ?]. split; try assumption. by split.
Qed.

Lemma port_harmless {A} (m : io rest A) : defined m -> hw_only m -> harmless m.
Proof using Type. intros Hd Hh r Hr. destruct (Hd r) as (a & r' & E). rewrite E. destruct (Hh _ _ _ E) as [x ->]. by apply rest_ok_hw. Qed.

Lemma putchar_harmless c : harmless (serial_putchar (D := rest) fuel c).
Proof using Type.
  apply harmless_bind; [apply safe_while|intros _; apply port_harmless; [apply out_defined|apply hw_out]].
  unfold serial_is_transmit_empty. apply port_harmless.
  - do 2 (apply defined_bind; [|intros; apply defined_ret]). apply in_defined.
  - do 2 (apply hw_bind; [|intros v r a r' [= _ <-]; eexists; apply set_hw_same]). intros r a r'. unfold inb, in_width.
    destruct (port_in _ _ r) as [v r1] eqn:E. intros [= _ <-]. revert E. cbn [port_in rest_ports].
    destruct (port_in _ _ (k_chips r)). intros [= _ <-]. by eexists.
Qed.

Lemma spooler_harmless : harmless spooler_turn.
Proof using Type.
  intros r Hr. unfold spooler_turn. rewrite bind_gets. destruct (spooler_pass_ok _ (rest_spool _ Hr)) as (s & E & Hs).
  rewrite (bind_lift _ _ _ _ E), bind_modify. pose proof (rest_ok_spool s r Hr Hs) as Hr'. revert Hr'. generalize (set_spool s (k_daemons r) r).
  apply harmless_bind; [|intros _; apply harmless_bind; [apply each_harmless, putchar_harmless|intros _; apply calm_harmless, yield_calm]].
  apply each_harmless. intros [f ms]. apply harmless_bind; [apply tone_harmless|intros _; by apply safe_ret].
Qed.

(** *** Interrupts *)

(** The end of interrupt that is sent changes the hardware only. *)
Lemma eoi_hw irq r : exists x, pic_send_eoi irq r = Ok (tt, set_hw x r).
Proof using Type.
  assert (Hd : defined (pic_send_eoi (D := rest) irq)).
  { unfold pic_send_eoi. apply defined_bind; [destruct (_ <=? _); [apply out_defined|apply defined_ret]|]. intros _. apply out_defined. }
  assert (Hh : hw_only (pic_send_eoi (D := rest) irq)).
  { unfold pic_send_eoi. apply hw_bind; [|intros _; apply hw_out]. destruct (_ <=? _); [apply hw_out|].
    intros r0 a r0' [= _ <-]. eexists. apply set_hw_same. }
  destruct (Hd r) as ([] & r' & E). destruct (Hh _ _ _ E) as [x ->]. by exists x.
Qed.

(** An interrupt with a stub returns; only the timer does anything. *)
Lemma interrupt_ok frame k :
  kernel_ok k -> 0 <= interrupt_number frame < 48 ->
  exists r, perform (Interrupted frame) k = Ok (tt, Interrupts.set_chips r k) /\ rest_ok r.
Proof using Type.
  intros Hk Hv. cbn [perform]. unfold isr_handler. pose proof (kept_rest _ Hk) as Hr.
  assert (Hu : u32 (interrupt_number frame) = interrupt_number frame) by (unfold u32; apply Z.mod_small; lia).
  rewrite Hu, bind_gets, (bind_lift _ _ _ _ (table_handlers _ _ (kept_table _ Hk) (interrupt_number frame) ltac:(lia))).
  cbv zeta. set (v := interrupt_number frame) in *.
  assert (Hrun : exists r1, (match (if v =? 32 then Some (pit_tick_addr ld) else None) with
      | Some f => call_handler ld f | None => skip end) k = Ok (tt, Interrupts.set_chips r1 k) /\ rest_ok r1).
  { destruct (v =? 32); [|exists (chips k); split; [by destruct k|done]]. unfold call_handler. rewrite Z.eqb_refl.
    exists (set_ksched (pit_tick (k_sched (chips k))) (chips k)). split; [done|]. apply rest_ok_ksched; [done|].
    destruct (rest_sched _ Hr) as [q Hq]. exists q. destruct Hq. by split. }
  destruct Hrun as (r1 & E1 & C1). destruct (_ && _); [|by exists r1].
  rewrite (bind_ok _ _ _ _ _ E1). destruct (eoi_hw (v - 32) r1) as (x & E2). exists (set_hw x r1).
  split; [|by apply rest_ok_hw]. unfold on_chips. cbn [chips Interrupts.set_chips]. by rewrite E2.
Qed.

(** *** Events *)

Lemma chips_ok (m : io rest unit) k :
  calm m -> kernel_ok k -> exists k', on_chips m k = Ok (tt, k') /\ kernel_ok k'.
Proof using Type.
  intros Hm Hk. destruct (Hm _ (kept_rest _ Hk)) as ([] & r & E & Hr). eexists. split; [by apply on_chips_eq|by apply kernel_ok_chips].
Qed.

Lemma chips_harmless (m : io rest unit) k :
  harmless m -> kernel_ok k -> match on_chips m k with Ok (_, k') => kernel_ok k' | Undef => False | NoFuel => True end.
Proof using Type.
  intros Hm Hk. pose proof (Hm _ (kept_rest _ Hk)) as Hr. unfold on_chips. destruct (m (chips k)) as [[u r]| |]; [|done|done].
  by apply kernel_ok_chips.
Qed.

(** A system call whose string is there and that finds its way back. *)
Lemma system_call_ok text after args r :
  rest_ok r -> call_defined text (rdi args) (rsi args) (rdx args) (rcx args) = true -> after.1 = rcx args ->
  exists out r', system_call text after args r = Ok (out, r') /\ rest_ok r' /\ r11 out = after.2.
Proof using Type.
  intros Hr Hd Ha. destruct (rest_sched _ Hr) as [q Hq].
  destruct (dispatcher_wf text (k_sys r) q Hq (rdi args) (rsi args) (rdx args) (rcx args) Hd) as (v & s' & q' & E & Hs' & _).
  unfold system_call, syscall_entry. rewrite bind_gets. unfold id. cbn [rdi rsi rdx rcx at_entry]. rewrite E.
  cbn [mbind option_bind]. rewrite (bind_lift _ _ _ _ eq_refl), bind_modify. cbv zeta. cbn [rcx]. rewrite Ha, Z.eqb_refl.
  do 2 eexists. split; [done|]. split; [|done]. apply rest_ok_ksched; [apply rest_ok_sys; [done|by exists q']|].
  exists q'. change (k_sched (set_sys s' r)) with (Syscalls.sched s'). destruct Hs'. by split.
Qed.

Lemma perform_ok e k :
  kernel_ok k -> allowed e k -> bounded e = true -> exists k', perform e k = Ok (tt, k') /\ kernel_ok k'.
Proof using Type.
  intros Hk Ha Hb. destruct e as [frame| | | | | | | | |text after args| |c]; try done.
  - destruct (interrupt_ok frame k Hk) as (r & E & Hr); [cbn [allowed] in Ha; lia|]. eexists. split; [exact E|by apply kernel_ok_chips].
  - apply chips_ok; [|done]. apply calm_sched, main_keeps.
  - apply chips_ok; [|done]. apply calm_sched, schedule_keeps.
  - apply chips_ok; [exact indexer_calm|done].
  - apply chips_ok; [exact monitor_calm|done].
  - apply chips_ok; [exact clipboard_calm|done].
  - apply chips_ok; [exact service_calm|done].
  - destruct Ha as [Hd Ha]. destruct (system_call_ok text after args (chips k) (kept_rest _ Hk) Hd Ha) as (out & r & E & Hr & _).
    cbn [perform]. rewrite (bind_ok _ _ _ _ _ (on_chips_eq _ _ _ _ E)). eexists. split; [done|].
    by apply kernel_ok_flag, kernel_ok_chips.
  - apply chips_ok; [|done]. apply calm_sched, exit_keeps.
  - apply chips_ok; [|done]. apply calm_modify. intros r Hr. apply rest_ok_ksched; [done|].
    destruct (rest_sched _ Hr) as [q Hq]. exists q. destruct Hq. by split.
Qed.

(** The interrupt flag. *)
Lemma chips_flag {A} (m : io rest A) k a k' : on_chips m k = Ok (a, k') -> enabled k' = enabled k.
Proof using Type. unfold on_chips. destruct (m (chips k)) as [[b r]| |]; [|done|done]. by intros [= _ <-]. Qed.

Lemma perform_flag e k k' :
  kernel_ok k -> allowed e k -> perform e k = Ok (tt, k') -> enabled k' = flag_after (enabled k) e.
Proof using Type.
  intros Hk Ha E. destruct e as [frame| | | | | | | | |text after args| |c]; cbn [perform flag_after] in *;
    try (by apply chips_flag in E).
  - destruct (interrupt_ok frame k Hk) as (r & E' & _); [cbn [allowed] in Ha; lia|]. cbn [perform] in E'. rewrite E' in E.
    by injection E as <-.
  - destruct Ha as [Hd Ha]. destruct (system_call_ok text after args (chips k) (kept_rest _ Hk) Hd Ha) as (out & r & E' & _ & Hout).
    rewrite (bind_ok _ _ _ _ _ (on_chips_eq _ _ _ _ E')) in E. injection E as <-. cbn [enabled set_enabled].
    rewrite Hout. by apply bit_test_testbit.
Qed.

(** *** The shell *)

Context (H60 : length junk60 = 60%nat) (H1514 : Net.bytes_of 1514 junk1514).

Lemma shell_harmless : harmless shell_turn.
Proof using H60 H1514.
  intros r Hr. unfold shell_turn. rewrite bind_gets. pose proof (rest_shell _ Hr) as Hs. destruct (k_shell r) as [s|] eqn:Es.
  - pose proof (shell_round_safe (tx_addr ld) junk60 junk1514 fuel (stacks_addr ld) (wrapper_addr ld) (yield_ret ld) H60 H1514
      (Session s (k_input r) (k_net r) (k_desk r))) as Hround. unfold transform.
    destruct Hr as [[? ? ? Hd Hi Hn] ? ? ? ? ?]. specialize (Hround (Build_session_ok _ _ (Session s (k_input r) (k_net r) (k_desk r)) (Hs s eq_refl) Hi Hn Hd)).
    destruct (shell_round _ _ _ _ _ _ _ _) as [[rip t]| |]; [|done|done]. destruct Hround as [Hf Hi' Hn' Hd'].
    split; try assumption; [by split|]. by intros s' [= <-].
  - destruct (within_screen_ok shell_start _ _ shell_start_fits (parts_desk _ (rest_parts _ Hr))) as (s & d & E & Hf & Hd).
    rewrite (bind_ok _ _ r s (set_desk d r)) by (unfold on_desktop, part; by rewrite E). cbn [modify].
    destruct Hr as [[] ? ? ? ? ?]. split; try assumption; [by split|]. by intros s' [= <-].
Qed.

Lemma perform_safe e k :
  kernel_ok k -> allowed e k -> match perform e k with Ok (_, k') => kernel_ok k' | Undef => False | NoFuel => bounded e = false end.
Proof using H60 H1514.
  intros Hk Ha. destruct (bounded e) eqn:Hb.
  - by destruct (perform_ok e k Hk Ha Hb) as (k' & -> & ?).
  - destruct e; try done; cbn [perform].
    + pose proof (chips_harmless _ k shell_harmless Hk). by destruct (on_chips shell_turn k) as [[]| |].
    + pose proof (chips_harmless _ k spooler_harmless Hk). by destruct (on_chips spooler_turn k) as [[]| |].
Qed.

Lemma started_kernel_ok k : started ld k -> kernel_ok k.
Proof using Type.
  intros [? ? ? ? ? ? ? Hs ? [? ?] ?]. split; try assumption. split; try assumption. by rewrite Hs.
Qed.

Lemma run_ok_flag es k0 k :
  kernel_ok k0 -> kernel_run es k0 k -> kernel_ok k /\ enabled k = foldl flag_after (enabled k0) es.
Proof using H60 H1514.
  intros H0 Hrun. induction Hrun as [k|e es k k1 k2 Ha E _ IH]; [done|].
  pose proof (perform_safe e k H0 Ha) as Hs. rewrite E in Hs. destruct (IH Hs) as [H2 Hf]. split; [done|].
  rewrite Hf. cbn [foldl]. by rewrite (perform_flag e k k1 H0 Ha E).
Qed.
End running.

(** ** Theorems *)

(** C12: the running kernel. Once [kernel_main] has reached its loop, whatever
    sequence of events follows (interrupts on the vectors that have a stub,
    those of the interrupt controllers while interrupts are enabled; rounds of
    the main loop, of the idle task, of the shell and of the services; system
    calls with any registers that point to a string where the dispatcher reads
    one, from which the dispatcher returns with the address to go on at still
    in RCX; tasks that compute or return), in every state that is reached the
    table still leads to the stubs, the queue of the tasks, the heap, the page
    tables, the desktop, the input, the network driver, the spooler and the
    clipboard are well formed, the line of the shell is inside its buffer, and
    interrupts are enabled exactly when no system call was made or the last
    one returned with bit 9 of R11 set: the entry point does not save that
    register, so that it is what the dispatcher leaves in it. No event that
    can happen there leads to undefined behaviour, and every one returns, but
    for rounds of the shell, which polls the network card without a bound, and
    of the spooler, which waits for the serial port. *)
Theorem kernel_steps_safe {H I N} `{!PortIO H} `{!InputDevice I} `{!Nic N} ld junk60 junk1514 junk_cluster fuel
    (disk : ahci_t H -> BlockDevice) (k0 k : int_t (rest_t H I N)) es :
  length junk60 = 60%nat -> Net.bytes_of 1514 junk1514 ->
  started ld k0 -> kernel_run ld junk60 junk1514 junk_cluster fuel disk es k0 k ->
  kernel_ok ld k /\ enabled k = flag_of es /\
  forall e, allowed e k -> perform ld junk60 junk1514 junk_cluster fuel disk e k <> Undef /\
    (bounded e = true -> exists k', perform ld junk60 junk1514 junk_cluster fuel disk e k = Ok (tt, k') /\
       kernel_run ld junk60 junk1514 junk_cluster fuel disk (es ++ [e]) k0 k').
Proof.
  intros H60 H1514 Hst Hrun.
  destruct (run_ok_flag ld junk60 junk1514 junk_cluster fuel disk H60 H1514 es k0 k (started_kernel_ok _ _ Hst) Hrun) as [Hk Hf].
  split; [done|]. split; [by rewrite Hf, (started_enabled _ _ Hst)|]. intros e Ha. split.
  - pose proof (perform_safe ld junk60 junk1514 junk_cluster fuel disk H60 H1514 e k Hk Ha) as Hs. intros E. by rewrite E in Hs.
  - intros Hb. destruct (perform_ok ld junk60 junk1514 junk_cluster fuel disk e k Hk Ha Hb) as (k' & E & _).
    exists k'. split; [exact E|]. by apply (run_snoc ld junk60 junk1514 junk_cluster fuel disk es e k0 k k').
Qed.

(** C13: the timer. In any state of the running kernel in which the main loop
    runs in slot 0 with task [j] next in the queue, a tick of the timer that
    the processor takes at any point, through the gate, the stub and
    [isr_handler], leaves the interrupted registers, flags and stack as they
    were and requests a switch; the next round of the main loop then hands
    the processor to [j] and withdraws the request. *)
Theorem timer_tick_switches {H I N} `{!PortIO H} `{!InputDevice I} `{!Nic N} ld junk60 junk1514 junk_cluster fuel
    (disk : ahci_t H -> BlockDevice) junk junk_flags scratch block_at (k : int_t (rest_t H I N)) q j c :
  kernel_ok ld k -> sched_wf (k_sched (chips k)) (0%nat :: j :: q) -> current_task (k_sched (chips k)) = Some 0%nat ->
  linked block_at (stub_addr ld) -> 256 <= Stubs.regs c RSP < 2 ^ 64 -> bit_test (rflags c) DF_BIT = false ->
  exists c' k1 k2,
    interrupt junk junk_flags scratch (call_handler ld) (idt_addr ld) block_at 32 0 (World c k) = Ok (tt, World c' k1) /\
    resumed c c' /\ scheduler_pending (k_sched (chips k1)) = true /\
    perform ld junk60 junk1514 junk_cluster fuel disk MainRound k1 = Ok (tt, k2) /\
    current_task (k_sched (chips k2)) = Some j /\ scheduler_pending (k_sched (chips k2)) = false.
Proof.
  intros Hk Hq Hc Hlink Hsp Hdf. pose proof (kept_table _ _ Hk) as Ht.
  pose proof (table_transparent junk junk_flags scratch (call_handler ld) (idt_addr ld) block_at (stub_addr ld) k 32 0 c
    Hlink (table_loaded _ _ Ht) (table_gates _ _ Ht) ltac:(lia) Hsp Hdf) as Hint. cbv zeta in Hint. change (has_stub 32) with true in Hint.
  set (frame := frame_of _ _ _) in Hint. cbv iota in Hint. revert Hint. unfold isr_handler.
  change (u32 (interrupt_number frame)) with 32. rewrite bind_gets, (bind_lift _ _ _ _ (table_handlers _ _ Ht 32 ltac:(lia))).
  cbn [Z.eqb Pos.eqb Z.leb Z.ltb Z.compare Pos.compare Pos.compare_cont andb]. unfold call_handler at 1. rewrite Z.eqb_refl, bind_chips_modify.
  set (r1 := set_ksched (pit_tick (k_sched (chips k))) (chips k)). destruct (eoi_hw (32 - 32) r1) as (x & E2).
  unfold on_chips at 1. cbn [chips Interrupts.set_chips]. rewrite E2. intros (c' & Erun & Hres).
  set (st1 := pit_tick (k_sched (chips k))). assert (Hq1 : sched_wf st1 (0%nat :: j :: q)) by (destruct Hq; by split).
  destruct (yield_ok (yield_ret ld) st1 _ Hq1) as (st2 & rip & E & Hst2 & Ha & _ & Hreq).
  exists c', (Interrupts.set_chips (set_hw x r1) (Interrupts.set_chips r1 k)).
  exists (Interrupts.set_chips (set_ksched st2 (set_hw x r1)) (Interrupts.set_chips (set_hw x r1) (Interrupts.set_chips r1 k))).
  split; [exact Erun|]. split; [exact Hres|]. split; [done|]. split; [|split].
  - cbn [perform]. apply on_chips_eq. unfold on_sched, assign. rewrite bind_gets. unfold id.
    cbn [chips Interrupts.set_chips]. change (k_sched (set_hw x r1)) with st1. unfold kernel_loop. cbn [scheduler_pending].
    change (scheduler_pending st1) with true. cbv iota. unfold schedule. by rewrite (bind_lift _ _ _ _ E).
  - apply (f_equal sq_current) in Ha. cbn [sq_current sched_abs] in Ha. cbn [chips Interrupts.set_chips].
    change (k_sched (set_ksched st2 (set_hw x r1))) with st2. rewrite Ha. unfold spec_yield.
    cbn [sq_current sched_abs sq_queue]. change (current_task st1) with (current_task (k_sched (chips k))). rewrite Hc. cbn [first_index Nat.eqb].
    rewrite Nat.mod_small by (simpl; lia). done.
  - cbn [chips Interrupts.set_chips]. change (k_sched (set_ksched st2 (set_hw x r1))) with st2. unfold scheduler_pending.
    apply Hreq. change (current_task st1) with (current_task (k_sched (chips k))). rewrite Hc. by eexists.
Qed.

(** *** Notifications *)

Definition posted {H I N} (k : int_t (rest_t H I N)) : Z := Notifications.notification_count (Gui.center (k_desk (chips k))).

Fixpoint rounds {H I N} (m : io (int_t (rest_t H I N)) unit) (n : nat) (k : int_t (rest_t H I N)) : outcome (unit * int_t (rest_t H I N)) :=
  match n with
  | O => Ok (tt, k)
  | S n => (m ≫= fun _ => rounds m n) k
  end.

(** Since no file system is mounted, every round of the indexer posts a
    failure until the notification center is full. *)
Theorem indexer_fills_notifications {H I N} `{!PortIO H} `{!InputDevice I} `{!Nic N} ld junk60 junk1514 junk_cluster fuel
    (disk : ahci_t H -> BlockDevice) (k : int_t (rest_t H I N)) n :
  kernel_ok ld k -> index_ready (k_daemons (chips k)) = false ->
  exists k', rounds (perform ld junk60 junk1514 junk_cluster fuel disk IndexerRound) n k = Ok (tt, k') /\
    posted k' = Z.min 16 (posted k + Z.of_nat n).
Proof.
  revert k. induction n as [|n IH]; intros k Hk Hi.
  { exists k. split; [done|]. pose proof (center_count _ (ok_center _ (parts_desk _ (rest_parts _ (kept_rest _ _ Hk))))) as Hc.
    unfold posted. lia. }
  pose proof (kept_rest _ _ Hk) as Hr.
  destruct (indexer_pass_ok (H := disk (k_ahci (chips k))) fuel junk_cluster (k_fat (chips k)) (k_daemon (chips k))
    (proj2 (rest_unmounted _ Hr)) (daemon_rest _ Hr)) as (d & E & Hd & Hrd & Hn). specialize (Hn Hi).
  set (r1 := set_daemon d (had (k_daemons (chips k))) (chips k)).
  assert (Hr1 : rest_ok r1) by (by apply rest_ok_daemon). destruct (rest_sched _ Hr1) as [q Hq].
  destruct (yield_ok (yield_ret ld) (k_sched r1) q Hq) as (st & x & Ey & Hst & _). set (r2 := set_ksched st r1).
  assert (E2 : perform ld junk60 junk1514 junk_cluster fuel disk IndexerRound k = Ok (tt, Interrupts.set_chips r2 k)).
  { cbn [perform]. apply on_chips_eq. unfold indexer_turn. rewrite (bind_ok _ _ _ tt r1) by (unfold transform; by rewrite E).
    unfold yield_round, on_sched, assign. rewrite bind_gets. unfold id. by rewrite (bind_lift _ _ _ _ Ey). }
  destruct (IH (Interrupts.set_chips r2 k)) as (k' & E' & Hp).
  - apply kernel_ok_chips; [done|]. apply rest_ok_ksched; [done|by exists q].
  - cbn [chips Interrupts.set_chips]. change (index_ready (k_daemons r2)) with (disk_index_ready d). rewrite Hrd. exact Hi.
  - exists k'. split; [cbn [rounds]; by rewrite (bind_ok _ _ _ _ _ E2)|]. rewrite Hp.
    change (posted (Interrupts.set_chips r2 k)) with (Notifications.notification_count (Services.center d)). rewrite Hn.
    change (Notifications.notification_count (Services.center (k_daemon (chips k)))) with (posted k). lia.
Qed.

(** ** On the machine with nothing attached *)

(** The started kernel. *)
Lemma started_sample : exists k, kernel_start = Ok (tt, k) /\ started bare_linker k.
Proof.
  pose proof (kernel_main_ok bare_linker (replicate 60 0) (replicate 300 0) (replicate (Z.to_nat 1514) 0) [] (fun _ => 0) 10
    bare_disk (fun _ => None) static_kernel static_kernel_ok sample_stub_range (bare_disk_serves 10)
    (length_replicate 60 0) (length_replicate 300 0) zero_packet) as Hstart.
  unfold kernel_start. destruct (kernel_main _ _ _ _ _ _ _ _ _ _ _) as [[[] k]| |].
  - exists k. by split.
  - destruct (Hstart bare_no_controller).
  - destruct (Hstart (conj bare_no_card bare_no_controller)).
Qed.

Definition bare_perform : event -> io (int_t (rest_t bare bare bare)) unit :=
  perform bare_linker (replicate 60 0) (replicate (Z.to_nat 1514) 0) [] 10 bare_disk.

(** A tick, then the first turn of the shell. *)
Definition tick_frame : isr_frame_t := Frame 0 0 0 0 0 0 0 0 0 0 0 0 0 0 0 32 0.

(** A call to open the file whose name is at 0x400000, through the registers
    that the dispatcher gets; it leaves R11 without bit 9. *)
Definition open_call : event := SystemCall user_text (0x400010, 0) (Regs 0 SYS_OPEN_FILE 0x400000 0 0x400010 0x202 0 0).

Lemma kernel_steps_safe_witness : exists k k1 k2,
  kernel_start = Ok (tt, k) /\
  bare_perform (Interrupted tick_frame) k = Ok (tt, k1) /\
  bare_perform open_call k1 = Ok (tt, k2) /\ enabled k1 = true /\ enabled k2 = false /\
  bare_perform ShellRound k2 <> Undef.
Proof.
  destruct started_sample as (k & E & Hk). pose proof (kernel_steps_safe bare_linker (replicate 60 0) (replicate (Z.to_nat 1514) 0) [] 10
    bare_disk k) as Hsafe.
  destruct (Hsafe k [] (length_replicate 60 0) zero_packet Hk (run_nil _ _ _ _ _ _ _)) as (_ & He & Hevents).
  destruct (Hevents (Interrupted tick_frame)) as [_ Hret]; [right; split; [cbn; lia|exact He]|].
  destruct Hret as (k1 & E1 & Hrun1); [reflexivity|].
  destruct (Hsafe k1 _ (length_replicate 60 0) zero_packet Hk Hrun1) as (_ & He1 & Hevents1).
  destruct (Hevents1 open_call) as [_ Hret]; [split; reflexivity|]. destruct Hret as (k2 & E2 & Hrun2); [reflexivity|].
  destruct (Hsafe k2 _ (length_replicate 60 0) zero_packet Hk Hrun2) as (_ & He2 & Hevents2).
  exists k, k1, k2. split; [exact E|]. split; [exact E1|]. split; [exact E2|]. split; [exact He1|]. split; [exact He2|].
  apply (Hevents2 ShellRound). exact Logic.I.
Defined.

Lemma timer_tick_switches_witness : exists k c' k1 k2,
  kernel_start = Ok (tt, k) /\
  interrupt (fun _ => 99) 0x246 (fun _ => 55) (call_handler bare_linker) 0x120000 sample_block_at 32 0 (World sample_machine k)
    = Ok (tt, World c' k1) /\
  bare_perform MainRound k1 = Ok (tt, k2) /\
  Stubs.regs c' RAX = 11 /\ current_task (k_sched (chips k2)) = Some 1%nat.
Proof.
  destruct started_sample as (k & E & Hk). destruct (started_tasks _ _ Hk) as [Hq Ha].
  destruct (timer_tick_switches bare_linker (replicate 60 0) (replicate (Z.to_nat 1514) 0) [] 10 bare_disk (fun _ => 99) 0x246 (fun _ => 55)
    sample_block_at k (seq 2 200) 1%nat sample_machine (started_kernel_ok _ _ Hk)) as (c' & k1 & k2 & E1 & Hres & _ & E2 & Hcur & _).
  - exact Hq.
  - apply (f_equal sq_current) in Ha. exact Ha.
  - exact sample_linked.
  - change (2 ^ 64) with 18446744073709551616. simpl. lia.
  - reflexivity.
  - exists k, c', k1, k2. split; [exact E|]. split; [exact E1|]. split; [exact E2|]. split; [|exact Hcur].
    rewrite (resumed_regs _ _ Hres). reflexivity.
Defined.
