(* ===== verification/Frozen.v ===== *)
(** * The end of a task

    [task_entry_wrapper] kills a task that returns and then yields; but
    [kill_task] leaves no current task, and [task_yield] does nothing without
    one.  Here this is followed through every event of [Running]: once one
    task has returned, as every application does, none is ever run again. *)

From S2P Require Import Prelude Io Interrupts Stubs Pmm Vmm Heap Sched Pci Net Fat32 Ring Input InputSafety Vga Windows Desktop Services FileOps Launcher Gui Daemons Syscalls Console Boot Audio Ahci Kernel System Running.

(** ** Preservation

    [preserves P m]: if [m] ends in a state with [P], it ends in one. *)

Definition preserves {S A} (P : S -> Prop) (m : io S A) : Prop := forall s a s', m s = Ok (a, s') -> P s -> P s'.

Section preservation.
Context {S : Type} (P : S -> Prop).

Lemma pres_ret {A} (a : A) : preserves P (mret a).
Proof. by intros s b s' [= _ <-]. Qed.

Lemma pres_bind {A B} (m : io S A) (f : A -> io S B) : preserves P m -> (forall a, preserves P (f a)) -> preserves P (m ≫= f).
Proof.
  intros Hm Hf s b s'. unfold mbind, io_bind. destruct (m s) as [[a s1]| |] eqn:E; [|done|done]. intros E' Hs.
  apply (Hf _ _ _ _ E'). by apply (Hm _ _ _ E).
Qed.

Lemma pres_gets {A} (f : S -> A) : preserves P (gets f).
Proof. by intros s a s' [= _ <-]. Qed.

Lemma pres_lift {A} (o : option A) : preserves P (lift o).
Proof. intros s a s'. unfold lift. destruct o; [|done]. by intros [= _ <-]. Qed.

Lemma pres_modify f : (forall s, P s -> P (f s)) -> preserves P (modify f).
Proof. intros Hf s a s' [= _ <-]. apply Hf. Qed.

Lemma pres_if {A} (b : bool) (m1 m2 : io S A) : preserves P m1 -> preserves P m2 -> preserves P (if b then m1 else m2).
Proof. by destruct b. Qed.

(** A computation that starts by reading the state. *)
Lemma pres_with {A B} (f : S -> A) (m : A -> io S B) :
  (forall s b s', m (f s) s = Ok (b, s') -> P s -> P s') -> preserves P (a ← gets f; m a).
Proof. intros Hm s b s' E. rewrite bind_gets in E. exact (Hm _ _ _ E). Qed.

Lemma pres_each {A} (f : A -> io S unit) l : (forall a, preserves P (f a)) -> preserves P (each f l).
Proof. intros Hf. induction l as [|a l IH]; [apply pres_ret|]. by apply pres_bind. Qed.

Lemma pres_while fuel body : preserves P body -> preserves P (while_loop fuel body).
Proof.
  intros Hb. induction fuel as [|n IH]; [intros s a s' E; discriminate E|]. cbn [while_loop]. apply pres_bind; [done|]. intros []; [done|apply pres_ret].
Qed.
End preservation.

(** ** The scheduler without a current task *)

Record stuck (st : sched_t) (q : list nat) : Prop := {
  stuck_wf : sched_wf st q;
  stuck_waiting : q <> [];
  stuck_idle : current_task st = None
}.

Definition frozen (st : sched_t) : Prop := exists q, stuck st q.

Lemma frozen_yield ret st : frozen st -> task_yield ret st = Some (st, None).
Proof. intros (q & [_ _ Hc]). unfold task_yield. by rewrite Hc. Qed.

Lemma frozen_create sa wa nm ent prio st st' r :
  create_task sa wa nm ent prio st = Some (st', r) -> frozen st -> frozen st'.
Proof.
  intros E (q & [Hq Hne Hc]). destruct (create_ok sa wa nm ent prio st q Hq) as (st1 & r1 & q1 & E1 & Hq1 & Ha & _).
  rewrite E in E1. injection E1 as <- <-. exists q1. unfold spec_create in Ha. cbn [sq_count sched_abs sq_queue sq_current] in Ha.
  destruct (256 <=? task_count st).
  - injection Ha as _ -> Hc'. split; [done|done|congruence].
  - destruct q as [|i q]; [done|]. injection Ha as _ -> Hc'. split; [done|done|congruence].
Qed.

Lemma frozen_launch sa wa nm l st r l' st' :
  app_launch sa wa nm l st = Some (r, l', st') -> frozen st -> frozen st'.
Proof.
  destruct nm as [nm|]; [|by intros [= _ _ <-]]. cbn [app_launch]. generalize 0. generalize (Z.to_nat (app_count l)). intros n.
  revert st. induction n as [|n IH]; intros st i; [by intros [= _ _ <-]|]. cbn [launch_from].
  destruct (aget (app_registry l) i) as [a|]; [|done]. cbn [mbind option_bind]. destruct (strings_equal _ _); [|apply IH].
  destruct (running a); [by intros [= _ _ <-]|].
  destruct (create_task _ _ _ _ _ st) as [[st1 [slot|]]|] eqn:E; cbn [mbind option_bind]; [| |done].
  - destruct (task_table st1 !! slot) as [t|]; [|done]. cbn [mbind option_bind]. destruct (aset _ _ _); [|done].
    intros [= _ _ <-]. by apply (frozen_create _ _ _ _ _ _ _ _ E).
  - intros E' Hst. apply (IH _ _ E'). by apply (frozen_create _ _ _ _ _ _ _ _ E).
Qed.

Lemma frozen_dispatcher text s n a1 a2 a3 v s' :
  syscall_dispatcher text n a1 a2 a3 s = Some (v, s') -> frozen (Syscalls.sched s) -> Syscalls.sched s' = Syscalls.sched s.
Proof.
  intros E (q & [Hq _ Hc]). destruct (decide (n = SYS_EXIT)) as [->|Hne].
  - destruct (dispatcher_exit text s q Hq a1 a2 a3) as (v1 & s1 & E1 & _ & Hk). rewrite E in E1. injection E1 as <- <-.
    destruct (_ || _); [by destruct Hk|]. rewrite Hc in Hk. by destruct Hk as [_ ->].
  - pose proof (dispatcher_plain text s q Hq n a1 a2 a3 Hne) as H. destruct (call_defined _ _ _ _ _); [|congruence].
    destruct H as (v1 & s1 & E1 & _ & Hk & _). rewrite E in E1. by injection E1 as <- <-.
Qed.

(** ** The desktop and the shell *)

Definition desk_frozen (d : desktop_t) : Prop := frozen (Gui.sched d).
Definition session_frozen {I N} (s : session_t I N) : Prop := desk_frozen (desk s).

Lemma pres_no_sched {A} (m : io desktop_t A) : no_sched m -> preserves desk_frozen m.
Proof. intros Hm d a d' E. unfold desk_frozen. by rewrite (Hm _ _ _ E). Qed.

Lemma pres_launch sa wa nm : preserves desk_frozen (launch sa wa nm).
Proof.
  unfold launch. apply pres_with. intros d a d'. unfold id.
  destruct (app_launch _ _ _ _ _) as [[[r l] st]|] eqn:E; [|done]. rewrite (bind_lift _ _ _ _ eq_refl).
  intros [= _ <-]. by apply (frozen_launch _ _ _ _ _ _ _ _ E).
Qed.

Lemma pres_click sa wa x y l r m : preserves desk_frozen (gui_handle_mouse_click sa wa x y l r m).
Proof.
  assert (Hn : preserves desk_frozen toggle_notifications) by (apply pres_no_sched; by apply no_sched_modify).
  assert (Hc : preserves desk_frozen toggle_control) by (apply pres_no_sched; by apply no_sched_modify).
  unfold gui_handle_mouse_click. apply pres_bind; [|intros _; apply pres_bind; [|intros _]].
  - apply pres_if; [|apply pres_ret]. apply pres_bind; [apply pres_gets|intros g]. cbv zeta.
    repeat (apply pres_if; [done || apply pres_launch|]). apply pres_ret.
  - apply pres_if; [|apply pres_ret]. apply pres_bind; [apply pres_gets|intros g]. cbv zeta.
    repeat (apply pres_if; [done || apply pres_launch|]). apply pres_no_sched, no_sched_paint.
  - by apply pres_if; [|apply pres_ret].
Qed.

Section shell.
Context {I N : Type} `{!InputDevice I} `{!Nic N}.
Local Notation session := (session_t I N).

Lemma pres_input {A} (m : io (input_t I) A) : preserves session_frozen (on_input (N := N) m).
Proof using Type. intros s a s'. unfold on_input, within. destruct (m (input s)) as [[b i]| |]; [|done|done]. by intros [= _ <-]. Qed.

Lemma pres_net {A} (m : io (net_t N) A) : preserves session_frozen (on_net (I := I) m).
Proof using Type. intros s a s'. unfold on_net, within. destruct (m (net s)) as [[b n]| |]; [|done|done]. by intros [= _ <-]. Qed.

Lemma pres_desk {A} (m : io desktop_t A) : preserves desk_frozen m -> preserves session_frozen (on_desk (I := I) (N := N) m).
Proof using Type.
  intros Hm s a s'. unfold on_desk, within. destruct (m (desk s)) as [[b d]| |] eqn:E; [|done|done]. intros [= _ <-]. apply (Hm _ _ _ E).
Qed.

Lemma pres_within {A} (m : io text_t A) : preserves desk_frozen (within_screen m).
Proof using Type. intros d a d'. unfold within_screen. destruct (m (screen d)) as [[b t]| |]; [|done|done]. by intros [= _ <-]. Qed.

Lemma pres_screen {A} (m : io text_t A) : preserves session_frozen (on_screen_of (I := I) (N := N) m).
Proof using Type. apply pres_desk, pres_within. Qed.

Lemma pres_keyboard : preserves session_frozen (shell_keyboard (I := I) (N := N)).
Proof using Type.
  apply pres_bind; [apply pres_input|]. intros []; [|apply pres_ret]. apply pres_bind; [apply pres_input|intros c].
  apply pres_bind; [apply pres_gets|intros s]. apply pres_bind; [apply pres_screen|intros s']. by apply pres_modify.
Qed.

Lemma pres_mouse sa wa : preserves session_frozen (shell_mouse (I := I) (N := N) sa wa).
Proof using Type.
  apply pres_bind; [apply pres_input|]. intros []; [|apply pres_ret]. apply pres_bind; [apply pres_gets|intros st].
  apply pres_bind; [apply pres_lift|intros [e st']]. apply pres_bind; [apply pres_input|intros _]. cbv zeta.
  apply pres_bind; [apply pres_screen|intros _]. apply pres_if; [|apply pres_ret]. apply pres_desk, pres_click.
Qed.

Lemma pres_round tx j60 j1514 fuel sa wa ret : preserves session_frozen (shell_round (I := I) (N := N) tx j60 j1514 fuel sa wa ret).
Proof using Type.
  unfold shell_round. apply pres_bind; [apply pres_keyboard|intros _]. apply pres_bind; [apply pres_mouse|intros _].
  apply pres_bind; [apply pres_net|intros _]. apply pres_with. intros s a s' E Hs. revert E.
  rewrite (bind_lift _ _ _ _ (frozen_yield ret _ Hs)). unfold mbind, io_bind, on_desk, within, modify. by intros [= _ <-].
Qed.
End shell.

(** ** The events *)

Section events.
Context {H I N : Type} `{!PortIO H} `{!InputDevice I} `{!Nic N}.
Context (ld : linker_t) (junk60 junk1514 junk_cluster : list Z) (fuel : nat) (disk : ahci_t H -> BlockDevice).
Local Notation rest := (rest_t H I N).
Implicit Types k : int_t rest.

Definition rest_frozen (r : rest) : Prop := frozen (k_sched r).
Definition kernel_frozen k : Prop := rest_frozen (chips k).

Lemma pres_chips {A} (m : io rest A) : preserves rest_frozen m -> preserves kernel_frozen (on_chips m).
Proof using Type.
  intros Hm k a k'. unfold on_chips. destruct (m (chips k)) as [[b r]| |] eqn:E; [|done|done]. intros [= _ <-]. apply (Hm _ _ _ E).
Qed.

Lemma pres_assign {A} (f : rest -> option A) put :
  (forall r a, f r = Some a -> rest_frozen r -> rest_frozen (put a r)) -> preserves rest_frozen (assign f put).
Proof using Type.
  intros Hf. unfold assign. apply pres_with. intros r b r'. unfold id. destruct (f r) as [a|] eqn:E; [|done].
  rewrite (bind_lift _ _ _ _ eq_refl). intros [= _ <-]. by apply Hf.
Qed.

Lemma pres_sched f :
  (forall st st' x, f st = Some (st', x) -> frozen st -> frozen st') -> preserves rest_frozen (on_sched f).
Proof using Type. intros Hf. apply pres_assign. intros r [st x] E. apply (Hf _ _ _ E). Qed.

Lemma pres_yield ret : preserves rest_frozen (on_sched (task_yield ret)).
Proof using Type. apply pres_sched. intros st st' x E Hst. rewrite (frozen_yield ret st Hst) in E. by injection E as <- _. Qed.

Lemma pres_hw {A} (m : io rest A) : hw_only m -> preserves rest_frozen m.
Proof using Type. intros Hm r a r' E. by destruct (Hm _ _ _ E) as [x ->]. Qed.

Lemma pres_out w p v : preserves rest_frozen (out_width w p v).
Proof using Type. apply pres_hw, hw_out. Qed.

Lemma pres_in w p : preserves rest_frozen (in_width w p).
Proof using Type.
  intros r a r'. unfold in_width. cbn [port_in rest_ports]. destruct (port_in w (u16 p) (k_chips r)). by intros [= _ <-].
Qed.

Lemma pres_sound {A} (m : io (audio_t H) A) : preserves rest_frozen (on_sound m).
Proof using Type. intros r a r'. unfold on_sound, part. destruct (m (k_audio r)) as [[b x]| |]; [|done|done]. by intros [= _ <-]. Qed.

Lemma pres_spooler : preserves rest_frozen (spooler_turn ld fuel).
Proof using Type.
  unfold spooler_turn. apply pres_bind; [apply pres_gets|intros s]. apply pres_bind; [apply pres_lift|intros s'].
  apply pres_bind; [by apply pres_modify|intros _]. apply pres_bind; [|intros _; apply pres_bind; [|intros _; apply pres_yield]].
  - apply pres_each. intros [f ms]. apply pres_bind; [apply pres_sound|intros; apply pres_ret].
  - apply pres_each. intros c. apply pres_bind; [|intros _; apply pres_out]. apply pres_while.
    do 2 (apply pres_bind; [|intros; apply pres_ret]). apply pres_in.
Qed.

Lemma pres_shell : preserves rest_frozen (shell_turn ld junk60 junk1514 fuel).
Proof using Type.
  unfold shell_turn. apply pres_bind; [apply pres_gets|intros [s|]].
  - intros r a r'. unfold transform. destruct (shell_round _ _ _ _ _ _ _ _) as [[x t]| |] eqn:E; [|done|done].
    intros [= _ <-]. apply (pres_round _ _ _ _ _ _ _ _ _ _ E).
  - apply pres_bind; [|intros s; by apply pres_modify]. intros r a r'. unfold on_desktop, part.
    destruct (within_screen shell_start (k_desk r)) as [[s d]| |] eqn:E; [|done|done]. intros [= _ <-]. apply (pres_within _ _ _ _ E).
Qed.

Lemma pres_services :
  preserves rest_frozen (indexer_turn ld junk_cluster fuel disk) /\ preserves rest_frozen (monitor_turn ld) /\
  preserves rest_frozen (clipboard_turn ld) /\ preserves rest_frozen (service_turn ld).
Proof using Type.
  split_and!; (apply pres_bind; [|intros _; apply pres_yield]).
  - intros r a r'. unfold transform. destruct (disk_indexer_service _ _ _ _); [|done|done]. by intros [= _ <-].
  - by apply pres_assign; intros r [[d u] h].
  - by apply pres_assign.
  - by apply pres_assign.
Qed.

Lemma pres_interrupt frame : preserves kernel_frozen (isr_handler (call_handler ld) frame).
Proof using Type.
  assert (Hcall : forall f, preserves kernel_frozen (call_handler ld f)).
  { intros f. unfold call_handler. apply pres_if; [|by intros k a k']. apply pres_chips, pres_modify.
    intros r (q & [Hq ? ?]). exists q. split; [by destruct Hq|done|done]. }
  unfold isr_handler. cbv zeta. apply pres_bind; [apply pres_gets|intros h]. apply pres_bind; [apply pres_lift|intros o].
  assert (Hrun : preserves kernel_frozen (match o with Some f => call_handler ld f | None => skip end))
    by (destruct o; [apply Hcall|apply pres_ret]).
  apply pres_if; [|done]. apply pres_bind; [done|intros _]. apply pres_chips. unfold pic_send_eoi.
  apply pres_bind; [apply pres_if; [apply pres_out|apply pres_ret]|intros _; apply pres_out].
Qed.

Lemma pres_event e : preserves kernel_frozen (perform ld junk60 junk1514 junk_cluster fuel disk e).
Proof using Type.
  destruct pres_services as (Hi & Hm & Hc & Hs).
  destruct e as [frame| | | | | | | | |text after args| |c]; cbn [perform]; [apply pres_interrupt|..];
    match goal with
    | |- preserves _ (on_chips _) => apply pres_chips
    | |- _ => apply pres_bind; [apply pres_chips|intros out; by apply pres_modify]
    end.
  - apply pres_sched. intros st st' x. unfold kernel_loop. destruct (scheduler_pending st); [|by intros [= <- _]].
    intros E Hst. unfold schedule in E. rewrite (frozen_yield _ st Hst) in E. by injection E as <- _.
  - apply pres_yield.
  - apply pres_shell.
  - exact Hi.
  - exact Hm.
  - exact Hc.
  - apply pres_spooler.
  - exact Hs.
  - apply pres_with. intros r out r' E Hr. revert E. unfold id, syscall_entry.
    destruct (syscall_dispatcher _ _ _ _ _ (k_sys r)) as [[v s']|] eqn:E'; [|done]. cbn [mbind option_bind].
    rewrite (bind_lift _ _ _ _ eq_refl), bind_modify. unfold lift. destruct (_ =? _); [|done]. intros [= _ <-].
    pose proof (frozen_dispatcher _ _ _ _ _ _ _ _ E' Hr) as Heq. cbv zeta. unfold rest_frozen. destruct Hr as (q & [Hq ? ?]). exists q.
    change (k_sched (set_ksched ?st ?r0)) with st. change (k_sched (set_sys s' r)) with (Syscalls.sched s'). rewrite Heq.
    split; [by destruct Hq; split|done|done].
  - apply pres_sched. intros st st' x E Hst. destruct Hst as (q & Hq). unfold task_exit in E. rewrite (stuck_idle _ _ Hq) in E.
    injection E as <- _. by exists q.
  - apply pres_modify. intros r (q & [Hq ? ?]). exists q. split; [by destruct Hq|done|done].
Qed.

Lemma frozen_reachable k0 k :
  kernel_frozen k0 -> rtc (kernel_step ld junk60 junk1514 junk_cluster fuel disk) k0 k -> kernel_frozen k.
Proof using Type.
  intros H0 Hrun. induction Hrun as [k|k1 k2 k3 [e k k' _ E] _ IH]; [done|]. apply IH. apply (pres_event e _ _ _ E H0).
Qed.
End events.

(** C14: the end of a task. In a running kernel with at least two tasks, once
    the current task returns from its function (as the three applications of
    the launcher do at once), no task is current, and in every state that any
    further events lead to there is none, although others wait in the queue:
    no yield and no tick of the timer ever switches to another task again. *)
Theorem task_return_freezes {H I N} `{!PortIO H} `{!InputDevice I} `{!Nic N} ld junk60 junk1514 junk_cluster fuel
    (disk : ahci_t H -> BlockDevice) (k : int_t (rest_t H I N)) q i :
  kernel_ok ld k -> sched_wf (k_sched (chips k)) q -> current_task (k_sched (chips k)) = Some i -> (2 <= length q)%nat ->
  exists k1, perform ld junk60 junk1514 junk_cluster fuel disk TaskReturns k = Ok (tt, k1) /\
    forall k2, rtc (kernel_step ld junk60 junk1514 junk_cluster fuel disk) k1 k2 ->
      current_task (k_sched (chips k2)) = None /\ (exists q2, sched_wf (k_sched (chips k2)) q2 /\ q2 <> []) /\
      forall ret, task_yield ret (k_sched (chips k2)) = Some (k_sched (chips k2), None).
Proof.
  intros Hk Hq Hc Hlen. destruct (exit_ok (yield_ret ld) _ q i Hq Hc) as (st & q1 & q2 & -> & E & Hst & Hcur).
  exists (Interrupts.set_chips (set_ksched st (chips k)) k). split.
  { cbn [perform]. apply on_chips_eq. unfold on_sched, assign. rewrite bind_gets. unfold id. by rewrite (bind_lift _ _ _ _ E). }
  intros k2 Hrun. assert (Hf : kernel_frozen k2).
  { apply (frozen_reachable ld junk60 junk1514 junk_cluster fuel disk (Interrupts.set_chips (set_ksched st (chips k)) k)); [|done].
    exists (q1 ++ q2). split; [exact Hst| |exact Hcur]. intros Hnil. apply app_eq_nil in Hnil as [-> ->]. simpl in Hlen. lia. }
  pose proof Hf as (q3 & [Hq3 Hne Hc3]). split; [exact Hc3|]. split; [by exists q3|]. intros ret. by apply frozen_yield.
Qed.

(** The started kernel, when its idle task returns; then a tick and a round
    of the main loop. *)
Lemma task_return_freezes_witness : exists k k1,
  kernel_start = Ok (tt, k) /\ bare_perform TaskReturns k = Ok (tt, k1) /\ current_task (k_sched (chips k1)) = None /\
  forall k2, kernel_step bare_linker (replicate 60 0) (replicate (Z.to_nat 1514) 0) [] 10 bare_disk k1 k2 ->
    current_task (k_sched (chips k2)) = None.
Proof.
  destruct started_sample as (k & E & Hk). destruct (started_tasks _ _ Hk) as [Hq Ha].
  destruct (task_return_freezes bare_linker (replicate 60 0) (replicate (Z.to_nat 1514) 0) [] 10 bare_disk k (seq 0 202) 0%nat
    (started_kernel_ok _ _ Hk) Hq) as (k1 & E1 & Hrun).
  - apply (f_equal sq_current) in Ha. exact Ha.
  - rewrite length_seq. lia.
  - exists k, k1. split; [exact E|]. split; [exact E1|]. split.
    + apply (Hrun k1 (rtc_refl _ _)).
    + intros k2 Hs. apply (Hrun k2 (rtc_once _ _ Hs)).
Defined.
